(* ===== verification/_CoqProject ===== *)
-Q . S2P
Prelude.v
Heap.v
SeqUapi.v
Struct.v
GValue.v
Kernel.v
SeqStructs.v
Sysfs.v
SysfsProps.v
CString.v
UtilsMem.v
UtilsMemProps.v
UtilsListProps.v
SeqEvent.v
SeqEventFacts.v
SeqEventSpec.v
SeqEventOps.v
SeqEventSamples.v
SeqEventProps.v
SeqEventRefine.v
SeqEventCntr.v
SeqEventCntrFacts.v
SeqEventCntrProps.v
SeqQuery.v
SeqQueryFacts.v
SampleSystem.v
SeqQueryProps.v
SeqUserClient.v
SeqUserClientFacts.v
SeqUserClientProps.v
SeqUserClientLife.v
SeqDelivery.v
Object.v
Boxes.v
SeqEventData.v
SeqEventDataProps.v
CtlStructs.v
CtlElemId.v
CtlObjects.v
CtlLabels.v
CtlElemValue.v
CtlElemValueProps.v
CtlQuery.v
CtlCard.v
CtlCardFacts.v
SampleCard.v
CtlAddElems.v
CtlCardProps.v
CtlCardLife.v
CtlCardInfo.v
CtlValueFlow.v
TimerQuery.v
SeqObjects.v
TimerObjects.v
TimerUserInstance.v
TimerEvent.v
BoxedProps.v
TimerFacts.v
SampleTimer.v
TimerProps.v
TimerClock.v
RawmidiQuery.v
HwdepQuery.v
DeviceQueries.v
RawmidiObjects.v
RawmidiStreamPair.v
Objects.v
ObjectFacts.v
ObjectProps.v
EventFilters.v
RawmidiFacts.v
SampleRawmidi.v
RawmidiProps.v
RawmidiThru.v
ObjectLife.v
OpenLife.v
Classes.v
Enums.v
