(* ===== verification/Prelude.v ===== *)
(** * Verification of alsa-gobject

    alsa-gobject is a set of C libraries over GObject for the character devices
    of the Linux sound subsystem.  This development models the code under
    [src/src/]: utilities ([utils/]), the sequencer ([seq/]), controls ([ctl/]),
    timers ([timer/]), rawmidi ([rawmidi/]) and hwdep ([hwdep/]).

    ** How the program is modelled

    A function of the libraries is a function of the monad [M S] of this file:
    state [S] in, an outcome and state out.  The outcomes are a result, FALSE
    with what was written to [GError], a guard of [g_return_if_fail], undefined
    behaviour of C, and the end of the process for want of memory.  Undefined
    behaviour is a value, so "no undefined behaviour" is a consequence of each
    theorem that gives a result.

    - Memory ([Heap]): blocks of bytes at addresses; pointers are a base and an
      offset; every load, store and release is checked.  The allocator is a
      parameter with the laws of the C library.
    - Structures ([SeqUapi], [Struct], [SeqStructs], [CtlStructs]): lists of
      bytes, with fields at the offsets of the interface of the kernel on
      64-bit little-endian machines; integers wrap at their width.
    - The system ([Kernel], [Sysfs]): the states of kernel and udev and their
      answers are parameters; system calls read and write the memory handed to
      them.  The sample systems ([SampleSystem], [SampleCard], [SampleTimer],
      [SampleRawmidi]) are instances, on which the witnesses run.
    - Objects ([Object], [Boxes]): [g_object_new] and reference counts for
      objects with a private structure, blocks of boxed structures.
    - Properties ([GValue]): values, their accessors with the guards of GLib on
      types, and specifications of properties.

    ** Components

    - [utils/string.c], [sysfs.c], [ioctl.c], [utils.h]: twice.  [Sysfs] has
      them over values, which the other components use, with [SysfsProps] (the
      two passes over the enumeration of devices equal a filter over the list;
      printed numbers are read back).  [CString] and [UtilsMem] have them with
      the storage they use, names that are printed to blocks and arrays that
      are filled; [UtilsMemProps] and [UtilsListProps] show that these refine
      the former, what is released, and what is left behind on each failure.
    - [seq/event.c]: [SeqEvent] (the boxed event with the blob it owns), with
      [SeqEventFacts], [SeqEventSpec] (all calls as one type, and the abstract
      event on which they are steps), [SeqEventOps] (their documented use; each
      call simulates its step), [SeqEventSamples], [SeqEventProps]
      (well-formedness is an invariant of every call, round trips of data, what
      is freed, lengths, refusals) and [SeqEventRefine] (the outcomes of any
      run of calls, and what the getters show after it, are those of the
      abstract event).
    - [seq/event-cntr.c]: [SeqEventCntr], [SeqEventCntrFacts],
      [SeqEventCntrProps] (serialization and deserialization of lists of events
      are inverse, the iterator stays within aligned buffers).
    - [seq/event-data-*.c], [seq/addr.c]: [SeqEventData], [SeqEventDataProps].
    - [seq/query.c]: [SeqQuery], [SeqQueryFacts], [SeqQueryProps] (complete
      lists, termination, one request per object).
    - [seq/user-client.c]: [SeqUserClient], [SeqUserClientFacts],
      [SeqUserClientProps] (what is sent and what is reported, scheduling,
      dispatching) and [SeqUserClientLife] (the client and its sources as a
      transition system, what is open and allocated in reachable states).
    - Clients together: [SeqDelivery] (of the direct events one client
      schedules, as many as the call reports are taken, and another client gets
      those that are addressed to it and pass its filter, in order).
    - [seq/client-info.c] and the other objects of information: [SeqObjects];
      of controls [CtlObjects], of timers [TimerObjects], of rawmidi and hwdep
      [RawmidiObjects].  [Objects] gives the 27 classes one interface,
      [ObjectFacts] and [ObjectProps] prove that each object refines a table of
      independent properties and that reading fits the types; [EventFilters]
      that the filters of events are sets; [CtlLabels] has the labels of an
      enumeration as a vector of strings in memory, which refines the labels as
      values and is given back.
    - [ctl/elem-id.c]: [CtlElemId]; [ctl/query.c]: [CtlQuery]; [ctl/card.c]:
      [CtlCard], [CtlCardFacts], [CtlCardProps], [CtlAddElems]
      (enumeration, requests, TLV data, addition of elements, dispatching),
      [CtlCardLife] (a card and its sources as a transition system: subscribed
      while it has sources), [CtlCardInfo] (the object of information for each
      type; labels that one process adds are those another one gets).
    - [ctl/elem-value.c]: [CtlElemValue], [CtlElemValueProps] (the values of
      each kind are read back); [CtlValueFlow] (what one process writes to an
      element is what another one reads).
    - [timer/device-id.c], [query.c]: [TimerQuery]; [tick-time-event.c] and
      [real-time-event.c]: [TimerEvent]; [user-instance.c]: [TimerUserInstance];
      theorems over [TimerFacts] in [TimerProps] (waiting events are eventually
      delivered in order, requests, complete list of devices) and in
      [TimerClock] (the parameter of the module as text, which tells the clock).
    - [rawmidi/query.c]: [RawmidiQuery]; [stream-pair.c]: [RawmidiStreamPair];
      theorems over [RawmidiFacts] in [RawmidiProps]; [RawmidiThru] is a
      program that forwards what one pair receives to another one, and shows
      that it gets all of it, and which part of it a port that takes less than
      it is given sends.
    - [hwdep/query.c], [device-common.c]: [HwdepQuery], the interface of
      devices as a type class.
    - The boxed types that are plain structures: [BoxedProps] (copies own their
      bytes, identifiers show what they were made of, what equality tells).
    - The queries for names and numbers of devices of all five libraries:
      [DeviceQueries] (each one finds the device it names; the numbers of the
      list of cards can be looked up).
    - [ObjectLife]: user instances of timers and pairs of rawmidi streams
      promise the same of references, sources and their descriptor, a type
      class from which the theorem on reachable states follows.
    - [OpenLife]: clients, cards and instances take one descriptor or none when
      they are opened, and give it back.
    - [Classes]: what [class_init] of the objects with a descriptor installs
      fits the getters, the names and initial values, the marshallers of signals
      and the default handlers.
    - The headers [alsa...-enum-types.h]: [Enums], one inductive type for each
      enumeration, with their numbers; the constants the components use are
      among them, and the fields of the structures keep them.

    The components meet in memory: the user client serializes with the
    operations of containers, containers copy with those of events, the card
    hands out boxed identifiers, queries fill the structures whose properties
    the objects show.  Programs meet in the kernel: the type classes
    [Sequencer], [ElemStore] and [LabelledElems] say what it keeps between the
    request of one process and that of another, and the theorems of
    [SeqDelivery], [CtlValueFlow] and [CtlCardInfo] go from a call of the one to
    a call of the other.

    ** Bounds and fuel

    Loops over the answers of the kernel take the number of requests they may
    send as fuel ([query_next_clients], [query_next_ports], [read_elem_ids],
    [next_devices], [deserialize_loop], [dispatch_events]); running out counts
    as undefined behaviour.  The termination theorems give a fuel that is
    enough: the number of clients, elements or devices and one, the number of
    bytes of a buffer.  Functions that give their loops a bound of their own
    pass the length of what they read.

    ** Assumptions

    Hypotheses are named laws of parameters: the allocator gives fresh, aligned
    blocks of the size asked for; the kernel answers requests as documented
    where a theorem needs it; [close] leaves errors alone.  Guards on types of
    instances and on NULL are discharged by the types of the model.  A guarded
    structure that is loaded as a whole is read at once.  Arrays handed in by
    the caller have fewer than 2^31 elements, as the counters of the loops are
    of type [int].  Handlers of signals and what polling finds are parameters;
    GLib hands boxed copies to handlers, and its functions on memory, vectors of
    strings and values do what its reference says.  [qsort] is a parameter that may
    be undefined ([qsort_u32]); [qsort_documented] says what it does for a
    consistent comparison, which [compare_u32] is on equal numbers only, so that
    the lists of numbers are as undefined as [qsort] is on them.  The calls on
    events are within [op_args], which names what their callers respect.

    ** Not modelled

    GObject itself (registration of types, validation and clamping of values by
    [g_object_set], notification), main loops and the invocation of sources
    by them, the formatting of the messages of errors (an error keeps the label
    of the call and the number), the addresses of the strings that objects keep
    and of those queries return (they are values there; [UtilsMem] has those of
    the helpers, [CtlLabels] the labels of enumerations), the
    [..._refer_private] functions (an object is its structure), samples, tests,
    documentation and build files. *)

From Stdlib Require Export ZArith Lia.
From Stdlib Require Import Btauto.
From stdpp Require Export base gmap list numbers strings.
From coqutil Require Export Byte Word.LittleEndianList.

#[export] Set Default Goal Selector "!".
Open Scope Z_scope.

(** The lemmas that close the side conditions of the components' proofs. *)
Create HintDb alsa.

(** ** GError *)

(** The error domains (GQuark) the libraries report errors in. *)
Inductive error_domain :=
  | ALSASEQ_EVENT_ERROR
  | ALSASEQ_USER_CLIENT_ERROR
  | ALSACTL_CARD_ERROR
  | ALSARAWMIDI_STREAM_PAIR_ERROR
  | ALSATIMER_USER_INSTANCE_ERROR
  | G_FILE_ERROR.

#[export] Instance error_domain_eq_dec : EqDecision error_domain.
Proof. solve_decision. Defined.

(** The message of an error keeps the parts the format string is given: the
    label of the failed call and the errno it reports, [None] when the message
    is a literal. *)
Record gerror := GError {
  err_domain : error_domain;
  err_code : Z;
  err_what : string;
  err_errno : option Z;
}.

#[export] Instance gerror_eq_dec : EqDecision gerror.
Proof. solve_decision. Defined.

(** ** Outcomes of a call

    - [Ret a]: the call finishes ([TRUE] for a [gboolean] function) with the
      out parameters [a];
    - [Fail e]: it returns [FALSE]; [e] is what it wrote to [error], [None] when
      it returned without setting it;
    - [Critical]: a [g_return_if_fail] or [g_return_val_if_fail] guard fired;
    - [UB]: the C program has undefined behaviour (access out of an allocated
      block, free of a pointer that is not one);
    - [Oom]: [g_malloc] found no memory and terminated the process. *)
Inductive outcome (A : Type) :=
  | Ret (a : A)
  | Fail (e : option gerror)
  | Critical
  | UB
  | Oom.
Arguments Ret {A} a.
Arguments Fail {A} e.
Arguments Critical {A}.
Arguments UB {A}.
Arguments Oom {A}.

#[export] Instance outcome_eq_dec A `{EqDecision A} : EqDecision (outcome A).
Proof. solve_decision. Defined.

(** ** The monad of stateful, fallible calls *)

Definition M (S A : Type) : Type := S → outcome A * S.

#[export] Instance M_ret S : MRet (M S) := λ A a s, (Ret a, s).

#[export] Instance M_bind S : MBind (M S) := λ A B f m s,
  match m s with
  | (Ret a, s') => f a s'
  | (Fail e, s') => (Fail e, s')
  | (Critical, s') => (Critical, s')
  | (UB, s') => (UB, s')
  | (Oom, s') => (Oom, s')
  end.

Definition fail {S A} (e : option gerror) : M S A := λ s, (Fail e, s).
Definition critical {S A} : M S A := λ s, (Critical, s).
Definition ub {S A} : M S A := λ s, (UB, s).
Definition oom {S A} : M S A := λ s, (Oom, s).
Definition get {S} : M S S := λ s, (Ret s, s).
Definition put {S} (s' : S) : M S unit := λ _, (Ret tt, s').
Definition gets {S A} (f : S → A) : M S A := λ s, (Ret (f s), s).
Definition modify {S} (f : S → S) : M S unit := λ s, (Ret tt, f s).

(** [g_return_val_if_fail (c, FALSE)] *)
Definition g_return_if_fail {S} (c : bool) : M S unit :=
  if c then mret tt else critical.

(** The call of a [void] function: its own [g_return_if_fail] returns to the
    caller, which goes on. *)
Definition void_call {S} (m : M S unit) : M S unit := λ s,
  match m s with
  | (Critical, s') => (Ret tt, s')
  | r => r
  end.

(** A caller that goes on after a call returned FALSE. *)
Definition catch {S A} (m : M S A) : M S (A + option gerror) := λ s,
  match m s with
  | (Ret a, s') => (Ret (inl a), s')
  | (Fail e, s') => (Ret (inr e), s')
  | (Critical, s') => (Critical, s')
  | (UB, s') => (UB, s')
  | (Oom, s') => (Oom, s')
  end.

(** A computation on a part of the state. *)
Definition zoom {S T A} (g : T → S) (p : S → T → T) (m : M S A) : M T A := λ t,
  let '(o, s) := m (g t) in (o, p s t).

Lemma bind_Ret {S A B} (m : M S A) (f : A → M S B) s a s' :
  m s = (Ret a, s') → (m ≫= f) s = f a s'.
Proof. unfold mbind, M_bind. by intros ->. Qed.

Lemma bind_Fail {S A B} (m : M S A) (f : A → M S B) s e s' :
  m s = (Fail e, s') → (m ≫= f) s = (Fail e, s').
Proof. unfold mbind, M_bind. by intros ->. Qed.

Lemma bind_Critical {S A B} (m : M S A) (f : A → M S B) s s' :
  m s = (Critical, s') → (m ≫= f) s = (Critical, s').
Proof. unfold mbind, M_bind. by intros ->. Qed.

Lemma bind_UB {S A B} (m : M S A) (f : A → M S B) s s' :
  m s = (UB, s') → (m ≫= f) s = (UB, s').
Proof. unfold mbind, M_bind. by intros ->. Qed.

Lemma mret_run {S A} (a : A) (s : S) : (mret a : M S A) s = (Ret a, s).
Proof. done. Qed.

Lemma bind_assoc {S A B C} (m : M S A) (f : A → M S B) (g : B → M S C) s :
  ((m ≫= f) ≫= g) s = (m ≫= (λ a, f a ≫= g)) s.
Proof. unfold mbind, M_bind. by destruct (m s) as [[] ?]. Qed.

(** The main loop dispatches a source [n] times, as long as the source stays. *)
Fixpoint main_loop {S} (dispatch : M S bool) (n : nat) : M S bool :=
  match n with
  | O => mret true
  | Datatypes.S n => keep ← dispatch; if (keep : bool) then main_loop dispatch n else mret false
  end.

Lemma main_loop_stays {S} (dispatch : M S bool) n s s' :
  dispatch s = (Ret true, s') → main_loop dispatch (Datatypes.S n) s = main_loop dispatch n s'.
Proof. intros E. cbn [main_loop]. by rewrite (bind_Ret _ _ _ _ _ E). Qed.

(** Executions are computed one call at a time: [mstep H] rewrites with the
    result [H] of the first call of a sequence. *)
Tactic Notation "mstep" uconstr(H) := erewrite bind_Ret by (eapply H; eauto).

(** ** Machine integers *)

Definition u8 (z : Z) : Z := z `mod` 2 ^ 8.
Definition u16 (z : Z) : Z := z `mod` 2 ^ 16.
Definition u32 (z : Z) : Z := z `mod` 2 ^ 32.
Definition u64 (z : Z) : Z := z `mod` 2 ^ 64.
Definition sgn_wrap (w z : Z) : Z := (z + 2 ^ (w - 1)) `mod` 2 ^ w - 2 ^ (w - 1).
Definition i8 (z : Z) : Z := sgn_wrap 8 z.
Definition i32 (z : Z) : Z := sgn_wrap 32 z.
Definition i64 (z : Z) : Z := sgn_wrap 64 z.

Definition is_u8 (z : Z) : Prop := 0 ≤ z < 2 ^ 8.
Definition is_u32 (z : Z) : Prop := 0 ≤ z < 2 ^ 32.
Definition is_u64 (z : Z) : Prop := 0 ≤ z < 2 ^ 64.
Definition is_i8 (z : Z) : Prop := - 2 ^ 7 ≤ z < 2 ^ 7.
Definition is_i32 (z : Z) : Prop := - 2 ^ 31 ≤ z < 2 ^ 31.
Definition is_i64 (z : Z) : Prop := - 2 ^ 63 ≤ z < 2 ^ 63.

Definition INT_MAX : Z := 2 ^ 31 - 1.

Lemma u8_range z : is_u8 (u8 z).
Proof. apply Z.mod_pos_bound. lia. Qed.
Lemma u32_range z : is_u32 (u32 z).
Proof. apply Z.mod_pos_bound. lia. Qed.
Lemma u8_id z : is_u8 z → u8 z = z.
Proof. intros. by apply Z.mod_small. Qed.
Lemma u32_id z : is_u32 z → u32 z = z.
Proof. intros. by apply Z.mod_small. Qed.
Lemma u64_id z : is_u64 z → u64 z = z.
Proof. intros. by apply Z.mod_small. Qed.

Lemma sgn_wrap_id w z :
  0 < w → - 2 ^ (w - 1) ≤ z < 2 ^ (w - 1) → sgn_wrap w z = z.
Proof.
  intros Hw Hz. unfold sgn_wrap.
  assert (2 ^ w = 2 * 2 ^ (w - 1)) as E.
  { rewrite <- Z.pow_succ_r by lia. f_equal. lia. }
  rewrite Z.mod_small; lia.
Qed.

(** A signed value survives the store in its unsigned representation. *)
Lemma sgn_wrap_mod w z :
  0 < w → sgn_wrap w (z `mod` 2 ^ w) = sgn_wrap w z.
Proof.
  intros Hw. unfold sgn_wrap. by rewrite Zplus_mod_idemp_l.
Qed.

Lemma i8_id z : is_i8 z → i8 z = z.
Proof. intros. apply sgn_wrap_id; [lia|done]. Qed.
Lemma i32_id z : is_i32 z → i32 z = z.
Proof. intros. apply sgn_wrap_id; [lia|done]. Qed.
Lemma i64_id z : is_i64 z → i64 z = z.
Proof. intros. apply sgn_wrap_id; [lia|done]. Qed.

Lemma sgn_wrap_range w z :
  0 < w → - 2 ^ (w - 1) ≤ sgn_wrap w z < 2 ^ (w - 1).
Proof.
  intros Hw. unfold sgn_wrap.
  assert (2 ^ w = 2 * 2 ^ (w - 1)) as E.
  { rewrite <- Z.pow_succ_r by lia. f_equal. lia. }
  pose proof (Z.mod_pos_bound (z + 2 ^ (w - 1)) (2 ^ w)). lia.
Qed.

(** ** Bit fields *)

(** [field := (field & ~mask) | v] *)
Definition set_bits (mask v f : Z) : Z := Z.lor (Z.land f (Z.lnot mask)) v.

Ltac bitwise :=
  apply Z.bits_inj'; intros ? ?;
  repeat rewrite ?Z.land_spec, ?Z.lor_spec, ?Z.lnot_spec by lia;
  try btauto.

Lemma set_bits_read mask v f :
  Z.land v mask = v → Z.land (set_bits mask v f) mask = v.
Proof.
  intros Hv. unfold set_bits. rewrite <- Hv. bitwise.
Qed.

(** Writing one field leaves a field with a disjoint mask as it was. *)
Lemma set_bits_other mask mask' v f :
  Z.land v mask = v → Z.land mask mask' = 0 →
  Z.land (set_bits mask v f) mask' = Z.land f mask'.
Proof.
  intros Hv Hd. apply Z.bits_inj'; intros n Hn.
  apply (f_equal (λ z, Z.testbit z n)) in Hd. rewrite Z.land_spec, Z.bits_0 in Hd.
  unfold set_bits. rewrite <- Hv.
  repeat rewrite ?Z.land_spec, ?Z.lor_spec, ?Z.lnot_spec by lia.
  destruct (Z.testbit mask n), (Z.testbit mask' n), (Z.testbit f n),
    (Z.testbit v n); simpl in *; congruence.
Qed.

Lemma u8_land z : u8 z = Z.land z 255.
Proof. unfold u8. by rewrite <- Z.land_ones by lia. Qed.

(** The wrap to a byte does not touch a mask of the byte. *)
Lemma u8_mask z mask : is_u8 mask → Z.land (u8 z) mask = Z.land z mask.
Proof.
  intros Hm. rewrite u8_land, <- Z.land_assoc. f_equal.
  rewrite Z.land_comm. change 255 with (Z.ones 8).
  rewrite Z.land_ones by lia. by apply Z.mod_small.
Qed.

(** ** Bytes *)

#[global] Arguments le_split : simpl never.
#[global] Arguments le_combine : simpl never.

Definition zeros (n : nat) : list byte := replicate n Byte.x00.

Lemma length_zeros n : length (zeros n) = n.
Proof. apply length_replicate. Qed.

Lemma le_combine_split_id n z :
  0 ≤ z < 2 ^ (Z.of_nat n * 8) → le_combine (le_split n z) = z.
Proof. intros. rewrite le_combine_split. by apply Z.mod_small. Qed.

#[export] Instance byte_eq_dec : EqDecision byte := Byte.byte_eq_dec.

(** ** Lists *)

Lemma take_app_exact {A} (l k : list A) n : length l = n → take n (l ++ k) = l.
Proof. intros <-. apply take_app_length. Qed.

Lemma drop_app_exact {A} (l k : list A) n : length l = n → drop n (l ++ k) = k.
Proof. intros <-. apply drop_app_length. Qed.

(** Sum of the measures of the elements of a list. *)
Definition sum_Z {A} (f : A → Z) (l : list A) : Z := foldr (λ a s, f a + s) 0 l.

Lemma sum_Z_cons {A} (f : A → Z) a l : sum_Z f (a :: l) = f a + sum_Z f l.
Proof. done. Qed.

Lemma sum_Z_app {A} (f : A → Z) l k : sum_Z f (l ++ k) = sum_Z f l + sum_Z f k.
Proof. induction l as [|a l IH]; simpl; [done|]. rewrite IH. lia. Qed.

Lemma sum_Z_nonneg {A} (f : A → Z) l : (∀ a, a ∈ l → 0 ≤ f a) → 0 ≤ sum_Z f l.
Proof.
  induction l as [|a l IH]; intros H; simpl; [done|].
  pose proof (H a ltac:(set_solver)). specialize (IH ltac:(set_solver)). lia.
Qed.

(** Prefixes of a list of positive measures. *)
Lemma sum_Z_take_lt {A} (f : A → Z) l i j :
  Forall (λ a, 0 < f a) l → (i < j)%nat → (i < length l)%nat →
  sum_Z f (take i l) < sum_Z f (take j l).
Proof.
  intros H. revert i j. induction H as [|a l Ha Hl IH]; intros i j Hij Hi; [simpl in Hi; lia|].
  destruct j as [|j]; [lia|]. destruct i as [|i].
  - change (take 0 (a :: l)) with (@nil A). change (take (S j) (a :: l)) with (a :: take j l).
    rewrite sum_Z_cons. change (sum_Z f []) with 0.
    assert (0 ≤ sum_Z f (take j l)); [|lia]. apply sum_Z_nonneg. intros x Hx.
    apply elem_of_take in Hx as (n & Hx & _). rewrite Forall_forall in Hl.
    apply Z.lt_le_incl, Hl. by eapply list_elem_of_lookup_2.
  - change (take (S i) (a :: l)) with (a :: take i l).
    change (take (S j) (a :: l)) with (a :: take j l). rewrite !sum_Z_cons.
    specialize (IH i j). simpl in Hi. lia.
Qed.
