(* ===== verification/Heap.v ===== *)
(** * The heap of the process

    Blocks of bytes, as [g_malloc] hands them out.  A block is identified by
    its base address; a C pointer is a base and an offset in the block.  The
    contents of pointers stored in C structures are addresses, so the base
    address is what [g_malloc] returns and what [g_free] takes.  Reads and
    writes out of the bounds of a block, and [g_free] of an address that is
    not the base of a block, are undefined behaviour.  The allocator of the C
    library is not part of the program: it is the parameter [Allocator]. *)
From S2P Require Import Prelude.

Abbreviation heap := (gmap Z (list byte)).

(** Base address and offset. *)
Definition ptr : Type := Z * Z.

Definition p_addr (p : ptr) : Z := p.1 + p.2.
Definition p_add (p : ptr) (n : Z) : ptr := (p.1, p.2 + n).

(** The address chosen for a block of [n] bytes, [None] when no memory is
    left, and the indeterminate contents of a new block. *)
Class Allocator := {
  alloc_addr : heap → Z → option Z;
  alloc_junk : heap → nat → list byte;
}.

(** What the C library documents of its allocator: a new block is distinct
    from every live block, is not at NULL, is addressable, is aligned for the
    built-in types, and has the requested size. *)
Class AllocatorLaws `{!Allocator} : Prop := {
  alloc_fresh h n a : alloc_addr h n = Some a → h !! a = None;
  alloc_nonnull h n a : alloc_addr h n = Some a → 0 < a < 2 ^ 64;
  alloc_aligned h n a : alloc_addr h n = Some a → a `mod` 8 = 0;
  alloc_junk_length h n : length (alloc_junk h n) = n;
}.

Section heap.
Context {AL : Allocator}.

(** [g_malloc (n)]: NULL for a size of zero. *)
Definition g_malloc (n : Z) : M heap Z := λ h,
  if n =? 0 then (Ret 0, h) else
  match alloc_addr h n with
  | Some a => (Ret a, <[a := alloc_junk h (Z.to_nat n)]> h)
  | None => (Oom, h)
  end.

(** [g_malloc0 (n)] *)
Definition g_malloc0 (n : Z) : M heap Z := λ h,
  if n =? 0 then (Ret 0, h) else
  match alloc_addr h n with
  | Some a => (Ret a, <[a := zeros (Z.to_nat n)]> h)
  | None => (Oom, h)
  end.

(** [g_free (a)]: nothing for NULL. *)
Definition g_free (a : Z) : M heap unit := λ h,
  if a =? 0 then (Ret tt, h) else
  match h !! a with
  | Some _ => (Ret tt, delete a h)
  | None => (UB, h)
  end.

(** [n] bytes read at [p]. *)
Definition load (p : ptr) (n : Z) : M heap (list byte) := λ h,
  if n =? 0 then (Ret [], h) else
  match h !! p.1 with
  | Some bs =>
      if (0 <=? p.2) && (p.2 + n <=? Z.of_nat (length bs))
      then (Ret (take (Z.to_nat n) (drop (Z.to_nat p.2) bs)), h)
      else (UB, h)
  | None => (UB, h)
  end.

(** [vs] written at [p]. *)
Definition store (p : ptr) (vs : list byte) : M heap unit := λ h,
  if bool_decide (vs = []) then (Ret tt, h) else
  match h !! p.1 with
  | Some bs =>
      if (0 <=? p.2) && (p.2 + Z.of_nat (length vs) <=? Z.of_nat (length bs))
      then (Ret tt, <[p.1 := take (Z.to_nat p.2) bs ++ vs ++
                      drop (Z.to_nat p.2 + length vs) bs]> h)
      else (UB, h)
  | None => (UB, h)
  end.

(** [memcpy (dst, src, n)] *)
Definition memcpy (dst src : ptr) (n : Z) : M heap unit :=
  bs ← load src n; store dst bs.

(** An automatic variable holding [bs]: a block that lives as long as the
    call of [f]. *)
Definition with_local {A} (bs : list byte) (f : ptr → M heap A) : M heap A := λ h,
  match alloc_addr h (Z.of_nat (length bs)) with
  | Some a =>
      let '(o, h') := f (a, 0) (<[a := bs]> h) in (o, delete a h')
  | None => (Oom, h)
  end.
End heap.

(** ** What lies at a pointer *)

(** The bytes [vs] lie at [p]. *)
Definition at_ptr (h : heap) (p : ptr) (vs : list byte) : Prop :=
  ∃ pre post, h !! p.1 = Some (pre ++ vs ++ post) ∧ Z.of_nat (length pre) = p.2.

Section heap_lemmas.
Implicit Types (h : heap) (p : ptr).

Lemma at_ptr_block h a vs : h !! a = Some vs → at_ptr h (a, 0) vs.
Proof. intros H. exists [], []. by rewrite app_nil_r. Qed.

Lemma at_ptr_app_l h p vs ws : at_ptr h p (vs ++ ws) → at_ptr h p vs.
Proof.
  intros (pre & post & H & Hl). exists pre, (ws ++ post). by rewrite <- app_assoc in H.
Qed.

Lemma at_ptr_app_r h p vs ws :
  at_ptr h p (vs ++ ws) → at_ptr h (p_add p (Z.of_nat (length vs))) ws.
Proof.
  intros (pre & post & H & Hl). exists (pre ++ vs), post. simpl. split.
  - rewrite H. f_equal. by rewrite <- !app_assoc.
  - rewrite length_app. lia.
Qed.

(** Changing another block leaves the bytes where they are. *)
Lemma at_ptr_insert h p vs a bs :
  a ≠ p.1 → at_ptr h p vs → at_ptr (<[a := bs]> h) p vs.
Proof.
  intros Ha (pre & post & H & Hl). exists pre, post. by rewrite lookup_insert_ne.
Qed.

Lemma at_ptr_delete h p vs a : a ≠ p.1 → at_ptr h p vs → at_ptr (delete a h) p vs.
Proof.
  intros Ha (pre & post & H & Hl). exists pre, post. by rewrite lookup_delete_ne.
Qed.

Lemma at_ptr_mono h h' p vs : h ⊆ h' → at_ptr h p vs → at_ptr h' p vs.
Proof.
  intros Hs (pre & post & H & Hl). exists pre, post. split; [by eapply lookup_weaken|done].
Qed.

Lemma load_at h p vs n :
  at_ptr h p vs → n = Z.of_nat (length vs) → load p n h = (Ret vs, h).
Proof.
  intros (pre & post & H & Hl) ->. unfold load.
  destruct (Z.eqb_spec (Z.of_nat (length vs)) 0) as [E|_].
  { by destruct vs. }
  rewrite H. rewrite !length_app.
  replace (_ && _) with true
    by (symmetry; apply andb_true_iff; split; apply Z.leb_le; lia).
  rewrite <- Hl, !Nat2Z.id, drop_app_length. by rewrite take_app_length.
Qed.

Lemma load_out h p bs n :
  h !! p.1 = Some bs → 0 < n → Z.of_nat (length bs) < p.2 + n → load p n h = (UB, h).
Proof.
  intros H Hn Hl. unfold load. rewrite H.
  destruct (Z.eqb_spec n 0); [lia|].
  replace (_ <=? Z.of_nat _) with false by (symmetry; apply Z.leb_gt; lia).
  by rewrite andb_false_r.
Qed.

Lemma load_none h p n : h !! p.1 = None → 0 < n → load p n h = (UB, h).
Proof.
  intros H Hn. unfold load. rewrite H. by destruct (Z.eqb_spec n 0); [lia|].
Qed.

(** A write of a piece of a block keeps the pieces around it. *)
Lemma store_at h a pre old post vs :
  h !! a = Some (pre ++ old ++ post) → length old = length vs →
  ∃ h', store (a, Z.of_nat (length pre)) vs h = (Ret tt, h') ∧
    (vs ≠ [] → h' = <[a := pre ++ vs ++ post]> h) ∧ (vs = [] → h' = h).
Proof.
  intros H Hl. unfold store. case_bool_decide as E.
  { exists h. done. }
  exists (<[a := pre ++ vs ++ post]> h). split; [|done]. simpl. rewrite H.
  rewrite !length_app.
  replace (_ && _) with true
    by (symmetry; apply andb_true_iff; split; apply Z.leb_le; lia).
  rewrite Nat2Z.id, take_app_length. do 5 f_equal.
  rewrite app_assoc, drop_app_exact; [done|]. rewrite length_app. lia.
Qed.

(** A write from the beginning of a block. *)
Lemma store_prefix h a old vs :
  h !! a = Some old → (length vs ≤ length old)%nat →
  store (a, 0) vs h = (Ret tt, <[a := vs ++ drop (length vs) old]> h).
Proof.
  intros H Hl.
  destruct (store_at h a [] (take (length vs) old) (drop (length vs) old) vs)
    as (h' & E & Hh & Hh0).
  - cbn [app]. by rewrite take_drop.
  - rewrite length_take. lia.
  - change (Z.of_nat (length [])) with 0 in E. rewrite E. f_equal.
    destruct vs as [|v vs]; [|by apply Hh]. rewrite Hh0 by done. symmetry. by apply insert_id.
Qed.

(** A write of a whole block. *)
Lemma store_block h a old vs :
  h !! a = Some old → length old = length vs → vs ≠ [] →
  store (a, 0) vs h = (Ret tt, <[a := vs]> h).
Proof.
  intros H Hl Hn.
  destruct (store_at h a [] old [] vs) as (h' & E & Hh & _); [|done|].
  - by rewrite app_nil_r.
  - change (store (a, 0) vs h = (Ret tt, h')) in E. rewrite E, Hh by done. by rewrite app_nil_r.
Qed.

(** A write of a piece of a block, where the bytes around it do not matter. *)
Lemma store_ptr h p old vs :
  at_ptr h p old → length old = length vs → vs ≠ [] →
  ∃ h', store p vs h = (Ret tt, h') ∧ at_ptr h' p vs ∧ ∀ a, a ≠ p.1 → h' !! a = h !! a.
Proof.
  destruct p as [a n]. intros (pre & post & H & Hn) Hl Hne. cbn [fst snd] in *. subst n.
  destruct (store_at h a pre old post vs H Hl) as (h' & E & Hh & _).
  rewrite (Hh Hne) in E. eexists. split; [exact E|]. split.
  - exists pre, post. split; [apply lookup_insert_eq|done].
  - intros b Hb. by apply lookup_insert_ne.
Qed.

Lemma g_free_null h : g_free 0 h = (Ret tt, h).
Proof. done. Qed.

Lemma g_free_block h a bs : 0 < a → h !! a = Some bs → g_free a h = (Ret tt, delete a h).
Proof.
  intros Ha H. unfold g_free. destruct (Z.eqb_spec a 0); [lia|]. by rewrite H.
Qed.

Section alloc.
Context {AL : Allocator}.

Lemma g_malloc_some h n a :
  n ≠ 0 → alloc_addr h n = Some a →
  g_malloc n h = (Ret a, <[a := alloc_junk h (Z.to_nat n)]> h).
Proof. intros Hn H. unfold g_malloc. rewrite H. by destruct (Z.eqb_spec n 0). Qed.

Lemma g_malloc0_some h n a :
  n ≠ 0 → alloc_addr h n = Some a →
  g_malloc0 n h = (Ret a, <[a := zeros (Z.to_nat n)]> h).
Proof. intros Hn H. unfold g_malloc0. rewrite H. by destruct (Z.eqb_spec n 0). Qed.
End alloc.
End heap_lemmas.

(** ** A first-fit allocator, for concrete runs

    Blocks grow upwards, each one past the end of every live block with a
    header of 16 bytes in between. *)
Module Bump.
Definition top (h : heap) : Z :=
  map_fold (λ a bs m, Z.max m (a + Z.of_nat (length bs))) 4096 h.

#[export] Instance allocator : Allocator := {|
  alloc_addr h n :=
    let a := 16 * (top h / 16 + 2) in if a <? 2 ^ 64 then Some a else None;
  alloc_junk _ n := replicate n Byte.xcc;
|}.

Lemma top_spec h : 4096 ≤ top h ∧ ∀ a bs, h !! a = Some bs → a ≤ top h.
Proof.
  unfold top.
  refine (map_fold_weak_ind
    (λ r (m : heap), 4096 ≤ r ∧ ∀ a bs, m !! a = Some bs → a ≤ r) _ _ _ _ h).
  - split; [done|]. intros a bs. by rewrite lookup_empty.
  - intros i x m r Hi [Hr IH]. split; [lia|]. intros a bs.
    rewrite lookup_insert. case_decide as E.
    + intros [= <-]. subst. lia.
    + intros H. specialize (IH a bs H). lia.
Qed.

#[export] Instance laws : AllocatorLaws.
Proof.
  assert (∀ h, top h < 16 * (top h / 16 + 2)) as Hlt.
  { intros h. pose proof (Z.mul_succ_div_gt (top h) 16). lia. }
  split; simpl; try (intros h n a;
    destruct (Z.ltb_spec (16 * (top h / 16 + 2)) (2 ^ 64)); intros [= <-]).
  - destruct (h !! _) as [bs|] eqn:E; [|done].
    apply (proj2 (top_spec h)) in E. specialize (Hlt h). lia.
  - pose proof (proj1 (top_spec h)). specialize (Hlt h). lia.
  - replace (16 * (top h / 16 + 2)) with (2 * (top h / 16 + 2) * 8) by lia.
    apply Z_mod_mult.
  - intros h n. apply length_replicate.
Qed.
End Bump.
