(* ===== verification/SeqUapi.v ===== *)
(** * Constants and structures of the sequencer interface of the kernel

    The program is compiled against [sound/asequencer.h].  This file has the
    constants and the structure layouts of that header the program relies on
    (little-endian, 64-bit pointers), as an interface [CStruct] between a
    record and the bytes it has in memory.  Unions are kept as their bytes. *)
From S2P Require Import Prelude Heap.

(** ** Structures in memory *)

(** The representation of a C structure: its size, the bytes of a value and
    the value the bytes stand for; [c_ok] bounds the fields to their width. *)
Class CStruct (A : Type) := {
  sizeof : nat;
  to_bytes : A → list byte;
  of_bytes : list byte → A;
  c_ok : A → Prop;
}.
Arguments sizeof A {_}.

Class CStructLaws (A : Type) `{!CStruct A} : Prop := {
  length_to_bytes a : c_ok a → length (to_bytes a) = sizeof A;
  of_to_bytes a : c_ok a → of_bytes (to_bytes a) = a;
  to_of_bytes bs : length bs = sizeof A → to_bytes (of_bytes bs) = bs;
  of_bytes_ok bs : length bs = sizeof A → c_ok (of_bytes bs);
}.

(** [n] bytes from offset [o]. *)
Definition sub (o n : nat) (bs : list byte) : list byte := take n (drop o bs).

Lemma sub_here (n : nat) (l k : list byte) : length l = n → sub 0 n (l ++ k) = l.
Proof. apply take_app_exact. Qed.

Lemma sub_all (n : nat) (l : list byte) : length l = n → sub 0 n l = l.
Proof. intros <-. apply take_ge. done. Qed.

Lemma sub_skip (o n : nat) (l k : list byte) :
  (length l ≤ o)%nat → sub o n (l ++ k) = sub (o - length l) n k.
Proof. intros H. unfold sub. by rewrite drop_app_ge. Qed.

Lemma length_sub o n bs : (o + n ≤ length bs)%nat → length (sub o n bs) = n.
Proof. intros H. unfold sub. rewrite length_take, length_drop. lia. Qed.

Lemma sub_split o n m bs : sub o n bs ++ sub (o + n) m bs = sub o (n + m) bs.
Proof.
  unfold sub. rewrite <- drop_drop. by rewrite take_take_drop.
Qed.

(** A little-endian unsigned field, and a signed one of [8 * n] bits. *)
Definition le_u (o n : nat) (bs : list byte) : Z := le_combine (sub o n bs).
Definition le_s (o n : nat) (bs : list byte) : Z := sgn_wrap (8 * Z.of_nat n) (le_u o n bs).

Lemma le_u_range o n bs : (o + n ≤ length bs)%nat → 0 ≤ le_u o n bs < 2 ^ (8 * Z.of_nat n).
Proof.
  intros H. unfold le_u. pose proof (le_combine_bound (sub o n bs)) as Hb.
  by rewrite length_sub in Hb.
Qed.

Lemma le_s_range o n bs :
  n ≠ O → - 2 ^ (8 * Z.of_nat n - 1) ≤ le_s o n bs < 2 ^ (8 * Z.of_nat n - 1).
Proof. intros H. apply sgn_wrap_range. lia. Qed.

Lemma split_le_u o n bs : (o + n ≤ length bs)%nat → le_split n (le_u o n bs) = sub o n bs.
Proof. intros H. apply split_le_combine'. by apply length_sub. Qed.

Lemma sgn_wrap_congr w z : 0 < w → sgn_wrap w z `mod` 2 ^ w = z `mod` 2 ^ w.
Proof.
  intros Hw. unfold sgn_wrap. rewrite Zminus_mod_idemp_l. f_equal. lia.
Qed.

Lemma split_le_s o n bs : (o + n ≤ length bs)%nat → le_split n (le_s o n bs) = sub o n bs.
Proof.
  intros H. destruct (decide (n = O)) as [->|Hn].
  { unfold sub. by rewrite take_0. }
  rewrite <- (split_le_u o n bs H), le_split_mod, (le_split_mod (le_u o n bs)).
  f_equal. unfold le_s. replace (Z.of_nat n * 8) with (8 * Z.of_nat n) by lia.
  apply sgn_wrap_congr. lia.
Qed.

(** Reading a field back from the bytes of the fields. *)
Lemma split_signed n z :
  n ≠ O → - 2 ^ (8 * Z.of_nat n - 1) ≤ z < 2 ^ (8 * Z.of_nat n - 1) →
  sgn_wrap (8 * Z.of_nat n) (le_combine (le_split n z)) = z.
Proof.
  intros Hn Hz. rewrite le_combine_split.
  replace (Z.of_nat n * 8) with (8 * Z.of_nat n) by lia.
  rewrite sgn_wrap_mod by lia. apply sgn_wrap_id; lia.
Qed.

(** [fields] computes the pieces of a structure written field by field. *)
Ltac sub_simpl :=
  repeat first
    [ rewrite sub_here by (rewrite ?length_le_split; first [done|lia])
    | rewrite sub_all by (rewrite ?length_le_split; first [done|lia])
    | rewrite sub_skip by (rewrite ?length_le_split; lia);
      rewrite ?length_le_split; cbn [Nat.sub] ].

(** ** Sequencer addresses *)

Record snd_seq_addr := Addr { client : Z; port : Z }.

#[export] Instance snd_seq_addr_eq_dec : EqDecision snd_seq_addr.
Proof. solve_decision. Defined.

#[export] Instance snd_seq_addr_struct : CStruct snd_seq_addr := {|
  sizeof := 2;
  to_bytes a := le_split 1 (client a) ++ le_split 1 (port a);
  of_bytes bs := Addr (le_u 0 1 bs) (le_u 1 1 bs);
  c_ok a := is_u8 (client a) ∧ is_u8 (port a);
|}.

#[export] Instance snd_seq_addr_laws : CStructLaws snd_seq_addr.
Proof.
  split; cbn [sizeof to_bytes of_bytes c_ok snd_seq_addr_struct].
  - intros a _. by rewrite length_app, !length_le_split.
  - intros [c p] [Hc Hp]; cbn [client port] in *. unfold le_u. sub_simpl.
    by rewrite !le_combine_split_id.
  - intros bs Hl. cbn [client port]. rewrite !split_le_u by lia.
    rewrite sub_split. by apply sub_all.
  - intros bs Hl. cbn [client port]. split; apply (le_u_range _ 1); lia.
Qed.

(** ** Events *)

(** [struct snd_seq_event]: [time] holds the 8 bytes of the union of time
    stamps and [data] the 12 bytes of the union of data. *)
Record snd_seq_event := Event {
  ev_type : Z;
  ev_flags : Z;
  ev_tag : Z;
  ev_queue : Z;
  ev_time : list byte;
  ev_source : snd_seq_addr;
  ev_dest : snd_seq_addr;
  ev_data : list byte;
}.

#[export] Instance snd_seq_event_eq_dec : EqDecision snd_seq_event.
Proof. solve_decision. Defined.

#[export] Instance snd_seq_event_struct : CStruct snd_seq_event := {|
  sizeof := 28;
  to_bytes e :=
    le_split 1 (ev_type e) ++ le_split 1 (ev_flags e) ++ le_split 1 (ev_tag e) ++
    le_split 1 (ev_queue e) ++ ev_time e ++ to_bytes (ev_source e) ++
    to_bytes (ev_dest e) ++ ev_data e;
  of_bytes bs :=
    Event (le_u 0 1 bs) (le_u 1 1 bs) (le_s 2 1 bs) (le_u 3 1 bs) (sub 4 8 bs)
      (of_bytes (sub 12 2 bs)) (of_bytes (sub 14 2 bs)) (sub 16 12 bs);
  c_ok e :=
    is_u8 (ev_type e) ∧ is_u8 (ev_flags e) ∧ is_i8 (ev_tag e) ∧ is_u8 (ev_queue e) ∧
    length (ev_time e) = 8%nat ∧ c_ok (ev_source e) ∧ c_ok (ev_dest e) ∧
    length (ev_data e) = 12%nat;
|}.

Lemma event_of_to_bytes (e : snd_seq_event) : c_ok e → of_bytes (to_bytes e) = e.
Proof.
  destruct e as [ty fl tg qu ti s d da].
  intros (Ht & Hf & Hg & Hq & Hti & Hs & Hd & Hda).
  cbn [ev_type ev_flags ev_tag ev_queue ev_time ev_source ev_dest ev_data] in *.
  pose proof (length_to_bytes s Hs) as Ls. pose proof (length_to_bytes d Hd) as Ld.
  change (sizeof _) with 2%nat in Ls, Ld.
  cbn [to_bytes of_bytes snd_seq_event_struct ev_type ev_flags ev_tag ev_queue
      ev_time ev_source ev_dest ev_data].
  unfold le_s, le_u. repeat (progress sub_simpl; rewrite ?Hti, ?Ls, ?Ld; cbn [Nat.sub]).
  rewrite (of_to_bytes s Hs), (of_to_bytes d Hd), (split_signed 1) by first [lia|exact Hg].
  by rewrite !le_combine_split_id.
Qed.

#[export] Instance snd_seq_event_laws : CStructLaws snd_seq_event.
Proof.
  split.
  - intros e (Ht & Hf & Hg & Hq & Hti & Hs & Hd & Hda). cbn [to_bytes sizeof snd_seq_event_struct].
    rewrite !length_app, !length_le_split, Hti, Hda.
    by rewrite (length_to_bytes (ev_source e)), (length_to_bytes (ev_dest e)).
  - apply event_of_to_bytes.
  - intros bs Hl. cbn [sizeof snd_seq_event_struct] in Hl.
    cbn [to_bytes of_bytes snd_seq_event_struct ev_type ev_flags ev_tag ev_queue
      ev_time ev_source ev_dest ev_data].
    rewrite !split_le_u, split_le_s by lia.
    rewrite !to_of_bytes by (rewrite length_sub; [done|lia]).
    rewrite !app_assoc, !sub_split. by apply sub_all.
  - intros bs Hl. cbn [sizeof snd_seq_event_struct] in Hl.
    repeat split; cbn; try (apply (le_u_range _ 1); rewrite ?length_sub; lia);
      try (apply (le_s_range _ 1); lia); try (rewrite length_sub; lia).
Qed.

(** The member [ext] of the union: length and pointer of variable data. *)
Definition ext_len (e : snd_seq_event) : Z := le_u 0 4 (ev_data e).
Definition ext_ptr (e : snd_seq_event) : Z := le_u 4 8 (ev_data e).
Definition ext_data (len p : Z) : list byte := le_split 4 len ++ le_split 8 p.

Lemma length_ext_data len p : length (ext_data len p) = 12%nat.
Proof. unfold ext_data. by rewrite length_app, !length_le_split. Qed.

(** Offset of the union [data] in the structure. *)
Definition offset_data : Z := 16.

(** ** Constants *)

Definition SNDRV_SEQ_TIME_STAMP_TICK : Z := Z.shiftl 0 0.
Definition SNDRV_SEQ_TIME_STAMP_REAL : Z := Z.shiftl 1 0.
Definition SNDRV_SEQ_TIME_STAMP_MASK : Z := Z.shiftl 1 0.
Definition SNDRV_SEQ_TIME_MODE_ABS : Z := Z.shiftl 0 1.
Definition SNDRV_SEQ_TIME_MODE_REL : Z := Z.shiftl 1 1.
Definition SNDRV_SEQ_TIME_MODE_MASK : Z := Z.shiftl 1 1.
Definition SNDRV_SEQ_EVENT_LENGTH_FIXED : Z := Z.shiftl 0 2.
Definition SNDRV_SEQ_EVENT_LENGTH_VARIABLE : Z := Z.shiftl 1 2.
Definition SNDRV_SEQ_EVENT_LENGTH_VARUSR : Z := Z.shiftl 2 2.
Definition SNDRV_SEQ_EVENT_LENGTH_MASK : Z := Z.shiftl 3 2.
Definition SNDRV_SEQ_PRIORITY_NORMAL : Z := Z.shiftl 0 4.
Definition SNDRV_SEQ_PRIORITY_HIGH : Z := Z.shiftl 1 4.
Definition SNDRV_SEQ_PRIORITY_MASK : Z := Z.shiftl 1 4.
Definition SNDRV_SEQ_QUEUE_DIRECT : Z := 253.
Definition SNDRV_SEQ_ADDRESS_UNKNOWN : Z := 253.
Definition SNDRV_SEQ_EVENT_NOTE : Z := 5.
