(* ===== verification/Struct.v ===== *)
(** * Fields of structures in memory

    A structure of the kernel interface is a list of bytes of its size; a
    field is an offset, a width and a signedness.  Reading a field gives the
    integer its bytes stand for, writing it wraps the value to the width. *)
From S2P Require Import Prelude SeqUapi.

(** ** Pieces of a structure *)

(** [memcpy (s + o, vs)] on the bytes of a structure. *)
Definition put_bytes (o : nat) (vs s : list byte) : list byte :=
  take o s ++ vs ++ drop (o + length vs) s.

Lemma length_put_bytes o vs s :
  (o + length vs ≤ length s)%nat → length (put_bytes o vs s) = length s.
Proof.
  intros H. unfold put_bytes. rewrite !length_app, length_take, length_drop. lia.
Qed.

Lemma sub_put_same o vs s :
  (o + length vs ≤ length s)%nat → sub o (length vs) (put_bytes o vs s) = vs.
Proof.
  intros H. unfold sub, put_bytes.
  rewrite drop_app_exact by (rewrite length_take; lia). by apply take_app_exact.
Qed.

Lemma sub_put_other o vs o' n s :
  (o + length vs ≤ length s)%nat → (o' + n ≤ o ∨ o + length vs ≤ o')%nat →
  sub o' n (put_bytes o vs s) = sub o' n s.
Proof.
  intros H Hd. unfold sub, put_bytes. apply list_eq. intros i.
  destruct (decide (i < n)%nat) as [Hi|Hi].
  2:{ rewrite !lookup_take_ge by lia. done. }
  rewrite !lookup_take_lt by lia. rewrite !lookup_drop. destruct Hd as [Hd|Hd].
  - rewrite lookup_app_l by (rewrite length_take; lia). by rewrite lookup_take_lt by lia.
  - rewrite lookup_app_r by (rewrite length_take; lia).
    rewrite lookup_app_r by (rewrite length_take; lia).
    rewrite lookup_drop, length_take. f_equal. lia.
Qed.

Lemma put_put_same o vs ws s :
  (o + length vs ≤ length s)%nat → length vs = length ws →
  put_bytes o ws (put_bytes o vs s) = put_bytes o ws s.
Proof.
  intros H Hl. unfold put_bytes. rewrite take_app_exact by (rewrite length_take; lia).
  do 2 f_equal. rewrite drop_app_ge by (rewrite length_take; lia).
  rewrite length_take, <- Hl. rewrite drop_app_ge by lia. rewrite drop_drop. f_equal. lia.
Qed.

Lemma lookup_put_bytes o vs s i :
  (o + length vs ≤ length s)%nat →
  put_bytes o vs s !! i =
    if decide (o ≤ i < o + length vs)%nat then vs !! (i - o)%nat else s !! i.
Proof.
  intros H. unfold put_bytes. assert (length (take o s) = o) as Ht by (rewrite length_take; lia).
  destruct (decide (i < o)%nat) as [Hi|Hi].
  { rewrite lookup_app_l by lia. rewrite lookup_take_lt by done. by rewrite decide_False by lia. }
  rewrite lookup_app_r, Ht by lia. case_decide as Hd.
  - by rewrite lookup_app_l by lia.
  - rewrite lookup_app_r, lookup_drop by lia. f_equal. lia.
Qed.

(** Writes to disjoint pieces commute. *)
Lemma put_put_comm o vs o' ws s :
  (o + length vs ≤ length s)%nat → (o' + length ws ≤ length s)%nat →
  (o + length vs ≤ o' ∨ o' + length ws ≤ o)%nat →
  put_bytes o vs (put_bytes o' ws s) = put_bytes o' ws (put_bytes o vs s).
Proof.
  intros H H' Hd. apply list_eq. intros i.
  rewrite !lookup_put_bytes by (rewrite ?length_put_bytes by done; done).
  repeat case_decide; done || lia.
Qed.

(** Writing what is there. *)
Lemma put_sub o n s : (o + n ≤ length s)%nat → put_bytes o (sub o n s) s = s.
Proof.
  intros H. unfold put_bytes. rewrite length_sub by done. unfold sub.
  by rewrite <- drop_drop, take_drop, take_drop.
Qed.

(** A local structure initialized with [{0}]. *)
Definition zeroed (n : Z) : list byte := zeros (Z.to_nat n).

(** ** Integer fields *)

Record field := Field { f_off : nat; f_width : nat; f_signed : bool }.

Definition u8f (o : nat) : field := Field o 1 false.
Definition u16f (o : nat) : field := Field o 2 false.
Definition u32f (o : nat) : field := Field o 4 false.
Definition i8f (o : nat) : field := Field o 1 true.
Definition i32f (o : nat) : field := Field o 4 true.
Definition u64f (o : nat) : field := Field o 8 false.
Definition i64f (o : nat) : field := Field o 8 true.

Definition f_bits (f : field) : Z := 8 * Z.of_nat (f_width f).

Definition fget (f : field) (s : list byte) : Z :=
  if f_signed f then le_s (f_off f) (f_width f) s else le_u (f_off f) (f_width f) s.

Definition fput (f : field) (v : Z) (s : list byte) : list byte :=
  put_bytes (f_off f) (le_split (f_width f) v) s.

(** The values the field can hold. *)
Definition f_range (f : field) (v : Z) : Prop :=
  if f_signed f then - 2 ^ (f_bits f - 1) ≤ v < 2 ^ (f_bits f - 1) else 0 ≤ v < 2 ^ f_bits f.

(** The field lies in a structure of [n] bytes. *)
Definition f_in (f : field) (n : nat) : bool :=
  bool_decide (f_off f + f_width f ≤ n)%nat && negb (f_width f =? 0)%nat.

Definition f_disjoint (f g : field) : bool :=
  bool_decide (f_off f + f_width f ≤ f_off g)%nat ||
  bool_decide (f_off g + f_width g ≤ f_off f)%nat.

Lemma f_in_spec f n : f_in f n = true → (f_off f + f_width f ≤ n)%nat ∧ f_width f ≠ O.
Proof.
  unfold f_in. intros H. apply andb_true_iff in H as [H1 H2].
  apply bool_decide_eq_true in H1. destruct (Nat.eqb_spec (f_width f) 0); done.
Qed.

Lemma length_fput f v s : f_in f (length s) = true → length (fput f v s) = length s.
Proof.
  intros H. apply f_in_spec in H as [H _]. apply length_put_bytes. by rewrite length_le_split.
Qed.

Lemma fget_range f s : f_in f (length s) = true → f_range f (fget f s).
Proof.
  intros H. apply f_in_spec in H as [H Hw]. unfold fget, f_range.
  destruct (f_signed f); [by apply le_s_range|by apply le_u_range].
Qed.

(** What is written to a field is read back, wrapped to its width. *)
Lemma fget_fput f v s :
  f_in f (length s) = true →
  fget f (fput f v s) =
    if f_signed f then sgn_wrap (f_bits f) v else v `mod` 2 ^ f_bits f.
Proof.
  intros H. apply f_in_spec in H as [H Hw]. unfold fget, fput, f_bits.
  pose proof (sub_put_same (f_off f) (le_split (f_width f) v) s) as E.
  rewrite length_le_split in E. specialize (E H).
  unfold le_s, le_u. rewrite E, le_combine_split.
  replace (Z.of_nat (f_width f) * 8) with (8 * Z.of_nat (f_width f)) by lia.
  destruct (f_signed f); [|done]. apply sgn_wrap_mod. lia.
Qed.

Lemma fget_fput_id f v s :
  f_in f (length s) = true → f_range f v → fget f (fput f v s) = v.
Proof.
  intros H Hv. rewrite fget_fput by done. unfold f_range in Hv. apply f_in_spec in H as [H Hw].
  unfold f_bits in *. destruct (f_signed f); [apply sgn_wrap_id; [lia|done]|by apply Z.mod_small].
Qed.

(** The other fields keep their values. *)
Lemma fget_fput_other f g v s :
  f_in f (length s) = true → f_disjoint f g = true → fget g (fput f v s) = fget g s.
Proof.
  intros H Hd. apply f_in_spec in H as [H Hw].
  assert (sub (f_off g) (f_width g) (fput f v s) = sub (f_off g) (f_width g) s) as E.
  { unfold fput. apply sub_put_other; rewrite length_le_split; [done|].
    unfold f_disjoint in Hd. apply orb_true_iff in Hd as [Hd|Hd];
      apply bool_decide_eq_true in Hd; lia. }
  unfold fget, le_s, le_u. by rewrite E.
Qed.

Lemma sub_fput_other f v s o n :
  f_in f (length s) = true → (o + n ≤ f_off f ∨ f_off f + f_width f ≤ o)%nat →
  sub o n (fput f v s) = sub o n s.
Proof.
  intros H Hd. apply f_in_spec in H as [H Hw].
  unfold fput. apply sub_put_other; by rewrite length_le_split.
Qed.

Lemma fput_fput f v w s : f_in f (length s) = true → fput f w (fput f v s) = fput f w s.
Proof.
  intros H. apply f_in_spec in H as [H _]. unfold fput.
  apply put_put_same; by rewrite !length_le_split.
Qed.

Lemma fput_comm f g v w s :
  f_in f (length s) = true → f_in g (length s) = true → f_disjoint f g = true →
  fput f v (fput g w s) = fput g w (fput f v s).
Proof.
  intros [Hf _]%f_in_spec [Hg _]%f_in_spec Hd. apply put_put_comm; rewrite !length_le_split; [done..|].
  unfold f_disjoint in Hd. apply orb_true_iff in Hd as [Hd|Hd]; apply bool_decide_eq_true in Hd; lia.
Qed.

(** A write wraps the value to the width of the field. *)
Lemma fput_wrap f v s : fput f (v `mod` 2 ^ f_bits f) s = fput f v s.
Proof.
  unfold fput, f_bits. rewrite (le_split_mod v).
  by replace (8 * Z.of_nat (f_width f)) with (Z.of_nat (f_width f) * 8) by lia.
Qed.

Lemma fput_fget f s : f_in f (length s) = true → fput f (fget f s) s = s.
Proof.
  intros [Hf _]%f_in_spec. unfold fput, fget.
  destruct (f_signed f); [rewrite split_le_s by done|rewrite split_le_u by done]; by apply put_sub.
Qed.

(** Side conditions on fields of a structure of known length, and reads after
    writes. *)
Ltac f_inside :=
  rewrite ?length_fput by f_inside;
  try match goal with H : length ?s = _ |- context [length ?s] => rewrite H end;
  reflexivity.

Ltac f_ranged :=
  match goal with
  | |- f_range ?f ?v =>
      let x := fresh "x" in let E := fresh "E" in
      remember v as x eqn:E; unfold f_range, f_bits; cbn; lia
  end.

Ltac fields :=
  repeat match goal with
  | |- context [fget ?g (fput ?f ?v ?s)] =>
      first [ rewrite (fget_fput_other f g v s) by first [reflexivity | f_inside]
            | rewrite (fget_fput_id f v s) by first [f_inside | f_ranged] ]
  end.

(** Fields of zeroed structures. *)
Lemma le_combine_zeros n : le_combine (zeros n) = 0.
Proof.
  replace (zeros n) with (le_split n 0).
  - rewrite le_combine_split. by rewrite Z.mod_0_l by lia.
  - induction n as [|n IH]; [done|]. change (le_split (S n) 0) with (byte.of_Z 0 :: le_split n 0).
    by rewrite IH.
Qed.

Lemma fget_zeros f n : f_in f n = true → fget f (zeros n) = 0.
Proof.
  intros H. apply f_in_spec in H as [H Hw].
  assert (sub (f_off f) (f_width f) (zeros n) = zeros (f_width f)) as E.
  { unfold sub, zeros. rewrite drop_replicate, take_replicate. f_equal. lia. }
  unfold fget, le_s, le_u. rewrite E, le_combine_zeros.
  destruct (f_signed f); [|done]. apply sgn_wrap_id; unfold f_bits; [lia|].
  assert (0 < 2 ^ (8 * Z.of_nat (f_width f) - 1)) by (apply Z.pow_pos_nonneg; lia). lia.
Qed.

(** ** Strings in character arrays *)

(** The bytes of a string without its terminating null character. *)
Definition bytes_of_string (s : string) : list byte :=
  map (λ c, byte.of_Z (Z.of_nat (Ascii.nat_of_ascii c))) (String.list_ascii_of_string s).

Definition string_of_bytes (bs : list byte) : string :=
  String.string_of_list_ascii (map (λ b, Ascii.ascii_of_nat (Z.to_nat (byte.unsigned b))) bs).

(** The bytes before the first null character. *)
Fixpoint c_str (bs : list byte) : list byte :=
  match bs with
  | [] => []
  | b :: bs => if byte.unsigned b =? 0 then [] else b :: c_str bs
  end.

(** [g_strlcpy (dst, src, n)] on the [n] bytes of [dst]: at most [n - 1] bytes
    and the terminating null character; the bytes after it are kept. *)
Definition strlcpy_bytes (src dst : list byte) : list byte :=
  let vs := take (length dst - 1) src ++ [Byte.x00] in
  vs ++ drop (length vs) dst.

Definition g_strlcpy (src : string) (dst : list byte) : list byte :=
  strlcpy_bytes (bytes_of_string src) dst.

Lemma length_strlcpy_bytes src dst : dst ≠ [] → length (strlcpy_bytes src dst) = length dst.
Proof.
  intros H. assert (length dst ≠ O) by (by destruct dst). unfold strlcpy_bytes.
  rewrite length_app, length_drop, !length_app, length_take. simpl. lia.
Qed.

Lemma length_g_strlcpy src dst : dst ≠ [] → length (g_strlcpy src dst) = length dst.
Proof. apply length_strlcpy_bytes. Qed.

(** No null character in the middle of a C string. *)
Definition c_chars_only (vs : list byte) : Prop := Forall (λ b, byte.unsigned b ≠ 0) vs.

Lemma c_str_app_nul vs rest : c_chars_only vs → c_str (vs ++ Byte.x00 :: rest) = vs.
Proof.
  induction 1 as [|b vs Hb _ IH]; [done|]. simpl.
  destruct (Z.eqb_spec (byte.unsigned b) 0); [done|]. by rewrite IH.
Qed.

(** A string copied to an array is read back, cut to the size of the array. *)
Lemma c_str_strlcpy src dst :
  c_chars_only src → c_str (strlcpy_bytes src dst) = take (length dst - 1) src.
Proof.
  intros Hs. unfold strlcpy_bytes. rewrite <- app_assoc. apply c_str_app_nul.
  by apply Forall_take.
Qed.
