(* ===== verification/GValue.v ===== *)
(** * Values and specifications of properties

    A property of an object has a type, a name and limits, its specification,
    and is read and written through a [GValue] of its type.  The accessors of
    GLib have a guard on the type of the value: one that does not fit leaves
    the value as it is, or gives zero. *)
From S2P Require Import Prelude SeqUapi Struct.

(** The type of a value, with the name of the registered type of enumerations,
    flags and boxed structures. *)
Inductive gtype :=
  | G_TYPE_CHAR | G_TYPE_UCHAR | G_TYPE_INT | G_TYPE_UINT | G_TYPE_INT64 | G_TYPE_UINT64
  | G_TYPE_BOOLEAN | G_TYPE_STRING | G_TYPE_ENUM (name : string) | G_TYPE_FLAGS (name : string)
  | G_TYPE_BOXED (name : string).

#[export] Instance gtype_eq_dec : EqDecision gtype.
Proof. solve_decision. Defined.

(** What a value holds: a number, the characters of a string or the bytes of a
    boxed structure, [None] for a pointer that is NULL. *)
Inductive gdata :=
  | DNumber (v : Z)
  | DPointer (bs : option (list byte)).

#[export] Instance gdata_eq_dec : EqDecision gdata.
Proof. solve_decision. Defined.

Record gvalue := GValue { v_type : gtype; v_data : gdata }.

#[export] Instance gvalue_eq_dec : EqDecision gvalue.
Proof. solve_decision. Defined.

Definition is_pointer (t : gtype) : bool :=
  match t with G_TYPE_STRING | G_TYPE_BOXED _ => true | _ => false end.

(** [g_value_init] *)
Definition g_value_init (t : gtype) : gvalue :=
  GValue t (if is_pointer t then DPointer None else DNumber 0).

(** [G_VALUE_HOLDS_...] for the groups of types. *)
Definition holds_enum (t : gtype) : bool := match t with G_TYPE_ENUM _ => true | _ => false end.
Definition holds_flags (t : gtype) : bool := match t with G_TYPE_FLAGS _ => true | _ => false end.
Definition holds_boxed (t : gtype) : bool := match t with G_TYPE_BOXED _ => true | _ => false end.

Definition set_if (ok : bool) (d : gdata) (val : gvalue) : gvalue :=
  if ok then GValue (v_type val) d else val.

Definition g_value_set_uchar (val : gvalue) (v : Z) : gvalue :=
  set_if (bool_decide (v_type val = G_TYPE_UCHAR)) (DNumber (u8 v)) val.
Definition g_value_set_schar (val : gvalue) (v : Z) : gvalue :=
  set_if (bool_decide (v_type val = G_TYPE_CHAR)) (DNumber (i8 v)) val.
Definition g_value_set_int (val : gvalue) (v : Z) : gvalue :=
  set_if (bool_decide (v_type val = G_TYPE_INT)) (DNumber (i32 v)) val.
Definition g_value_set_uint (val : gvalue) (v : Z) : gvalue :=
  set_if (bool_decide (v_type val = G_TYPE_UINT)) (DNumber (u32 v)) val.
Definition g_value_set_int64 (val : gvalue) (v : Z) : gvalue :=
  set_if (bool_decide (v_type val = G_TYPE_INT64)) (DNumber (i64 v)) val.
Definition g_value_set_uint64 (val : gvalue) (v : Z) : gvalue :=
  set_if (bool_decide (v_type val = G_TYPE_UINT64)) (DNumber (u64 v)) val.
Definition g_value_set_boolean (val : gvalue) (v : Z) : gvalue :=
  set_if (bool_decide (v_type val = G_TYPE_BOOLEAN)) (DNumber (if v =? 0 then 0 else 1)) val.
Definition g_value_set_enum (val : gvalue) (v : Z) : gvalue :=
  set_if (holds_enum (v_type val)) (DNumber (i32 v)) val.
Definition g_value_set_flags (val : gvalue) (v : Z) : gvalue :=
  set_if (holds_flags (v_type val)) (DNumber (u32 v)) val.

(** The characters in an array that ends with a null character. *)
Definition g_value_set_static_string (val : gvalue) (bs : list byte) : gvalue :=
  set_if (bool_decide (v_type val = G_TYPE_STRING)) (DPointer (Some (c_str bs))) val.
Definition g_value_set_static_boxed (val : gvalue) (bs : list byte) : gvalue :=
  set_if (holds_boxed (v_type val)) (DPointer (Some bs)) val.

Definition number_if (ok : bool) (val : gvalue) : Z :=
  match ok, v_data val with true, DNumber v => v | _, _ => 0 end.

Definition g_value_get_uchar (val : gvalue) : Z :=
  number_if (bool_decide (v_type val = G_TYPE_UCHAR)) val.
Definition g_value_get_schar (val : gvalue) : Z :=
  number_if (bool_decide (v_type val = G_TYPE_CHAR)) val.
Definition g_value_get_int (val : gvalue) : Z :=
  number_if (bool_decide (v_type val = G_TYPE_INT)) val.
Definition g_value_get_uint (val : gvalue) : Z :=
  number_if (bool_decide (v_type val = G_TYPE_UINT)) val.
Definition g_value_get_int64 (val : gvalue) : Z :=
  number_if (bool_decide (v_type val = G_TYPE_INT64)) val.
Definition g_value_get_uint64 (val : gvalue) : Z :=
  number_if (bool_decide (v_type val = G_TYPE_UINT64)) val.
Definition g_value_get_boolean (val : gvalue) : Z :=
  number_if (bool_decide (v_type val = G_TYPE_BOOLEAN)) val.
Definition g_value_get_enum (val : gvalue) : Z := number_if (holds_enum (v_type val)) val.
Definition g_value_get_flags (val : gvalue) : Z := number_if (holds_flags (v_type val)) val.

Definition pointer_if (ok : bool) (val : gvalue) : option (list byte) :=
  match ok, v_data val with true, DPointer bs => bs | _, _ => None end.

Definition g_value_get_string (val : gvalue) : option (list byte) :=
  pointer_if (bool_decide (v_type val = G_TYPE_STRING)) val.
Definition g_value_get_boxed (val : gvalue) : option (list byte) :=
  pointer_if (holds_boxed (v_type val)) val.

(** ** Specifications *)

Inductive access := READABLE | READWRITE | CONSTRUCT_ONLY.

(** The type, the limits of a number, the default value and the access; the
    default of a boxed structure is NULL. *)
Record pspec := PSpec {
  spec_name : string;
  spec_type : gtype;
  spec_limits : Z * Z;
  spec_default : gdata;
  spec_access : access;
}.

Definition G_MAXUINT8 : Z := 2 ^ 8 - 1.
Definition G_MININT8 : Z := - 2 ^ 7.
Definition G_MAXINT8 : Z := 2 ^ 7 - 1.
Definition G_MININT : Z := - 2 ^ 31.
Definition G_MAXINT : Z := 2 ^ 31 - 1.
Definition G_MAXUINT : Z := 2 ^ 32 - 1.
Definition G_MININT64 : Z := - 2 ^ 63.
Definition G_MAXINT64 : Z := 2 ^ 63 - 1.
Definition G_MAXUINT64 : Z := 2 ^ 64 - 1.

Definition g_param_spec_char (name : string) (min max def : Z) : access → pspec :=
  PSpec name G_TYPE_CHAR (min, max) (DNumber def).
Definition g_param_spec_uchar (name : string) (min max def : Z) : access → pspec :=
  PSpec name G_TYPE_UCHAR (min, max) (DNumber def).
Definition g_param_spec_int (name : string) (min max def : Z) : access → pspec :=
  PSpec name G_TYPE_INT (min, max) (DNumber def).
Definition g_param_spec_uint (name : string) (min max def : Z) : access → pspec :=
  PSpec name G_TYPE_UINT (min, max) (DNumber def).
Definition g_param_spec_int64 (name : string) (min max def : Z) : access → pspec :=
  PSpec name G_TYPE_INT64 (min, max) (DNumber def).
Definition g_param_spec_uint64 (name : string) (min max def : Z) : access → pspec :=
  PSpec name G_TYPE_UINT64 (min, max) (DNumber def).
Definition g_param_spec_boolean (name : string) (def : bool) : access → pspec :=
  PSpec name G_TYPE_BOOLEAN (0, 1) (DNumber (if def then 1 else 0)).
(** The limits of enumerations and flags are those of their storage. *)
Definition g_param_spec_enum (name type : string) (def : Z) : access → pspec :=
  PSpec name (G_TYPE_ENUM type) (G_MININT, G_MAXINT) (DNumber def).
Definition g_param_spec_flags (name type : string) (def : Z) : access → pspec :=
  PSpec name (G_TYPE_FLAGS type) (0, G_MAXUINT) (DNumber def).
Definition g_param_spec_string (name : string) : access → pspec :=
  PSpec name G_TYPE_STRING (0, 0) (DPointer (Some [])).
Definition g_param_spec_boxed (name type : string) : access → pspec :=
  PSpec name (G_TYPE_BOXED type) (0, 0) (DPointer None).

(** The values of the type of a property: a number within its limits, a
    string, a boxed structure of [n] bytes; none of the pointers is NULL. *)
Definition spec_value (spec : pspec) (n : nat) (val : gvalue) : Prop :=
  v_type val = spec_type spec ∧
  match spec_type spec, v_data val with
  | G_TYPE_STRING, DPointer (Some vs) => c_chars_only vs
  | G_TYPE_BOXED _, DPointer (Some bs) => length bs = n
  | (G_TYPE_STRING | G_TYPE_BOXED _), _ => False
  | _, DNumber v => (spec_limits spec).1 ≤ v ≤ (spec_limits spec).2
  | _, _ => False
  end.

(** The structure of an object, with what writing a property makes of it:
    [None] when a pointer that is NULL is followed. *)
Definition put_string (o n : nat) (val : gvalue) (s : list byte) : list byte :=
  match g_value_get_string val with
  | Some vs => put_bytes o (strlcpy_bytes vs (sub o n s)) s
  | None => s
  end.

Definition put_boxed (o : nat) (val : gvalue) (s : list byte) : option (list byte) :=
  match g_value_get_boxed val with
  | Some bs => Some (put_bytes o bs s)
  | None => None
  end.
