(* ===== verification/Kernel.v ===== *)
(** * The process and the system around it

    A call of the library runs on the memory of the process and on a system
    that answers system calls and libudev queries.  The system is not part of
    the program: its states [K] and its answers are a parameter, and what the
    interfaces document of them are laws. *)
From S2P Require Import Prelude Heap SeqUapi Struct.

(** ** Errors of system calls *)

Definition EPERM : Z := 1.
Definition ENOENT : Z := 2.
Definition EINTR : Z := 4.
Definition ENXIO : Z := 6.
Definition EAGAIN : Z := 11.
Definition ENOMEM : Z := 12.
Definition EACCES : Z := 13.
Definition EBUSY : Z := 16.
Definition ENODEV : Z := 19.
Definition EINVAL : Z := 22.
Definition ERANGE : Z := 34.
Definition ENODATA : Z := 61.
Definition EPROTO : Z := 71.
Definition EBADFD : Z := 77.

(** The result of a system call: a value, or the [errno] it sets. *)
Inductive sysret (A : Type) :=
  | Sret (a : A)
  | Serr (errno : Z).
Arguments Sret {A} a.
Arguments Serr {A} errno.

(** Some of the codes of [GFileError]. *)
Definition G_FILE_ERROR_ACCES : Z := 2.
Definition G_FILE_ERROR_NOENT : Z := 4.
Definition G_FILE_ERROR_FAILED : Z := 24.

(** [g_file_error_from_errno] of GLib. *)
Class GLib := { g_file_error_from_errno : Z → Z }.

(** The codes GLib documents for each [errno]: those of EEXIST, EISDIR,
    EACCES, ENAMETOOLONG, ENOENT, ENOTDIR, ENXIO, ENODEV, EROFS, ETXTBSY,
    EFAULT, ELOOP, ENOSPC, ENOMEM, EMFILE, ENFILE, EBADF, EINVAL, EPIPE,
    EAGAIN, EINTR, EIO, EPERM and ENOSYS, and FAILED for the others. *)
Definition g_file_error_table : list (Z * Z) := [
  (17, 0); (21, 1); (13, 2); (36, 3); (2, 4); (20, 5); (6, 6); (19, 7); (30, 8);
  (26, 9); (14, 10); (40, 11); (28, 12); (12, 13); (24, 14); (23, 15); (9, 16);
  (22, 17); (32, 18); (11, 19); (4, 20); (5, 21); (1, 22); (38, 23)
].

Fixpoint assoc_Z (n : Z) (l : list (Z * Z)) (d : Z) : Z :=
  match l with
  | [] => d
  | (k, v) :: l => if n =? k then v else assoc_Z n l d
  end.

Class GLibLaws `{!GLib} : Prop := {
  file_error_doc n :
    g_file_error_from_errno n = assoc_Z n g_file_error_table G_FILE_ERROR_FAILED;
}.

(** ** System calls *)

(** The requests of [ioctl], by the names of their macros. *)
Inductive request :=
  (* sound/asequencer.h *)
  | SEQ_PVERSION | SEQ_CLIENT_ID | SEQ_SYSTEM_INFO | SEQ_GET_CLIENT_INFO | SEQ_SET_CLIENT_INFO
  | SEQ_CREATE_PORT | SEQ_DELETE_PORT | SEQ_GET_PORT_INFO | SEQ_SET_PORT_INFO
  | SEQ_SUBSCRIBE_PORT | SEQ_UNSUBSCRIBE_PORT | SEQ_CREATE_QUEUE | SEQ_DELETE_QUEUE
  | SEQ_GET_QUEUE_INFO | SEQ_SET_QUEUE_INFO | SEQ_GET_NAMED_QUEUE | SEQ_GET_QUEUE_STATUS
  | SEQ_GET_QUEUE_TEMPO | SEQ_SET_QUEUE_TEMPO | SEQ_GET_QUEUE_TIMER | SEQ_SET_QUEUE_TIMER
  | SEQ_GET_QUEUE_CLIENT | SEQ_SET_QUEUE_CLIENT | SEQ_GET_CLIENT_POOL | SEQ_SET_CLIENT_POOL
  | SEQ_REMOVE_EVENTS | SEQ_QUERY_SUBS | SEQ_QUERY_NEXT_CLIENT | SEQ_QUERY_NEXT_PORT
  (* sound/asound.h, control interface *)
  | CTL_PVERSION | CTL_CARD_INFO | CTL_ELEM_LIST | CTL_ELEM_INFO | CTL_ELEM_READ | CTL_ELEM_WRITE
  | CTL_ELEM_LOCK | CTL_ELEM_UNLOCK | CTL_SUBSCRIBE_EVENTS | CTL_ELEM_ADD | CTL_ELEM_REPLACE
  | CTL_ELEM_REMOVE | CTL_TLV_READ | CTL_TLV_WRITE | CTL_TLV_COMMAND
  | CTL_HWDEP_NEXT_DEVICE | CTL_HWDEP_INFO | CTL_RAWMIDI_NEXT_DEVICE | CTL_RAWMIDI_INFO
  | CTL_RAWMIDI_PREFER_SUBDEVICE
  (* sound/asound.h, rawmidi interface *)
  | RAWMIDI_PVERSION | RAWMIDI_INFO | RAWMIDI_PARAMS | RAWMIDI_STATUS | RAWMIDI_DROP
  | RAWMIDI_DRAIN
  (* sound/asound.h, timer interface *)
  | TIMER_PVERSION | TIMER_NEXT_DEVICE | TIMER_GINFO | TIMER_GPARAMS | TIMER_GSTATUS | TIMER_TREAD
  | TIMER_SELECT | TIMER_INFO | TIMER_PARAMS | TIMER_STATUS | TIMER_START | TIMER_STOP
  | TIMER_CONTINUE | TIMER_PAUSE.

#[export] Instance request_eq_dec : EqDecision request.
Proof. solve_decision. Defined.

Class Kernel (K : Type) := {
  (** path and flags; the file descriptor *)
  sys_open : string → Z → K → sysret Z * K;
  sys_close : Z → K → K;
  (** the structure of the caller, and as the call leaves it *)
  sys_ioctl : Z → request → list byte → K → sysret unit * list byte * K;
  sys_write : Z → list byte → K → sysret Z * K;
  sys_read : Z → Z → K → sysret (list byte) * K;
}.

Class KernelLaws (K : Type) `{!Kernel K} : Prop := {
  open_fd_nonneg path flags k fd k' : sys_open path flags k = (Sret fd, k') → 0 ≤ fd;
  ioctl_length fd req bs k : length (sys_ioctl fd req bs k).1.2 = length bs;
  write_bound fd bs k n k' :
    sys_write fd bs k = (Sret n, k') → 0 ≤ n ≤ Z.of_nat (length bs);
  read_bound fd n k bs k' :
    0 ≤ n → sys_read fd n k = (Sret bs, k') → Z.of_nat (length bs) ≤ n;
}.

(** Conditions of polling. *)
Definition G_IO_IN : Z := 1.
Definition G_IO_ERR : Z := 8.

(** The parts of the version of a protocol. *)
Definition SNDRV_PROTOCOL_MAJOR (v : Z) : Z := Z.land (Z.shiftr v 16) 0xffff.
Definition SNDRV_PROTOCOL_MINOR (v : Z) : Z := Z.land (Z.shiftr v 8) 0xff.
Definition SNDRV_PROTOCOL_MICRO (v : Z) : Z := Z.land v 0xff.

(** ** libudev *)

(** The calls of libudev: a call that returns NULL or a negative value has
    its (positive) [errno]. *)
Class Udev (K : Type) := {
  udev : Type;
  udev_device : Type;
  udev_new : K → sysret udev * K;
  udev_unref : udev → K → K;
  udev_device_new_from_subsystem_sysname :
    udev → string → string → K → sysret udev_device * K;
  udev_device_new_from_syspath : udev → string → K → sysret udev_device * K;
  udev_device_get_sysname : udev_device → K → sysret string;
  udev_device_get_devnode : udev_device → K → sysret string;
  udev_device_get_sysnum : udev_device → K → sysret string;
  udev_device_unref : udev_device → K → K;
  (** [udev_enumerate_new], [add_match_subsystem], [scan_devices] and
      [get_list_entry] of a subsystem: the paths of its devices, in order *)
  udev_enumerate : udev → string → K → sysret (list string) * K;
  udev_enumerate_unref : udev → K → K;
}.

(** ** The state of a call *)

Record world (K : Type) := World { w_heap : heap; w_kern : K }.
Arguments World {K}.
Arguments w_heap {K}.
Arguments w_kern {K}.

Section world.
Context {AL : Allocator} {GL : GLib} {K : Type} {KERN : Kernel K}.

(** A computation on the memory of the process only. *)
Definition mem {A} (m : M heap A) : M (world K) A :=
  zoom w_heap (λ h w, World h (w_kern w)) m.

(** A call to the system. *)
Definition sys {A} (f : K → A * K) : M (world K) A := λ w,
  let '(a, k) := f (w_kern w) in (Ret a, World (w_heap w) k).

Definition do_open (path : string) (flags : Z) : M (world K) (sysret Z) :=
  sys (sys_open path flags).

Definition do_close (fd : Z) : M (world K) unit := sys (λ k, (tt, sys_close fd k)).

(** [ioctl (fd, req, &s)] for a local structure [s] *)
Definition ioctl_val (fd : Z) (req : request) (s : list byte) :
    M (world K) (sysret unit * list byte) :=
  sys (sys_ioctl fd req s).

(** [ioctl (fd, req, p)] for a structure of [n] bytes in memory *)
Definition ioctl_mem (fd : Z) (req : request) (p : ptr) (n : Z) : M (world K) (sysret unit) :=
  s ← mem (load p n);
  '(r, s') ← ioctl_val fd req s;
  mem (store p s');;
  mret r.

(** [write (fd, p, n)] *)
Definition do_write (fd : Z) (p : ptr) (n : Z) : M (world K) (sysret Z) :=
  bs ← mem (load p n); sys (sys_write fd bs).

(** [read (fd, p, n)] *)
Definition do_read (fd : Z) (p : ptr) (n : Z) : M (world K) (sysret Z) :=
  r ← sys (sys_read fd n);
  match r with
  | Sret bs => mem (store p bs);; mret (Sret (Z.of_nat (length bs)))
  | Serr e => mret (Serr e)
  end.

(** Assignment to a field of a structure of [n] bytes in memory. *)
Definition set_field (p : ptr) (n : Z) (f : field) (v : Z) : M (world K) unit :=
  s ← mem (load p n); mem (store p (fput f v s)).

Definition get_field (p : ptr) (n : Z) (f : field) : M (world K) Z :=
  s ← mem (load p n); mret (fget f s).

(** ** Reports of errors *)

(** [generate_file_error (error, n, what)] *)
Definition generate_file_error {A} (n : Z) (what : string) : M (world K) A :=
  fail (Some (GError G_FILE_ERROR (g_file_error_from_errno n) what None)).

(** Instances of GObject: a block with their private structure of [n] bytes,
    zeroed when the instance is made. *)
Definition g_object_new (n : Z) : M (world K) ptr :=
  a ← mem (g_malloc0 n); mret (a, 0).

Definition g_object_unref (p : ptr) : M (world K) unit := mem (g_free (p_addr p)).
End world.

(** ** Lemmas *)

Section world_lemmas.
Context {AL : Allocator} {GL : GLib} {K : Type} {KERN : Kernel K}.
Implicit Types (w : world K) (h : heap) (k : K).

Lemma mem_Ret {A} (m : M heap A) h k a h' :
  m h = (Ret a, h') → mem m (World h k) = (Ret a, World h' k).
Proof. intros H. unfold mem, zoom. simpl. by rewrite H. Qed.

Lemma mem_Fail {A} (m : M heap A) h k e h' :
  m h = (Fail e, h') → mem m (World h k) = (Fail e, World h' k).
Proof. intros H. unfold mem, zoom. simpl. by rewrite H. Qed.

Lemma mem_UB {A} (m : M heap A) h k h' :
  m h = (UB, h') → mem m (World h k) = (UB, World h' k).
Proof. intros H. unfold mem, zoom. simpl. by rewrite H. Qed.

Lemma sys_run {A} (f : K → A * K) h k a k' :
  f k = (a, k') → sys f (World h k) = (Ret a, World h k').
Proof. intros H. unfold sys. simpl. by rewrite H. Qed.

Lemma ioctl_val_run h k fd req s r s' k' :
  sys_ioctl fd req s k = (r, s', k') →
  ioctl_val fd req s (World h k) = (Ret (r, s'), World h k').
Proof. apply sys_run. Qed.

Lemma set_field_run h k p s n f v :
  at_ptr h p s → n = Z.of_nat (length s) → f_in f (length s) = true →
  ∃ h', set_field p n f v (World h k) = (Ret tt, World h' k) ∧
    at_ptr h' p (fput f v s) ∧ ∀ a, a ≠ p.1 → h' !! a = h !! a.
Proof.
  intros Hat Hn Hf. unfold set_field.
  rewrite (bind_Ret _ _ _ _ _ (mem_Ret _ h k _ _ (load_at h p s n Hat Hn))).
  destruct (store_ptr h p s (fput f v s) Hat) as (h' & E & Hat' & Hfr).
  - symmetry. by apply length_fput.
  - intros E. apply (f_equal length) in E. rewrite length_fput in E by done.
    apply f_in_spec in Hf as [? ?]. simpl in E. lia.
  - exists h'. split; [by apply mem_Ret|done].
Qed.

Lemma get_field_run h k p s n f :
  at_ptr h p s → n = Z.of_nat (length s) →
  get_field p n f (World h k) = (Ret (fget f s), World h k).
Proof.
  intros Hat Hn. unfold get_field.
  by rewrite (bind_Ret _ _ _ _ _ (mem_Ret _ h k _ _ (load_at h p s n Hat Hn))).
Qed.

(** A whole block as a structure. *)
Lemma set_field_block h k a s n f v :
  h !! a = Some s → n = Z.of_nat (length s) → f_in f (length s) = true →
  set_field (a, 0) n f v (World h k) = (Ret tt, World (<[a := fput f v s]> h) k).
Proof.
  intros Ha Hn Hf. unfold set_field.
  rewrite (bind_Ret _ _ _ _ _ (mem_Ret _ h k _ _ (load_at h (a, 0) s n (at_ptr_block _ _ _ Ha) Hn))).
  apply mem_Ret, (store_block h a s); [done|symmetry; by apply length_fput|].
  intros E. apply (f_equal length) in E. rewrite length_fput in E by done.
  apply f_in_spec in Hf as [? ?]. simpl in E. lia.
Qed.

Lemma g_object_new_run h k n a :
  n ≠ 0 → alloc_addr h n = Some a →
  g_object_new n (World h k) = (Ret (a, 0), World (<[a := zeroed n]> h) k).
Proof.
  intros Hn Ha. unfold g_object_new.
  by rewrite (bind_Ret _ _ _ _ _ (mem_Ret _ h k _ _ (g_malloc0_some h n a Hn Ha))).
Qed.

Lemma g_object_unref_run h k a s :
  0 < a → h !! a = Some s →
  g_object_unref (a, 0) (World h k) = (Ret tt, World (delete a h) k).
Proof.
  intros Ha Hs. unfold g_object_unref, p_addr. cbn [fst snd]. rewrite Z.add_0_r.
  by eapply mem_Ret, g_free_block.
Qed.

Context {KL : KernelLaws K}.

Lemma ioctl_mem_run h k p s n fd req r s' k' :
  at_ptr h p s → n = Z.of_nat (length s) → s ≠ [] → sys_ioctl fd req s k = (r, s', k') →
  ∃ h', ioctl_mem fd req p n (World h k) = (Ret r, World h' k') ∧
    at_ptr h' p s' ∧ length s' = length s ∧ ∀ a, a ≠ p.1 → h' !! a = h !! a.
Proof.
  intros Hat Hn Hne E. unfold ioctl_mem.
  pose proof (ioctl_length fd req s k) as Hl. rewrite E in Hl. simpl in Hl.
  rewrite (bind_Ret _ _ _ _ _ (mem_Ret _ h k _ _ (load_at h p s n Hat Hn))).
  rewrite (bind_Ret _ _ _ _ _ (sys_run (sys_ioctl fd req s) h k (r, s') k' E)).
  destruct (store_ptr h p s s' Hat) as (h' & E2 & Hat' & Hfr); [done|by destruct s, s'|].
  exists h'. split; [|by split_and!].
  by rewrite (bind_Ret _ _ _ _ _ (mem_Ret _ h k' _ _ E2)).
Qed.

(** A request with the first bytes of a block as its structure. *)
Lemma ioctl_prefix h k a s tl n fd req r s' k' :
  h !! a = Some (s ++ tl) → n = Z.of_nat (length s) → s ≠ [] → sys_ioctl fd req s k = (r, s', k') →
  ioctl_mem fd req (a, 0) n (World h k) = (Ret r, World (<[a := s' ++ tl]> h) k').
Proof.
  intros Ha Hn Hne E. unfold ioctl_mem.
  pose proof (ioctl_length fd req s k) as Hl. rewrite E in Hl. cbn [fst snd] in Hl.
  rewrite (bind_Ret _ _ _ _ _ (mem_Ret _ h k _ _ (load_at h (a, 0) s n
    (at_ptr_app_l _ _ _ _ (at_ptr_block _ _ _ Ha)) Hn))).
  rewrite (bind_Ret _ _ _ _ _ (ioctl_val_run h k _ _ _ _ _ _ E)).
  rewrite (bind_Ret _ _ _ tt (World (<[a := s' ++ tl]> h) k')); [done|].
  apply mem_Ret. rewrite (store_prefix h a _ s' Ha) by (rewrite length_app; lia).
  by rewrite drop_app_length' by done.
Qed.

(** A request with a whole block as its structure. *)
Lemma ioctl_block h k a s n fd req r s' k' :
  h !! a = Some s → n = Z.of_nat (length s) → s ≠ [] → sys_ioctl fd req s k = (r, s', k') →
  ioctl_mem fd req (a, 0) n (World h k) = (Ret r, World (<[a := s']> h) k').
Proof.
  intros Ha Hn Hne E. rewrite <- (app_nil_r s) in Ha. rewrite <- (app_nil_r s').
  by apply (ioctl_prefix h k a s [] n fd req r s' k').
Qed.
End world_lemmas.
