(* ===== verification/SeqStructs.v ===== *)
(** * Structures of the requests of the sequencer

    Sizes and fields of the structures of [sound/asequencer.h] that the
    requests of the sequencer exchange with the kernel (64-bit ABI). *)
From S2P Require Import Prelude SeqUapi Struct.

(** [struct snd_seq_addr] *)
Definition sizeof_addr : Z := 2.
Definition addr_client : field := u8f 0.
Definition addr_port : field := u8f 1.

(** [struct snd_seq_system_info] *)
Definition sizeof_system_info : Z := 48.
Definition sys_queues : field := i32f 0.
Definition sys_clients : field := i32f 4.
Definition sys_ports : field := i32f 8.
Definition sys_channels : field := i32f 12.
Definition sys_cur_clients : field := i32f 16.
Definition sys_cur_queues : field := i32f 20.

(** [struct snd_seq_client_info]; the array [event_filter] has 32 bytes *)
Definition sizeof_client_info : Z := 188.
Definition ci_client : field := i32f 0.
Definition ci_type : field := i32f 4.
Definition ci_name : nat := 8.
Definition ci_filter : field := u32f 72.
Definition ci_event_filter : nat := 84.
Definition ci_num_ports : field := i32f 116.
Definition ci_event_lost : field := i32f 120.
Definition ci_card : field := i32f 124.
Definition ci_pid : field := i32f 128.

(** [struct snd_seq_client_pool] *)
Definition sizeof_client_pool : Z := 88.
Definition pool_client : field := i32f 0.
Definition pool_output_pool : field := i32f 4.
Definition pool_input_pool : field := i32f 8.
Definition pool_output_room : field := i32f 12.
Definition pool_output_free : field := i32f 16.
Definition pool_input_free : field := i32f 20.

(** [struct snd_seq_remove_events] *)
Definition sizeof_remove_events : Z := 64.
Definition rm_remove_mode : field := u32f 0.
Definition rm_tick : field := u32f 4.
Definition rm_tv_sec : field := u32f 4.
Definition rm_tv_nsec : field := u32f 8.
Definition rm_queue : field := u8f 12.
Definition rm_dest : nat := 13.
Definition rm_channel : field := u8f 15.
Definition rm_type : field := i32f 16.
Definition rm_tag : field := i8f 20.

(** [struct snd_seq_port_info] *)
Definition sizeof_port_info : Z := 168.
Definition pi_addr : nat := 0.
Definition pi_addr_client : field := u8f 0.
Definition pi_addr_port : field := u8f 1.
Definition pi_name : nat := 2.
Definition pi_capability : field := u32f 68.
Definition pi_type : field := u32f 72.
Definition pi_midi_channels : field := i32f 76.
Definition pi_midi_voices : field := i32f 80.
Definition pi_synth_voices : field := i32f 84.
Definition pi_read_use : field := i32f 88.
Definition pi_write_use : field := i32f 92.
Definition pi_flags : field := u32f 104.
Definition pi_time_queue : field := u8f 108.

(** [struct snd_seq_queue_info]; the bit field [locked] is bit 0 of the byte
    at 8 *)
Definition sizeof_queue_info : Z := 140.
Definition qi_queue : field := i32f 0.
Definition qi_owner : field := i32f 4.
Definition qi_locked : field := u8f 8.
Definition qi_name : nat := 9.

(** [struct snd_seq_queue_status] *)
Definition sizeof_queue_status : Z := 92.
Definition qs_queue : field := i32f 0.
Definition qs_events : field := i32f 4.
Definition qs_tick : field := u32f 8.
Definition qs_time : nat := 12.
Definition qs_running : field := i32f 20.

(** [struct snd_seq_queue_tempo] *)
Definition sizeof_queue_tempo : Z := 44.
Definition qt_queue : field := i32f 0.
Definition qt_tempo : field := u32f 4.
Definition qt_ppq : field := i32f 8.
Definition qt_skew_value : field := u32f 12.
Definition qt_skew_base : field := u32f 16.

(** [struct snd_seq_queue_timer]; the [struct snd_timer_id] at 8 has 20 bytes *)
Definition sizeof_queue_timer : Z := 96.
Definition tm_queue : field := i32f 0.
Definition tm_type : field := i32f 4.
Definition tm_id : nat := 8.
Definition tm_resolution : field := u32f 28.

(** [struct snd_seq_queue_client] *)
Definition sizeof_queue_client : Z := 76.
Definition qc_queue : field := i32f 0.
Definition qc_client : field := i32f 4.
Definition qc_used : field := i32f 8.

(** [struct snd_seq_port_subscribe] *)
Definition sizeof_port_subscribe : Z := 80.
Definition ps_sender : nat := 0.
Definition ps_dest : nat := 2.
Definition ps_flags : field := u32f 8.
Definition ps_queue : field := u8f 12.

(** [struct snd_seq_query_subs] *)
Definition sizeof_query_subs : Z := 88.
Definition q_root : nat := 0.
Definition q_root_client : field := u8f 0.
Definition q_root_port : field := u8f 1.
Definition q_type : field := i32f 4.
Definition q_index : field := i32f 8.
Definition q_num_subs : field := i32f 12.
Definition q_addr : nat := 16.
Definition q_queue : field := u8f 18.
Definition q_flags : field := u32f 20.

(** Constants of the header. *)
Definition USER_CLIENT : Z := 1.
Definition SNDRV_SEQ_QUERY_SUBS_READ : Z := 0.
Definition SNDRV_SEQ_PORT_FLG_GIVEN_PORT : Z := 1.
Definition SNDRV_SEQ_PORT_FLG_TIMESTAMP : Z := 2.
Definition SNDRV_SEQ_PORT_FLG_TIME_REAL : Z := 4.
Definition SNDRV_SEQ_PORT_SUBS_EXCLUSIVE : Z := 1.
Definition SNDRV_SEQ_PORT_SUBS_TIMESTAMP : Z := 2.
Definition SNDRV_SEQ_PORT_SUBS_TIME_REAL : Z := 4.
Definition SNDRV_SEQ_FILTER_USE_EVENT : Z := 2 ^ 31.
Definition SNDRV_SEQ_REMOVE_TIME_TICK : Z := 2 ^ 6.
Definition SNDRV_SEQ_TIMER_ALSA : Z := 0.
Definition SNDRV_SEQ_EVENT_NONE : Z := 255.
