(* ===== verification/Sysfs.v ===== *)
(** * Device names and numbers: [src/src/utils]

    Strings to numbers, lookups of a device of the subsystem "sound" by its
    name in sysfs, and the sorted list of the numbers of the devices whose
    name has a prefix.  Strings are values: the storage of the names is not
    modelled. *)
From S2P Require Import Prelude Heap SeqUapi Struct Kernel.
From Stdlib Require Import Ascii.

(** ** Numbers *)

Definition is_space (c : ascii) : bool :=
  let n := Z.of_nat (nat_of_ascii c) in (n =? 32) || ((9 <=? n) && (n <=? 13)).

Definition digit (c : ascii) : option Z :=
  let n := Z.of_nat (nat_of_ascii c) in
  if (48 <=? n) && (n <=? 57) then Some (n - 48) else None.

Fixpoint skip_space (s : list ascii) : list ascii :=
  match s with
  | c :: s' => if is_space c then skip_space s' else s
  | [] => []
  end.

(** The digits at the start of [s]: their value and what follows, [None] when
    there is none. *)
Fixpoint digits (s : list ascii) (acc : Z) : Z * list ascii :=
  match s with
  | c :: s' =>
      match digit c with
      | Some d => digits s' (acc * 10 + d)
      | None => (acc, s)
      end
  | [] => (acc, [])
  end.

Definition LONG_MAX : Z := 2 ^ 63 - 1.
Definition LONG_MIN : Z := - 2 ^ 63.

(** [strtol (s, &endptr, 10)] of the C library: the value, whether [errno] is
    set to [ERANGE], and the rest of the string; [None] for [endptr == s]. *)
Definition strtol (s : list ascii) : option (Z * bool * list ascii) :=
  let t := skip_space s in
  let '(neg, t) :=
    match t with
    | "-"%char :: t => (true, t)
    | "+"%char :: t => (false, t)
    | _ => (false, t)
    end in
  match t with
  | c :: _ =>
      match digit c with
      | Some _ =>
          let '(v, rest) := digits t 0 in
          let v := if neg then - v else v in
          Some (if v <? LONG_MIN then (LONG_MIN, true, rest)
                else if LONG_MAX <? v then (LONG_MAX, true, rest)
                else (v, false, rest))
      | None => None
      end
  | [] => None
  end.

(** The number, or the negative error: [number] is not written then. *)
Definition long_from_string (literal : list ascii) : sysret Z :=
  match strtol literal with
  | Some (val, erange, rest) =>
      if erange then Serr ERANGE else
      match rest with
      | [] => Sret val
      | c :: _ => if (nat_of_ascii c =? 10)%nat then Sret val else Serr EINVAL
      end
  | None => Serr EINVAL
  end.

(** ** Order of the numbers *)

(** The comparison function given to [qsort]. *)
Definition compare_u32 (l r : Z) : Z := if r <? l then 1 else 0.

(** ** Lookups *)

Definition SOUND_SUBSYSTEM : string := "sound".

(** [snprintf] of "%u" *)
Definition decimal (n : Z) : string := pretty.pretty n.

(** The names of devices; "C" tells them from those of the emulation of the
    Open Sound System. *)
Definition RAWMIDI_SYSNAME_PREFIX (card_id : Z) : string := "midiC" +:+ decimal card_id.
Definition RAWMIDI_SYSNAME (card_id device_id : Z) : string :=
  RAWMIDI_SYSNAME_PREFIX card_id +:+ "D" +:+ decimal device_id.
Definition HWDEP_SYSNAME_PREFIX (card_id : Z) : string := "hwC" +:+ decimal card_id.
Definition HWDEP_SYSNAME (card_id device_id : Z) : string :=
  HWDEP_SYSNAME_PREFIX card_id +:+ "D" +:+ decimal device_id.

Section sysfs.
Context {AL : Allocator} {GL : GLib} {K : Type} {KERN : Kernel K} {UD : Udev K}.

(** What [qsort] of the C library makes of an array: its elements afterwards,
    or [None] when what it does is undefined, as it may be for a comparison
    function that is not consistent. *)
Context (qsort : (Z → Z → Z) → list Z → option (list Z)).

(** The array as [compare_u32] sorts it; it keeps its size. *)
Definition qsort_u32 (nums : list Z) : option (list Z) :=
  match qsort compare_u32 nums with
  | Some sorted => if (length sorted =? length nums)%nat then Some sorted else None
  | None => None
  end.

Definition lookup_and_allocate_string_by_sysname (sysname : string)
    (func : udev_device → K → sysret string) : M (world K) (sysret string) :=
  ctx ← sys udev_new;
  match ctx with
  | Serr e => mret (Serr e)
  | Sret ctx =>
      device ← sys (udev_device_new_from_subsystem_sysname ctx SOUND_SUBSYSTEM sysname);
      match device with
      | Serr e => sys (λ k, (tt, udev_unref ctx k));; mret (Serr e)
      | Sret device =>
          n ← sys (λ k, (func device k, k));
          sys (λ k, (tt, udev_device_unref device k));;
          sys (λ k, (tt, udev_unref ctx k));;
          mret n
      end
  end.

Definition lookup_and_allocate_sysname_by_sysname (name : string) : M (world K) (sysret string) :=
  lookup_and_allocate_string_by_sysname name udev_device_get_sysname.

Definition lookup_and_allocate_devname_by_sysname (name : string) : M (world K) (sysret string) :=
  lookup_and_allocate_string_by_sysname name udev_device_get_devnode.

Definition lookup_and_allocate_hwdep_sysname (card_id device_id : Z) :
    M (world K) (sysret string) :=
  lookup_and_allocate_sysname_by_sysname (HWDEP_SYSNAME card_id device_id).
Definition lookup_and_allocate_hwdep_devname (card_id device_id : Z) :
    M (world K) (sysret string) :=
  lookup_and_allocate_devname_by_sysname (HWDEP_SYSNAME card_id device_id).
Definition lookup_and_allocate_rawmidi_sysname (card_id device_id : Z) :
    M (world K) (sysret string) :=
  lookup_and_allocate_sysname_by_sysname (RAWMIDI_SYSNAME card_id device_id).
Definition lookup_and_allocate_rawmidi_devname (card_id device_id : Z) :
    M (world K) (sysret string) :=
  lookup_and_allocate_devname_by_sysname (RAWMIDI_SYSNAME card_id device_id).

(** The device of an entry, when its name starts with the prefix. *)
Definition detect_device (ctx : udev) (syspath : string) (prefix : string) :
    M (world K) (sysret udev_device) :=
  dev ← sys (udev_device_new_from_syspath ctx syspath);
  match dev with
  | Serr e => mret (Serr e)
  | Sret dev =>
      sysname ← sys (λ k, (udev_device_get_sysname dev k, k));
      match sysname with
      | Serr e => sys (λ k, (tt, udev_device_unref dev k));; mret (Serr e)
      | Sret sysname =>
          if String.prefix prefix sysname then mret (Sret dev)
          else sys (λ k, (tt, udev_device_unref dev k));; mret (Serr ENODEV)
      end
  end.

(** First pass: the number of the devices. *)
Fixpoint count_devices (ctx : udev) (entries : list string) (prefix : string) (count : Z) :
    M (world K) Z :=
  match entries with
  | [] => mret count
  | entry :: entries =>
      dev ← detect_device ctx entry prefix;
      match dev with
      | Serr _ => count_devices ctx entries prefix count
      | Sret dev =>
          sys (λ k, (tt, udev_device_unref dev k));;
          count_devices ctx entries prefix (u32 (count + 1))
      end
  end.

(** Second pass: their numbers, written to an array of [count] elements. *)
Fixpoint collect_sysnums (ctx : udev) (entries : list string) (prefix : string) (count : Z)
    (nums : list Z) : M (world K) (list Z) :=
  match entries with
  | [] => mret nums
  | entry :: entries =>
      dev ← detect_device ctx entry prefix;
      match dev with
      | Serr _ => collect_sysnums ctx entries prefix count nums
      | Sret dev =>
          sysnum ← sys (λ k, (udev_device_get_sysnum dev k, k));
          nums ← match sysnum with
                 | Sret sysnum =>
                     match long_from_string (String.list_ascii_of_string sysnum) with
                     | Sret val =>
                         if Z.of_nat (length nums) <? count then mret (nums ++ [u32 val]) else ub
                     | Serr _ => mret nums
                     end
                 | Serr _ => mret nums
                 end;
          sys (λ k, (tt, udev_device_unref dev k));;
          collect_sysnums ctx entries prefix count nums
      end
  end.

(** The result is the list and its length; [None] when no device has the
    prefix, the out parameters are not written then. *)
Definition generate_sysnum_list_by_sysname_prefix (prefix : string) :
    M (world K) (sysret (option (list Z))) :=
  ctx ← sys udev_new;
  match ctx with
  | Serr e => mret (Serr e)
  | Sret ctx =>
      entry_list ← sys (udev_enumerate ctx SOUND_SUBSYSTEM);
      match entry_list with
      | Serr e => sys (λ k, (tt, udev_unref ctx k));; mret (Serr e)
      | Sret entry_list =>
          count ← count_devices ctx entry_list prefix 0;
          r ← (if count =? 0 then mret (Sret None) else
               nums ← collect_sysnums ctx entry_list prefix count [];
               if negb (Z.of_nat (length nums) =? count) then mret (Serr ENODATA)
               else match qsort_u32 nums with
                    | Some sorted => mret (Sret (Some sorted))
                    | None => ub
                    end);
          sys (λ k, (tt, udev_enumerate_unref ctx k));;
          sys (λ k, (tt, udev_unref ctx k));;
          mret r
      end
  end.

Definition generate_hwdep_sysnum_list (card_id : Z) : M (world K) (sysret (option (list Z))) :=
  generate_sysnum_list_by_sysname_prefix (HWDEP_SYSNAME_PREFIX card_id).
Definition generate_rawmidi_sysnum_list (card_id : Z) : M (world K) (sysret (option (list Z))) :=
  generate_sysnum_list_by_sysname_prefix (RAWMIDI_SYSNAME_PREFIX card_id).

(** A negative result of a helper is reported in the file domain. *)
Definition or_file_error {A} (m : M (world K) (sysret A)) (what : string) : M (world K) A :=
  err ← m;
  match err with
  | Serr e => generate_file_error e what
  | Sret a => mret a
  end.

(** *** Requests to the control device of a card *)

Definition O_RDONLY : Z := 0.
Definition O_WRONLY : Z := 1.
Definition O_RDWR : Z := 2.
Definition O_NONBLOCK : Z := 2048.

(** The file descriptor of the caller is written before the request is sent:
    [None] as long as it is not. *)
Definition request_ctl_ioctl_opened (card_id : Z) (req : request) (data : list byte) :
    M (world K) (sysret unit * option Z * list byte) :=
  devname ← lookup_and_allocate_devname_by_sysname ("controlC" +:+ decimal card_id);
  match devname with
  | Serr e => mret (Serr e, None, data)
  | Sret devname =>
      fd ← do_open devname (Z.lor O_RDONLY O_NONBLOCK);
      match fd with
      | Serr e => mret (Serr e, Some (-1), data)
      | Sret fd =>
          '(r, data) ← ioctl_val fd req data;
          mret (r, Some fd, data)
      end
  end.

(** The value of a variable that has not been written is indeterminate. *)
Definition initialized {A} (v : option A) : M (world K) A :=
  match v with Some v => mret v | None => ub end.

Definition request_ctl_ioctl (card_id : Z) (req : request) (data : list byte) :
    M (world K) (sysret unit * list byte) :=
  '(err, fd, data) ← request_ctl_ioctl_opened card_id req data;
  fd ← initialized fd;
  do_close fd;;
  mret (err, data).

(** A request to the control device with a structure of [n] bytes in memory. *)
Definition request_ctl_ioctl_mem (card_id : Z) (req : request) (p : ptr) (n : Z) :
    M (world K) (sysret unit) :=
  s ← mem (load p n);
  '(err, s') ← request_ctl_ioctl card_id req s;
  mem (store p s');;
  mret err.
End sysfs.
