(* ===== verification/SysfsProps.v ===== *)
(** * Properties of the helpers for numbers and devices *)
From S2P Require Import Prelude Heap SeqUapi Struct Kernel Sysfs.
From Stdlib Require Import Ascii Sorted.
From stdpp Require Import pretty.
Open Scope Z_scope.

(** ** Decimal literals *)

Abbreviation chars := String.list_ascii_of_string.

Lemma digit_char (d : N) : (d < 10)%N → digit (pretty_N_char d) = Some (Z.of_N d).
Proof.
  intros Hd. assert (d ∈ [0; 1; 2; 3; 4; 5; 6; 7; 8; 9])%N as Hin.
  { destruct (decide (d ∈ [0; 1; 2; 3; 4; 5; 6; 7; 8; 9])%N) as [|Hn]; [done|].
    exfalso. apply Hn. rewrite !elem_of_cons. lia. }
  repeat (apply elem_of_cons in Hin as [->|Hin]; [done|]). by apply not_elem_of_nil in Hin.
Qed.

(** The digits of a number are read as the number, with those before it as the
    higher digits. *)
Lemma digits_pretty_go (x : N) : ∃ len : nat, ∀ s acc,
  digits (chars (pretty_N_go x s)) acc =
    digits (chars s) (acc * 10 ^ Z.of_nat len + Z.of_N x).
Proof.
  induction (N.lt_wf_0 x) as [x _ IH].
  destruct (decide (x = 0%N)) as [->|Hx].
  { exists 0%nat. intros s acc. rewrite pretty_N_go_0. f_equal. lia. }
  destruct (IH (x / 10)%N) as [len Hlen]; [by apply N.div_lt; lia|]. exists (S len). intros s acc.
  rewrite pretty_N_go_step by lia. rewrite Hlen. cbn [chars digits].
  rewrite digit_char by (by apply N.mod_lt). f_equal.
  rewrite Nat2Z.inj_succ, Z.pow_succ_r by lia.
  pose proof (N.div_mod x 10 ltac:(done)). lia.
Qed.

Lemma pretty_go_head (x : N) s : (0 < x)%N → ∃ d t, (d < 10)%N ∧
  chars (pretty_N_go x s) = pretty_N_char d :: t.
Proof.
  revert s. induction (N.lt_wf_0 x) as [x _ IH]; intros s Hx. rewrite pretty_N_go_step by done.
  destruct (decide (x / 10 = 0)%N) as [->|Hq].
  - rewrite pretty_N_go_0. eexists _, _. split; [|done]. by apply N.mod_lt.
  - apply IH; [by apply N.div_lt|by apply N.neq_0_lt_0].
Qed.

(** What follows a literal. *)
Definition no_digits (rest : list ascii) : Prop :=
  match rest with c :: _ => digit c = None | [] => True end.

Lemma digits_end rest v : no_digits rest → digits rest v = (v, rest).
Proof. destruct rest as [|c rest]; [done|]. simpl. by intros ->. Qed.

Lemma chars_app s t : chars (s +:+ t) = chars s ++ chars t.
Proof. induction s as [|c s IH]; [done|]. simpl. by rewrite IH. Qed.

Lemma digits_pretty (x : N) rest : no_digits rest →
  digits (chars (pretty x) ++ rest) 0 = (Z.of_N x, rest) ∧
  ∃ d t, (d < 10)%N ∧ chars (pretty x) = pretty_N_char d :: t.
Proof.
  intros Hr.
  assert (∃ s, chars s = rest) as [s <-].
  { exists (String.string_of_list_ascii rest). by apply String.list_ascii_of_string_of_list_ascii. }
  unfold pretty, pretty_N. destruct (decide (x = 0)%N) as [->|Hx].
  - split; [|by exists 0%N, []]. by apply (digits_end (chars s) 0%Z).
  - split; [|apply pretty_go_head; lia].
    assert (∀ a b, pretty_N_go x a +:+ b = pretty_N_go x (a +:+ b)) as Happ.
    { clear. induction (N.lt_wf_0 x) as [x _ IH]; intros a b.
      destruct (decide (x = 0)%N) as [->|Hx]; [by rewrite !pretty_N_go_0|].
      rewrite !(pretty_N_go_step x) by lia. by rewrite IH by (apply N.div_lt; lia). }
    rewrite <- chars_app, Happ. cbn [String.append]. destruct (digits_pretty_go x) as [len Hlen].
    rewrite Hlen. rewrite digits_end by done. by f_equal.
Qed.

Lemma digit_not_space d t :
  (d < 10)%N → skip_space (pretty_N_char d :: t) = pretty_N_char d :: t ∧
  pretty_N_char d ≠ "-"%char ∧ pretty_N_char d ≠ "+"%char.
Proof.
  intros Hd. pose proof (digit_char d Hd) as Hc. unfold digit in Hc. cbn [skip_space]. unfold is_space.
  assert (∀ c, c = pretty_N_char d → ¬ (48 <= Z.of_nat (nat_of_ascii c)) → False) as Hbad.
  { intros c -> Hlt. destruct (Z.leb_spec 48 (Z.of_nat (nat_of_ascii (pretty_N_char d)))); [done|].
    discriminate Hc. }
  split; [|split; intros E; eapply (Hbad _ (eq_sym E)); vm_compute; intros H; by apply H].
  destruct (Z.eqb_spec (Z.of_nat (nat_of_ascii (pretty_N_char d))) 32) as [E|];
    [exfalso; eapply Hbad; [done|lia]|].
  destruct (Z.leb_spec (Z.of_nat (nat_of_ascii (pretty_N_char d))) 13);
    [exfalso; eapply Hbad; [done|lia]|]. by rewrite andb_false_r.
Qed.

(** A decimal literal is read as the number it was printed from, with or
    without a new line after it; a number outside the range of a long integer
    is refused with [ERANGE], and a literal followed by anything else with
    [EINVAL]. *)
Theorem long_from_string_decimal (n : Z) rest :
  no_digits rest →
  long_from_string (chars (decimal n) ++ rest) =
    if (n <? LONG_MIN) || (LONG_MAX <? n) then Serr ERANGE
    else match rest with
         | [] => Sret n
         | c :: _ => if (nat_of_ascii c =? 10)%nat then Sret n else Serr EINVAL
         end.
Proof.
  intros Hr.
  assert (∀ (neg : bool) (x : N), strtol ((if neg then ["-"%char] else []) ++ chars (pretty x) ++ rest) =
    let v := if neg then - Z.of_N x else Z.of_N x in
    Some (if v <? LONG_MIN then (LONG_MIN, true, rest)
          else if LONG_MAX <? v then (LONG_MAX, true, rest) else (v, false, rest))) as Hx.
  { intros neg x. destruct (digits_pretty x rest Hr) as [Hd (d & t & Hd10 & Et)].
    rewrite Et in Hd |- *. cbn [app] in Hd |- *.
    destruct (digit_not_space d (t ++ rest) Hd10) as (Hs & Hm & Hp). unfold strtol.
    destruct neg; cbn [app].
    - change (skip_space ("-"%char :: pretty_N_char d :: t ++ rest))
        with ("-"%char :: pretty_N_char d :: t ++ rest). cbv iota beta.
      by rewrite (digit_char d Hd10), Hd.
    - rewrite Hs. destruct (pretty_N_char d) as [[] [] [] [] [] [] [] []] eqn:Ec; try congruence;
        rewrite <- Ec, (digit_char d Hd10), Ec, Hd; reflexivity. }
  unfold long_from_string.
  assert (strtol (chars (decimal n) ++ rest) =
    Some (if n <? LONG_MIN then (LONG_MIN, true, rest)
          else if LONG_MAX <? n then (LONG_MAX, true, rest) else (n, false, rest))) as E.
  { unfold decimal. destruct n as [|p|p].
    - apply (Hx false 0%N).
    - apply (Hx false (N.pos p)).
    - apply (Hx true (N.pos p)). }
  rewrite E. destruct (n <? LONG_MIN); [done|]. by destruct (LONG_MAX <? n).
Qed.

(** ** Lists of devices

    What libudev documents of the devices of a subsystem: [sound_devices ds k]
    are the devices of the subsystem "sound" in the order of the enumeration,
    each with its path, its name and the number at the end of its name. *)
Record sound_device := SoundDevice { sd_path : string; sd_name : string; sd_num : string }.

Class SoundDevices (K : Type) := sound_devices : list sound_device → K → Prop.

Class SoundDevicesLaws (K : Type) `{!Udev K, !SoundDevices K} : Prop := {
  devices_new ds (k : K) : sound_devices ds k →
    ∃ ctx k', udev_new k = (Sret ctx, k') ∧ sound_devices ds k';
  devices_enumerate ds ctx (k : K) : sound_devices ds k →
    ∃ k', udev_enumerate ctx SOUND_SUBSYSTEM k = (Sret (map sd_path ds), k') ∧
      sound_devices ds k';
  devices_device ds ctx (k : K) d : sound_devices ds k → d ∈ ds →
    ∃ dev k', udev_device_new_from_syspath ctx (sd_path d) k = (Sret dev, k') ∧
      sound_devices ds k' ∧ udev_device_get_sysname dev k' = Sret (sd_name d) ∧
      udev_device_get_sysnum dev k' = Sret (sd_num d);
  devices_unref ds ctx (k : K) : sound_devices ds k → sound_devices ds (udev_unref ctx k);
  devices_unref_device ds dev (k : K) :
    sound_devices ds k → sound_devices ds (udev_device_unref dev k);
  devices_unref_enumerate ds ctx (k : K) :
    sound_devices ds k → sound_devices ds (udev_enumerate_unref ctx k);
}.

(** The devices whose name starts with the prefix, and their numbers. *)
Definition with_prefix (prefix : string) (ds : list sound_device) : list sound_device :=
  List.filter (λ d, String.prefix prefix (sd_name d)) ds.

Definition device_number (d : sound_device) : option Z :=
  match long_from_string (chars (sd_num d)) with Sret n => Some (u32 n) | Serr _ => None end.

Definition device_numbers (prefix : string) (ds : list sound_device) : list Z :=
  omap device_number (with_prefix prefix ds).

(** ** What [qsort] documents *)

Definition in_order (cmp : Z → Z → Z) (x y : Z) : Prop := cmp x y ≤ 0.

(** A comparison that orders the elements of [l]. *)
Definition consistent (cmp : Z → Z → Z) (l : list Z) : Prop := ∀ x y z,
  x ∈ l → y ∈ l → z ∈ l →
  (cmp x y < 0 ↔ 0 < cmp y x) ∧ (in_order cmp x y → in_order cmp y z → in_order cmp x z).

(** The elements are put in order by a consistent comparison; for another one
    nothing is said. *)
Definition qsort_documented (qsort : (Z → Z → Z) → list Z → option (list Z)) : Prop := ∀ cmp l,
  consistent cmp l → ∃ l', qsort cmp l = Some l' ∧ l' ≡ₚ l ∧ Sorted (in_order cmp) l'.

(** The comparison of the library is consistent on equal numbers only. *)
Lemma compare_u32_consistent l :
  consistent compare_u32 l ↔ ∀ x y, x ∈ l → y ∈ l → x = y.
Proof.
  unfold consistent, in_order, compare_u32. split.
  - intros H x y Hx Hy. destruct (H x y y Hx Hy Hy) as [H1 _], (H y x x Hy Hx Hx) as [H2 _].
    destruct (Z.ltb_spec y x), (Z.ltb_spec x y); lia.
  - intros H x y z Hx Hy Hz. rewrite (H x y Hx Hy), (H z y Hz Hy). rewrite Z.ltb_irrefl. lia.
Qed.

(** One number is left where it is. *)
Lemma qsort_u32_single qsort n : qsort_documented qsort → qsort_u32 qsort [n] = Some [n].
Proof.
  intros Hq. destruct (Hq compare_u32 [n]) as (l & E & Hp & _).
  { apply compare_u32_consistent. intros x y Hx Hy.
    apply list_elem_of_singleton in Hx, Hy. by rewrite Hx. }
  apply Permutation_singleton_r in Hp. subst l. unfold qsort_u32. by rewrite E.
Qed.

Section devices.
Context {K : Type} {UD : Udev K} {SD : SoundDevices K} {SDL : SoundDevicesLaws K}.
Context (qsort : (Z → Z → Z) → list Z → option (list Z)).
Implicit Types (h : heap) (k : K) (ds : list sound_device).

Lemma detect_device_run all ctx d prefix h k :
  sound_devices all k → d ∈ all →
  if String.prefix prefix (sd_name d) then
    ∃ dev k', detect_device ctx (sd_path d) prefix (World h k) = (Ret (Sret dev), World h k') ∧
      sound_devices all k' ∧ udev_device_get_sysnum dev k' = Sret (sd_num d)
  else ∃ k', detect_device ctx (sd_path d) prefix (World h k) =
      (Ret (Serr ENODEV), World h k') ∧ sound_devices all k'.
Proof.
  intros Hk Hd. destruct (devices_device all ctx k d Hk Hd) as (dev & k' & E & Hk' & En & Em).
  unfold detect_device, sys, mbind, M_bind, mret, M_ret. cbn [w_kern w_heap].
  rewrite E. cbn [w_kern w_heap]. rewrite En.
  destruct (String.prefix prefix (sd_name d)); [by exists dev, k'|].
  eexists. split; [done|]. by apply devices_unref_device.
Qed.

Lemma count_devices_run all ctx prefix ds : ∀ h k count,
  sound_devices all k → (∀ d, d ∈ ds → d ∈ all) →
  0 ≤ count → count + Z.of_nat (length ds) < 2 ^ 32 →
  ∃ k', count_devices ctx (map sd_path ds) prefix count (World h k) =
    (Ret (count + Z.of_nat (length (with_prefix prefix ds))), World h k') ∧ sound_devices all k'.
Proof.
  induction ds as [|d ds IH]; intros h k count Hk Hin Hc Hmax.
  { exists k. split; [|done]. cbn [map count_devices with_prefix List.filter length].
    by rewrite Z.add_0_r. }
  cbn [map count_devices with_prefix List.filter].
  pose proof (detect_device_run all ctx d prefix h k Hk (Hin d ltac:(by left))) as Hd.
  simpl in Hmax. destruct (String.prefix prefix (sd_name d)).
  - destruct Hd as (dev & k1 & E & Hk1 & _). rewrite (bind_Ret _ _ _ _ _ E).
    rewrite (bind_Ret _ _ _ _ _ (sys_run (λ k, (tt, udev_device_unref dev k)) h k1 tt _ eq_refl)).
    rewrite u32_id by (unfold is_u32; lia).
    destruct (IH h (udev_device_unref dev k1) (count + 1)) as (k2 & E2 & Hk2);
      [by apply devices_unref_device|intros x Hx; apply Hin; by right|lia..|].
    exists k2. split; [|done]. rewrite E2. do 2 f_equal. cbn [length]. unfold with_prefix. lia.
  - destruct Hd as (k1 & E & Hk1). rewrite (bind_Ret _ _ _ _ _ E).
    apply (IH h k1 count); [done|intros x Hx; apply Hin; by right|lia..].
Qed.

Lemma collect_sysnums_run all ctx prefix ds : ∀ h k count nums,
  sound_devices all k → (∀ d, d ∈ ds → d ∈ all) →
  Z.of_nat (length nums + length (with_prefix prefix ds)) ≤ count →
  ∃ k', collect_sysnums ctx (map sd_path ds) prefix count nums (World h k) =
    (Ret (nums ++ device_numbers prefix ds), World h k') ∧ sound_devices all k'.
Proof.
  induction ds as [|d ds IH]; intros h k count nums Hk Hin Hmax.
  { exists k. split; [|done]. cbn [map collect_sysnums]. unfold device_numbers.
    cbn [with_prefix List.filter omap list_omap]. by rewrite app_nil_r. }
  cbn [map collect_sysnums].
  pose proof (detect_device_run all ctx d prefix h k Hk (Hin d ltac:(by left))) as Hd.
  unfold device_numbers in *. cbn [with_prefix List.filter] in Hmax |- *.
  destruct (String.prefix prefix (sd_name d)).
  - destruct Hd as (dev & k1 & E & Hk1 & Em). rewrite (bind_Ret _ _ _ _ _ E).
    rewrite (bind_Ret _ _ _ _ _ (sys_run (λ k, (udev_device_get_sysnum dev k, k)) h k1 _ _ eq_refl)).
    rewrite Em. cbn [omap list_omap length] in *.
    assert (∃ more, match device_number d with Some y => [y] | None => [] end = more ∧
      (length more ≤ 1)%nat ∧
      match long_from_string (chars (sd_num d)) with
      | Sret val =>
          if Z.of_nat (length nums) <? count then mret (nums ++ [u32 val]) else ub
      | Serr _ => mret nums
      end (World h k1) = (Ret (nums ++ more), World h k1)) as (more & Emore & Hl & Er).
    { unfold device_number. destruct (long_from_string (chars (sd_num d))) as [v|e].
      - exists [u32 v]. split; [done|]. split; [done|].
        by destruct (Z.ltb_spec (Z.of_nat (length nums)) count); [|lia].
      - exists []. rewrite app_nil_r. split; [done|]. split; [simpl; lia|done]. }
    rewrite (bind_Ret _ _ _ _ _ Er).
    rewrite (bind_Ret _ _ _ _ _ (sys_run (λ k, (tt, udev_device_unref dev k)) h k1 tt _ eq_refl)).
    destruct (IH h (udev_device_unref dev k1) count (nums ++ more)) as (k2 & E2 & Hk2);
      [by apply devices_unref_device|intros x Hx; apply Hin; by right
      |rewrite length_app; unfold with_prefix; lia|].
    exists k2. split; [|done]. rewrite E2. do 2 f_equal. rewrite <- app_assoc. f_equal.
    rewrite <- Emore. by destruct (device_number d).
  - destruct Hd as (k1 & E & Hk1). rewrite (bind_Ret _ _ _ _ _ E).
    apply (IH h k1 count); [done|intros x Hx; apply Hin; by right|done].
Qed.

(** The list of the numbers of devices is what filtering the devices by the
    prefix of their name and reading their numbers gives: no list when no name
    has the prefix, an error when a number cannot be read, and otherwise what
    [qsort] makes of the numbers, which is undefined where [qsort] is.  A prefix is a matter of characters: the list
    of the devices of card 1 has those of the cards 10 to 19 too. *)
Theorem sysnum_list_equivalence ds prefix h k :
  sound_devices ds k → Z.of_nat (length ds) < 2 ^ 32 →
  ∃ k', sound_devices ds k' ∧
    generate_sysnum_list_by_sysname_prefix qsort prefix (World h k) =
    (let nums := device_numbers prefix ds in
     if (length (with_prefix prefix ds) =? 0)%nat then Ret (Sret None)
     else if (length nums =? length (with_prefix prefix ds))%nat
     then match qsort_u32 qsort nums with Some sorted => Ret (Sret (Some sorted)) | None => UB end
     else Ret (Serr ENODATA),
     World h k').
Proof.
  intros Hk Hmax. unfold generate_sysnum_list_by_sysname_prefix.
  destruct (devices_new ds k Hk) as (ctx & k1 & E1 & Hk1).
  rewrite (bind_Ret _ _ _ _ _ (sys_run _ h k _ _ E1)).
  destruct (devices_enumerate ds ctx k1 Hk1) as (k2 & E2 & Hk2).
  rewrite (bind_Ret _ _ _ _ _ (sys_run _ h k1 _ _ E2)).
  destruct (count_devices_run ds ctx prefix ds h k2 0) as (k3 & E3 & Hk3); [done|done|lia|lia|].
  rewrite (bind_Ret _ _ _ _ _ E3), Z.add_0_l.
  pose proof (devices_unref ds ctx _ (devices_unref_enumerate ds ctx k3 Hk3)) as Hend.
  destruct (Nat.eqb_spec (length (with_prefix prefix ds)) 0) as [H0|H0].
  { rewrite H0. by eexists. }
  destruct (Z.eqb_spec (Z.of_nat (length (with_prefix prefix ds))) 0) as [|_]; [lia|].
  destruct (collect_sysnums_run ds ctx prefix ds h k3
    (Z.of_nat (length (with_prefix prefix ds))) []) as (k4 & E4 & Hk4); [done|done|simpl; lia|].
  pose proof (devices_unref ds ctx _ (devices_unref_enumerate ds ctx k4 Hk4)) as Hend4.
  rewrite bind_assoc, (bind_Ret _ _ _ _ _ E4). cbn [app].
  destruct (Nat.eqb_spec (length (device_numbers prefix ds)) (length (with_prefix prefix ds)))
    as [Hn|Hn].
  - rewrite Hn, Z.eqb_refl. cbn [negb].
    destruct (qsort_u32 qsort (device_numbers prefix ds)); [by eexists|].
    exists k4. split; [done|]. by apply bind_UB.
  - destruct (Z.eqb_spec (Z.of_nat (length (device_numbers prefix ds)))
      (Z.of_nat (length (with_prefix prefix ds)))) as [|_]; [lia|]. by eexists.
Qed.
End devices.

(** ** Concrete runs *)

Module SysfsWitness.

Lemma long_from_string_decimal_witness :
  no_digits ["010"%char] ∧ long_from_string (chars (decimal (-12)) ++ ["010"%char]) = Sret (-12).
Proof. split; [done|]. by apply (long_from_string_decimal (-12) ["010"%char]). Defined.

(** Devices of the cards 1 and 10. *)
Definition devices : list sound_device := [
  SoundDevice "/sys/class/sound/midiC10D3" "midiC10D3" "3";
  SoundDevice "/sys/class/sound/midiC1D0" "midiC1D0" "0";
  SoundDevice "/sys/class/sound/controlC1" "controlC1" "1"
].

#[local] Instance host : Udev unit := {|
  udev := unit;
  udev_device := sound_device;
  udev_new k := (Sret tt, k);
  udev_unref _ k := k;
  udev_device_new_from_subsystem_sysname _ _ _ k := (Serr ENODEV, k);
  udev_device_new_from_syspath _ path k :=
    (match List.find (λ d, String.eqb (sd_path d) path) devices with
     | Some d => Sret d | None => Serr ENODEV end, k);
  udev_device_get_sysname d _ := Sret (sd_name d);
  udev_device_get_devnode _ _ := Serr ENOENT;
  udev_device_get_sysnum d _ := Sret (sd_num d);
  udev_device_unref _ k := k;
  udev_enumerate _ _ k := (Sret (map sd_path devices), k);
  udev_enumerate_unref _ k := k;
|}.

#[local] Instance devices_view : SoundDevices unit := λ ds k, ds = devices.

#[local] Instance devices_laws : SoundDevicesLaws unit.
Proof.
  split; try done.
  - intros ds k Hk. by exists tt, k.
  - intros ds ctx k ->. by exists k.
  - intros ds ctx k d -> Hd. exists d, k. split; [|done].
    cbn [udev_device_new_from_syspath host]. unfold devices in Hd.
    repeat (apply elem_of_cons in Hd as [->|Hd]; [by vm_compute|]).
    by apply not_elem_of_nil in Hd.
Qed.

(** Insertion, after the elements that do not come later. *)
Fixpoint insert_by (cmp : Z → Z → Z) (x : Z) (l : list Z) : list Z :=
  match l with
  | [] => [x]
  | y :: l' => if 0 <? cmp y x then x :: l else y :: insert_by cmp x l'
  end.
Definition sort_by (cmp : Z → Z → Z) (l : list Z) : option (list Z) :=
  Some (foldl (λ acc x, insert_by cmp x acc) [] l).

Lemma insert_perm cmp x l : insert_by cmp x l ≡ₚ x :: l.
Proof.
  induction l as [|y l IH]; [done|]. cbn [insert_by]. destruct (0 <? cmp y x); [done|].
  rewrite IH. apply Permutation_swap.
Qed.

Lemma insert_sorted cmp all x l :
  consistent cmp all → x ∈ all → (∀ y, y ∈ l → y ∈ all) → Sorted (in_order cmp) l →
  Sorted (in_order cmp) (insert_by cmp x l).
Proof.
  intros Hc Hx Hl Hs. induction Hs as [|y l Hs IH Hd]; [by repeat constructor|].
  cbn [insert_by]. destruct (Z.ltb_spec 0 (cmp y x)) as [Hlt|Hle].
  - constructor; [by constructor|]. constructor.
    destruct (Hc y x x) as [H _]; [apply Hl; by left|done|done|].
    destruct (Hc x y y) as [H' _]; [done|apply Hl; by left|apply Hl; by left|].
    unfold in_order. apply Z.lt_le_incl. by apply H'.
  - constructor; [apply IH; intros z Hz; apply Hl; by right|].
    destruct Hd as [|z l Hyz]; cbn [insert_by]; [by constructor|].
    destruct (0 <? cmp z x); by constructor.
Qed.

Lemma sort_by_documented : qsort_documented sort_by.
Proof.
  intros cmp l Hc. eexists. split; [done|].
  assert (∀ done todo, l = done ++ todo → ∀ acc, acc ≡ₚ done → Sorted (in_order cmp) acc →
    foldl (λ acc x, insert_by cmp x acc) acc todo ≡ₚ l ∧
    Sorted (in_order cmp) (foldl (λ acc x, insert_by cmp x acc) acc todo)) as H.
  { intros seen todo. revert seen. induction todo as [|x todo IH]; intros seen El acc Hp Hs.
    { rewrite app_nil_r in El. cbn [foldl]. by rewrite El. }
    cbn [foldl]. apply (IH (seen ++ [x])); [by rewrite El, <- app_assoc| |].
    - rewrite insert_perm, Hp. by rewrite Permutation_app_comm.
    - apply (insert_sorted cmp l); [done| | |done].
      + rewrite El. apply elem_of_app. right. by left.
      + intros y Hy. rewrite Hp in Hy. rewrite El. apply elem_of_app. by left. }
  by apply (H [] l).
Qed.

(** The devices of card 1, and the one of card 10. *)
Lemma sysnum_list_equivalence_witness :
  ∃ k', sound_devices devices k' ∧
    generate_rawmidi_sysnum_list sort_by 1 (World ∅ tt) = (Ret (Sret (Some [0; 3])), World ∅ k').
Proof.
  by apply (sysnum_list_equivalence sort_by devices (RAWMIDI_SYSNAME_PREFIX 1) ∅ tt).
Defined.
End SysfsWitness.
