(* ===== verification/CString.v ===== *)
(** * Strings in memory: [src/src/utils/string.c]

    C strings in blocks of the heap, the functions of the C library on them
    that the helpers use, and the helper that prints into a new block. *)
From S2P Require Import Prelude Heap SeqUapi Struct Kernel Sysfs.
From Stdlib Require Import Ascii.

(** The bytes of a string with the null character at its end. *)
Definition c_string (s : string) : list byte := bytes_of_string s ++ [Byte.x00].

(** ** The C library *)

(** A list of variadic arguments, all of them of type [unsigned int]. *)
Definition va_list : Type := list Z.

(** What a format stands for.  [None] for a directive other than "%u" and "%%",
    and for a missing argument, which is undefined. *)
Fixpoint format (fmt : list ascii) (ap : va_list) : option (list ascii) :=
  match fmt with
  | [] => Some []
  | "%"%char :: "u"%char :: fmt =>
      match ap with
      | z :: ap => app (String.list_ascii_of_string (decimal z)) <$> format fmt ap
      | [] => None
      end
  | "%"%char :: "%"%char :: fmt => cons "%"%char <$> format fmt ap
  | "%"%char :: _ => None
  | c :: fmt => cons c <$> format fmt ap
  end.

Definition format_string (fmt : string) (ap : va_list) : option string :=
  String.string_of_list_ascii <$> format (String.list_ascii_of_string fmt) ap.

Section memory.
Context {AL : Allocator}.

(** [malloc (n)] and [calloc (count, size)] for positive sizes: NULL when no
    memory is left. *)
Definition malloc (n : Z) : M heap Z := λ h,
  match alloc_addr h n with
  | Some a => (Ret a, <[a := alloc_junk h (Z.to_nat n)]> h)
  | None => (Ret 0, h)
  end.

Definition calloc (count size : Z) : M heap Z := λ h,
  match alloc_addr h (count * size) with
  | Some a => (Ret a, <[a := zeros (Z.to_nat (count * size))]> h)
  | None => (Ret 0, h)
  end.

(** [free (v)]: a variable that has not been written has no address. *)
Definition free (v : option Z) : M heap unit :=
  match v with Some a => g_free a | None => ub end.

(** The string at a pointer: the bytes before the null character, which has to
    come before the end of the block. *)
Definition load_string (p : ptr) : M heap (list byte) := λ h,
  match h !! p.1 with
  | Some bs =>
      let rest := drop (Z.to_nat p.2) bs in
      if bool_decide (0 ≤ p.2 ∧ Byte.x00 ∈ rest) then (Ret (c_str rest), h) else (UB, h)
  | None => (UB, h)
  end.

Definition strdup (s : string) : M heap Z :=
  a ← malloc (Z.of_nat (length (c_string s)));
  (if a =? 0 then mret tt else store (a, 0) (c_string s));;
  mret a.

(** [vsnprintf (str, size, fmt, ap)]: the length of the whole text, negative
    when it is no [int]; at most [size] bytes are written. *)
Definition vsnprintf (str size : Z) (fmt : string) (ap : va_list) : M heap Z :=
  match format_string fmt ap with
  | Some s =>
      let bs := bytes_of_string s in
      if INT_MAX <? Z.of_nat (length bs) then mret (-1) else
      (if size =? 0 then mret tt
       else store (str, 0) (take (Z.to_nat (size - 1)) bs ++ [Byte.x00]));;
      mret (Z.of_nat (length bs))
  | None => ub
  end.

(** ** [allocate_string] *)

(** The result, and what is written to [dst]. *)
Definition allocate_string (template : string) (ap : va_list) :
    M heap (sysret unit * option Z) :=
  size ← vsnprintf 0 0 template ap;
  if size <? 0 then mret (Serr EINVAL, None) else
  size ← (if size + 1 <=? INT_MAX then mret (size + 1) else ub);
  label ← malloc size;
  if label =? 0 then mret (Serr ENOMEM, None) else
  vsnprintf label size template ap;;
  mret (Sret tt, Some label).
End memory.
