(* ===== verification/UtilsMem.v ===== *)
(** * Helpers with their storage: [src/src/utils]

    The helpers of Sysfs.v once more, with the strings and arrays they print,
    duplicate and fill in memory, and the wrappers of [utils.h] that print the
    name of a device first.  An out parameter is [None] as long as it is not
    written. *)
From S2P Require Import Prelude Heap SeqUapi Struct Kernel Sysfs CString.

(** ** Names of devices *)

Definition CARD_SYSNAME_PREFIX : string := "card".
Definition CARD_SYSNAME_TEMPLATE : string := CARD_SYSNAME_PREFIX +:+ "%u".
Definition CONTROL_SYSNAME_TEMPLATE : string := "controlC%u".
Definition RAWMIDI_SYSNAME_PREFIX_TEMPLATE : string := "midiC%u".
Definition RAWMIDI_SYSNAME_TEMPLATE : string := RAWMIDI_SYSNAME_PREFIX_TEMPLATE +:+ "D%u".
Definition HWDEP_SYSNAME_PREFIX_TEMPLATE : string := "hwC%u".
Definition HWDEP_SYSNAME_TEMPLATE : string := HWDEP_SYSNAME_PREFIX_TEMPLATE +:+ "D%u".
Definition TIMER_SYSNAME : string := "timer".
Definition SEQ_SYSNAME : string := "seq".

Section utils.
Context {AL : Allocator} {GL : GLib} {K : Type} {KERN : Kernel K} {UD : Udev K}.

(** What [qsort] of the C library makes of the elements of an array. *)
Context (qsort : (Z → Z → Z) → list Z → option (list Z)).

(** ** Lookups *)

(** The name [sysname] points to. *)
Definition read_name (sysname : Z) : M (world K) string :=
  bs ← mem (load_string (sysname, 0)); mret (string_of_bytes bs).

(** [sysfs.c]; the result, and what is written to [name]. *)
Definition lookup_and_allocate_string_by_sysname (sysname : Z)
    (func : udev_device → K → sysret string) : M (world K) (sysret unit * option Z) :=
  if sysname =? 0 then mret (Serr EINVAL, None) else
  ctx ← sys udev_new;
  match ctx with
  | Serr e => mret (Serr e, None)
  | Sret ctx =>
      s ← read_name sysname;
      device ← sys (udev_device_new_from_subsystem_sysname ctx SOUND_SUBSYSTEM s);
      r ← match device with
          | Serr e => mret (Serr e, None)
          | Sret device =>
              n ← sys (λ k, (func device k, k));
              r ← match n with
                  | Serr e => mret (Serr e, None)
                  | Sret n =>
                      name ← mem (strdup n);
                      mret (if name =? 0 then Serr ENOMEM else Sret tt, Some name)
                  end;
              sys (λ k, (tt, udev_device_unref device k));;
              mret r
          end;
      sys (λ k, (tt, udev_unref ctx k));;
      mret r
  end.

(** [utils.h] *)
Definition lookup_and_allocate_name_by_sysname (func : udev_device → K → sysret string)
    (fmt : string) (ap : va_list) : M (world K) (sysret unit * option Z) :=
  '(err, sysname) ← mem (allocate_string fmt ap);
  r ← match err with
      | Sret _ =>
          sysname ← initialized sysname;
          lookup_and_allocate_string_by_sysname sysname func
      | Serr e => mret (Serr e, None)
      end;
  mem (free sysname);;
  mret r.

Definition lookup_and_allocate_sysname_by_sysname (fmt : string) (ap : va_list) :
    M (world K) (sysret unit * option Z) :=
  lookup_and_allocate_name_by_sysname udev_device_get_sysname fmt ap.

Definition lookup_and_allocate_devname_by_sysname (fmt : string) (ap : va_list) :
    M (world K) (sysret unit * option Z) :=
  lookup_and_allocate_name_by_sysname udev_device_get_devnode fmt ap.

Definition lookup_and_allocate_card_sysname (card_id : Z) :=
  lookup_and_allocate_sysname_by_sysname CARD_SYSNAME_TEMPLATE [card_id].
Definition lookup_and_allocate_control_sysname (card_id : Z) :=
  lookup_and_allocate_sysname_by_sysname CONTROL_SYSNAME_TEMPLATE [card_id].
Definition lookup_and_allocate_control_devname (card_id : Z) :=
  lookup_and_allocate_devname_by_sysname CONTROL_SYSNAME_TEMPLATE [card_id].
Definition lookup_and_allocate_hwdep_sysname (card_id device_id : Z) :=
  lookup_and_allocate_sysname_by_sysname HWDEP_SYSNAME_TEMPLATE [card_id; device_id].
Definition lookup_and_allocate_hwdep_devname (card_id device_id : Z) :=
  lookup_and_allocate_devname_by_sysname HWDEP_SYSNAME_TEMPLATE [card_id; device_id].
Definition lookup_and_allocate_rawmidi_sysname (card_id device_id : Z) :=
  lookup_and_allocate_sysname_by_sysname RAWMIDI_SYSNAME_TEMPLATE [card_id; device_id].
Definition lookup_and_allocate_rawmidi_devname (card_id device_id : Z) :=
  lookup_and_allocate_devname_by_sysname RAWMIDI_SYSNAME_TEMPLATE [card_id; device_id].
Definition lookup_and_allocate_timer_sysname :=
  lookup_and_allocate_sysname_by_sysname TIMER_SYSNAME [].
Definition lookup_and_allocate_timer_devname :=
  lookup_and_allocate_devname_by_sysname TIMER_SYSNAME [].
Definition lookup_and_allocate_seq_sysname :=
  lookup_and_allocate_sysname_by_sysname SEQ_SYSNAME [].
Definition lookup_and_allocate_seq_devname :=
  lookup_and_allocate_devname_by_sysname SEQ_SYSNAME [].

(** ** Numbers of devices *)

(** The prefix is read from memory for each entry. *)
Definition detect_entry (ctx : udev) (syspath : string) (prefix : Z) :
    M (world K) (sysret udev_device) :=
  s ← read_name prefix; detect_device ctx syspath s.

Fixpoint count_entries (ctx : udev) (entry_list : list string) (prefix : Z) (count : Z) :
    M (world K) Z :=
  match entry_list with
  | [] => mret count
  | entry :: entry_list =>
      dev ← detect_entry ctx entry prefix;
      match dev with
      | Serr _ => count_entries ctx entry_list prefix count
      | Sret dev =>
          sys (λ k, (tt, udev_device_unref dev k));;
          count_entries ctx entry_list prefix (u32 (count + 1))
      end
  end.

(** The numbers are written to the array [entries], the next one at [index]. *)
Fixpoint fill_entries (ctx : udev) (entry_list : list string) (prefix entries index : Z) :
    M (world K) Z :=
  match entry_list with
  | [] => mret index
  | entry :: entry_list =>
      dev ← detect_entry ctx entry prefix;
      match dev with
      | Serr _ => fill_entries ctx entry_list prefix entries index
      | Sret dev =>
          sysnum ← sys (λ k, (udev_device_get_sysnum dev k, k));
          index ← match sysnum with
                  | Sret sysnum =>
                      match long_from_string (String.list_ascii_of_string sysnum) with
                      | Sret val =>
                          mem (store (entries, 4 * index) (le_split 4 (u32 val)));;
                          mret (u32 (index + 1))
                      | Serr _ => mret index
                      end
                  | Serr _ => mret index
                  end;
          sys (λ k, (tt, udev_device_unref dev k));;
          fill_entries ctx entry_list prefix entries index
      end
  end.

(** The elements of an array of [count] numbers. *)
Definition array_nums (bs : list byte) (count : nat) : list Z :=
  map (λ i, le_u (4 * i) 4 bs) (seq 0 count).

Definition array_bytes (nums : list Z) : list byte := concat (map (le_split 4) nums).

Definition sort_entries (entries count : Z) : M (world K) unit :=
  bs ← mem (load (entries, 0) (4 * count));
  match qsort_u32 qsort (array_nums bs (Z.to_nat count)) with
  | Some sorted => mem (store (entries, 0) (array_bytes sorted))
  | None => ub
  end.

(** The result, and what is written to [entries] and [entry_count]. *)
Definition generate_sysnum_list_by_sysname_prefix (prefix : Z) :
    M (world K) (sysret unit * option Z * option Z) :=
  ctx ← sys udev_new;
  match ctx with
  | Serr e => mret (Serr e, None, None)
  | Sret ctx =>
      entry_list ← sys (udev_enumerate ctx SOUND_SUBSYSTEM);
      match entry_list with
      | Serr e => sys (λ k, (tt, udev_unref ctx k));; mret (Serr e, None, None)
      | Sret entry_list =>
          count ← count_entries ctx entry_list prefix 0;
          r ← (if count =? 0 then mret (Sret tt, None, None) else
               entries ← mem (calloc count 4);
               if entries =? 0 then mret (Serr ENOMEM, Some 0, None) else
               index ← fill_entries ctx entry_list prefix entries 0;
               if negb (index =? count) then mret (Serr ENODATA, Some entries, None) else
               sort_entries entries count;;
               mret (Sret tt, Some entries, Some count));
          sys (λ k, (tt, udev_enumerate_unref ctx k));;
          sys (λ k, (tt, udev_unref ctx k));;
          mret r
      end
  end.

Definition generate_sysnum_list (fmt : string) (ap : va_list) :
    M (world K) (sysret unit * option Z * option Z) :=
  '(err, prefix) ← mem (allocate_string fmt ap);
  r ← match err with
      | Sret _ => prefix ← initialized prefix; generate_sysnum_list_by_sysname_prefix prefix
      | Serr e => mret (Serr e, None, None)
      end;
  mem (free prefix);;
  mret r.

Definition generate_card_sysnum_list := generate_sysnum_list CARD_SYSNAME_PREFIX [].
Definition generate_hwdep_sysnum_list (card_id : Z) :=
  generate_sysnum_list HWDEP_SYSNAME_PREFIX_TEMPLATE [card_id].
Definition generate_rawmidi_sysnum_list (card_id : Z) :=
  generate_sysnum_list RAWMIDI_SYSNAME_PREFIX_TEMPLATE [card_id].

(** ** Requests to the control device of a card *)

(** [ioctl.c]: the name of the node is released once it is open. *)
Definition request_ctl_ioctl_opened (card_id : Z) (req : request) (data : list byte) :
    M (world K) (sysret unit * option Z * list byte) :=
  '(err, devname) ← lookup_and_allocate_control_devname card_id;
  match err with
  | Serr e => mret (Serr e, None, data)
  | Sret _ =>
      devname ← initialized devname;
      path ← read_name devname;
      fd ← do_open path (Z.lor O_RDONLY O_NONBLOCK);
      mem (free (Some devname));;
      match fd with
      | Serr e => mret (Serr e, Some (-1), data)
      | Sret fd =>
          '(r, data) ← ioctl_val fd req data;
          mret (r, Some fd, data)
      end
  end.

Definition request_ctl_ioctl (card_id : Z) (req : request) (data : list byte) :
    M (world K) (sysret unit * list byte) :=
  '(err, fd, data) ← request_ctl_ioctl_opened card_id req data;
  fd ← initialized fd;
  do_close fd;;
  mret (err, data).
End utils.
