(* ===== verification/UtilsMemProps.v ===== *)
(** * Properties of the helpers with their storage

    The helpers in memory do what those of Sysfs.v do with values, release the
    storage they need for themselves and leave the rest of the memory alone;
    the names they print tell the devices apart. *)
From S2P Require Import Prelude Heap SeqUapi Struct Kernel Sysfs SysfsProps CString UtilsMem.
From stdpp Require Import pretty.
Open Scope Z_scope.

(** ** Bytes of strings *)

Lemma bytes_of_string_app s t :
  bytes_of_string (s +:+ t) = bytes_of_string s ++ bytes_of_string t.
Proof. unfold bytes_of_string. by rewrite chars_app, map_app. Qed.

Lemma string_of_chars_app l l' :
  String.string_of_list_ascii (l ++ l') =
    String.string_of_list_ascii l +:+ String.string_of_list_ascii l'.
Proof. induction l as [|c l IH]; [done|]. cbn. by rewrite IH. Qed.

Lemma ascii_byte c :
  Ascii.ascii_of_nat (Z.to_nat (byte.unsigned (byte.of_Z (Z.of_nat (Ascii.nat_of_ascii c))))) = c.
Proof.
  rewrite byte.unsigned_of_Z. unfold byte.wrap.
  pose proof (Ascii.nat_ascii_bounded c). rewrite Z.mod_small by lia.
  by rewrite Nat2Z.id, Ascii.ascii_nat_embedding.
Qed.

Lemma string_of_bytes_of_string s : string_of_bytes (bytes_of_string s) = s.
Proof.
  unfold string_of_bytes, bytes_of_string. rewrite map_map.
  rewrite (map_ext _ (λ c, c)) by (apply ascii_byte). rewrite map_id.
  apply String.string_of_list_ascii_of_string.
Qed.

Lemma length_bytes_of_string s : length (bytes_of_string s) = String.length s.
Proof. unfold bytes_of_string. rewrite length_map. by induction s as [|c s IH]; [|cbn; f_equal]. Qed.

(** A string without null characters. *)
Definition printable (s : string) : Prop := c_chars_only (bytes_of_string s).

Lemma load_c_string h a s :
  printable s → h !! a = Some (c_string s) →
  load_string (a, 0) h = (Ret (bytes_of_string s), h).
Proof.
  intros Hs Ha. unfold load_string. cbn [fst snd]. rewrite Ha, drop_0. unfold c_string.
  rewrite bool_decide_true by (split; [done|]; apply elem_of_app; right; by left).
  by rewrite c_str_app_nul.
Qed.

(** ** Decimal numbers *)

Lemma pretty_go_length n : ∀ x s, (x < 10 ^ N.of_nat n)%N →
  (String.length (pretty_N_go x s) ≤ n + String.length s)%nat.
Proof.
  induction n as [|n IH]; intros x s Hx.
  - assert (x = 0%N) as -> by (cbn in Hx; lia). by rewrite pretty_N_go_0.
  - destruct (decide (x = 0%N)) as [->|Hne]; [rewrite pretty_N_go_0; lia|].
    rewrite pretty_N_go_step by lia.
    assert (x / 10 < 10 ^ N.of_nat n)%N as Hd.
    { apply N.Div0.div_lt_upper_bound. rewrite Nat2N.inj_succ, N.pow_succ_r' in Hx. lia. }
    etrans; [by apply IH|]. cbn [String.length]. lia.
Qed.

Lemma decimal_N z : 0 ≤ z → decimal z = pretty (Z.to_N z).
Proof. intros Hz. by destruct z as [|x|x]; [..|lia]. Qed.

Lemma decimal_length z : is_u32 z → (String.length (decimal z) ≤ 10)%nat.
Proof.
  intros [Hz Hlt]. rewrite decimal_N by done. unfold pretty, pretty_N.
  destruct (decide _); [simpl; lia|].
  assert (Z.to_N z < 10000000000)%N as Hd by lia.
  pose proof (pretty_go_length 10 (Z.to_N z) "" Hd) as H. simpl in H. lia.
Qed.

Lemma printable_app s t : printable s → printable t → printable (s +:+ t).
Proof. unfold printable, c_chars_only. rewrite bytes_of_string_app. by apply Forall_app_2. Qed.

Lemma printable_pretty_go (x : N) : ∀ s, printable s → printable (pretty_N_go x s).
Proof.
  induction (N.lt_wf_0 x) as [x _ IH]; intros s Hs.
  destruct (decide (x = 0%N)) as [->|Hne]; [by rewrite pretty_N_go_0|].
  rewrite pretty_N_go_step by lia. apply IH; [apply N.div_lt; lia|].
  constructor; [|done].
  assert (x `mod` 10 < 10)%N as Hd by by apply N.mod_lt.
  generalize dependent (x `mod` 10)%N. clear. intros d Hd.
  assert (d ∈ [0; 1; 2; 3; 4; 5; 6; 7; 8; 9])%N as Hin.
  { destruct (decide (d ∈ [0; 1; 2; 3; 4; 5; 6; 7; 8; 9])%N) as [|Hn]; [done|].
    exfalso. apply Hn. rewrite !elem_of_cons. lia. }
  repeat (apply elem_of_cons in Hin as [->|Hin]; [by vm_compute|]). by apply not_elem_of_nil in Hin.
Qed.

Lemma printable_decimal z : 0 ≤ z → printable (decimal z).
Proof.
  intros Hz. rewrite decimal_N by done. unfold pretty, pretty_N.
  destruct (decide _); [by repeat constructor; vm_compute|]. apply printable_pretty_go. constructor.
Qed.

(** A decimal number at the start of a text is read back. *)
Lemma digits_decimal z rest :
  0 ≤ z → no_digits rest → digits (chars (decimal z) ++ rest) 0 = (z, rest).
Proof.
  intros Hz Hr. rewrite decimal_N by done. destruct (digits_pretty (Z.to_N z) rest Hr) as [-> _].
  by rewrite Z2N.id.
Qed.

(** ** Names of devices *)

(** The devices the library knows by name. *)
Inductive device :=
  | DCard (card_id : Z)
  | DControl (card_id : Z)
  | DRawmidi (card_id device_id : Z)
  | DHwdep (card_id device_id : Z)
  | DTimer
  | DSeq.

(** The identifiers are of type [unsigned int]. *)
Definition device_ok (d : device) : Prop :=
  match d with
  | DCard c | DControl c => is_u32 c
  | DRawmidi c n | DHwdep c n => is_u32 c ∧ is_u32 n
  | DTimer | DSeq => True
  end.

(** What is printed for a device: the template and its arguments. *)
Definition device_template (d : device) : string :=
  match d with
  | DCard _ => CARD_SYSNAME_TEMPLATE
  | DControl _ => CONTROL_SYSNAME_TEMPLATE
  | DRawmidi _ _ => RAWMIDI_SYSNAME_TEMPLATE
  | DHwdep _ _ => HWDEP_SYSNAME_TEMPLATE
  | DTimer => TIMER_SYSNAME
  | DSeq => SEQ_SYSNAME
  end.

Definition device_args (d : device) : va_list :=
  match d with
  | DCard c | DControl c => [c]
  | DRawmidi c n | DHwdep c n => [c; n]
  | DTimer | DSeq => []
  end.

(** The names the queries look up. *)
Definition device_name (d : device) : string :=
  match d with
  | DCard c => "card" +:+ decimal c
  | DControl c => "controlC" +:+ decimal c
  | DRawmidi c n => RAWMIDI_SYSNAME c n
  | DHwdep c n => HWDEP_SYSNAME c n
  | DTimer => "timer"
  | DSeq => "seq"
  end.

#[local] Opaque decimal.

(** A template and its arguments print a name. *)
Ltac printed :=
  unfold format_string; cbn [device_template device_args];
  match goal with |- context [chars ?t] =>
    let l := eval vm_compute in (chars t) in change (chars t) with l end;
  cbn; f_equal; rewrite ?app_nil_r, ?string_of_chars_app; cbn;
  by rewrite ?String.string_of_list_ascii_of_string.

Lemma device_name_printed d :
  format_string (device_template d) (device_args d) = Some (device_name d).
Proof. destruct d; printed. Qed.

Lemma string_length_app s t :
  String.length (s +:+ t) = (String.length s + String.length t)%nat.
Proof. by rewrite <- !length_bytes_of_string, bytes_of_string_app, length_app. Qed.

(** The whole text fits: its length is an [int], also with the null character. *)
Definition text_fits s : Prop := Z.of_nat (length (c_string s)) ≤ INT_MAX.

Lemma length_c_string s : length (c_string s) = S (String.length s).
Proof. unfold c_string. rewrite length_app, length_bytes_of_string. cbn. lia. Qed.

(** Names are printable and short: literals and numbers. *)
Definition name_ok s : Prop := printable s ∧ text_fits s.

Lemma short_name_ok s : printable s → (String.length s ≤ 100)%nat → name_ok s.
Proof. intros Hs Hl. split; [done|]. unfold text_fits, INT_MAX. rewrite length_c_string. lia. Qed.

Ltac name_ok :=
  apply short_name_ok;
  [repeat apply printable_app;
   first [apply printable_decimal; lia|by repeat constructor; vm_compute]
  |rewrite ?string_length_app;
   repeat match goal with
   | |- context [decimal ?z] =>
       pose proof (decimal_length z ltac:(unfold is_u32; lia)); generalize dependent (decimal z); intros
   end; cbn; lia].

Lemma device_name_ok d : device_ok d → name_ok (device_name d).
Proof.
  destruct d; cbn [device_ok device_name]; unfold is_u32, RAWMIDI_SYSNAME,
    RAWMIDI_SYSNAME_PREFIX, HWDEP_SYSNAME, HWDEP_SYSNAME_PREFIX; intros; name_ok.
Qed.

Lemma decimal_app_inj c c' r r' :
  0 ≤ c → 0 ≤ c' → no_digits r → no_digits r' →
  chars (decimal c) ++ r = chars (decimal c') ++ r' → c = c' ∧ r = r'.
Proof.
  intros Hc Hc' Hr Hr' E. apply (f_equal (λ l, digits l 0)) in E.
  rewrite !digits_decimal in E by done. by injection E.
Qed.

Lemma decimal_inj c c' : decimal c = decimal c' → c = c'.
Proof. apply (inj pretty). Qed.

Lemma chars_inj s s' : chars s = chars s' → s = s'.
Proof.
  intros E. by rewrite <- (String.string_of_list_ascii_of_string s), E,
    String.string_of_list_ascii_of_string.
Qed.

(** A name with the numbers of a card and of a device. *)
Lemma two_numbers_inj (p : list Ascii.ascii) c n c' n' :
  0 ≤ c → 0 ≤ c' →
  (p ++ chars (decimal c)) ++ chars "D" ++ chars (decimal n) =
    (p ++ chars (decimal c')) ++ chars "D" ++ chars (decimal n') → c = c' ∧ n = n'.
Proof.
  intros Hc Hc'. rewrite <- !app_assoc. intros E%app_inv_head.
  apply decimal_app_inj in E as [-> E]; [|done..]. injection E as E.
  by apply chars_inj, decimal_inj in E.
Qed.

(** The name of a device identifies it.  The names the library prints and
    looks up for cards, control devices, rawmidi and hwdep devices of cards,
    the timer and the sequencer are different for different devices: no lookup
    asks for another device than the one it was called for. *)
Theorem device_names_distinct d d' :
  device_ok d → device_ok d' → d ≠ d' →
  format_string (device_template d) (device_args d) ≠
    format_string (device_template d') (device_args d').
Proof.
  rewrite !device_name_printed. intros Hd Hd' Hne [= E]. apply Hne. apply (f_equal chars) in E.
  clear Hne. revert E.
  destruct d, d'; cbn [device_ok device_name] in *; unfold RAWMIDI_SYSNAME,
    RAWMIDI_SYSNAME_PREFIX, HWDEP_SYSNAME, HWDEP_SYSNAME_PREFIX, is_u32 in *;
    rewrite ?chars_app; intros E; try done.
  1,2: by apply app_inv_head, chars_inj, decimal_inj in E as ->.
  1,2: apply two_numbers_inj in E as [-> ->]; [done|lia..].
Qed.

(** ** Storage of names *)

Section storage.
Context {AL : Allocator} {LAWS : AllocatorLaws}.
Implicit Types (h : heap) (s : string).

Lemma strdup_some h s a :
  alloc_addr h (Z.of_nat (length (c_string s))) = Some a →
  strdup s h = (Ret a, <[a := c_string s]> h).
Proof.
  intros Ha. unfold strdup, malloc, mbind, M_bind. rewrite Ha.
  pose proof (alloc_nonnull _ _ _ Ha). destruct (Z.eqb_spec a 0); [lia|].
  erewrite store_block; [by rewrite insert_insert_eq|apply lookup_insert_eq| |].
  - by rewrite alloc_junk_length, Nat2Z.id.
  - intros E%(f_equal length). by rewrite length_c_string in E.
Qed.

Lemma strdup_none h s :
  alloc_addr h (Z.of_nat (length (c_string s))) = None → strdup s h = (Ret 0, h).
Proof. intros Ha. unfold strdup, malloc, mbind, M_bind. by rewrite Ha. Qed.

Lemma allocate_string_run h fmt ap s :
  format_string fmt ap = Some s → text_fits s →
  allocate_string fmt ap h =
    match alloc_addr h (Z.of_nat (length (c_string s))) with
    | Some a => (Ret (Sret tt, Some a), <[a := c_string s]> h)
    | None => (Ret (Serr ENOMEM, None), h)
    end.
Proof.
  unfold text_fits. rewrite length_c_string. intros Hf Hs.
  unfold allocate_string, vsnprintf. rewrite Hf, !length_bytes_of_string.
  destruct (Z.ltb_spec INT_MAX (Z.of_nat (String.length s))); [lia|]. cbn [Z.eqb].
  rewrite (bind_Ret _ _ _ (Z.of_nat (String.length s)) h) by done.
  destruct (Z.ltb_spec (Z.of_nat (String.length s)) 0); [lia|].
  destruct (Z.leb_spec (Z.of_nat (String.length s) + 1) INT_MAX); [|lia].
  rewrite (bind_Ret _ _ _ (Z.of_nat (S (String.length s))) h)
    by (rewrite mret_run; do 2 f_equal; lia).
  unfold malloc, mbind, M_bind. destruct (alloc_addr h _) as [a|] eqn:Ha; [|done].
  pose proof (alloc_nonnull _ _ _ Ha). destruct (Z.eqb_spec a 0); [lia|].
  destruct (Z.eqb_spec (Z.of_nat (S (String.length s))) 0); [lia|].
  rewrite take_ge by (rewrite length_bytes_of_string; lia). fold (c_string s).
  erewrite store_block; [by rewrite insert_insert_eq|apply lookup_insert_eq| |].
  - by rewrite alloc_junk_length, Nat2Z.id, length_c_string.
  - intros E%(f_equal length). by rewrite length_c_string in E.
Qed.
End storage.

Section lookups.
Context {AL : Allocator} {LAWS : AllocatorLaws} {K : Type} {UD : Udev K}.
Implicit Types (h : heap) (k : K) (s : string).

(** What a result as a value is in memory: a name is a new block of its own,
    made while the block [label] of the name that is looked up is allocated. *)
Definition stored (label : Z) (s : string) (r : outcome (sysret string) * world K) :
    outcome (sysret unit * option Z) * world K :=
  match r with
  | (Ret (Sret n), World h k) =>
      match alloc_addr (<[label := c_string s]> h) (Z.of_nat (length (c_string n))) with
      | Some a => (Ret (Sret tt, Some a), World (<[a := c_string n]> h) k)
      | None => (Ret (Serr ENOMEM, Some 0), World h k)
      end
  | (Ret (Serr e), w) => (Ret (Serr e, None), w)
  | (_, w) => (UB, w)
  end.

Lemma lookup_string_run s func h k label :
  printable s → alloc_addr h (Z.of_nat (length (c_string s))) = Some label →
  (r ← lookup_and_allocate_string_by_sysname label func; mem (free (Some label));; mret r)
    (World (<[label := c_string s]> h) k) =
  stored label s (Sysfs.lookup_and_allocate_string_by_sysname s func (World h k)).
Proof.
  intros Hs Ha. pose proof (alloc_nonnull _ _ _ Ha) as Hl. pose proof (alloc_fresh _ _ _ Ha) as Hf.
  set (h1 := <[label := c_string s]> h).
  assert (∀ h' (r : sysret unit * option Z) k', h' !! label = None →
    (mem (free (Some label));; mret r) (World (<[label := c_string s]> h') k') =
      (Ret r, World h' k')) as Hfree.
  { intros h' r k' Hn. rewrite (bind_Ret _ _ _ tt (World h' k')); [done|]. apply mem_Ret.
    cbn [free]. erewrite g_free_block by (apply Hl || apply lookup_insert_eq).
    by rewrite delete_insert_id. }
  unfold lookup_and_allocate_string_by_sysname, Sysfs.lookup_and_allocate_string_by_sysname.
  destruct (Z.eqb_spec label 0) as [|_]; [lia|].
  assert (∀ k', read_name label (World h1 k') = (Ret s, World h1 k')) as Hr.
  { intros k'. unfold read_name. rewrite (bind_Ret _ _ _ _ _ (mem_Ret _ _ _ _ _
      (load_c_string h1 label s Hs (lookup_insert_eq _ _ _)))).
    by rewrite string_of_bytes_of_string. }
  unfold sys. unfold mbind, M_bind in *. cbn [w_kern w_heap].
  destruct (udev_new k) as [[ctx|e] k1]; [|by apply Hfree]. cbn [w_kern w_heap].
  rewrite Hr. cbn [w_kern w_heap].
  destruct (udev_device_new_from_subsystem_sysname _ _ _ _) as [[dev|e] k2];
    [|by apply Hfree]. cbn [w_kern w_heap].
  destruct (func dev k2) as [n|e]; [|by apply Hfree]. cbn [w_kern w_heap stored].
  unfold mem at 1, zoom at 1. cbn [w_kern w_heap].
  destruct (alloc_addr h1 (Z.of_nat (length (c_string n)))) as [a|] eqn:Ea.
  - rewrite (strdup_some _ _ _ Ea). cbn [w_kern w_heap].
    pose proof (alloc_nonnull _ _ _ Ea). pose proof (alloc_fresh _ _ _ Ea) as Hfa.
    destruct (Z.eqb_spec a 0) as [|_]; [lia|].
    assert (a ≠ label) by (intros ->; unfold h1 in Hfa; by rewrite lookup_insert_eq in Hfa).
    unfold stored, mret, M_ret. cbn [w_kern w_heap]. fold h1. rewrite Ea.
    unfold h1. rewrite insert_insert_ne by done. unfold mret, M_ret in *. cbn [w_kern w_heap] in *.
    apply Hfree. by rewrite lookup_insert_ne.
  - rewrite (strdup_none _ _ Ea). unfold stored, mret, M_ret. cbn [w_kern w_heap]. fold h1. rewrite Ea.
    unfold mret, M_ret in *. cbn [w_kern w_heap] in *. by apply Hfree.
Qed.

(** C19: looking up the name or the node of a device in memory does what the
    lookup of Sysfs.v does with values.  The name to look up is printed to a
    block that is released on every path; the answer is a new block with the
    string, and no other memory changes.  When no memory is left for the answer
    the result is [-ENOMEM]; when none is left for the name to look up, a
    pointer that was never written is released. *)
Theorem device_lookup_refines d func h k :
  device_ok d →
  lookup_and_allocate_name_by_sysname func (device_template d) (device_args d) (World h k) =
    match alloc_addr h (Z.of_nat (length (c_string (device_name d)))) with
    | Some label => stored label (device_name d)
        (Sysfs.lookup_and_allocate_string_by_sysname (device_name d) func (World h k))
    | None => (UB, World h k)
    end.
Proof.
  intros Hd. unfold lookup_and_allocate_name_by_sysname.
  destruct (device_name_ok d Hd) as [Hs Hfit].
  pose proof (allocate_string_run h _ _ _ (device_name_printed d) Hfit) as E.
  destruct (alloc_addr h _) as [label|] eqn:Ha.
  - rewrite (bind_Ret _ _ _ _ _ (mem_Ret _ h k _ _ E)).
    by rewrite <- (lookup_string_run (device_name d) func h k label Hs Ha).
  - by rewrite (bind_Ret _ _ _ _ _ (mem_Ret _ h k _ _ E)).
Qed.

(** A lookup as a value asks the system only, and answers with what the device
    says. *)
Lemma lookup_value_run s func h k :
  ∃ r k', Sysfs.lookup_and_allocate_string_by_sysname s func (World h k) = (Ret r, World h k') ∧
    ∀ n, r = Sret n → ∃ dev k2, func dev k2 = Sret n.
Proof.
  unfold Sysfs.lookup_and_allocate_string_by_sysname, sys, mbind, M_bind, mret, M_ret.
  cbn [w_kern w_heap]. destruct (udev_new k) as [[ctx|e] k1]; [|by eexists _, _].
  cbn [w_kern w_heap].
  destruct (udev_device_new_from_subsystem_sysname _ _ _ _) as [[dev|e] k2]; [|by eexists _, _].
  cbn [w_kern w_heap]. eexists _, _. split; [done|]. intros n E. by exists dev, k2.
Qed.

(** A request to the control device of a card leaves no storage of names behind:
    with memory for the names it is the request of Sysfs.v. *)
Lemma request_ctl_opened_refines `{!GLib, !Kernel K} card_id req data h k label :
  let s := device_name (DControl card_id) in
  is_u32 card_id → alloc_addr h (Z.of_nat (length (c_string s))) = Some label →
  (∀ dev k n, udev_device_get_devnode dev k = Sret n →
     printable n ∧ is_Some (alloc_addr (<[label := c_string s]> h)
       (Z.of_nat (length (c_string n))))) →
  request_ctl_ioctl_opened card_id req data (World h k) =
    Sysfs.request_ctl_ioctl_opened card_id req data (World h k).
Proof.
  intros s Hc Ha Hn.
  pose proof (device_lookup_refines (DControl card_id) udev_device_get_devnode h k Hc) as E.
  fold s in E. rewrite Ha in E. unfold request_ctl_ioctl_opened, Sysfs.request_ctl_ioctl_opened.
  unfold lookup_and_allocate_control_devname, lookup_and_allocate_devname_by_sysname,
    Sysfs.lookup_and_allocate_devname_by_sysname.
  cbn [device_template device_args] in E. change ("controlC" +:+ decimal card_id) with s.
  destruct (lookup_value_run s udev_device_get_devnode h k) as (r & k' & El & Hr).
  rewrite El in E. rewrite (bind_Ret _ _ _ _ _ El). destruct r as [n|e].
  2:{ by rewrite (bind_Ret _ _ _ _ _ E). }
  destruct (Hr n eq_refl) as (dev & k2 & En). destruct (Hn dev k2 n En) as [Hp [a Han]].
  unfold stored in E. rewrite Han in E. rewrite (bind_Ret _ _ _ _ _ E). cbn [initialized].
  rewrite (bind_Ret _ _ _ a (World (<[a := c_string n]> h) k')) by done.
  assert (h !! a = None) as Hfa.
  { apply alloc_fresh in Han. destruct (decide (a = label)) as [->|Hne].
    - by rewrite lookup_insert_eq in Han.
    - by rewrite lookup_insert_ne in Han. }
  pose proof (alloc_nonnull _ _ _ Han) as Ha0.
  unfold read_name. rewrite bind_assoc.
  rewrite (bind_Ret _ _ _ _ _ (mem_Ret _ _ k' _ _ (load_c_string _ a n Hp (lookup_insert_eq _ _ _)))).
  rewrite string_of_bytes_of_string, (bind_Ret _ _ _ n (World (<[a := c_string n]> h) k')) by done.
  destruct (sys_open n (Z.lor O_RDONLY O_NONBLOCK) k') as [fd k3] eqn:Eo.
  assert (∀ h', do_open n (Z.lor O_RDONLY O_NONBLOCK) (World h' k') = (Ret fd, World h' k3)) as Ed
    by (intros; by apply sys_run).
  rewrite !(bind_Ret _ _ _ _ _ (Ed _)).
  assert (mem (free (Some a)) (World (<[a := c_string n]> h) k3) = (Ret tt, World h k3)) as Ef.
  { apply mem_Ret. cbn [free]. rewrite (g_free_block _ _ (c_string n)) by (lia || apply lookup_insert_eq).
    by rewrite delete_insert_id. }
  by rewrite (bind_Ret _ _ _ _ _ Ef).
Qed.
End lookups.

(** ** Concrete runs *)

Module UtilsWitness.
#[local] Existing Instance Bump.allocator.
#[local] Existing Instance Bump.laws.

(** A host with the node of one rawmidi device. *)
#[local] Instance host : Udev unit := {|
  udev := unit;
  udev_device := unit;
  udev_new k := (Sret tt, k);
  udev_unref _ k := k;
  udev_device_new_from_subsystem_sysname _ _ name k :=
    (if String.eqb name "midiC1D12" then Sret tt else Serr ENODEV, k);
  udev_device_new_from_syspath _ _ k := (Serr ENODEV, k);
  udev_device_get_sysname _ _ := Sret "midiC1D12";
  udev_device_get_devnode _ _ := Sret "/dev/snd/midiC1D12";
  udev_device_get_sysnum _ _ := Sret "12";
  udev_device_unref _ k := k;
  udev_enumerate _ _ k := (Sret [], k);
  udev_enumerate_unref _ k := k;
|}.

Lemma device_names_distinct_witness :
  format_string RAWMIDI_SYSNAME_TEMPLATE [1; 12] ≠ format_string RAWMIDI_SYSNAME_TEMPLATE [11; 2].
Proof.
  apply (device_names_distinct (DRawmidi 1 12) (DRawmidi 11 2)); [by vm_compute..|done].
Defined.

Lemma device_lookup_refines_witness :
  lookup_and_allocate_rawmidi_devname 1 12 (World ∅ tt) =
    (Ret (Sret tt, Some 4160), World {[4160 := c_string "/dev/snd/midiC1D12"]} tt).
Proof.
  etrans; [apply (device_lookup_refines (DRawmidi 1 12) udev_device_get_devnode ∅ tt);
    by vm_compute|by vm_compute].
Defined.
End UtilsWitness.
