(* ===== verification/UtilsListProps.v ===== *)
(** * The array of the numbers of devices

    The helper that fills an array in memory with the numbers of devices does
    what the one of Sysfs.v does with a list; together with what libudev
    documents this gives the array a caller gets. *)
From S2P Require Import Prelude Heap SeqUapi Struct Kernel Sysfs SysfsProps CString UtilsMem.
From S2P Require Import UtilsMemProps.

(** ** Arrays of 32-bit numbers *)

Lemma array_bytes_app xs ys : array_bytes (xs ++ ys) = array_bytes xs ++ array_bytes ys.
Proof. unfold array_bytes. by rewrite map_app, concat_app. Qed.

Lemma length_array_bytes xs : length (array_bytes xs) = (4 * length xs)%nat.
Proof.
  induction xs as [|x xs IH]; [done|]. change (array_bytes (x :: xs)) with (le_split 4 x ++ array_bytes xs).
  rewrite length_app, length_le_split, IH. cbn [length]. lia.
Qed.

Lemma array_nums_bytes xs :
  Forall is_u32 xs → array_nums (array_bytes xs) (length xs) = xs.
Proof.
  intros Hx. apply list_eq. intros i. unfold array_nums. rewrite list_lookup_fmap.
  destruct (decide (i < length xs)%nat) as [Hi|Hi].
  - rewrite lookup_seq_lt by done. cbn [fmap option_fmap option_map Nat.add].
    destruct (lookup_lt_is_Some_2 xs i Hi) as [x Ex]. rewrite Ex. f_equal.
    rewrite <- (take_drop_middle xs i x Ex) at 1. rewrite array_bytes_app.
    unfold le_u, sub. rewrite drop_app_length'
      by (rewrite length_array_bytes, length_take; lia).
    change (array_bytes (x :: ?ys)) with (le_split 4 x ++ array_bytes ys).
    rewrite take_app_length' by by rewrite length_le_split.
    apply le_combine_split_id. eapply Forall_lookup_1 in Hx; [|done]. exact Hx.
  - rewrite lookup_ge_None_2 by (rewrite length_seq; lia).
    symmetry. apply lookup_ge_None_2. lia.
Qed.

Section lists.
Context {AL : Allocator} {LAWS : AllocatorLaws} {K : Type} {UD : Udev K}.
Context (qsort : (Z → Z → Z) → list Z → option (list Z)).
Implicit Types (h : heap) (k : K) (s : string).

(** ** The prefix in memory *)

(** A computation that asks the system only. *)
Definition system_only {A} (m : M (world K) A) : Prop :=
  ∀ k, ∃ r k', ∀ h, m (World h k) = (Ret r, World h k').

Lemma detect_device_system ctx path s : system_only (detect_device ctx path s).
Proof.
  intros k. unfold detect_device, sys, mbind, M_bind, mret, M_ret.
  destruct (udev_device_new_from_syspath ctx path k) as [[dev|e] k1] eqn:E1.
  2:{ exists (Serr e), k1. intros h. cbn. by rewrite E1. }
  pose (r := match udev_device_get_sysname dev k1 with
    | Sret n => if String.prefix s n then Sret dev else Serr ENODEV
    | Serr e => Serr e
    end).
  exists r, (match r with Sret _ => k1 | Serr _ => udev_device_unref dev k1 end).
  intros h. cbn. rewrite E1. cbn. unfold r.
  destruct (udev_device_get_sysname dev k1) as [n|e]; [|done]. by destruct (String.prefix s n).
Qed.

Lemma detect_entry_run ctx path p s h k :
  printable s → h !! p = Some (c_string s) →
  detect_entry ctx path p (World h k) = detect_device ctx path s (World h k).
Proof.
  intros Hs Hp. unfold detect_entry, read_name. rewrite bind_assoc.
  rewrite (bind_Ret _ _ _ _ _ (mem_Ret _ _ _ _ _ (load_c_string h p s Hs Hp))).
  by rewrite string_of_bytes_of_string.
Qed.

Lemma count_entries_run ctx p s h l :
  printable s → h !! p = Some (c_string s) → ∀ k count,
  count_entries ctx l p count (World h k) = count_devices ctx l s count (World h k).
Proof.
  intros Hs Hp. induction l as [|path l IH]; intros k count; [done|].
  cbn [count_entries count_devices]. destruct (detect_device_system ctx path s k) as (r & k1 & E).
  rewrite (bind_Ret _ _ _ _ _ (eq_trans (detect_entry_run ctx path p s h k Hs Hp) (E h))).
  rewrite (bind_Ret _ _ _ _ _ (E h)). destruct r as [dev|e]; [|apply IH].
  apply IH.
Qed.

(** ** The array *)

(** The array at [a] of [count] elements whose first ones are [nums]. *)
Definition array_at (a : Z) (count : Z) (nums : list Z) (h h' : heap) : Prop :=
  ∃ rest, Z.of_nat (length (array_bytes nums ++ rest)) = 4 * count ∧
    h' = <[a := array_bytes nums ++ rest]> h.

Lemma array_put a count nums h h' z :
  array_at a count nums h h' → Z.of_nat (length nums) < count →
  ∃ h2, store (a, 4 * Z.of_nat (length nums)) (le_split 4 z) h' = (Ret tt, h2) ∧
    array_at a count (nums ++ [z]) h h2.
Proof.
  intros (rest & Hl & ->) Hc. rewrite length_app, length_array_bytes in Hl.
  destruct (store_at (<[a := array_bytes nums ++ rest]> h) a (array_bytes nums) (take 4 rest)
    (drop 4 rest) (le_split 4 z)) as (h2 & E & Hh & _).
  - by rewrite take_drop, lookup_insert_eq.
  - rewrite length_take, length_le_split. lia.
  - exists h2. rewrite length_array_bytes in E.
    replace (Z.of_nat (4 * length nums)) with (4 * Z.of_nat (length nums)) in E by lia.
    split; [done|]. exists (drop 4 rest). rewrite Hh, insert_insert_eq, array_bytes_app by done.
    change (array_bytes [z]) with (le_split 4 z ++ []). rewrite app_nil_r, <- app_assoc.
    split; [|done]. rewrite !length_app, length_array_bytes, length_le_split, length_drop. lia.
Qed.

Lemma array_full a count nums h h' z :
  array_at a count nums h h' → 0 ≤ count → count ≤ Z.of_nat (length nums) →
  store (a, 4 * Z.of_nat (length nums)) (le_split 4 z) h' = (UB, h').
Proof.
  intros (rest & Hl & ->) H0 Hc. unfold store. rewrite bool_decide_false by done.
  cbn [fst snd]. rewrite lookup_insert_eq, length_le_split.
  destruct (Z.leb_spec (4 * Z.of_nat (length nums) + Z.of_nat 4)
    (Z.of_nat (length (array_bytes nums ++ rest)))); [lia|]. by rewrite andb_false_r.
Qed.

(** The next number goes to the array as it goes to the list. *)
Definition fills (a count : Z) h (nums : list Z) (lm : M (world K) (list Z)) (am : M (world K) Z)
    h' k : Prop :=
  match lm (World h k) with
  | (Ret nums', World h2 k') =>
      h2 = h ∧ Z.of_nat (length nums') ≤ count ∧ Forall is_u32 nums' ∧
      ∃ h'', am (World h' k) = (Ret (Z.of_nat (length nums')), World h'' k') ∧
        array_at a count nums' h h''
  | (UB, _) => (am (World h' k)).1 = UB
  | _ => False
  end.

Definition next_num (count : Z) (nums : list Z) (sysnum : sysret string) : M (world K) (list Z) :=
  match sysnum with
  | Sret sysnum =>
      match long_from_string (chars sysnum) with
      | Sret val => if Z.of_nat (length nums) <? count then mret (nums ++ [u32 val]) else ub
      | Serr _ => mret nums
      end
  | Serr _ => mret nums
  end.

Definition store_num (a index : Z) (sysnum : sysret string) : M (world K) Z :=
  match sysnum with
  | Sret sysnum =>
      match long_from_string (chars sysnum) with
      | Sret val => mem (store (a, 4 * index) (le_split 4 (u32 val)));; mret (u32 (index + 1))
      | Serr _ => mret index
      end
  | Serr _ => mret index
  end.

Lemma fill_one a count nums h h' k sysnum :
  array_at a count nums h h' → Z.of_nat (length nums) ≤ count < 2 ^ 32 → Forall is_u32 nums →
  fills a count h nums (next_num count nums sysnum)
    (store_num a (Z.of_nat (length nums)) sysnum) h' k.
Proof.
  intros Ha [Hc Hm] Hn.
  assert (fills a count h nums (mret nums) (mret (Z.of_nat (length nums))) h' k) as Hk
    by (cbn; split_and!; [done..|by exists h']).
  destruct sysnum as [sysnum|e]; [|done]. unfold next_num, store_num.
  destruct (long_from_string _) as [val|e]; [|done].
  unfold fills. destruct (Z.ltb_spec (Z.of_nat (length nums)) count) as [Hlt|Hge].
  - destruct (array_put a count nums h h' (u32 val) Ha Hlt) as (h2 & E & Ha2).
    cbn. rewrite length_app. cbn [length]. split_and!; [done|lia| |].
    + apply Forall_app_2; [done|]. constructor; [apply u32_range|done].
    + exists h2. split; [|done]. rewrite (bind_Ret _ _ _ _ _ (mem_Ret _ h' k _ _ E)), mret_run.
      rewrite u32_id by (unfold is_u32; lia). do 2 f_equal. lia.
  - pose proof (array_full a count nums h h' (u32 val) Ha ltac:(lia) Hge) as E.
    cbn. by rewrite (bind_UB _ _ _ _ (mem_UB _ h' k _ E)).
Qed.

Lemma fill_entries_run ctx p s a count h l :
  printable s → h !! p = Some (c_string s) → a ≠ p → count < 2 ^ 32 → ∀ k nums h',
  array_at a count nums h h' → Z.of_nat (length nums) ≤ count → Forall is_u32 nums →
  fills a count h nums (collect_sysnums ctx l s count nums)
    (fill_entries ctx l p a (Z.of_nat (length nums))) h' k.
Proof.
  intros Hs Hp Hap Hm. induction l as [|path l IH]; intros k nums h' Ha Hc Hn.
  { cbn. split_and!; [done..|by exists h']. }
  assert (h' !! p = Some (c_string s)) as Hp'
    by (destruct Ha as (rest & _ & ->); by rewrite lookup_insert_ne).
  unfold fills. cbn [collect_sysnums fill_entries].
  destruct (detect_device_system ctx path s k) as (r & k1 & E).
  rewrite (bind_Ret _ _ _ _ _ (E h)).
  rewrite (bind_Ret _ _ _ _ _ (eq_trans (detect_entry_run ctx path p s h' k Hs Hp') (E h'))).
  destruct r as [dev|e]; [|by apply IH].
  rewrite !(bind_Ret (sys (λ k, (udev_device_get_sysnum dev k, k))) _ (World _ k1)
    (udev_device_get_sysnum dev k1) (World _ k1)) by done.
  fold (next_num count nums (udev_device_get_sysnum dev k1)).
  fold (store_num a (Z.of_nat (length nums)) (udev_device_get_sysnum dev k1)).
  pose proof (fill_one a count nums h h' k1 (udev_device_get_sysnum dev k1) Ha
    (conj Hc Hm) Hn) as H1.
  unfold fills in H1. revert H1.
  destruct (next_num count nums _ (World h k1)) as [[nums'| | | |] [h2 k2]] eqn:E1;
    [|done|done| |done].
  - intros (-> & Hc' & Hn' & h'' & E2 & Ha').
    rewrite (bind_Ret _ _ _ _ _ E1), (bind_Ret _ _ _ _ _ E2).
    by apply (IH (udev_device_unref dev k2) nums' h'').
  - intros E2. rewrite (bind_UB _ _ _ _ E1).
    destruct (store_num a _ _ (World h' k1)) as [o w] eqn:E3. cbn [fst] in E2. subst o.
    by rewrite (bind_UB _ _ _ _ E3).
Qed.

Lemma length_qsort_u32 nums sorted : qsort_u32 qsort nums = Some sorted → length sorted = length nums.
Proof.
  unfold qsort_u32. destruct (qsort compare_u32 nums) as [l|]; [|done].
  destruct (Nat.eqb_spec (length l) (length nums)); [|done]. by intros [= <-].
Qed.

Lemma sort_entries_run a count nums h h' k :
  array_at a count nums h h' → 0 < count → Z.of_nat (length nums) = count → Forall is_u32 nums →
  sort_entries qsort a count (World h' k) =
    match qsort_u32 qsort nums with
    | Some sorted => (Ret tt, World (<[a := array_bytes sorted]> h) k)
    | None => (UB, World h' k)
    end.
Proof.
  intros (rest & Hl & ->) H0 <- Hn. rewrite length_app, length_array_bytes in Hl.
  assert (rest = []) as -> by (apply nil_length_inv; lia). rewrite app_nil_r.
  unfold sort_entries.
  rewrite (bind_Ret _ _ _ _ _ (mem_Ret _ _ k _ _ (load_at _ (a, 0) (array_bytes nums)
    (4 * Z.of_nat (length nums))
    (at_ptr_block _ _ _ (lookup_insert_eq _ _ _))
    ltac:(rewrite length_array_bytes; lia)))).
  rewrite Nat2Z.id, array_nums_bytes by done.
  destruct (qsort_u32 qsort nums) as [sorted|] eqn:Es; [|done]. apply length_qsort_u32 in Es.
  apply mem_Ret. erewrite store_block; [by rewrite insert_insert_eq|apply lookup_insert_eq| |].
  - by rewrite !length_array_bytes, Es.
  - intros E%(f_equal length). rewrite length_array_bytes, Es in E. cbn in E. lia.
Qed.

(** ** The whole helper *)

Context {SD : SoundDevices K} {SDL : SoundDevicesLaws K}.

(** The result for the devices [ds] when [r] is what the allocator has for
    the array: the numbers in the order [qsort] gives them, or nothing; the
    call is undefined where [qsort] is. *)
Definition list_result (prefix : string) (ds : list sound_device) (r : option Z) :
    outcome (sysret unit * option Z * option Z) :=
  let count := Z.of_nat (length (with_prefix prefix ds)) in
  let nums := device_numbers prefix ds in
  if count =? 0 then Ret (Sret tt, None, None) else
  match r with
  | None => Ret (Serr ENOMEM, Some 0, None)
  | Some a =>
      if Z.of_nat (length nums) =? count then
        match qsort_u32 qsort nums with Some _ => Ret (Sret tt, Some a, Some count) | None => UB end
      else Ret (Serr ENODATA, Some a, None)
  end.

Definition list_memory (prefix : string) (ds : list sound_device) (r : option Z) (h h' : heap) :
    Prop :=
  let count := Z.of_nat (length (with_prefix prefix ds)) in
  let nums := device_numbers prefix ds in
  match r with
  | Some a =>
      if count =? 0 then h' = h
      else if Z.of_nat (length nums) =? count then
        match qsort_u32 qsort nums with
        | Some sorted => h' = <[a := array_bytes sorted]> h
        | None => True
        end
      else array_at a count nums h h'
  | None => h' = h
  end.

Lemma generate_list_run ds p s h k :
  sound_devices ds k → Z.of_nat (length ds) < 2 ^ 32 →
  printable s → h !! p = Some (c_string s) →
  let r := alloc_addr h (Z.of_nat (length (with_prefix s ds)) * 4) in
  ∃ h' k', sound_devices ds k' ∧ list_memory s ds r h h' ∧
    generate_sysnum_list_by_sysname_prefix qsort p (World h k) =
      (list_result s ds r, World h' k').
Proof.
  intros Hk Hmax Hs Hp r. unfold generate_sysnum_list_by_sysname_prefix.
  destruct (devices_new ds k Hk) as (ctx & k1 & E1 & Hk1).
  rewrite (bind_Ret _ _ _ _ _ (sys_run _ h k _ _ E1)).
  destruct (devices_enumerate ds ctx k1 Hk1) as (k2 & E2 & Hk2).
  rewrite (bind_Ret _ _ _ _ _ (sys_run _ h k1 _ _ E2)).
  destruct (count_devices_run ds ctx s ds h k2 0) as (k3 & E3 & Hk3); [done|done|lia|lia|].
  rewrite <- (count_entries_run ctx p s h _ Hs Hp), Z.add_0_l in E3.
  rewrite (bind_Ret _ _ _ _ _ E3).
  pose proof (devices_unref ds ctx _ (devices_unref_enumerate ds ctx k3 Hk3)) as Hend.
  unfold list_result, list_memory. fold r.
  assert (Z.of_nat (length (with_prefix s ds)) ≤ Z.of_nat (length ds)) as Hle.
  { unfold with_prefix. pose proof (List.filter_length_le (λ d, String.prefix s (sd_name d)) ds). lia. }
  destruct (Z.eqb_spec (Z.of_nat (length (with_prefix s ds))) 0) as [H0|H0].
  { exists h. eexists. split_and!; [exact Hend|by destruct r|done]. }
  rewrite bind_assoc. set (count := Z.of_nat (length (with_prefix s ds))) in *.
  unfold r in *. destruct (alloc_addr h (count * 4)) as [a|] eqn:Er.
  2:{ exists h. eexists. split_and!; [exact Hend|done|].
      by rewrite (bind_Ret _ _ _ 0 (World h k3))
        by (apply mem_Ret; unfold calloc; by rewrite Er). }
  pose proof (alloc_nonnull _ _ _ Er) as Ha0. pose proof (alloc_fresh _ _ _ Er) as Hfa.
  assert (a ≠ p) as Hap by congruence.
  rewrite (bind_Ret _ _ _ a (World (<[a := zeros (Z.to_nat (count * 4))]> h) k3))
    by (apply mem_Ret; unfold calloc; by rewrite Er).
  destruct (Z.eqb_spec a 0) as [|_]; [lia|].
  assert (array_at a count [] h (<[a := zeros (Z.to_nat (count * 4))]> h)) as Harr.
  { exists (zeros (Z.to_nat (count * 4))). split; [|done]. change (array_bytes [] ++ ?x) with x. rewrite length_zeros. lia. }
  pose proof (fill_entries_run ctx p s a count h (map sd_path ds) Hs Hp Hap ltac:(lia) k3 []
    _ Harr ltac:(cbn; lia) ltac:(constructor)) as Hfill.
  destruct (collect_sysnums_run ds ctx s ds h k3 count []) as (k4 & E4 & Hk4);
    [done|done|cbn; lia|].
  pose proof (devices_unref ds ctx _ (devices_unref_enumerate ds ctx k4 Hk4)) as Hend4.
  unfold fills in Hfill. rewrite E4 in Hfill. cbn [app length] in Hfill.
  destruct Hfill as (_ & _ & Hn & h4 & E5 & Harr4).
  change (Z.of_nat 0) with 0 in E5. rewrite bind_assoc, (bind_Ret _ _ _ _ _ E5).
  destruct (Z.eqb_spec (Z.of_nat (length (device_numbers s ds))) count) as [Hc|Hc]; cbn [negb].
  - pose proof (sort_entries_run a count _ h h4 k4 Harr4 ltac:(lia) Hc Hn) as Es.
    destruct (qsort_u32 qsort (device_numbers s ds)) as [sorted|].
    + eexists _, _. split_and!; [exact Hend4|done|]. rewrite bind_assoc.
      by rewrite (bind_Ret _ _ _ _ _ Es).
    + exists h4, k4. split_and!; [done|done|]. rewrite bind_assoc. by apply bind_UB.
  - exists h4. eexists. by split_and!.
Qed.

(** The storage of the prefix is released without a trace. *)
Lemma list_memory_delete s ds p bs h h1 :
  let r := alloc_addr (<[p := bs]> h) (Z.of_nat (length (with_prefix s ds)) * 4) in
  h !! p = None → list_result s ds r ≠ UB → list_memory s ds r (<[p := bs]> h) h1 →
  list_memory s ds r h (delete p h1) ∧ h1 !! p = Some bs.
Proof.
  intros r Hp Hne.
  assert (∀ a v, r = Some a → delete p (<[a := v]> (<[p := bs]> h)) = <[a := v]> h ∧
    (<[a := v]> (<[p := bs]> h) : heap) !! p = Some bs) as Hd.
  { intros a v Hr. apply alloc_fresh in Hr. assert (a ≠ p).
    { intros ->. by rewrite lookup_insert_eq in Hr. }
    rewrite lookup_insert_ne, lookup_insert_eq by done. split; [|done].
    rewrite insert_insert_ne, delete_insert_id by (done || by rewrite lookup_insert_ne). done. }
  unfold list_memory, list_result in *. destruct r as [a|].
  2:{ intros ->. by rewrite delete_insert_id, lookup_insert_eq. }
  case_match; [intros ->; by rewrite delete_insert_id, lookup_insert_eq|].
  case_match; [destruct (qsort_u32 _ _); [intros ->; by apply Hd|done]|].
  intros (rest & Hl & ->). destruct (Hd a (array_bytes (device_numbers s ds) ++ rest) eq_refl)
    as [Hd1 Hd2]. split; [|done]. by exists rest.
Qed.

(** The prefix is printed to [p], and released after the list was made. *)
Lemma generate_list_printed fmt ap s h k p :
  format_string fmt ap = Some s → text_fits s →
  alloc_addr h (Z.of_nat (length (c_string s))) = Some p →
  generate_sysnum_list qsort fmt ap (World h k) =
    (r ← generate_sysnum_list_by_sysname_prefix qsort p; mem (free (Some p));; mret r)
      (World (<[p := c_string s]> h) k).
Proof.
  intros Hf Hfit Ha. pose proof (allocate_string_run h fmt ap s Hf Hfit) as E. rewrite Ha in E.
  unfold generate_sysnum_list. rewrite (bind_Ret _ _ _ _ _ (mem_Ret _ h k _ _ E)). cbn [initialized].
  rewrite bind_assoc. by rewrite (bind_Ret _ _ _ p (World (<[p := c_string s]> h) k)) by done.
Qed.

Lemma generate_list_released fmt ap s h k p r h1 k1 :
  format_string fmt ap = Some s → text_fits s →
  alloc_addr h (Z.of_nat (length (c_string s))) = Some p →
  generate_sysnum_list_by_sysname_prefix qsort p (World (<[p := c_string s]> h) k) =
    (Ret r, World h1 k1) → h1 !! p = Some (c_string s) →
  generate_sysnum_list qsort fmt ap (World h k) = (Ret r, World (delete p h1) k1).
Proof.
  intros Hf Hfit Ha Eg Hp1. pose proof (alloc_nonnull _ _ _ Ha) as Hp0.
  rewrite (generate_list_printed fmt ap s h k p Hf Hfit Ha), (bind_Ret _ _ _ _ _ Eg).
  rewrite (bind_Ret _ _ _ tt (World (delete p h1) k1)); [done|].
  apply mem_Ret. apply (g_free_block _ _ (c_string s)); [lia|done].
Qed.

Lemma sysnum_list_run fmt ap s ds h k p :
  sound_devices ds k → Z.of_nat (length ds) < 2 ^ 32 →
  format_string fmt ap = Some s → printable s → text_fits s →
  alloc_addr h (Z.of_nat (length (c_string s))) = Some p →
  let r := alloc_addr (<[p := c_string s]> h) (Z.of_nat (length (with_prefix s ds)) * 4) in
  ∃ h' k', sound_devices ds k' ∧ list_memory s ds r h h' ∧
    generate_sysnum_list qsort fmt ap (World h k) = (list_result s ds r, World h' k').
Proof.
  intros Hk Hmax Hf Hs Hfit Ha r. pose proof (alloc_fresh _ _ _ Ha) as Hfp.
  destruct (generate_list_run ds p s (<[p := c_string s]> h) k Hk Hmax Hs (lookup_insert_eq _ _ _))
    as (h1 & k1 & Hk1 & Hm & Eg). fold r in Hm, Eg.
  destruct (list_result s ds r) as [res|e| | |] eqn:Er;
    try (exfalso; unfold list_result in Er; repeat case_match; done).
  - assert (list_result s ds r ≠ UB) as Hne by by rewrite Er.
    destruct (list_memory_delete s ds p (c_string s) h h1 Hfp Hne Hm) as [Hm' Hp1].
    exists (delete p h1), k1. split_and!; [done|done|]. by apply (generate_list_released _ _ s).
  - exists h1, k1. split_and!; [done| |].
    + unfold list_memory, list_result in *. by repeat case_match.
    + rewrite (generate_list_printed fmt ap s h k p Hf Hfit Ha). by apply bind_UB.
Qed.

(** libudev fails before a list is made, or there is no memory for the prefix. *)
Lemma sysnum_list_failures fmt ap s h k :
  format_string fmt ap = Some s → text_fits s →
  match alloc_addr h (Z.of_nat (length (c_string s))) with
  | None => generate_sysnum_list qsort fmt ap (World h k) = (UB, World h k)
  | Some p =>
      (∀ e k1, udev_new k = (Serr e, k1) →
         generate_sysnum_list qsort fmt ap (World h k) = (Ret (Serr e, None, None), World h k1)) ∧
      (∀ ctx k1 e k2, udev_new k = (Sret ctx, k1) →
         udev_enumerate ctx SOUND_SUBSYSTEM k1 = (Serr e, k2) →
         generate_sysnum_list qsort fmt ap (World h k) =
           (Ret (Serr e, None, None), World h (udev_unref ctx k2)))
  end.
Proof.
  intros Hf Hfit. pose proof (allocate_string_run h fmt ap s Hf Hfit) as E.
  destruct (alloc_addr h (Z.of_nat (length (c_string s)))) as [p|] eqn:Ha.
  2:{ unfold generate_sysnum_list. by rewrite (bind_Ret _ _ _ _ _ (mem_Ret _ h k _ _ E)). }
  pose proof (alloc_fresh _ _ _ Ha) as Hfp. set (h1 := <[p := c_string s]> h).
  assert (∀ r k1, generate_sysnum_list_by_sysname_prefix qsort p (World h1 k) = (Ret r, World h1 k1) →
    generate_sysnum_list qsort fmt ap (World h k) = (Ret r, World h k1)) as Hrun.
  { intros r k1 Eg. rewrite (generate_list_released fmt ap s h k p r h1 k1 Hf Hfit Ha Eg).
    - unfold h1. by rewrite delete_insert_id.
    - apply lookup_insert_eq. }
  split.
  - intros e k1 E1. apply Hrun. unfold generate_sysnum_list_by_sysname_prefix.
    by rewrite (bind_Ret _ _ _ _ _ (sys_run _ h1 k _ _ E1)).
  - intros ctx k1 e k2 E1 E2. apply Hrun. unfold generate_sysnum_list_by_sysname_prefix.
    rewrite (bind_Ret _ _ _ _ _ (sys_run _ h1 k _ _ E1)).
    by rewrite (bind_Ret _ _ _ _ _ (sys_run _ h1 k1 _ _ E2)).
Qed.

(** The lists the library offers: of the cards, and of the hwdep and rawmidi
    devices of a card. *)
Inductive family := FCards | FHwdep (card_id : Z) | FRawmidi (card_id : Z).

Definition family_ok (f : family) : Prop :=
  match f with FCards => True | FHwdep c | FRawmidi c => is_u32 c end.

Definition family_prefix (f : family) : string :=
  match f with
  | FCards => "card"
  | FHwdep c => HWDEP_SYSNAME_PREFIX c
  | FRawmidi c => RAWMIDI_SYSNAME_PREFIX c
  end.

Definition family_list (f : family) : M (world K) (sysret unit * option Z * option Z) :=
  match f with
  | FCards => generate_card_sysnum_list qsort
  | FHwdep c => generate_hwdep_sysnum_list qsort c
  | FRawmidi c => generate_rawmidi_sysnum_list qsort c
  end.

Lemma family_prefix_ok f : family_ok f → name_ok (family_prefix f).
Proof.
  destruct f; cbn [family_ok family_prefix]; unfold is_u32, RAWMIDI_SYSNAME_PREFIX,
    HWDEP_SYSNAME_PREFIX; intros; name_ok.
Qed.

(** C18: the list of numbers in memory.  The array a caller gets holds what
    filtering the devices libudev knows by the prefix and reading their numbers
    gives, as [qsort] leaves it, and the prefix printed for the search is
    released; the call is undefined where [qsort] is.  Without a device nothing
    is allocated and nothing is written to the out parameters; without memory
    for the array the result is [-ENOMEM]; and when a number cannot be read the
    result is [-ENODATA] and the array is left behind.  When libudev gives no
    context or no enumeration its error is the result, memory is as before and
    the context is released.  Without memory for the prefix the call is
    undefined: a pointer that was never written is released. *)
Theorem sysnum_list_in_memory f h k :
  family_ok f →
  let s := family_prefix f in
  match alloc_addr h (Z.of_nat (length (c_string s))) with
  | None => family_list f (World h k) = (UB, World h k)
  | Some p =>
      (∀ e k1, udev_new k = (Serr e, k1) →
         family_list f (World h k) = (Ret (Serr e, None, None), World h k1)) ∧
      (∀ ctx k1 e k2, udev_new k = (Sret ctx, k1) →
         udev_enumerate ctx SOUND_SUBSYSTEM k1 = (Serr e, k2) →
         family_list f (World h k) = (Ret (Serr e, None, None), World h (udev_unref ctx k2))) ∧
      ∀ ds, sound_devices ds k → Z.of_nat (length ds) < 2 ^ 32 →
        let r := alloc_addr (<[p := c_string s]> h) (Z.of_nat (length (with_prefix s ds)) * 4) in
        ∃ h' k', sound_devices ds k' ∧ list_memory s ds r h h' ∧
          family_list f (World h k) = (list_result s ds r, World h' k')
  end.
Proof.
  intros Hf s. destruct (family_prefix_ok f Hf) as [Hs Hfit].
  assert (∃ fmt ap, family_list f = generate_sysnum_list qsort fmt ap ∧ format_string fmt ap = Some s)
    as (fmt & ap & -> & Hfmt).
  { destruct f; eexists _, _; (split; [reflexivity|]); clear; printed. }
  pose proof (sysnum_list_failures fmt ap s h k Hfmt Hfit) as Hfail.
  destruct (alloc_addr h (Z.of_nat (length (c_string s)))) as [p|] eqn:Ha; [|done].
  destruct Hfail as [H1 H2]. split_and!; [exact H1|exact H2|].
  intros ds Hk Hmax. by apply sysnum_list_run.
Qed.
End lists.

(** ** Concrete runs *)

Module ListWitness.
Import SysfsWitness.
#[local] Existing Instance Bump.allocator.
#[local] Existing Instance Bump.laws.
#[local] Existing Instance host.
#[local] Existing Instance devices_view.
#[local] Existing Instance devices_laws.

(** The two devices of card 1 and the one of card 10. *)
Lemma sysnum_list_in_memory_witness :
  ∃ h' k', h' = <[4160 := array_bytes [0; 3]]> ∅ ∧
    generate_rawmidi_sysnum_list sort_by 1 (World ∅ tt) =
      (Ret (Sret tt, Some 4160, Some 2), World h' k').
Proof.
  destruct (sysnum_list_in_memory sort_by (FRawmidi 1) ∅ tt) as (_ & _ & H); [by vm_compute|].
  destruct (H devices) as (h' & k' & _ & Hm & E); [done|by vm_compute|].
  exists h', k'. split; [exact Hm|exact E].
Defined.
End ListWitness.
