(* ===== verification/SeqEvent.v ===== *)
(** * Sequencer events: [src/src/seq/event.c]

    A boxed event is a block of the heap that holds a [struct snd_seq_event];
    in the variable length mode it owns a second block with the blob its [ext]
    member points to.  In a flattened buffer the blob follows the event.  The
    operations work on pointers, so aliasing between the event and the data a
    caller passes is part of the model. *)
From S2P Require Import Prelude Heap SeqUapi.

(** ** Enumerations of the interface *)

Definition ALSASEQ_EVENT_TSTAMP_MODE_TICK : Z := SNDRV_SEQ_TIME_STAMP_TICK.
Definition ALSASEQ_EVENT_TSTAMP_MODE_REAL : Z := SNDRV_SEQ_TIME_STAMP_REAL.
Definition ALSASEQ_EVENT_TYPE_NOTE : Z := SNDRV_SEQ_EVENT_NOTE.

(** [ALSASeqEventError] *)
Definition ALSASEQ_EVENT_ERROR_FAILED : Z := 0.
Definition ALSASEQ_EVENT_ERROR_INVALID_DATA_TYPE : Z := 1.
Definition ALSASEQ_EVENT_ERROR_INVALID_LENGTH_MODE : Z := 2.
Definition ALSASEQ_EVENT_ERROR_INVALID_TSTAMP_MODE : Z := 3.

Definition err_data_type : gerror :=
  GError ALSASEQ_EVENT_ERROR ALSASEQ_EVENT_ERROR_INVALID_DATA_TYPE
    "The type of requested data is invalid in the event" None.

Definition err_length_mode : gerror :=
  GError ALSASEQ_EVENT_ERROR ALSASEQ_EVENT_ERROR_INVALID_LENGTH_MODE
    "The mode of length for requested data is invalid in the event" None.

(** ** Assignments to fields *)

Definition set_type (z : Z) (e : snd_seq_event) : snd_seq_event :=
  Event (u8 z) (ev_flags e) (ev_tag e) (ev_queue e) (ev_time e) (ev_source e)
    (ev_dest e) (ev_data e).
Definition set_flags (z : Z) (e : snd_seq_event) : snd_seq_event :=
  Event (ev_type e) (u8 z) (ev_tag e) (ev_queue e) (ev_time e) (ev_source e)
    (ev_dest e) (ev_data e).
Definition set_tag (z : Z) (e : snd_seq_event) : snd_seq_event :=
  Event (ev_type e) (ev_flags e) (i8 z) (ev_queue e) (ev_time e) (ev_source e)
    (ev_dest e) (ev_data e).
Definition set_queue (z : Z) (e : snd_seq_event) : snd_seq_event :=
  Event (ev_type e) (ev_flags e) (ev_tag e) (u8 z) (ev_time e) (ev_source e)
    (ev_dest e) (ev_data e).
Definition set_time (bs : list byte) (e : snd_seq_event) : snd_seq_event :=
  Event (ev_type e) (ev_flags e) (ev_tag e) (ev_queue e) bs (ev_source e)
    (ev_dest e) (ev_data e).
Definition set_source (a : snd_seq_addr) (e : snd_seq_event) : snd_seq_event :=
  Event (ev_type e) (ev_flags e) (ev_tag e) (ev_queue e) (ev_time e) a
    (ev_dest e) (ev_data e).
Definition set_dest (a : snd_seq_addr) (e : snd_seq_event) : snd_seq_event :=
  Event (ev_type e) (ev_flags e) (ev_tag e) (ev_queue e) (ev_time e) (ev_source e)
    a (ev_data e).
Definition set_data (bs : list byte) (e : snd_seq_event) : snd_seq_event :=
  Event (ev_type e) (ev_flags e) (ev_tag e) (ev_queue e) (ev_time e) (ev_source e)
    (ev_dest e) bs.

(** [self->flags &= ~mask; self->flags |= v;] *)
Definition assign_flags (mask v : Z) (e : snd_seq_event) : snd_seq_event :=
  let e := set_flags (Z.land (ev_flags e) (Z.lnot mask)) e in
  set_flags (Z.lor (ev_flags e) v) e.

Definition length_mode (e : snd_seq_event) : Z :=
  Z.land (ev_flags e) SNDRV_SEQ_EVENT_LENGTH_MASK.

(** ** The kinds of data a type of event may have *)

Definition SEQ_EVENT_DATA_FLAG_USER : Z := 0x00100000.
Definition SEQ_EVENT_DATA_FLAG_BLANK : Z := 0x01000000.
Definition SEQ_EVENT_DATA_FLAG_NONE : Z := 0x02000000.
Definition SEQ_EVENT_DATA_FLAG_RESULT : Z := 0x00000001.
Definition SEQ_EVENT_DATA_FLAG_NOTE : Z := 0x00000002.
Definition SEQ_EVENT_DATA_FLAG_CONTROL : Z := 0x00000004.
Definition SEQ_EVENT_DATA_FLAG_QUEUE : Z := 0x00000008.
Definition SEQ_EVENT_DATA_FLAG_ADDR : Z := 0x00000010.
Definition SEQ_EVENT_DATA_FLAG_CONNECT : Z := 0x00000020.
Definition SEQ_EVENT_DATA_FLAG_BYTE : Z := 0x00000040.
Definition SEQ_EVENT_DATA_FLAG_QUADLET : Z := 0x00000080.
Definition SEQ_EVENT_DATA_FLAG_TSTAMP : Z := 0x00000100.
Definition SEQ_EVENT_DATA_FLAG_FIXED_ANY : Z := 0x00000fff.
Definition SEQ_EVENT_DATA_FLAG_BLOB : Z := 0x00001000.
Definition SEQ_EVENT_DATA_FLAG_VARIABLE_ANY : Z := 0x0000f000.
Definition SEQ_EVENT_DATA_FLAG_POINTER : Z := 0x00010000.
Definition SEQ_EVENT_DATA_FLAG_VARUSR_ANY : Z := 0x000f0000.
Definition SEQ_EVENT_DATA_FLAG_ANY : Z := 0x000fffff.

(** The rows of the table, [[first ... last] = flags]. *)
Definition seq_event_data_rows : list (Z * Z * Z) := [
  (0, 4, SEQ_EVENT_DATA_FLAG_RESULT);
  (5, 9, SEQ_EVENT_DATA_FLAG_NOTE);
  (10, 24, SEQ_EVENT_DATA_FLAG_CONTROL);
  (25, 29, SEQ_EVENT_DATA_FLAG_FIXED_ANY);
  (30, 39, SEQ_EVENT_DATA_FLAG_QUEUE);
  (40, 49, SEQ_EVENT_DATA_FLAG_BLANK);
  (50, 59, SEQ_EVENT_DATA_FLAG_ANY);
  (60, 65, SEQ_EVENT_DATA_FLAG_ADDR);
  (66, 69, SEQ_EVENT_DATA_FLAG_CONNECT);
  (70, 79, SEQ_EVENT_DATA_FLAG_FIXED_ANY);
  (80, 89, SEQ_EVENT_DATA_FLAG_FIXED_ANY);
  (90, 99, Z.lor SEQ_EVENT_DATA_FLAG_FIXED_ANY SEQ_EVENT_DATA_FLAG_USER);
  (100, 109, SEQ_EVENT_DATA_FLAG_FIXED_ANY);
  (110, 119, SEQ_EVENT_DATA_FLAG_FIXED_ANY);
  (120, 129, SEQ_EVENT_DATA_FLAG_FIXED_ANY);
  (130, 134, SEQ_EVENT_DATA_FLAG_BLOB);
  (135, 139, Z.lor SEQ_EVENT_DATA_FLAG_VARIABLE_ANY SEQ_EVENT_DATA_FLAG_USER);
  (140, 149, SEQ_EVENT_DATA_FLAG_VARIABLE_ANY);
  (150, 254, SEQ_EVENT_DATA_FLAG_ANY);
  (255, 255, SEQ_EVENT_DATA_FLAG_NONE)
].

Fixpoint lookup_rows (rows : list (Z * Z * Z)) (t : Z) : Z :=
  match rows with
  | [] => 0
  | (lo, hi, fl) :: rows => if (lo <=? t) && (t <=? hi) then fl else lookup_rows rows t
  end.

Definition seq_event_data_flags (t : Z) : Z := lookup_rows seq_event_data_rows t.

(** ** Guards of the data accessors *)

(** The error argument is not used: the call returns FALSE without an error. *)
Definition validate_event_tstamp_mode {S} (ev : snd_seq_event) (mode : Z) : M S unit :=
  let val := Z.land (ev_flags ev) SNDRV_SEQ_TIME_STAMP_MASK in
  if val =? mode then mret tt else fail None.

Definition validate_event_type {S} (ev : snd_seq_event) (flag : Z) : M S unit :=
  if Z.land (seq_event_data_flags (ev_type ev)) flag =? 0
  then fail (Some err_data_type) else mret tt.

(** The length mode a kind of data is kept in; the default case is the [int]
    0xffffffff, which is no mode. *)
Definition expected_length_mode (flag : Z) : Z :=
  if bool_decide (flag ∈ [SEQ_EVENT_DATA_FLAG_RESULT; SEQ_EVENT_DATA_FLAG_NOTE;
       SEQ_EVENT_DATA_FLAG_CONTROL; SEQ_EVENT_DATA_FLAG_QUEUE;
       SEQ_EVENT_DATA_FLAG_ADDR; SEQ_EVENT_DATA_FLAG_CONNECT;
       SEQ_EVENT_DATA_FLAG_BYTE; SEQ_EVENT_DATA_FLAG_QUADLET;
       SEQ_EVENT_DATA_FLAG_TSTAMP])
  then SNDRV_SEQ_EVENT_LENGTH_FIXED
  else if flag =? SEQ_EVENT_DATA_FLAG_BLOB then SNDRV_SEQ_EVENT_LENGTH_VARIABLE
  else if flag =? SEQ_EVENT_DATA_FLAG_POINTER then SNDRV_SEQ_EVENT_LENGTH_VARUSR
  else -1.

Definition validate_event_type_and_length {S} (ev : snd_seq_event) (flag : Z) : M S unit :=
  let val := length_mode ev in
  validate_event_type ev flag;;
  if val =? expected_length_mode flag then mret tt else fail (Some err_length_mode).

(** ** Operations *)

Definition sizeof_event : Z := 28.

Section event.
Context {AL : Allocator}.

Definition load_event (self : ptr) : M heap snd_seq_event :=
  bs ← load self sizeof_event; mret (of_bytes bs).

Definition store_event (self : ptr) (ev : snd_seq_event) : M heap unit :=
  store self (to_bytes ev).

(** [self->field = ...] as a function of the event. *)
Definition update_event (self : ptr) (f : snd_seq_event → snd_seq_event) : M heap unit :=
  ev ← load_event self; store_event self (f ev).

(** *** Life cycle of the boxed event *)

Definition seq_event_copy (self : ptr) : M heap ptr :=
  a ← g_malloc0 sizeof_event;
  let ev := (a, 0) in
  memcpy ev self sizeof_event;;
  e ← load_event ev;
  (if length_mode e =? SNDRV_SEQ_EVENT_LENGTH_VARIABLE then
     let src := p_add self sizeof_event in
     let length := ext_len e in
     dst ← g_malloc length;
     memcpy (dst, 0) src length;;
     update_event ev (λ e, set_data (ext_data (ext_len e) dst) e)
   else mret tt);;
  mret ev.

Definition free_blob_data (ev : ptr) : M heap unit :=
  e ← load_event ev;
  if length_mode e =? SNDRV_SEQ_EVENT_LENGTH_VARIABLE then
    let p := p_addr (p_add ev sizeof_event) in
    if p =? ext_ptr e then mret tt else g_free (ext_ptr e)
  else mret tt.

Definition seq_event_free (ev : ptr) : M heap unit :=
  free_blob_data ev;; g_free (p_addr ev).

Definition zero_event : snd_seq_event :=
  Event 0 0 0 0 (zeros 8) (Addr 0 0) (Addr 0 0) (zeros 12).

Definition alsaseq_event_new (event_type : Z) : M heap ptr :=
  with_local (to_bytes (set_type event_type zero_event)) (λ src, seq_event_copy src).

(** *** Header fields *)

Definition alsaseq_event_get_event_type (self : ptr) : M heap Z :=
  ev ← load_event self; mret (ev_type ev).

Definition alsaseq_event_get_length_mode (self : ptr) : M heap Z :=
  ev ← load_event self; mret (Z.land (ev_flags ev) SNDRV_SEQ_EVENT_LENGTH_MASK).

Definition alsaseq_event_get_tstamp_mode (self : ptr) : M heap Z :=
  ev ← load_event self; mret (Z.land (ev_flags ev) SNDRV_SEQ_TIME_STAMP_MASK).

Definition alsaseq_event_get_time_mode (self : ptr) : M heap Z :=
  ev ← load_event self; mret (Z.land (ev_flags ev) SNDRV_SEQ_TIME_MODE_MASK).

Definition alsaseq_event_set_time_mode (self : ptr) (time_mode : Z) : M heap unit :=
  update_event self (assign_flags SNDRV_SEQ_TIME_MODE_MASK time_mode).

Definition alsaseq_event_get_priority_mode (self : ptr) : M heap Z :=
  ev ← load_event self; mret (Z.land (ev_flags ev) SNDRV_SEQ_PRIORITY_MASK).

Definition alsaseq_event_set_priority_mode (self : ptr) (priority_mode : Z) : M heap unit :=
  update_event self (assign_flags SNDRV_SEQ_PRIORITY_MASK priority_mode).

Definition alsaseq_event_get_tag (self : ptr) : M heap Z :=
  ev ← load_event self; mret (ev_tag ev).

Definition alsaseq_event_set_tag (self : ptr) (tag : Z) : M heap unit :=
  update_event self (set_tag tag).

Definition alsaseq_event_get_queue_id (self : ptr) : M heap Z :=
  ev ← load_event self; mret (ev_queue ev).

Definition alsaseq_event_set_queue_id (self : ptr) (queue_id : Z) : M heap unit :=
  update_event self (set_queue queue_id).

(** The addresses are referred to in the event, at their offsets. *)
Definition alsaseq_event_get_source (self : ptr) : M heap ptr :=
  mret (p_add self 12).

Definition alsaseq_event_set_source (self addr : ptr) : M heap unit :=
  a ← load addr 2; update_event self (set_source (of_bytes a)).

Definition alsaseq_event_get_destination (self : ptr) : M heap ptr :=
  mret (p_add self 14).

Definition alsaseq_event_set_destination (self addr : ptr) : M heap unit :=
  a ← load addr 2; update_event self (set_dest (of_bytes a)).

(** *** Time stamp *)

Definition alsaseq_event_get_tick_time (self : ptr) : M heap Z :=
  ev ← load_event self;
  validate_event_tstamp_mode ev ALSASEQ_EVENT_TSTAMP_MODE_TICK;;
  mret (le_u 0 4 (ev_time ev)).

Definition alsaseq_event_set_tick_time (self : ptr) (tick_time : Z) : M heap unit :=
  ev ← load_event self;
  validate_event_tstamp_mode ev ALSASEQ_EVENT_TSTAMP_MODE_TICK;;
  update_event self (λ ev, set_time (le_split 4 tick_time ++ drop 4 (ev_time ev)) ev).

Definition alsaseq_event_get_real_time (self : ptr) : M heap ptr :=
  ev ← load_event self;
  validate_event_tstamp_mode ev ALSASEQ_EVENT_TSTAMP_MODE_REAL;;
  mret (p_add self 4).

Definition alsaseq_event_set_real_time (self real_time : ptr) : M heap unit :=
  ev ← load_event self;
  validate_event_tstamp_mode ev ALSASEQ_EVENT_TSTAMP_MODE_REAL;;
  sec ← load real_time 4;
  update_event self (λ ev, set_time (sec ++ drop 4 (ev_time ev)) ev);;
  nsec ← load (p_add real_time 4) 4;
  update_event self (λ ev, set_time (take 4 (ev_time ev) ++ nsec) ev).

(** *** Storage of the data *)

Definition clear_data_fields (ev : ptr) : M heap unit :=
  free_blob_data ev;; update_event ev (set_data (zeros 12)).

Definition ensure_fixed_length_event (ev : ptr) : M heap unit :=
  clear_data_fields ev;;
  update_event ev
    (assign_flags SNDRV_SEQ_EVENT_LENGTH_MASK SNDRV_SEQ_EVENT_LENGTH_FIXED).

Definition ensure_variable_length_event (ev buf : ptr) (length : Z) : M heap unit :=
  clear_data_fields ev;;
  p ← g_malloc length;
  memcpy (p, 0) buf length;;
  update_event ev (set_data (ext_data length p));;
  update_event ev
    (assign_flags SNDRV_SEQ_EVENT_LENGTH_MASK SNDRV_SEQ_EVENT_LENGTH_VARIABLE).

Definition ensure_pointer_length_event (ev : ptr) : M heap unit :=
  clear_data_fields ev;;
  update_event ev
    (assign_flags SNDRV_SEQ_EVENT_LENGTH_MASK SNDRV_SEQ_EVENT_LENGTH_VARUSR).

(** The getters of fixed data return a pointer into the event. *)
Definition get_fixed_data (flag : Z) (self : ptr) : M heap ptr :=
  ev ← load_event self;
  validate_event_type_and_length ev flag;;
  mret (p_add self offset_data).

(** The setters of fixed data copy a structure of [n] bytes into the event. *)
Definition set_fixed_data (flag n : Z) (self data : ptr) : M heap unit :=
  ev ← load_event self;
  validate_event_type ev flag;;
  ensure_fixed_length_event self;;
  memcpy (p_add self offset_data) data n.

Definition alsaseq_event_get_note_data (self : ptr) : M heap ptr :=
  get_fixed_data SEQ_EVENT_DATA_FLAG_NOTE self.
Definition alsaseq_event_set_note_data (self data : ptr) : M heap unit :=
  set_fixed_data SEQ_EVENT_DATA_FLAG_NOTE 8 self data.

Definition alsaseq_event_get_ctl_data (self : ptr) : M heap ptr :=
  get_fixed_data SEQ_EVENT_DATA_FLAG_CONTROL self.
Definition alsaseq_event_set_ctl_data (self data : ptr) : M heap unit :=
  set_fixed_data SEQ_EVENT_DATA_FLAG_CONTROL 12 self data.

Definition alsaseq_event_get_byte_data (self : ptr) : M heap ptr :=
  data ← get_fixed_data SEQ_EVENT_DATA_FLAG_BYTE self;
  ev ← load_event self;
  validate_event_type ev SEQ_EVENT_DATA_FLAG_BYTE;;
  mret data.
Definition alsaseq_event_set_byte_data (self data : ptr) : M heap unit :=
  set_fixed_data SEQ_EVENT_DATA_FLAG_BYTE 12 self data.

Definition alsaseq_event_get_quadlet_data (self : ptr) : M heap ptr :=
  data ← get_fixed_data SEQ_EVENT_DATA_FLAG_QUADLET self;
  ev ← load_event self;
  validate_event_type ev SEQ_EVENT_DATA_FLAG_QUADLET;;
  mret data.
Definition alsaseq_event_set_quadlet_data (self data : ptr) : M heap unit :=
  set_fixed_data SEQ_EVENT_DATA_FLAG_QUADLET 12 self data.

Definition alsaseq_event_get_queue_data (self : ptr) : M heap ptr :=
  get_fixed_data SEQ_EVENT_DATA_FLAG_QUEUE self.
Definition alsaseq_event_set_queue_data (self data : ptr) : M heap unit :=
  set_fixed_data SEQ_EVENT_DATA_FLAG_QUEUE 12 self data.

Definition alsaseq_event_get_addr_data (self : ptr) : M heap ptr :=
  get_fixed_data SEQ_EVENT_DATA_FLAG_ADDR self.
Definition alsaseq_event_set_addr_data (self data : ptr) : M heap unit :=
  set_fixed_data SEQ_EVENT_DATA_FLAG_ADDR 2 self data.

Definition alsaseq_event_get_connect_data (self : ptr) : M heap ptr :=
  get_fixed_data SEQ_EVENT_DATA_FLAG_CONNECT self.
Definition alsaseq_event_set_connect_data (self data : ptr) : M heap unit :=
  set_fixed_data SEQ_EVENT_DATA_FLAG_CONNECT 4 self data.

Definition alsaseq_event_get_result_data (self : ptr) : M heap ptr :=
  get_fixed_data SEQ_EVENT_DATA_FLAG_RESULT self.
Definition alsaseq_event_set_result_data (self data : ptr) : M heap unit :=
  set_fixed_data SEQ_EVENT_DATA_FLAG_RESULT 8 self data.

Definition alsaseq_event_get_tick_time_data (self : ptr) : M heap Z :=
  ev ← load_event self;
  validate_event_type_and_length ev SEQ_EVENT_DATA_FLAG_TSTAMP;;
  validate_event_tstamp_mode ev ALSASEQ_EVENT_TSTAMP_MODE_TICK;;
  mret (le_u 0 4 (ev_data ev)).

Definition alsaseq_event_set_tick_time_data (self : ptr) (tick_time : Z) : M heap unit :=
  ev ← load_event self;
  validate_event_type ev SEQ_EVENT_DATA_FLAG_TSTAMP;;
  validate_event_tstamp_mode ev ALSASEQ_EVENT_TSTAMP_MODE_TICK;;
  ensure_fixed_length_event self;;
  update_event self (λ ev, set_data (le_split 4 tick_time ++ drop 4 (ev_data ev)) ev).

Definition alsaseq_event_get_real_time_data (self : ptr) : M heap ptr :=
  ev ← load_event self;
  validate_event_type_and_length ev SEQ_EVENT_DATA_FLAG_TSTAMP;;
  validate_event_tstamp_mode ev ALSASEQ_EVENT_TSTAMP_MODE_REAL;;
  mret (p_add self offset_data).

Definition alsaseq_event_set_real_time_data (self real_time : ptr) : M heap unit :=
  ev ← load_event self;
  validate_event_type ev SEQ_EVENT_DATA_FLAG_TSTAMP;;
  validate_event_tstamp_mode ev ALSASEQ_EVENT_TSTAMP_MODE_REAL;;
  ensure_fixed_length_event self;;
  sec ← load real_time 4;
  update_event self (λ ev, set_data (sec ++ drop 4 (ev_data ev)) ev);;
  nsec ← load (p_add real_time 4) 4;
  update_event self (λ ev, set_data (take 4 (ev_data ev) ++ nsec ++ drop 8 (ev_data ev)) ev).

(** The blob and its length are those of the [ext] member. *)
Definition alsaseq_event_get_blob_data (self : ptr) : M heap (Z * Z) :=
  ev ← load_event self;
  validate_event_type_and_length ev SEQ_EVENT_DATA_FLAG_BLOB;;
  mret (ext_ptr ev, ext_len ev).

Definition alsaseq_event_set_blob_data (self data : ptr) (length : Z) : M heap unit :=
  ev ← load_event self;
  validate_event_type ev SEQ_EVENT_DATA_FLAG_BLOB;;
  ensure_variable_length_event self data length.

Definition alsaseq_event_get_pointer_data (self : ptr) : M heap (Z * Z) :=
  ev ← load_event self;
  validate_event_type_and_length ev SEQ_EVENT_DATA_FLAG_POINTER;;
  mret (ext_ptr ev, ext_len ev).

Definition alsaseq_event_set_pointer_data (self : ptr) (data length : Z) : M heap unit :=
  g_return_if_fail (negb (data =? 0));;
  g_return_if_fail (0 <? length);;
  ev ← load_event self;
  validate_event_type ev SEQ_EVENT_DATA_FLAG_POINTER;;
  ensure_pointer_length_event self;;
  update_event self (set_data (ext_data length data)).

(** *** Flattened layout *)

Definition flattened_length (ev : snd_seq_event) (aligned : bool) : Z :=
  let length := sizeof_event in
  let length :=
    if length_mode ev =? SNDRV_SEQ_EVENT_LENGTH_VARIABLE
    then u64 (length + ext_len ev) else length in
  if aligned then
    u64 (u64 (length + sizeof_event - 1) / sizeof_event * sizeof_event)
  else length.

Definition seq_event_calculate_flattened_length (self : ptr) (aligned : bool) : M heap Z :=
  ev ← load_event self; mret (flattened_length ev aligned).

Definition alsaseq_event_calculate_pool_consumption (self : ptr) : M heap Z :=
  length ← seq_event_calculate_flattened_length self true;
  mret (u32 (length / sizeof_event)).

Definition seq_event_copy_flattened (self buf : ptr) (length : Z) : M heap unit :=
  memcpy buf self sizeof_event;;
  ev ← load_event self;
  if length_mode ev =? SNDRV_SEQ_EVENT_LENGTH_VARIABLE then
    g_return_if_fail (u64 (sizeof_event + ext_len ev) <=? length);;
    memcpy (p_add buf sizeof_event) (ext_ptr ev, 0) (ext_len ev)
  else mret tt.

Definition seq_event_is_deliverable (ev : snd_seq_event) : bool :=
  let flags := seq_event_data_flags (ev_type ev) in
  if length_mode ev =? SNDRV_SEQ_EVENT_LENGTH_FIXED then
    if ev_type ev =? ALSASEQ_EVENT_TYPE_NOTE
    then negb (ev_queue ev =? SNDRV_SEQ_QUEUE_DIRECT)
    else 0 <? Z.land flags SEQ_EVENT_DATA_FLAG_FIXED_ANY
  else if length_mode ev =? SNDRV_SEQ_EVENT_LENGTH_VARIABLE then
    0 <? Z.land flags SEQ_EVENT_DATA_FLAG_VARIABLE_ANY
  else if length_mode ev =? SNDRV_SEQ_EVENT_LENGTH_VARUSR then
    (0 <? Z.land flags SEQ_EVENT_DATA_FLAG_VARUSR_ANY) &&
    (ev_queue ev =? SNDRV_SEQ_QUEUE_DIRECT)
  else false.
End event.
