(* ===== verification/SeqEventFacts.v ===== *)
(** * Executions of the operations on events

    The invariant [event_at] of a boxed event, the heap each operation of
    SeqEvent.v leaves, and the facts on its fields the properties rest on. *)
From S2P Require Import Prelude Heap SeqUapi SeqEvent.

(** ** Facts about events in memory *)

(** The header of 16 bytes before the data. *)
Definition ev_header (e : snd_seq_event) : list byte :=
  le_split 1 (ev_type e) ++ le_split 1 (ev_flags e) ++ le_split 1 (ev_tag e) ++
  le_split 1 (ev_queue e) ++ ev_time e ++ to_bytes (ev_source e) ++ to_bytes (ev_dest e).

Lemma to_bytes_event (e : snd_seq_event) : to_bytes e = ev_header e ++ ev_data e.
Proof. unfold ev_header. rewrite <- !app_assoc. done. Qed.

Lemma length_to_bytes_event (e : snd_seq_event) : c_ok e → length (to_bytes e) = 28%nat.
Proof. intros H. exact (length_to_bytes e H). Qed.

Lemma length_ev_header (e : snd_seq_event) : c_ok e → length (ev_header e) = 16%nat.
Proof.
  intros H. pose proof (length_to_bytes_event e H) as L.
  rewrite to_bytes_event, length_app in L. destruct H as (_&_&_&_&_&_&_&Hd). lia.
Qed.

Lemma to_bytes_event_nonnil (e : snd_seq_event) : to_bytes e ≠ [].
Proof. done. Qed.

(** The setters of the fields keep an event well formed. *)
Ltac event_ok :=
  intros (?&?&?&?&?&?&?&?); intros;
  refine (conj _ (conj _ (conj _ (conj _ (conj _ (conj _ (conj _ _)))))));
  cbn [ev_type ev_flags ev_tag ev_queue ev_time ev_source ev_dest ev_data
    set_flags set_data set_time set_tag set_queue set_source set_dest];
  first [assumption | apply u8_range | apply (sgn_wrap_range 8); lia].

Lemma set_flags_ok z e : c_ok e → c_ok (set_flags z e).
Proof. event_ok. Qed.
Lemma set_data_ok bs e : c_ok e → length bs = 12%nat → c_ok (set_data bs e).
Proof. event_ok. Qed.
Lemma set_time_ok bs e : c_ok e → length bs = 8%nat → c_ok (set_time bs e).
Proof. event_ok. Qed.
Lemma set_tag_ok z e : c_ok e → c_ok (set_tag z e).
Proof. event_ok. Qed.
Lemma set_queue_ok z e : c_ok e → c_ok (set_queue z e).
Proof. event_ok. Qed.
Lemma set_source_ok a e : c_ok e → c_ok a → c_ok (set_source a e).
Proof. event_ok. Qed.
Lemma set_dest_ok a e : c_ok e → c_ok a → c_ok (set_dest a e).
Proof. event_ok. Qed.
Lemma assign_flags_ok mask v e : c_ok e → c_ok (assign_flags mask v e).
Proof. intros H. by apply set_flags_ok, set_flags_ok. Qed.

#[export] Hint Resolve set_flags_ok set_data_ok set_time_ok set_tag_ok set_queue_ok
  set_source_ok set_dest_ok assign_flags_ok : alsa.
#[export] Hint Resolve length_zeros : alsa.

(** The field a mask selects takes the value, the other masks keep theirs. *)
Lemma assign_flags_read mask v e :
  is_u8 mask → Z.land v mask = v → Z.land (ev_flags (assign_flags mask v e)) mask = v.
Proof.
  intros Hm Hv. rewrite <- (set_bits_read mask v (ev_flags e) Hv) at 2.
  cbn. rewrite u8_mask by done. unfold set_bits.
  rewrite !Z.land_lor_distr_l. by rewrite u8_mask by done.
Qed.

Lemma assign_flags_other mask mask' v e :
  is_u8 mask → is_u8 mask' → Z.land v mask = v → Z.land mask mask' = 0 →
  Z.land (ev_flags (assign_flags mask v e)) mask' = Z.land (ev_flags e) mask'.
Proof.
  intros Hm Hm' Hv Hd. rewrite <- (set_bits_other mask mask' v (ev_flags e)) by done.
  cbn. rewrite u8_mask by done. unfold set_bits.
  rewrite !Z.land_lor_distr_l. by rewrite u8_mask by done.
Qed.

(** ** Executions of the operations *)

(** A boxed event is alone in its block. *)
Definition boxed (h : heap) (p : Z) (e : snd_seq_event) : Prop :=
  h !! p = Some (to_bytes e) ∧ c_ok e ∧ 0 < p ∧ p `mod` 8 = 0.

(** The blob an event in variable length mode owns: the block [ext] points
    to, or nothing at all when its length is zero. *)
Definition owns_blob (h : heap) (p : Z) (e : snd_seq_event) (blob : list byte) : Prop :=
  ext_len e = Z.of_nat (length blob) ∧
  if bool_decide (blob = []) then ext_ptr e = 0
  else 0 < ext_ptr e ∧ ext_ptr e `mod` 8 = 0 ∧ ext_ptr e ≠ p ∧ h !! ext_ptr e = Some blob.

Definition variable (e : snd_seq_event) : bool :=
  length_mode e =? SNDRV_SEQ_EVENT_LENGTH_VARIABLE.

(** The well-formed boxed events: the invariant of [ALSASeqEvent]. *)
Definition event_at (h : heap) (p : Z) (e : snd_seq_event) (blob : list byte) : Prop :=
  boxed h p e ∧ if variable e then owns_blob h p e blob else blob = [].

(** The heap without the blob of the event. *)
Definition drop_blob (e : snd_seq_event) (h : heap) : heap :=
  if variable e then (if ext_ptr e =? 0 then h else delete (ext_ptr e) h) else h.

(** What the address of a block of [n] bytes is when the allocation succeeds. *)
Definition allocates `{Allocator} (h : heap) (n a : Z) : Prop :=
  if n =? 0 then a = 0 else alloc_addr h n = Some a.

Section runs.
Context {AL : Allocator}.
Implicit Types (h : heap) (p a : Z) (e : snd_seq_event).

Lemma boxed_at h p e : boxed h p e → at_ptr h (p, 0) (to_bytes e).
Proof. intros [H _]. by apply at_ptr_block. Qed.

(** An event anywhere in memory is read with its fields. *)
Lemma load_event_at h self e :
  at_ptr h self (to_bytes e) → c_ok e → load_event self h = (Ret e, h).
Proof.
  intros Hat Hok. unfold load_event.
  erewrite bind_Ret by (eapply load_at; [done|by rewrite length_to_bytes_event]).
  by rewrite mret_run, of_to_bytes.
Qed.

Lemma load_event_run h p e : boxed h p e → load_event (p, 0) h = (Ret e, h).
Proof. intros H. apply load_event_at; [by apply boxed_at|apply H]. Qed.

Lemma update_event_run h p e f :
  boxed h p e → c_ok (f e) →
  update_event (p, 0) f h = (Ret tt, <[p := to_bytes (f e)]> h).
Proof.
  intros H Hf. unfold update_event.
  rewrite (bind_Ret _ _ _ _ _ (load_event_run h p e H)).
  apply (store_block _ _ (to_bytes e)); [apply H| |done].
  rewrite !length_to_bytes_event; [done..|apply H].
Qed.

Lemma boxed_insert h p e e' : boxed h p e → c_ok e' → boxed (<[p := to_bytes e']> h) p e'.
Proof. intros (_&_&Hp) Hok. split; [apply lookup_insert_eq|by split]. Qed.

Lemma boxed_insert_ne h p e a bs : a ≠ p → boxed h p e → boxed (<[a := bs]> h) p e.
Proof. intros Ha (H&?). split; [by rewrite lookup_insert_ne|done]. Qed.

Lemma boxed_drop_blob h p e blob : event_at h p e blob → boxed (drop_blob e h) p e.
Proof.
  intros [Hb Ho]. unfold drop_blob. destruct (variable e); [|done].
  destruct Ho as [_ Ho]. case_bool_decide.
  - by rewrite Ho.
  - destruct Ho as (Hpos & _ & Hne & _). destruct (Z.eqb_spec (ext_ptr e) 0); [lia|].
    split; [|apply Hb]. rewrite lookup_delete_ne by done. apply Hb.
Qed.

Lemma free_blob_data_run h p e blob :
  event_at h p e blob → free_blob_data (p, 0) h = (Ret tt, drop_blob e h).
Proof.
  intros [Hb Ho]. unfold free_blob_data, drop_blob.
  rewrite (bind_Ret _ _ _ _ _ (load_event_run h p e Hb)).
  change (length_mode e =? _) with (variable e). destruct (variable e); [|done].
  destruct Hb as (_ & _ & Hp & Hmod). destruct Ho as [_ Ho].
  change (p_addr _) with (p + 28). case_bool_decide.
  - rewrite Ho. destruct (Z.eqb_spec (p + 28) 0); [lia|]. done.
  - destruct Ho as (Hpos & Hm & Hne & Hbl).
    destruct (Z.eqb_spec (p + 28) (ext_ptr e)) as [E|_].
    { rewrite <- E, Z.add_mod, Hmod in Hm by lia. done. }
    destruct (Z.eqb_spec (ext_ptr e) 0); [lia|]. by eapply g_free_block.
Qed.

Lemma clear_data_fields_run h p e blob :
  event_at h p e blob →
  clear_data_fields (p, 0) h =
    (Ret tt, <[p := to_bytes (set_data (zeros 12) e)]> (drop_blob e h)).
Proof.
  intros H. unfold clear_data_fields.
  rewrite (bind_Ret _ _ _ _ _ (free_blob_data_run h p e blob H)).
  apply update_event_run; [by eapply boxed_drop_blob|].
  apply set_data_ok; [apply H|done].
Qed.

(** Both statements that set the length mode, after the data is cleared. *)
Definition cleared (mode : Z) (e : snd_seq_event) : snd_seq_event :=
  assign_flags SNDRV_SEQ_EVENT_LENGTH_MASK mode (set_data (zeros 12) e).

Lemma cleared_ok mode e : c_ok e → c_ok (cleared mode e).
Proof. intros H. apply assign_flags_ok, set_data_ok; done. Qed.

Lemma clear_and_set_mode_run h p e blob mode :
  event_at h p e blob →
  (clear_data_fields (p, 0);;
   update_event (p, 0) (assign_flags SNDRV_SEQ_EVENT_LENGTH_MASK mode)) h =
    (Ret tt, <[p := to_bytes (cleared mode e)]> (drop_blob e h)).
Proof.
  intros H. rewrite (bind_Ret _ _ _ _ _ (clear_data_fields_run h p e blob H)).
  assert (c_ok (set_data (zeros 12) e)) by (apply set_data_ok; [apply H|done]).
  rewrite (update_event_run _ p (set_data (zeros 12) e)).
  - by rewrite insert_insert_eq.
  - eapply boxed_insert; [by eapply boxed_drop_blob|done].
  - by apply assign_flags_ok.
Qed.

Lemma ensure_fixed_run h p e blob :
  event_at h p e blob →
  ensure_fixed_length_event (p, 0) h =
    (Ret tt, <[p := to_bytes (cleared SNDRV_SEQ_EVENT_LENGTH_FIXED e)]> (drop_blob e h)).
Proof. apply clear_and_set_mode_run. Qed.

Lemma ensure_pointer_run h p e blob :
  event_at h p e blob →
  ensure_pointer_length_event (p, 0) h =
    (Ret tt, <[p := to_bytes (cleared SNDRV_SEQ_EVENT_LENGTH_VARUSR e)]> (drop_blob e h)).
Proof. apply clear_and_set_mode_run. Qed.

(** Pieces of an event in its block. *)
Lemma at_data h p e : boxed h p e → at_ptr h (p, offset_data) (ev_data e).
Proof.
  intros (H & Hok & _). exists (ev_header e), []. rewrite app_nil_r.
  by rewrite length_ev_header, <- to_bytes_event.
Qed.

(** A copy of [bs] over the start of the data of an event. *)
Lemma memcpy_data_run h p e d bs n :
  boxed h p e → at_ptr h d bs → n = Z.of_nat (length bs) → (0 < length bs ≤ 12)%nat →
  memcpy (p, offset_data) d n h =
    (Ret tt, <[p := to_bytes (set_data (bs ++ drop (length bs) (ev_data e)) e)]> h).
Proof.
  intros Hb Hd Hn Hl. unfold memcpy.
  rewrite (bind_Ret _ _ _ _ _ (load_at h d bs n Hd Hn)).
  destruct Hb as (H & Hok & _).
  assert (length (ev_data e) = 12%nat) as Hda by (by destruct Hok as (_&_&_&_&_&_&_&?)).
  destruct (store_at h p (ev_header e) (take (length bs) (ev_data e))
    (drop (length bs) (ev_data e)) bs) as (h' & E & Hh & _).
  - by rewrite take_drop, <- to_bytes_event.
  - rewrite length_take. lia.
  - rewrite length_ev_header in E by done.
    change (Z.of_nat 16) with offset_data in E. rewrite to_bytes_event, E.
    rewrite Hh; [done|]. intros ->. simpl in Hl. lia.
Qed.
End runs.

(** ** The eight kinds of fixed data *)

Inductive fixed_kind := KNote | KCtl | KByte | KQuadlet | KQueue | KAddr | KConnect | KResult.

Definition kind_flag (k : fixed_kind) : Z :=
  match k with
  | KNote => SEQ_EVENT_DATA_FLAG_NOTE
  | KCtl => SEQ_EVENT_DATA_FLAG_CONTROL
  | KByte => SEQ_EVENT_DATA_FLAG_BYTE
  | KQuadlet => SEQ_EVENT_DATA_FLAG_QUADLET
  | KQueue => SEQ_EVENT_DATA_FLAG_QUEUE
  | KAddr => SEQ_EVENT_DATA_FLAG_ADDR
  | KConnect => SEQ_EVENT_DATA_FLAG_CONNECT
  | KResult => SEQ_EVENT_DATA_FLAG_RESULT
  end.

Definition kind_size (k : fixed_kind) : nat :=
  match k with
  | KNote | KResult => 8
  | KCtl | KByte | KQuadlet | KQueue => 12
  | KAddr => 2
  | KConnect => 4
  end.

Definition kind_set `{Allocator} (k : fixed_kind) : ptr → ptr → M heap unit :=
  match k with
  | KNote => alsaseq_event_set_note_data
  | KCtl => alsaseq_event_set_ctl_data
  | KByte => alsaseq_event_set_byte_data
  | KQuadlet => alsaseq_event_set_quadlet_data
  | KQueue => alsaseq_event_set_queue_data
  | KAddr => alsaseq_event_set_addr_data
  | KConnect => alsaseq_event_set_connect_data
  | KResult => alsaseq_event_set_result_data
  end.

Definition kind_get `{Allocator} (k : fixed_kind) : ptr → M heap ptr :=
  match k with
  | KNote => alsaseq_event_get_note_data
  | KCtl => alsaseq_event_get_ctl_data
  | KByte => alsaseq_event_get_byte_data
  | KQuadlet => alsaseq_event_get_quadlet_data
  | KQueue => alsaseq_event_get_queue_data
  | KAddr => alsaseq_event_get_addr_data
  | KConnect => alsaseq_event_get_connect_data
  | KResult => alsaseq_event_get_result_data
  end.

(** The type of the event admits the kind of data. *)
Definition admits (e : snd_seq_event) (flag : Z) : bool :=
  negb (Z.land (seq_event_data_flags (ev_type e)) flag =? 0).

(** Everything but the data and the length mode. *)
Definition same_header (e e' : snd_seq_event) : Prop :=
  ev_type e' = ev_type e ∧ ev_tag e' = ev_tag e ∧ ev_queue e' = ev_queue e ∧
  ev_time e' = ev_time e ∧ ev_source e' = ev_source e ∧ ev_dest e' = ev_dest e ∧
  Z.land (ev_flags e') (Z.ldiff 255 SNDRV_SEQ_EVENT_LENGTH_MASK) =
    Z.land (ev_flags e) (Z.ldiff 255 SNDRV_SEQ_EVENT_LENGTH_MASK).

Lemma cleared_same_header mode e :
  Z.land mode SNDRV_SEQ_EVENT_LENGTH_MASK = mode → same_header e (cleared mode e).
Proof.
  intros Hm. repeat (split; [done|]).
  unfold cleared. by rewrite assign_flags_other.
Qed.

Lemma cleared_length_mode mode e :
  Z.land mode SNDRV_SEQ_EVENT_LENGTH_MASK = mode → length_mode (cleared mode e) = mode.
Proof. intros Hm. by apply assign_flags_read. Qed.

Section kinds.
Context {AL : Allocator}.
Implicit Types (h : heap) (p a : Z) (e : snd_seq_event).

Lemma kind_set_eq k :
  kind_set k = set_fixed_data (kind_flag k) (Z.of_nat (kind_size k)).
Proof. by destruct k. Qed.

Lemma kind_fixed k : expected_length_mode (kind_flag k) = SNDRV_SEQ_EVENT_LENGTH_FIXED.
Proof. by destruct k. Qed.

Lemma kind_size_bound k : (0 < kind_size k ≤ 12)%nat.
Proof. destruct k; simpl; lia. Qed.

Lemma validate_event_type_run {S} (e : snd_seq_event) flag (s : S) :
  validate_event_type e flag s =
    (if admits e flag then Ret tt else Fail (Some err_data_type), s).
Proof. unfold validate_event_type, admits. by destruct (_ =? 0). Qed.

Lemma validate_event_type_and_length_run {S} (e : snd_seq_event) flag (s : S) :
  validate_event_type_and_length e flag s =
    (if admits e flag then
       if length_mode e =? expected_length_mode flag then Ret tt
       else Fail (Some err_length_mode)
     else Fail (Some err_data_type), s).
Proof.
  unfold validate_event_type_and_length. destruct (admits e flag) eqn:E.
  - rewrite (bind_Ret _ _ s tt s); [by destruct (_ =? _)|].
    by rewrite validate_event_type_run, E.
  - apply bind_Fail. by rewrite validate_event_type_run, E.
Qed.

Lemma at_ptr_drop_blob h e d bs :
  (variable e = true → d.1 ≠ ext_ptr e) → at_ptr h d bs → at_ptr (drop_blob e h) d bs.
Proof.
  intros Hd Hat. unfold drop_blob. destruct (variable e); [|done].
  destruct (_ =? 0); [done|]. apply at_ptr_delete; [|done]. by apply not_eq_sym, Hd.
Qed.

Lemma drop_blob_lookup h e blob p a :
  event_at h p e blob →
  drop_blob e h !! a = if variable e && (a =? ext_ptr e) && negb (a =? 0)
                       then None else h !! a.
Proof.
  intros _. unfold drop_blob. destruct (variable e); [|done]. simpl.
  destruct (Z.eqb_spec a (ext_ptr e)) as [->|Hne]; simpl.
  - destruct (Z.eqb_spec (ext_ptr e) 0); simpl; [done|]. apply lookup_delete_eq.
  - destruct (Z.eqb_spec (ext_ptr e) 0); [done|]. by apply lookup_delete_ne.
Qed.

(** The event a setter of fixed data leaves. *)
Definition with_fixed (bs : list byte) (e : snd_seq_event) : snd_seq_event :=
  set_data (bs ++ drop (length bs) (zeros 12)) (cleared SNDRV_SEQ_EVENT_LENGTH_FIXED e).

Lemma with_fixed_ok bs e : c_ok e → (length bs ≤ 12)%nat → c_ok (with_fixed bs e).
Proof.
  intros Hok Hl. apply set_data_ok; [by apply cleared_ok|].
  rewrite length_app, length_drop, length_zeros. lia.
Qed.

Lemma with_fixed_at h p e blob bs :
  event_at h p e blob → (length bs ≤ 12)%nat →
  event_at (<[p := to_bytes (with_fixed bs e)]> (drop_blob e h)) p (with_fixed bs e) [].
Proof.
  intros H Hl. split.
  - eapply boxed_insert; [by eapply boxed_drop_blob|]. apply with_fixed_ok; [apply H|done].
  - unfold variable. change (length_mode (with_fixed bs e)) with
      (length_mode (cleared SNDRV_SEQ_EVENT_LENGTH_FIXED e)).
    by rewrite cleared_length_mode.
Qed.

Lemma set_fixed_data_run h p e blob flag n d bs :
  event_at h p e blob → admits e flag = true →
  at_ptr (<[p := to_bytes (cleared SNDRV_SEQ_EVENT_LENGTH_FIXED e)]> (drop_blob e h)) d bs →
  n = Z.of_nat (length bs) → (0 < length bs ≤ 12)%nat →
  set_fixed_data flag n (p, 0) d h =
    (Ret tt, <[p := to_bytes (with_fixed bs e)]> (drop_blob e h)).
Proof.
  intros H Ha Hd Hn Hl. unfold set_fixed_data.
  rewrite (bind_Ret _ _ _ _ _ (load_event_run h p e (proj1 H))).
  rewrite (bind_Ret _ _ h tt h) by (by rewrite validate_event_type_run, Ha).
  rewrite (bind_Ret _ _ _ _ _ (ensure_fixed_run h p e blob H)).
  erewrite (memcpy_data_run _ p (cleared SNDRV_SEQ_EVENT_LENGTH_FIXED e) d bs n); [|..|done|done].
  - by rewrite insert_insert_eq.
  - eapply boxed_insert; [by eapply boxed_drop_blob|]. apply cleared_ok, H.
  - done.
Qed.

Lemma kind_get_run k h p e :
  boxed h p e → admits e (kind_flag k) = true →
  length_mode e = SNDRV_SEQ_EVENT_LENGTH_FIXED →
  kind_get k (p, 0) h = (Ret (p, offset_data), h).
Proof.
  intros Hb Ha Hm.
  assert (get_fixed_data (kind_flag k) (p, 0) h = (Ret (p, offset_data), h)) as E.
  { unfold get_fixed_data. rewrite (bind_Ret _ _ _ _ _ (load_event_run h p e Hb)).
    rewrite (bind_Ret _ _ h tt h); [done|].
    by rewrite validate_event_type_and_length_run, Ha, Hm, kind_fixed. }
  assert (∀ flag, flag = kind_flag k →
    (data ← get_fixed_data flag (p, 0); ev ← load_event (p, 0);
     validate_event_type ev flag;; mret data) h = (Ret (p, offset_data), h)) as E2.
  { intros flag ->. rewrite (bind_Ret _ _ _ _ _ E).
    rewrite (bind_Ret _ _ _ _ _ (load_event_run h p e Hb)).
    by rewrite (bind_Ret _ _ h tt h) by (by rewrite validate_event_type_run, Ha). }
  destruct k; try exact E; by apply E2.
Qed.
End kinds.

(** ** Variable data *)

Definition with_ext (mode len a : Z) (e : snd_seq_event) : snd_seq_event :=
  assign_flags SNDRV_SEQ_EVENT_LENGTH_MASK mode (set_data (ext_data len a) e).

(** The heap with a new block for a blob; no block for an empty one. *)
Definition add_block (a : Z) (bs : list byte) (h : heap) : heap :=
  if bool_decide (bs = []) then h else <[a := bs]> h.

Lemma with_ext_ok mode len a e : c_ok e → c_ok (with_ext mode len a e).
Proof. intros H. apply assign_flags_ok, set_data_ok; [done|]. apply length_ext_data. Qed.

Lemma ext_len_with_ext mode len a e : is_u32 len → ext_len (with_ext mode len a e) = len.
Proof.
  intros H. unfold ext_len, le_u. cbn [with_ext assign_flags set_flags set_data ev_data].
  unfold ext_data. sub_simpl. by apply le_combine_split_id.
Qed.

Lemma ext_ptr_with_ext mode len a e : is_u64 a → ext_ptr (with_ext mode len a e) = a.
Proof.
  intros H. unfold ext_ptr, le_u. cbn [with_ext assign_flags set_flags set_data ev_data].
  unfold ext_data. sub_simpl. by apply le_combine_split_id.
Qed.

Lemma with_ext_length_mode mode len a e :
  Z.land mode SNDRV_SEQ_EVENT_LENGTH_MASK = mode → length_mode (with_ext mode len a e) = mode.
Proof. intros Hm. by apply assign_flags_read. Qed.

Lemma with_ext_same_header mode len a e :
  Z.land mode SNDRV_SEQ_EVENT_LENGTH_MASK = mode → same_header e (with_ext mode len a e).
Proof.
  intros Hm. repeat (split; [done|]). unfold with_ext. by rewrite assign_flags_other.
Qed.

Section blobs.
Context {AL : Allocator} {LAWS : AllocatorLaws}.
Implicit Types (h : heap) (p a : Z) (e : snd_seq_event).

Lemma allocates_malloc h (bs : list byte) a :
  allocates h (Z.of_nat (length bs)) a →
  ∃ junk, length junk = length bs ∧
    g_malloc (Z.of_nat (length bs)) h = (Ret a, add_block a junk h).
Proof.
  unfold allocates, g_malloc, add_block. intros Ha.
  destruct (Z.eqb_spec (Z.of_nat (length bs)) 0) as [E|E].
  - exists []. split; [simpl; lia|]. subst a. done.
  - rewrite Ha. exists (alloc_junk h (Z.to_nat (Z.of_nat (length bs)))).
    rewrite alloc_junk_length, Nat2Z.id. split; [done|].
    rewrite bool_decide_false; [done|]. intros E2.
    apply (f_equal length) in E2. rewrite alloc_junk_length in E2. simpl in E2. lia.
Qed.

(** [g_malloc] and [memcpy] together: a new block with the bytes. *)
Lemma malloc_memcpy_run h src bs a n :
  at_ptr h src bs → n = Z.of_nat (length bs) → allocates h n a →
  (p ← g_malloc n; memcpy (p, 0) src n;; mret p) h = (Ret a, add_block a bs h).
Proof.
  intros Hat -> Ha. destruct (allocates_malloc h bs a Ha) as (junk & Hl & E).
  rewrite (bind_Ret _ _ _ _ _ E). unfold add_block, memcpy.
  destruct bs as [|b bs]; [by destruct junk|].
  destruct junk as [|j junk]; [done|].
  repeat rewrite bool_decide_false by done.
  assert (alloc_addr h (Z.of_nat (length (b :: bs))) = Some a) as Ha'.
  { unfold allocates in Ha. by destruct (Z.eqb_spec (Z.of_nat (length (b :: bs))) 0). }
  assert (a ≠ src.1) as Hne.
  { intros ->. apply alloc_fresh in Ha'. destruct Hat as (? & ? & Hs & _). congruence. }
  unfold mbind, M_bind. erewrite load_at; [|by apply at_ptr_insert|done].
  erewrite store_block; [|apply lookup_insert_eq|done|done].
  by rewrite insert_insert_eq.
Qed.

Lemma malloc_memcpy_bind {B} h src bs a n (f : Z → M heap B) :
  at_ptr h src bs → n = Z.of_nat (length bs) → allocates h n a →
  (p ← g_malloc n; memcpy (p, 0) src n;; f p) h = f a (add_block a bs h).
Proof.
  intros Hat Hn Ha. pose proof (malloc_memcpy_run h src bs a n Hat Hn Ha) as E.
  revert E. unfold mbind, M_bind.
  destruct (g_malloc n _) as [[] ?]; try done.
  destruct (memcpy _ _ _ _) as [[] ?]; try done. by intros [= -> ->].
Qed.

Lemma allocates_bounds h n a :
  allocates h n a → 0 ≤ a < 2 ^ 64 ∧ a `mod` 8 = 0 ∧ (n ≠ 0 → 0 < a ∧ h !! a = None).
Proof.
  unfold allocates. destruct (Z.eqb_spec n 0) as [->|Hn].
  - intros ->. split_and!; [lia|lia|done|done].
  - intros Ha. pose proof (alloc_nonnull _ _ _ Ha). pose proof (alloc_aligned _ _ _ Ha).
    pose proof (alloc_fresh _ _ _ Ha). split_and!; try lia. intros _. split; [lia|done].
Qed.

(** The state in which the blob of an event is allocated. *)
Definition cleared_heap (h : heap) (p : Z) (e : snd_seq_event) : heap :=
  <[p := to_bytes (set_data (zeros 12) e)]> (drop_blob e h).

Lemma at_cleared_heap h p e d bs :
  d.1 ≠ p → (variable e = true → d.1 ≠ ext_ptr e) →
  at_ptr h d bs → at_ptr (cleared_heap h p e) d bs.
Proof.
  intros Hp Hx Hat. apply at_ptr_insert; [done|]. by apply at_ptr_drop_blob.
Qed.

Lemma boxed_cleared_heap h p e blob :
  event_at h p e blob → boxed (cleared_heap h p e) p (set_data (zeros 12) e).
Proof.
  intros H. eapply boxed_insert; [by eapply boxed_drop_blob|].
  apply set_data_ok; [apply H|done].
Qed.

Lemma boxed_add_block h p e n a bs :
  boxed h p e → n = Z.of_nat (length bs) → allocates h n a → boxed (add_block a bs h) p e.
Proof.
  intros Hb Hn Ha. unfold add_block. case_bool_decide as E; [done|].
  apply boxed_insert_ne; [|done]. intros ->. destruct Hb as [Hb _].
  destruct (allocates_bounds _ _ _ Ha) as (_ & _ & Hf).
  destruct Hf as [_ Hf]; [|congruence].
  subst n. destruct bs; simpl; [done|lia].
Qed.

Lemma ensure_variable_run h p e blob d bs a n :
  event_at h p e blob → at_ptr (cleared_heap h p e) d bs →
  n = Z.of_nat (length bs) → allocates (cleared_heap h p e) n a →
  ensure_variable_length_event (p, 0) d n h =
    (Ret tt, <[p := to_bytes (with_ext SNDRV_SEQ_EVENT_LENGTH_VARIABLE n a e)]>
               (add_block a bs (cleared_heap h p e))).
Proof.
  intros H Hat Hn Ha. unfold ensure_variable_length_event.
  rewrite (bind_Ret _ _ _ _ _ (clear_data_fields_run h p e blob H)).
  change (<[p := _]> (drop_blob e h)) with (cleared_heap h p e).
  pose proof (boxed_cleared_heap h p e blob H) as Hb1.
  pose proof (boxed_add_block _ p _ n a bs Hb1 Hn Ha) as Hb2.
  assert (c_ok (set_data (ext_data n a) (set_data (zeros 12) e))) as Hok
    by (apply set_data_ok; [apply Hb1|apply length_ext_data]).
  rewrite (malloc_memcpy_bind _ d bs a n) by done.
  rewrite (bind_Ret _ _ _ _ _ (update_event_run _ p _ _ Hb2 Hok)).
  erewrite update_event_run; [by rewrite insert_insert_eq|by eapply boxed_insert|].
  by apply assign_flags_ok.
Qed.

(** The event owns the blob it was given. *)
Lemma with_blob_at h p e blob bs a n :
  event_at h p e blob → n = Z.of_nat (length bs) → n < 2 ^ 32 →
  allocates (cleared_heap h p e) n a →
  event_at (<[p := to_bytes (with_ext SNDRV_SEQ_EVENT_LENGTH_VARIABLE n a e)]>
              (add_block a bs (cleared_heap h p e)))
    p (with_ext SNDRV_SEQ_EVENT_LENGTH_VARIABLE n a e) bs.
Proof.
  intros H Hn Hlt Ha. pose proof (boxed_cleared_heap h p e blob H) as Hb1.
  pose proof (boxed_add_block _ p _ n a bs Hb1 Hn Ha) as Hb2.
  destruct (allocates_bounds _ _ _ Ha) as (Hu & Hmod & Hpos).
  split.
  { eapply boxed_insert; [done|]. apply with_ext_ok, H. }
  unfold variable. rewrite with_ext_length_mode by done. simpl.
  split; [rewrite ext_len_with_ext; [done|split; [lia|done]]|].
  rewrite ext_ptr_with_ext by done. unfold add_block.
  case_bool_decide as E.
  - unfold allocates in Ha. subst bs n. done.
  - destruct Hpos as [Hpos Hnone]; [subst n; destruct bs; simpl; [done|lia]|].
    assert (a ≠ p) by (intros ->; destruct Hb1; congruence).
    split_and!; try done. rewrite lookup_insert_ne by done. apply lookup_insert_eq.
Qed.

Lemma get_blob_run h p e blob :
  event_at h p e blob → admits e SEQ_EVENT_DATA_FLAG_BLOB = true → variable e = true →
  alsaseq_event_get_blob_data (p, 0) h = (Ret (ext_ptr e, ext_len e), h).
Proof.
  intros H Ha Hv. unfold alsaseq_event_get_blob_data.
  rewrite (bind_Ret _ _ _ _ _ (load_event_run h p e (proj1 H))).
  rewrite (bind_Ret _ _ h tt h); [done|].
  rewrite validate_event_type_and_length_run, Ha.
  unfold variable in Hv. apply Z.eqb_eq in Hv. by rewrite Hv.
Qed.
End blobs.

(** ** Flattened events *)

(** The flattened layout: the structure, and the blob right after it when the
    event is in the variable length mode. *)
Definition flat_at (h : heap) (self : ptr) (e : snd_seq_event) (blob : list byte) : Prop :=
  at_ptr h self (to_bytes e ++ blob) ∧ c_ok e ∧
  if variable e then ext_len e = Z.of_nat (length blob) else blob = [].

(** The boxed copy: its [ext] member points to the block of its blob. *)
Definition boxed_copy (a : Z) (e : snd_seq_event) : snd_seq_event :=
  if variable e then set_data (ext_data (ext_len e) a) e else e.

Section flat.
Context {AL : Allocator} {LAWS : AllocatorLaws}.
Implicit Types (h : heap) (p a : Z) (e : snd_seq_event).

Lemma ext_len_range e : c_ok e → is_u32 (ext_len e).
Proof.
  intros (_&_&_&_&_&_&_&Hd). apply (le_u_range 0 4). lia.
Qed.

Lemma ext_ptr_range e : c_ok e → is_u64 (ext_ptr e).
Proof.
  intros (_&_&_&_&_&_&_&Hd). apply (le_u_range 4 8). lia.
Qed.

(** The copy of the structure, common to every length mode. *)
Lemma copy_struct_run h self e a :
  at_ptr h self (to_bytes e) → c_ok e → alloc_addr h 28 = Some a →
  (∀ A (f : Z → M heap A),
    (a ← g_malloc0 sizeof_event; memcpy (a, 0) self sizeof_event;; f a) h =
      f a (<[a := to_bytes e]> h)) ∧
  boxed (<[a := to_bytes e]> h) a e.
Proof.
  intros Hat Hok Ha. split.
  - intros A f. rewrite (bind_Ret _ _ _ _ _ (g_malloc0_some h 28 a ltac:(lia) Ha)).
    assert (a ≠ self.1) as Hne.
    { intros ->. apply alloc_fresh in Ha. destruct Hat as (? & ? & Hs & _). congruence. }
    unfold memcpy. rewrite bind_assoc.
    rewrite (bind_Ret _ _ _ (to_bytes e) (<[a := zeros 28]> h)).
    + erewrite bind_Ret; [|apply (store_block _ _ (zeros 28));
        [apply lookup_insert_eq|by rewrite length_to_bytes_event|done]].
      by rewrite insert_insert_eq.
    + apply load_at; [by apply at_ptr_insert|by rewrite length_to_bytes_event].
  - split; [apply lookup_insert_eq|]. split; [done|].
    pose proof (alloc_nonnull _ _ _ Ha). pose proof (alloc_aligned _ _ _ Ha). by split; [lia|].
Qed.

Lemma seq_event_copy_run h self e blob a a2 :
  flat_at h self e blob → alloc_addr h 28 = Some a →
  allocates (<[a := to_bytes e]> h) (Z.of_nat (length blob)) a2 →
  seq_event_copy self h =
    (Ret (a, 0), <[a := to_bytes (boxed_copy a2 e)]> (add_block a2 blob h)).
Proof.
  intros (Hat & Hok & Hv) Ha Ha2.
  destruct (copy_struct_run h self e a (at_ptr_app_l _ _ _ _ Hat) Hok Ha) as [E Hb].
  unfold seq_event_copy. cbv zeta. rewrite E.
  rewrite (bind_Ret _ _ _ _ _ (load_event_run _ a e Hb)).
  change (length_mode e =? _) with (variable e). unfold boxed_copy.
  destruct (variable e) eqn:Ev; cbv beta iota; [|by subst blob].
  apply at_ptr_app_r in Hat. rewrite length_to_bytes_event in Hat by done.
  change (Z.of_nat 28) with sizeof_event in Hat.
  assert (a ≠ self.1) as Hne.
  { intros ->. apply alloc_fresh in Ha. destruct Hat as (? & ? & Hs & _). simpl in Hs. congruence. }
  assert (at_ptr (<[a := to_bytes e]> h) (p_add self sizeof_event) blob) as Hat2
    by by apply at_ptr_insert.
  rewrite <- Hv in Ha2.
  pose proof (boxed_add_block _ a e (ext_len e) a2 blob Hb Hv Ha2) as Hb2.
  erewrite bind_Ret.
  2:{ rewrite (malloc_memcpy_bind _ _ blob a2 (ext_len e)) by done.
      apply (update_event_run _ a e _ Hb2), set_data_ok; [done|apply length_ext_data]. }
  unfold add_block. case_bool_decide as Eb; [by rewrite insert_insert_eq|].
  rewrite mret_run. f_equal. destruct (decide (a2 = a)) as [->|Hn].
  - exfalso. destruct (allocates_bounds _ _ _ Ha2) as (_ & _ & Hf).
    destruct Hf as [_ Hf]; [|by rewrite lookup_insert_eq in Hf].
    rewrite Hv. destruct blob; simpl; [done|lia].
  - rewrite (insert_insert_ne _ a2 a) by done. by rewrite insert_insert_eq.
Qed.

(** The copy is a well-formed boxed event with the blob of the source. *)
Lemma boxed_copy_at h self e blob a a2 :
  flat_at h self e blob → alloc_addr h 28 = Some a →
  allocates (<[a := to_bytes e]> h) (Z.of_nat (length blob)) a2 →
  event_at (<[a := to_bytes (boxed_copy a2 e)]> (add_block a2 blob h)) a (boxed_copy a2 e) blob.
Proof.
  intros (Hat & Hok & Hv) Ha Ha2.
  pose proof (alloc_nonnull _ _ _ Ha). pose proof (alloc_aligned _ _ _ Ha).
  destruct (allocates_bounds _ _ _ Ha2) as (Hu & Hmod & Hpos).
  assert (c_ok (boxed_copy a2 e)) as Hok2.
  { unfold boxed_copy. destruct (variable e); [|done].
    apply set_data_ok; [done|apply length_ext_data]. }
  split; [split; [apply lookup_insert_eq|split; [done|by split; [lia|]]]|].
  unfold boxed_copy. destruct (variable e) eqn:Ev; [|by rewrite Ev].
  change (variable (set_data _ e)) with (variable e). rewrite Ev.
  assert (ext_len (set_data (ext_data (ext_len e) a2) e) = ext_len e) as El.
  { apply (ext_len_with_ext 0 _ a2 e). by apply ext_len_range. }
  assert (ext_ptr (set_data (ext_data (ext_len e) a2) e) = a2) as Ep.
  { apply (ext_ptr_with_ext 0 (ext_len e) _ e). split; lia. }
  split; [by rewrite El|]. rewrite Ep. unfold add_block. case_bool_decide as E.
  - subst blob. exact Ha2.
  - destruct Hpos as [Hpos Hnone]; [destruct blob; simpl; [done|lia]|].
    assert (a2 ≠ a) by (intros ->; by rewrite lookup_insert_eq in Hnone).
    split_and!; try done. rewrite lookup_insert_ne by done. apply lookup_insert_eq.
Qed.
End flat.

(** ** The four modes of the flag byte *)

Inductive mode_kind := MTstamp | MTime | MLength | MPriority.

Definition mode_mask (k : mode_kind) : Z :=
  match k with
  | MTstamp => SNDRV_SEQ_TIME_STAMP_MASK
  | MTime => SNDRV_SEQ_TIME_MODE_MASK
  | MLength => SNDRV_SEQ_EVENT_LENGTH_MASK
  | MPriority => SNDRV_SEQ_PRIORITY_MASK
  end.

Definition mode_get `{Allocator} (k : mode_kind) : ptr → M heap Z :=
  match k with
  | MTstamp => alsaseq_event_get_tstamp_mode
  | MTime => alsaseq_event_get_time_mode
  | MLength => alsaseq_event_get_length_mode
  | MPriority => alsaseq_event_get_priority_mode
  end.

(** Two of the modes have a setter. *)
Definition settable (k : mode_kind) : bool :=
  match k with MTime | MPriority => true | _ => false end.

Definition mode_set `{Allocator} (k : mode_kind) : ptr → Z → M heap unit :=
  match k with
  | MTime => alsaseq_event_set_time_mode
  | MPriority => alsaseq_event_set_priority_mode
  | _ => λ _ _, critical
  end.

Section modes.
Context {AL : Allocator}.

Lemma mode_get_run k (h : heap) p e :
  boxed h p e → mode_get k (p, 0) h = (Ret (Z.land (ev_flags e) (mode_mask k)), h).
Proof.
  intros Hb. pose proof (load_event_run h p e Hb) as E.
  destruct k; unfold mode_get, alsaseq_event_get_tstamp_mode, alsaseq_event_get_time_mode,
    alsaseq_event_get_length_mode, alsaseq_event_get_priority_mode;
    by rewrite (bind_Ret _ _ _ _ _ E).
Qed.

(** An assignment to the header keeps the blob of the event. *)
Lemma update_keeps_blob (h : heap) p e blob e' :
  event_at h p e blob → c_ok e' → ev_data e' = ev_data e → length_mode e' = length_mode e →
  event_at (<[p := to_bytes e']> h) p e' blob.
Proof.
  intros [Hb Ho] Hok Hd Hm. split; [by eapply boxed_insert|].
  unfold variable in *. rewrite Hm. destruct (_ =? _); [|done].
  unfold owns_blob, ext_len, ext_ptr in *. rewrite Hd.
  destruct Ho as [Hl Ho]. split; [done|]. case_bool_decide; [done|].
  destruct Ho as (? & ? & ? & ?). split_and!; try done. by rewrite lookup_insert_ne.
Qed.
End modes.

(** ** Creation and time stamps *)

(** A pointer that does not point into the event or its blob. *)
Definition apart (p : Z) (e : snd_seq_event) (d : ptr) : Prop :=
  d.1 ≠ p ∧ (variable e = true → d.1 ≠ ext_ptr e).

Definition tstamp_mode (e : snd_seq_event) : Z :=
  Z.land (ev_flags e) SNDRV_SEQ_TIME_STAMP_MASK.

Section more_runs.
Context {AL : Allocator} {LAWS : AllocatorLaws}.
Implicit Types (h : heap) (p a : Z) (e : snd_seq_event).

Lemma new_event_ok t : c_ok (set_type t zero_event).
Proof. repeat (split; [first [apply u8_range|done]|]). done. Qed.

Lemma event_new_run h t a0 a :
  alloc_addr h 28 = Some a0 →
  alloc_addr (<[a0 := to_bytes (set_type t zero_event)]> h) 28 = Some a →
  ∃ h', alsaseq_event_new t h = (Ret (a, 0), h') ∧
    event_at h' a (set_type t zero_event) [] ∧ (∀ b, b ≠ a → h' !! b = h !! b).
Proof.
  intros Ha0 Ha. set (e := set_type t zero_event) in *.
  pose proof (new_event_ok t : c_ok e) as Hok.
  assert (flat_at (<[a0 := to_bytes e]> h) (a0, 0) e []) as Hf.
  { split; [|by split]. rewrite app_nil_r. apply at_ptr_block, lookup_insert_eq. }
  assert (a0 ≠ a) as Hne.
  { intros ->. apply alloc_fresh in Ha. by rewrite lookup_insert_eq in Ha. }
  pose proof (seq_event_copy_run _ _ e [] a 0 Hf Ha eq_refl) as E.
  pose proof (boxed_copy_at _ _ e [] a 0 Hf Ha eq_refl) as Hat.
  change (boxed_copy 0 e) with e in *.
  change (add_block 0 [] ?x) with x in E, Hat.
  eexists. split_and!.
  - unfold alsaseq_event_new, with_local. fold e.
    change (Z.of_nat (length (to_bytes e))) with 28. rewrite Ha0, E. reflexivity.
  - split; [|done]. destruct Hat as [(Hb & Hr) _]. split; [|exact Hr].
    rewrite lookup_delete_ne by done. exact Hb.
  - intros b Hb. destruct (decide (b = a0)) as [->|Hb0].
    + rewrite lookup_delete_eq. symmetry. by eapply alloc_fresh.
    + rewrite lookup_delete_ne, !lookup_insert_ne by done. done.
Qed.

Lemma event_new_inv h t r h' :
  alsaseq_event_new t h = (Ret r, h') →
  ∃ a, r = (a, 0) ∧ event_at h' a (set_type t zero_event) [].
Proof.
  intros E.
  destruct (alloc_addr h 28) as [a0|] eqn:Ha0.
  2:{ unfold alsaseq_event_new, with_local in E.
      change (Z.of_nat (length _)) with 28 in E. by rewrite Ha0 in E. }
  destruct (alloc_addr (<[a0 := to_bytes (set_type t zero_event)]> h) 28) as [a|] eqn:Ha.
  - destruct (event_new_run h t a0 a Ha0 Ha) as (h2 & E2 & Hat & _).
    rewrite E2 in E. injection E as <- <-. by exists a.
  - unfold alsaseq_event_new, with_local in E.
    change (Z.of_nat (length _)) with 28 in E. rewrite Ha0 in E.
    unfold seq_event_copy in E. unfold mbind at 1, M_bind at 1 in E.
    unfold g_malloc0 in E. change (sizeof_event =? 0) with false in E. cbv iota in E.
    change sizeof_event with 28 in E. by rewrite Ha in E.
Qed.

Lemma validate_tstamp_run {S} e mode (s : S) :
  validate_event_tstamp_mode e mode s =
    (if tstamp_mode e =? mode then Ret tt else Fail None, s).
Proof. unfold validate_event_tstamp_mode, tstamp_mode. by destruct (_ =? _). Qed.

(** Two pieces of four bytes copied from the caller one after the other. *)
Lemma copy_two_words_run h p e d sec nsec
    (upd : list byte → snd_seq_event → snd_seq_event)
    (get1 get2 : snd_seq_event → list byte → list byte) e2 :
  boxed h p e → d.1 ≠ p → at_ptr h d (sec ++ nsec) →
  length sec = 4%nat → length nsec = 4%nat →
  c_ok (upd (get1 e sec) e) →
  upd (get2 (upd (get1 e sec) e) nsec) (upd (get1 e sec) e) = e2 → c_ok e2 →
  (sec ← load d 4; update_event (p, 0) (λ ev, upd (get1 ev sec) ev);;
   nsec ← load (p_add d 4) 4; update_event (p, 0) (λ ev, upd (get2 ev nsec) ev)) h =
  (Ret tt, <[p := to_bytes e2]> h).
Proof.
  intros Hb Hd Hat H1 H2 Hok1 He2 Hok2.
  rewrite (bind_Ret _ _ _ sec h).
  2:{ apply load_at; [by eapply at_ptr_app_l|by rewrite H1]. }
  rewrite (bind_Ret _ _ _ _ _
    (update_event_run h p e (λ ev, upd (get1 ev sec) ev) Hb Hok1)).
  rewrite (bind_Ret _ _ _ nsec (<[p := to_bytes (upd (get1 e sec) e)]> h)).
  2:{ apply load_at; [|by rewrite H2]. apply at_ptr_insert; [done|].
      apply at_ptr_app_r in Hat. by rewrite H1 in Hat. }
  rewrite (update_event_run _ p (upd (get1 e sec) e)).
  - by rewrite insert_insert_eq, He2.
  - by eapply boxed_insert.
  - by rewrite He2.
Qed.

Lemma set_real_time_run h p e blob d sec nsec :
  event_at h p e blob → tstamp_mode e = ALSASEQ_EVENT_TSTAMP_MODE_REAL →
  d.1 ≠ p → at_ptr h d (sec ++ nsec) → length sec = 4%nat → length nsec = 4%nat →
  alsaseq_event_set_real_time (p, 0) d h =
    (Ret tt, <[p := to_bytes (set_time (sec ++ nsec) e)]> h).
Proof.
  intros H Ht Hd Hat H1 H2. unfold alsaseq_event_set_real_time.
  rewrite (bind_Ret _ _ _ _ _ (load_event_run h p e (proj1 H))).
  rewrite (bind_Ret _ _ h tt h) by (by rewrite validate_tstamp_run, Ht).
  pose proof (proj1 (proj2 (proj1 H))) as Hok.
  assert (length (ev_time e) = 8%nat) as Hti by apply Hok.
  apply (copy_two_words_run h p e d sec nsec set_time
    (λ ev sec, sec ++ drop 4 (ev_time ev)) (λ ev nsec, take 4 (ev_time ev) ++ nsec));
    [apply H|done..| | |].
  - apply set_time_ok; [done|]. rewrite length_app, length_drop. lia.
  - cbn. unfold set_time. cbn. by rewrite take_app_exact by done.
  - apply set_time_ok; [done|]. rewrite length_app. lia.
Qed.

Lemma set_real_time_data_run h p e blob d sec nsec :
  event_at h p e blob → admits e SEQ_EVENT_DATA_FLAG_TSTAMP = true →
  tstamp_mode e = ALSASEQ_EVENT_TSTAMP_MODE_REAL →
  apart p e d → at_ptr h d (sec ++ nsec) → length sec = 4%nat → length nsec = 4%nat →
  alsaseq_event_set_real_time_data (p, 0) d h =
    (Ret tt, <[p := to_bytes (with_fixed (sec ++ nsec) e)]> (drop_blob e h)).
Proof.
  intros H Ha Ht [Hd Hx] Hat H1 H2. unfold alsaseq_event_set_real_time_data.
  rewrite (bind_Ret _ _ _ _ _ (load_event_run h p e (proj1 H))).
  rewrite (bind_Ret _ _ h tt h) by (by rewrite validate_event_type_run, Ha).
  rewrite (bind_Ret _ _ h tt h) by (by rewrite validate_tstamp_run, Ht).
  rewrite (bind_Ret _ _ _ _ _ (ensure_fixed_run h p e blob H)).
  set (e1 := cleared SNDRV_SEQ_EVENT_LENGTH_FIXED e).
  assert (c_ok e1) as Hok by apply cleared_ok, H.
  erewrite (copy_two_words_run _ p e1 d sec nsec set_data
    (λ ev sec, sec ++ drop 4 (ev_data ev))
    (λ ev nsec, take 4 (ev_data ev) ++ nsec ++ drop 8 (ev_data ev)));
    [..|reflexivity|].
  - rewrite insert_insert_eq. do 3 f_equal. unfold with_fixed, set_data. cbn.
    rewrite take_app_exact by done. rewrite <- app_assoc.
    rewrite length_app, H1, H2. do 2 f_equal.
    rewrite drop_app_ge by lia. by rewrite H1.
  - eapply boxed_insert; [by eapply boxed_drop_blob|done].
  - done.
  - apply at_ptr_insert; [done|]. by apply at_ptr_drop_blob.
  - done.
  - done.
  - apply set_data_ok; [done|]. rewrite length_app, H1. done.
  - apply set_data_ok; [apply set_data_ok; [done|]|]; cbn;
      rewrite !length_app, ?length_take, ?length_drop, ?length_app, ?H1, ?H2; done.
Qed.
End more_runs.

(** ** Flattened length and deliverability *)

Section lengths.
Context {AL : Allocator}.

(** The 64-bit arithmetic of the length never wraps. *)
Lemma flattened_length_false e :
  c_ok e → flattened_length e false = sizeof_event + (if variable e then ext_len e else 0).
Proof.
  intros Hok. pose proof (ext_len_range e Hok) as [Hl Hu].
  unfold flattened_length, variable. destruct (_ =? _); [|done].
  apply u64_id. unfold is_u64, sizeof_event. lia.
Qed.

Lemma flattened_length_true e :
  c_ok e →
  flattened_length e true =
    (flattened_length e false + 27) / sizeof_event * sizeof_event.
Proof.
  intros Hok. pose proof (ext_len_range e Hok) as [Hl Hu].
  pose proof (flattened_length_false e Hok) as E.
  set (n := flattened_length e false) in *.
  assert (0 ≤ n < 2 ^ 33) by (rewrite E; unfold sizeof_event; destruct (variable e); lia).
  assert (flattened_length e true = u64 (u64 (n + sizeof_event - 1) / sizeof_event * sizeof_event))
    as -> by done.
  rewrite (u64_id (n + sizeof_event - 1)) by (unfold is_u64, sizeof_event; lia).
  replace (n + sizeof_event - 1) with (n + 27) by (unfold sizeof_event; lia).
  apply u64_id. unfold sizeof_event.
  pose proof (Z.mul_div_le (n + 27) 28 ltac:(lia)).
  pose proof (Z.div_pos (n + 27) 28 ltac:(lia) ltac:(lia)).
  split; lia.
Qed.

Lemma flattened_length_bounds e aligned :
  c_ok e →
  28 ≤ flattened_length e aligned < 2 ^ 33 ∧
  flattened_length e false ≤ flattened_length e true < flattened_length e false + 28 ∧
  flattened_length e true `mod` 28 = 0.
Proof.
  intros Hok. pose proof (ext_len_range e Hok) as [Hl Hu].
  pose proof (flattened_length_false e Hok) as E1. rewrite flattened_length_true by done.
  assert (28 ≤ flattened_length e false < 2 ^ 32 + 28)
    by (rewrite E1; unfold sizeof_event; destruct (variable e); lia).
  unfold sizeof_event. set (n := flattened_length e false) in *.
  pose proof (Z.mul_div_le (n + 27) 28 ltac:(lia)).
  pose proof (Z.mul_succ_div_gt (n + 27) 28 ltac:(lia)).
  assert (n ≤ (n + 27) / 28 * 28 < n + 28) by lia.
  split_and!; try lia; try (apply Z_mod_mult).
  - destruct aligned; [rewrite flattened_length_true by done; unfold sizeof_event; fold n; lia|fold n; lia].
  - destruct aligned; [rewrite flattened_length_true by done; unfold sizeof_event; fold n; lia|fold n; lia].
Qed.
End lengths.

(** A type that admits one kind of a class of data is in the class. *)
Lemma admits_class e flag any :
  Z.land flag any = flag → 0 ≤ any → admits e flag = true →
  (0 <? Z.land (seq_event_data_flags (ev_type e)) any) = true.
Proof.
  unfold admits. intros Hs Hany Ha. apply negb_true_iff, Z.eqb_neq in Ha.
  apply Z.ltb_lt. set (f := seq_event_data_flags (ev_type e)) in *.
  assert (0 ≤ Z.land f any) by (apply Z.land_nonneg; lia).
  assert (Z.land f any ≠ 0); [|lia]. intros E. apply Ha.
  by rewrite <- Hs, (Z.land_comm flag any), Z.land_assoc, E, Z.land_0_l.
Qed.
