(* ===== verification/SeqEventSpec.v ===== *)
(** * The abstract event

    What a boxed event is for its user: the fields of its header and one of
    three payloads, without addresses, flag bits or ownership.  Each call of
    SeqEventOps.v is a step on it. *)
From S2P Require Import Prelude Heap SeqUapi SeqEvent SeqEventFacts.

(** ** Calls *)

(** The calls that change an event. *)
Inductive event_op :=
  | OpTimeMode (v : Z)
  | OpPriorityMode (v : Z)
  | OpTag (z : Z)
  | OpQueueId (z : Z)
  | OpSource (d : ptr)
  | OpDestination (d : ptr)
  | OpTickTime (z : Z)
  | OpRealTime (d : ptr)
  | OpFixed (k : fixed_kind) (d : ptr)
  | OpTickTimeData (z : Z)
  | OpRealTimeData (d : ptr)
  | OpBlob (d : ptr) (n : Z)
  | OpPointer (a n : Z).

Definition run_op `{Allocator} (op : event_op) (self : ptr) : M heap unit :=
  match op with
  | OpTimeMode v => alsaseq_event_set_time_mode self v
  | OpPriorityMode v => alsaseq_event_set_priority_mode self v
  | OpTag z => alsaseq_event_set_tag self z
  | OpQueueId z => alsaseq_event_set_queue_id self z
  | OpSource d => alsaseq_event_set_source self d
  | OpDestination d => alsaseq_event_set_destination self d
  | OpTickTime z => alsaseq_event_set_tick_time self z
  | OpRealTime d => alsaseq_event_set_real_time self d
  | OpFixed k d => kind_set k self d
  | OpTickTimeData z => alsaseq_event_set_tick_time_data self z
  | OpRealTimeData d => alsaseq_event_set_real_time_data self d
  | OpBlob d n => alsaseq_event_set_blob_data self d n
  | OpPointer a n => alsaseq_event_set_pointer_data self a n
  end.

(** ** Abstract states *)

(** The last form is a length mode the interface of the kernel reserves. *)
Inductive payload :=
  | Fixed (bs : list byte)
  | Blob (bs : list byte)
  | Pointer (a n : Z)
  | Reserved.

Record event_spec := Spec {
  sp_type : Z; sp_tstamp : Z; sp_time_mode : Z; sp_priority : Z; sp_tag : Z;
  sp_queue : Z; sp_time : list byte; sp_source : snd_seq_addr; sp_dest : snd_seq_addr;
  sp_payload : payload }.

Definition sp_set_time_mode v s := Spec (sp_type s) (sp_tstamp s) v (sp_priority s)
  (sp_tag s) (sp_queue s) (sp_time s) (sp_source s) (sp_dest s) (sp_payload s).
Definition sp_set_priority v s := Spec (sp_type s) (sp_tstamp s) (sp_time_mode s) v
  (sp_tag s) (sp_queue s) (sp_time s) (sp_source s) (sp_dest s) (sp_payload s).
Definition sp_set_tag v s := Spec (sp_type s) (sp_tstamp s) (sp_time_mode s) (sp_priority s)
  v (sp_queue s) (sp_time s) (sp_source s) (sp_dest s) (sp_payload s).
Definition sp_set_queue v s := Spec (sp_type s) (sp_tstamp s) (sp_time_mode s) (sp_priority s)
  (sp_tag s) v (sp_time s) (sp_source s) (sp_dest s) (sp_payload s).
Definition sp_set_time v s := Spec (sp_type s) (sp_tstamp s) (sp_time_mode s) (sp_priority s)
  (sp_tag s) (sp_queue s) v (sp_source s) (sp_dest s) (sp_payload s).
Definition sp_set_source v s := Spec (sp_type s) (sp_tstamp s) (sp_time_mode s) (sp_priority s)
  (sp_tag s) (sp_queue s) (sp_time s) v (sp_dest s) (sp_payload s).
Definition sp_set_dest v s := Spec (sp_type s) (sp_tstamp s) (sp_time_mode s) (sp_priority s)
  (sp_tag s) (sp_queue s) (sp_time s) (sp_source s) v (sp_payload s).
Definition sp_set_payload v s := Spec (sp_type s) (sp_tstamp s) (sp_time_mode s) (sp_priority s)
  (sp_tag s) (sp_queue s) (sp_time s) (sp_source s) (sp_dest s) v.

(** A new event. *)
Definition spec_new (t : Z) : event_spec :=
  Spec (u8 t) ALSASEQ_EVENT_TSTAMP_MODE_TICK SNDRV_SEQ_TIME_MODE_ABS
    SNDRV_SEQ_PRIORITY_NORMAL 0 0 (zeros 8) (Addr 0 0) (Addr 0 0) (Fixed (zeros 12)).

(** ** Steps *)

(** The type of the event admits a kind of data. *)
Definition takes (s : event_spec) (flag : Z) : bool :=
  negb (Z.land (seq_event_data_flags (sp_type s)) flag =? 0).

(** Data of at most twelve bytes, followed by zeros. *)
Definition pad (bs : list byte) : list byte := bs ++ drop (length bs) (zeros 12).

(** A call that is refused leaves the event as it was. *)
Definition guarded (c : bool) (er : option gerror) (s : event_spec)
    (next : outcome unit * event_spec) : outcome unit * event_spec :=
  if c then next else (Fail er, s).

Definition done_with (s : event_spec) : outcome unit * event_spec := (Ret tt, s).

(** The step of a call; [bs] are the bytes of the buffer it is given. *)
Definition spec_step (op : event_op) (bs : list byte) (s : event_spec) :
    outcome unit * event_spec :=
  let data flag := guarded (takes s flag) (Some err_data_type) s in
  let tick := guarded (sp_tstamp s =? ALSASEQ_EVENT_TSTAMP_MODE_TICK) None s in
  let real := guarded (sp_tstamp s =? ALSASEQ_EVENT_TSTAMP_MODE_REAL) None s in
  let put p := done_with (sp_set_payload p s) in
  match op with
  | OpTimeMode v => done_with (sp_set_time_mode v s)
  | OpPriorityMode v => done_with (sp_set_priority v s)
  | OpTag z => done_with (sp_set_tag (i8 z) s)
  | OpQueueId z => done_with (sp_set_queue (u8 z) s)
  | OpSource _ => done_with (sp_set_source (of_bytes bs) s)
  | OpDestination _ => done_with (sp_set_dest (of_bytes bs) s)
  | OpTickTime z => tick (done_with (sp_set_time (le_split 4 z ++ drop 4 (sp_time s)) s))
  | OpRealTime _ => real (done_with (sp_set_time bs s))
  | OpFixed k _ => data (kind_flag k) (put (Fixed (pad bs)))
  | OpTickTimeData z =>
      data SEQ_EVENT_DATA_FLAG_TSTAMP (tick (put (Fixed (pad (le_split 4 z)))))
  | OpRealTimeData _ => data SEQ_EVENT_DATA_FLAG_TSTAMP (real (put (Fixed (pad bs))))
  | OpBlob _ _ => data SEQ_EVENT_DATA_FLAG_BLOB (put (Blob bs))
  | OpPointer a n =>
      if (a =? 0) || (n <=? 0) then (Critical, s)
      else data SEQ_EVENT_DATA_FLAG_POINTER (put (Pointer (u64 a) (u32 n)))
  end.

(** A sequence of calls, with what each of them returns. *)
Fixpoint spec_run (tr : list (event_op * list byte)) (s : event_spec) :
    list (outcome unit) * event_spec :=
  match tr with
  | [] => ([], s)
  | (op, bs) :: tr =>
      let '(o, s) := spec_step op bs s in
      let '(os, s) := spec_run tr s in (o :: os, s)
  end.

(** No step changes the type or the mode of the time stamp. *)
Lemma spec_step_type op bs s :
  sp_type (spec_step op bs s).2 = sp_type s ∧ sp_tstamp (spec_step op bs s).2 = sp_tstamp s.
Proof. by destruct op; cbn; unfold guarded; repeat case_match. Qed.

(** ** The abstraction *)

Definition payload_of (e : snd_seq_event) (blob : list byte) : payload :=
  if variable e then Blob blob
  else if length_mode e =? SNDRV_SEQ_EVENT_LENGTH_VARUSR then Pointer (ext_ptr e) (ext_len e)
  else if length_mode e =? SNDRV_SEQ_EVENT_LENGTH_FIXED then Fixed (ev_data e)
  else Reserved.

Definition view (e : snd_seq_event) (blob : list byte) : event_spec :=
  Spec (ev_type e) (tstamp_mode e) (Z.land (ev_flags e) SNDRV_SEQ_TIME_MODE_MASK)
    (Z.land (ev_flags e) SNDRV_SEQ_PRIORITY_MASK) (ev_tag e) (ev_queue e) (ev_time e)
    (ev_source e) (ev_dest e) (payload_of e blob).

(** The memory holds a well-formed event at [p] whose abstraction is [s]. *)
Definition holds (h : heap) (p : Z) (s : event_spec) : Prop :=
  ∃ e blob, event_at h p e blob ∧ view e blob = s.

Lemma payload_of_fixed e blob :
  length_mode e = SNDRV_SEQ_EVENT_LENGTH_FIXED → payload_of e blob = Fixed (ev_data e).
Proof. unfold payload_of, variable. by intros ->. Qed.

Lemma payload_of_blob e blob :
  length_mode e = SNDRV_SEQ_EVENT_LENGTH_VARIABLE → payload_of e blob = Blob blob.
Proof. unfold payload_of, variable. by intros ->. Qed.

Lemma payload_of_pointer e blob :
  length_mode e = SNDRV_SEQ_EVENT_LENGTH_VARUSR →
  payload_of e blob = Pointer (ext_ptr e) (ext_len e).
Proof. unfold payload_of, variable. by intros ->. Qed.

(** An assignment that keeps the data and the length mode keeps the payload. *)
Lemma payload_of_same e e' blob :
  ev_data e' = ev_data e → length_mode e' = length_mode e →
  payload_of e' blob = payload_of e blob.
Proof. unfold payload_of, variable, ext_ptr, ext_len. by intros -> ->. Qed.

(** The modes with a setter are independent of the others. *)
Ltac view_mode :=
  intros Hv; unfold view, sp_set_time_mode, sp_set_priority, tstamp_mode;
  cbn [sp_type sp_tstamp sp_time_mode sp_priority sp_tag sp_queue sp_time sp_source
    sp_dest sp_payload];
  rewrite assign_flags_read, !assign_flags_other by done; f_equal;
  apply payload_of_same; [done|by apply assign_flags_other].

Lemma view_time_mode v e blob :
  Z.land v SNDRV_SEQ_TIME_MODE_MASK = v →
  view (assign_flags SNDRV_SEQ_TIME_MODE_MASK v e) blob = sp_set_time_mode v (view e blob).
Proof. view_mode. Qed.

Lemma view_priority v e blob :
  Z.land v SNDRV_SEQ_PRIORITY_MASK = v →
  view (assign_flags SNDRV_SEQ_PRIORITY_MASK v e) blob = sp_set_priority v (view e blob).
Proof. view_mode. Qed.

(** The storage of the data changes the payload and nothing else. *)
Lemma view_storage mode bs e blob blob' pl :
  let e' := assign_flags SNDRV_SEQ_EVENT_LENGTH_MASK mode (set_data bs e) in
  Z.land mode SNDRV_SEQ_EVENT_LENGTH_MASK = mode → payload_of e' blob' = pl →
  view e' blob' = sp_set_payload pl (view e blob).
Proof.
  intros e' Hm <-. unfold view, sp_set_payload, tstamp_mode. cbn [sp_type sp_tstamp
    sp_time_mode sp_priority sp_tag sp_queue sp_time sp_source sp_dest].
  subst e'. by rewrite !assign_flags_other.
Qed.

Lemma view_with_fixed bs e blob :
  view (with_fixed bs e) [] = sp_set_payload (Fixed (pad bs)) (view e blob).
Proof.
  apply (view_storage SNDRV_SEQ_EVENT_LENGTH_FIXED (pad bs)); [done|].
  apply (payload_of_fixed (with_fixed bs e)). by apply (cleared_length_mode _ e).
Qed.

Lemma view_with_blob bs n a e blob :
  view (with_ext SNDRV_SEQ_EVENT_LENGTH_VARIABLE n a e) bs =
    sp_set_payload (Blob bs) (view e blob).
Proof.
  apply (view_storage SNDRV_SEQ_EVENT_LENGTH_VARIABLE (ext_data n a)); [done|].
  apply payload_of_blob. by apply with_ext_length_mode.
Qed.

Lemma ext_data_read e n a :
  ext_len (set_data (ext_data n a) e) = u32 n ∧ ext_ptr (set_data (ext_data n a) e) = u64 a.
Proof.
  unfold ext_len, ext_ptr, le_u, ext_data. cbn [set_data ev_data]. split.
  - sub_simpl. by rewrite le_combine_split.
  - sub_simpl. by rewrite le_combine_split.
Qed.

Lemma view_with_pointer n a e blob :
  view (with_ext SNDRV_SEQ_EVENT_LENGTH_VARUSR n a e) [] =
    sp_set_payload (Pointer (u64 a) (u32 n)) (view e blob).
Proof.
  apply (view_storage SNDRV_SEQ_EVENT_LENGTH_VARUSR (ext_data n a)); [done|].
  rewrite payload_of_pointer by by apply with_ext_length_mode.
  by destruct (ext_data_read (assign_flags SNDRV_SEQ_EVENT_LENGTH_MASK
    SNDRV_SEQ_EVENT_LENGTH_VARUSR e) n a) as [<- <-].
Qed.
