(* ===== verification/SeqEventOps.v ===== *)
(** * Calls on events

    What the calls of SeqEventSpec.v ask of their caller, and the simulation:
    each of them, within its documented use, takes an event that holds an
    abstract event to the one its step gives, with the outcome of the step. *)
From S2P Require Import Prelude Heap SeqUapi SeqEvent SeqEventFacts SeqEventSpec.

(** ** The documented use *)

(** A buffer [bs] of [n] readable bytes outside of the event and its blob. *)
Definition buffer (h : heap) (p : Z) (e : snd_seq_event) (d : ptr) (n : Z)
    (bs : list byte) : Prop :=
  apart p e d ∧ Z.of_nat (length bs) = n ∧ at_ptr h d bs.

(** What a caller has to respect: values of the enumerations, and readable
    buffers of the documented size, which hold [bs]. *)
Definition op_args (h : heap) (p : Z) (e : snd_seq_event) (op : event_op)
    (bs : list byte) : Prop :=
  match op with
  | OpTimeMode v => Z.land v SNDRV_SEQ_TIME_MODE_MASK = v
  | OpPriorityMode v => Z.land v SNDRV_SEQ_PRIORITY_MASK = v
  | OpSource d | OpDestination d => buffer h p e d 2 bs
  | OpRealTime d | OpRealTimeData d => buffer h p e d 8 bs
  | OpFixed k d => buffer h p e d (Z.of_nat (kind_size k)) bs
  | OpBlob d n => n < 2 ^ 32 ∧ buffer h p e d n bs
  | _ => True
  end.

Definition op_ok (h : heap) (p : Z) (e : snd_seq_event) (op : event_op) : Prop :=
  ∃ bs, op_args h p e op bs.

(** The event is still well formed, of the same type and time stamp mode. *)
Definition still_event (h' : heap) (p : Z) (e : snd_seq_event) : Prop :=
  ∃ e' blob', event_at h' p e' blob' ∧ ev_type e' = ev_type e ∧ tstamp_mode e' = tstamp_mode e.

Definition op_safe (p : Z) (e : snd_seq_event) (r : outcome unit * heap) : Prop :=
  match r.1 with
  | UB => False
  | Oom => True
  | _ => still_event r.2 p e
  end.

(** ** The simulation *)

(** A run has the outcome of a step and leaves its abstract event, unless
    the allocator ended the process. *)
Definition op_does (p : Z) (next : outcome unit * event_spec)
    (r : outcome unit * heap) : Prop :=
  r.1 = Oom ∨ (r.1 = next.1 ∧ holds r.2 p next.2).

Section op_lemmas.
Context {AL : Allocator} {LAWS : AllocatorLaws}.
Implicit Types (h : heap) (p a : Z) (e : snd_seq_event).

Lemma op_does_at h' p e' blob' s :
  event_at h' p e' blob' → view e' blob' = s → op_does p (done_with s) (Ret tt, h').
Proof. intros H E. right. split; [done|]. by exists e', blob'. Qed.

Lemma op_does_load {h p e blob next} (m : snd_seq_event → M heap unit) :
  event_at h p e blob → op_does p next (m e h) →
  op_does p next ((ev ← load_event (p, 0); m ev) h).
Proof.
  intros H Hm. by rewrite (bind_Ret _ _ _ _ _ (load_event_run h p e (proj1 H))).
Qed.

(** A call that validates the event first and goes on only when it passes. *)
Lemma op_does_validate {h p e blob next} (v m : M heap unit) (ok : bool) er :
  event_at h p e blob →
  v h = (if ok then Ret tt else Fail er, h) →
  (ok = true → op_does p next (m h)) →
  op_does p (guarded ok er (view e blob) next) ((v;; m) h).
Proof.
  intros H Hv Hm. destruct ok; cbn [guarded].
  - rewrite (bind_Ret _ _ _ _ _ Hv). by apply Hm.
  - rewrite (bind_Fail _ _ _ _ _ Hv). right. split; [done|]. by exists e, blob.
Qed.

Lemma op_does_update {h p e blob} f s :
  event_at h p e blob → c_ok (f e) → ev_data (f e) = ev_data e →
  length_mode (f e) = length_mode e → view (f e) blob = s →
  op_does p (done_with s) (update_event (p, 0) f h).
Proof.
  intros H ????. rewrite (update_event_run h p e) by (done || apply H).
  eapply op_does_at; [by eapply update_keeps_blob|done].
Qed.

(** A mode of the flag byte other than the length mode. *)
Lemma op_does_mode {h p e blob} mask v s :
  event_at h p e blob → is_u8 mask → Z.land v mask = v →
  Z.land mask SNDRV_SEQ_EVENT_LENGTH_MASK = 0 →
  view (assign_flags mask v e) blob = s →
  op_does p (done_with s) (update_event (p, 0) (assign_flags mask v) h).
Proof.
  intros H Hu Hv Hd Hs. pose proof (proj1 (proj2 (proj1 H))) as Hc.
  apply (op_does_update _ s H); try done; [by apply assign_flags_ok|].
  by apply assign_flags_other.
Qed.

Lemma op_does_load_bytes {h p e next} d n bs (m : list byte → M heap unit) :
  buffer h p e d n bs → op_does p next (m bs h) →
  op_does p next ((bs ← load d n; m bs) h).
Proof.
  intros (_ & Hl & Hat) Hm.
  by rewrite (bind_Ret _ _ _ _ _ (load_at h d bs n Hat (eq_sym Hl))).
Qed.

Lemma op_does_fixed h p e blob bs :
  event_at h p e blob → (length bs ≤ 12)%nat →
  op_does p (done_with (sp_set_payload (Fixed (pad bs)) (view e blob)))
    (Ret tt, <[p := to_bytes (with_fixed bs e)]> (drop_blob e h)).
Proof.
  intros H Hl. eapply op_does_at; [by eapply with_fixed_at|apply view_with_fixed].
Qed.

(** The blob setter, whether or not the allocation succeeds. *)
Lemma op_does_blob h p e blob d bs n :
  event_at h p e blob → buffer h p e d n bs → n < 2 ^ 32 →
  op_does p (done_with (sp_set_payload (Blob bs) (view e blob)))
    (ensure_variable_length_event (p, 0) d n h).
Proof.
  intros H ([Hd Hx] & Hn & Hat) Hlt. symmetry in Hn.
  pose proof (at_cleared_heap h p e d bs Hd Hx Hat) as Hat1.
  assert ((∃ a, allocates (cleared_heap h p e) n a) ∨
          (n ≠ 0 ∧ alloc_addr (cleared_heap h p e) n = None)) as [[a Ha]|[Hn0 Ha]].
  { unfold allocates. destruct (Z.eqb_spec n 0) as [|Hn0]; [left; by exists 0|].
    destruct (alloc_addr _ n) as [a|]; [left; by exists a|by right]. }
  - erewrite ensure_variable_run by done.
    eapply op_does_at; [by eapply with_blob_at|apply view_with_blob].
  - left. unfold ensure_variable_length_event.
    rewrite (bind_Ret _ _ _ _ _ (clear_data_fields_run h p e blob H)).
    change (<[p := _]> (drop_blob e h)) with (cleared_heap h p e).
    unfold mbind at 1, M_bind at 1, g_malloc. rewrite Ha.
    by destruct (Z.eqb_spec n 0).
Qed.

Lemma op_does_pointer h p e blob a n :
  event_at h p e blob →
  op_does p (done_with (sp_set_payload (Pointer (u64 a) (u32 n)) (view e blob)))
    ((ensure_pointer_length_event (p, 0);;
      update_event (p, 0) (set_data (ext_data n a))) h).
Proof.
  intros H. rewrite (bind_Ret _ _ _ _ _ (ensure_pointer_run h p e blob H)).
  set (e1 := cleared SNDRV_SEQ_EVENT_LENGTH_VARUSR e).
  assert (c_ok e1) as Hok by apply cleared_ok, H.
  assert (boxed (<[p := to_bytes e1]> (drop_blob e h)) p e1) as Hb
    by (eapply boxed_insert; [by eapply boxed_drop_blob|done]).
  rewrite (update_event_run _ p e1) by (done || (apply set_data_ok; [done|apply length_ext_data])).
  eapply op_does_at; [|apply (view_with_pointer n a e blob)]. split.
  - eapply boxed_insert; [done|]. apply with_ext_ok, H.
  - unfold variable. by rewrite with_ext_length_mode.
Qed.
End op_lemmas.

Section op_lemmas2.
Context {AL : Allocator} {LAWS : AllocatorLaws}.
Implicit Types (h : heap) (p a : Z) (e : snd_seq_event).

Lemma op_does_tick_time h p e blob z :
  event_at h p e blob →
  op_does p (spec_step (OpTickTime z) [] (view e blob))
    (alsaseq_event_set_tick_time (p, 0) z h).
Proof.
  intros H. pose proof (proj1 (proj2 (proj1 H))) as Hc. apply (op_does_load _ H).
  apply (op_does_validate _ _ _ _ H (validate_tstamp_run _ _ _)). intros _.
  apply (op_does_update _ _ H); try done. apply set_time_ok; [done|].
  assert (length (ev_time e) = 8%nat) by apply Hc.
  rewrite length_app, length_le_split, length_drop. lia.
Qed.

Lemma split_words (bs : list byte) :
  Z.of_nat (length bs) = 8 →
  take 4 bs ++ drop 4 bs = bs ∧ length (take 4 bs) = 4%nat ∧ length (drop 4 bs) = 4%nat.
Proof.
  intros Hl. rewrite take_drop, length_take, length_drop. split_and!; [done|lia..].
Qed.

Lemma op_does_real_time h p e blob d bs :
  event_at h p e blob → buffer h p e d 8 bs →
  op_does p (spec_step (OpRealTime d) bs (view e blob))
    (alsaseq_event_set_real_time (p, 0) d h).
Proof.
  intros H ([Hd _] & Hl & Hat). pose proof (proj1 (proj2 (proj1 H))) as Hc.
  destruct (split_words bs Hl) as (E & H1 & H2). rewrite <- E in Hat.
  destruct (decide (tstamp_mode e = ALSASEQ_EVENT_TSTAMP_MODE_REAL)) as [Ht|Ht].
  - rewrite (set_real_time_run h p e blob d _ _ H Ht Hd Hat H1 H2), E.
    cbn [spec_step]. change (sp_tstamp (view e blob)) with (tstamp_mode e). rewrite Ht.
    eapply op_does_at; [eapply update_keeps_blob; [done| |done..]|done].
    apply set_time_ok; [done|]. lia.
  - apply (op_does_load _ H).
    apply (op_does_validate _ _ _ _ H (validate_tstamp_run _ _ _)).
    intros Hm. by apply Z.eqb_eq in Hm.
Qed.

Lemma op_does_kind h p e blob k d bs :
  event_at h p e blob → buffer h p e d (Z.of_nat (kind_size k)) bs →
  op_does p (spec_step (OpFixed k d) bs (view e blob)) (kind_set k (p, 0) d h).
Proof.
  intros H ([Hd Hx] & Hl & Hat). pose proof (kind_size_bound k).
  rewrite kind_set_eq. cbn [spec_step].
  change (takes (view e blob) (kind_flag k)) with (admits e (kind_flag k)).
  destruct (admits e (kind_flag k)) eqn:Ha.
  - erewrite set_fixed_data_run; [|done|done| |by rewrite <- Hl|lia].
    + eapply op_does_fixed; [done|lia].
    + apply at_ptr_insert; [done|]. by apply at_ptr_drop_blob.
  - apply (op_does_load _ H).
    apply (op_does_validate _ _ false _ H); [|done].
    by rewrite validate_event_type_run, Ha.
Qed.

Lemma op_does_tick_time_data h p e blob z :
  event_at h p e blob →
  op_does p (spec_step (OpTickTimeData z) [] (view e blob))
    (alsaseq_event_set_tick_time_data (p, 0) z h).
Proof.
  intros H. apply (op_does_load _ H).
  apply (op_does_validate _ _ _ _ H (validate_event_type_run _ _ _)). intros _.
  apply (op_does_validate _ _ _ _ H (validate_tstamp_run _ _ _)). intros _.
  rewrite (bind_Ret _ _ _ _ _ (ensure_fixed_run h p e blob H)).
  assert (c_ok (cleared SNDRV_SEQ_EVENT_LENGTH_FIXED e)) as Hok by apply cleared_ok, H.
  rewrite (update_event_run _ p (cleared SNDRV_SEQ_EVENT_LENGTH_FIXED e)).
  - rewrite insert_insert_eq. apply (op_does_fixed h p e blob (le_split 4 z)); [done|].
    rewrite length_le_split. lia.
  - eapply boxed_insert; [by eapply boxed_drop_blob|done].
  - apply set_data_ok; [done|]. by rewrite length_app, length_le_split, length_drop.
Qed.

Lemma op_does_real_time_data h p e blob d bs :
  event_at h p e blob → buffer h p e d 8 bs →
  op_does p (spec_step (OpRealTimeData d) bs (view e blob))
    (alsaseq_event_set_real_time_data (p, 0) d h).
Proof.
  intros H (Hap & Hl & Hat).
  destruct (split_words bs Hl) as (E & H1 & H2). rewrite <- E in Hat.
  destruct (admits e SEQ_EVENT_DATA_FLAG_TSTAMP) eqn:Ha;
    [destruct (decide (tstamp_mode e = ALSASEQ_EVENT_TSTAMP_MODE_REAL)) as [Ht|Ht]|].
  - rewrite (set_real_time_data_run h p e blob d _ _ H Ha Ht Hap Hat H1 H2), E.
    cbn [spec_step]. change (sp_tstamp (view e blob)) with (tstamp_mode e).
    change (takes (view e blob) ?f) with (admits e f). rewrite Ha, Ht.
    eapply op_does_fixed; [done|lia].
  - apply (op_does_load _ H).
    apply (op_does_validate _ _ _ _ H (validate_event_type_run _ _ _)). intros _.
    apply (op_does_validate _ _ _ _ H (validate_tstamp_run _ _ _)).
    intros Hm. by apply Z.eqb_eq in Hm.
  - apply (op_does_load _ H).
    apply (op_does_validate _ _ _ _ H (validate_event_type_run _ _ _)). congruence.
Qed.
End op_lemmas2.

(** ** Every call is a step of its specification *)

Section simulation.
Context {AL : Allocator} {LAWS : AllocatorLaws}.
Implicit Types (h : heap) (p a : Z) (e : snd_seq_event).

Lemma op_does_step h p e blob op bs :
  event_at h p e blob → op_args h p e op bs →
  op_does p (spec_step op bs (view e blob)) (run_op op (p, 0) h).
Proof.
  intros H Hok. pose proof (proj1 (proj2 (proj1 H))) as Hc.
  destruct op as [v|v|z|z|d|d|z|d|k d|z|d|d n|a n]; cbn [op_args run_op] in Hok |- *.
  1,2: apply (op_does_mode _ _ _ H); try done;
    [by apply view_time_mode || by apply view_priority].
  1,2: apply (op_does_update _ _ H); auto with alsa.
  1,2: apply (op_does_load_bytes _ _ bs _ Hok); destruct Hok as (_ & Hl & _);
    apply (op_does_update _ _ H); try done; [];
    (apply set_source_ok || apply set_dest_ok); [done|]; apply of_bytes_ok; simpl; lia.
  - by apply op_does_tick_time.
  - by apply op_does_real_time.
  - by apply op_does_kind.
  - by apply op_does_tick_time_data.
  - by apply op_does_real_time_data.
  - destruct Hok as [Hlt Hb]. apply (op_does_load _ H).
    apply (op_does_validate _ _ _ _ H (validate_event_type_run _ _ _)).
    intros _. by apply op_does_blob.
  - cbn [spec_step]. unfold alsaseq_event_set_pointer_data.
    destruct (Z.eqb_spec a 0); [right; split; [done|by exists e, blob]|].
    destruct (Z.ltb_spec 0 n), (Z.leb_spec n 0); try lia;
      [|right; split; [done|by exists e, blob]].
    apply (op_does_load _ H).
    apply (op_does_validate _ _ _ _ H (validate_event_type_run _ _ _)).
    intros _. by apply op_does_pointer.
Qed.

(** The outcome of a step is no undefined behaviour and no end of the process. *)
Lemma spec_step_outcome op bs s :
  (spec_step op bs s).1 ≠ UB ∧ (spec_step op bs s).1 ≠ Oom.
Proof. destruct op; cbn; unfold guarded; by repeat case_match. Qed.

Lemma op_safe_run h p e blob op :
  event_at h p e blob → op_ok h p e op → op_safe p e (run_op op (p, 0) h).
Proof.
  intros H [bs Ha]. destruct (spec_step_outcome op bs (view e blob)) as [Hu Ho].
  destruct (spec_step_type op bs (view e blob)) as [Ht Hm].
  unfold op_safe. destruct (op_does_step h p e blob op bs H Ha) as [-> | (-> & e' & blob' & H' & E)];
    [done|].
  assert (still_event (run_op op (p, 0) h).2 p e) as Hs.
  { exists e', blob'. split; [done|]. rewrite <- E in Ht, Hm. by split. }
  by destruct (spec_step op bs (view e blob)).1.
Qed.
End simulation.

(** The heaps in which a program may hold an event it made at [p]: after
    [alsaseq_event_new], after any call on the event within the documented
    use, and after any change elsewhere that keeps the blocks of the event. *)
Inductive event_reachable `{Allocator} (p : Z) : heap → Prop :=
  | reach_new h0 t h :
      alsaseq_event_new t h0 = (Ret (p, 0), h) → event_reachable p h
  | reach_op h op o h' :
      event_reachable p h →
      (∀ e blob, event_at h p e blob → op_ok h p e op) →
      run_op op (p, 0) h = (o, h') → o ≠ Oom → event_reachable p h'
  | reach_elsewhere h h' :
      event_reachable p h →
      (∀ e blob, event_at h p e blob → event_at h' p e blob) → event_reachable p h'.

Section reach.
Context {AL : Allocator} {LAWS : AllocatorLaws}.
Implicit Types (h : heap) (p a : Z) (e : snd_seq_event).

Lemma event_reachable_inv p h :
  event_reachable p h →
  ∃ e blob, event_at h p e blob ∧ tstamp_mode e = ALSASEQ_EVENT_TSTAMP_MODE_TICK.
Proof.
  induction 1 as [h0 t h E|h op o h' _ (e & blob & H & Ht) Hok E Ho|h h' _ (e & blob & H & Ht) Hk].
  - apply event_new_inv in E as (a & [= <-] & H). by eexists _, _.
  - pose proof (op_safe_run h p e blob op H (Hok e blob H)) as Hs.
    rewrite E in Hs. unfold op_safe in Hs. cbn [fst snd] in Hs.
    destruct o; try done;
      destruct Hs as (e' & blob' & ? & ? & ?); exists e', blob'; split; congruence.
  - exists e, blob. split; [by apply Hk|done].
Qed.
End reach.
