(* ===== verification/SeqEventSamples.v ===== *)
(** * Sample events in memory

    The concrete events, buffers and containers the properties of events and of
    containers are run on. *)
From S2P Require Import Prelude Heap SeqUapi SeqEvent SeqEventFacts.

(** A note-on event, a note of its caller, a system exclusive event with a
    blob of three bytes, and a buffer of its caller. *)
Definition noteon : snd_seq_event := set_type 6 zero_event.
Definition note : list byte := map byte.of_Z [1; 60; 100; 0; 0; 0; 0; 0].
Definition sysex : snd_seq_event :=
  with_ext SNDRV_SEQ_EVENT_LENGTH_VARIABLE 3 512 (set_type 130 zero_event).
Definition blob : list byte := map byte.of_Z [240; 1; 247].
Definition buffer : list byte := map byte.of_Z [240; 2; 3; 4; 247].
Definition memory : heap :=
  {[64 := to_bytes noteon; 128 := to_bytes sysex; 256 := note; 512 := blob; 1024 := buffer]}.

Lemma noteon_at : event_at memory 64 noteon [].
Proof. split; [|done]. split; [done|]. split; [apply new_event_ok|done]. Defined.

Lemma sysex_at : event_at memory 128 sysex blob.
Proof.
  split; [split; [by vm_compute|split; [apply with_ext_ok, new_event_ok|done]]|].
  change (owns_blob memory 128 sysex blob). split; [by vm_compute|].
  rewrite bool_decide_false by done. split_and!; by vm_compute.
Defined.

Lemma note_at : at_ptr memory (256, 0) note.
Proof. by apply at_ptr_block. Defined.

Lemma buffer_at : at_ptr memory (1024, 0) buffer.
Proof. by apply at_ptr_block. Defined.

(** A buffer as the kernel fills it: an event and its blob. *)
Definition flat : heap := {[4096 := to_bytes sysex ++ blob]}.

Lemma flat_sysex_at : flat_at flat (4096, 0) sysex blob.
Proof.
  split; [by apply at_ptr_block|]. split; [apply with_ext_ok, new_event_ok|by vm_compute].
Defined.
