(* ===== verification/SeqEventProps.v ===== *)
(** * Properties of sequencer events

    What the operations of SeqEvent.v guarantee to their callers: data set is
    data got, blobs are owned and freed exactly once, copies are independent,
    refused calls change nothing, no call has undefined behaviour. *)
From S2P Require Import Prelude Heap SeqUapi SeqEvent SeqEventFacts SeqEventSpec SeqEventOps.
From S2P Require Import SeqEventSamples.

Section props.
Context {AL : Allocator} {LAWS : AllocatorLaws}.
Implicit Types (h : heap) (p a : Z) (e : snd_seq_event).

(** Data a caller sets is the data it gets.  For each of the eight kinds
    of fixed data (note, control, bytes, quadlets, queue control, address,
    connection, result) and any event whose type admits the kind, the setter
    succeeds, and the getter then returns a pointer to the bytes that were
    copied; the event is in the fixed length mode, its type, tag, queue,
    time stamp, addresses and other modes are unchanged, its former blob is
    freed and no other block is touched. *)
Theorem fixed_data_roundtrip k h p e blob d bs :
  event_at h p e blob → admits e (kind_flag k) = true →
  at_ptr h d bs → length bs = kind_size k → apart p e d →
  ∃ h' e', kind_set k (p, 0) d h = (Ret tt, h') ∧
    event_at h' p e' [] ∧ same_header e e' ∧
    length_mode e' = SNDRV_SEQ_EVENT_LENGTH_FIXED ∧
    kind_get k (p, 0) h' = (Ret (p, offset_data), h') ∧
    load (p, offset_data) (Z.of_nat (kind_size k)) h' = (Ret bs, h') ∧
    ∀ a, a ≠ p → h' !! a = drop_blob e h !! a.
Proof.
  intros H Ha Hd Hl [Hp Hx]. pose proof (kind_size_bound k) as Hk.
  exists (<[p := to_bytes (with_fixed bs e)]> (drop_blob e h)), (with_fixed bs e).
  pose proof (with_fixed_at h p e blob bs H ltac:(lia)) as Hat.
  assert (length_mode (with_fixed bs e) = SNDRV_SEQ_EVENT_LENGTH_FIXED) as Hm
    by by apply (cleared_length_mode _ e).
  split_and!.
  - rewrite kind_set_eq. eapply set_fixed_data_run; [done|done| |lia|lia].
    apply at_ptr_insert; [done|]. by apply at_ptr_drop_blob.
  - done.
  - by apply cleared_same_header.
  - done.
  - apply (kind_get_run k _ p _ (proj1 Hat)); [exact Ha|done].
  - apply load_at; [|by rewrite Hl].
    apply at_ptr_app_l with (ws := drop (length bs) (zeros 12)).
    exact (at_data _ _ _ (proj1 Hat)).
  - intros a Hne. by apply lookup_insert_ne.
Qed.

(** Setting the data of an event from the pointer its own getter
    returned erases the data.  The storage is cleared before the copy, so
    the copy reads the zeros just written. *)
Theorem fixed_data_self_assignment_erases k h p e blob :
  event_at h p e blob → admits e (kind_flag k) = true →
  ∃ h', kind_set k (p, 0) (p, offset_data) h = (Ret tt, h') ∧
    load (p, offset_data) 12 h' = (Ret (zeros 12), h').
Proof.
  intros H Ha. pose proof (kind_size_bound k) as Hk.
  set (bs := zeros (kind_size k)).
  assert (length bs = kind_size k) as Hl by apply length_zeros.
  assert (boxed (<[p := to_bytes (cleared SNDRV_SEQ_EVENT_LENGTH_FIXED e)]> (drop_blob e h))
    p (cleared SNDRV_SEQ_EVENT_LENGTH_FIXED e)) as Hb.
  { eapply boxed_insert; [by eapply boxed_drop_blob|]. apply cleared_ok, H. }
  eexists. split.
  - rewrite kind_set_eq. eapply (set_fixed_data_run _ _ _ _ _ _ _ bs); [done|done| |lia|lia].
    eapply at_ptr_app_l with (ws := zeros (12 - kind_size k)).
    apply at_data in Hb. by destruct k.
  - apply load_at; [|done].
    pose proof (with_fixed_at h p e blob bs H ltac:(lia)) as [Hat _].
    apply at_data in Hat. by destruct k.
Qed.

(** A call the type of the event does not admit is refused with
    [INVALID_DATA_TYPE], and a getter of data in another length mode with
    [INVALID_LENGTH_MODE]; in both cases the memory is untouched. *)
Theorem fixed_data_refused k h p e d :
  boxed h p e →
  (admits e (kind_flag k) = false →
     kind_set k (p, 0) d h = (Fail (Some err_data_type), h) ∧
     kind_get k (p, 0) h = (Fail (Some err_data_type), h)) ∧
  (admits e (kind_flag k) = true →
   length_mode e ≠ SNDRV_SEQ_EVENT_LENGTH_FIXED →
     kind_get k (p, 0) h = (Fail (Some err_length_mode), h)).
Proof.
  intros Hb. pose proof (load_event_run h p e Hb) as E.
  assert (∀ er, (∀ s : heap, validate_event_type_and_length e (kind_flag k) s = (Fail er, s)) →
    get_fixed_data (kind_flag k) (p, 0) h = (Fail er, h) ∧
    kind_get k (p, 0) h = (Fail er, h)) as Hg.
  { intros er Hv.
    assert (get_fixed_data (kind_flag k) (p, 0) h = (Fail er, h)) as Eg.
    { unfold get_fixed_data. rewrite (bind_Ret _ _ _ _ _ E).
      by rewrite (bind_Fail _ _ _ _ _ (Hv h)). }
    split; [exact Eg|]. destruct k; try exact Eg; by apply bind_Fail. }
  split.
  - intros Ha. split.
    + rewrite kind_set_eq. unfold set_fixed_data. rewrite (bind_Ret _ _ _ _ _ E).
      apply bind_Fail. by rewrite validate_event_type_run, Ha.
    + apply Hg. intros s. by rewrite validate_event_type_and_length_run, Ha.
  - intros Ha Hm. apply Hg. intros s.
    rewrite validate_event_type_and_length_run, Ha, kind_fixed.
    by destruct (Z.eqb_spec (length_mode e) SNDRV_SEQ_EVENT_LENGTH_FIXED).
Qed.

(** C9: a blob set is the blob got, in a block of its own: the setter of
    blob data copies the bytes of the caller to a new block, makes the event
    own it and frees the former blob; the getter returns that block and its
    length; nothing but the event, the former and the new blob changes. *)
Theorem blob_roundtrip h p e blob d bs a n :
  event_at h p e blob → admits e SEQ_EVENT_DATA_FLAG_BLOB = true →
  at_ptr h d bs → apart p e d → n = Z.of_nat (length bs) → n < 2 ^ 32 →
  allocates (cleared_heap h p e) n a →
  ∃ h' e', alsaseq_event_set_blob_data (p, 0) d n h = (Ret tt, h') ∧
    event_at h' p e' bs ∧ same_header e e' ∧ variable e' = true ∧
    alsaseq_event_get_blob_data (p, 0) h' = (Ret (a, n), h') ∧
    load (a, 0) n h' = (Ret bs, h') ∧
    ∀ b, b ≠ p → b ≠ a → h' !! b = drop_blob e h !! b.
Proof.
  intros H Hadm Hd [Hp Hx] Hn Hlt Ha.
  pose proof (at_cleared_heap h p e d bs Hp Hx Hd) as Hd1.
  pose proof (with_blob_at h p e blob bs a n H Hn Hlt Ha) as Hat.
  set (e' := with_ext SNDRV_SEQ_EVENT_LENGTH_VARIABLE n a e) in *.
  destruct (allocates_bounds _ _ _ Ha) as (Hu & Hmod & Hpos).
  assert (ext_ptr e' = a) as Eptr by by apply ext_ptr_with_ext.
  assert (ext_len e' = n) as Elen by (apply ext_len_with_ext; split; [lia|done]).
  assert (variable e' = true) as Hv.
  { unfold variable, e'. by rewrite with_ext_length_mode. }
  eexists _, e'. split_and!; [|exact Hat|by apply with_ext_same_header|done|..].
  - unfold alsaseq_event_set_blob_data.
    rewrite (bind_Ret _ _ _ _ _ (load_event_run h p e (proj1 H))).
    rewrite (bind_Ret _ _ h tt h) by (by rewrite validate_event_type_run, Hadm).
    by apply ensure_variable_run with (blob := blob).
  - rewrite (get_blob_run _ _ _ _ Hat), Eptr, Elen; [done|exact Hadm|done].
  - destruct (decide (n = 0)) as [->|Hn0]; [by destruct bs|].
    apply load_at; [|done]. apply at_ptr_block.
    destruct Hat as [_ Ho]. rewrite Hv in Ho. destruct Ho as [_ Ho].
    rewrite bool_decide_false in Ho by (intros ->; done).
    rewrite Eptr in Ho. apply Ho.
  - intros b Hbp Hba. rewrite lookup_insert_ne by done.
    unfold add_block, cleared_heap. case_bool_decide; by rewrite !lookup_insert_ne.
Qed.

(** Giving an event its own blob back is a use after free.  The setter
    frees the former blob before it copies from the caller's buffer. *)
Theorem blob_self_assignment_use_after_free h p e blob n a :
  event_at h p e blob → admits e SEQ_EVENT_DATA_FLAG_BLOB = true → variable e = true →
  0 < n → n = Z.of_nat (length blob) →
  allocates (cleared_heap h p e) n a → a ≠ ext_ptr e →
  ∃ h', alsaseq_event_set_blob_data (p, 0) (ext_ptr e, 0) n h = (UB, h').
Proof.
  intros H Hadm Hv Hn Hl Ha Hne. unfold alsaseq_event_set_blob_data.
  rewrite (bind_Ret _ _ _ _ _ (load_event_run h p e (proj1 H))).
  rewrite (bind_Ret _ _ h tt h) by (by rewrite validate_event_type_run, Hadm).
  unfold ensure_variable_length_event.
  rewrite (bind_Ret _ _ _ _ _ (clear_data_fields_run h p e blob H)).
  change (<[p := _]> (drop_blob e h)) with (cleared_heap h p e).
  unfold allocates in Ha. destruct (Z.eqb_spec n 0); [lia|].
  rewrite (bind_Ret _ _ _ _ _ (g_malloc_some _ n a ltac:(lia) Ha)).
  unfold memcpy. eexists. apply bind_UB, bind_UB, load_none; [|done].
  destruct H as [_ Ho]. rewrite Hv in Ho. destruct Ho as [_ Ho].
  rewrite bool_decide_false in Ho by (intros ->; simpl in Hl; lia).
  destruct Ho as (Hpos & _ & Hnp & _). simpl.
  rewrite lookup_insert_ne by done. unfold cleared_heap.
  rewrite lookup_insert_ne by done. unfold drop_blob. rewrite Hv.
  destruct (Z.eqb_spec (ext_ptr e) 0); [lia|]. apply lookup_delete_eq.
Qed.

(** Releasing a well-formed event frees its block and the blob it owns,
    once each, and nothing else. *)
Theorem event_free_releases h p e blob :
  event_at h p e blob →
  seq_event_free (p, 0) h = (Ret tt, delete p (drop_blob e h)) ∧
  (variable e = true → blob ≠ [] → delete p (drop_blob e h) !! ext_ptr e = None).
Proof.
  intros H. split.
  - unfold seq_event_free. rewrite (bind_Ret _ _ _ _ _ (free_blob_data_run h p e blob H)).
    change (p_addr (p, 0)) with (p + 0). rewrite Z.add_0_r.
    pose proof (boxed_drop_blob h p e blob H) as (Hb & _ & Hp & _).
    by eapply g_free_block.
  - intros Hv Hne. rewrite lookup_delete_ne.
    + rewrite (drop_blob_lookup h e blob p) by done. rewrite Hv, Z.eqb_refl. simpl.
      destruct H as [_ Ho]. rewrite Hv in Ho. destruct Ho as [_ Ho].
      rewrite bool_decide_false in Ho by done.
      by destruct (Z.eqb_spec (ext_ptr e) 0); [lia|].
    + destruct H as [_ Ho]. rewrite Hv in Ho. destruct Ho as [_ Ho].
      rewrite bool_decide_false in Ho by done. intros ->. by destruct Ho as (_&_&?&_).
Qed.

(** The boxed copy of a flattened event is independent of its source.
    It is a well-formed event of its own with the same header, the same data
    in the fixed and pointer modes, and in the variable mode a new block
    with the bytes that follow the source; the blocks of the source are
    left as they are. *)
Theorem event_copy_of_flattened h self e blob a a2 :
  flat_at h self e blob → alloc_addr h 28 = Some a →
  allocates (<[a := to_bytes e]> h) (Z.of_nat (length blob)) a2 →
  ∃ h' e', seq_event_copy self h = (Ret (a, 0), h') ∧ event_at h' a e' blob ∧
    same_header e e' ∧ length_mode e' = length_mode e ∧
    (variable e = false → ev_data e' = ev_data e) ∧
    (variable e = true → ext_len e' = ext_len e ∧ ext_ptr e' = a2) ∧
    (∀ b bs, h !! b = Some bs → h' !! b = Some bs).
Proof.
  intros Hf Ha Ha2.
  exists (<[a := to_bytes (boxed_copy a2 e)]> (add_block a2 blob h)), (boxed_copy a2 e).
  destruct (allocates_bounds _ _ _ Ha2) as (Hu & _ & Hpos).
  split_and!.
  - by apply seq_event_copy_run.
  - by eapply boxed_copy_at.
  - unfold boxed_copy. by destruct (variable e).
  - unfold boxed_copy. by destruct (variable e).
  - unfold boxed_copy. by intros ->.
  - intros Hv. unfold boxed_copy. rewrite Hv. split.
    + apply (ext_len_with_ext 0 _ a2 e), ext_len_range, Hf.
    + by apply (ext_ptr_with_ext 0 (ext_len e) a2 e).
  - intros b bs Hb. assert (b ≠ a) as Hne.
    { intros ->. apply alloc_fresh in Ha. congruence. }
    rewrite lookup_insert_ne by done. unfold add_block. case_bool_decide as E; [done|].
    rewrite lookup_insert_ne; [done|]. intros ->.
    destruct Hpos as [_ Hn]; [destruct blob; simpl; [done|lia]|].
    rewrite lookup_insert_ne in Hn by done. congruence.
Qed.

(** The boxed copy of a boxed event with a blob reads past the block of
    the event.  The copy function takes the blob from behind the structure,
    where only a flattened buffer has it. *)
Theorem event_copy_of_boxed_out_of_bounds h p e blob a a2 :
  event_at h p e blob → variable e = true → blob ≠ [] →
  alloc_addr h 28 = Some a →
  alloc_addr (<[a := to_bytes e]> h) (ext_len e) = Some a2 →
  ∃ h', seq_event_copy (p, 0) h = (UB, h').
Proof.
  intros [Hb Ho] Hv Hne Ha Ha2. rewrite Hv in Ho. destruct Ho as [Hl _].
  assert (0 < ext_len e) as Hpos by (rewrite Hl; destruct blob; simpl; [done|lia]).
  pose proof (boxed_at h p e Hb) as Hat.
  destruct (copy_struct_run h (p, 0) e a Hat (proj1 (proj2 Hb)) Ha) as [E Hb1].
  unfold seq_event_copy. cbv zeta. rewrite E.
  rewrite (bind_Ret _ _ _ _ _ (load_event_run _ a e Hb1)).
  change (length_mode e =? _) with (variable e). rewrite Hv.
  eexists. apply bind_UB. cbv beta iota.
  rewrite (bind_Ret _ _ _ _ _ (g_malloc_some _ (ext_len e) a2 ltac:(lia) Ha2)).
  apply bind_UB, bind_UB.
  apply (load_out _ (p_add (p, 0) sizeof_event) (to_bytes e)); [|done|].
  - assert (p ≠ a).
    { intros ->. apply alloc_fresh in Ha. destruct Hb. congruence. }
    assert (p ≠ a2).
    { intros ->. apply alloc_fresh in Ha2. rewrite lookup_insert_ne in Ha2 by done.
      destruct Hb. congruence. }
    simpl. rewrite !lookup_insert_ne by done. apply Hb.
  - rewrite length_to_bytes_event by apply Hb. change (28 < 28 + ext_len e). lia.
Qed.

(** A new event has the type it was asked for (as a byte), every other
    field zero, and is a well-formed event in the fixed length mode; the
    automatic variable it is copied from is gone. *)
Theorem event_new_initial h t a0 a :
  alloc_addr h 28 = Some a0 →
  alloc_addr (<[a0 := to_bytes (set_type t zero_event)]> h) 28 = Some a →
  ∃ h', alsaseq_event_new t h = (Ret (a, 0), h') ∧
    event_at h' a (set_type t zero_event) [] ∧
    ev_type (set_type t zero_event) = u8 t ∧
    length_mode (set_type t zero_event) = SNDRV_SEQ_EVENT_LENGTH_FIXED ∧
    Z.land (ev_flags (set_type t zero_event)) SNDRV_SEQ_TIME_STAMP_MASK
      = ALSASEQ_EVENT_TSTAMP_MODE_TICK ∧
    (∀ b, b ≠ a → h' !! b = h !! b).
Proof.
  intros Ha0 Ha. destruct (event_new_run h t a0 a Ha0 Ha) as (h' & E & Hat & Hf).
  exists h'. by split_and!.
Qed.

(** The modes in the flag byte are independent of each other.  Setting
    the time mode or the priority mode of a well-formed event to a value of
    its mask is read back by its getter, leaves what the getters of the other
    three modes return as it was, and keeps the event well formed. *)
Theorem header_modes_independent k h p e blob v :
  event_at h p e blob → settable k = true → Z.land v (mode_mask k) = v →
  ∃ h', mode_set k (p, 0) v h = (Ret tt, h') ∧
    event_at h' p (assign_flags (mode_mask k) v e) blob ∧
    mode_get k (p, 0) h' = (Ret v, h') ∧
    ∀ k', k' ≠ k → (mode_get k' (p, 0) h').1 = (mode_get k' (p, 0) h).1.
Proof.
  intros H Hs Hv. pose proof (proj1 (proj2 (proj1 H))) as Hok.
  assert (Z.land (mode_mask k) SNDRV_SEQ_EVENT_LENGTH_MASK = 0) as Hl by by destruct k.
  assert (is_u8 (mode_mask k)) as Hu by by destruct k.
  assert (length_mode (assign_flags (mode_mask k) v e) = length_mode e) as Hlm
    by by apply assign_flags_other.
  pose proof (update_keeps_blob h p e blob _ H (assign_flags_ok (mode_mask k) v e Hok)
    eq_refl Hlm) as Hat.
  exists (<[p := to_bytes (assign_flags (mode_mask k) v e)]> h).
  split_and!; [|exact Hat|..].
  - replace (mode_set k (p, 0) v) with (update_event (p, 0) (assign_flags (mode_mask k) v))
      by by destruct k.
    apply (update_event_run h p e); [apply H|by apply assign_flags_ok].
  - rewrite (mode_get_run _ _ _ _ (proj1 Hat)). by rewrite assign_flags_read.
  - intros k' Hne. rewrite (mode_get_run _ _ _ _ (proj1 Hat)), (mode_get_run _ _ _ _ (proj1 H)).
    cbn [fst]. rewrite assign_flags_other; [done|done|by destruct k'|done|].
    by destruct k, k'.
Qed.

(** C2: no sequence of calls leaves the invariant.  Every call that changes
    an event, given a well-formed event and arguments within [op_ok] (readable
    buffers of the documented size, below 2^32 bytes, that do not lie in the
    event or in its blob, and values of the enumerations), has no undefined
    behaviour, and whether it succeeds, fails or is refused leaves a well-formed
    event of the same type and time stamp mode (only the allocator may end the
    process). *)
Theorem event_op_safe h p e blob op :
  event_at h p e blob → op_ok h p e op → op_safe p e (run_op op (p, 0) h).
Proof. apply op_safe_run. Qed.

(** The time stamp mode of an event made by the library never becomes
    [REAL]: whatever calls follow [alsaseq_event_new], and whatever else the
    program does to other blocks, setting a real time as time stamp or as
    data returns FALSE and sets no error. *)
Theorem real_time_unreachable p h :
  event_reachable p h →
  ∀ d, alsaseq_event_set_real_time (p, 0) d h = (Fail None, h) ∧
    alsaseq_event_get_real_time (p, 0) h = (Fail None, h).
Proof.
  intros Hr d. destruct (event_reachable_inv p h Hr) as (e & blob & H & Ht).
  pose proof (load_event_run h p e (proj1 H)) as E.
  assert (validate_event_tstamp_mode e ALSASEQ_EVENT_TSTAMP_MODE_REAL h = (Fail None, h)) as Ev.
  { by rewrite validate_tstamp_run, Ht. }
  split; [unfold alsaseq_event_set_real_time|unfold alsaseq_event_get_real_time];
    rewrite (bind_Ret _ _ _ _ _ E); by apply bind_Fail.
Qed.

(** C23: the flattened length is the size of the structure and of the blob;
    the aligned length is the least multiple of the size of the structure
    that holds it, and the pool consumption counts these cells.  No
    computation wraps for any 32-bit length of the blob. *)
Theorem flattened_length_spec h self e :
  at_ptr h self (to_bytes e) → c_ok e →
  let n := flattened_length e false in
  let m := flattened_length e true in
  seq_event_calculate_flattened_length self false h = (Ret n, h) ∧
  seq_event_calculate_flattened_length self true h = (Ret m, h) ∧
  n = 28 + (if variable e then ext_len e else 0) ∧
  n ≤ m < n + 28 ∧ m `mod` 28 = 0 ∧
  alsaseq_event_calculate_pool_consumption self h = (Ret (m / 28), h).
Proof.
  intros Hat Hok n m. pose proof (load_event_at h self e Hat Hok) as E.
  assert (∀ al, seq_event_calculate_flattened_length self al h =
    (Ret (flattened_length e al), h)) as El.
  { intros al. unfold seq_event_calculate_flattened_length.
    by rewrite (bind_Ret _ _ _ _ _ E). }
  destruct (flattened_length_bounds e true Hok) as ((Hlo & Hhi) & Hb & Hm).
  split_and!; try apply El; try apply Hb; try done.
  - by apply flattened_length_false.
  - unfold alsaseq_event_calculate_pool_consumption.
    rewrite (bind_Ret _ _ _ _ _ (El true)), mret_run. do 2 f_equal. apply u32_id.
    unfold sizeof_event. fold m in Hlo, Hhi |- *. split; [apply Z.div_pos; lia|].
    apply Z.div_lt_upper_bound; lia.
Qed.

(** What the setters store the scheduler accepts.  An event given fixed
    data is deliverable, except a note event for the direct queue (the queue
    emulates it); an event given a blob is deliverable; an event given a
    pointer is deliverable exactly when it is dispatched directly.  The
    types without data (40 to 49) and the type NONE are never deliverable. *)
Theorem deliverable_after_set e :
  (∀ k bs, admits e (kind_flag k) = true →
     seq_event_is_deliverable (with_fixed bs e) =
       negb ((ev_type e =? 5) && (ev_queue e =? 253))) ∧
  (∀ n a, admits e SEQ_EVENT_DATA_FLAG_BLOB = true →
     seq_event_is_deliverable (with_ext SNDRV_SEQ_EVENT_LENGTH_VARIABLE n a e) = true) ∧
  (∀ n a, admits e SEQ_EVENT_DATA_FLAG_POINTER = true →
     seq_event_is_deliverable (with_ext SNDRV_SEQ_EVENT_LENGTH_VARUSR n a e) =
       (ev_queue e =? 253)) ∧
  (40 ≤ ev_type e ≤ 49 ∨ ev_type e = 255 → seq_event_is_deliverable e = false).
Proof.
  split_and!.
  - intros k bs Ha. unfold seq_event_is_deliverable.
    change (length_mode (with_fixed bs e)) with
      (length_mode (cleared SNDRV_SEQ_EVENT_LENGTH_FIXED e)).
    rewrite cleared_length_mode by done.
    change (ev_type (with_fixed bs e)) with (ev_type e).
    change (ev_queue (with_fixed bs e)) with (ev_queue e).
    rewrite Z.eqb_refl, (admits_class e (kind_flag k)); [|by destruct k|done|done].
    change ALSASEQ_EVENT_TYPE_NOTE with 5. change SNDRV_SEQ_QUEUE_DIRECT with 253.
    by destruct (ev_type e =? 5), (ev_queue e =? 253).
  - intros n a Ha. unfold seq_event_is_deliverable. rewrite with_ext_length_mode by done.
    change (SNDRV_SEQ_EVENT_LENGTH_VARIABLE =? SNDRV_SEQ_EVENT_LENGTH_FIXED) with false.
    rewrite Z.eqb_refl. by apply (admits_class e SEQ_EVENT_DATA_FLAG_BLOB).
  - intros n a Ha. unfold seq_event_is_deliverable. rewrite with_ext_length_mode by done.
    change (SNDRV_SEQ_EVENT_LENGTH_VARUSR =? SNDRV_SEQ_EVENT_LENGTH_FIXED) with false.
    change (SNDRV_SEQ_EVENT_LENGTH_VARUSR =? SNDRV_SEQ_EVENT_LENGTH_VARIABLE) with false.
    rewrite Z.eqb_refl. change (ev_type (with_ext _ n a e)) with (ev_type e).
    by rewrite (admits_class e SEQ_EVENT_DATA_FLAG_POINTER SEQ_EVENT_DATA_FLAG_VARUSR_ANY).
  - intros Ht. unfold seq_event_is_deliverable.
    assert (∃ f, seq_event_data_flags (ev_type e) = f ∧
      (f = SEQ_EVENT_DATA_FLAG_BLANK ∨ f = SEQ_EVENT_DATA_FLAG_NONE)) as (f & -> & Hf).
    { destruct Ht as [Ht|Ht]; [|rewrite Ht; by exists SEQ_EVENT_DATA_FLAG_NONE; auto].
      exists SEQ_EVENT_DATA_FLAG_BLANK. split; [|by left].
      assert (ev_type e ∈ seqZ 40 10) as Hin by (apply elem_of_seqZ; lia).
      revert Hin. generalize (ev_type e). apply Forall_forall. by repeat constructor. }
    destruct (Z.eqb_spec (ev_type e) ALSASEQ_EVENT_TYPE_NOTE) as [E|_].
    { exfalso. unfold ALSASEQ_EVENT_TYPE_NOTE, SNDRV_SEQ_EVENT_NOTE in E. lia. }
    destruct Hf as [-> | ->]; by repeat case_match.
Qed.
End props.

(** ** Concrete runs *)

Module EventWitness.
#[local] Existing Instance Bump.allocator.
#[local] Existing Instance Bump.laws.

Lemma fixed_data_roundtrip_witness :
  ∃ h' e', kind_set KNote (64, 0) (256, 0) memory = (Ret tt, h') ∧
    event_at h' 64 e' [] ∧ load (64, 16) 8 h' = (Ret note, h').
Proof.
  destruct (fixed_data_roundtrip KNote memory 64 noteon [] (256, 0) note)
    as (h' & e' & E & Hat & _ & _ & _ & Hl & _);
    [apply noteon_at|by vm_compute|apply note_at|done|by split|].
  exists h', e'. exact (conj E (conj Hat Hl)).
Defined.

Lemma fixed_data_self_assignment_erases_witness :
  ∃ h', kind_set KNote (64, 0) (64, 16) memory = (Ret tt, h') ∧
    load (64, 16) 12 h' = (Ret (zeros 12), h').
Proof.
  apply (fixed_data_self_assignment_erases KNote memory 64 noteon []);
    [apply noteon_at|by vm_compute].
Defined.

Lemma fixed_data_refused_witness :
  kind_set KCtl (64, 0) (256, 0) memory = (Fail (Some err_data_type), memory) ∧
  kind_get KCtl (64, 0) memory = (Fail (Some err_data_type), memory).
Proof.
  apply (fixed_data_refused KCtl memory 64 noteon (256, 0)); [apply noteon_at|by vm_compute].
Defined.

Lemma blob_roundtrip_witness :
  ∃ h' e', alsaseq_event_set_blob_data (128, 0) (1024, 0) 5 memory = (Ret tt, h') ∧
    event_at h' 128 e' buffer.
Proof.
  destruct (blob_roundtrip memory 128 sysex blob (1024, 0) buffer 4128 5)
    as (h' & e' & E & Hat & _);
    [apply sysex_at|by vm_compute|apply buffer_at|by split|done|done|by vm_compute|].
  exists h', e'. exact (conj E Hat).
Defined.

Lemma blob_self_assignment_use_after_free_witness :
  ∃ h', alsaseq_event_set_blob_data (128, 0) (512, 0) 3 memory = (UB, h').
Proof.
  apply (blob_self_assignment_use_after_free memory 128 sysex blob 3 4128);
    [apply sysex_at|by vm_compute..].
Defined.

Lemma event_free_releases_witness :
  seq_event_free (128, 0) memory = (Ret tt, delete 128 (drop_blob sysex memory)).
Proof. apply (event_free_releases memory 128 sysex blob), sysex_at. Defined.

Lemma event_copy_of_flattened_witness :
  ∃ h' e', seq_event_copy (4096, 0) flat = (Ret (4144, 0), h') ∧ event_at h' 4144 e' blob.
Proof.
  destruct (event_copy_of_flattened flat (4096, 0) sysex blob 4144 4192)
    as (h' & e' & E & Hat & _); [apply flat_sysex_at|by vm_compute..|].
  exists h', e'. exact (conj E Hat).
Defined.

Lemma event_copy_of_boxed_out_of_bounds_witness :
  ∃ h', seq_event_copy (128, 0) memory = (UB, h').
Proof.
  apply (event_copy_of_boxed_out_of_bounds memory 128 sysex blob 4128 4176);
    [apply sysex_at|by vm_compute..].
Defined.

Lemma event_new_initial_witness :
  ∃ h', alsaseq_event_new 6 ∅ = (Ret (4176, 0), h') ∧ event_at h' 4176 noteon [].
Proof.
  destruct (event_new_initial ∅ 6 4128 4176) as (h' & E & Hat & _); [by vm_compute..|].
  exists h'. exact (conj E Hat).
Defined.

Lemma header_modes_independent_witness :
  ∃ h', mode_set MPriority (64, 0) 16 memory = (Ret tt, h') ∧
    mode_get MPriority (64, 0) h' = (Ret 16, h').
Proof.
  destruct (header_modes_independent MPriority memory 64 noteon [] 16)
    as (h' & E & _ & Hg & _); [apply noteon_at|done|done|].
  exists h'. exact (conj E Hg).
Defined.

Lemma event_op_safe_witness :
  op_safe 64 noteon (run_op (OpFixed KNote (256, 0)) (64, 0) memory).
Proof.
  apply (event_op_safe memory 64 noteon []); [apply noteon_at|].
  exists note. split; [by split|]. split; [done|apply note_at].
Defined.

Lemma real_time_unreachable_witness :
  alsaseq_event_set_real_time (4176, 0) (256, 0) (alsaseq_event_new 6 ∅).2 =
    (Fail None, (alsaseq_event_new 6 ∅).2).
Proof.
  apply (real_time_unreachable 4176 (alsaseq_event_new 6 ∅).2).
  apply (reach_new 4176 ∅ 6). by vm_compute.
Defined.

Lemma flattened_length_spec_witness :
  flattened_length sysex false = 31 ∧ flattened_length sysex true = 56 ∧
  alsaseq_event_calculate_pool_consumption (4096, 0) flat = (Ret 2, flat).
Proof.
  destruct (flattened_length_spec flat (4096, 0) sysex) as (_ & _ & _ & _ & _ & E);
    [eapply at_ptr_app_l, flat_sysex_at|apply flat_sysex_at|].
  split; [by vm_compute|]. split; [by vm_compute|]. exact E.
Defined.

Lemma deliverable_after_set_witness :
  seq_event_is_deliverable (with_fixed note noteon) = true.
Proof. by rewrite (proj1 (deliverable_after_set noteon) KNote note). Defined.
End EventWitness.
