(* ===== verification/SeqEventRefine.v ===== *)
(** * Events refine their specification

    A run of a program on one event, as the list of its calls, has the
    outcomes the abstract event of SeqEventSpec.v gives, and the getters then
    show that abstract event. *)
From S2P Require Import Prelude Heap SeqUapi SeqEvent SeqEventFacts SeqEventSpec SeqEventOps.
From S2P Require Import SeqEventSamples.

(** ** What the getters show *)

Definition payload_mode (pl : payload) : Z :=
  match pl with
  | Fixed _ => SNDRV_SEQ_EVENT_LENGTH_FIXED
  | Blob _ => SNDRV_SEQ_EVENT_LENGTH_VARIABLE
  | Pointer _ _ => SNDRV_SEQ_EVENT_LENGTH_VARUSR
  | Reserved => SNDRV_SEQ_EVENT_LENGTH_MASK
  end.

(** The answer of a getter of data: the type of the event has to admit the
    data, and its payload has to be of the right form. *)
Definition answer {A} (s : event_spec) (flag : Z) (r : option (outcome A)) : outcome A :=
  if takes s flag
  then match r with Some o => o | None => Fail (Some err_length_mode) end
  else Fail (Some err_data_type).

(** The answer of a getter that asks for a mode of the time stamp. *)
Definition stamped {A} (s : event_spec) (mode : Z) (x : A) : outcome A :=
  if sp_tstamp s =? mode then Ret x else Fail None.

Definition fixed_of (pl : payload) : option (list byte) :=
  match pl with Fixed bs => Some bs | _ => None end.

Definition pointer_of (pl : payload) : option (Z * Z) :=
  match pl with Pointer a n => Some (a, n) | _ => None end.

(** The getters of an event at [p] answer as [s] says, and change nothing.
    The pointers they return have the bytes of [s] behind them. *)
Record shows `{Allocator} (h : heap) (p : Z) (s : event_spec) : Prop := {
  shows_type : alsaseq_event_get_event_type (p, 0) h = (Ret (sp_type s), h);
  shows_tstamp : alsaseq_event_get_tstamp_mode (p, 0) h = (Ret (sp_tstamp s), h);
  shows_time_mode : alsaseq_event_get_time_mode (p, 0) h = (Ret (sp_time_mode s), h);
  shows_priority : alsaseq_event_get_priority_mode (p, 0) h = (Ret (sp_priority s), h);
  shows_length : alsaseq_event_get_length_mode (p, 0) h =
    (Ret (payload_mode (sp_payload s)), h);
  shows_tag : alsaseq_event_get_tag (p, 0) h = (Ret (sp_tag s), h);
  shows_queue : alsaseq_event_get_queue_id (p, 0) h = (Ret (sp_queue s), h);
  shows_source : (d ← alsaseq_event_get_source (p, 0); load d 2) h =
    (Ret (to_bytes (sp_source s)), h);
  shows_dest : (d ← alsaseq_event_get_destination (p, 0); load d 2) h =
    (Ret (to_bytes (sp_dest s)), h);
  shows_tick : alsaseq_event_get_tick_time (p, 0) h =
    (stamped s ALSASEQ_EVENT_TSTAMP_MODE_TICK (le_u 0 4 (sp_time s)), h);
  shows_real : (d ← alsaseq_event_get_real_time (p, 0); load d 8) h =
    (stamped s ALSASEQ_EVENT_TSTAMP_MODE_REAL (sp_time s), h);
  shows_fixed k : (d ← kind_get k (p, 0); load d 12) h =
    (answer s (kind_flag k) (Ret <$> fixed_of (sp_payload s)), h);
  shows_tick_data : alsaseq_event_get_tick_time_data (p, 0) h =
    (answer s SEQ_EVENT_DATA_FLAG_TSTAMP
       (stamped s ALSASEQ_EVENT_TSTAMP_MODE_TICK ∘ le_u 0 4 <$> fixed_of (sp_payload s)), h);
  shows_real_data : (d ← alsaseq_event_get_real_time_data (p, 0); load d 12) h =
    (answer s SEQ_EVENT_DATA_FLAG_TSTAMP
       (stamped s ALSASEQ_EVENT_TSTAMP_MODE_REAL <$> fixed_of (sp_payload s)), h);
  shows_blob :
    match sp_payload s with
    | Blob bs =>
        (al ← alsaseq_event_get_blob_data (p, 0); load (al.1, 0) al.2) h =
          (answer s SEQ_EVENT_DATA_FLAG_BLOB (Some (Ret bs)), h)
    | _ => alsaseq_event_get_blob_data (p, 0) h =
        (answer s SEQ_EVENT_DATA_FLAG_BLOB None, h)
    end;
  shows_pointer : alsaseq_event_get_pointer_data (p, 0) h =
    (answer s SEQ_EVENT_DATA_FLAG_POINTER (Ret <$> pointer_of (sp_payload s)), h);
}.

(** ** The getters show the abstraction *)

Lemma length_mode_cases e :
  c_ok e → length_mode e = SNDRV_SEQ_EVENT_LENGTH_FIXED ∨
    length_mode e = SNDRV_SEQ_EVENT_LENGTH_VARIABLE ∨
    length_mode e = SNDRV_SEQ_EVENT_LENGTH_VARUSR ∨
    length_mode e = SNDRV_SEQ_EVENT_LENGTH_MASK.
Proof.
  intros (_ & Hf & _). unfold length_mode.
  assert (ev_flags e ∈ seqZ 0 256) as Hin by (apply elem_of_seqZ; destruct Hf; lia).
  assert (forallb (λ f, bool_decide (Z.land f 12 ∈ [0; 4; 8; 12])) (seqZ 0 256) = true) as Hall
    by by vm_compute.
  apply Is_true_eq_left in Hall. rewrite forallb_True, Forall_forall in Hall.
  specialize (Hall _ Hin). apply bool_decide_unpack in Hall.
  rewrite !elem_of_cons in Hall. destruct Hall as [E|[E|[E|[E|E]]]];
    [by left|by right; left|by do 2 right; left|by do 3 right|by apply not_elem_of_nil in E].
Qed.

Section shows.
Context {AL : Allocator} {LAWS : AllocatorLaws}.
Implicit Types (h : heap) (p : Z) (e : snd_seq_event).

Lemma data_getter_run {A} h p e blob flag r (k : snd_seq_event → M heap A) :
  boxed h p e →
  match r with
  | Some o => length_mode e = expected_length_mode flag ∧ k e h = (o, h)
  | None => length_mode e ≠ expected_length_mode flag
  end →
  (ev ← load_event (p, 0); validate_event_type_and_length ev flag;; k ev) h =
    (answer (view e blob) flag r, h).
Proof.
  intros Hb Hr. rewrite (bind_Ret _ _ _ _ _ (load_event_run h p e Hb)).
  pose proof (validate_event_type_and_length_run e flag h) as E. unfold answer.
  change (takes _ flag) with (admits e flag).
  destruct (admits e flag); [|by apply bind_Fail].
  destruct r as [o|].
  - destruct Hr as [Hm <-]. rewrite Hm, Z.eqb_refl in E. by rewrite (bind_Ret _ _ _ _ _ E).
  - destruct (Z.eqb_spec (length_mode e) (expected_length_mode flag)); [done|].
    by apply bind_Fail.
Qed.

(** The three forms of data by the length mode. *)
Lemma fixed_of_payload e blob :
  fixed_of (payload_of e blob) =
    if length_mode e =? SNDRV_SEQ_EVENT_LENGTH_FIXED then Some (ev_data e) else None.
Proof.
  unfold payload_of, variable.
  destruct (Z.eqb_spec (length_mode e) SNDRV_SEQ_EVENT_LENGTH_VARIABLE) as [->|_]; [done|].
  destruct (Z.eqb_spec (length_mode e) SNDRV_SEQ_EVENT_LENGTH_VARUSR) as [->|_]; [done|].
  by destruct (_ =? _).
Qed.

(** A getter of fixed data, up to what it does after its guard. *)
Lemma fixed_getter_run {A} h p e blob flag f (k : snd_seq_event → M heap A) :
  event_at h p e blob → expected_length_mode flag = SNDRV_SEQ_EVENT_LENGTH_FIXED →
  k e h = (f (ev_data e), h) →
  (ev ← load_event (p, 0); validate_event_type_and_length ev flag;; k ev) h =
    (answer (view e blob) flag (f <$> fixed_of (payload_of e blob)), h).
Proof.
  intros H Hf Hk. apply data_getter_run; [apply H|]. rewrite fixed_of_payload, Hf.
  by destruct (Z.eqb_spec (length_mode e) SNDRV_SEQ_EVENT_LENGTH_FIXED).
Qed.

Lemma kind_getter_run h p e blob k :
  event_at h p e blob →
  kind_get k (p, 0) h =
    (answer (view e blob) (kind_flag k)
       ((λ _, Ret (p, offset_data)) <$> fixed_of (payload_of e blob)), h).
Proof.
  intros H.
  assert (get_fixed_data (kind_flag k) (p, 0) h = (answer (view e blob) (kind_flag k)
       ((λ _, Ret (p, offset_data)) <$> fixed_of (payload_of e blob)), h)) as E
    by (apply fixed_getter_run; [done|apply kind_fixed|done]).
  assert (∀ flag, flag = kind_flag k →
    (data ← get_fixed_data flag (p, 0); ev ← load_event (p, 0);
     validate_event_type ev flag;; mret data) h = get_fixed_data flag (p, 0) h) as E2.
  { intros flag ->. rewrite E. revert E. unfold answer.
    change (takes (view e blob) ?f) with (admits e f).
    destruct (admits e (kind_flag k)) eqn:Ha, (fixed_of (payload_of e blob));
      simpl; intros E;
      try by apply bind_Fail.
    rewrite (bind_Ret _ _ _ _ _ E).
    rewrite (bind_Ret _ _ _ _ _ (load_event_run h p e (proj1 H))).
    by rewrite (bind_Ret _ _ h tt h) by (by rewrite validate_event_type_run, Ha). }
  rewrite <- E. destruct k; try done; by apply E2.
Qed.

(** The bytes behind the pointer a getter of fixed data returns. *)
Lemma load_data_run h p e blob flag (g : M heap ptr) (c : bool) :
  event_at h p e blob →
  g h = (answer (view e blob) flag
    ((λ _, if c then Ret (p, offset_data) else Fail None) <$> fixed_of (payload_of e blob)), h) →
  (d ← g; load d 12) h = (answer (view e blob) flag
    ((λ bs, if c then Ret bs else Fail None) <$> fixed_of (payload_of e blob)), h).
Proof.
  intros H. rewrite fixed_of_payload. unfold answer.
  destruct (takes (view e blob) flag), (length_mode e =? SNDRV_SEQ_EVENT_LENGTH_FIXED); simpl;
    intros E; try by apply bind_Fail.
  destruct c; [|by apply bind_Fail]. rewrite (bind_Ret _ _ _ _ _ E).
  apply load_at; [apply at_data, H|].
  destruct (proj1 (proj2 (proj1 H))) as (_&_&_&_&_&_&_&->). done.
Qed.

(** The fields of the header in their block. *)
Lemma at_header h p e :
  boxed h p e →
  at_ptr h (p, 4) (ev_time e) ∧ at_ptr h (p, 12) (to_bytes (ev_source e)) ∧
  at_ptr h (p, 14) (to_bytes (ev_dest e)).
Proof.
  intros Hb. pose proof (boxed_at h p e Hb) as H0. destruct Hb as (_ & Hok & _).
  assert (length (ev_time e) = 8%nat) as Ht by apply Hok.
  assert (length (to_bytes (ev_source e)) = 2%nat) as Hs
    by (rewrite length_to_bytes by apply Hok; done).
  apply (at_ptr_app_r h (p, 0) (le_split 1 (ev_type e) ++ le_split 1 (ev_flags e) ++
    le_split 1 (ev_tag e) ++ le_split 1 (ev_queue e))) in H0 as H4.
  apply at_ptr_app_r in H4 as H12. rewrite Ht in H12.
  apply at_ptr_app_r in H12 as H14. rewrite Hs in H14.
  split_and!; by eapply at_ptr_app_l.
Qed.

Lemma blob_getter_run h p e blob bs :
  event_at h p e blob → payload_of e blob = Blob bs →
  (al ← alsaseq_event_get_blob_data (p, 0); load (al.1, 0) al.2) h =
    (answer (view e blob) SEQ_EVENT_DATA_FLAG_BLOB (Some (Ret bs)), h).
Proof.
  intros H Hp. assert (variable e = true ∧ blob = bs) as [Hv ->].
  { revert Hp. unfold payload_of. destruct (variable e); [by intros [= ->]|].
    by repeat case_match. }
  pose proof Hv as Hm. apply Z.eqb_eq in Hm.
  pose proof (data_getter_run h p e bs SEQ_EVENT_DATA_FLAG_BLOB (Some (Ret (ext_ptr e, ext_len e)))
    (λ ev, mret (ext_ptr ev, ext_len ev)) (proj1 H) (conj Hm eq_refl)) as E.
  fold (alsaseq_event_get_blob_data (p, 0)) in E. revert E. unfold answer.
  destruct (takes _ SEQ_EVENT_DATA_FLAG_BLOB); intros E; [|by apply bind_Fail].
  rewrite (bind_Ret _ _ _ _ _ E). destruct H as [_ Ho]. rewrite Hv in Ho.
  destruct Ho as [Hl Ho]. case_bool_decide as Hn; [by subst bs; simpl; rewrite Hl|].
  apply load_at; [|done]. apply at_ptr_block, Ho.
Qed.

Lemma event_shows h p e blob : event_at h p e blob → shows h p (view e blob).
Proof.
  intros H. pose proof (load_event_run h p e (proj1 H)) as E.
  destruct (at_header h p e (proj1 H)) as (A4 & A12 & A14).
  assert (length (ev_time e) = 8%nat) as Ht by apply H.
  assert (∀ mode, validate_event_tstamp_mode e mode h =
    (if tstamp_mode e =? mode then Ret tt else Fail None, h)) as Ev
    by (intros; apply validate_tstamp_run).
  split; unfold alsaseq_event_get_event_type, alsaseq_event_get_tstamp_mode,
    alsaseq_event_get_time_mode, alsaseq_event_get_priority_mode,
    alsaseq_event_get_length_mode, alsaseq_event_get_tag, alsaseq_event_get_queue_id,
    alsaseq_event_get_tick_time, alsaseq_event_get_real_time;
    cbn [sp_type sp_tstamp sp_time_mode sp_priority sp_tag sp_queue sp_time sp_source
    sp_dest sp_payload view].
  1-4,6-7: by rewrite (bind_Ret _ _ _ _ _ E).
  - rewrite (bind_Ret _ _ _ _ _ E), mret_run. do 2 f_equal.
    change (Z.land _ _) with (length_mode e). unfold payload_of, variable.
    by destruct (length_mode_cases e (proj1 (proj2 (proj1 H)))) as [-> | [-> | [-> | ->]]].
  - by apply load_at.
  - by apply load_at.
  - unfold stamped. rewrite (bind_Ret _ _ _ _ _ E).
    specialize (Ev ALSASEQ_EVENT_TSTAMP_MODE_TICK). revert Ev. cbn [sp_tstamp view].
    destruct (_ =? _); intros Ev; [by rewrite (bind_Ret _ _ _ _ _ Ev)|by apply bind_Fail].
  - unfold stamped. rewrite bind_assoc, (bind_Ret _ _ _ _ _ E).
    specialize (Ev ALSASEQ_EVENT_TSTAMP_MODE_REAL). revert Ev. cbn [sp_tstamp view].
    destruct (_ =? _); intros Ev; [|by apply bind_Fail, bind_Fail].
    rewrite bind_assoc, (bind_Ret _ _ _ _ _ Ev). by apply load_at; [|rewrite Ht].
  - intros k. apply (load_data_run _ _ _ _ _ _ true H). by apply kind_getter_run.
  - apply (fixed_getter_run h p e blob _
      (stamped (view e blob) ALSASEQ_EVENT_TSTAMP_MODE_TICK ∘ le_u 0 4)); [done|done|].
    unfold compose, stamped. specialize (Ev ALSASEQ_EVENT_TSTAMP_MODE_TICK). revert Ev.
    cbn [sp_tstamp view].
    destruct (_ =? _); intros Ev; [by rewrite (bind_Ret _ _ _ _ _ Ev)|by apply bind_Fail].
  - apply (load_data_run _ _ _ _ _ _ (tstamp_mode e =? ALSASEQ_EVENT_TSTAMP_MODE_REAL) H).
    apply fixed_getter_run with (f := λ _, _); [done|done|].
    specialize (Ev ALSASEQ_EVENT_TSTAMP_MODE_REAL). revert Ev.
    destruct (_ =? _); intros Ev; [by rewrite (bind_Ret _ _ _ _ _ Ev)|by apply bind_Fail].
  - destruct (payload_of e blob) eqn:Hp; [|by apply blob_getter_run|..];
      (apply data_getter_run; [apply H|]; revert Hp; unfold payload_of, variable;
       by destruct (Z.eqb_spec (length_mode e) SNDRV_SEQ_EVENT_LENGTH_VARIABLE)).
  - apply data_getter_run; [apply H|]. unfold payload_of, variable.
    by destruct (length_mode_cases e (proj1 (proj2 (proj1 H)))) as [-> | [-> | [-> | ->]]].
Qed.
End shows.

(** ** Runs of a program on one event *)

(** The calls of setters a program makes on the event at [p], each within
    [op_args] and with the bytes of the buffer it passes, and what they return.
    Between them the program may change everything but the event and its blob. *)
Inductive event_calls `{Allocator} (p : Z) :
    heap → list (event_op * list byte) → list (outcome unit) → heap → Prop :=
  | calls_nil h : event_calls p h [] [] h
  | calls_op h op bs o h1 tr os h2 :
      (∀ e blob, event_at h p e blob → op_args h p e op bs) →
      run_op op (p, 0) h = (o, h1) → o ≠ Oom →
      event_calls p h1 tr os h2 → event_calls p h ((op, bs) :: tr) (o :: os) h2
  | calls_elsewhere h h1 tr os h2 :
      (∀ e blob, event_at h p e blob → event_at h1 p e blob) →
      event_calls p h1 tr os h2 → event_calls p h tr os h2.

Section refinement.
Context {AL : Allocator} {LAWS : AllocatorLaws}.
Implicit Types (h : heap) (p : Z) (s : event_spec).

Lemma event_calls_simulated p h tr os h' s :
  event_calls p h tr os h' → holds h p s →
  os = (spec_run tr s).1 ∧ (UB ∉ os) ∧ holds h' p (spec_run tr s).2.
Proof.
  intros Hc. revert s. induction Hc as [h|h op bs o h1 tr os h2 Hok E Ho _ IH|h h1 tr os h2 Hk _ IH];
    intros s (e & blob & H & <-).
  - split_and!; [done|apply not_elem_of_nil|by exists e, blob].
  - pose proof (op_does_step h p e blob op bs H (Hok e blob H)) as Hs.
    destruct (spec_step_outcome op bs (view e blob)) as [Hu _].
    rewrite E in Hs. destruct Hs as [?|[Hr Hs]]; [done|]. cbn [fst snd] in Hr. subst o.
    cbn [fst snd spec_run] in Hs, Hu |- *. destruct (spec_step op bs (view e blob)) as [o s1].
    destruct (IH s1 Hs) as (-> & Hn & Hh). destruct (spec_run tr s1) as [os s2].
    split_and!; [done| |done]. apply not_elem_of_cons. by split; [apply not_eq_sym|].
  - apply IH. exists e, blob. by split; [apply Hk|].
Qed.

Lemma new_holds h0 t h p :
  alsaseq_event_new t h0 = (Ret (p, 0), h) → holds h p (spec_new t).
Proof. intros E. apply event_new_inv in E as (a & [= <-] & H). by eexists _, []. Qed.

Lemma event_at_value h p e blob :
  event_at h p e blob → e = of_bytes (default [] (h !! p)).
Proof. intros [(H & Hc & _) _]. rewrite H. symmetry. by apply of_to_bytes. Qed.

(** C1: the boxed event implements the abstract event.  Whatever setters a
    program calls on an event the library created, in whatever order and with
    whatever it does to other memory in between, every call returns what the
    step of the abstract event returns (success, the documented error, or a
    guard), none has undefined behaviour, and afterwards every getter answers
    as the abstract event says: the fields of the header, and the data in the
    form it was last set, read through the pointers the getters return.  This
    holds within [op_args]: buffers are readable, of the documented size (below
    2^32 bytes) and do not lie in the event or in its blob, time and priority
    modes are values of their enumerations, and memory does not run out.
    Passing the blob of the event back to its setter is outside of it
    ([blob_self_assignment_use_after_free]); copies of the boxed event are not
    among the calls. *)
Theorem event_refines_spec p h0 t h tr os h' :
  alsaseq_event_new t h0 = (Ret (p, 0), h) → event_calls p h tr os h' →
  os = (spec_run tr (spec_new t)).1 ∧ (UB ∉ os) ∧ shows h' p (spec_run tr (spec_new t)).2.
Proof.
  intros En Hc. destruct (event_calls_simulated p h tr os h' (spec_new t) Hc) as (Eo & Hu & Hh).
  - by eapply new_holds.
  - split_and!; [done|done|]. destruct Hh as (e & blob & H & <-). by apply event_shows.
Qed.
End refinement.

(** ** A run *)

Module RefineWitness.
#[local] Existing Instance Bump.allocator.
#[local] Existing Instance Bump.laws.

(** A system exclusive event is tagged, given a blob, refused a note, and its
    pointer is refused for being NULL. *)
Definition calls : list (event_op * list byte) :=
  [(OpTag 5, []); (OpBlob (1024, 0) 5, buffer); (OpFixed KNote (256, 0), note);
   (OpPointer 0 8, [])].

Definition start : heap := (alsaseq_event_new 130 memory).2.

(** The memory after a call on the event at 4176. *)
Definition after (op : event_op) (h : heap) : heap := (run_op op (4176, 0) h).2.

Definition tagged : heap := after (OpTag 5) start.
Definition with_blob : heap := after (OpBlob (1024, 0) 5) tagged.
Definition refused : heap := after (OpFixed KNote (256, 0)) with_blob.
Definition last : heap := after (OpPointer 0 8) refused.

(** The buffer of a call is there and apart from the event. *)
Ltac buffer_here :=
  intros e blob H; apply event_at_value in H; subst e;
  split; [split; [done|by vm_compute]|split; [done|by apply at_ptr_block; vm_compute]].

Lemma calls_run :
  event_calls 4176 start calls
    [Ret tt; Ret tt; Fail (Some err_data_type); Critical] last.
Proof.
  apply (calls_op 4176 start _ _ _ tagged); [done|by vm_compute|done|].
  apply (calls_op 4176 tagged _ _ _ with_blob); [|by vm_compute|done|].
  { intros e blob0 H. split; [done|]. revert e blob0 H. buffer_here. }
  apply (calls_op 4176 with_blob _ _ _ refused); [buffer_here|by vm_compute|done|].
  apply (calls_op 4176 refused _ _ _ last); [done|by vm_compute|done|].
  apply calls_nil.
Defined.

Lemma event_refines_spec_witness :
  [Ret tt; Ret tt; Fail (Some err_data_type); Critical] = (spec_run calls (spec_new 130)).1 ∧
  (al ← alsaseq_event_get_blob_data (4176, 0); load (al.1, 0) al.2) last = (Ret buffer, last).
Proof.
  destruct (event_refines_spec 4176 memory 130 start calls
    [Ret tt; Ret tt; Fail (Some err_data_type); Critical] last) as (E & _ & Hs);
    [by vm_compute|apply calls_run|].
  split; [exact E|exact (shows_blob _ _ _ Hs)].
Defined.
End RefineWitness.
