(* ===== verification/SeqEventCntr.v ===== *)
(** * Containers of flattened events: [src/src/seq/event-cntr.c]

    The container that crosses the boundary to the kernel: a buffer in which
    events lie one after the other, each with its blob behind it, at any
    address or padded to multiples of the size of the structure. *)
From S2P Require Import Prelude Heap SeqUapi SeqEvent.

(** [ALSASeqEventCntr]; [cntr_pad] is the padding at the end of the structure. *)
Record event_cntr := EventCntr {
  cntr_buf : Z;
  cntr_length : Z;
  cntr_aligned : Z;
  cntr_pad : list byte;
}.

#[export] Instance event_cntr_struct : CStruct event_cntr := {|
  sizeof := 24;
  to_bytes c :=
    le_split 8 (cntr_buf c) ++ le_split 8 (cntr_length c) ++ le_split 4 (cntr_aligned c) ++
    cntr_pad c;
  of_bytes bs := EventCntr (le_u 0 8 bs) (le_u 8 8 bs) (le_s 16 4 bs) (sub 20 4 bs);
  c_ok c :=
    is_u64 (cntr_buf c) ∧ is_u64 (cntr_length c) ∧ is_i32 (cntr_aligned c) ∧
    length (cntr_pad c) = 4%nat;
|}.

#[export] Instance event_cntr_laws : CStructLaws event_cntr.
Proof.
  split; cbn [sizeof to_bytes of_bytes c_ok event_cntr_struct].
  - intros c (_&_&_&Hp). by rewrite !length_app, !length_le_split, Hp.
  - intros [b l a pd] (Hb & Hl & Ha & Hp); cbn [cntr_buf cntr_length cntr_aligned cntr_pad] in *.
    unfold le_s, le_u. sub_simpl. rewrite (split_signed 4) by first [lia|exact Ha].
    by rewrite !le_combine_split_id.
  - intros bs Hl. cbn [cntr_buf cntr_length cntr_aligned cntr_pad].
    rewrite !split_le_u, split_le_s by lia. rewrite !app_assoc, !sub_split. by apply sub_all.
  - intros bs Hl. cbn [cntr_buf cntr_length cntr_aligned cntr_pad].
    split_and!; [apply (le_u_range _ 8); lia|apply (le_u_range _ 8); lia
      |apply (le_s_range _ 4); lia|rewrite length_sub; lia].
Qed.

Definition sizeof_cntr : Z := 24.

(** [ALSASeqEventCntr cntr = { 0 };] *)
Definition zero_cntr : event_cntr := EventCntr 0 0 0 (zeros 4).

(** ** The iterator *)

Record seq_event_iter := Iter {
  it_buf : Z;
  it_length : Z;
  it_offset : Z;
  it_aligned : bool;
}.

Definition seq_event_iter_init (buf length : Z) (aligned : bool) : seq_event_iter :=
  Iter buf length 0 aligned.

Section cntr.
Context {AL : Allocator}.

Definition load_cntr (self : ptr) : M heap event_cntr :=
  bs ← load self sizeof_cntr; mret (of_bytes bs).

Definition update_cntr (self : ptr) (f : event_cntr → event_cntr) : M heap unit :=
  c ← load_cntr self; store self (to_bytes (f c)).

Definition seq_event_cntr_copy (src : ptr) : M heap ptr :=
  a ← g_malloc0 sizeof_cntr;
  let dst := (a, 0) in
  memcpy dst src sizeof_cntr;;
  c ← load_cntr src;
  buf ← g_malloc0 (cntr_length c);
  update_cntr dst (λ d, EventCntr buf (cntr_length d) (cntr_aligned d) (cntr_pad d));;
  memcpy (buf, 0) (cntr_buf c, 0) (cntr_length c);;
  mret dst.

Definition seq_event_cntr_free (self : ptr) : M heap unit :=
  c ← load_cntr self;
  g_free (cntr_buf c);;
  g_free (p_addr self).

(** The event at the offset of the iterator, unless it does not fit in what
    is left of the buffer. *)
Definition seq_event_iter_next (iter : seq_event_iter) :
    M heap (option ptr * seq_event_iter) :=
  if it_buf iter =? 0 then mret (None, iter) else
  if it_offset iter <? it_length iter then
    let ev := (it_buf iter, it_offset iter) in
    length ← seq_event_calculate_flattened_length ev (it_aligned iter);
    if u64 (it_offset iter + length) <=? it_length iter then
      mret (Some ev, Iter (it_buf iter) (it_length iter) (u64 (it_offset iter + length))
                       (it_aligned iter))
    else mret (None, iter)
  else mret (None, iter).

(** ** Serialization *)

(** Total length of the flattened events. *)
Fixpoint calculate_total_length (events : list ptr) (aligned : bool) (total : Z) : M heap Z :=
  match events with
  | [] => mret total
  | ev :: events =>
      g_return_if_fail (negb (p_addr ev =? 0));;
      length ← seq_event_calculate_flattened_length ev aligned;
      calculate_total_length events aligned (u64 (total + length))
  end.

(** The events one after the other, from [pos] of the buffer. *)
Fixpoint copy_flattened_events (events : list ptr) (aligned : bool) (buf pos : Z) : M heap Z :=
  match events with
  | [] => mret pos
  | ev :: events =>
      g_return_if_fail (negb (p_addr ev =? 0));;
      length ← seq_event_calculate_flattened_length ev aligned;
      void_call (seq_event_copy_flattened ev (buf, pos) length);;
      copy_flattened_events events aligned buf (u64 (pos + length))
  end.

Definition seq_event_cntr_serialize (self : ptr) (events : list ptr) (aligned : bool) :
    M heap unit :=
  g_return_if_fail (negb (p_addr self =? 0));;
  g_return_if_fail (bool_decide (events ≠ []));;
  total_length ← calculate_total_length events aligned 0;
  if total_length =? 0 then mret tt else
  buf ← g_malloc0 total_length;
  pos ← copy_flattened_events events aligned buf 0;
  g_return_if_fail (total_length =? pos);;
  c ← load_cntr self;
  g_free (cntr_buf c);;
  update_cntr self (λ c, EventCntr buf total_length (Z.b2z aligned) (cntr_pad c)).

(** ** Deserialization *)

(** The loop over the iterator; [fuel] bounds the number of events, and a
    loop that does not end within it counts as undefined behaviour. *)
Fixpoint deserialize_loop (fuel : nat) (iter : seq_event_iter) (events : list ptr) :
    M heap (list ptr) :=
  match fuel with
  | O => ub
  | S fuel =>
      '(ev, iter) ← seq_event_iter_next iter;
      match ev with
      | Some ev =>
          event ← seq_event_copy ev;
          deserialize_loop fuel iter (events ++ [event])
      | None => mret events
      end
  end.

(** An event takes 28 bytes at least, so the loop has fewer rounds than the
    buffer has bytes. *)
Definition alsaseq_event_cntr_deserialize (self : ptr) (events : list ptr) :
    M heap (list ptr) :=
  c ← load_cntr self;
  let iter := seq_event_iter_init (cntr_buf c) (cntr_length c) (negb (cntr_aligned c =? 0)) in
  deserialize_loop (S (Z.to_nat (cntr_length c / sizeof_event))) iter events.
End cntr.
