(* ===== verification/SeqEventCntrFacts.v ===== *)
(** * Executions of the operations on containers

    The layout of a buffer of flattened events as a relation between its bytes
    and the events in it, and what the loops of SeqEventCntr.v do with a buffer
    of that layout. *)
From S2P Require Import Prelude Heap SeqUapi SeqEvent SeqEventFacts SeqEventCntr.

(** An event and its blob. *)
Definition payload : Type := snd_seq_event * list byte.

(** The blob has the length the event says, and only variable events have one. *)
Definition blob_ok (e : snd_seq_event) (blob : list byte) : Prop :=
  if variable e then ext_len e = Z.of_nat (length blob) else blob = [].

(** The space an event takes in a buffer. *)
Definition cell_length (al : bool) (x : payload) : Z := flattened_length x.1 al.

Definition cell (al : bool) (x : payload) : list byte :=
  to_bytes x.1 ++ x.2 ++ zeros (Z.to_nat (cell_length al x) - 28 - length x.2).

Definition cells (al : bool) (xs : list payload) : list byte := concat (map (cell al) xs).

(** [layout al bs xs]: reading [bs] from its start finds the events [xs]: the
    cells one after the other, up to the end or up to an event that does not
    fit in what is left. *)
Inductive layout (al : bool) : list byte → list payload → Prop :=
  | layout_end : layout al [] []
  | layout_cut e rest :
      c_ok e → Z.of_nat (length (to_bytes e ++ rest)) < flattened_length e al →
      layout al (to_bytes e ++ rest) []
  | layout_cell e blob pad rest xs :
      c_ok e → blob_ok e blob →
      Z.of_nat (length (to_bytes e ++ blob ++ pad)) = flattened_length e al →
      layout al rest xs →
      layout al ((to_bytes e ++ blob ++ pad) ++ rest) ((e, blob) :: xs).

(** A boxed event made from the payload [x]. *)
Definition boxed_from (h : heap) (x : payload) (ev : ptr) : Prop :=
  ∃ a e', ev = (a, 0) ∧ event_at h a e' x.2 ∧ same_header x.1 e' ∧
    length_mode e' = length_mode x.1 ∧ (variable x.1 = false → ev_data e' = ev_data x.1).

(** Boxed events at the addresses [ps]. *)
Definition events_at (h : heap) (ps : list Z) (xs : list payload) : Prop :=
  Forall2 (λ p x, event_at h p x.1 x.2) ps xs.

Definition boxes (ps : list Z) : list ptr := map (λ p, (p, 0)) ps.

(** ** Cells *)

Lemma event_at_blob_ok h p e blob : event_at h p e blob → blob_ok e blob.
Proof. intros [_ Ho]. unfold blob_ok. destruct (variable e); [apply Ho|done]. Qed.

Lemma cell_length_bounds al (x : payload) :
  c_ok x.1 → blob_ok x.1 x.2 →
  28 + Z.of_nat (length x.2) ≤ cell_length al x < 2 ^ 33.
Proof.
  intros Hok Hb. unfold cell_length.
  pose proof (flattened_length_bounds x.1 al Hok) as ((? & ?) & ? & _).
  pose proof (flattened_length_false x.1 Hok) as E. unfold sizeof_event, blob_ok in *.
  assert (flattened_length x.1 false = 28 + Z.of_nat (length x.2)) as E2.
  { rewrite E. destruct (variable x.1); [by rewrite Hb|by rewrite Hb]. }
  destruct al; lia.
Qed.

Lemma length_cell al (x : payload) :
  c_ok x.1 → blob_ok x.1 x.2 → Z.of_nat (length (cell al x)) = cell_length al x.
Proof.
  intros Hok Hb. pose proof (cell_length_bounds al x Hok Hb). unfold cell.
  rewrite !length_app, length_zeros, length_to_bytes_event by done. lia.
Qed.

(** A buffer of cells has the layout of their events. *)
Lemma cells_layout al (xs : list payload) :
  Forall (λ x, c_ok x.1 ∧ blob_ok x.1 x.2) xs → layout al (cells al xs) xs.
Proof.
  induction 1 as [|[e blob] xs [Hok Hb] _ IH]; [constructor|].
  change (cells al ((e, blob) :: xs)) with (cell al (e, blob) ++ cells al xs).
  unfold cell at 1. cbn [fst snd]. constructor; [done|done| |done].
  exact (length_cell al (e, blob) Hok Hb).
Qed.

Lemma length_cells al (xs : list payload) :
  Forall (λ x, c_ok x.1 ∧ blob_ok x.1 x.2) xs →
  Z.of_nat (length (cells al xs)) = sum_Z (cell_length al) xs.
Proof.
  induction 1 as [|x xs [Hok Hb] _ IH]; [done|].
  change (cells al (x :: xs)) with (cell al x ++ cells al xs).
  change (sum_Z (cell_length al) (x :: xs)) with (cell_length al x + sum_Z (cell_length al) xs).
  by rewrite length_app, Nat2Z.inj_add, length_cell, IH.
Qed.

(** Any bytes are the bytes of an event. *)
Lemma event_of_bytes (bs : list byte) :
  (28 ≤ length bs)%nat → ∃ e : snd_seq_event, c_ok e ∧ bs = to_bytes e ++ drop 28 bs.
Proof.
  intros H. assert (length (take 28 bs) = 28%nat) as L by (rewrite length_take; lia).
  exists (of_bytes (take 28 bs)). split; [by apply of_bytes_ok|].
  by rewrite (to_of_bytes (A := snd_seq_event)), take_drop.
Qed.

(** In the aligned layout every buffer of whole structures can be read:
    no event is cut in its header. *)
Lemma aligned_layout_total (bs : list byte) (n : nat) :
  length bs = (28 * n)%nat → ∃ xs, layout true bs xs ∧ (length xs ≤ n)%nat.
Proof.
  revert bs. induction (lt_wf n) as [n _ IH]. intros bs Hl.
  destruct n as [|n].
  { exists []. split; [|simpl; lia]. destruct bs; [constructor|simpl in Hl; lia]. }
  destruct (event_of_bytes bs ltac:(lia)) as (e & Hok & E).
  destruct (flattened_length_bounds e true Hok) as ((Hlo & Hhi) & (Hle & _) & Hmod).
  pose proof (flattened_length_false e Hok) as Ef.
  destruct (Z.lt_ge_cases (Z.of_nat (length bs)) (flattened_length e true)) as [Hlt|Hge].
  { exists []. split; [|simpl; lia]. rewrite E in *. by constructor. }
  set (m := Z.to_nat (flattened_length e true)) in *.
  assert (Z.of_nat m = flattened_length e true) as Hm by lia.
  set (bl := if variable e then Z.to_nat (ext_len e) else O).
  pose proof (proj1 (ext_len_range e Hok)) as Hext.
  assert (28 + Z.of_nat bl ≤ Z.of_nat m) as Hblm.
  { unfold sizeof_event in Ef. subst bl. destruct (variable e); lia. }
  set (d := drop 28 bs) in *.
  assert (length d = length bs - 28)%nat as Hd by (unfold d; by rewrite length_drop).
  assert (bs = (to_bytes e ++ take bl d ++ take (m - 28 - bl) (drop bl d)) ++
    drop (m - 28) d) as Ebs.
  { rewrite E at 1. rewrite <- !app_assoc. f_equal.
    replace (m - 28)%nat with (bl + (m - 28 - bl))%nat at 2 by lia.
    rewrite <- drop_drop, take_drop. by rewrite take_drop. }
  assert (28 * (Z.of_nat m / 28) = Z.of_nat m) as Hdiv.
  { rewrite Hm. pose proof (Z.div_mod (flattened_length e true) 28). lia. }
  destruct (IH (n - Z.to_nat (Z.of_nat m / 28 - 1))%nat ltac:(lia) (drop (m - 28) d))
    as (xs & Hxs & Hn).
  { rewrite length_drop, Hd, Hl. lia. }
  exists ((e, take bl d) :: xs). split; [|simpl; lia].
  rewrite Ebs. constructor; [done| | |done].
  - unfold blob_ok. subst bl. destruct (variable e); [|by rewrite take_0].
    rewrite length_take. lia.
  - rewrite !length_app, !length_take, length_drop, length_to_bytes_event by done. lia.
Qed.

(** ** Events and other blocks *)

(** [b] is no block of the event. *)
Definition off_event (b p : Z) (x : payload) : Prop :=
  b ≠ p ∧ (variable x.1 = true → x.2 ≠ [] → b ≠ ext_ptr x.1).

Lemma fresh_off h b p (x : payload) :
  event_at h p x.1 x.2 → h !! b = None → off_event b p x.
Proof.
  intros [(Hp & _) Ho] Hb. split; [congruence|]. intros Hv Hne. rewrite Hv in Ho.
  destruct Ho as [_ Ho]. rewrite bool_decide_false in Ho by done.
  destruct Ho as (_ & _ & _ & Ho). congruence.
Qed.

Lemma event_at_insert h b bs p (x : payload) :
  off_event b p x → event_at h p x.1 x.2 → event_at (<[b := bs]> h) p x.1 x.2.
Proof.
  intros [Hp Hx] [Hb Ho]. split; [by apply boxed_insert_ne|].
  destruct (variable x.1); [|done]. destruct Ho as [Hl Ho]. split; [done|].
  case_bool_decide; [done|]. destruct Ho as (?&?&?&?). split_and!; try done.
  by rewrite lookup_insert_ne by (by apply Hx).
Qed.

Lemma events_at_insert h b bs ps xs :
  Forall2 (off_event b) ps xs → events_at h ps xs → events_at (<[b := bs]> h) ps xs.
Proof.
  intros Ho H. induction H as [|p x ps xs Hx _ IH]; inversion Ho; subst; [by constructor|].
  constructor; [by apply event_at_insert|by apply IH].
Qed.

Lemma event_at_mono h h' p e blob : h ⊆ h' → event_at h p e blob → event_at h' p e blob.
Proof.
  intros Hs [(Hp & Hr) Ho]. split; [split; [by eapply lookup_weaken|done]|].
  destruct (variable e); [|done]. destruct Ho as [Hl Ho]. split; [done|].
  case_bool_decide; [done|]. destruct Ho as (?&?&?&?). split_and!; try done.
  by eapply lookup_weaken.
Qed.

Lemma boxed_from_mono h h' x ev : h ⊆ h' → boxed_from h x ev → boxed_from h' x ev.
Proof.
  intros Hs (a & e' & -> & Hat & H). exists a, e'. split; [done|].
  split; [by eapply event_at_mono|done].
Qed.

(** ** Serialization *)

Section serialize.
Context {AL : Allocator} {LAWS : AllocatorLaws}.
Implicit Types (h : heap) (p b : Z) (al : bool) (x : payload).

Lemma calculate_length_run h p x al :
  event_at h p x.1 x.2 →
  seq_event_calculate_flattened_length (p, 0) al h = (Ret (cell_length al x), h).
Proof.
  intros H. unfold seq_event_calculate_flattened_length.
  by rewrite (bind_Ret _ _ _ _ _ (load_event_run h p x.1 (proj1 H))).
Qed.

Lemma events_nonnull h p x : event_at h p x.1 x.2 → (p_addr (p, 0) =? 0) = false.
Proof.
  intros [(_ & _ & Hp & _) _]. unfold p_addr. simpl. apply Z.eqb_neq. lia.
Qed.

Lemma events_ok h ps xs :
  events_at h ps xs → Forall (λ x, c_ok x.1 ∧ blob_ok x.1 x.2) xs.
Proof.
  induction 1 as [|p x ps xs H _ IH]; constructor; [|done].
  split; [apply H|by eapply event_at_blob_ok].
Qed.

Lemma sum_cells_nonneg al (xs : list payload) :
  Forall (λ x, c_ok x.1 ∧ blob_ok x.1 x.2) xs → 0 ≤ sum_Z (cell_length al) xs.
Proof. intros H. rewrite <- (length_cells al) by done. lia. Qed.

Lemma total_length_run h ps xs al t :
  events_at h ps xs → 0 ≤ t → t + sum_Z (cell_length al) xs < 2 ^ 64 →
  calculate_total_length (boxes ps) al t h = (Ret (t + sum_Z (cell_length al) xs), h).
Proof.
  intros H. revert t. induction H as [|p x ps xs H Hf IH]; intros t Ht Hlt.
  { cbn. by rewrite Z.add_0_r. }
  cbn [sum_Z foldr] in *. fold (sum_Z (cell_length al) xs) in *.
  pose proof (cell_length_bounds al x ltac:(apply H) (event_at_blob_ok _ _ _ _ H)).
  pose proof (sum_cells_nonneg al xs (events_ok h ps xs Hf)).
  cbn [boxes map calculate_total_length]. rewrite (events_nonnull h p x H).
  rewrite (bind_Ret _ _ h tt h) by done.
  rewrite (bind_Ret _ _ _ _ _ (calculate_length_run h p x al H)).
  rewrite u64_id by (unfold is_u64; lia). fold (boxes ps). rewrite IH by lia.
  by rewrite Z.add_assoc.
Qed.

(** The copy of an event to a zeroed place of a buffer writes its cell. *)
Lemma copy_flattened_run h p x b pre post al n :
  event_at h p x.1 x.2 → off_event b p x → n = Z.of_nat (length pre) →
  h !! b = Some (pre ++ zeros (Z.to_nat (cell_length al x)) ++ post) →
  seq_event_copy_flattened (p, 0) (b, n) (cell_length al x) h =
    (Ret tt, <[b := pre ++ cell al x ++ post]> h).
Proof.
  intros H Hoff -> Hb. destruct x as [e blob]. cbn [fst snd] in *.
  assert (Hok := proj1 (proj2 (proj1 H)) : c_ok e).
  pose proof (event_at_blob_ok _ _ _ _ H) as Hblob.
  pose proof (cell_length_bounds al (e, blob) Hok Hblob) as Hlen. cbn [fst snd] in Hlen.
  set (k := (Z.to_nat (cell_length al (e, blob)) - 28 - length blob)%nat).
  assert (zeros (Z.to_nat (cell_length al (e, blob))) =
    zeros 28 ++ zeros (length blob) ++ zeros k) as Ez.
  { unfold zeros. rewrite <- !replicate_add. f_equal. unfold k. lia. }
  rewrite Ez, <- !app_assoc in Hb.
  unfold cell. cbn [fst snd]. fold k. unfold seq_event_copy_flattened.
  assert (memcpy (b, Z.of_nat (length pre)) (p, 0) sizeof_event h = (Ret tt,
    <[b := pre ++ to_bytes e ++ zeros (length blob) ++ zeros k ++ post]> h)) as E1.
  { unfold memcpy. rewrite (bind_Ret _ _ _ (to_bytes e) h).
    - destruct (store_at h b pre (zeros 28) (zeros (length blob) ++ zeros k ++ post) (to_bytes e))
        as (h' & E & Hh & _); [done|by rewrite length_to_bytes_event|].
      by rewrite E, Hh.
    - apply load_at; [by apply boxed_at, H|by rewrite length_to_bytes_event]. }
  rewrite (bind_Ret _ _ _ _ _ E1).
  pose proof (event_at_insert h b (pre ++ to_bytes e ++ zeros (length blob) ++ zeros k ++ post)
    p (e, blob) Hoff H) as H1. cbn [fst snd] in H1.
  rewrite (bind_Ret _ _ _ _ _ (load_event_run _ p e (proj1 H1))).
  change (length_mode e =? _) with (variable e).
  unfold blob_ok in Hblob. destruct (variable e) eqn:Ev.
  2:{ subst blob. by rewrite <- !app_assoc. }
  pose proof (flattened_length_bounds e al Hok) as (_ & (Hle & _) & _).
  pose proof (flattened_length_false e Hok) as Ef. rewrite Ev in Ef.
  pose proof (ext_len_range e Hok) as [? ?].
  replace (_ <=? _) with true.
  2:{ symmetry. apply Z.leb_le. rewrite u64_id by (unfold is_u64, sizeof_event; lia).
      unfold cell_length in *. cbn [fst snd] in *. unfold sizeof_event in *. lia. }
  rewrite (bind_Ret _ _ _ tt (<[b := pre ++ to_bytes e ++ zeros (length blob) ++ zeros k ++ post]> h))
    by done.
  unfold memcpy. rewrite (bind_Ret _ _ _ blob (<[b := pre ++ to_bytes e ++ zeros (length blob) ++ zeros k ++ post]> h)).
  2:{ destruct H1 as [_ Ho]. rewrite Ev in Ho. destruct Ho as [Hl Ho].
      case_bool_decide as E0.
      - rewrite E0 in *. unfold load. by rewrite Hl.
      - apply load_at; [|done]. by apply at_ptr_block, Ho. }
  unfold p_add. cbn [fst snd].
  destruct (store_at (<[b := pre ++ to_bytes e ++ zeros (length blob) ++ zeros k ++ post]> h) b
    (pre ++ to_bytes e) (zeros (length blob)) (zeros k ++ post) blob) as (h' & E & Hh & Hh0).
  - rewrite lookup_insert_eq. by rewrite <- !app_assoc.
  - by rewrite length_zeros.
  - rewrite length_app, length_to_bytes_event, Nat2Z.inj_add in E by done.
    change (Z.of_nat 28) with sizeof_event in E. rewrite E. f_equal.
    destruct (decide (blob = [])) as [->|Hne].
    + rewrite Hh0 by done. by rewrite <- !app_assoc.
    + rewrite Hh by done. rewrite insert_insert_eq. by rewrite <- !app_assoc.
Qed.

Lemma copy_events_run h ps xs b pre al n :
  events_at h ps xs → Forall2 (off_event b) ps xs → n = Z.of_nat (length pre) →
  h !! b = Some (pre ++ zeros (Z.to_nat (sum_Z (cell_length al) xs))) →
  n + sum_Z (cell_length al) xs < 2 ^ 64 →
  ∃ h', copy_flattened_events (boxes ps) al b n h =
      (Ret (n + sum_Z (cell_length al) xs), h') ∧
    h' !! b = Some (pre ++ cells al xs) ∧ ∀ a, a ≠ b → h' !! a = h !! a.
Proof.
  revert h xs pre n. induction ps as [|p ps IH]; intros h xs pre n H Hoff Hn Hb Hlt.
  { inversion H; subst. exists h. split_and!; [|done..]. cbn. by rewrite Z.add_0_r. }
  inversion H as [|? x ? xs' Hx Hxs]; subst. inversion Hoff as [|? ? ? ? Ho Hos]; subst.
  cbn [sum_Z foldr] in *. fold (sum_Z (cell_length al) xs') in *.
  assert (c_ok x.1) as Hok by apply Hx.
  pose proof (event_at_blob_ok _ _ _ _ Hx) as Hbl.
  pose proof (cell_length_bounds al x Hok Hbl).
  pose proof (sum_cells_nonneg al xs' (events_ok h ps xs' Hxs)).
  set (rest := zeros (Z.to_nat (sum_Z (cell_length al) xs'))).
  assert (h !! b = Some (pre ++ zeros (Z.to_nat (cell_length al x)) ++ rest)) as Hb1.
  { rewrite Hb. do 2 f_equal. unfold rest, zeros. rewrite <- replicate_add. f_equal. lia. }
  set (h1 := <[b := pre ++ cell al x ++ rest]> h).
  destruct (IH h1 xs' (pre ++ cell al x) (Z.of_nat (length pre) + cell_length al x))
    as (h2 & E & Hb2 & Hf).
  - by apply events_at_insert.
  - done.
  - rewrite length_app, Nat2Z.inj_add, length_cell by done. done.
  - unfold h1. rewrite lookup_insert_eq. by rewrite <- app_assoc.
  - lia.
  - exists h2. split_and!.
    + cbn [boxes map copy_flattened_events]. rewrite (events_nonnull h p x Hx).
      rewrite (bind_Ret _ _ h tt h) by done.
      rewrite (bind_Ret _ _ _ _ _ (calculate_length_run h p x al Hx)).
      rewrite (bind_Ret _ _ _ tt h1).
      * rewrite u64_id by (unfold is_u64; lia). fold (boxes ps). by rewrite E, Z.add_assoc.
      * unfold void_call. by rewrite (copy_flattened_run h p x b pre rest al _ Hx Ho eq_refl Hb1).
    + rewrite Hb2. change (cells al (x :: xs')) with (cell al x ++ cells al xs').
      by rewrite app_assoc.
    + intros a Ha. rewrite Hf by done. unfold h1. by rewrite lookup_insert_ne.
Qed.
End serialize.

(** ** Deserialization *)

Section deserialize.
Context {AL : Allocator} {LAWS : AllocatorLaws}.
Implicit Types (h : heap) (p b : Z) (al : bool) (x : payload).

Lemma insert_fresh_mono h a (bs : list byte) : h !! a = None → h ⊆ <[a := bs]> h.
Proof. apply insert_subseteq. Qed.

(** The boxed copy of a flattened event, whatever the allocator answers. *)
Lemma boxed_copy_cases h self e blob :
  flat_at h self e blob →
  (∃ ev h', seq_event_copy self h = (Ret ev, h') ∧ boxed_from h' (e, blob) ev ∧ h ⊆ h') ∨
  (∃ h', seq_event_copy self h = (Oom, h')).
Proof.
  intros Hf. destruct (alloc_addr h 28) as [a|] eqn:Ha.
  2:{ right. exists h. unfold seq_event_copy, g_malloc0.
      change (sizeof_event =? 0) with false. cbv iota. unfold mbind at 1, M_bind at 1.
      change sizeof_event with 28. by rewrite Ha. }
  pose proof (copy_struct_run h self e a (at_ptr_app_l _ _ _ _ (proj1 Hf)) (proj1 (proj2 Hf)) Ha)
    as [E Hb].
  assert (∀ a2, allocates (<[a := to_bytes e]> h) (Z.of_nat (length blob)) a2 →
    ∃ ev h', seq_event_copy self h = (Ret ev, h') ∧ boxed_from h' (e, blob) ev ∧ h ⊆ h') as Hgo.
  { intros a2 Ha2. exists (a, 0), (<[a := to_bytes (boxed_copy a2 e)]> (add_block a2 blob h)).
    split; [by apply seq_event_copy_run|]. split.
    - exists a, (boxed_copy a2 e). split; [done|].
      split; [by eapply boxed_copy_at|]. unfold boxed_copy. cbn [fst].
      by destruct (variable e).
    - pose proof (alloc_fresh _ _ _ Ha) as Hn.
      destruct (allocates_bounds _ _ _ Ha2) as (_ & _ & Hfr). unfold add_block.
      case_bool_decide as Eb; [by apply insert_fresh_mono|].
      destruct Hfr as [_ Hn2]; [destruct blob; simpl; [done|lia]|].
      destruct (decide (a2 = a)) as [->|Hne]; [by rewrite lookup_insert_eq in Hn2|].
      rewrite lookup_insert_ne in Hn2 by done.
      etrans; [by apply (insert_fresh_mono h a2 blob)|]. apply insert_fresh_mono.
      by rewrite lookup_insert_ne. }
  destruct (decide (blob = [])) as [->|Hne]; [left; by apply (Hgo 0)|].
  destruct (alloc_addr (<[a := to_bytes e]> h) (Z.of_nat (length blob))) as [a2|] eqn:Ha2.
  - left. apply (Hgo a2). unfold allocates.
    destruct (Z.eqb_spec (Z.of_nat (length blob)) 0); [destruct blob; simpl in *; [done|lia]|done].
  - right. eexists. unfold seq_event_copy. cbv zeta. rewrite E.
    rewrite (bind_Ret _ _ _ _ _ (load_event_run _ a e Hb)).
    change (length_mode e =? _) with (variable e).
    destruct Hf as (_ & _ & Hv). destruct (variable e); [|done]. rewrite Hv.
    unfold g_malloc. destruct (Z.eqb_spec (Z.of_nat (length blob)) 0) as [E0|_];
      [destruct blob; simpl in *; [done|lia]|].
    unfold mbind, M_bind. rewrite Ha2. reflexivity.
Qed.

(** What one round of the loop finds, with [done] bytes read already. *)
Definition iter_at (b : Z) (bs : list byte) (al : bool) (off : nat) : seq_event_iter :=
  Iter b (Z.of_nat (length bs)) (Z.of_nat off) al.

Lemma iter_next_cell h b read bs e blob pad rest al :
  at_ptr h (b, 0) bs → b ≠ 0 → Z.of_nat (length bs) < 2 ^ 63 →
  bs = read ++ (to_bytes e ++ blob ++ pad) ++ rest → c_ok e → blob_ok e blob →
  Z.of_nat (length (to_bytes e ++ blob ++ pad)) = flattened_length e al →
  seq_event_iter_next (iter_at b bs al (length read)) h =
    (Ret (Some (b, Z.of_nat (length read)),
          iter_at b bs al (length (read ++ to_bytes e ++ blob ++ pad))), h) ∧
  flat_at h (b, Z.of_nat (length read)) e blob.
Proof.
  intros Hb Hb0 Hlt Hbs Hok Hblob Hl.
  assert (at_ptr h (b, Z.of_nat (length read)) (to_bytes e ++ blob)) as Hat.
  { rewrite Hbs, <- !app_assoc in Hb. apply at_ptr_app_r in Hb. rewrite app_assoc in Hb.
    by apply at_ptr_app_l in Hb. }
  assert (length bs = length read + length (to_bytes e ++ blob ++ pad) + length rest)%nat as Hlen
    by (rewrite Hbs, (length_app read), (length_app _ rest); lia).
  pose proof (proj1 (flattened_length_bounds e al Hok)) as [Hlo Hhi].
  split; [|by split].
  unfold seq_event_iter_next, iter_at. cbn [it_buf it_length it_offset it_aligned].
  destruct (Z.eqb_spec b 0); [done|].
  destruct (Z.ltb_spec (Z.of_nat (length read)) (Z.of_nat (length bs))); [|lia].
  rewrite (bind_Ret _ _ _ (flattened_length e al) h).
  2:{ unfold seq_event_calculate_flattened_length.
      by rewrite (bind_Ret _ _ _ _ _ (load_event_at h _ e (at_ptr_app_l _ _ _ _ Hat) Hok)). }
  rewrite u64_id by (unfold is_u64; lia).
  destruct (Z.leb_spec (Z.of_nat (length read) + flattened_length e al) (Z.of_nat (length bs)));
    [|lia].
  rewrite mret_run. do 3 f_equal. f_equal. rewrite (length_app read). lia.
Qed.

Lemma iter_next_stop h b read bs tail al :
  at_ptr h (b, 0) bs → b ≠ 0 → Z.of_nat (length bs) < 2 ^ 63 →
  bs = read ++ tail → layout al tail [] →
  seq_event_iter_next (iter_at b bs al (length read)) h =
    (Ret (None, iter_at b bs al (length read)), h).
Proof.
  intros Hb Hb0 Hlt Hbs Hlay.
  unfold seq_event_iter_next, iter_at. cbn [it_buf it_length it_offset it_aligned].
  destruct (Z.eqb_spec b 0); [done|].
  assert (length bs = length read + length tail)%nat as Hlen by (rewrite Hbs, length_app; lia).
  destruct (Z.ltb_spec (Z.of_nat (length read)) (Z.of_nat (length bs))); [|done].
  inversion Hlay as [E|e rest Hok Hc E|]; subst tail; [simpl in Hlen; lia|].
  assert (at_ptr h (b, Z.of_nat (length read)) (to_bytes e)) as Hat.
  { rewrite Hbs in Hb. apply at_ptr_app_r in Hb. by apply at_ptr_app_l in Hb. }
  rewrite (bind_Ret _ _ _ (flattened_length e al) h).
  2:{ unfold seq_event_calculate_flattened_length.
      by rewrite (bind_Ret _ _ _ _ _ (load_event_at h _ e Hat Hok)). }
  pose proof (proj1 (flattened_length_bounds e al Hok)) as [Hlo Hhi].
  rewrite u64_id by (unfold is_u64; lia).
  by destruct (Z.leb_spec (Z.of_nat (length read) + flattened_length e al) (Z.of_nat (length bs)));
    [lia|].
Qed.

(** The result of a loop that found the events [xs]. *)
Definition deserialized (h : heap) (acc : list ptr) (xs : list payload)
    (r : outcome (list ptr) * heap) : Prop :=
  (∃ evs h', r = (Ret (acc ++ evs), h') ∧ Forall2 (boxed_from h') xs evs ∧ h ⊆ h') ∨
  (∃ h', r = (Oom, h')).

Lemma deserialize_loop_run al tail xs :
  layout al tail xs → ∀ fuel h b read bs acc,
  at_ptr h (b, 0) bs → b ≠ 0 → Z.of_nat (length bs) < 2 ^ 63 → bs = read ++ tail →
  (length tail < 28 * fuel)%nat →
  deserialized h acc xs (deserialize_loop fuel (iter_at b bs al (length read)) acc h).
Proof.
  assert (∀ tl fuel h b read bs acc, layout al tl [] →
    at_ptr h (b, 0) bs → b ≠ 0 → Z.of_nat (length bs) < 2 ^ 63 → bs = read ++ tl →
    (length tl < 28 * fuel)%nat →
    deserialized h acc [] (deserialize_loop fuel (iter_at b bs al (length read)) acc h)) as Hstop.
  { intros tl fuel h b read bs acc Hlay Hb Hb0 Hlt Hbs Hf. destruct fuel as [|fuel]; [lia|].
    left. exists [], h. cbn [deserialize_loop].
    rewrite (bind_Ret _ _ _ _ _ (iter_next_stop h b read bs tl al Hb Hb0 Hlt Hbs Hlay)).
    split; [by rewrite app_nil_r|]. by split; [constructor|]. }
  induction 1 as [|e rest Hok Hc|e blob pad rest xs Hok Hbl Hl Hlay IH];
    intros fuel h b read bs acc Hb Hb0 Hlt Hbs Hf.
  - apply (Hstop []); [constructor|done..].
  - apply (Hstop (to_bytes e ++ rest)); [by constructor|done..].
  - destruct fuel as [|fuel]; [simpl in Hf; lia|].
    destruct (iter_next_cell h b read bs e blob pad rest al Hb Hb0 Hlt Hbs Hok Hbl Hl) as [E Hfl].
    cbn [deserialize_loop]. rewrite (bind_Ret _ _ _ _ _ E).
    destruct (boxed_copy_cases h _ e blob Hfl) as [(ev & h1 & E1 & Hbx & Hs)|(h1 & E1)].
    2:{ right. exists h1. unfold mbind, M_bind. by rewrite E1. }
    rewrite (bind_Ret _ _ _ _ _ E1).
    destruct (IH fuel h1 b (read ++ to_bytes e ++ blob ++ pad) bs (acc ++ [ev]))
      as [(evs & h2 & E2 & Hall & Hs2)|(h2 & E2)].
    + by eapply at_ptr_mono.
    + done.
    + done.
    + by rewrite <- app_assoc.
    + pose proof (proj1 (flattened_length_bounds e al Hok)) as [Hlo _].
      rewrite (length_app _ rest) in Hf. lia.
    + left. exists (ev :: evs), h2. split; [by rewrite E2, <- app_assoc|].
      split; [|by etrans]. constructor; [by eapply boxed_from_mono|done].
    + right. by exists h2.
Qed.

(** A container in memory; the events are at the start of its buffer. *)
Definition cntr_at (h : heap) (self : ptr) (c : event_cntr) (bs : list byte) : Prop :=
  at_ptr h self (to_bytes c) ∧ c_ok c ∧
  at_ptr h (cntr_buf c, 0) bs ∧ cntr_buf c ≠ 0 ∧ cntr_length c = Z.of_nat (length bs) ∧
  cntr_length c < 2 ^ 63.

Lemma load_cntr_at h self c :
  at_ptr h self (to_bytes c) → c_ok c → load_cntr self h = (Ret c, h).
Proof.
  intros Hat Hok. unfold load_cntr.
  erewrite bind_Ret by (eapply load_at; [done|by rewrite (length_to_bytes c)]).
  by rewrite mret_run, of_to_bytes.
Qed.

Lemma deserialize_run h self c bs xs acc :
  cntr_at h self c bs → layout (negb (cntr_aligned c =? 0)) bs xs →
  deserialized h acc xs (alsaseq_event_cntr_deserialize self acc h).
Proof.
  intros (Hat & Hok & Hb & Hb0 & Hl & Hlt) Hlay. unfold alsaseq_event_cntr_deserialize.
  rewrite (bind_Ret _ _ _ _ _ (load_cntr_at h self c Hat Hok)). rewrite Hl.
  apply (deserialize_loop_run _ bs xs Hlay _ h _ [] bs acc); [done..|lia|done|].
  unfold sizeof_event. pose proof (Z.mul_succ_div_gt (Z.of_nat (length bs)) 28 ltac:(lia)).
  pose proof (Z.div_pos (Z.of_nat (length bs)) 28). lia.
Qed.
End deserialize.
