(* ===== verification/SeqEventCntrProps.v ===== *)
(** * Properties of containers of events

    Events that cross the boundary to the kernel arrive: what is serialized is
    deserialized, a buffer the kernel fills is read within its bounds whatever
    is in it, and a copy of a container has a buffer of its own. *)
From S2P Require Import Prelude Heap SeqUapi SeqEvent SeqEventFacts SeqEventSamples.
From S2P Require Import SeqEventCntr SeqEventCntrFacts.

(** The container, its former buffer and the events are separate blocks. *)
Definition cntr_separate (h : heap) (self : ptr) (c : event_cntr) (ps : list Z)
    (xs : list payload) : Prop :=
  p_addr self ≠ 0 ∧ Forall2 (off_event self.1) ps xs ∧
  (cntr_buf c ≠ 0 →
     0 < cntr_buf c ∧ cntr_buf c ≠ self.1 ∧ is_Some (h !! cntr_buf c) ∧
     Forall2 (off_event (cntr_buf c)) ps xs).

Section lemmas.
Context {AL : Allocator} {LAWS : AllocatorLaws}.
Implicit Types (h : heap) (p b : Z) (al : bool).

Lemma fresh_off_all h b ps xs :
  events_at h ps xs → h !! b = None → Forall2 (off_event b) ps xs.
Proof.
  intros H Hb. eapply Forall2_impl; [exact H|]. intros p x Hx. by apply (fresh_off h).
Qed.

Lemma events_at_agree h h' ps xs :
  events_at h ps xs → (∀ b, h !! b ≠ h' !! b → Forall2 (off_event b) ps xs) →
  events_at h' ps xs.
Proof.
  intros H Hd. induction H as [|p x ps xs Hx Hxs IH]; [constructor|].
  assert (∀ b, h !! b ≠ h' !! b → off_event b p x ∧ Forall2 (off_event b) ps xs) as Hd'.
  { intros b Hb. specialize (Hd b Hb). by inversion Hd. }
  constructor; [|apply IH; intros b Hb; by apply Hd'].
  assert (∀ b, (off_event b p x → False) → h' !! b = h !! b) as Hk.
  { intros b Hb. destruct (decide (h !! b = h' !! b)) as [E|Hne]; [by rewrite E|].
    destruct Hb. by apply Hd'. }
  destruct Hx as [(Hp & Hr) Ho]. split.
  - split; [|done]. rewrite Hk; [done|]. by intros [? _].
  - destruct (variable x.1) eqn:Ev; [|done]. destruct Ho as [Hl Ho]. split; [done|].
    case_bool_decide as E; [done|]. destruct Ho as (?&?&?&?). split_and!; try done.
    rewrite Hk; [done|]. intros [_ Hf]. by apply Hf.
Qed.

(** The former buffer is freed, the structure refers to the new one. *)
Lemma replace_buffer_run h self c n b al ps xs :
  at_ptr h self (to_bytes c) → c_ok c → events_at h ps xs → cntr_separate h self c ps xs →
  is_u64 b → is_u64 n →
  ∃ h', (c ← load_cntr self; g_free (cntr_buf c);;
         update_cntr self (λ c, EventCntr b n (Z.b2z al) (cntr_pad c))) h = (Ret tt, h') ∧
    at_ptr h' self (to_bytes (EventCntr b n (Z.b2z al) (cntr_pad c))) ∧
    events_at h' ps xs ∧
    (cntr_buf c ≠ 0 → h' !! cntr_buf c = None) ∧
    (∀ a, a ≠ self.1 → a ≠ cntr_buf c ∨ cntr_buf c = 0 → h' !! a = h !! a).
Proof.
  intros Hat Hok Hev (Hself & Hoff & Hbuf) Hb Hn.
  rewrite (bind_Ret _ _ _ _ _ (load_cntr_at h self c Hat Hok)).
  set (h1 := if cntr_buf c =? 0 then h else delete (cntr_buf c) h).
  assert (g_free (cntr_buf c) h = (Ret tt, h1)) as Ef.
  { unfold h1. destruct (Z.eqb_spec (cntr_buf c) 0) as [->|Hne]; [done|].
    destruct (Hbuf Hne) as (? & _ & [old ?] & _). by eapply g_free_block. }
  rewrite (bind_Ret _ _ _ _ _ Ef).
  assert (at_ptr h1 self (to_bytes c)) as Hat1.
  { unfold h1. destruct (Z.eqb_spec (cntr_buf c) 0) as [->|Hne]; [done|].
    apply at_ptr_delete; [by apply Hbuf|done]. }
  unfold update_cntr. rewrite (bind_Ret _ _ _ _ _ (load_cntr_at h1 self c Hat1 Hok)).
  set (c' := EventCntr b n (Z.b2z al) (cntr_pad c)).
  assert (c_ok c') as Hok'.
  { destruct Hok as (_ & _ & _ & Hp). split_and!; [done..| |done]. by destruct al. }
  destruct (store_ptr h1 self (to_bytes c) (to_bytes c') Hat1) as (h2 & E & Hat2 & Hf);
    [by rewrite !length_to_bytes|done|].
  assert (∀ a, a ≠ self.1 → a ≠ cntr_buf c ∨ cntr_buf c = 0 → h2 !! a = h !! a) as Hfr.
  { intros a Ha Hc. rewrite Hf by done. unfold h1.
    destruct (Z.eqb_spec (cntr_buf c) 0); [done|]. rewrite lookup_delete_ne; [done|lia]. }
  exists h2. split_and!; [exact E|exact Hat2| | |exact Hfr].
  - eapply events_at_agree; [exact Hev|]. intros a Ha.
    destruct (decide (a = self.1)) as [->|Hne]; [done|].
    destruct (decide (cntr_buf c = 0)) as [Hz|Hz].
    { destruct Ha. symmetry. apply Hfr; [done|by right]. }
    destruct (decide (a = cntr_buf c)) as [->|Hne2]; [by apply Hbuf|].
    destruct Ha. symmetry. apply Hfr; [done|by left].
  - intros Hne. destruct (Hbuf Hne) as (_ & Hs & _). rewrite Hf by done. unfold h1.
    destruct (Z.eqb_spec (cntr_buf c) 0); [done|]. apply lookup_delete_eq.
Qed.

Lemma serialize_run h self c ps xs al b :
  at_ptr h self (to_bytes c) → c_ok c → events_at h ps xs → ps ≠ [] →
  cntr_separate h self c ps xs →
  sum_Z (cell_length al) xs < 2 ^ 63 →
  alloc_addr h (sum_Z (cell_length al) xs) = Some b →
  ∃ h' c', seq_event_cntr_serialize self (boxes ps) al h = (Ret tt, h') ∧
    cntr_at h' self c' (cells al xs) ∧ h' !! b = Some (cells al xs) ∧
    cntr_buf c' = b ∧ cntr_aligned c' = Z.b2z al ∧
    events_at h' ps xs ∧
    (cntr_buf c ≠ 0 → h' !! cntr_buf c = None) ∧
    (∀ a, a ≠ self.1 → a ≠ cntr_buf c ∨ cntr_buf c = 0 → a ≠ b → h' !! a = h !! a).
Proof.
  intros Hat Hok Hev Hne Hsep Hlt Ha.
  set (n := sum_Z (cell_length al) xs) in *.
  pose proof (events_ok h ps xs Hev) as Hoks.
  assert (28 ≤ n) as Hn.
  { unfold n. destruct Hev as [|p x ps xs Hx Hxs]; [done|].
    inversion Hoks as [|? ? [? ?] Hoks']; subst.
    pose proof (cell_length_bounds al x ltac:(done) ltac:(done)).
    pose proof (sum_cells_nonneg al xs Hoks'). cbn [sum_Z foldr]. fold (sum_Z (cell_length al) xs).
    lia. }
  pose proof (alloc_fresh _ _ _ Ha) as Hfresh. pose proof (alloc_nonnull _ _ _ Ha) as Hb.
  assert (b ≠ self.1) as Hbs.
  { intros ->. destruct Hat as (? & ? & E & _). congruence. }
  assert (cntr_buf c ≠ 0 → b ≠ cntr_buf c) as Hbc.
  { intros H0 ->. destruct Hsep as (_ & _ & Hs). destruct (Hs H0) as (_ & _ & [? ?] & _). congruence. }
  set (h1 := <[b := zeros (Z.to_nat n)]> h).
  pose proof (fresh_off_all h b ps xs Hev Hfresh) as Hoff.
  pose proof (events_at_insert h b (zeros (Z.to_nat n)) ps xs Hoff Hev) as Hev1. fold h1 in Hev1.
  destruct (copy_events_run h1 ps xs b [] al 0 Hev1 Hoff eq_refl) as (h2 & E2 & Hb2 & Hf2);
    [apply lookup_insert_eq|lia|].
  rewrite Z.add_0_l in E2. fold n in E2. cbn [app] in Hb2.
  assert (∀ a, a ≠ b → h2 !! a = h !! a) as Hf2'.
  { intros a Hab. rewrite Hf2 by done. by apply lookup_insert_ne. }
  assert (events_at h2 ps xs) as Hev2.
  { eapply events_at_agree; [exact Hev|]. intros a Hd. destruct (decide (a = b)) as [->|Hab]; [done|].
    by rewrite Hf2' in Hd. }
  assert (at_ptr h2 self (to_bytes c)) as Hat2.
  { destruct Hat as (pre & post & E & Hp). exists pre, post. by rewrite Hf2'. }
  destruct (replace_buffer_run h2 self c n b al ps xs Hat2 Hok Hev2) as (h3 & E3 & Hat3 & Hev3 & Hd3 & Hf3).
  { destruct Hsep as (? & ? & Hs). split_and!; [done..|]. intros Hz.
    destruct (Hs Hz) as (? & ? & ? & ?). split_and!; try done.
    rewrite Hf2'; [done|]. by apply not_eq_sym, Hbc. }
  { unfold is_u64. lia. }
  { unfold is_u64. lia. }
  exists h3, (EventCntr b n (Z.b2z al) (cntr_pad c)).
  assert (h3 !! b = Some (cells al xs)) as Hb3.
  { rewrite Hf3; [done..|]. destruct (decide (cntr_buf c = 0)); [by right|left; by apply Hbc]. }
  split_and!; [| |exact Hb3|done|done|exact Hev3|exact Hd3|].
  - unfold seq_event_cntr_serialize.
    rewrite (bind_Ret _ _ h tt h).
    2:{ destruct (Z.eqb_spec (p_addr self) 0); [by destruct Hsep|done]. }
    rewrite (bind_Ret _ _ h tt h).
    2:{ rewrite bool_decide_true; [done|]. by destruct ps. }
    rewrite (bind_Ret _ _ _ _ _ (total_length_run h ps xs al 0 Hev ltac:(lia) ltac:(lia))).
    rewrite Z.add_0_l. fold n. destruct (Z.eqb_spec n 0); [lia|].
    rewrite (bind_Ret _ _ _ _ _ (g_malloc0_some h n b ltac:(lia) Ha)). fold h1.
    rewrite (bind_Ret _ _ _ _ _ E2).
    rewrite (bind_Ret _ _ h2 tt h2) by by rewrite Z.eqb_refl.
    exact E3.
  - split; [done|]. destruct Hok as (_ & _ & _ & Hp).
    split; [split_and!; [unfold is_u64; cbn; lia|unfold is_u64; cbn; lia|by destruct al|done]|].
    cbn [cntr_buf cntr_length]. split_and!; [by apply at_ptr_block|lia|by rewrite length_cells|done].
  - intros a Ha1 Ha2 Ha3. rewrite Hf3 by eauto. by apply Hf2'.
Qed.
(** The copy allocates the structure and then the buffer. *)
Lemma cntr_copy_run h s c bs a b :
  h !! s = Some (to_bytes c) → c_ok c →
  h !! cntr_buf c = Some bs → cntr_length c = Z.of_nat (length bs) → bs ≠ [] →
  alloc_addr h 24 = Some a →
  alloc_addr (<[a := to_bytes c]> h) (cntr_length c) = Some b →
  seq_event_cntr_copy (s, 0) h = (Ret (a, 0),
    <[b := bs]> (<[a := to_bytes (EventCntr b (cntr_length c) (cntr_aligned c) (cntr_pad c))]> h)).
Proof.
  intros Hs Hok Hb Hl Hne Ha Hab.
  pose proof (alloc_fresh _ _ _ Ha) as Hfa. pose proof (alloc_fresh _ _ _ Hab) as Hfb.
  pose proof (alloc_nonnull _ _ _ Hab) as Hbn.
  set (c' := EventCntr b (cntr_length c) (cntr_aligned c) (cntr_pad c)).
  assert (a ≠ s) as Has by congruence. assert (a ≠ cntr_buf c) as Hac by congruence.
  assert (b ≠ a) as Hba by (intros ->; by rewrite lookup_insert_eq in Hfb).
  rewrite lookup_insert_ne in Hfb by done.
  assert (b ≠ s) as Hbs by congruence. assert (b ≠ cntr_buf c) as Hbc by congruence.
  assert (length (to_bytes c) = 24%nat) as L by exact (length_to_bytes c Hok).
  assert (c_ok c') as Hok'.
  { destruct Hok as (_&?&?&?). split_and!; try done; cbn; unfold is_u64; lia. }
  assert (0 < length bs)%nat as Hlen by (destruct bs; simpl; [done|lia]).
  unfold seq_event_cntr_copy. cbv zeta.
  rewrite (bind_Ret _ _ _ _ _ (g_malloc0_some h 24 a ltac:(lia) Ha)).
  rewrite (bind_Ret _ _ _ tt (<[a := to_bytes c]> h)).
  2:{ unfold memcpy. erewrite bind_Ret.
      2:{ apply (load_at _ _ (to_bytes c)); [|by rewrite L].
          apply at_ptr_insert; [done|]. by apply at_ptr_block. }
      rewrite (store_block _ _ (zeros 24)); [by rewrite insert_insert_eq|apply lookup_insert_eq|
        by rewrite L|done]. }
  rewrite (bind_Ret _ _ _ c (<[a := to_bytes c]> h)).
  2:{ apply load_cntr_at; [|done]. apply at_ptr_block. by rewrite lookup_insert_ne. }
  rewrite (bind_Ret _ _ _ _ _ (g_malloc0_some _ (cntr_length c) b ltac:(lia) Hab)).
  rewrite Hl, Nat2Z.id.
  rewrite (bind_Ret _ _ _ tt (<[a := to_bytes c']> (<[b := zeros (length bs)]> h))).
  2:{ unfold update_cntr. erewrite bind_Ret.
      2:{ apply (load_cntr_at _ _ c); [|done]. apply at_ptr_block.
          rewrite lookup_insert_ne by done. apply lookup_insert_eq. }
      rewrite (store_block _ _ (to_bytes c)).
      - unfold c'. rewrite (insert_insert_ne _ a b), insert_insert_eq by done.
        by rewrite (insert_insert_ne _ a b).
      - rewrite lookup_insert_ne by done. apply lookup_insert_eq.
      - by rewrite L.
      - done. }
  rewrite (bind_Ret _ _ _ tt (<[b := bs]> (<[a := to_bytes c']> h))); [done|].
  unfold memcpy. rewrite (bind_Ret _ _ _ bs (<[a := to_bytes c']> (<[b := zeros (length bs)]> h))).
  - rewrite (store_block _ _ (zeros (length bs))).
    + rewrite (insert_insert_ne _ b a) by done. by rewrite insert_insert_eq, (insert_insert_ne _ a b).
    + rewrite lookup_insert_ne by done. apply lookup_insert_eq.
    + apply length_zeros.
    + done.
  - apply load_at; [|done]. apply at_ptr_block. by rewrite !lookup_insert_ne.
Qed.

(** The release of a container that owns its buffer. *)
Lemma cntr_free_run h s c bs :
  h !! s = Some (to_bytes c) → c_ok c → 0 < s → s ≠ cntr_buf c →
  h !! cntr_buf c = Some bs → 0 < cntr_buf c →
  seq_event_cntr_free (s, 0) h = (Ret tt, delete s (delete (cntr_buf c) h)).
Proof.
  intros Hs Hok Hs0 Hne Hb Hb0. unfold seq_event_cntr_free.
  rewrite (bind_Ret _ _ _ c h) by (by apply load_cntr_at, Hok; apply at_ptr_block).
  rewrite (bind_Ret _ _ _ _ _ (g_free_block h (cntr_buf c) bs Hb0 Hb)).
  unfold p_addr. cbn [fst snd]. rewrite Z.add_0_r.
  apply (g_free_block _ _ (to_bytes c)); [done|]. by rewrite lookup_delete_ne.
Qed.
End lemmas.

Section props.
Context {AL : Allocator} {LAWS : AllocatorLaws}.
Implicit Types (h : heap) (p b : Z) (al : bool).

(** Serializing a non-empty list of boxed events replaces the buffer of
    the container by a new one that holds the cells of the events one after
    the other, each with its blob behind the structure and, in the aligned
    layout, zero padding up to a multiple of the structure; the former buffer
    is freed, the events are as they were and no other block changes. *)
Theorem cntr_serialize_spec h self c ps xs al b :
  at_ptr h self (to_bytes c) → c_ok c → events_at h ps xs → ps ≠ [] →
  cntr_separate h self c ps xs →
  sum_Z (cell_length al) xs < 2 ^ 63 →
  alloc_addr h (sum_Z (cell_length al) xs) = Some b →
  ∃ h' c', seq_event_cntr_serialize self (boxes ps) al h = (Ret tt, h') ∧
    cntr_at h' self c' (cells al xs) ∧ h' !! b = Some (cells al xs) ∧
    cntr_buf c' = b ∧ cntr_aligned c' = Z.b2z al ∧
    events_at h' ps xs ∧
    (cntr_buf c ≠ 0 → h' !! cntr_buf c = None) ∧
    (∀ a, a ≠ self.1 → a ≠ cntr_buf c ∨ cntr_buf c = 0 → a ≠ b → h' !! a = h !! a).
Proof. apply serialize_run. Qed.

(** C3: the events deserialized from a container are the events serialized
    to it, in both layouts: as many, in order, each a new well-formed boxed
    event with the same header, length mode and data, and with an own copy of
    the blob.  Only the allocator can keep the call from succeeding. *)
Theorem cntr_roundtrip h self c ps xs al b :
  at_ptr h self (to_bytes c) → c_ok c → events_at h ps xs → ps ≠ [] →
  cntr_separate h self c ps xs →
  sum_Z (cell_length al) xs < 2 ^ 63 →
  alloc_addr h (sum_Z (cell_length al) xs) = Some b →
  ∃ h', seq_event_cntr_serialize self (boxes ps) al h = (Ret tt, h') ∧
    deserialized h' [] xs (alsaseq_event_cntr_deserialize self [] h').
Proof.
  intros Hat Hok Hev Hne Hsep Hlt Ha.
  destruct (serialize_run h self c ps xs al b Hat Hok Hev Hne Hsep Hlt Ha)
    as (h' & c' & E & Hc & _ & _ & Hal & _).
  exists h'. split; [exact E|]. eapply deserialize_run; [exact Hc|].
  replace (negb (cntr_aligned c' =? 0)) with al by (rewrite Hal; by destruct al).
  apply cells_layout. by eapply events_ok.
Qed.

(** C29: a container in the aligned layout can be read whatever its buffer
    holds: when the buffer is a whole number of structures, deserializing
    ends, stays inside of the buffer, finds at most one event for each
    structure, and gives well-formed events (or the allocator ends the
    process).  No length an event claims makes the iterator leave the
    buffer. *)
Theorem cntr_deserialize_aligned_safe h self c bs n acc :
  cntr_at h self c bs → cntr_aligned c ≠ 0 → length bs = (28 * n)%nat →
  ∃ xs, (length xs ≤ n)%nat ∧ layout true bs xs ∧
    deserialized h acc xs (alsaseq_event_cntr_deserialize self acc h).
Proof.
  intros Hc Hal Hl. destruct (aligned_layout_total bs n Hl) as (xs & Hlay & Hn).
  exists xs. split_and!; [done|done|]. eapply deserialize_run; [exact Hc|].
  by destruct (Z.eqb_spec (cntr_aligned c) 0).
Qed.

(** A container whose buffer ends within the header of an event is read
    past its end: the iterator asks for the length of the event before it
    knows that the structure is in the buffer. *)
Theorem cntr_truncated_header_out_of_bounds h self c bs acc :
  cntr_at h self c bs → h !! cntr_buf c = Some bs → (0 < length bs < 28)%nat →
  alsaseq_event_cntr_deserialize self acc h = (UB, h).
Proof.
  intros (Hat & Hok & _ & Hb0 & Hl & Hlt) Hb Hbs. unfold alsaseq_event_cntr_deserialize.
  rewrite (bind_Ret _ _ _ _ _ (load_cntr_at h self c Hat Hok)). cbn [deserialize_loop].
  apply bind_UB. unfold seq_event_iter_next, seq_event_iter_init.
  cbn [it_buf it_length it_offset it_aligned].
  destruct (Z.eqb_spec (cntr_buf c) 0); [done|].
  destruct (Z.ltb_spec 0 (cntr_length c)); [|lia].
  apply bind_UB, bind_UB, bind_UB.
  apply (load_out _ _ bs); [done|done|]. cbn [snd]. unfold sizeof_event. lia.
Qed.

(** The boxed copy of a container has its own structure and its own
    buffer with the same bytes, and both the source and the copy can be
    released, each once. *)
Theorem cntr_copy_independent h s c bs a b :
  cntr_at h (s, 0) c bs → h !! s = Some (to_bytes c) → h !! cntr_buf c = Some bs →
  0 < s → s ≠ cntr_buf c → 0 < cntr_buf c → bs ≠ [] →
  alloc_addr h 24 = Some a →
  alloc_addr (<[a := to_bytes c]> h) (cntr_length c) = Some b →
  ∃ h' c', seq_event_cntr_copy (s, 0) h = (Ret (a, 0), h') ∧
    cntr_at h' (a, 0) c' bs ∧ cntr_buf c' = b ∧ cntr_aligned c' = cntr_aligned c ∧
    cntr_at h' (s, 0) c bs ∧ NoDup [a; b; s; cntr_buf c] ∧
    seq_event_cntr_free (s, 0) h' = (Ret tt, delete s (delete (cntr_buf c) h')) ∧
    seq_event_cntr_free (a, 0) h' = (Ret tt, h).
Proof.
  intros (Hat & Hok & _ & Hb0 & Hl & Hlt) Hs Hb Hs0 Hsb Hb1 Hne Ha Hab.
  pose proof (cntr_copy_run h s c bs a b Hs Hok Hb Hl Hne Ha Hab) as E.
  pose proof (alloc_fresh _ _ _ Ha) as Hfa. pose proof (alloc_fresh _ _ _ Hab) as Hfb.
  pose proof (alloc_nonnull _ _ _ Ha). pose proof (alloc_nonnull _ _ _ Hab).
  assert (b ≠ a) as Hba by (intros ->; by rewrite lookup_insert_eq in Hfb).
  rewrite lookup_insert_ne in Hfb by done.
  set (c' := EventCntr b (cntr_length c) (cntr_aligned c) (cntr_pad c)) in *.
  assert (c_ok c') as Hok'.
  { destruct Hok as (_&?&?&?). split_and!; try done; cbn; unfold is_u64; lia. }
  set (h' := <[b := bs]> (<[a := to_bytes c']> h)) in *.
  assert (h' !! a = Some (to_bytes c')) as Ea
    by (unfold h'; rewrite lookup_insert_ne by done; apply lookup_insert_eq).
  assert (h' !! b = Some bs) as Eb by apply lookup_insert_eq.
  assert (∀ x y, h !! x = Some y → h' !! x = Some y) as Hk.
  { intros x y Hx. unfold h'. by rewrite !lookup_insert_ne by congruence. }
  exists h', c'. split_and!; [exact E| |done|done| | | |].
  - split; [by apply at_ptr_block|]. by split_and!; [done|by apply at_ptr_block|cbn; lia|done|done].
  - split; [by apply at_ptr_block, Hk|]. by split_and!; [done|by apply at_ptr_block, Hk|..].
  - repeat constructor; rewrite ?list_elem_of_In; cbn [In]; intuition congruence.
  - eapply cntr_free_run; [by apply Hk|done..|by apply Hk|done].
  - rewrite (cntr_free_run h' a c' bs); [|done|done|lia|cbn; lia|done|cbn; lia].
    f_equal. unfold h'. cbn [c' cntr_buf]. rewrite delete_insert_id.
    + by rewrite delete_insert_id.
    + by rewrite lookup_insert_ne.
Qed.
End props.

(** ** Concrete runs *)

Module CntrWitness.
#[local] Existing Instance Bump.allocator.
#[local] Existing Instance Bump.laws.

(** The sample events with an empty container at 2048. *)
Definition empty : event_cntr := zero_cntr.
Definition process : heap := <[2048 := to_bytes empty]> memory.
Definition sources : list Z := [128; 64].
Definition payloads : list payload := [(sysex, blob); (noteon, [])].

Lemma sources_at : events_at process sources payloads.
Proof.
  constructor; [|constructor; [|constructor]].
  - apply (event_at_insert memory 2048 _ 128 (sysex, blob)); [|apply sysex_at].
    by split.
  - apply (event_at_insert memory 2048 _ 64 (noteon, [])); [|apply noteon_at].
    by split.
Defined.

Lemma empty_at : at_ptr process (2048, 0) (to_bytes empty).
Proof. by apply at_ptr_block. Defined.

Lemma empty_ok : c_ok empty.
Proof. by split_and!. Defined.

Lemma empty_separate : cntr_separate process (2048, 0) empty sources payloads.
Proof. split_and!; [done| |done]. by repeat constructor. Defined.

Lemma cntr_serialize_spec_witness :
  ∃ h' c', seq_event_cntr_serialize (2048, 0) (boxes sources) true process = (Ret tt, h') ∧
    cntr_at h' (2048, 0) c' (cells true payloads).
Proof.
  destruct (cntr_serialize_spec process (2048, 0) empty sources payloads true 4128)
    as (h' & c' & E & Hc & _);
    [apply empty_at|apply empty_ok|apply sources_at|done|apply empty_separate
    |by vm_compute|by vm_compute|].
  exists h', c'. exact (conj E Hc).
Defined.

Lemma cntr_roundtrip_witness :
  ∃ h', seq_event_cntr_serialize (2048, 0) (boxes sources) false process = (Ret tt, h') ∧
    deserialized h' [] payloads (alsaseq_event_cntr_deserialize (2048, 0) [] h').
Proof.
  apply (cntr_roundtrip process (2048, 0) empty sources payloads false 4128);
    [apply empty_at|apply empty_ok|apply sources_at|done|apply empty_separate
    |by vm_compute|by vm_compute].
Defined.

(** A buffer of 56 bytes that are no event anybody wrote: the type is 204 and
    the length mode is neither of the four. *)
Definition garbage : list byte := replicate 56 Byte.xcc.
Definition holding (len al : Z) : event_cntr := EventCntr 8192 len al (zeros 4).
Definition filled (bs : list byte) (al : Z) : heap :=
  {[8192 := bs; 2048 := to_bytes (holding (Z.of_nat (length bs)) al)]}.

Lemma filled_at bs al :
  is_i32 al → Z.of_nat (length bs) < 2 ^ 63 →
  cntr_at (filled bs al) (2048, 0) (holding (Z.of_nat (length bs)) al) bs.
Proof.
  intros Hal Hl. split; [by apply at_ptr_block|].
  split; [split_and!; [done|cbn; unfold is_u64; lia|done|done]|].
  split_and!; [apply at_ptr_block, lookup_insert_eq|done..].
Defined.

Lemma cntr_deserialize_aligned_safe_witness :
  ∃ xs, (length xs ≤ 2)%nat ∧ layout true garbage xs ∧
    deserialized (filled garbage 1) [] xs
      (alsaseq_event_cntr_deserialize (2048, 0) [] (filled garbage 1)).
Proof.
  apply (cntr_deserialize_aligned_safe (filled garbage 1) (2048, 0) (holding 56 1) garbage 2);
    [apply (filled_at garbage 1); done|done|done].
Defined.

Lemma cntr_truncated_header_out_of_bounds_witness :
  alsaseq_event_cntr_deserialize (2048, 0) [] (filled [Byte.x00] 0) =
    (UB, filled [Byte.x00] 0).
Proof.
  apply (cntr_truncated_header_out_of_bounds _ (2048, 0) (holding 1 0) [Byte.x00]);
    [apply (filled_at [Byte.x00] 0); done|done|simpl; lia].
Defined.

Lemma cntr_copy_independent_witness :
  ∃ h', seq_event_cntr_copy (2048, 0) (filled garbage 1) = (Ret (8272, 0), h') ∧
    seq_event_cntr_free (8272, 0) h' = (Ret tt, filled garbage 1).
Proof.
  destruct (cntr_copy_independent (filled garbage 1) 2048 (holding 56 1) garbage 8272 8320)
    as (h' & c' & E & _ & _ & _ & _ & _ & _ & Ef);
    [apply (filled_at garbage 1); done|done..|by vm_compute|by vm_compute|].
  exists h'. exact (conj E Ef).
Defined.
End CntrWitness.
