(* ===== verification/SeqQuery.v ===== *)
(** * Queries of the sequencer: [src/src/seq/query.c]

    Each query opens the character device of the sequencer, sends requests
    and closes it.  Information is returned in new objects, whose private
    structure is a block of the heap; lists of numbers are arrays of the heap. *)
From S2P Require Import Prelude Heap SeqUapi Struct Kernel SeqStructs Sysfs.

Section query.
Context {AL : Allocator} {GL : GLib} {K : Type} {KERN : Kernel K} {UD : Udev K}.

(** *** Names of the device *)

Definition alsaseq_get_seq_sysname : M (world K) string :=
  r ← lookup_and_allocate_sysname_by_sysname "seq";
  match r with
  | Serr e => generate_file_error e "Fail to generate seq sysname"
  | Sret s => mret s
  end.

Definition alsaseq_get_seq_devnode : M (world K) string :=
  r ← lookup_and_allocate_devname_by_sysname "seq";
  match r with
  | Serr e => generate_file_error e "Fail to generate seq devname"
  | Sret s => mret s
  end.

(** When the node is not known the function returns -1, which is no FALSE for
    its callers, and leaves [fd] unwritten: [None]. *)
Definition open_fd : M (world K) (option Z) :=
  devname ← catch alsaseq_get_seq_devnode;
  match devname with
  | inr _ => mret None
  | inl devname =>
      fd ← do_open devname O_RDONLY;
      match fd with
      | Serr e => generate_file_error e "open"
      | Sret fd => mret (Some fd)
      end
  end.

(** *** Information on one object *)

(** The queries that make an object, fill in its structure of [n] bytes with
    [fill] and send one request; the object is released on failure. *)
Definition query_object (n : Z) (fill : ptr → M (world K) unit) (req : request) (what : string) :
    M (world K) ptr :=
  fd ← open_fd;
  info ← g_object_new n;
  fill info;;
  fd ← initialized fd;
  r ← ioctl_mem fd req info n;
  match r with
  | Serr e =>
      g_object_unref info;; do_close fd;; generate_file_error e what
  | Sret _ => do_close fd;; mret info
  end.

Definition alsaseq_get_system_info : M (world K) ptr :=
  fd ← open_fd;
  info ← g_object_new sizeof_system_info;
  fd ← initialized fd;
  r ← ioctl_mem fd SEQ_SYSTEM_INFO info sizeof_system_info;
  match r with
  | Serr e =>
      g_object_unref info;; do_close fd;; generate_file_error e "ioctl(SYSTEM_INFO)"
  | Sret _ =>
      n ← get_field info sizeof_system_info sys_cur_clients;
      set_field info sizeof_system_info sys_cur_clients (n - 1);;
      do_close fd;; mret info
  end.

Definition alsaseq_get_client_info (client_id : Z) : M (world K) ptr :=
  query_object sizeof_client_info
    (λ info, set_field info sizeof_client_info ci_client client_id)
    SEQ_GET_CLIENT_INFO "ioctl(GET_CLIENT_INFO)".

Definition alsaseq_get_port_info (client_id port_id : Z) : M (world K) ptr :=
  query_object sizeof_port_info
    (λ info,
       set_field info sizeof_port_info pi_addr_client client_id;;
       set_field info sizeof_port_info pi_addr_port port_id)
    SEQ_GET_PORT_INFO "ioctl(GET_PORT_INFO)".

Definition alsaseq_get_client_pool (client_id : Z) : M (world K) ptr :=
  query_object sizeof_client_pool
    (λ pool, set_field pool sizeof_client_pool pool_client client_id)
    SEQ_GET_CLIENT_POOL "ioctl(GET_CLIENT_POOL)".

Definition alsaseq_get_queue_info_by_id (queue_id : Z) : M (world K) ptr :=
  query_object sizeof_queue_info
    (λ info, set_field info sizeof_queue_info qi_queue queue_id)
    SEQ_GET_QUEUE_INFO "ioctl(GET_QUEUE_INFO)".

Definition alsaseq_get_queue_info_by_name (name : string) : M (world K) ptr :=
  query_object sizeof_queue_info
    (λ info,
       dst ← mem (load (p_add info (Z.of_nat qi_name)) 64);
       mem (store (p_add info (Z.of_nat qi_name)) (g_strlcpy name dst)))
    SEQ_GET_NAMED_QUEUE "ioctl(GET_NAMED_QUEUE)".

(** The object is the caller's. *)
Definition alsaseq_get_queue_status (queue_id : Z) (status : ptr) : M (world K) unit :=
  fd ← open_fd;
  set_field status sizeof_queue_status qs_queue queue_id;;
  fd ← initialized fd;
  r ← ioctl_mem fd SEQ_GET_QUEUE_STATUS status sizeof_queue_status;
  do_close fd;;
  match r with
  | Serr e => generate_file_error e "ioctl(GET_QUEUE_STATUS)"
  | Sret _ => mret tt
  end.

(** *** Lists of numbers *)

(** [g_malloc0_n (count, size)] *)
Definition g_malloc0_n (count size : Z) : M (world K) Z :=
  if count * size <? 2 ^ 64 then mem (g_malloc0 (count * size)) else oom.

Definition list_put (arr index v : Z) : M (world K) unit :=
  mem (store (arr, index) (le_split 1 v)).

(** The loop over the clients ends at [count] of them or when there is no
    next one; a failure that is not [ENOENT] is returned.  [fuel] bounds the
    number of requests; a loop that needs more counts as undefined. *)
Fixpoint query_next_clients (fuel : nat) (fd my_id count arr index : Z) (info : list byte) :
    M (world K) (Z + Z) :=
  match fuel with
  | O => ub
  | S fuel =>
      if index <? count then
        '(r, info) ← ioctl_val fd SEQ_QUERY_NEXT_CLIENT info;
        match r with
        | Serr e => if e =? ENOENT then mret (inl index) else mret (inr e)
        | Sret _ =>
            if fget ci_client info =? my_id
            then query_next_clients fuel fd my_id count arr index info
            else
              list_put arr index (fget ci_client info);;
              query_next_clients fuel fd my_id count arr (index + 1) info
        end
      else mret (inl index)
  end.

(** More than the numbers of clients there are, 0 to 191. *)
Definition client_fuel : nat := 194.

(** The array and its length; [None] for an empty list, whose array is not
    written. *)
Definition alsaseq_get_client_id_list : M (world K) (option Z * Z) :=
  fd ← open_fd;
  fd ← initialized fd;
  '(r, my_id) ← ioctl_val fd SEQ_CLIENT_ID (zeroed 4);
  match r with
  | Serr e => do_close fd;; generate_file_error e "ioctl(CLIENT_ID)"
  | Sret _ =>
      '(r, system_info) ← ioctl_val fd SEQ_SYSTEM_INFO (zeroed sizeof_system_info);
      match r with
      | Serr e => do_close fd;; generate_file_error e "ioctl(SYSTEM_INFO)"
      | Sret _ =>
          let count := u32 (fget sys_cur_clients system_info - 1) in
          if count =? 0 then do_close fd;; mret (None, 0) else
          arr ← g_malloc0_n count 4;
          r ← query_next_clients client_fuel fd (fget (i32f 0) my_id) count arr 0
                (fput ci_client (-1) (zeroed sizeof_client_info));
          match r with
          | inr e => mem (g_free arr);; do_close fd;; generate_file_error e "ioctl(QUERY_NEXT_CLIENT)"
          | inl _ => do_close fd;; mret (Some arr, count)
          end
      end
  end.

Fixpoint query_next_ports (n : nat) (fd arr index : Z) (info : list byte) :
    M (world K) (Z + Z) :=
  match n with
  | O => mret (inl index)
  | S n =>
      '(r, info) ← ioctl_val fd SEQ_QUERY_NEXT_PORT info;
      match r with
      | Serr e => if e =? ENOENT then mret (inl index) else mret (inr e)
      | Sret _ =>
          list_put arr index (fget pi_addr_port info);;
          query_next_ports n fd arr (index + 1) info
      end
  end.

(** The file descriptor is closed before and after the result is examined. *)
Definition alsaseq_get_port_id_list (client_id : Z) : M (world K) (Z * Z) :=
  fd ← open_fd;
  fd ← initialized fd;
  '(r, client_info) ← ioctl_val fd SEQ_GET_CLIENT_INFO
                        (fput ci_client client_id (zeroed sizeof_client_info));
  match r with
  | Serr e => do_close fd;; generate_file_error e "ioctl(GET_CLIENT_INFO)"
  | Sret _ =>
      let count := u32 (fget ci_num_ports client_info) in
      arr ← g_malloc0_n count 1;
      let port_info := fput pi_addr_client client_id (zeroed sizeof_port_info) in
      r ← query_next_ports (Z.to_nat count) fd arr 0 (fput pi_addr_port (-1) port_info);
      do_close fd;;
      match r with
      | inr e => mem (g_free arr);; do_close fd;; generate_file_error e "ioctl(QUERY_NEXT_PORT)"
      | inl _ => do_close fd;; mret (arr, count)
      end
  end.

(** [i < maximum_count] with [n] numbers left. *)
Fixpoint query_queues (n : nat) (fd i count arr index : Z) : M (world K) unit :=
  match n with
  | O => mret tt
  | S n =>
      junk ← gets (λ w, alloc_junk (w_heap w) (Z.to_nat sizeof_queue_info));
      '(r, _) ← ioctl_val fd SEQ_GET_QUEUE_INFO (fput qi_queue i junk);
      match r with
      | Serr _ => query_queues n fd (i + 1) count arr index
      | Sret _ =>
          list_put arr index i;;
          if count <=? index + 1 then mret tt
          else query_queues n fd (i + 1) count arr (index + 1)
      end
  end.

(** [None] when there is no queue: neither the array nor its length are
    written. *)
Definition alsaseq_get_queue_id_list : M (world K) (option (Z * Z)) :=
  fd ← open_fd;
  fd ← initialized fd;
  '(r, info) ← ioctl_val fd SEQ_SYSTEM_INFO (zeroed sizeof_system_info);
  match r with
  | Serr e => do_close fd;; generate_file_error e "ioctl(SYSTEM_INFO)"
  | Sret _ =>
      let maximum_count := u32 (fget sys_queues info) in
      let count := u32 (fget sys_cur_queues info) in
      if count =? 0 then do_close fd;; mret None else
      arr ← g_malloc0_n count 8;
      query_queues (Z.to_nat maximum_count) fd 0 count arr 0;;
      do_close fd;; mret (Some (arr, count))
  end.

(** *** Subscriptions *)

Definition fill_data_with_result (data query : list byte) : list byte :=
  let root := sub q_root 2 query in
  let addr := sub q_addr 2 query in
  let data :=
    if fget q_type query =? SNDRV_SEQ_QUERY_SUBS_READ
    then put_bytes ps_dest addr (put_bytes ps_sender root data)
    else put_bytes ps_dest root (put_bytes ps_sender addr data) in
  fput ps_flags (fget q_flags query) (fput ps_queue (fget q_queue query) data).

(** [if (errno != ENOENT) generate_file_error (...)]: what [error] is set to. *)
Definition error_unless_enoent (e : Z) : option gerror :=
  if e =? ENOENT then None
  else Some (GError G_FILE_ERROR (g_file_error_from_errno e) "ioctl(QUERY_SUBS)" None).

(** [result] is a local variable without initializer: [None] until it is
    written. *)
Fixpoint query_subscriptions (n : nat) (fd : Z) (query : list byte) (entries : list ptr) :
    M (world K) (option bool * option gerror * list ptr) :=
  match n with
  | O => mret (None, None, entries)
  | S n =>
      data ← g_object_new sizeof_port_subscribe;
      mem (store data (fill_data_with_result (zeroed sizeof_port_subscribe) query));;
      let entries := entries ++ [data] in
      let query := fput q_index (fget q_index query + 1) query in
      '(r, query) ← ioctl_val fd SEQ_QUERY_SUBS query;
      match r with
      | Serr e => mret (Some false, error_unless_enoent e, entries)
      | Sret _ => query_subscriptions n fd query entries
      end
  end.

Fixpoint g_list_free_full (entries : list ptr) : M (world K) unit :=
  match entries with
  | [] => mret tt
  | e :: entries => g_object_unref e;; g_list_free_full entries
  end.

(** [g_object_get (addr, "client-id", .., "port-id", .., NULL)]: it takes what it
    is given for an instance and begins with the pointer to its class, eight
    bytes at [addr].  A boxed address has two bytes, and no class. *)
Definition g_object_get_addr (addr : ptr) : M (world K) snd_seq_addr :=
  mem (load addr 8);; ub.

(** What follows when the root of the query is [root]. *)
Definition list_subscriptions (fd : option Z) (root : snd_seq_addr) (query_type : Z)
    (entries : list ptr) : M (world K) (list ptr) :=
  let query := fput q_root_port (port root)
                 (fput q_root_client (client root) (zeroed sizeof_query_subs)) in
  fd ← initialized fd;
  '(r, query) ← ioctl_val fd SEQ_QUERY_SUBS (fput q_type query_type query);
  match r with
  | Serr e => do_close fd;; fail (error_unless_enoent e)
  | Sret _ =>
      let count := u32 (fget q_num_subs query) in
      '(result, error, entries) ← query_subscriptions (Z.to_nat count) fd query entries;
      result ← initialized result;
      if negb result then g_list_free_full entries;; do_close fd;; fail error
      else do_close fd;; mret entries
  end.

Definition alsaseq_get_subscription_list (addr : ptr) (query_type : Z) (entries : list ptr) :
    M (world K) (list ptr) :=
  fd ← open_fd;
  root ← g_object_get_addr addr;
  list_subscriptions fd root query_type entries.
End query.
