(* ===== verification/SeqQueryFacts.v ===== *)
(** * Executions of the queries of the sequencer

    The queries of one object as data, the request each of them sends, and
    what the loops of SeqQuery.v leave. *)
From S2P Require Import Prelude Heap SeqUapi Struct Kernel SeqStructs Sysfs SeqQuery.
From Stdlib Require Import Sorted.

(** ** Calls that never return a value *)

Definition never_returns {S A} (m : M S A) : Prop := ∀ s a s', m s ≠ (Ret a, s').

Lemma never_bind {S A B} (m : M S A) (f : A → M S B) :
  (∀ a, never_returns (f a)) → never_returns (m ≫= f).
Proof.
  intros Hf s b s'. unfold mbind, M_bind. destruct (m s) as [[a|e| | |] s1]; try done.
  apply Hf.
Qed.

(** Only the values the first call returns matter. *)
Lemma never_bind_if {S A B} (m : M S A) (f : A → M S B) (P : A → Prop) :
  (∀ s a s', m s = (Ret a, s') → P a) → (∀ a, P a → never_returns (f a)) →
  never_returns (m ≫= f).
Proof.
  intros Hm Hf s b s'. unfold mbind, M_bind. destruct (m s) as [[a|e| | |] s1] eqn:E; try done.
  eapply Hf, Hm, E.
Qed.

Lemma never_fail {S A} e : never_returns (fail e : M S A).
Proof. done. Qed.

Lemma never_ub {S A} : never_returns (ub : M S A).
Proof. done. Qed.

Create HintDb never.
#[export] Hint Resolve never_bind never_fail never_ub : never.

(** ** Queries of one object *)

Inductive object_query :=
  | QClientInfo (client_id : Z)
  | QPortInfo (client_id port_id : Z)
  | QClientPool (client_id : Z)
  | QQueueInfo (queue_id : Z)
  | QQueueName (name : string).

Definition query_size (q : object_query) : Z :=
  match q with
  | QClientInfo _ => sizeof_client_info
  | QPortInfo _ _ => sizeof_port_info
  | QClientPool _ => sizeof_client_pool
  | QQueueInfo _ | QQueueName _ => sizeof_queue_info
  end.

(** The structure that is sent. *)
Definition query_struct (q : object_query) : list byte :=
  match q with
  | QClientInfo c => fput ci_client c (zeroed sizeof_client_info)
  | QPortInfo c p => fput pi_addr_port p (fput pi_addr_client c (zeroed sizeof_port_info))
  | QClientPool c => fput pool_client c (zeroed sizeof_client_pool)
  | QQueueInfo i => fput qi_queue i (zeroed sizeof_queue_info)
  | QQueueName s => put_bytes qi_name (g_strlcpy s (zeros 64)) (zeroed sizeof_queue_info)
  end.

Definition query_request (q : object_query) : request :=
  match q with
  | QClientInfo _ => SEQ_GET_CLIENT_INFO
  | QPortInfo _ _ => SEQ_GET_PORT_INFO
  | QClientPool _ => SEQ_GET_CLIENT_POOL
  | QQueueInfo _ => SEQ_GET_QUEUE_INFO
  | QQueueName _ => SEQ_GET_NAMED_QUEUE
  end.

Definition query_label (q : object_query) : string :=
  match q with
  | QClientInfo _ => "ioctl(GET_CLIENT_INFO)"
  | QPortInfo _ _ => "ioctl(GET_PORT_INFO)"
  | QClientPool _ => "ioctl(GET_CLIENT_POOL)"
  | QQueueInfo _ => "ioctl(GET_QUEUE_INFO)"
  | QQueueName _ => "ioctl(GET_NAMED_QUEUE)"
  end.

Section facts.
Context {AL : Allocator} {GL : GLib} {K : Type} {KERN : Kernel K} {UD : Udev K}.
Implicit Types (h : heap) (k : K) (w : world K).

Definition run_query (q : object_query) : M (world K) ptr :=
  match q with
  | QClientInfo c => alsaseq_get_client_info c
  | QPortInfo c p => alsaseq_get_port_info c p
  | QClientPool c => alsaseq_get_client_pool c
  | QQueueInfo i => alsaseq_get_queue_info_by_id i
  | QQueueName s => alsaseq_get_queue_info_by_name s
  end.

Definition query_fill (q : object_query) (info : ptr) : M (world K) unit :=
  match q with
  | QClientInfo c => set_field info sizeof_client_info ci_client c
  | QPortInfo c p =>
      set_field info sizeof_port_info pi_addr_client c;;
      set_field info sizeof_port_info pi_addr_port p
  | QClientPool c => set_field info sizeof_client_pool pool_client c
  | QQueueInfo i => set_field info sizeof_queue_info qi_queue i
  | QQueueName s =>
      dst ← mem (load (p_add info (Z.of_nat qi_name)) 64);
      mem (store (p_add info (Z.of_nat qi_name)) (g_strlcpy s dst))
  end.

Lemma run_query_eq q :
  run_query q = query_object (query_size q) (query_fill q) (query_request q) (query_label q).
Proof. by destruct q. Qed.

Lemma length_query_struct q : length (query_struct q) = Z.to_nat (query_size q).
Proof.
  destruct q as [c|c p|c|i|s]; cbn [query_struct query_size];
    rewrite ?length_fput by (rewrite ?length_fput by done; done); try done.
  rewrite length_put_bytes; [done|]. rewrite length_g_strlcpy by done. by apply Nat.leb_le.
Qed.

Lemma query_fill_run q h k a :
  h !! a = Some (zeroed (query_size q)) →
  query_fill q (a, 0) (World h k) = (Ret tt, World (<[a := query_struct q]> h) k).
Proof.
  intros Ha. destruct q as [c|c p|c|i|s]; cbn [query_fill query_struct query_size] in *;
    try by (apply set_field_block with (s := zeroed _)).
  - rewrite (bind_Ret _ _ _ _ _ (set_field_block h k a _ sizeof_port_info pi_addr_client c Ha eq_refl eq_refl)).
    rewrite (set_field_block _ k a (fput pi_addr_client c (zeroed sizeof_port_info))).
    + by rewrite insert_insert_eq.
    + apply lookup_insert_eq.
    + by rewrite length_fput.
    + by rewrite length_fput.
  - set (z := zeroed sizeof_queue_info) in *.
    assert (z = take 9 z ++ zeros 64 ++ drop 73 z) as Ez by by vm_compute.
    rewrite (bind_Ret _ _ _ (zeros 64) (World h k)).
    2:{ apply mem_Ret, load_at; [|done]. exists (take 9 z), (drop 73 z).
        split; [by rewrite <- Ez|done]. }
    rewrite Ez in Ha.
    destruct (store_at h a (take 9 z) (zeros 64) (drop 73 z) (g_strlcpy s (zeros 64)) Ha)
      as (h' & E & Hh & _); [by rewrite length_g_strlcpy|].
    apply (mem_Ret _ h k). change (p_add (a, 0) (Z.of_nat qi_name)) with (a, Z.of_nat 9).
    change (length (take 9 z)) with 9%nat in E. rewrite E, Hh.
    + unfold put_bytes. by rewrite length_g_strlcpy.
    + intros E0. apply (f_equal length) in E0. by rewrite length_g_strlcpy in E0.
Qed.

(** *** The descriptor that was not opened *)

Lemma alsaseq_get_seq_devnode_outcome w :
  ∃ w', alsaseq_get_seq_devnode w = (Fail None, w') ∨
    (∃ e, alsaseq_get_seq_devnode w = (Fail (Some e), w')) ∨
    (∃ s, alsaseq_get_seq_devnode w = (Ret s, w')).
Proof.
  destruct w as [h k]. unfold alsaseq_get_seq_devnode, lookup_and_allocate_devname_by_sysname,
    lookup_and_allocate_string_by_sysname, generate_file_error, mbind, M_bind, mret, M_ret, sys.
  cbn [w_kern w_heap].
  repeat (case_match; cbn [w_kern w_heap] in *; simplify_eq); eauto 6.
Qed.

Lemma open_fd_unwritten w e w1 :
  alsaseq_get_seq_devnode w = (Fail e, w1) → open_fd w = (Ret None, w1).
Proof.
  intros E. unfold open_fd. rewrite (bind_Ret _ _ _ (inr e) w1); [done|].
  unfold catch. by rewrite E.
Qed.
End facts.

(** ** The clients of the sequencer

    What [sound/asequencer.h] and the driver document of the requests that
    enumerate clients: a state of the system in which, on the file descriptor
    [fd], the clients [cs] exist (in ascending order) and [my] is the number
    of the caller; the requests do not change it. *)
Class SeqClients (K : Type) := seq_clients : Z → list Z → Z → K → Prop.

Class SeqClientsLaws (K : Type) `{!Kernel K} `{!SeqClients K} : Prop := {
  clients_ascending fd cs my k : seq_clients fd cs my k → StronglySorted Z.lt cs;
  clients_bounds fd cs my k c : seq_clients fd cs my k → c ∈ cs → 0 ≤ c < 192;
  clients_self fd cs my k : seq_clients fd cs my k → my ∈ cs;
  clients_own_id fd cs my k s :
    seq_clients fd cs my k → length s = 4%nat →
    ∃ s' k', sys_ioctl fd SEQ_CLIENT_ID s k = (Sret tt, s', k') ∧
      fget (i32f 0) s' = my ∧ seq_clients fd cs my k';
  clients_count fd cs my k s :
    seq_clients fd cs my k → length s = Z.to_nat sizeof_system_info →
    ∃ s' k', sys_ioctl fd SEQ_SYSTEM_INFO s k = (Sret tt, s', k') ∧
      fget sys_cur_clients s' = Z.of_nat (length cs) ∧ seq_clients fd cs my k';
  clients_next fd cs my k s seen rest :
    seq_clients fd cs my k → length s = Z.to_nat sizeof_client_info →
    cs = seen ++ rest →
    Forall (λ c, c ≤ fget ci_client s) seen → Forall (λ c, fget ci_client s < c) rest →
    ∃ r s' k', sys_ioctl fd SEQ_QUERY_NEXT_CLIENT s k = (r, s', k') ∧ seq_clients fd cs my k' ∧
      match rest with
      | [] => r = Serr ENOENT
      | c :: _ => r = Sret tt ∧ fget ci_client s' = c
      end;
}.

Section clients.
Context {AL : Allocator} {GL : GLib} {K : Type} {KERN : Kernel K} {KL : KernelLaws K}.
Context {SC : SeqClients K} {SCL : SeqClientsLaws K}.
Implicit Types (h : heap) (k : K).

Definition other (my : Z) (cs : list Z) : list Z := filter (λ c, c ≠ my) cs.

(** The numbers as elements of an array of bytes. *)
Definition id_bytes (cs : list Z) : list byte := concat (map (le_split 1) cs).

Lemma length_id_bytes cs : length (id_bytes cs) = length cs.
Proof.
  induction cs as [|c cs IH]; [done|].
  change (id_bytes (c :: cs)) with (le_split 1 c ++ id_bytes cs).
  by rewrite length_app, length_le_split, IH.
Qed.

Lemma id_bytes_snoc cs c : id_bytes (cs ++ [c]) = id_bytes cs ++ le_split 1 c.
Proof. unfold id_bytes. rewrite map_app, concat_app. by f_equal. Qed.

(** The other clients are all but one. *)
Lemma length_other my cs :
  StronglySorted Z.lt cs → my ∈ cs → length cs = S (length (other my cs)).
Proof.
  induction 1 as [|c cs Hs IH Hc]; [by intros ?%not_elem_of_nil|]. intros Hin.
  unfold other. rewrite filter_cons. destruct (decide (c = my)) as [->|Hne].
  - rewrite decide_False by (intros Hn; by destruct Hn). simpl. f_equal.
    assert (∀ x, x ∈ cs → x ≠ my) as Hall.
    { intros x Hx. rewrite Forall_forall in Hc. specialize (Hc x Hx). lia. }
    clear -Hall. induction cs as [|x cs IH]; [done|].
    rewrite filter_cons, decide_True by (apply Hall; by left). simpl.
    f_equal. apply IH. intros y Hy. apply Hall. by right.
  - rewrite decide_True by done. simpl. f_equal. apply IH.
    by apply elem_of_cons in Hin as [->|Hin].
Qed.

Lemma list_put_run h k a pre b post v :
  h !! a = Some (pre ++ b :: post) →
  list_put a (Z.of_nat (length pre)) v (World h k) =
    (Ret tt, World (<[a := pre ++ le_split 1 v ++ post]> h) k).
Proof.
  intros Ha. unfold list_put. apply mem_Ret.
  destruct (store_at h a pre [b] post (le_split 1 v) Ha eq_refl) as (h' & E & Hh & _).
  rewrite E, Hh; [done|]. by intros ?%(f_equal length).
Qed.

Lemma query_next_clients_run rest (fuel : nat) fd my cs seen h k a info tail :
  seq_clients fd cs my k → cs = seen ++ rest →
  length info = Z.to_nat sizeof_client_info →
  Forall (λ c, c ≤ fget ci_client info) seen →
  Forall (λ c, fget ci_client info < c) rest →
  h !! a = Some (id_bytes (other my seen) ++ tail) →
  (length (other my rest) ≤ length tail)%nat → (length rest < fuel)%nat →
  ∃ index k', query_next_clients fuel fd my (Z.of_nat (length (other my cs))) a
      (Z.of_nat (length (other my seen))) info (World h k) =
    (Ret (inl index),
     World (<[a := id_bytes (other my cs) ++ drop (length (other my rest)) tail]> h) k') ∧
    seq_clients fd cs my k'.
Proof.
  revert fuel seen h k info tail. induction rest as [|c rest IH];
    intros fuel seen h k info tail Hst Hcs Hl Hseen Hrest Ha Htl Hf;
    (destruct fuel as [|fuel]; [lia|]); cbn [query_next_clients].
  { rewrite app_nil_r in Hcs. subst cs. rewrite Z.ltb_irrefl.
    eexists _, k. split; [|done]. rewrite mret_run. by rewrite insert_id. }
  assert (other my cs = other my seen ++ other my (c :: rest)) as Eo
    by (rewrite Hcs; apply filter_app).
  destruct (Z.ltb_spec (Z.of_nat (length (other my seen))) (Z.of_nat (length (other my cs))))
    as [Hlt|Hge].
  2:{ assert (other my (c :: rest) = []) as E0.
      { rewrite Eo, length_app in Hge. destruct (other my (c :: rest)); simpl in *; [done|lia]. }
      eexists _, k. split; [|done]. rewrite mret_run, Eo, E0, app_nil_r. by rewrite insert_id. }
  destruct (clients_next fd cs my k info seen (c :: rest) Hst Hl Hcs Hseen Hrest)
    as (r & s' & k' & E & Hst' & -> & Hc).
  rewrite (bind_Ret _ _ _ _ _ (ioctl_val_run h k _ _ _ _ _ _ E)).
  pose proof (ioctl_length fd SEQ_QUERY_NEXT_CLIENT info k) as Hl'. rewrite E in Hl'. simpl in Hl'.
  assert (Forall (λ x, x ≤ fget ci_client s') (seen ++ [c])) as Hseen'.
  { rewrite Hc. apply Forall_app. split; [|by repeat constructor].
    inversion Hrest as [|? ? Hlt' _]; subst. eapply Forall_impl; [exact Hseen|]. simpl. lia. }
  assert (Forall (λ x, fget ci_client s' < x) rest) as Hrest'.
  { rewrite Hc. pose proof (clients_ascending fd cs my k Hst) as Hs. rewrite Hcs in Hs.
    clear -Hs. induction seen as [|x seen IH]; inversion Hs; subst; [done|by apply IH]. }
  assert (cs = (seen ++ [c]) ++ rest) as Hcs' by by rewrite <- app_assoc.
  assert (other my (seen ++ [c]) = other my seen ++ other my [c]) as Es by apply filter_app.
  assert (other my (c :: rest) = other my [c] ++ other my rest) as Er by apply (filter_app _ [c]).
  rewrite Er in Htl |- *. rewrite length_app in Htl.
  destruct (Z.eqb_spec (fget ci_client s') my) as [Em|Em].
  - assert (other my [c] = []) as E1.
    { unfold other. rewrite filter_cons, decide_False; [done|]. intros Hn. apply Hn. lia. }
    rewrite E1, app_nil_r in Es. rewrite E1 in Htl |- *. cbn [app].
    destruct (IH fuel (seen ++ [c]) h k' s' tail) as (index & k2 & E2 & Hst2);
      [done|done|by rewrite Hl'|done|done|by rewrite Es|simpl in Htl; lia|simpl in Hf; lia|].
    rewrite Es in E2. by exists index, k2.
  - assert (other my [c] = [c]) as E1.
    { unfold other. rewrite filter_cons, decide_True; [done|]. intros ->. by apply Em. }
    rewrite E1 in Es, Htl |- *. destruct tail as [|b tail]; [simpl in Htl; lia|].
    rewrite Hc. pose proof (list_put_run h k' a _ b tail c Ha) as Ep.
    rewrite length_id_bytes in Ep. rewrite (bind_Ret _ _ _ _ _ Ep).
    destruct (IH fuel (seen ++ [c]) (<[a := id_bytes (other my seen) ++ le_split 1 c ++ tail]> h)
      k' s' tail) as (index & k2 & E2 & Hst2);
      [done|done|by rewrite Hl'|done|done| |simpl in Htl; lia|simpl in Hf; lia|].
    { rewrite lookup_insert_eq, Es, id_bytes_snoc. by rewrite <- app_assoc. }
    rewrite Es, length_app, Nat2Z.inj_add in E2.
    change (Z.of_nat (length [c])) with 1 in E2.
    rewrite E2, insert_insert_eq. by exists index, k2.
Qed.
End clients.

Lemma ascending_length l lo hi :
  lo ≤ hi → StronglySorted Z.lt l → (∀ c, c ∈ l → lo ≤ c < hi) →
  Z.of_nat (length l) ≤ hi - lo.
Proof.
  intros Hle Hs. revert lo Hle. induction Hs as [|c l Hs IH Hc]; intros lo Hle Hb; [simpl; lia|].
  pose proof (Hb c ltac:(by left)). simpl. specialize (IH (c + 1) ltac:(lia)).
  rewrite Forall_forall in Hc.
  assert (Z.of_nat (length l) ≤ hi - (c + 1)); [|lia]. apply IH.
  intros x Hx. pose proof (Hc x Hx). pose proof (Hb x ltac:(by right)). lia.
Qed.
