(* ===== verification/SampleSystem.v ===== *)
(** * A sample system

    A system with a sequencer of four clients, for concrete runs.  Its state
    is the list of file descriptors that were closed. *)
From S2P Require Import Prelude Heap SeqUapi Struct Kernel SeqStructs Sysfs SeqQuery.
From S2P Require Import SeqQueryFacts.
From Stdlib Require Import Sorted.

Module Sample.
Definition state : Type := list Z.

(** The numbers of the clients, the caller's among them. *)
Definition clients : list Z := [0; 14; 128; 130].
Definition self : Z := 130.
Definition seq_fd : Z := 7.

(** A client has two ports with one subscription each. *)
Definition answer (req : request) (s : list byte) : sysret unit * list byte :=
  match req with
  | SEQ_CLIENT_ID => (Sret tt, fput (i32f 0) self s)
  | SEQ_SYSTEM_INFO =>
      (Sret tt, fput sys_cur_clients 4 (fput sys_queues 64 (fput sys_cur_queues 1 s)))
  | SEQ_GET_CLIENT_INFO =>
      if bool_decide (fget ci_client s ∈ clients) then (Sret tt, fput ci_num_ports 2 s)
      else (Serr ENOENT, s)
  | SEQ_QUERY_NEXT_CLIENT =>
      match List.find (λ c, fget ci_client s <? c) clients with
      | Some c => (Sret tt, fput ci_client c s)
      | None => (Serr ENOENT, s)
      end
  | SEQ_QUERY_NEXT_PORT =>
      if fget pi_addr_port s =? 255 then (Sret tt, fput pi_addr_port 0 s)
      else if fget pi_addr_port s =? 0 then (Sret tt, fput pi_addr_port 1 s)
      else (Serr ENOENT, s)
  | SEQ_QUERY_SUBS =>
      if fget q_index s <? 1 then (Sret tt, fput q_num_subs 1 s) else (Serr ENOENT, s)
  | SEQ_PVERSION => (Sret tt, fput (i32f 0) (Z.shiftl 1 16 + 2) s)
  | SEQ_SET_QUEUE_TEMPO => (Serr EPERM, s)
  | SEQ_GET_QUEUE_INFO => if fget qi_queue s =? 3 then (Sret tt, s) else (Serr EINVAL, s)
  | _ => (Serr EINVAL, s)
  end.

(** [opened] is the answer to [open], [rd] what can be read. *)
Definition kernel_with (opened : sysret Z) (rd : list byte) : Kernel state := {|
  sys_open path flags k := (opened, k);
  sys_close fd k := k ++ [fd];
  sys_ioctl fd req s k :=
    let '(r, s') := answer req s in
    if bool_decide (length s' = length s) then (r, s', k) else (Serr EINVAL, s, k);
  sys_write fd bs k := (Sret (Z.of_nat (length bs)), k);
  sys_read fd n k := (Sret (take (Z.to_nat n) rd), k);
|}.

#[export] Instance kernel : Kernel state := kernel_with (Sret seq_fd) [].

Lemma kernel_with_laws rd : KernelLaws state (Kernel0 := kernel_with (Sret seq_fd) rd).
Proof.
  split.
  - by intros path flags k fd k' [= <- _].
  - intros fd req bs k. cbn [sys_ioctl kernel_with]. destruct (answer req bs) as [r s'].
    by case_bool_decide.
  - intros fd bs k n k' [= <- _]. lia.
  - intros fd n k bs k' Hn [= <- _]. rewrite length_take. lia.
Qed.

#[export] Instance kernel_laws : KernelLaws state := kernel_with_laws [].

(** A host on which the character device of the sequencer has the node [node]. *)
Definition host (node : sysret string) : Udev state := {|
  udev := unit;
  udev_device := unit;
  udev_new k := (Sret tt, k);
  udev_unref _ k := k;
  udev_device_new_from_subsystem_sysname _ _ _ k := (Sret tt, k);
  udev_device_new_from_syspath _ _ k := (Sret tt, k);
  udev_device_get_sysname _ _ := Sret "seq";
  udev_device_get_devnode _ _ := node;
  udev_device_get_sysnum _ _ := Serr ENOENT;
  udev_device_unref _ k := k;
  udev_enumerate _ _ k := (Sret [], k);
  udev_enumerate_unref _ k := k;
|}.

#[export] Instance glib : GLib := {|
  g_file_error_from_errno n := assoc_Z n g_file_error_table G_FILE_ERROR_FAILED;
|}.

#[export] Instance glib_laws : GLibLaws.
Proof. by split. Qed.

(** ** The documented behaviour of the enumeration of clients *)

#[export] Instance seq_clients_view : SeqClients state :=
  λ fd cs my k, cs = clients ∧ my = self.

Lemma find_after n seen rest :
  Forall (λ c, c ≤ n) seen → Forall (λ c, n < c) rest →
  List.find (λ c, n <? c) (seen ++ rest) = head rest.
Proof.
  intros Hs Hr. induction Hs as [|c seen Hc _ IH]; simpl.
  - destruct rest as [|c rest]; [done|]. inversion Hr; subst. simpl.
    by destruct (Z.ltb_spec n c); [|lia].
  - by destruct (Z.ltb_spec n c); [lia|].
Qed.

Lemma clients_range c : c ∈ clients → 0 ≤ c < 192.
Proof. revert c. apply Forall_forall. by repeat constructor. Qed.

Lemma ioctl_run fd req s k r s' :
  answer req s = (r, s') → length s' = length s → sys_ioctl fd req s k = (r, s', k).
Proof.
  intros E Hl. cbn [sys_ioctl kernel kernel_with]. rewrite E. by rewrite bool_decide_true.
Qed.

#[export] Instance seq_clients_laws : SeqClientsLaws state.
Proof.
  split.
  - intros fd cs my k [-> _]. repeat constructor.
  - intros fd cs my k c [-> _] Hc. by apply clients_range.
  - intros fd cs my k [-> ->]. unfold clients, self. set_solver.
  - intros fd cs my k s Hst Hs. exists (fput (i32f 0) self s), k.
    destruct Hst as [-> ->]. split; [|split; [|done]].
    + apply ioctl_run; [done|]. apply length_fput. by rewrite Hs.
    + apply fget_fput_id; [by rewrite Hs|done].
  - intros fd cs my k s Hst Hs.
    set (s2 := fput sys_queues 64 (fput sys_cur_queues 1 s)).
    assert (length s2 = length s) as H2.
    { unfold s2. rewrite !length_fput; [done|by rewrite Hs|]. rewrite length_fput; by rewrite Hs. }
    exists (fput sys_cur_clients 4 s2), k.
    destruct Hst as [-> ->]. split; [|split; [|done]].
    + apply ioctl_run; [done|]. rewrite length_fput; [done|]. by rewrite H2, Hs.
    + apply fget_fput_id; [by rewrite H2, Hs|done].
  - intros fd cs my k s seen rest Hst Hs E Hseen Hrest.
    pose proof (find_after _ seen rest Hseen Hrest) as Hf. rewrite <- E in Hf.
    destruct Hst as [-> ->]. destruct rest as [|c rest]; cbn [head] in Hf.
    + exists (Serr ENOENT), s, k. split; [|done].
      apply ioctl_run; [|done]. cbn [answer]. by rewrite Hf.
    + exists (Sret tt), (fput ci_client c s), k. split; [|split; [done|split; [done|]]].
      * apply ioctl_run; [cbn [answer]; by rewrite Hf|]. apply length_fput. by rewrite Hs.
      * apply fget_fput_id; [by rewrite Hs|].
        pose proof (clients_range c ltac:(rewrite E; set_solver)).
        change (- 2 ^ 31 ≤ c < 2 ^ 31). lia.
Qed.
End Sample.
