(* ===== verification/SeqQueryProps.v ===== *)
(** * Properties of the queries of the sequencer *)
From S2P Require Import Prelude Heap SeqUapi Struct Kernel SeqStructs Sysfs SeqQuery.
From S2P Require Import SeqQueryFacts SampleSystem.
From Stdlib Require Import Sorted.

Section props.
Context {AL : Allocator} {LAWS : AllocatorLaws} {GL : GLib} {K : Type} {KERN : Kernel K}.
Context {KL : KernelLaws K} {UD : Udev K}.
Implicit Types (h : heap) (k : K) (w : world K).

(** One request on the descriptor that was opened. *)
Lemma object_query_run q w fd h k a r s' k' :
  open_fd w = (Ret (Some fd), World h k) →
  alloc_addr h (query_size q) = Some a →
  sys_ioctl fd (query_request q) (query_struct q) k = (r, s', k') →
  run_query q w =
    match r with
    | Sret _ => (Ret (a, 0), World (<[a := s']> h) (sys_close fd k'))
    | Serr e =>
        (Fail (Some (GError G_FILE_ERROR (g_file_error_from_errno e) (query_label q) None)),
         World h (sys_close fd k'))
    end.
Proof.
  intros Ho Ha E. rewrite run_query_eq. unfold query_object.
  rewrite (bind_Ret _ _ _ _ _ Ho).
  assert (query_size q ≠ 0) as Hn by by destruct q.
  rewrite (bind_Ret _ _ _ _ _ (g_object_new_run h k (query_size q) a Hn Ha)).
  rewrite (bind_Ret _ _ _ _ _ (query_fill_run q _ k a (lookup_insert_eq _ _ _))).
  rewrite insert_insert_eq. set (h1 := <[a := query_struct q]> h).
  rewrite (bind_Ret _ _ _ fd (World h1 k)) by done.
  assert (query_struct q ≠ []) as Hne by by destruct q.
  assert (ioctl_mem fd (query_request q) (a, 0) (query_size q) (World h1 k) =
    (Ret r, World (<[a := s']> h) k')) as Ei.
  { unfold ioctl_mem.
    pose proof (ioctl_length fd (query_request q) (query_struct q) k) as Hl.
    rewrite E in Hl. cbn [fst snd] in Hl.
    rewrite (bind_Ret _ _ _ (query_struct q) (World h1 k)).
    2:{ apply mem_Ret, load_at; [apply at_ptr_block, lookup_insert_eq|].
        rewrite length_query_struct. by destruct q. }
    rewrite (bind_Ret _ _ _ _ _ (ioctl_val_run h1 k _ _ _ _ _ _ E)).
    rewrite (bind_Ret _ _ _ tt (World (<[a := s']> h) k')); [done|].
    apply mem_Ret. rewrite (store_block h1 a (query_struct q)).
    - unfold h1. by rewrite insert_insert_eq.
    - apply lookup_insert_eq.
    - done.
    - intros ->. by destruct (query_struct q). }
  rewrite (bind_Ret _ _ _ _ _ Ei). pose proof (alloc_fresh _ _ _ Ha) as Hf.
  pose proof (alloc_nonnull _ _ _ Ha) as Hp. destruct r as [u|e]; [done|].
  rewrite (bind_Ret _ _ _ _ _
    (g_object_unref_run (<[a := s']> h) k' a s' (proj1 Hp) (lookup_insert_eq _ _ _))).
  by rewrite delete_insert_id.
Qed.

(** The queries for one object (information on a client, a port, a pool,
    a queue by number or by name) send one request on the descriptor they
    opened and close it.  When the kernel answers, the result is a new object
    with the structure the kernel filled in, and no other memory changes;
    when it refuses, the error of the file domain that stands for its [errno]
    is reported and the memory is as before. *)
Theorem object_query_spec q w fd h k a r s' k' :
  open_fd w = (Ret (Some fd), World h k) →
  alloc_addr h (query_size q) = Some a →
  sys_ioctl fd (query_request q) (query_struct q) k = (r, s', k') →
  run_query q w =
    match r with
    | Sret _ => (Ret (a, 0), World (<[a := s']> h) (sys_close fd k'))
    | Serr e =>
        (Fail (Some (GError G_FILE_ERROR (g_file_error_from_errno e) (query_label q) None)),
         World h (sys_close fd k'))
    end.
Proof. apply object_query_run. Qed.

(** C13: the list of the clients is complete: on a system with the clients
    [cs], [my] the caller's own, the call returns the number of the others
    and an array with exactly their numbers in ascending order; with no other
    client the list is empty.  The loop ends within its bound, no write leaves
    the array, and the descriptor is closed. *)
Theorem client_id_list_complete `{!SeqClients K} `{!SeqClientsLaws K} w fd cs my h k a :
  open_fd w = (Ret (Some fd), World h k) → seq_clients fd cs my k →
  let n := Z.of_nat (length (other my cs)) in
  alloc_addr h (n * 4) = Some a →
  ∃ k', seq_clients fd cs my k' ∧
    alsaseq_get_client_id_list w =
      if n =? 0 then (Ret (None, 0), World h (sys_close fd k'))
      else (Ret (Some a, n),
            World (<[a := id_bytes (other my cs) ++ zeros (Z.to_nat (n * 3))]> h)
              (sys_close fd k')).
Proof.
  intros Ho Hst n Ha. unfold alsaseq_get_client_id_list.
  rewrite (bind_Ret _ _ _ _ _ Ho). rewrite (bind_Ret _ _ _ fd (World h k)) by done.
  destruct (clients_own_id fd cs my k (zeroed 4) Hst eq_refl) as (s1 & k1 & E1 & Hmy & Hst1).
  rewrite (bind_Ret _ _ _ _ _ (ioctl_val_run h k _ _ _ _ _ _ E1)).
  destruct (clients_count fd cs my k1 (zeroed sizeof_system_info) Hst1 eq_refl)
    as (s2 & k2 & E2 & Hn & Hst2).
  rewrite (bind_Ret _ _ _ _ _ (ioctl_val_run h k1 _ _ _ _ _ _ E2)).
  pose proof (clients_ascending fd cs my k Hst) as Hasc.
  pose proof (length_other my cs Hasc (clients_self fd cs my k Hst)) as Hlen.
  pose proof (ascending_length cs 0 192 ltac:(lia) Hasc
    (λ c, clients_bounds fd cs my k c Hst)) as Hb.
  assert (u32 (fget sys_cur_clients s2 - 1) = n) as ->.
  { rewrite Hn, u32_id; unfold is_u32, n; lia. }
  cbv zeta. destruct (Z.eqb_spec n 0) as [E0|E0]; [by exists k2|].
  rewrite (bind_Ret _ _ _ a (World (<[a := zeros (Z.to_nat (n * 4))]> h) k2)).
  2:{ unfold g_malloc0_n. destruct (Z.ltb_spec (n * 4) (2 ^ 64)); [|lia].
      apply mem_Ret, g_malloc0_some; [lia|done]. }
  set (info := fput ci_client (-1) (zeroed sizeof_client_info)).
  destruct (query_next_clients_run cs client_fuel fd my cs []
    (<[a := zeros (Z.to_nat (n * 4))]> h) k2 a info (zeros (Z.to_nat (n * 4))))
    as (index & k3 & E3 & Hst3).
  - done.
  - done.
  - done.
  - done.
  - apply Forall_forall. intros c Hc. change (fget ci_client info) with (-1).
    pose proof (clients_bounds fd cs my k c Hst Hc). lia.
  - apply lookup_insert_eq.
  - rewrite length_zeros. unfold n. lia.
  - unfold client_fuel. lia.
  - rewrite Hmy. change (Z.of_nat (length (other my []))) with 0 in E3.
    rewrite (bind_Ret _ _ _ _ _ E3). rewrite insert_insert_eq.
    exists k3. split; [done|].
    assert (drop (length (other my cs)) (zeros (Z.to_nat (n * 4))) = zeros (Z.to_nat (n * 3))) as ->.
    { unfold zeros. rewrite drop_replicate. f_equal. unfold n. lia. }
    done.
Qed.

Lemma g_object_get_addr_undefined addr w : g_object_get_addr addr w = (UB, w).
Proof.
  destruct w as [h k]. unfold g_object_get_addr, mbind, M_bind, mem, zoom, load.
  cbn [w_heap Z.eqb]. destruct (h !! addr.1) as [bs|]; [by destruct (_ && _)|done].
Qed.

(** The list of subscriptions is never returned.  The call takes the boxed
    address for an object with properties: what it does is undefined as soon as
    the device was opened, whatever the address is.  With a root filled in it
    would not return TRUE either: after the last subscription it asks for one
    more; when the kernel refuses, the list is released and the call returns
    FALSE; when the kernel answers, or when there was no subscription to begin
    with, the result is a variable that was never written. *)
Theorem subscription_list_never_succeeds addr query_type entries w :
  (∀ fd w', open_fd w = (Ret fd, w') →
    alsaseq_get_subscription_list addr query_type entries w = (UB, w')) ∧
  (∀ fd root r w', list_subscriptions fd root query_type entries w ≠ (Ret r, w')).
Proof.
  split.
  { intros fd w' E. unfold alsaseq_get_subscription_list. rewrite (bind_Ret _ _ _ _ _ E).
    apply bind_UB, g_object_get_addr_undefined. }
  intros fd root r w'. revert w r w'. unfold list_subscriptions. cbv zeta.
  apply never_bind. intros fd'.
  apply never_bind. intros [[u|e] query].
  2:{ apply never_bind. intros _. apply never_fail. }
  cbv zeta. eapply (never_bind_if _ _ (λ r, r.1.1 = None ∨ r.1.1 = Some false)).
  - generalize (Z.to_nat (u32 (fget q_num_subs query))). intros n s.
    revert query entries s. induction n as [|n IH]; intros query entries s x s' E.
    { injection E as <- <-. by left. }
    revert E. cbn [query_subscriptions]. unfold mbind, M_bind.
    destruct (g_object_new sizeof_port_subscribe s) as [[] ?]; try done.
    destruct (mem _ _) as [[] ?]; try done. cbv zeta.
    destruct (ioctl_val _ _ _ _) as [[[r q']|?| | |] ?]; try done.
    destruct r; [apply IH|]. intros [= <- <-]. by right.
  - intros [[result error] entries'] Hr. apply (never_bind_if _ _ (λ r, r = false)).
    + intros s b s' E. destruct Hr as [Hr|Hr]; simpl in Hr; subst result; [done|].
      by injection E as <- <-.
    + intros b ->. apply never_bind. intros _. apply never_bind. intros _. apply never_fail.
Qed.

(** When the node of the device cannot be found, the queries do not fail:
    the helper that opens the device returns -1, which its callers take for
    success, and they go on with a descriptor that was never written. *)
Theorem query_without_node_undefined w e w1 :
  alsaseq_get_seq_devnode w = (Fail e, w1) →
  alsaseq_get_client_id_list w = (UB, w1) ∧
  (∀ client_id, alsaseq_get_port_id_list client_id w = (UB, w1)) ∧
  alsaseq_get_queue_id_list w = (UB, w1) ∧
  (∀ addr query_type entries, alsaseq_get_subscription_list addr query_type entries w = (UB, w1)).
Proof.
  intros E. pose proof (open_fd_unwritten w e w1 E) as Ho.
  split_and!; intros.
  - unfold alsaseq_get_client_id_list. by rewrite (bind_Ret _ _ _ _ _ Ho).
  - unfold alsaseq_get_port_id_list. by rewrite (bind_Ret _ _ _ _ _ Ho).
  - unfold alsaseq_get_queue_id_list. by rewrite (bind_Ret _ _ _ _ _ Ho).
  - unfold alsaseq_get_subscription_list. rewrite (bind_Ret _ _ _ _ _ Ho).
    apply bind_UB, g_object_get_addr_undefined.
Qed.

(** The list of the ports of a client closes its descriptor twice on every
    path that returns a list. *)
Theorem port_id_list_closes_twice client_id w fd w1 r w' :
  open_fd w = (Ret (Some fd), w1) → alsaseq_get_port_id_list client_id w = (Ret r, w') →
  ∃ k, w_kern w' = sys_close fd (sys_close fd k).
Proof.
  intros Ho. unfold alsaseq_get_port_id_list. rewrite (bind_Ret _ _ _ _ _ Ho).
  rewrite (bind_Ret _ _ _ fd w1) by done. unfold mbind, M_bind.
  destruct (ioctl_val _ _ _ _) as [[[r1 ci]|?| | |] w2]; try done.
  destruct r1 as [u|e]; [|done]. cbv zeta.
  destruct (g_malloc0_n _ _ _) as [[arr|?| | |] w3]; try done.
  destruct (query_next_ports _ _ _ _ _ _) as [[r4|?| | |] w4]; try done.
  unfold do_close, sys. cbn [fst snd w_kern w_heap].
  destruct r4 as [index|e].
  - intros [= <- <-]. by exists (w_kern w4).
  - by destruct (mem _ _) as [[] ?].
Qed.
End props.

(** ** Concrete runs *)

Module QueryWitness.
Import Sample.
#[local] Existing Instance Bump.allocator.
#[local] Existing Instance Bump.laws.
#[local] Instance node : Udev state := host (Sret "/dev/snd/seq").

Definition start : world state := World ∅ [].

Lemma object_query_spec_witness :
  run_query (QClientInfo 14) start =
    (Ret (4128, 0),
     World (<[4128 := fput ci_num_ports 2 (query_struct (QClientInfo 14))]> ∅)
       (sys_close seq_fd [])) ∧
  ∃ e, run_query (QClientInfo 99) start = (Fail (Some e), World ∅ (sys_close seq_fd [])).
Proof.
  split.
  - apply (object_query_spec (QClientInfo 14) start seq_fd ∅ [] 4128 (Sret tt)
      (fput ci_num_ports 2 (query_struct (QClientInfo 14))) []); by vm_compute.
  - eexists. apply (object_query_spec (QClientInfo 99) start seq_fd ∅ [] 4128 (Serr ENOENT)
      (query_struct (QClientInfo 99)) []); by vm_compute.
Defined.

Lemma client_id_list_complete_witness :
  other self clients = [0; 14; 128] ∧
  ∃ w', alsaseq_get_client_id_list start = (Ret (Some 4128, 3), w').
Proof.
  split; [by vm_compute|].
  destruct (client_id_list_complete start seq_fd clients self ∅ [] 4128) as (k' & _ & E);
    [by vm_compute|by split|by vm_compute|].
  eexists. exact E.
Defined.

Lemma query_without_node_undefined_witness :
  alsaseq_get_client_id_list (UD := host (Serr ENOENT)) start = (UB, start).
Proof.
  apply (query_without_node_undefined (UD := host (Serr ENOENT)) start
    (Some (GError G_FILE_ERROR 4 "Fail to generate seq devname" None)) start).
  by vm_compute.
Defined.

Lemma port_id_list_closes_twice_witness :
  ∃ k, w_kern (alsaseq_get_port_id_list 14 start).2 = sys_close seq_fd (sys_close seq_fd k).
Proof.
  apply (port_id_list_closes_twice 14 start seq_fd start (4128, 2)); by vm_compute.
Defined.
End QueryWitness.
