(* ===== verification/SeqUserClient.v ===== *)
(** * The client of the sequencer: [src/src/seq/user-client.c]

    The state of a call is the private data of the client object with the
    process and the system around it.  Requests that carry an information
    object send its private structure, a block of the heap. *)
From S2P Require Import Prelude Heap SeqUapi Struct Kernel SeqStructs Sysfs SeqQuery.
From S2P Require Import SeqEvent SeqEventCntr.

(** [ALSASeqUserClientError] *)
Definition ALSASEQ_USER_CLIENT_ERROR_FAILED : Z := 0.
Definition ALSASEQ_USER_CLIENT_ERROR_PORT_PERMISSION : Z := 1.
Definition ALSASEQ_USER_CLIENT_ERROR_QUEUE_PERMISSION : Z := 2.
Definition ALSASEQ_USER_CLIENT_ERROR_EVENT_UNDELIVERABLE : Z := 3.

Definition err_msgs (code : Z) : string :=
  if code =? ALSASEQ_USER_CLIENT_ERROR_PORT_PERMISSION
  then "The operation fails due to access permission of port"
  else "The operation fails due to access permission of queue".

(** [ALSASeqUserClientPrivate], and the references held to the object. *)
Record user_client := UserClient {
  uc_fd : Z;
  uc_devnode : option string;
  uc_client_id : Z;
  uc_proto_ver_triplet : list Z;
  uc_refs : Z;
}.

Definition set_fd (fd : Z) (c : user_client) : user_client :=
  UserClient fd (uc_devnode c) (uc_client_id c) (uc_proto_ver_triplet c) (uc_refs c).
Definition set_devnode (s : option string) (c : user_client) : user_client :=
  UserClient (uc_fd c) s (uc_client_id c) (uc_proto_ver_triplet c) (uc_refs c).
Definition set_client_id (id : Z) (c : user_client) : user_client :=
  UserClient (uc_fd c) (uc_devnode c) id (uc_proto_ver_triplet c) (uc_refs c).
Definition set_triplet (t : list Z) (c : user_client) : user_client :=
  UserClient (uc_fd c) (uc_devnode c) (uc_client_id c) t (uc_refs c).
Definition set_refs (n : Z) (c : user_client) : user_client :=
  UserClient (uc_fd c) (uc_devnode c) (uc_client_id c) (uc_proto_ver_triplet c) n.

(** [alsaseq_user_client_new] and [alsaseq_user_client_init] *)
Definition alsaseq_user_client_new : user_client := UserClient (-1) None 0 [0; 0; 0] 1.

Record cstate (K : Type) := CState { cs_self : user_client; cs_world : world K }.
Arguments CState {K}.
Arguments cs_self {K}.
Arguments cs_world {K}.

(** [UserClientSource]: the descriptor that is polled and the buffer. *)
Record user_client_source := Source { src_tag : Z; src_buf : Z; src_buf_len : Z }.

Section client.
Context {AL : Allocator} {GL : GLib} {K : Type} {KERN : Kernel K} {UD : Udev K}.

(** [sysconf (_SC_PAGESIZE)] *)
Context (page_size : Z).

Definition out {A} (m : M (world K) A) : M (cstate K) A :=
  zoom cs_world (λ w c, CState (cs_self c) w) m.

Definition self : M (cstate K) user_client := gets cs_self.
Definition upd (f : user_client → user_client) : M (cstate K) unit :=
  modify (λ c, CState (f (cs_self c)) (cs_world c)).

(** *** Reports of errors *)

Definition syscall_error (errno : Z) (what : string) : option gerror :=
  Some (GError ALSASEQ_USER_CLIENT_ERROR ALSASEQ_USER_CLIENT_ERROR_FAILED what (Some errno)).

Definition generate_syscall_error {A} (errno : Z) (what : string) : M (cstate K) A :=
  fail (syscall_error errno what).

Definition local_error (code : Z) : option gerror :=
  Some (GError ALSASEQ_USER_CLIENT_ERROR code (err_msgs code) None).

(** The report of a failed [open]: the code of the file domain is converted a
    second time. *)
Definition open_error (errno : Z) : option gerror :=
  let code := g_file_error_from_errno errno in
  if negb (code =? G_FILE_ERROR_FAILED)
  then Some (GError G_FILE_ERROR (g_file_error_from_errno code) "open" None)
  else syscall_error errno "open".

(** The report of a failed [write]. *)
Definition write_error (errno : Z) : option gerror :=
  let code := g_file_error_from_errno errno in
  if negb (code =? G_FILE_ERROR_FAILED)
  then Some (GError G_FILE_ERROR (g_file_error_from_errno errno) "write" None)
  else syscall_error errno "write".

(** *** Life of the client *)

Definition seq_user_client_get_property_client_id : M (cstate K) Z :=
  priv ← self; mret (u8 (uc_client_id priv)).

Definition seq_user_client_finalize : M (cstate K) unit :=
  priv ← self;
  (if 0 <=? uc_fd priv then out (do_close (uc_fd priv)) else mret tt);;
  upd (set_devnode None).

Definition g_object_ref_client : M (cstate K) unit :=
  upd (λ c, set_refs (uc_refs c + 1) c).

(** The last reference finalizes the object. *)
Definition g_object_unref_client : M (cstate K) unit :=
  priv ← self;
  (if uc_refs priv =? 1 then seq_user_client_finalize else mret tt);;
  upd (λ c, set_refs (uc_refs c - 1) c).

Definition alsaseq_user_client_open (open_flag : Z) : M (cstate K) unit :=
  devnode ← out alsaseq_get_seq_devnode;
  fd ← out (do_open devnode (Z.lor open_flag O_RDWR));
  match fd with
  | Serr e => upd (set_fd (-1));; fail (open_error e)
  | Sret fd =>
      upd (set_fd fd);;
      upd (set_devnode (Some devnode));;
      priv ← self;
      '(r, s) ← out (ioctl_val fd SEQ_CLIENT_ID (le_split 4 (uc_client_id priv)));
      upd (set_client_id (fget (i32f 0) s));;
      match r with
      | Serr e =>
          out (do_close fd);; upd (set_fd (-1));; generate_syscall_error e "ioctl(CLIENT_ID)"
      | Sret _ =>
          junk ← gets (λ c, alloc_junk (w_heap (cs_world c)) 4);
          '(r, s) ← out (ioctl_val fd SEQ_PVERSION junk);
          match r with
          | Serr e =>
              out (do_close fd);; upd (set_fd (-1));; generate_syscall_error e "ioctl(PVERSION)"
          | Sret _ =>
              let proto_ver := fget (i32f 0) s in
              upd (set_triplet [SNDRV_PROTOCOL_MAJOR proto_ver; SNDRV_PROTOCOL_MINOR proto_ver;
                                SNDRV_PROTOCOL_MICRO proto_ver])
          end
      end
  end.

(** A pointer to the three numbers in the object. *)
Definition alsaseq_user_client_get_protocol_version : M (cstate K) (list Z) :=
  priv ← self;
  g_return_if_fail (0 <=? uc_fd priv);;
  mret (uc_proto_ver_triplet priv).

(** *** Requests with an object of the caller *)

(** [ioctl (priv->fd, req, p)], reported with the [errno]. *)
Definition request_mem (req : request) (p : ptr) (n : Z) (what : string) : M (cstate K) unit :=
  priv ← self;
  r ← out (ioctl_mem (uc_fd priv) req p n);
  match r with
  | Serr e => generate_syscall_error e what
  | Sret _ => mret tt
  end.

(** The same, with an own code for [EPERM]. *)
Definition request_mem_perm (req : request) (p : ptr) (n : Z) (code : Z) (what : string) :
    M (cstate K) unit :=
  priv ← self;
  r ← out (ioctl_mem (uc_fd priv) req p n);
  match r with
  | Serr e => if e =? EPERM then fail (local_error code) else generate_syscall_error e what
  | Sret _ => mret tt
  end.

(** The same for a local structure, which is returned. *)
Definition request_val (req : request) (s : list byte) (what : string) :
    M (cstate K) (list byte) :=
  priv ← self;
  '(r, s) ← out (ioctl_val (uc_fd priv) req s);
  match r with
  | Serr e => generate_syscall_error e what
  | Sret _ => mret s
  end.

(** [p->f = v] in a structure of [n] bytes. *)
Definition assign (p : ptr) (n : Z) (f : field) (v : Z) : M (cstate K) unit :=
  out (set_field p n f v).

Definition alsaseq_user_client_set_info (info : ptr) : M (cstate K) unit :=
  priv ← self;
  assign info sizeof_client_info ci_client (uc_client_id priv);;
  assign info sizeof_client_info ci_type USER_CLIENT;;
  request_mem SEQ_SET_CLIENT_INFO info sizeof_client_info "ioctl(SET_CLIENT_INFO)".

Definition alsaseq_user_client_get_info (info : ptr) : M (cstate K) unit :=
  priv ← self;
  assign info sizeof_client_info ci_client (uc_client_id priv);;
  request_mem SEQ_GET_CLIENT_INFO info sizeof_client_info "ioctl(GET_CLIENT_INFO)".

Definition alsaseq_user_client_create_port (info : ptr) : M (cstate K) unit :=
  priv ← self;
  assign info sizeof_port_info pi_addr_client (uc_client_id priv);;
  request_mem SEQ_CREATE_PORT info sizeof_port_info "ioctl(CREATE_PORT)".

Definition alsaseq_user_client_create_port_at (info : ptr) (port_id : Z) : M (cstate K) unit :=
  assign info sizeof_port_info pi_addr_port port_id;;
  flags ← out (get_field info sizeof_port_info pi_flags);
  assign info sizeof_port_info pi_flags (Z.lor flags SNDRV_SEQ_PORT_FLG_GIVEN_PORT);;
  alsaseq_user_client_create_port info.

Definition alsaseq_user_client_update_port (info : ptr) (port_id : Z) : M (cstate K) unit :=
  priv ← self;
  assign info sizeof_port_info pi_addr_client (uc_client_id priv);;
  assign info sizeof_port_info pi_addr_port port_id;;
  request_mem SEQ_SET_PORT_INFO info sizeof_port_info "ioctl(SET_PORT_INFO)".

Definition alsaseq_user_client_delete_port (port_id : Z) : M (cstate K) unit :=
  priv ← self;
  let info := fput pi_addr_client (uc_client_id priv) (zeroed sizeof_port_info) in
  request_val SEQ_DELETE_PORT (fput pi_addr_port port_id info) "ioctl(DELETE_PORT)";;
  mret tt.

Definition alsaseq_user_client_set_pool (pool : ptr) : M (cstate K) unit :=
  priv ← self;
  assign pool sizeof_client_pool pool_client (uc_client_id priv);;
  request_mem SEQ_SET_CLIENT_POOL pool sizeof_client_pool "ioctl(SET_CLIENT_POOL)".

Definition alsaseq_user_client_get_pool (pool : ptr) : M (cstate K) unit :=
  priv ← self;
  assign pool sizeof_client_pool pool_client (uc_client_id priv);;
  request_mem SEQ_GET_CLIENT_POOL pool sizeof_client_pool "ioctl(GET_CLIENT_POOL)".

Definition alsaseq_user_client_operate_subscription (data : ptr) (establish : bool) :
    M (cstate K) unit :=
  let '(req, label) :=
    if establish then (SEQ_SUBSCRIBE_PORT, "ioctl(SUBSCRIBE_PORT)")
    else (SEQ_UNSUBSCRIBE_PORT, "ioctl(UNSUBSCRIBE_PORT)") in
  request_mem_perm req data sizeof_port_subscribe
    ALSASEQ_USER_CLIENT_ERROR_PORT_PERMISSION label.

Definition alsaseq_user_client_create_queue (info : ptr) : M (cstate K) unit :=
  request_mem SEQ_CREATE_QUEUE info sizeof_queue_info "ioctl(CREATE_QUEUE)".

Definition alsaseq_user_client_delete_queue (queue_id : Z) : M (cstate K) unit :=
  priv ← self;
  let info := fput qi_queue queue_id (zeroed sizeof_queue_info) in
  request_val SEQ_DELETE_QUEUE (fput qi_owner (uc_client_id priv) info) "ioctl(DELETE_QUEUE)";;
  mret tt.

Definition alsaseq_user_client_update_queue (info : ptr) : M (cstate K) unit :=
  request_mem_perm SEQ_SET_QUEUE_INFO info sizeof_queue_info
    ALSASEQ_USER_CLIENT_ERROR_QUEUE_PERMISSION "ioctl(SET_QUEUE_INFO)".

Definition alsaseq_user_client_get_queue_usage (queue_id : Z) : M (cstate K) Z :=
  data ← request_val SEQ_GET_QUEUE_CLIENT (fput qc_queue queue_id (zeroed sizeof_queue_client))
           "ioctl(GET_QUEUE_CLIENT)";
  mret (fget qc_used data).

Definition alsaseq_user_client_set_queue_usage (queue_id : Z) (use : Z) : M (cstate K) unit :=
  priv ← self;
  let data := fput qc_queue queue_id (zeroed sizeof_queue_client) in
  let data := fput qc_client (uc_client_id priv) data in
  request_val SEQ_SET_QUEUE_CLIENT (fput qc_used use data) "ioctl(SET_QUEUE_CLIENT)";;
  mret tt.

Definition alsaseq_user_client_set_queue_tempo (queue_id : Z) (tempo : ptr) : M (cstate K) unit :=
  assign tempo sizeof_queue_tempo qt_queue queue_id;;
  request_mem_perm SEQ_SET_QUEUE_TEMPO tempo sizeof_queue_tempo
    ALSASEQ_USER_CLIENT_ERROR_QUEUE_PERMISSION "ioctl(SET_QUEUE_TEMPO)".

Definition alsaseq_user_client_get_queue_tempo (queue_id : Z) : M (cstate K) ptr :=
  tempo ← out (g_object_new sizeof_queue_tempo);
  assign tempo sizeof_queue_tempo qt_queue queue_id;;
  priv ← self;
  r ← out (ioctl_mem (uc_fd priv) SEQ_GET_QUEUE_TEMPO tempo sizeof_queue_tempo);
  match r with
  | Serr e =>
      out (g_object_unref tempo);; generate_syscall_error e "ioctl(GET_QUEUE_TEMPO)"
  | Sret _ => mret tempo
  end.

(** The type of the timer is read through its property. *)
Definition alsaseq_user_client_set_queue_timer (queue_id : Z) (timer : ptr) : M (cstate K) unit :=
  timer_type ← out (get_field timer sizeof_queue_timer tm_type);
  g_return_if_fail (timer_type =? SNDRV_SEQ_TIMER_ALSA);;
  assign timer sizeof_queue_timer tm_queue queue_id;;
  request_mem_perm SEQ_SET_QUEUE_TIMER timer sizeof_queue_timer
    ALSASEQ_USER_CLIENT_ERROR_QUEUE_PERMISSION "ioctl(SET_QUEUE_TIMER)".

Definition alsaseq_user_client_get_queue_timer (queue_id : Z) : M (cstate K) ptr :=
  data ← request_val SEQ_GET_QUEUE_TIMER (fput tm_queue queue_id (zeroed sizeof_queue_timer))
           "ioctl(GET_QUEUE_TIMER)";
  g_return_if_fail (fget tm_type data =? SNDRV_SEQ_TIMER_ALSA);;
  timer ← out (g_object_new sizeof_queue_timer);
  out (mem (store timer data));;
  mret timer.

Definition alsaseq_user_client_remove_events (filter : ptr) : M (cstate K) unit :=
  request_mem SEQ_REMOVE_EVENTS filter sizeof_remove_events "ioctl(REMOVE_EVENTS)".

(** *** Delivery of events *)

Definition undeliverable : option gerror :=
  Some (GError ALSASEQ_USER_CLIENT_ERROR ALSASEQ_USER_CLIENT_ERROR_EVENT_UNDELIVERABLE
          "The operation failes due to undeliverable event" None).

Definition alsaseq_user_client_schedule_event (event : ptr) : M (cstate K) unit :=
  priv ← self;
  ev ← out (mem (load_event event));
  if negb (seq_event_is_deliverable ev) then fail undeliverable else
  length ← out (mem (seq_event_calculate_flattened_length event false));
  buf ← (if length =? sizeof_event then mret event else
           a ← out (mem (g_malloc0 length));
           void_call (out (mem (seq_event_copy_flattened event (a, 0) length)));;
           mret (a, 0));
  result ← out (do_write (uc_fd priv) buf length);
  (if negb (length =? sizeof_event) then out (mem (g_free (p_addr buf))) else mret tt);;
  match result with
  | Serr e => fail (write_error e)
  | Sret result => g_return_if_fail (result =? length)
  end.

(** The error keeps the index of the event. *)
Fixpoint check_deliverable (events : list ptr) (index : Z) : M (cstate K) unit :=
  match events with
  | [] => mret tt
  | event :: events =>
      g_return_if_fail (negb (p_addr event =? 0));;
      ev ← out (mem (load_event event));
      if negb (seq_event_is_deliverable ev) then
        fail (Some (GError ALSASEQ_USER_CLIENT_ERROR
                      ALSASEQ_USER_CLIENT_ERROR_EVENT_UNDELIVERABLE
                      "The operation failes due to undeliverable event: index" (Some index)))
      else check_deliverable events (index + 1)
  end.

(** The number of events in the first [result] bytes, and where the last of
    them ends. *)
Fixpoint count_scheduled (events : list ptr) (result pos scheduled : Z) :
    M (cstate K) (Z * Z) :=
  match events with
  | [] => mret (pos, scheduled)
  | event :: events =>
      let scheduled := scheduled + 1 in
      length ← out (mem (seq_event_calculate_flattened_length event false));
      let pos := u64 (pos + length) in
      if result <=? pos then mret (pos, scheduled)
      else count_scheduled events result pos scheduled
  end.

(** The result is what is written to [count]: [None] when it is not. *)
Definition alsaseq_user_client_schedule_events (events : list ptr) : M (cstate K) (option Z) :=
  priv ← self;
  check_deliverable events 0;;
  cntr ← out (mem (with_local (to_bytes zero_cntr) (λ cntr,
           void_call (seq_event_cntr_serialize cntr events false);; load_cntr cntr)));
  if cntr_length cntr =? 0 then mret None else
  result ← out (do_write (uc_fd priv) (cntr_buf cntr, 0) (cntr_length cntr));
  out (mem (g_free (cntr_buf cntr)));;
  match result with
  | Serr e => fail (write_error e)
  | Sret result =>
      '(pos, scheduled) ← count_scheduled events result 0 0;
      g_return_if_fail (result =? pos);;
      mret (Some scheduled)
  end.

(** *** The source of events *)

Definition alsaseq_user_client_create_source : M (cstate K) user_client_source :=
  priv ← self;
  g_return_if_fail (0 <=? uc_fd priv);;
  buf ← out (mem (g_malloc0 page_size));
  g_object_ref_client;;
  mret (Source (uc_fd priv) buf page_size).

Definition seq_user_client_check_src (condition : Z) : bool :=
  negb (Z.land condition (Z.lor G_IO_IN G_IO_ERR) =? 0).

(** The container of a delivery: the bytes read to the buffer of the source. *)
Definition delivery (src : user_client_source) (len : Z) : event_cntr :=
  EventCntr (src_buf src) len 1 (zeros 4).

(** An automatic variable during a call that may do anything. *)
Definition with_local_client {A} (bs : list byte) (f : ptr → M (cstate K) A) :
    M (cstate K) A := λ c,
  let w := cs_world c in
  match alloc_addr (w_heap w) (Z.of_nat (length bs)) with
  | Some a =>
      let '(o, c') := f (a, 0) (CState (cs_self c) (World (<[a := bs]> (w_heap w)) (w_kern w))) in
      let w' := cs_world c' in
      (o, CState (cs_self c') (World (delete a (w_heap w')) (w_kern w')))
  | None => (Oom, c)
  end.

(** [condition] is what polling found, [handle_event] the handlers connected
    to the signal; TRUE keeps the source. *)
Definition seq_user_client_dispatch_src (src : user_client_source) (condition : Z)
    (handle_event : ptr → M (cstate K) unit) : M (cstate K) bool :=
  priv ← self;
  if uc_fd priv <? 0 then mret false else
  if negb (Z.land condition G_IO_ERR =? 0) then mret false else
  len ← out (do_read (uc_fd priv) (src_buf src, 0) (src_buf_len src));
  match len with
  | Serr e => mret (e =? EAGAIN)
  | Sret len =>
      with_local_client (to_bytes (delivery src len)) handle_event;;
      mret true
  end.

Definition seq_user_client_finalize_src (src : user_client_source) : M (cstate K) unit :=
  out (mem (g_free (src_buf src)));;
  g_object_unref_client.
End client.
