(* ===== verification/SeqUserClientFacts.v ===== *)
(** * Executions of the operations of the client

    The requests that send an object of the caller as data, and the heap and
    the system each operation of SeqUserClient.v leaves. *)
From S2P Require Import Prelude Heap SeqUapi Struct Kernel SeqStructs Sysfs SeqQuery SeqQueryFacts.
From S2P Require Import SeqEvent SeqEventFacts SeqEventCntr SeqEventCntrFacts SeqEventCntrProps.
From S2P Require Import SeqUserClient.

(** ** Requests with an object *)

Inductive info_request :=
  | RSetInfo
  | RGetInfo
  | RCreatePort
  | RCreatePortAt (port_id : Z)
  | RUpdatePort (port_id : Z)
  | RSetPool
  | RGetPool
  | RSubscribe
  | RUnsubscribe
  | RCreateQueue
  | RUpdateQueue
  | RSetTempo (queue_id : Z)
  | RSetTimer (queue_id : Z)
  | RRemoveEvents.

Definition info_size (q : info_request) : Z :=
  match q with
  | RSetInfo | RGetInfo => sizeof_client_info
  | RCreatePort | RCreatePortAt _ | RUpdatePort _ => sizeof_port_info
  | RSetPool | RGetPool => sizeof_client_pool
  | RSubscribe | RUnsubscribe => sizeof_port_subscribe
  | RCreateQueue | RUpdateQueue => sizeof_queue_info
  | RSetTempo _ => sizeof_queue_tempo
  | RSetTimer _ => sizeof_queue_timer
  | RRemoveEvents => sizeof_remove_events
  end.

Definition info_code (q : info_request) : request :=
  match q with
  | RSetInfo => SEQ_SET_CLIENT_INFO
  | RGetInfo => SEQ_GET_CLIENT_INFO
  | RCreatePort | RCreatePortAt _ => SEQ_CREATE_PORT
  | RUpdatePort _ => SEQ_SET_PORT_INFO
  | RSetPool => SEQ_SET_CLIENT_POOL
  | RGetPool => SEQ_GET_CLIENT_POOL
  | RSubscribe => SEQ_SUBSCRIBE_PORT
  | RUnsubscribe => SEQ_UNSUBSCRIBE_PORT
  | RCreateQueue => SEQ_CREATE_QUEUE
  | RUpdateQueue => SEQ_SET_QUEUE_INFO
  | RSetTempo _ => SEQ_SET_QUEUE_TEMPO
  | RSetTimer _ => SEQ_SET_QUEUE_TIMER
  | RRemoveEvents => SEQ_REMOVE_EVENTS
  end.

(** What the call writes to the structure before it sends it. *)
Definition info_prepare (client_id : Z) (q : info_request) (s : list byte) : list byte :=
  match q with
  | RSetInfo => fput ci_type USER_CLIENT (fput ci_client client_id s)
  | RGetInfo => fput ci_client client_id s
  | RCreatePort => fput pi_addr_client client_id s
  | RCreatePortAt p =>
      let s := fput pi_addr_port p s in
      let s := fput pi_flags (Z.lor (fget pi_flags s) SNDRV_SEQ_PORT_FLG_GIVEN_PORT) s in
      fput pi_addr_client client_id s
  | RUpdatePort p => fput pi_addr_port p (fput pi_addr_client client_id s)
  | RSetPool | RGetPool => fput pool_client client_id s
  | RSetTempo i => fput qt_queue i s
  | RSetTimer i => fput tm_queue i s
  | _ => s
  end.

(** The own code for a lack of permission. *)
Definition info_permission (q : info_request) : option Z :=
  match q with
  | RSubscribe | RUnsubscribe => Some ALSASEQ_USER_CLIENT_ERROR_PORT_PERMISSION
  | RUpdateQueue | RSetTempo _ | RSetTimer _ =>
      Some ALSASEQ_USER_CLIENT_ERROR_QUEUE_PERMISSION
  | _ => None
  end.

Definition info_label (q : info_request) : string :=
  match q with
  | RSetInfo => "ioctl(SET_CLIENT_INFO)"
  | RGetInfo => "ioctl(GET_CLIENT_INFO)"
  | RCreatePort | RCreatePortAt _ => "ioctl(CREATE_PORT)"
  | RUpdatePort _ => "ioctl(SET_PORT_INFO)"
  | RSetPool => "ioctl(SET_CLIENT_POOL)"
  | RGetPool => "ioctl(GET_CLIENT_POOL)"
  | RSubscribe => "ioctl(SUBSCRIBE_PORT)"
  | RUnsubscribe => "ioctl(UNSUBSCRIBE_PORT)"
  | RCreateQueue => "ioctl(CREATE_QUEUE)"
  | RUpdateQueue => "ioctl(SET_QUEUE_INFO)"
  | RSetTempo _ => "ioctl(SET_QUEUE_TEMPO)"
  | RSetTimer _ => "ioctl(SET_QUEUE_TIMER)"
  | RRemoveEvents => "ioctl(REMOVE_EVENTS)"
  end.

(** The error for the [errno] of the request. *)
Definition info_error (q : info_request) (e : Z) : option gerror :=
  match info_permission q with
  | Some code => if e =? EPERM then local_error code else syscall_error e (info_label q)
  | None => syscall_error e (info_label q)
  end.

(** The precondition on the structure: only ALSA timers are supported. *)
Definition info_supported (q : info_request) (s : list byte) : bool :=
  match q with
  | RSetTimer _ => fget tm_type s =? SNDRV_SEQ_TIMER_ALSA
  | _ => true
  end.

Section facts.
Context {AL : Allocator} {GL : GLib} {K : Type} {KERN : Kernel K} {UD : Udev K}.
Implicit Types (h : heap) (k : K) (w : world K) (c : user_client).

Definition run_info (q : info_request) (p : ptr) : M (cstate K) unit :=
  match q with
  | RSetInfo => alsaseq_user_client_set_info p
  | RGetInfo => alsaseq_user_client_get_info p
  | RCreatePort => alsaseq_user_client_create_port p
  | RCreatePortAt i => alsaseq_user_client_create_port_at p i
  | RUpdatePort i => alsaseq_user_client_update_port p i
  | RSetPool => alsaseq_user_client_set_pool p
  | RGetPool => alsaseq_user_client_get_pool p
  | RSubscribe => alsaseq_user_client_operate_subscription p true
  | RUnsubscribe => alsaseq_user_client_operate_subscription p false
  | RCreateQueue => alsaseq_user_client_create_queue p
  | RUpdateQueue => alsaseq_user_client_update_queue p
  | RSetTempo i => alsaseq_user_client_set_queue_tempo i p
  | RSetTimer i => alsaseq_user_client_set_queue_timer i p
  | RRemoveEvents => alsaseq_user_client_remove_events p
  end.

Lemma out_Ret {A} (m : M (world K) A) c w a w' :
  m w = (Ret a, w') → out m (CState c w) = (Ret a, CState c w').
Proof. intros H. unfold out, zoom. simpl. by rewrite H. Qed.

Lemma out_mem_Ret {A} (m : M heap A) c h k a h' :
  m h = (Ret a, h') → out (mem m) (CState c (World h k)) = (Ret a, CState c (World h' k)).
Proof. intros H. by apply out_Ret, mem_Ret. Qed.

Lemma out_initial_fail {A} (m : M (world K) A) c w e w' :
  m w = (Fail e, w') → out m (CState c w) = (Fail e, CState c w').
Proof. intros H. unfold out, zoom. simpl. by rewrite H. Qed.

Lemma bind_self {A} (f : user_client → M (cstate K) A) c w :
  (self ≫= f) (CState c w) = f c (CState c w).
Proof. done. Qed.

Lemma assign_block c h k a s n f v :
  h !! a = Some s → n = Z.of_nat (length s) → f_in f (length s) = true →
  assign (a, 0) n f v (CState c (World h k)) =
    (Ret tt, CState c (World (<[a := fput f v s]> h) k)).
Proof. intros Ha Hn Hf. by apply out_Ret, set_field_block. Qed.

Context {KL : KernelLaws K}.

(** Both forms of a request report [info_error]. *)
Lemma request_mem_run c h k a s n req r s' k' perm what :
  h !! a = Some s → n = Z.of_nat (length s) → s ≠ [] →
  sys_ioctl (uc_fd c) req s k = (r, s', k') →
  match perm with
  | Some code => request_mem_perm req (a, 0) n code what
  | None => request_mem req (a, 0) n what
  end (CState c (World h k)) =
  (match r with
   | Sret _ => Ret tt
   | Serr e =>
       Fail match perm with
            | Some code => if e =? EPERM then local_error code else syscall_error e what
            | None => syscall_error e what
            end
   end, CState c (World (<[a := s']> h) k')).
Proof.
  intros Ha Hn Hne E.
  pose proof (out_Ret _ c _ _ _ (ioctl_block h k a s n (uc_fd c) req r s' k' Ha Hn Hne E)) as Eo.
  destruct perm as [code|].
  - unfold request_mem_perm. rewrite bind_self, (bind_Ret _ _ _ _ _ Eo).
    destruct r as [u|e]; [by destruct u|]. by destruct (e =? EPERM).
  - unfold request_mem. rewrite bind_self, (bind_Ret _ _ _ _ _ Eo).
    by destruct r as [[]|e].
Qed.

Definition info_send (q : info_request) (p : ptr) : M (cstate K) unit :=
  match info_permission q with
  | Some code => request_mem_perm (info_code q) p (info_size q) code (info_label q)
  | None => request_mem (info_code q) p (info_size q) (info_label q)
  end.

Lemma length_info_prepare id q s :
  length s = Z.to_nat (info_size q) → length (info_prepare id q s) = length s.
Proof.
  intros Hl. destruct q; cbn [info_prepare info_size] in *; cbv zeta;
    repeat (rewrite length_fput; [|rewrite ?length_fput; rewrite ?length_fput; by rewrite Hl]);
    done.
Qed.

(** One assignment to the structure of the caller, and what follows. *)
Lemma assign_then {A} (m : M (cstate K) A) c h k a s n f v :
  h !! a = Some s → length s = Z.to_nat n → 0 ≤ n → f_in f (Z.to_nat n) = true →
  (assign (a, 0) n f v;; m) (CState c (World h k)) =
    m (CState c (World (<[a := fput f v s]> h) k)) ∧
  length (fput f v s) = Z.to_nat n.
Proof.
  intros Ha Hl Hn Hf. rewrite <- Hl in Hf. split; [|rewrite length_fput; done].
  rewrite (bind_Ret _ _ _ tt (CState c (World (<[a := fput f v s]> h) k))); [done|].
  apply assign_block; [done|lia|done].
Qed.

Lemma info_prepare_run q c h k a s :
  h !! a = Some s → length s = Z.to_nat (info_size q) → info_supported q s = true →
  run_info q (a, 0) (CState c (World h k)) =
    info_send q (a, 0) (CState c (World (<[a := info_prepare (uc_client_id c) q s]> h) k)).
Proof.
  intros Ha Hl Hs.
  assert (∀ {A} (m : M (cstate K) A) n f v s h', h' !! a = Some s → length s = Z.to_nat n →
    0 ≤ n → f_in f (Z.to_nat n) = true →
    (assign (a, 0) n f v;; m) (CState c (World h' k)) =
      m (CState c (World (<[a := fput f v s]> h') k))) as Hone.
  { intros. by apply assign_then. }
  assert (∀ f v s n, length s = Z.to_nat n → f_in f (Z.to_nat n) = true →
    length (fput f v s) = Z.to_nat n) as Hlen.
  { intros f v s0 n Hl0 Hf. rewrite length_fput; [done|by rewrite Hl0]. }
  destruct q; cbn [run_info info_prepare info_size] in *; unfold info_send;
    cbn [info_permission info_code info_label info_size];
    try by rewrite (insert_id h a s Ha).
  - unfold alsaseq_user_client_set_info. rewrite bind_self.
    rewrite (Hone _ _ _ _ _ s h) by done.
    rewrite (Hone _ _ _ _ _ (fput ci_client (uc_client_id c) s) _ (lookup_insert_eq _ _ _))
      by (try done; by apply Hlen).
    by rewrite insert_insert_eq.
  - unfold alsaseq_user_client_get_info. rewrite bind_self. by rewrite (Hone _ _ _ _ _ s h).
  - unfold alsaseq_user_client_create_port. rewrite bind_self. by rewrite (Hone _ _ _ _ _ s h).
  - unfold alsaseq_user_client_create_port_at, alsaseq_user_client_create_port.
    rewrite (Hone _ _ _ _ _ s h) by done. set (s1 := fput pi_addr_port port_id s).
    assert (length s1 = Z.to_nat sizeof_port_info) as Hl1 by by apply Hlen.
    rewrite (bind_Ret _ _ _ (fget pi_flags s1) (CState c (World (<[a := s1]> h) k))).
    2:{ apply out_Ret, get_field_run; [apply at_ptr_block, lookup_insert_eq|by rewrite Hl1]. }
    rewrite (Hone _ _ _ _ _ s1 _ (lookup_insert_eq _ _ _)) by done.
    set (s2 := fput pi_flags _ s1).
    assert (length s2 = Z.to_nat sizeof_port_info) as Hl2 by by apply Hlen.
    rewrite bind_self, insert_insert_eq.
    rewrite (Hone _ _ _ _ _ s2 _ (lookup_insert_eq _ _ _)) by done.
    by rewrite insert_insert_eq.
  - unfold alsaseq_user_client_update_port. rewrite bind_self.
    rewrite (Hone _ _ _ _ _ s h) by done.
    rewrite (Hone _ _ _ _ _ (fput pi_addr_client (uc_client_id c) s) _ (lookup_insert_eq _ _ _))
      by (try done; by apply Hlen).
    by rewrite insert_insert_eq.
  - unfold alsaseq_user_client_set_pool. rewrite bind_self. by rewrite (Hone _ _ _ _ _ s h).
  - unfold alsaseq_user_client_get_pool. rewrite bind_self. by rewrite (Hone _ _ _ _ _ s h).
  - unfold alsaseq_user_client_set_queue_tempo. by rewrite (Hone _ _ _ _ _ s h).
  - unfold alsaseq_user_client_set_queue_timer.
    rewrite (bind_Ret _ _ _ (fget tm_type s) (CState c (World h k))).
    2:{ apply out_Ret, get_field_run; [by apply at_ptr_block|by rewrite Hl]. }
    unfold info_supported in Hs. rewrite (bind_Ret _ _ _ tt (CState c (World h k)))
      by by rewrite Hs.
    by rewrite (Hone _ _ _ _ _ s h).
Qed.

Lemma info_request_run q c h k a s r s' k' :
  h !! a = Some s → length s = Z.to_nat (info_size q) → info_supported q s = true →
  sys_ioctl (uc_fd c) (info_code q) (info_prepare (uc_client_id c) q s) k = (r, s', k') →
  run_info q (a, 0) (CState c (World h k)) =
    (match r with Sret _ => Ret tt | Serr e => Fail (info_error q e) end,
     CState c (World (<[a := s']> h) k')).
Proof.
  intros Ha Hl Hs E. rewrite (info_prepare_run q c h k a s Ha Hl Hs). unfold info_send.
  pose proof (length_info_prepare (uc_client_id c) q s Hl) as Hlp.
  rewrite (request_mem_run c _ k a (info_prepare (uc_client_id c) q s) (info_size q)
    (info_code q) r s' k' (info_permission q) (info_label q)); [|..|exact E].
  - rewrite insert_insert_eq. by destruct r.
  - apply lookup_insert_eq.
  - rewrite Hlp, Hl, Z2Nat.id; [done|]. by destruct q.
  - intros E0. rewrite E0 in Hlp. destruct s; [|done]. by destruct q.
Qed.

(** *** Delivery *)

(** The report of a [write] that should have taken [n] bytes. *)
Definition write_outcome {A} (r : sysret Z) (ok : Z → outcome A) : outcome A :=
  match r with Sret m => ok m | Serr e => Fail (write_error e) end.

Lemma do_write_run h k fd p n bs r k' :
  at_ptr h p bs → n = Z.of_nat (length bs) → sys_write fd bs k = (r, k') →
  do_write fd p n (World h k) = (Ret r, World h k').
Proof.
  intros Hat Hn E. unfold do_write.
  rewrite (bind_Ret _ _ _ _ _ (mem_Ret _ h k _ _ (load_at h p bs n Hat Hn))).
  by apply sys_run.
Qed.

(** The first event of the list that cannot be delivered, with its index. *)
Definition first_undeliverable (xs : list payload) : option (nat * payload) :=
  list_find (λ x, seq_event_is_deliverable x.1 = false) xs.

(** The events are deliverable: the check passes, or stops at the first one
    that is not. *)
Lemma check_deliverable_run c h k ps xs i :
  events_at h ps xs →
  check_deliverable (boxes ps) i (CState c (World h k)) =
    (match first_undeliverable xs with
     | None => Ret tt
     | Some (j, _) =>
         Fail (Some (GError ALSASEQ_USER_CLIENT_ERROR
                       ALSASEQ_USER_CLIENT_ERROR_EVENT_UNDELIVERABLE
                       "The operation failes due to undeliverable event: index"
                       (Some (i + Z.of_nat j))))
     end, CState c (World h k)).
Proof.
  intros H. revert i. induction H as [|p x ps xs Hx Hxs IH]; intros i; [done|].
  cbn [boxes map check_deliverable]. unfold first_undeliverable. cbn [list_find].
  fold (first_undeliverable xs). rewrite (events_nonnull h p x Hx).
  rewrite (bind_Ret _ _ _ tt (CState c (World h k))) by done.
  rewrite (bind_Ret _ _ _ x.1 (CState c (World h k)))
    by (apply out_mem_Ret, load_event_run, Hx).
  destruct (decide (seq_event_is_deliverable x.1 = false)) as [->|Hd].
  - simpl. by rewrite Z.add_0_r.
  - apply not_false_is_true in Hd. rewrite Hd. cbn [negb].
    fold (boxes ps). rewrite IH.
    destruct (first_undeliverable xs) as [[j y]|]; [|done].
    replace (i + 1 + Z.of_nat j) with (i + Z.of_nat (S j)) by lia. done.
Qed.

(** The count of the events of the list that end within the result. *)
Fixpoint scheduled_pos (xs : list payload) (result pos scheduled : Z) : Z * Z :=
  match xs with
  | [] => (pos, scheduled)
  | x :: xs =>
      let pos := pos + cell_length false x in
      if result <=? pos then (pos, scheduled + 1)
      else scheduled_pos xs result pos (scheduled + 1)
  end.

Lemma count_scheduled_run c h k ps xs result pos n :
  events_at h ps xs → 0 ≤ pos → pos + sum_Z (cell_length false) xs < 2 ^ 64 →
  count_scheduled (boxes ps) result pos n (CState c (World h k)) =
    (Ret (scheduled_pos xs result pos n), CState c (World h k)).
Proof.
  intros H. revert pos n. induction H as [|p x ps xs Hx Hxs IH]; intros pos n Hp Hlt; [done|].
  cbn [sum_Z foldr] in Hlt. fold (sum_Z (cell_length false) xs) in Hlt.
  pose proof (cell_length_bounds false x ltac:(apply Hx) (event_at_blob_ok _ _ _ _ Hx)).
  pose proof (sum_cells_nonneg false xs (events_ok h ps xs Hxs)).
  cbn [boxes map count_scheduled scheduled_pos]. cbv zeta.
  rewrite (bind_Ret _ _ _ (cell_length false x) (CState c (World h k)))
    by (apply out_mem_Ret, calculate_length_run, Hx).
  rewrite u64_id by (unfold is_u64; lia).
  destruct (result <=? pos + cell_length false x); [done|]. fold (boxes ps).
  apply IH; lia.
Qed.

(** When the result is the end of the event [j], [j] events are counted; when
    it is within an event, the position differs from it. *)
Lemma scheduled_pos_spec xs result pos n :
  Forall (λ x, 0 < cell_length false x) xs → pos < result →
  result ≤ pos + sum_Z (cell_length false) xs →
  ∃ j, (1 ≤ j ≤ length xs)%nat ∧
    scheduled_pos xs result pos n =
      (pos + sum_Z (cell_length false) (take j xs), n + Z.of_nat j) ∧
    pos + sum_Z (cell_length false) (take (j - 1) xs) < result ≤
      pos + sum_Z (cell_length false) (take j xs).
Proof.
  intros H. revert pos n. induction H as [|x xs Hx _ IH]; intros pos n Hlt Hle.
  { cbn in Hle. lia. }
  cbn [sum_Z foldr] in Hle. fold (sum_Z (cell_length false) xs) in Hle.
  cbn [scheduled_pos]. cbv zeta.
  destruct (Z.leb_spec result (pos + cell_length false x)) as [Hr|Hr].
  - exists 1%nat. change (take 1 (x :: xs)) with (x :: take 0 xs).
    change (take (1 - 1) (x :: xs)) with (@nil payload). rewrite take_0, sum_Z_cons.
    change (sum_Z (cell_length false) []) with 0. cbn [length].
    split_and!; [lia|lia|f_equal; lia|lia|lia].
  - destruct (IH (pos + cell_length false x) (n + 1) Hr ltac:(lia)) as (j & Hj & E & Hb).
    exists (S j). rewrite E. destruct j as [|j]; [lia|].
    replace (S (S j) - 1)%nat with (S j) by lia. replace (S j - 1)%nat with j in Hb by lia.
    change (take (S (S j)) (x :: xs)) with (x :: take (S j) xs).
    change (take (S j) (x :: xs)) with (x :: take j xs).
    rewrite !sum_Z_cons. cbn [length]. split_and!; [lia|lia|f_equal; lia|lia|lia].
Qed.
End facts.
