(* ===== verification/SeqUserClientProps.v ===== *)
(** * Properties of the client of the sequencer *)
From S2P Require Import Prelude Heap SeqUapi Struct Kernel SeqStructs Sysfs SeqQuery SeqQueryFacts.
From S2P Require Import SeqEvent SeqEventFacts SeqEventCntr SeqEventCntrFacts SeqEventCntrProps.
From S2P Require Import SeqUserClient SeqUserClientFacts SampleSystem SeqEventSamples.

Section lemmas.
Context {AL : Allocator} {LAWS : AllocatorLaws} {GL : GLib} {K : Type} {KERN : Kernel K}.
Context {KL : KernelLaws K} {UD : Udev K}.
Implicit Types (h : heap) (k : K) (c : user_client).

Lemma cell_length_unaligned e blob :
  c_ok e → blob_ok e blob → cell_length false (e, blob) = 28 + Z.of_nat (length blob).
Proof.
  intros Hok Hb. unfold cell_length. cbn [fst]. rewrite flattened_length_false by done.
  unfold blob_ok in Hb. unfold sizeof_event. destruct (variable e); by rewrite Hb.
Qed.

Lemma cell_unaligned e blob :
  c_ok e → blob_ok e blob → cell false (e, blob) = to_bytes e ++ blob.
Proof.
  intros Hok Hb. unfold cell. cbn [fst snd]. rewrite cell_length_unaligned by done.
  replace (Z.to_nat (28 + Z.of_nat (length blob)) - 28 - length blob)%nat with O by lia.
  by rewrite app_nil_r.
Qed.

(** What is sent: the event itself, or a temporary flattened copy of it. *)
Lemma event_buffer_run c h k p e blob a :
  event_at h p e blob → (blob ≠ [] → alloc_addr h (28 + Z.of_nat (length blob)) = Some a) →
  let n := 28 + Z.of_nat (length blob) in
  ∃ buf h1,
    (if n =? sizeof_event then mret (p, 0) else
       a ← out (mem (g_malloc0 n));
       void_call (out (mem (seq_event_copy_flattened (p, 0) (a, 0) n)));;
       mret (a, 0)) (CState c (World h k)) = (Ret buf, CState c (World h1 k)) ∧
    at_ptr h1 buf (to_bytes e ++ blob) ∧
    ∀ k', (if negb (n =? sizeof_event) then out (mem (g_free (p_addr buf))) else mret tt)
        (CState c (World h1 k')) = (Ret tt, CState c (World h k')).
Proof.
  intros H Ha n. pose proof (event_at_blob_ok _ _ _ _ H) as Hb.
  assert (Hok := proj1 (proj2 (proj1 H)) : c_ok e).
  destruct blob as [|b blob].
  - exists (p, 0), h. split; [done|]. rewrite app_nil_r. split; [by apply boxed_at, H|done].
  - specialize (Ha ltac:(done)). fold n in Ha.
    assert (n ≠ 28) as Hn by (unfold n; simpl; lia).
    assert (cell_length false (e, b :: blob) = n) as En by by apply cell_length_unaligned.
    pose proof (alloc_fresh _ _ _ Ha) as Hf. pose proof (alloc_nonnull _ _ _ Ha) as Hp.
    set (h0 := <[a := zeros (Z.to_nat n)]> h).
    pose proof (fresh_off h a p (e, b :: blob) H Hf) as Hoff.
    pose proof (event_at_insert h a (zeros (Z.to_nat n)) p (e, b :: blob) Hoff H) as H0.
    pose proof (copy_flattened_run h0 p (e, b :: blob) a [] [] false 0 H0 Hoff eq_refl) as Ec.
    rewrite En in Ec. cbn [app] in Ec. rewrite !app_nil_r in Ec.
    specialize (Ec (lookup_insert_eq _ _ _)).
    rewrite cell_unaligned in Ec by done.
    exists (a, 0), (<[a := to_bytes e ++ b :: blob]> h). split_and!.
    + destruct (Z.eqb_spec n sizeof_event); [done|].
      rewrite (bind_Ret _ _ _ _ _ (out_mem_Ret _ c h k _ _ (g_malloc0_some h n a ltac:(lia) Ha))).
      rewrite (bind_Ret _ _ _ tt (CState c (World (<[a := to_bytes e ++ b :: blob]> h) k))); [done|].
      fold h0. unfold void_call. rewrite (out_mem_Ret _ c _ k _ _ Ec). unfold h0.
      by rewrite insert_insert_eq.
    + apply at_ptr_block, lookup_insert_eq.
    + intros k'. destruct (Z.eqb_spec n sizeof_event); [done|]. cbn [negb].
      unfold p_addr. cbn [fst snd]. rewrite Z.add_0_r. apply out_mem_Ret.
      rewrite (g_free_block _ _ _ (proj1 Hp) (lookup_insert_eq _ _ _)).
      by rewrite delete_insert_id.
Qed.

(** The local container of a list of events, once it is serialized. *)
Lemma local_cntr_run c h k ps xs a0 b :
  events_at h ps xs → ps ≠ [] → sum_Z (cell_length false) xs < 2 ^ 63 →
  alloc_addr h 24 = Some a0 →
  alloc_addr (<[a0 := to_bytes zero_cntr]> h) (sum_Z (cell_length false) xs) = Some b →
  ∃ h' cntr,
    out (mem (with_local (to_bytes zero_cntr) (λ cntr,
      void_call (seq_event_cntr_serialize cntr (boxes ps) false);; load_cntr cntr)))
      (CState c (World h k)) = (Ret cntr, CState c (World h' k)) ∧
    cntr_length cntr = sum_Z (cell_length false) xs ∧ cntr_buf cntr = b ∧ 0 < b ∧
    h' !! b = Some (cells false xs) ∧ delete b h' = h ∧ events_at h ps xs ∧
    sum_Z (cell_length false) xs ≠ 0.
Proof.
  intros Hev Hne Hlt Ha Hab.
  pose proof (alloc_fresh _ _ _ Ha) as Hfa. pose proof (alloc_fresh _ _ _ Hab) as Hfb.
  pose proof (alloc_nonnull _ _ _ Ha) as Hpa. pose proof (alloc_nonnull _ _ _ Hab) as Hpb.
  assert (b ≠ a0) as Hba by (intros ->; by rewrite lookup_insert_eq in Hfb).
  rewrite lookup_insert_ne in Hfb by done.
  set (h1 := <[a0 := to_bytes zero_cntr]> h) in *.
  pose proof (fresh_off_all h a0 ps xs Hev Hfa) as Hoff.
  destruct (serialize_run h1 (a0, 0) zero_cntr ps xs false b)
    as (h2 & c' & E & Hc & Hb & Ebuf & _ & _ & _ & Hf); [..|done|].
  - apply at_ptr_block, lookup_insert_eq.
  - by split_and!.
  - by apply events_at_insert.
  - done.
  - split_and!; [unfold p_addr; cbn; lia|done|done].
  - done.
  - exists (delete a0 h2), c'. destruct Hc as (Hat & Hok & _ & _ & Hl & _).
    assert (sum_Z (cell_length false) xs = cntr_length c') as Es.
    { rewrite Hl, (length_cells false); [done|]. by eapply events_ok. }
    split_and!; [|done|done|lia| | |done|].
    + apply out_mem_Ret. unfold with_local. change (Z.of_nat (length _)) with 24. rewrite Ha.
      fold h1. erewrite bind_Ret; [|unfold void_call; by rewrite E].
      rewrite (load_cntr_at h2 (a0, 0) c' Hat Hok). done.
    + by rewrite lookup_delete_ne.
    + apply map_eq. intros i. destruct (decide (i = b)) as [->|Hib].
      { by rewrite lookup_delete_eq. }
      rewrite lookup_delete_ne by done. destruct (decide (i = a0)) as [->|Hia].
      { by rewrite lookup_delete_eq. }
      rewrite lookup_delete_ne, Hf by (try done; by right). by apply lookup_insert_ne.
    + pose proof (events_ok h ps xs Hev) as Hoks.
      destruct Hev as [|p x ps xs Hx Hxs]; [done|]. rewrite sum_Z_cons.
      inversion Hoks as [|? ? [? ?] Hoks']; subst.
      pose proof (cell_length_bounds false x ltac:(done) ltac:(done)).
      pose proof (sum_cells_nonneg false xs Hoks'). lia.
Qed.

(** The run of the scheduling of a list. *)
Lemma schedule_events_run c h k ps xs a0 b r k' :
  events_at h ps xs → ps ≠ [] → sum_Z (cell_length false) xs < 2 ^ 63 →
  alloc_addr h 24 = Some a0 →
  alloc_addr (<[a0 := to_bytes zero_cntr]> h) (sum_Z (cell_length false) xs) = Some b →
  sys_write (uc_fd c) (cells false xs) k = (r, k') →
  let run := alsaseq_user_client_schedule_events (boxes ps) (CState c (World h k)) in
  match first_undeliverable xs with
  | Some (j, _) =>
      run = (Fail (Some (GError ALSASEQ_USER_CLIENT_ERROR
        ALSASEQ_USER_CLIENT_ERROR_EVENT_UNDELIVERABLE
        "The operation failes due to undeliverable event: index" (Some (Z.of_nat j)))),
        CState c (World h k))
  | None =>
      match r with
      | Serr e => run = (Fail (write_error e), CState c (World h k'))
      | Sret m =>
          (∀ j, (1 ≤ j ≤ length xs)%nat → m = sum_Z (cell_length false) (take j xs) →
             run = (Ret (Some (Z.of_nat j)), CState c (World h k'))) ∧
          ((∀ j, (1 ≤ j ≤ length xs)%nat → m ≠ sum_Z (cell_length false) (take j xs)) →
             run = (Critical, CState c (World h k')))
      end
  end.
Proof.
  intros Hev Hne Hlt Ha Hab E run. unfold run, alsaseq_user_client_schedule_events.
  rewrite bind_self. pose proof (check_deliverable_run c h k ps xs 0 Hev) as Ec.
  destruct (first_undeliverable xs) as [[j y]|].
  { rewrite Z.add_0_l in Ec. exact (bind_Fail _ _ _ _ _ Ec). }
  rewrite (bind_Ret _ _ _ _ _ Ec).
  destruct (local_cntr_run c h k ps xs a0 b Hev Hne Hlt Ha Hab)
    as (h' & cntr & El & Hl & Hb & Hb0 & Hbuf & Hdel & _ & Hz).
  rewrite (bind_Ret _ _ _ _ _ El), Hl, Hb. destruct (Z.eqb_spec (sum_Z (cell_length false) xs) 0); [done|].
  pose proof (events_ok h ps xs Hev) as Hoks.
  rewrite (bind_Ret _ _ _ _ _ (out_Ret _ c _ _ _ (do_write_run h' k (uc_fd c) (b, 0)
    (sum_Z (cell_length false) xs) (cells false xs) r k' (at_ptr_block _ _ _ Hbuf)
    ltac:(symmetry; by apply length_cells) E))).
  rewrite (bind_Ret _ _ _ _ _ (out_mem_Ret _ c h' k' _ _ (g_free_block h' b _ Hb0 Hbuf))), Hdel.
  destruct r as [m|e]; [|done].
  pose proof (sum_cells_nonneg false xs Hoks) as Hs0.
  rewrite (bind_Ret _ _ _ _ _ (count_scheduled_run c h k' ps xs m 0 0 Hev ltac:(lia) ltac:(lia))).
  pose proof (write_bound (uc_fd c) (cells false xs) k m k' E) as Hm.
  rewrite length_cells in Hm by done.
  assert (Forall (λ x, 0 < cell_length false x) xs) as Hpos.
  { eapply Forall_impl; [exact Hoks|]. intros x [Hok Hbo].
    pose proof (cell_length_bounds false x Hok Hbo). lia. }
  set (S i := sum_Z (cell_length false) (take i xs)) in *.
  assert (∀ i j, (i < j)%nat → (i < length xs)%nat → S i < S j) as Hlt2
    by (intros; by apply sum_Z_take_lt).
  assert (S 0%nat = 0) as HS0 by (unfold S; by rewrite take_0).
  destruct (decide (m = 0)) as [->|Hm0].
  { assert (∀ j, (1 ≤ j ≤ length xs)%nat → 0 < S j) as Hne0.
    { intros j Hj. rewrite <- HS0. apply Hlt2; lia. }
    split; [intros j Hj Hmj; change (0 = S j) in Hmj; specialize (Hne0 j Hj); lia|]. intros _.
    destruct xs as [|x xs]; [done|]. inversion Hpos; subst.
    cbn [scheduled_pos]. cbv zeta. destruct (Z.leb_spec 0 (0 + cell_length false x)); [|lia].
    by destruct (Z.eqb_spec 0 (0 + cell_length false x)); [lia|]. }
  destruct (scheduled_pos_spec xs m 0 0 Hpos ltac:(lia) ltac:(lia)) as (j & Hj & -> & Hlo & Hhi).
  fold (S j) (S (j - 1)%nat) in Hlo, Hhi |- *. rewrite !Z.add_0_l in *.
  split.
  - intros i Hi Hmi. change (m = S i) in Hmi. assert (i = j) as ->.
    { destruct (lt_eq_lt_dec i j) as [[Hij|Hij]|Hij]; [|done|].
      - destruct (decide (i = j - 1)%nat) as [->|]; [lia|]. specialize (Hlt2 i (j - 1)%nat). lia.
      - specialize (Hlt2 j i). lia. }
    by rewrite Hmi, Z.eqb_refl.
  - intros Hno. destruct (Z.eqb_spec m (S j)) as [Em|]; [|done]. by destruct (Hno j Hj).
Qed.

(** The container of a delivery, once the bytes are read and its structure is
    in memory. *)
Lemma dispatch_container c h k src old bs k' a :
  Z.of_nat (length old) = src_buf_len src → 0 < src_buf src < 2 ^ 64 → src_buf_len src < 2 ^ 31 →
  sys_read (uc_fd c) (src_buf_len src) k = (Sret bs, k') →
  let h1 := <[src_buf src := bs ++ drop (length bs) old]> h in
  alloc_addr h1 24 = Some a →
  let cntr := delivery src (Z.of_nat (length bs)) in
  cntr_at (<[a := to_bytes cntr]> h1) (a, 0) cntr bs.
Proof.
  intros Hlen Hbuf Hmax E h1 Ha cntr.
  pose proof (read_bound (uc_fd c) (src_buf_len src) k bs k' ltac:(lia) E) as Hb.
  pose proof (alloc_fresh _ _ _ Ha) as Hfa.
  assert (a ≠ src_buf src) as Hne by (intros ->; unfold h1 in Hfa; by rewrite lookup_insert_eq in Hfa).
  split; [apply at_ptr_block, lookup_insert_eq|]. split.
  - split_and!; [unfold is_u64; cbn; lia|unfold is_u64; cbn; lia|done|done].
  - cbn [cntr cntr_buf cntr_length delivery]. split_and!; [|lia|done|lia].
    apply at_ptr_insert; [done|]. eapply at_ptr_app_l, at_ptr_block, lookup_insert_eq.
Qed.

(** What a dispatch makes of the outcome of the handlers, and of the automatic
    variable at [a]. *)
Definition dispatch_outcome (o : outcome unit) : outcome bool :=
  match o with
  | Ret _ => Ret true
  | Fail e => Fail e
  | Critical => Critical
  | UB => UB
  | Oom => Oom
  end.

Definition without_local (a : Z) (s : cstate K) : cstate K :=
  CState (cs_self s) (World (delete a (w_heap (cs_world s))) (w_kern (cs_world s))).

(** A dispatch that reads [bs] runs the handlers on the container. *)
Lemma dispatch_buffer_run c h k src condition handler old bs k' :
  0 ≤ uc_fd c → Z.land condition G_IO_ERR = 0 →
  h !! src_buf src = Some old → Z.of_nat (length old) = src_buf_len src →
  0 < src_buf src < 2 ^ 64 → src_buf_len src < 2 ^ 31 →
  sys_read (uc_fd c) (src_buf_len src) k = (Sret bs, k') → bs ≠ [] →
  let h1 := <[src_buf src := bs ++ drop (length bs) old]> h in
  seq_user_client_dispatch_src src condition handler (CState c (World h k)) =
    match alloc_addr h1 24 with
    | None => (Oom, CState c (World h1 k'))
    | Some a =>
        let cntr := delivery src (Z.of_nat (length bs)) in
        let '(o, s') := handler (a, 0) (CState c (World (<[a := to_bytes cntr]> h1) k')) in
        (dispatch_outcome o, without_local a s')
    end.
Proof.
  intros Hfd Hcond Hold Hlen Hbuf Hmax E Hbs h1. unfold seq_user_client_dispatch_src.
  rewrite bind_self. destruct (Z.ltb_spec (uc_fd c) 0); [lia|].
  rewrite Hcond. change (negb (0 =? 0)) with false. cbv iota.
  rewrite (bind_Ret _ _ _ (Sret (Z.of_nat (length bs))) (CState c (World h1 k'))).
  2:{ apply out_Ret. unfold do_read. rewrite (bind_Ret _ _ _ _ _ (sys_run _ h k _ k' E)).
      rewrite (bind_Ret _ _ _ tt (World h1 k')); [done|]. apply mem_Ret.
      pose proof (read_bound (uc_fd c) (src_buf_len src) k bs k' ltac:(lia) E) as Hb.
      apply store_prefix; [done|lia]. }
  unfold with_local_client, mbind, M_bind. cbn [cs_world cs_self w_heap w_kern].
  change (Z.of_nat (length (to_bytes (delivery src (Z.of_nat (length bs)))))) with 24.
  destruct (alloc_addr h1 24) as [a|]; [|done]. cbv zeta.
  by destruct (handler (a, 0) _) as [[] s'].
Qed.
End lemmas.

Section props.
Context {AL : Allocator} {LAWS : AllocatorLaws} {GL : GLib} {K : Type} {KERN : Kernel K}.
Context {KL : KernelLaws K} {UD : Udev K}.
Implicit Types (h : heap) (k : K) (c : user_client).

(** Scheduling one event hands the kernel exactly its flattened bytes, the
    structure and the blob behind it, in one write, and releases whatever
    memory it took for them.  The call succeeds when the kernel takes all of
    them, reports the error when it takes none, and an event that cannot be
    delivered is refused before anything is sent. *)
Theorem schedule_event_spec c h k p e blob a r k' :
  event_at h p e blob →
  (blob ≠ [] → alloc_addr h (28 + Z.of_nat (length blob)) = Some a) →
  sys_write (uc_fd c) (to_bytes e ++ blob) k = (r, k') →
  alsaseq_user_client_schedule_event (p, 0) (CState c (World h k)) =
    if seq_event_is_deliverable e then
      (write_outcome r (λ m, if m =? 28 + Z.of_nat (length blob) then Ret tt else Critical),
       CState c (World h k'))
    else (Fail undeliverable, CState c (World h k)).
Proof.
  intros H Ha E. unfold alsaseq_user_client_schedule_event. rewrite bind_self.
  rewrite (bind_Ret _ _ _ _ _ (out_mem_Ret _ c h k _ _ (load_event_run h p e (proj1 H)))).
  destruct (seq_event_is_deliverable e); [|done]. cbn [negb].
  pose proof (calculate_length_run h p (e, blob) false H) as El.
  rewrite (cell_length_unaligned e blob ltac:(apply H) (event_at_blob_ok _ _ _ _ H)) in El.
  rewrite (bind_Ret _ _ _ _ _ (out_mem_Ret _ c h k _ _ El)).
  destruct (event_buffer_run c h k p e blob a H Ha) as (buf & h1 & Eb & Hat & Efree).
  rewrite (bind_Ret _ _ _ _ _ Eb).
  assert (length (to_bytes e) = 28%nat) as L by (apply length_to_bytes_event, H).
  rewrite (bind_Ret _ _ _ _ _ (out_Ret _ c _ _ _ (do_write_run h1 k (uc_fd c) buf
    (28 + Z.of_nat (length blob)) _ r k' Hat ltac:(rewrite length_app, L; lia) E))).
  rewrite (bind_Ret _ _ _ _ _ (Efree k')).
  destruct r as [m|er]; [|done]. unfold write_outcome, g_return_if_fail. by destruct (m =? _).
Qed.

(** C4: scheduling a list of events hands the kernel their flattened bytes,
    one event after the other, in one write, and leaves the memory as it was.
    When what the kernel took ends with the [j]-th event, the call succeeds
    with the count [j]; when it ends elsewhere the call is refused by its own
    consistency check; when the write fails the error is reported; and when
    an event of the list cannot be delivered nothing is sent and the error
    has its index. *)
Theorem schedule_events_spec c h k ps xs a0 b r k' :
  events_at h ps xs → ps ≠ [] → sum_Z (cell_length false) xs < 2 ^ 63 →
  alloc_addr h 24 = Some a0 →
  alloc_addr (<[a0 := to_bytes zero_cntr]> h) (sum_Z (cell_length false) xs) = Some b →
  sys_write (uc_fd c) (cells false xs) k = (r, k') →
  let run := alsaseq_user_client_schedule_events (boxes ps) (CState c (World h k)) in
  match first_undeliverable xs with
  | Some (j, _) =>
      run = (Fail (Some (GError ALSASEQ_USER_CLIENT_ERROR
        ALSASEQ_USER_CLIENT_ERROR_EVENT_UNDELIVERABLE
        "The operation failes due to undeliverable event: index" (Some (Z.of_nat j)))),
        CState c (World h k))
  | None =>
      match r with
      | Serr e => run = (Fail (write_error e), CState c (World h k'))
      | Sret m =>
          (∀ j, (1 ≤ j ≤ length xs)%nat → m = sum_Z (cell_length false) (take j xs) →
             run = (Ret (Some (Z.of_nat j)), CState c (World h k'))) ∧
          ((∀ j, (1 ≤ j ≤ length xs)%nat → m ≠ sum_Z (cell_length false) (take j xs)) →
             run = (Critical, CState c (World h k')))
      end
  end.
Proof. apply schedule_events_run. Qed.

(** C31: each of the fourteen requests that carry an information object sends
    the kernel one request with the structure of the object, in which only
    the fields that identify the client, the port or the queue are filled in;
    the object then holds what the kernel left, the private data of the client
    is unchanged and so is all other memory.  A refusal is reported with its
    [errno], and the lack of a permission with the code of its own where the
    interface has one. *)
Theorem info_request_spec q c h k a s r s' k' :
  h !! a = Some s → length s = Z.to_nat (info_size q) →
  sys_ioctl (uc_fd c) (info_code q) (info_prepare (uc_client_id c) q s) k = (r, s', k') →
  run_info q (a, 0) (CState c (World h k)) =
    if info_supported q s then
      (match r with Sret _ => Ret tt | Serr e => Fail (info_error q e) end,
       CState c (World (<[a := s']> h) k'))
    else (Critical, CState c (World h k)).
Proof.
  intros Ha Hl E. destruct (info_supported q s) eqn:Hs; [by apply (info_request_run q c h k a s)|].
  destruct q; try done. cbn [run_info]. unfold alsaseq_user_client_set_queue_timer.
  rewrite (bind_Ret _ _ _ (fget tm_type s) (CState c (World h k))).
  - unfold info_supported in Hs. by rewrite Hs.
  - apply out_Ret, get_field_run; [by apply at_ptr_block|by rewrite Hl].
Qed.

(** Opening the client stores the new descriptor, the node, the number of
    the client and the version of the protocol in the object.  When a request
    on the new descriptor is refused, the descriptor is closed and the client
    is left closed.  No path closes the descriptor the client had before. *)
Theorem open_spec c h k flags node fd s1 s2 r1 r2 k1 k2 k3 k4 :
  alsaseq_get_seq_devnode (World h k) = (Ret node, World h k1) →
  sys_open node (Z.lor flags O_RDWR) k1 = (Sret fd, k2) →
  sys_ioctl fd SEQ_CLIENT_ID (le_split 4 (uc_client_id c)) k2 = (r1, s1, k3) →
  sys_ioctl fd SEQ_PVERSION (alloc_junk h 4) k3 = (r2, s2, k4) →
  let run := alsaseq_user_client_open flags (CState c (World h k)) in
  let id := fget (i32f 0) s1 in
  let v := fget (i32f 0) s2 in
  match r1, r2 with
  | Serr e, _ =>
      run = (Fail (syscall_error e "ioctl(CLIENT_ID)"),
        CState (UserClient (-1) (Some node) id (uc_proto_ver_triplet c) (uc_refs c))
          (World h (sys_close fd k3)))
  | Sret _, Serr e =>
      run = (Fail (syscall_error e "ioctl(PVERSION)"),
        CState (UserClient (-1) (Some node) id (uc_proto_ver_triplet c) (uc_refs c))
          (World h (sys_close fd k4)))
  | Sret _, Sret _ =>
      run = (Ret tt,
        CState (UserClient fd (Some node) id
                  [SNDRV_PROTOCOL_MAJOR v; SNDRV_PROTOCOL_MINOR v; SNDRV_PROTOCOL_MICRO v]
                  (uc_refs c))
          (World h k4))
  end.
Proof.
  intros Hn Ho E1 E2 run id v. unfold run, alsaseq_user_client_open.
  rewrite (bind_Ret _ _ _ _ _ (out_Ret _ c _ _ _ Hn)).
  rewrite (bind_Ret _ _ _ _ _ (out_Ret _ c _ _ _ (sys_run _ h k1 _ k2 Ho))).
  unfold upd, self, modify, gets, out, zoom, ioctl_val, do_close, sys, generate_syscall_error,
    fail, mbind, M_bind. cbn [cs_self cs_world w_heap w_kern uc_client_id set_fd set_devnode].
  rewrite E1. destruct r1 as [u1|e1]; cbn; [|done].
  rewrite E2. by destruct r2 as [u2|e2].
Qed.

(** A refused [open] is reported with the code of another error: GLib's
    code for the [errno] is given to the conversion as if it were an [errno]
    once more.  A lack of permission is reported as a missing file, and a
    missing file as an interrupted call; a refused [write] is reported as
    what it is. *)
Theorem open_refused_misreported `{!GLibLaws} c h k flags node e k1 k2 :
  alsaseq_get_seq_devnode (World h k) = (Ret node, World h k1) →
  sys_open node (Z.lor flags O_RDWR) k1 = (Serr e, k2) →
  alsaseq_user_client_open flags (CState c (World h k)) =
    (Fail (open_error e), CState (set_fd (-1) c) (World h k2)) ∧
  open_error EACCES = Some (GError G_FILE_ERROR G_FILE_ERROR_NOENT "open" None) ∧
  open_error ENOENT = Some (GError G_FILE_ERROR (g_file_error_from_errno EINTR) "open" None) ∧
  (∀ e, write_error e =
     if g_file_error_from_errno e =? G_FILE_ERROR_FAILED then syscall_error e "write"
     else Some (GError G_FILE_ERROR (g_file_error_from_errno e) "write" None)).
Proof.
  intros Hn Ho. split_and!.
  - unfold alsaseq_user_client_open.
    rewrite (bind_Ret _ _ _ _ _ (out_Ret _ c _ _ _ Hn)).
    by rewrite (bind_Ret _ _ _ _ _ (out_Ret _ c _ _ _ (sys_run _ h k1 _ k2 Ho))).
  - unfold open_error. by rewrite !file_error_doc.
  - unfold open_error. by rewrite !file_error_doc.
  - intros e'. unfold write_error. by destruct (_ =? _).
Qed.

(** The source of events hands what it reads to the handlers: when the
    kernel delivers whole structures, the handlers get a container whose
    events can be read within the bytes that were read, whatever they hold;
    the source stays.  When there is nothing to read yet the source stays
    too; it is removed on any other error of [read], on an error condition
    and for a closed client. *)
Theorem dispatch_delivers c h k src condition handler old r k' :
  0 ≤ uc_fd c → Z.land condition G_IO_ERR = 0 →
  h !! src_buf src = Some old → Z.of_nat (length old) = src_buf_len src →
  0 < src_buf src < 2 ^ 64 → src_buf_len src < 2 ^ 31 →
  sys_read (uc_fd c) (src_buf_len src) k = (r, k') →
  let run := seq_user_client_dispatch_src src condition handler (CState c (World h k)) in
  match r with
  | Serr e => run = (Ret (e =? EAGAIN), CState c (World h k'))
  | Sret bs => ∀ n a, length bs = (28 * n)%nat → (0 < n)%nat →
      let h1 := <[src_buf src := bs ++ drop (length bs) old]> h in
      alloc_addr h1 24 = Some a →
      let cntr := delivery src (Z.of_nat (length bs)) in
      let h2 := <[a := to_bytes cntr]> h1 in
      cntr_at h2 (a, 0) cntr bs ∧
      (∃ xs, layout true bs xs ∧ (length xs ≤ n)%nat ∧
         deserialized h2 [] xs (alsaseq_event_cntr_deserialize (a, 0) [] h2)) ∧
      ∀ c' h3 k3, handler (a, 0) (CState c (World h2 k')) = (Ret tt, CState c' (World h3 k3)) →
        run = (Ret true, CState c' (World (delete a h3) k3))
  end.
Proof.
  intros Hfd Hcond Hold Hlen Hbuf Hmax E run. destruct r as [bs|e].
  2:{ unfold run, seq_user_client_dispatch_src. rewrite bind_self.
      destruct (Z.ltb_spec (uc_fd c) 0); [lia|]. rewrite Hcond. change (negb (0 =? 0)) with false.
      cbv iota. rewrite (bind_Ret _ _ _ (Serr e) (CState c (World h k'))); [done|].
      apply out_Ret. unfold do_read. by rewrite (bind_Ret _ _ _ _ _ (sys_run _ h k _ k' E)). }
  intros n a Hl Hn h1 Ha.
  assert (bs ≠ []) as Hbs by (intros ->; simpl in Hl; lia).
  pose proof (dispatch_container c h k src old bs k' a Hlen Hbuf Hmax E Ha) as Hc.
  split; [done|]. split.
  - destruct (aligned_layout_total bs n Hl) as (xs & Hlay & Hxs). exists xs.
    split_and!; [done..|]. by eapply deserialize_run.
  - intros c' h3 k3 Eh. unfold run.
    rewrite (dispatch_buffer_run c h k src condition handler old bs k' Hfd Hcond Hold Hlen Hbuf Hmax E Hbs).
    fold h1. rewrite Ha. cbv zeta. by rewrite Eh.
Qed.
End props.

(** ** Concrete runs *)

Module ClientWitness.
Import Sample.
#[local] Existing Instance Bump.allocator.
#[local] Existing Instance Bump.laws.
#[local] Instance node : Udev state := host (Sret "/dev/snd/seq").

Definition opened : user_client := UserClient seq_fd (Some "/dev/snd/seq") self [1; 0; 2] 1.

Lemma schedule_event_spec_witness :
  alsaseq_user_client_schedule_event (128, 0) (CState opened (World memory [])) =
    (Ret tt, CState opened (World memory [])).
Proof.
  rewrite (schedule_event_spec opened memory [] 128 sysex blob 4128 (Sret 31) []);
    [by vm_compute|apply sysex_at|by vm_compute|by vm_compute].
Defined.

Definition payloads : list payload := [(sysex, blob); (with_fixed note noteon, [])].

(** Both events are ready to be scheduled. *)
Definition ready : heap := <[64 := to_bytes (with_fixed note noteon)]> memory.

Lemma ready_at : events_at ready [128; 64] payloads.
Proof.
  constructor; [|constructor; [|constructor]].
  - apply (event_at_insert memory 64 _ 128 (sysex, blob)); [|apply sysex_at]. by split.
  - exact (with_fixed_at memory 64 noteon [] note noteon_at ltac:(by apply Nat.leb_le)).
Defined.

Lemma schedule_events_spec_witness :
  alsaseq_user_client_schedule_events (boxes [128; 64]) (CState opened (World ready [])) =
    (Ret (Some 2), CState opened (World ready [])).
Proof.
  apply (proj1 (schedule_events_spec opened ready [] [128; 64] payloads 4128 4176 (Sret 59) []
    ready_at ltac:(done) ltac:(by vm_compute) ltac:(by vm_compute) ltac:(by vm_compute)
    ltac:(by vm_compute)) 2%nat); [by split; apply Nat.leb_le|by vm_compute].
Defined.

(** The object of a queue tempo at 64. *)
Definition tempo : heap := {[64 := zeroed sizeof_queue_tempo]}.

Lemma info_request_spec_witness :
  run_info (RSetTempo 3) (64, 0) (CState opened (World tempo [])) =
    (Fail (local_error ALSASEQ_USER_CLIENT_ERROR_QUEUE_PERMISSION),
     CState opened (World (<[64 := fput qt_queue 3 (zeroed sizeof_queue_tempo)]> tempo) [])).
Proof.
  apply (info_request_spec (RSetTempo 3) opened tempo [] 64 (zeroed sizeof_queue_tempo)
    (Serr EPERM) (fput qt_queue 3 (zeroed sizeof_queue_tempo)) []); by vm_compute.
Defined.

(** A client that is open on the descriptor 5 opens again. *)
Definition before : user_client := UserClient 5 (Some "/dev/snd/seq") 129 [1; 0; 0] 1.

Lemma open_spec_witness :
  alsaseq_user_client_open 0 (CState before (World ∅ [])) =
    (Ret tt, CState opened (World ∅ [])).
Proof.
  apply (open_spec before ∅ [] 0 "/dev/snd/seq" seq_fd (le_split 4 130)
    (fput (i32f 0) (Z.shiftl 1 16 + 2) (alloc_junk ∅ 4)) (Sret tt) (Sret tt) [] [] [] []);
    by vm_compute.
Defined.

Lemma open_refused_misreported_witness :
  alsaseq_user_client_open (KERN := kernel_with (Serr EACCES) []) 0
    (CState alsaseq_user_client_new (World ∅ [])) =
    (Fail (open_error EACCES), CState alsaseq_user_client_new (World ∅ [])) ∧
  open_error EACCES = Some (GError G_FILE_ERROR G_FILE_ERROR_NOENT "open" None).
Proof.
  destruct (open_refused_misreported (KERN := kernel_with (Serr EACCES) [])
    alsaseq_user_client_new ∅ [] 0 "/dev/snd/seq" EACCES [] []) as (E & E2 & _);
    [by vm_compute..|].
  exact (conj E E2).
Defined.

(** A source with a buffer of 64 bytes at 8192; the kernel delivers 56. *)
Definition source : user_client_source := Source seq_fd 8192 64.
Definition waiting : heap := {[8192 := zeros 64]}.
Definition delivered : list byte := replicate 56 Byte.xcc.
#[local] Instance delivering : Kernel state := kernel_with (Sret seq_fd) delivered.
#[local] Instance delivering_laws : KernelLaws state := kernel_with_laws delivered.

Lemma dispatch_delivers_witness :
  ∃ s', seq_user_client_dispatch_src source G_IO_IN (λ _, mret tt)
    (CState opened (World waiting [])) = (Ret true, s').
Proof.
  eexists.
  destruct (dispatch_delivers opened waiting [] source G_IO_IN (λ _, mret tt) (zeros 64)
    (Sret delivered) [] ltac:(by vm_compute) ltac:(by vm_compute) ltac:(by vm_compute)
    ltac:(by vm_compute) ltac:(by split) ltac:(by vm_compute) ltac:(by vm_compute)
    2%nat 8288 ltac:(by vm_compute) ltac:(lia) ltac:(by vm_compute)) as (_ & _ & H).
  by apply H.
Defined.
End ClientWitness.
