(* ===== verification/SeqUserClientLife.v ===== *)
(** * The life of the client and of its sources

    A source keeps a reference to the client and owns a buffer.  The calls
    that take and drop references, and whatever else happens between them, as
    steps; the invariant of the states they reach. *)
From S2P Require Import Prelude Heap SeqUapi Struct Kernel SeqStructs Sysfs SeqQuery SeqQueryFacts.
From S2P Require Import SeqUserClient SeqUserClientFacts SampleSystem.

Section life.
Context {AL : Allocator} {LAWS : AllocatorLaws} {GL : GLib} {K : Type} {KERN : Kernel K}.
Context (page_size : Z).
Implicit Types (w : world K) (c : user_client) (h : heap) (k : K).
Implicit Types (s : cstate K) (srcs : list user_client_source) (n : nat).

(** The buffer of a source is allocated. *)
Definition buffer_live (s : cstate K) (src : user_client_source) : Prop :=
  0 < src_buf src ∧
  ∃ bs, w_heap (cs_world s) !! src_buf src = Some bs ∧ Z.of_nat (length bs) = page_size.

(** [life s srcs n]: a state in which the sources [srcs] exist and the
    application holds [n] references of its own. *)
Inductive life : cstate K → list user_client_source → nat → Prop :=
  | life_new w : life (CState alsaseq_user_client_new w) [] 1
  | life_ref s srcs n s' :
      life s srcs n → n ≠ O → g_object_ref_client s = (Ret tt, s') → life s' srcs (S n)
  | life_unref s srcs n s' :
      life s srcs (S n) → g_object_unref_client s = (Ret tt, s') → life s' srcs n
  | life_create s srcs n src s' :
      life s srcs n → n ≠ O → alsaseq_user_client_create_source page_size s = (Ret src, s') →
      life s' (src :: srcs) n
  | life_destroy s srcs1 src srcs2 n s' :
      life s (srcs1 ++ src :: srcs2) n → seq_user_client_finalize_src src s = (Ret tt, s') →
      life s' (srcs1 ++ srcs2) n
  | life_other s srcs n s' :
      life s srcs n → uc_refs (cs_self s') = uc_refs (cs_self s) →
      (∀ src, src ∈ srcs → buffer_live s src → buffer_live s' src) →
      life s' srcs n.

Definition life_inv (s : cstate K) (srcs : list user_client_source) (n : nat) : Prop :=
  uc_refs (cs_self s) = Z.of_nat (n + length srcs) ∧
  NoDup (map src_buf srcs) ∧ Forall (buffer_live s) srcs.

Lemma ref_run c w :
  g_object_ref_client (CState c w) = (Ret tt, CState (set_refs (uc_refs c + 1) c) w).
Proof. done. Qed.

(** The last reference finalizes the client, the others do not. *)
Lemma unref_run c w :
  g_object_unref_client (CState c w) =
    (Ret tt,
     if uc_refs c =? 1 then
       CState (set_refs (uc_refs c - 1) (set_devnode None c))
         (if 0 <=? uc_fd c then World (w_heap w) (sys_close (uc_fd c) (w_kern w)) else w)
     else CState (set_refs (uc_refs c - 1) c) w).
Proof.
  destruct w as [h k]. unfold g_object_unref_client, seq_user_client_finalize, self, upd, gets,
    modify, out, zoom, do_close, sys, mbind, M_bind. cbn [cs_self cs_world w_heap w_kern].
  destruct (uc_refs c =? 1); [|done]. cbn. by destruct (0 <=? uc_fd c).
Qed.

Lemma unref_heap c w s' :
  g_object_unref_client (CState c w) = (Ret tt, s') →
  uc_refs (cs_self s') = uc_refs c - 1 ∧ w_heap (cs_world s') = w_heap w.
Proof.
  rewrite unref_run. intros [= <-]. destruct (uc_refs c =? 1); [|done].
  by destruct (0 <=? uc_fd c).
Qed.

Lemma create_run c h k src s' :
  alsaseq_user_client_create_source page_size (CState c (World h k)) = (Ret src, s') →
  page_size ≠ 0 →
  ∃ a, alloc_addr h page_size = Some a ∧ 0 ≤ uc_fd c ∧ src = Source (uc_fd c) a page_size ∧
    s' = CState (set_refs (uc_refs c + 1) c) (World (<[a := zeros (Z.to_nat page_size)]> h) k).
Proof.
  intros E Hp. unfold alsaseq_user_client_create_source in E. rewrite bind_self in E.
  destruct (Z.leb_spec 0 (uc_fd c)) as [Hfd|]; [|done].
  rewrite (bind_Ret _ _ _ tt (CState c (World h k))) in E by done.
  destruct (alloc_addr h page_size) as [a|] eqn:Ha.
  - rewrite (bind_Ret _ _ _ _ _ (out_mem_Ret _ c h k _ _ (g_malloc0_some h page_size a Hp Ha))) in E.
    injection E as <- <-. by exists a.
  - exfalso. unfold mbind, M_bind, out, mem, zoom, g_malloc0 in E. cbn [cs_world w_heap] in E.
    destruct (Z.eqb_spec page_size 0); [done|]. by rewrite Ha in E.
Qed.

Lemma finalize_src_run c h k src :
  buffer_live (CState c (World h k)) src →
  seq_user_client_finalize_src src (CState c (World h k)) =
    g_object_unref_client (CState c (World (delete (src_buf src) h) k)).
Proof.
  intros (Hp & bs & Hb & _). unfold seq_user_client_finalize_src.
  by rewrite (bind_Ret _ _ _ _ _ (out_mem_Ret _ c h k _ _ (g_free_block h _ bs Hp Hb))).
Qed.

Lemma life_invariant s srcs n : 0 < page_size → life s srcs n → life_inv s srcs n.
Proof.
  intros Hps. induction 1 as [w|s srcs n s' _ (Hr & Hnd & Hb) Hn E|s srcs n s' _ (Hr & Hnd & Hb) E|
    s srcs n src s' _ (Hr & Hnd & Hb) Hn E|s srcs1 src srcs2 n s' _ (Hr & Hnd & Hb) E|
    s srcs n s' _ (Hr & Hnd & Hb) Er Hk].
  - by split_and!; [|constructor|constructor].
  - destruct s as [c w]. rewrite ref_run in E. injection E as <-.
    split_and!; [cbn in *; lia|done|done].
  - destruct s as [c w]. apply unref_heap in E as [Er Eh]. split_and!; [cbn in *; lia|done|].
    eapply Forall_impl; [exact Hb|]. intros x (? & bs & ? & ?). split; [done|].
    exists bs. by rewrite Eh.
  - destruct s as [c [h k]]. apply create_run in E as (a & Ha & Hfd & -> & ->); [|lia].
    pose proof (alloc_fresh _ _ _ Ha) as Hf. pose proof (alloc_nonnull _ _ _ Ha) as Hp.
    split_and!; [cbn in *; lia| |].
    + cbn. constructor; [|done]. intros Hin. apply list_elem_of_fmap in Hin as (x & Ex & Hx).
      rewrite Forall_forall in Hb. destruct (Hb x Hx) as (_ & bs & Hbs & _).
      cbn in Ex, Hbs. rewrite <- Ex in Hbs. congruence.
    + constructor.
      * split; [cbn; lia|]. eexists. split; [apply lookup_insert_eq|]. rewrite length_zeros. lia.
      * eapply Forall_impl; [exact Hb|]. intros x (? & bs & Hbs & ?). split; [done|].
        exists bs. split; [|done]. cbn in *. rewrite lookup_insert_ne; [done|]. congruence.
  - destruct s as [c [h k]]. apply Forall_app in Hb as [Hb1 Hb2].
    inversion Hb2 as [|? ? Hsrc Hb2']; subst.
    rewrite (finalize_src_run c h k src Hsrc) in E. apply unref_heap in E as [Er Eh].
    rewrite length_app in Hr. rewrite map_app in Hnd. cbn in Hnd.
    apply NoDup_app in Hnd as (Hnd1 & Hdis & Hnd2). apply NoDup_cons in Hnd2 as [Hni Hnd2].
    split_and!.
    + rewrite length_app. cbn in *. lia.
    + rewrite map_app. apply NoDup_app. split_and!; [done| |done].
      intros b Hb Hb'. apply (Hdis b Hb). by right.
    + assert (∀ x, buffer_live (CState c (World h k)) x → src_buf x ≠ src_buf src →
        buffer_live s' x) as Hkeep.
      { intros x (? & bs & Hbs & ?) Hne. split; [done|]. exists bs. split; [|done].
        rewrite Eh. cbn in *. by rewrite lookup_delete_ne. }
      apply Forall_app. split; apply Forall_forall; intros x Hx; apply Hkeep.
      * rewrite Forall_forall in Hb1. by apply Hb1.
      * intros Ex. apply (Hdis (src_buf x)); [by apply list_elem_of_fmap_2|]. rewrite Ex. by left.
      * rewrite Forall_forall in Hb2'. by apply Hb2'.
      * intros Ex. apply Hni. rewrite <- Ex. by apply list_elem_of_fmap_2.
  - split_and!; [by rewrite Er|done|]. rewrite Forall_forall in Hb |- *.
    intros x Hx. by apply Hk, Hb.
Qed.

(** C14: a source keeps the client open and is released exactly once.  In every
    state that references, sources and other activity can lead to, removing
    an existing source frees its buffer and nothing else and has no undefined
    behaviour; the descriptor of the client stays open as long as the
    application or another source holds the client, and is closed together
    with the last reference. *)
Theorem source_release_spec s srcs1 src srcs2 n :
  0 < page_size → life s (srcs1 ++ src :: srcs2) n →
  let c := cs_self s in
  let w := cs_world s in
  ∃ s', seq_user_client_finalize_src src s = (Ret tt, s') ∧
    life s' (srcs1 ++ srcs2) n ∧
    w_heap (cs_world s') = delete (src_buf src) (w_heap w) ∧
    uc_fd (cs_self s') = uc_fd c ∧
    w_kern (cs_world s') =
      if (n + length srcs1 + length srcs2 =? 0)%nat && (0 <=? uc_fd c)
      then sys_close (uc_fd c) (w_kern w) else w_kern w.
Proof.
  intros Hps Hl c w. destruct (life_invariant s _ n Hps Hl) as (Hr & _ & Hb).
  rewrite Forall_forall in Hb. pose proof (Hb src ltac:(set_solver)) as Hsrc.
  destruct s as [c0 [h k]]. cbn in c, w. rewrite length_app in Hr. cbn in Hr.
  pose proof (finalize_src_run c0 h k src Hsrc) as E. rewrite unref_run in E.
  eexists. split; [exact E|]. split; [by eapply life_destroy|].
  destruct (Z.eqb_spec (uc_refs c0) 1) as [E1|E1].
  - replace (n + length srcs1 + length srcs2 =? 0)%nat with true
      by (symmetry; apply Nat.eqb_eq; lia).
    cbn [andb]. subst c w. by destruct (0 <=? uc_fd c0).
  - by replace (n + length srcs1 + length srcs2 =? 0)%nat with false
      by (symmetry; apply Nat.eqb_neq; lia).
Qed.
End life.

(** ** A concrete run *)

Module LifeWitness.
Import Sample.
#[local] Existing Instance Bump.allocator.
#[local] Existing Instance Bump.laws.
#[local] Instance node : Udev state := host (Sret "/dev/snd/seq").

(** A client is opened, a source is created, and the application drops its own
    reference. *)
Definition opened : cstate state :=
  (alsaseq_user_client_open 0 (CState alsaseq_user_client_new (World ∅ []))).2.
Definition polled : cstate state := (alsaseq_user_client_create_source 64 opened).2.
Definition dropped : cstate state := (g_object_unref_client polled).2.
Definition src : user_client_source := Source seq_fd 4128 64.

Lemma dropped_life : life 64 dropped [src] 0.
Proof.
  apply (life_unref 64 polled); [|by vm_compute].
  apply (life_create 64 opened []); [|done|by vm_compute].
  apply (life_other 64 (CState alsaseq_user_client_new (World ∅ []))); [apply life_new|done|].
  by intros src ?%not_elem_of_nil.
Defined.

Lemma source_release_spec_witness :
  ∃ s', seq_user_client_finalize_src src dropped = (Ret tt, s') ∧
    w_kern (cs_world s') = [seq_fd] ∧ w_heap (cs_world s') = delete 4128 (w_heap (cs_world dropped)).
Proof.
  destruct (source_release_spec 64 dropped [] src [] 0 ltac:(done) dropped_life)
    as (s' & E & _ & Eh & _ & Ek).
  exists s'. exact (conj E (conj Ek Eh)).
Defined.
End LifeWitness.
