(* ===== verification/SeqDelivery.v ===== *)
(** * From one client of the sequencer to another

    The two ends of [src/src/seq/user-client.c] together with the containers
    of [src/src/seq/event-cntr.c]: one process schedules a list of events, the
    kernel keeps them for a second process, whose source of events reads them
    and hands them over to handlers.  What the kernel does in between is a
    parameter with the documented behaviour of the character device. *)
From S2P Require Import Prelude Heap SeqUapi Struct Kernel SeqStructs Sysfs SeqQuery.
From S2P Require Import SeqEvent SeqEventFacts SeqEventCntr SeqEventCntrFacts SeqEventCntrProps.
From S2P Require Import SeqUserClient SeqUserClientFacts SeqUserClientProps SampleSystem SeqEventSamples.

(** ** The sequencer in the kernel *)

Definition payload_ok (x : payload) : Prop := c_ok x.1 ∧ blob_ok x.1 x.2.

(** What the kernel keeps of an event on its way: it fills in the source, and
    the queue, the time and the kind of its stamp when the port asks for them;
    the pointer to a blob is none of the receiver. *)
Definition delivered_as (x y : payload) : Prop :=
  payload_ok y ∧ y.2 = x.2 ∧ ev_type y.1 = ev_type x.1 ∧
  Z.clearbit (ev_flags y.1) 0 = Z.clearbit (ev_flags x.1) 0 ∧
  ev_tag y.1 = ev_tag x.1 ∧ ev_dest y.1 = ev_dest x.1 ∧
  (variable x.1 = false → ev_data y.1 = ev_data x.1).

(** An event that is passed on without a queue, to one client. *)
Definition direct (x : payload) : Prop :=
  ev_queue x.1 = SNDRV_SEQ_QUEUE_DIRECT ∧ client (ev_dest x.1) < SNDRV_SEQ_ADDRESS_UNKNOWN.

(** [seq_waiting fd xs k]: the events that wait behind [fd], in the order of
    their arrival.  [seq_client fd k]: the number of the client behind [fd].
    [seq_filter fd t k]: its filter lets events of the type [t] in.
    [seq_room fd n k]: its pool for input has room for [n] more events. *)
Class Sequencer (K : Type) := {
  seq_waiting : Z → list payload → K → Prop;
  seq_client : Z → K → Z;
  seq_filter : Z → Z → K → bool;
  seq_room : Z → nat → K → Prop;
}.

(** The client behind [fd] is the destination, and lets the event in. *)
Definition let_in {K} `{!Sequencer K} (fd : Z) (k : K) (x : payload) : bool :=
  (client (ev_dest x.1) =? seq_client fd k) && seq_filter fd (ev_type x.1) k.

(** Writing takes whole events from the front of the buffer, at least one.
    Direct events do not stay in the kernel: of those that were taken the
    receiver gets the ones it lets in, when there is room for them.  Reading
    gives whole events in the aligned layout, at least one when there are any
    and there is room for each in the buffer. *)
Class SequencerLaws (K : Type) `{!Kernel K} `{!Sequencer K} : Prop := {
  waiting_ok fd xs (k : K) : seq_waiting fd xs k → Forall payload_ok xs;
  write_direct fd fd' xs ws (k k' : K) m :
    seq_waiting fd' ws k → Forall payload_ok xs → Forall direct xs → xs ≠ [] →
    seq_room fd' (length (List.filter (let_in fd' k) xs)) k →
    sys_write fd (cells false xs) k = (Sret m, k') →
    ∃ j ys, (1 ≤ j ≤ length xs)%nat ∧ m = sum_Z (cell_length false) (take j xs) ∧
      Forall2 delivered_as (List.filter (let_in fd' k) (take j xs)) ys ∧
      seq_waiting fd' (ws ++ ys) k';
  read_delivers fd xs (k : K) n :
    seq_waiting fd xs k → xs ≠ [] → Forall (λ x, cell_length true x ≤ n) xs →
    ∃ now later k', xs = now ++ later ∧ now ≠ [] ∧
      sys_read fd n k = (Sret (cells true now), k') ∧ seq_waiting fd later k';
}.

Section delivery.
Context {AL : Allocator} {LAWS : AllocatorLaws} {GL : GLib} {K : Type} {KERN : Kernel K}.
Context {KL : KernelLaws K} {UD : Udev K} {SQ : Sequencer K} {SQL : SequencerLaws K}.
Implicit Types (h : heap) (k : K) (c : user_client).

(** ** The receiver *)

(** A dispatch in the state [s] hands the container at [cntr] over in the
    state [mid]. *)
Definition hands_over (src : user_client_source) (s : cstate K) (cntr : ptr) (mid : cstate K) :
    Prop :=
  ∀ handler s', handler cntr mid = (Ret tt, s') →
    seq_user_client_dispatch_src src G_IO_IN handler s = (Ret true, without_local cntr.1 s').

(** [receives src handler n s xs s']: [n] dispatches with the handlers lead
    from [s] to [s'], and deserializing the containers they hand over gives
    the events [xs], one container after the other. *)
Inductive receives (src : user_client_source) (handler : ptr → M (cstate K) unit) :
    nat → cstate K → list payload → cstate K → Prop :=
  | receives_none s : receives src handler 0 s [] s
  | receives_dispatch n s cntr mid now s1 later s2 :
      hands_over src s cntr mid →
      deserialized (w_heap (cs_world mid)) [] now
        (alsaseq_event_cntr_deserialize cntr [] (w_heap (cs_world mid))) →
      seq_user_client_dispatch_src src G_IO_IN handler s = (Ret true, s1) →
      receives src handler n s1 later s2 →
      receives src handler (S n) s (now ++ later) s2.

Lemma receives_dispatches src handler n s xs s' :
  receives src handler n s xs s' → main_loop (seq_user_client_dispatch_src src G_IO_IN handler) n s = (Ret true, s').
Proof.
  induction 1 as [|n s cntr mid now s1 later s2 _ _ E _ IH]; [done|].
  by rewrite (main_loop_stays _ _ _ _ E).
Qed.

(** Handlers that may do anything with the memory but for the buffer of the
    source, as long as they are handed a container that can be read. *)
Definition attentive (handler : ptr → M (cstate K) unit) (buf : Z) : Prop :=
  ∀ cntr st bs xs c h k old,
    cntr_at h cntr st bs → cntr_aligned st ≠ 0 → layout true bs xs → h !! buf = Some old →
    (∃ h', handler cntr (CState c (World h k)) = (Ret tt, CState c (World h' k)) ∧
       h' !! buf = Some old) ∨
    (∃ s', handler cntr (CState c (World h k)) = (Oom, s')).

(** The handler that takes the events out of the container is one. *)
Definition take_events (cntr : ptr) : M (cstate K) unit :=
  out (mem (alsaseq_event_cntr_deserialize cntr []));; mret tt.

Lemma take_events_attentive buf : attentive take_events buf.
Proof.
  intros cntr st bs xs c h k old Hc Hal Hlay Hb.
  destruct (deserialize_run h cntr st bs xs [] Hc) as [(evs & h' & E & _ & Hsub)|(h' & E)].
  - by destruct (Z.eqb_spec (cntr_aligned st) 0).
  - left. exists h'. split; [|by eapply lookup_weaken].
    unfold take_events. by rewrite (bind_Ret _ _ _ _ _ (out_mem_Ret _ c h k _ _ E)).
  - right. eexists. unfold take_events, mbind, M_bind, out, mem, zoom. cbn [cs_world w_heap].
    by rewrite E.
Qed.

(** An event takes as much room at the receiver as at the sender. *)
Lemma stamped_length_mode e e' :
  Z.clearbit (ev_flags e') 0 = Z.clearbit (ev_flags e) 0 → length_mode e' = length_mode e.
Proof.
  intros E. unfold length_mode. apply Z.bits_inj. intros i.
  pose proof (f_equal (λ z, Z.testbit z i) E) as Ei. cbv beta in Ei. rewrite !Z.clearbit_eqb in Ei.
  rewrite !Z.land_spec. destruct (Z.eqb_spec 0 i) as [E0|_].
  - subst i. by rewrite !andb_false_r.
  - cbn [negb] in Ei. rewrite !andb_true_r in Ei. by rewrite Ei.
Qed.

Lemma delivered_cell_length x y al :
  payload_ok x → delivered_as x y → cell_length al y = cell_length al x.
Proof.
  intros [Hx Hbx] ([Hy Hby] & Eb & _ & Ef & _). apply stamped_length_mode in Ef.
  unfold cell_length, flattened_length. unfold blob_ok, variable in Hbx, Hby.
  rewrite Ef in Hby |- *.
  destruct (length_mode x.1 =? _) eqn:Ev; [|done]. by rewrite Hby, Eb, <- Hbx.
Qed.

Lemma Forall_filter_list {A} (P : A → Prop) f (xs : list A) :
  Forall P xs → Forall P (List.filter f xs).
Proof.
  induction 1 as [|x xs Hx _ IH]; [constructor|]. cbn [List.filter]. destruct (f x); [by constructor|done].
Qed.

(** ** One dispatch *)

Lemma dispatch_some c h k src handler old xs :
  attentive handler (src_buf src) → 0 ≤ uc_fd c →
  h !! src_buf src = Some old → Z.of_nat (length old) = src_buf_len src →
  0 < src_buf src < 2 ^ 64 → src_buf_len src < 2 ^ 31 →
  seq_waiting (uc_fd c) xs k → xs ≠ [] → Forall (λ x, cell_length true x ≤ src_buf_len src) xs →
  let s := CState c (World h k) in
  (∃ now later cntr mid h' k' old',
    xs = now ++ later ∧ now ≠ [] ∧ hands_over src s cntr mid ∧
    deserialized (w_heap (cs_world mid)) [] now
      (alsaseq_event_cntr_deserialize cntr [] (w_heap (cs_world mid))) ∧
    seq_user_client_dispatch_src src G_IO_IN handler s = (Ret true, CState c (World h' k')) ∧
    h' !! src_buf src = Some old' ∧ Z.of_nat (length old') = src_buf_len src ∧
    seq_waiting (uc_fd c) later k') ∨
  (∃ s', seq_user_client_dispatch_src src G_IO_IN handler s = (Oom, s')).
Proof.
  intros Hat Hfd Hold Hlen Hbuf Hmax Hq Hne Hfit s. subst s.
  destruct (read_delivers _ _ _ _ Hq Hne Hfit) as (now & later & k1 & -> & Hnow & Er & Hq1).
  pose proof (waiting_ok _ _ _ Hq) as Hoks. apply Forall_app in Hoks as [Hoks _].
  set (bs := cells true now) in *.
  assert (bs ≠ []) as Hbs.
  { destruct now as [|x now]; [done|]. inversion Hoks as [|? ? [Hx Hb] _]; subst.
    pose proof (length_cell true x Hx Hb). pose proof (cell_length_bounds true x Hx Hb).
    unfold bs. change (cells true (x :: now)) with (cell true x ++ cells true now).
    destruct (cell true x); [simpl in *; lia|done]. }
  pose proof (λ f, dispatch_buffer_run c h k src G_IO_IN f old bs k1 Hfd eq_refl Hold Hlen Hbuf Hmax Er Hbs)
    as Hrun.
  cbv zeta in Hrun. set (h1 := <[src_buf src := bs ++ drop (length bs) old]> h) in *.
  destruct (alloc_addr h1 24) as [a|] eqn:Ea; [|right; by eexists].
  pose proof (dispatch_container c h k src old bs k1 a Hlen Hbuf Hmax Er Ea) as Hc.
  cbv zeta in Hc. fold h1 in Hc. set (cn := delivery src (Z.of_nat (length bs))) in *.
  set (h2 := <[a := to_bytes cn]> h1) in *.
  pose proof (alloc_fresh _ _ _ Ea) as Hfa.
  assert (a ≠ src_buf src) as Hab by (intros ->; unfold h1 in Hfa; by rewrite lookup_insert_eq in Hfa).
  pose proof (cells_layout true now Hoks) as Hlay. fold bs in Hlay.
  assert (h2 !! src_buf src = Some (bs ++ drop (length bs) old)) as Hb2.
  { unfold h2. rewrite lookup_insert_ne by done. apply lookup_insert_eq. }
  pose proof (read_bound (uc_fd c) (src_buf_len src) k bs k1 ltac:(lia) Er) as Hbd.
  destruct (Hat (a, 0) cn bs now c h2 k1 _ Hc ltac:(done) Hlay Hb2) as [(h3 & Eh & Hb3)|(s3 & Eh)].
  - left. exists now, later, (a, 0), (CState c (World h2 k1)), (delete a h3), k1,
      (bs ++ drop (length bs) old).
    split_and!; [done|done| | | | | |done].
    + intros f s' Ef. by rewrite (Hrun f), Ef.
    + cbn [cs_world w_heap]. by eapply deserialize_run.
    + by rewrite (Hrun handler), Eh.
    + by rewrite lookup_delete_ne.
    + rewrite length_app, length_drop. lia.
  - right. eexists. by rewrite (Hrun handler), Eh.
Qed.

(** As many dispatches as events that wait hand over all of them. *)
Lemma receives_all src handler m c h k old xs :
  (length xs ≤ m)%nat → attentive handler (src_buf src) → 0 ≤ uc_fd c →
  h !! src_buf src = Some old → Z.of_nat (length old) = src_buf_len src →
  0 < src_buf src < 2 ^ 64 → src_buf_len src < 2 ^ 31 →
  seq_waiting (uc_fd c) xs k → Forall (λ x, cell_length true x ≤ src_buf_len src) xs →
  let s := CState c (World h k) in
  ∃ n, (n ≤ m)%nat ∧
    ((∃ h' k', receives src handler n s xs (CState c (World h' k')) ∧ seq_waiting (uc_fd c) [] k') ∨
     (∃ seen rest s1 s2, xs = seen ++ rest ∧ receives src handler n s seen s1 ∧
        seq_user_client_dispatch_src src G_IO_IN handler s1 = (Oom, s2))).
Proof.
  intros Hm Hat Hfd Hold Hlen Hbuf Hmax Hq Hfit.
  revert h k old xs Hm Hold Hlen Hq Hfit. induction m as [|m IH]; intros h k old xs Hm Hold Hlen Hq Hfit s.
  - destruct xs; [|simpl in Hm; lia]. exists 0%nat. split; [done|]. left. exists h, k.
    split; [constructor|done].
  - destruct (decide (xs = [])) as [->|Hne].
    { exists 0%nat. split; [lia|]. left. exists h, k. split; [constructor|done]. }
    destruct (dispatch_some c h k src handler old xs Hat Hfd Hold Hlen Hbuf Hmax Hq Hne Hfit)
      as [(now & later & cntr & mid & h1 & k1 & old1 & -> & Hnow & Hh & Hd & E & Ho1 & Hl1 & Hq1)|(s' & E)].
    2:{ exists 0%nat. split; [lia|]. right. exists [], xs, s, s'. split; [done|]. split; [constructor|done]. }
    apply Forall_app in Hfit as [_ Hfit]. rewrite length_app in Hm.
    destruct (IH h1 k1 old1 later) as (n & Hn & H); [destruct now; [done|simpl in Hm; lia]|done..|].
    exists (S n). split; [lia|]. destruct H as [(h2 & k2 & Hr & Hq2)|(seen & rest & s1 & s2 & -> & Hr & Eo)].
    + left. exists h2, k2. split; [|done]. by eapply receives_dispatch.
    + right. exists (now ++ seen), rest, s1, s2. split; [by rewrite app_assoc|]. split; [|done].
      by eapply receives_dispatch.
Qed.

(** ** From the sender to the receiver *)

(** C5: what one client schedules another one gets: when the events of the
    list can be delivered, are direct ones, each to one client, and the kernel
    takes what it is written, the call reports the number of events that were
    taken; and the source of another client, whose pool has room for them,
    hands over, in at most as many dispatches as there are events, first those
    that waited before and then exactly the ones among the reported that are
    addressed to this client and pass its filter, in their order, with the
    type, flags, destination, data and blob they were scheduled with (or the
    memory of the receiver ends). *)
Theorem scheduled_events_delivered c h k ps xs a0 b m k1 c2 h2 src handler old ws :
  events_at h ps xs → ps ≠ [] → sum_Z (cell_length false) xs < 2 ^ 63 →
  first_undeliverable xs = None →
  alloc_addr h 24 = Some a0 →
  alloc_addr (<[a0 := to_bytes zero_cntr]> h) (sum_Z (cell_length false) xs) = Some b →
  sys_write (uc_fd c) (cells false xs) k = (Sret m, k1) →
  Forall direct xs → seq_waiting (uc_fd c2) ws k →
  let lets_in := List.filter (let_in (uc_fd c2) k) in
  seq_room (uc_fd c2) (length (lets_in xs)) k →
  Forall (λ x, cell_length true x ≤ src_buf_len src) (ws ++ xs) →
  attentive handler (src_buf src) → 0 ≤ uc_fd c2 →
  h2 !! src_buf src = Some old → Z.of_nat (length old) = src_buf_len src →
  0 < src_buf src < 2 ^ 64 → src_buf_len src < 2 ^ 31 →
  ∃ j ys n, (1 ≤ j ≤ length xs)%nat ∧ Forall2 delivered_as (lets_in (take j xs)) ys ∧
    alsaseq_user_client_schedule_events (boxes ps) (CState c (World h k)) =
      (Ret (Some (Z.of_nat j)), CState c (World h k1)) ∧
    (n ≤ length ws + length ys)%nat ∧
    let s := CState c2 (World h2 k1) in
    ((∃ h' k', receives src handler n s (ws ++ ys) (CState c2 (World h' k')) ∧
        seq_waiting (uc_fd c2) [] k') ∨
     (∃ seen rest s1 s2, ws ++ ys = seen ++ rest ∧ receives src handler n s seen s1 ∧
        seq_user_client_dispatch_src src G_IO_IN handler s1 = (Oom, s2))).
Proof.
  intros Hev Hne Hlt Hd Ha Hab Ew Hdir Hq lets_in Hroom Hfit Hat Hfd Hold Hlen Hbuf Hmax.
  pose proof (events_ok h ps xs Hev) as Hoks.
  assert (xs ≠ []) as Hxs by (destruct Hev; done).
  destruct (write_direct _ _ _ _ _ _ _ Hq Hoks Hdir Hxs Hroom Ew) as (j & ys & Hj & Hm & Hys & Hq1).
  pose proof (schedule_events_run c h k ps xs a0 b (Sret m) k1 Hev Hne Hlt Ha Hab Ew) as Hrun.
  cbv zeta in Hrun. rewrite Hd in Hrun. destruct Hrun as [Hrun _].
  assert (Forall (λ x, cell_length true x ≤ src_buf_len src) (ws ++ ys)) as Hfit1.
  { apply Forall_app in Hfit as [Hf1 Hf2]. apply Forall_app. split; [done|].
    apply (Forall_take _ j), (Forall_filter_list _ (let_in (uc_fd c2) k)) in Hf2, Hoks.
    clear -Hys Hf2 Hoks. induction Hys as [|x y xs' ys Hxy _ IH]; [done|].
    inversion Hf2; subst. inversion Hoks; subst. constructor; [|by apply IH].
    by rewrite (delivered_cell_length x y). }
  destruct (receives_all src handler (length ws + length ys) c2 h2 k1 old (ws ++ ys)) as (n & Hn & H);
    [by rewrite length_app|done..|].
  exists j, ys, n. split_and!; [lia|lia|done|by apply Hrun|done|exact H].
Qed.
End delivery.

(** ** A sample sequencer *)

(** The events that wait for the client 129, whose descriptor is 8 and which
    does not want the signs of life of a device (type 42); other clients write.
    A write takes three events at most, a read gives one. *)
Module SampleSequencer.
#[local] Existing Instance Bump.allocator.
#[local] Existing Instance Bump.laws.
#[local] Existing Instance Sample.glib.
Definition queue : Type := list payload.
Definition wanted (x : payload) : bool := (client (ev_dest x.1) =? 129) && negb (ev_type x.1 =? 42).

Definition next_event (bs : list byte) : option (payload * list byte) :=
  if bool_decide (length bs < 28)%nat then None else
  let e : snd_seq_event := of_bytes (take 28 bs) in
  let rest := drop 28 bs in
  let n := if variable e then Z.to_nat (ext_len e) else O in
  if bool_decide (length rest < n)%nat then None else Some ((e, take n rest), drop n rest).

Fixpoint take_in (fuel : nat) (bs : list byte) : list payload * list byte :=
  match fuel with
  | O => ([], bs)
  | S fuel =>
      match next_event bs with
      | None => ([], bs)
      | Some (x, rest) => let '(xs, rest) := take_in fuel rest in (x :: xs, rest)
      end
  end.

(** The kernel fills in the client an event is from. *)
Definition stamp (x : payload) : payload :=
  let e := x.1 in
  (Event (ev_type e) (ev_flags e) (ev_tag e) (ev_queue e) (ev_time e)
     (Addr 128 (port (ev_source e))) (ev_dest e) (ev_data e), x.2).

#[export] Instance seq_kernel : Kernel queue := {|
  sys_open path flags k := (Sret 7, k);
  sys_close fd k := k;
  sys_ioctl fd req s k := (Serr EINVAL, s, k);
  sys_write fd bs k :=
    let '(xs, rest) := take_in 3 bs in
    (Sret (Z.of_nat (length bs - length rest)), k ++ map stamp (List.filter wanted xs));
  sys_read fd n k :=
    match k with
    | [] => (Serr EAGAIN, k)
    | x :: k' =>
        if Z.of_nat (length (cell true x)) <=? n then (Sret (cell true x), k') else (Serr EINVAL, k)
    end;
|}.

#[export] Instance seq_kernel_laws : KernelLaws queue.
Proof.
  split.
  - by intros path flags k fd k' [= <- _].
  - done.
  - intros fd bs k n k'. cbn [sys_write seq_kernel]. destruct (take_in 3 bs) as [xs rest].
    intros [= <- _]. lia.
  - intros fd n [|x k] bs k' Hn; cbn [sys_read seq_kernel]; [done|].
    destruct (Z.leb_spec (Z.of_nat (length (cell true x))) n); [|done]. by intros [= <- _].
Qed.

#[export] Instance seq_view : Sequencer queue := {|
  seq_waiting fd xs k := fd = 8 ∧ xs = k ∧ Forall payload_ok xs;
  seq_client fd k := 129;
  seq_filter fd t k := negb (t =? 42);
  seq_room fd n k := True;
|}.

Lemma next_event_cell x rest :
  payload_ok x → next_event (cell false x ++ rest) = Some (x, rest).
Proof.
  destruct x as [e blob]. intros [Hok Hb]. cbn [fst snd] in *. rewrite cell_unaligned by done.
  unfold next_event. rewrite !length_app, length_to_bytes_event by done.
  rewrite bool_decide_false by lia. rewrite <- app_assoc.
  rewrite take_app_length', drop_app_length' by by rewrite length_to_bytes_event.
  rewrite (of_to_bytes e Hok).
  replace (if variable e then Z.to_nat (ext_len e) else 0%nat) with (length blob).
  - rewrite length_app, bool_decide_false by lia. by rewrite take_app_length, drop_app_length.
  - unfold blob_ok in Hb. destruct (variable e); [lia|by subst blob].
Qed.

Lemma take_in_cells fuel xs :
  Forall payload_ok xs → take_in fuel (cells false xs) = (take fuel xs, cells false (drop fuel xs)).
Proof.
  revert xs. induction fuel as [|fuel IH]; intros xs H; [done|].
  destruct H as [|x xs Hx Hxs]; [done|].
  change (cells false (x :: xs)) with (cell false x ++ cells false xs).
  cbn [take_in]. by rewrite next_event_cell, IH.
Qed.

Lemma stamp_delivered x : payload_ok x → delivered_as x (stamp x).
Proof.
  intros [(?&?&?&?&?&(?&?)&?&?) Hb]. by split_and!.
Qed.

Lemma Forall2_stamp xs : Forall payload_ok xs → Forall2 delivered_as xs (map stamp xs).
Proof. induction 1 as [|x l Hx _ IH]; constructor; [by apply stamp_delivered|done]. Qed.

#[export] Instance seq_laws : SequencerLaws queue.
Proof.
  split.
  - by intros fd xs k (_ & _ & H).
  - intros fd fd' xs ws k k' m (-> & -> & Hws) Hoks _ Hne _. cbn [sys_write seq_kernel].
    rewrite take_in_cells by done. intros [= <- <-].
    exists (Nat.min 3 (length xs)), (map stamp (List.filter wanted (take 3 xs))).
    assert (take (Nat.min 3 (length xs)) xs = take 3 xs) as ->.
    { by rewrite <- take_take, (take_ge xs (length xs)) by lia. }
    pose proof (Forall_take _ 3 _ Hoks) as Htk.
    pose proof (Forall2_stamp _ (Forall_filter_list _ wanted _ Htk)) as Hst.
    split_and!; [destruct xs; [done|simpl; lia]|lia| |exact Hst|split; [done|split; [done|]]].
    + rewrite <- (take_drop 3 xs) at 1. unfold cells at 1. rewrite map_app, concat_app, length_app.
      fold (cells false (take 3 xs)) (cells false (drop 3 xs)).
      rewrite Nat.add_sub. by apply (length_cells false).
    + apply Forall_app. split; [done|].
      apply (Forall2_Forall_r _ _ _ _ Hst), Forall_true. by intros x y [Hy _].
  - intros fd xs k n (-> & <- & Hoks) Hne Hfit. destruct xs as [|x xs]; [done|].
    inversion Hoks as [|? ? Hx Hxs]; subst. inversion Hfit; subst.
    exists [x], xs, xs. split_and!; [done|done| |done]. cbn [sys_read seq_kernel].
    rewrite length_cell by apply Hx. unfold cells. cbn [map concat]. rewrite app_nil_r.
    by destruct (Z.leb_spec (cell_length true x) n); [|lia].
Qed.

(** Three direct events, two of them to the receiver, for which none waits yet;
    its handlers take the events out of the containers. *)
#[local] Instance seq_node : Udev queue := {|
  udev := unit;
  udev_device := unit;
  udev_new k := (Sret tt, k);
  udev_unref _ k := k;
  udev_device_new_from_subsystem_sysname _ _ _ k := (Sret tt, k);
  udev_device_new_from_syspath _ _ k := (Sret tt, k);
  udev_device_get_sysname _ _ := Sret "seq";
  udev_device_get_devnode _ _ := Sret "/dev/snd/seq";
  udev_device_get_sysnum _ _ := Serr ENOENT;
  udev_device_unref _ k := k;
  udev_enumerate _ _ k := (Sret [], k);
  udev_enumerate_unref _ k := k;
|}.
Import ClientWitness.
Definition addressed (n : Z) (e : snd_seq_event) : snd_seq_event :=
  Event (ev_type e) (ev_flags e) (ev_tag e) SNDRV_SEQ_QUEUE_DIRECT (ev_time e) (ev_source e)
    (Addr n 0) (ev_data e).

Definition sent : list payload := [
  (addressed 129 sysex, blob);
  (addressed 130 (with_fixed note noteon), []);
  (addressed 129 (with_fixed note noteon), [])
].

Definition sender_memory : heap :=
  <[192 := to_bytes (addressed 129 (with_fixed note noteon))]>
  (<[64 := to_bytes (addressed 130 (with_fixed note noteon))]>
  (<[128 := to_bytes (addressed 129 sysex)]> memory)).

Lemma sent_at : events_at sender_memory [128; 64; 192] sent.
Proof.
  repeat constructor; try (by vm_compute); try (by eexists).
Qed.

Definition receiver : user_client := UserClient 8 (Some "/dev/snd/seq") 129 [1; 0; 2] 2.
Definition receiver_source : user_client_source := Source 8 8192 64.
Definition arrived : queue := map stamp (List.filter wanted sent).

Lemma scheduled_events_delivered_witness :
  ∃ ys n s', Forall2 delivered_as
      [(addressed 129 sysex, blob); (addressed 129 (with_fixed note noteon), [])] ys ∧
    alsaseq_user_client_schedule_events (boxes [128; 64; 192]) (CState opened (World sender_memory [])) =
      (Ret (Some 3), CState opened (World sender_memory arrived)) ∧
    receives receiver_source take_events n (CState receiver (World waiting arrived)) ys s'.
Proof.
  destruct (scheduled_events_delivered opened sender_memory [] [128; 64; 192] sent 4128 4176 87 arrived
    receiver waiting receiver_source take_events (zeros 64) [])
    as (j & ys & n & Hj & Hys & E & Hn & Hr);
    [apply sent_at|done|by vm_compute|by vm_compute|by vm_compute|by vm_compute|by vm_compute
    |by repeat constructor|by split|done|by repeat constructor|apply take_events_attentive|done
    |by vm_compute|by vm_compute|done|done|].
  assert (j = 3%nat) as ->.
  { assert (alsaseq_user_client_schedule_events (boxes [128; 64; 192])
      (CState opened (World sender_memory [])) =
      (Ret (Some 3), CState opened (World sender_memory arrived))) as E2 by by vm_compute.
    rewrite E2 in E. injection E. lia. }
  pose proof (Forall2_length _ _ _ Hys) as Hly. change (2%nat = length ys) in Hly.
  cbv zeta in Hr. destruct Hr as [(h' & k' & Hr & _)|(seen & rest & s1 & s2 & _ & Hr & Eo)].
  - exists ys, n, (CState receiver (World h' k')). by split_and!.
  - exfalso. apply receives_dispatches in Hr.
    destruct n as [|[|[|n]]]; [..|simpl in Hn; lia]; vm_compute in Hr; injection Hr as <-;
      by vm_compute in Eo.
Defined.
End SampleSequencer.
