(* ===== verification/Object.v ===== *)
(** * Objects with private data

    A method of an object runs on the private data [P] of the object, on the
    memory of the process and on the system. *)
From S2P Require Import Prelude Heap Struct Kernel.

Record ostate (P K : Type) := OState { os_priv : P; os_world : world K }.
Arguments OState {P K}.
Arguments os_priv {P K}.
Arguments os_world {P K}.

Section object.
Context {P K : Type}.
Implicit Types (p : P) (h : heap) (k : K) (w : world K).

(** What does not touch the private data. *)
Definition outside {A} (m : M (world K) A) : M (ostate P K) A :=
  zoom os_world (λ w s, OState (os_priv s) w) m.

(** [alsa..._get_instance_private (self)] *)
Definition get_private : M (ostate P K) P := gets os_priv.

Definition set_private (f : P → P) : M (ostate P K) unit :=
  modify (λ s, OState (f (os_priv s)) (os_world s)).

Lemma outside_run {A} (m : M (world K) A) p w o w' :
  m w = (o, w') → outside m (OState p w) = (o, OState p w').
Proof. intros H. unfold outside, zoom. simpl. by rewrite H. Qed.

Lemma outside_mem {A} (m : M heap A) p h k o h' :
  m h = (o, h') → outside (mem m) (OState p (World h k)) = (o, OState p (World h' k)).
Proof. intros H. apply outside_run. unfold mem, zoom. simpl. by rewrite H. Qed.

Lemma outside_sys {A} (f : K → A * K) p h k a k' :
  f k = (a, k') → outside (sys f) (OState p (World h k)) = (Ret a, OState p (World h k')).
Proof. intros H. by apply outside_run, sys_run. Qed.

Lemma bind_private {A} (f : P → M (ostate P K) A) p w :
  (get_private ≫= f) (OState p w) = f p (OState p w).
Proof. done. Qed.

Lemma bind_set {A} (g : P → P) (f : unit → M (ostate P K) A) p w :
  (set_private g ≫= f) (OState p w) = f tt (OState (g p) w).
Proof. done. Qed.
End object.

(** Two calls that go on in the same way. *)
Lemma bind_eq {S A B} (m m' : M S A) (f : A → M S B) s s' :
  m s = m' s' → (m ≫= f) s = (m' ≫= f) s'.
Proof. unfold mbind, M_bind. by intros ->. Qed.

(** Runs the first call of a method by the equation [E] of its body. *)
Ltac step E := rewrite (bind_Ret _ _ _ _ _ E).
