(* ===== verification/Boxes.v ===== *)
(** * Boxed structures

    Lists of structures the libraries hand out: each in a block of its own. *)
From S2P Require Import Prelude Heap.

(** [ptr = g_malloc (n); memcpy (ptr, self, n)] *)
Definition g_memdup {AL : Allocator} (self : ptr) (n : Z) : M heap ptr :=
  a ← g_malloc n;
  memcpy (a, 0) self n;;
  mret (a, 0).

(** The new blocks [boxes] with the structures [ids]. *)
Definition boxed (boxes : list Z) (ids : list (list byte)) (h : heap) : heap :=
  list_to_map (zip boxes ids) ∪ h.

(** The blocks are new in [h] and distinct. *)
Definition new_boxes (h : heap) (boxes : list Z) (ids : list (list byte)) : Prop :=
  length boxes = length ids ∧ NoDup boxes ∧ Forall (λ b, h !! b = None ∧ 0 < b) boxes.

Definition box (b : Z) : ptr := (b, 0).

Lemma zip_lookup_none (boxes : list Z) (ids : list (list byte)) b :
  b ∉ boxes → (list_to_map (zip boxes ids) : heap) !! b = None.
Proof.
  intros Hb. apply not_elem_of_list_to_map_1. intros Hin. apply Hb.
  apply list_elem_of_fmap in Hin as ([x y] & -> & Hin). by apply elem_of_zip_l in Hin.
Qed.

Lemma boxed_nil (h : heap) : boxed [] [] h = h.
Proof. apply (left_id_L ∅ (∪)). Qed.

Lemma new_boxes_nil (h : heap) : new_boxes h [] [].
Proof. split_and!; [done|constructor..]. Qed.

Lemma boxed_cons (h : heap) b (id : list byte) boxes ids :
  b ∉ boxes → boxed boxes ids (<[b := id]> h) = boxed (b :: boxes) (id :: ids) h.
Proof.
  intros Hb. unfold boxed. rewrite <- (insert_union_r _ h b id (zip_lookup_none boxes ids b Hb)).
  by rewrite insert_union_l.
Qed.

Lemma new_boxes_cons (h : heap) b (id : list byte) boxes ids bs :
  h !! b = None → 0 < b → new_boxes (<[b := bs]> h) boxes ids →
  (b ∉ boxes) ∧ new_boxes h (b :: boxes) (id :: ids).
Proof.
  intros Hb Hp (Hl & Hd & Hf). rewrite Forall_forall in Hf.
  assert (b ∉ boxes) as Hni.
  { intros Hin. destruct (Hf b Hin) as [E _]. by rewrite lookup_insert_eq in E. }
  split; [done|]. split; [simpl; by f_equal|]. split; [by constructor|].
  constructor; [done|]. apply Forall_forall. intros x Hx. destruct (Hf x Hx) as [E Hx0].
  split; [|done]. by rewrite lookup_insert_ne in E by (intros ->; contradiction).
Qed.

Lemma boxed_delete (h : heap) a bs boxes ids :
  h !! a = None → new_boxes (<[a := bs]> h) boxes ids →
  delete a (boxed boxes ids (<[a := bs]> h)) = boxed boxes ids h ∧ new_boxes h boxes ids.
Proof.
  intros Ha (Hl & Hd & Hf). rewrite Forall_forall in Hf.
  assert (a ∉ boxes) as Hni.
  { intros Hin. destruct (Hf a Hin) as [E _]. by rewrite lookup_insert_eq in E. }
  split.
  - unfold boxed. rewrite delete_union, (delete_id _ _ (zip_lookup_none boxes ids a Hni)).
    by rewrite delete_insert_id.
  - split_and!; [done..|]. apply Forall_forall. intros x Hx. destruct (Hf x Hx) as [E Hx0].
    split; [|done]. by rewrite lookup_insert_ne in E by (intros ->; contradiction).
Qed.

Section boxes.
Context {AL : Allocator} {ALW : AllocatorLaws}.

(** A new block for a structure of [n] bytes, or no memory. *)
Lemma new_box_sized (n : Z) (h : heap) (id : list byte) :
  0 < n → length id = Z.to_nat n →
  (∃ b, g_malloc n h = (Ret b, <[b := alloc_junk h (Z.to_nat n)]> h) ∧
    store (b, 0) id (<[b := alloc_junk h (Z.to_nat n)]> h) = (Ret tt, <[b := id]> h) ∧
    h !! b = None ∧ 0 < b) ∨
  g_malloc n h = (Oom, h).
Proof.
  intros Hn Hl. destruct (alloc_addr h n) as [b|] eqn:Ea.
  - left. exists b. split; [apply g_malloc_some; [lia|done]|]. split.
    + rewrite (store_block _ b (alloc_junk h (Z.to_nat n)) id).
      * by rewrite insert_insert_eq.
      * apply lookup_insert_eq.
      * by rewrite alloc_junk_length, Hl.
      * intros ->. simpl in Hl. lia.
    + split; [by eapply alloc_fresh|]. eapply alloc_nonnull. exact Ea.
  - right. unfold g_malloc. rewrite Ea. destruct (Z.eqb_spec n 0); [lia|done].
Qed.

(** A copy has a block of its own with the same bytes. *)
Lemma g_memdup_run n (h : heap) p s :
  0 < n → at_ptr h p s → length s = Z.to_nat n →
  (∃ b, g_memdup p n h = (Ret (box b), <[b := s]> h) ∧ h !! b = None ∧ 0 < b) ∨
  (∃ h', g_memdup p n h = (Oom, h')).
Proof.
  intros Hn Hat Hl. unfold g_memdup. destruct (new_box_sized n h s Hn Hl) as [(b & E & Es & Hb & Hp)|E].
  - left. exists b. split; [|done].
    rewrite (bind_Ret _ _ _ _ _ E).
    assert (b ≠ p.1) as Hne by (intros ->; destruct Hat as (? & ? & H & _); congruence).
    rewrite (bind_Ret _ _ _ tt (<[b := s]> h)); [done|]. unfold memcpy.
    rewrite (bind_Ret _ _ _ _ _ (load_at _ _ _ n (at_ptr_insert _ _ _ b _ Hne Hat) ltac:(lia))).
    exact Es.
  - right. exists h. unfold mbind, M_bind. by rewrite E.
Qed.
End boxes.
