(* ===== verification/SeqEventData.v ===== *)
(** * Boxed data of events

    [src/src/seq/addr.c] and [event-data-note.c], [event-data-ctl.c],
    [event-data-queue.c], [event-data-connect.c] and [event-data-result.c]:
    accessors of the fields of structures in the heap, which are members of the
    structure of an event or copies of them. *)
From S2P Require Import Prelude Heap SeqUapi Struct SeqStructs Boxes.

(** [self->field] and [self->field = v] *)
Definition get_field (f : field) (self : ptr) : M heap Z :=
  bs ← load (p_add self (Z.of_nat (f_off f))) (Z.of_nat (f_width f));
  mret (fget (Field 0 (f_width f) (f_signed f)) bs).

Definition set_field (f : field) (self : ptr) (v : Z) : M heap unit :=
  store (p_add self (Z.of_nat (f_off f))) (le_split (f_width f) v).

(** ** Addresses *)

Definition seq_addr_copy `{!Allocator} (self : ptr) : M heap ptr := g_memdup self sizeof_addr.

Definition alsaseq_addr_new `{!Allocator} (client_id port_id : Z) : M heap ptr :=
  a ← g_malloc0 sizeof_addr;
  set_field addr_client (a, 0) client_id;;
  set_field addr_port (a, 0) port_id;;
  mret (a, 0).

Definition alsaseq_addr_get_client_id (self : ptr) : M heap Z := get_field addr_client self.
Definition alsaseq_addr_get_port_id (self : ptr) : M heap Z := get_field addr_port self.

Definition alsaseq_addr_equal (self target : ptr) : M heap bool :=
  c ← get_field addr_client self; c' ← get_field addr_client target;
  if c =? c' then
    p ← get_field addr_port self; p' ← get_field addr_port target;
    mret (p =? p')
  else mret false.

(** ** Notes *)

Definition sizeof_ev_note : Z := 8.
Definition note_channel : field := u8f 0.
Definition note_note : field := u8f 1.
Definition note_velocity : field := u8f 2.
Definition note_off_velocity : field := u8f 3.
Definition note_duration : field := u32f 4.

Definition seq_event_data_note_copy `{!Allocator} (self : ptr) : M heap ptr :=
  g_memdup self sizeof_ev_note.
Definition alsaseq_event_data_note_get_channel (self : ptr) : M heap Z := get_field note_channel self.
Definition alsaseq_event_data_note_set_channel (self : ptr) (channel : Z) : M heap unit :=
  set_field note_channel self channel.
Definition alsaseq_event_data_note_get_note (self : ptr) : M heap Z := get_field note_note self.
Definition alsaseq_event_data_note_set_note (self : ptr) (note : Z) : M heap unit :=
  set_field note_note self note.
Definition alsaseq_event_data_note_get_velocity (self : ptr) : M heap Z := get_field note_velocity self.
Definition alsaseq_event_data_note_set_velocity (self : ptr) (velocity : Z) : M heap unit :=
  set_field note_velocity self velocity.
Definition alsaseq_event_data_note_get_off_velocity (self : ptr) : M heap Z :=
  get_field note_off_velocity self.
Definition alsaseq_event_data_note_set_off_velocity (self : ptr) (off_velocity : Z) : M heap unit :=
  set_field note_off_velocity self off_velocity.

(** The duration goes through a variable of eight bits. *)
Definition alsaseq_event_data_note_get_duration (self : ptr) : M heap Z :=
  duration ← get_field note_duration self; mret (u8 duration).
Definition alsaseq_event_data_note_set_duration (self : ptr) (duration : Z) : M heap unit :=
  set_field note_duration self (u8 duration).

(** ** Controls *)

Definition sizeof_ev_ctrl : Z := 12.
Definition ctrl_channel : field := u8f 0.
Definition ctrl_param : field := u32f 4.
Definition ctrl_value : field := i32f 8.

Definition seq_event_data_ctl_copy `{!Allocator} (self : ptr) : M heap ptr :=
  g_memdup self sizeof_ev_ctrl.
Definition alsaseq_event_data_ctl_get_channel (self : ptr) : M heap Z := get_field ctrl_channel self.
Definition alsaseq_event_data_ctl_set_channel (self : ptr) (channel : Z) : M heap unit :=
  set_field ctrl_channel self channel.
Definition alsaseq_event_data_ctl_get_param (self : ptr) : M heap Z := get_field ctrl_param self.
Definition alsaseq_event_data_ctl_set_param (self : ptr) (param : Z) : M heap unit :=
  set_field ctrl_param self param.
Definition alsaseq_event_data_ctl_get_value (self : ptr) : M heap Z := get_field ctrl_value self.
Definition alsaseq_event_data_ctl_set_value (self : ptr) (value : Z) : M heap unit :=
  set_field ctrl_value self value.

(** ** Queues

    The parameters are a union of eight bytes; the accessors of its arrays give
    and take pointers. *)

Definition sizeof_ev_queue_control : Z := 12.
Definition queue_queue : field := u8f 0.
Definition queue_param : nat := 4.
Definition queue_value : field := i32f 4.
Definition queue_tick : field := u32f 4.
Definition queue_position : field := u32f 4.
Definition queue_tv_sec : field := u32f 4.
Definition queue_tv_nsec : field := u32f 8.
Definition queue_skew_value : field := u32f 4.
Definition queue_skew_base : field := u32f 8.

Definition seq_event_data_queue_copy `{!Allocator} (self : ptr) : M heap ptr :=
  g_memdup self sizeof_ev_queue_control.
Definition alsaseq_event_data_queue_get_queue_id (self : ptr) : M heap Z := get_field queue_queue self.
Definition alsaseq_event_data_queue_set_queue_id (self : ptr) (queue_id : Z) : M heap unit :=
  set_field queue_queue self queue_id.
Definition alsaseq_event_data_queue_get_value_param (self : ptr) : M heap Z :=
  get_field queue_value self.
Definition alsaseq_event_data_queue_set_value_param (self : ptr) (value : Z) : M heap unit :=
  set_field queue_value self value.
Definition alsaseq_event_data_queue_get_tick_time_param (self : ptr) : M heap Z :=
  get_field queue_tick self.
Definition alsaseq_event_data_queue_set_tick_time_param (self : ptr) (tick_time : Z) : M heap unit :=
  set_field queue_tick self tick_time.
Definition alsaseq_event_data_queue_get_position_param (self : ptr) : M heap Z :=
  get_field queue_position self.
Definition alsaseq_event_data_queue_set_position_param (self : ptr) (position : Z) : M heap unit :=
  set_field queue_position self position.

(** [array[0]] and [array[1]] of numbers of 32 bits. *)
Definition quad0 : field := u32f 0.
Definition quad1 : field := u32f 4.

Definition alsaseq_event_data_queue_get_real_time_param (self : ptr) : M heap ptr :=
  mret (p_add self (Z.of_nat queue_param)).
Definition alsaseq_event_data_queue_set_real_time_param (self real_time : ptr) : M heap unit :=
  v ← get_field quad0 real_time; set_field queue_tv_sec self v;;
  v ← get_field quad1 real_time; set_field queue_tv_nsec self v.

Definition alsaseq_event_data_queue_get_skew_param (self : ptr) : M heap ptr :=
  mret (p_add self (Z.of_nat queue_param)).
Definition alsaseq_event_data_queue_set_skew_param (self skew : ptr) : M heap unit :=
  v ← get_field quad0 skew; set_field queue_skew_value self v;;
  v ← get_field quad1 skew; set_field queue_skew_base self v.

Definition alsaseq_event_data_queue_get_quadlet_param (self : ptr) : M heap ptr :=
  mret (p_add self (Z.of_nat queue_param)).
Definition alsaseq_event_data_queue_set_quadlet_param (self quadlets : ptr) : M heap unit :=
  memcpy (p_add self (Z.of_nat queue_param)) quadlets 8.

Definition alsaseq_event_data_queue_get_byte_param (self : ptr) : M heap ptr :=
  mret (p_add self (Z.of_nat queue_param)).
Definition alsaseq_event_data_queue_set_byte_param (self bytes : ptr) : M heap unit :=
  memcpy (p_add self (Z.of_nat queue_param)) bytes 8.

(** ** Connections *)

Definition sizeof_connect : Z := 4.
Definition connect_sender : nat := 0.
Definition connect_dest : nat := 2.

Definition seq_event_data_connect_copy `{!Allocator} (self : ptr) : M heap ptr :=
  g_memdup self sizeof_connect.
Definition alsaseq_event_data_connect_get_src (self : ptr) : M heap ptr :=
  mret (p_add self (Z.of_nat connect_sender)).
Definition alsaseq_event_data_connect_set_src (self src : ptr) : M heap unit :=
  memcpy (p_add self (Z.of_nat connect_sender)) src sizeof_addr.
Definition alsaseq_event_data_connect_get_dst (self : ptr) : M heap ptr :=
  mret (p_add self (Z.of_nat connect_dest)).
Definition alsaseq_event_data_connect_set_dst (self dst : ptr) : M heap unit :=
  memcpy (p_add self (Z.of_nat connect_dest)) dst sizeof_addr.

(** ** Results *)

Definition sizeof_result : Z := 8.
Definition result_event : field := i32f 0.
Definition result_result : field := i32f 4.

Definition seq_event_data_result_copy `{!Allocator} (self : ptr) : M heap ptr :=
  g_memdup self sizeof_result.
Definition alsaseq_event_data_result_get_event (self : ptr) : M heap Z := get_field result_event self.
Definition alsaseq_event_data_result_set_event (self : ptr) (event_type : Z) : M heap unit :=
  set_field result_event self event_type.
Definition alsaseq_event_data_result_get_result (self : ptr) : M heap Z :=
  get_field result_result self.
Definition alsaseq_event_data_result_set_result (self : ptr) (result : Z) : M heap unit :=
  set_field result_result self result.

(** ** The scalar accessors *)

Inductive data_field :=
  | NoteChannel | NoteNote | NoteVelocity | NoteOffVelocity | NoteDuration
  | CtlChannel | CtlParam | CtlValue
  | QueueId | QueueValue | QueueTickTime | QueuePosition
  | ResultEvent | ResultResult.

Definition df_size (d : data_field) : Z :=
  match d with
  | NoteChannel | NoteNote | NoteVelocity | NoteOffVelocity | NoteDuration => sizeof_ev_note
  | CtlChannel | CtlParam | CtlValue => sizeof_ev_ctrl
  | QueueId | QueueValue | QueueTickTime | QueuePosition => sizeof_ev_queue_control
  | ResultEvent | ResultResult => sizeof_result
  end.

Definition df_field (d : data_field) : field :=
  match d with
  | NoteChannel => note_channel | NoteNote => note_note | NoteVelocity => note_velocity
  | NoteOffVelocity => note_off_velocity | NoteDuration => note_duration
  | CtlChannel => ctrl_channel | CtlParam => ctrl_param | CtlValue => ctrl_value
  | QueueId => queue_queue | QueueValue => queue_value | QueueTickTime => queue_tick
  | QueuePosition => queue_position
  | ResultEvent => result_event | ResultResult => result_result
  end.

Definition df_get (d : data_field) : ptr → M heap Z :=
  match d with
  | NoteChannel => alsaseq_event_data_note_get_channel
  | NoteNote => alsaseq_event_data_note_get_note
  | NoteVelocity => alsaseq_event_data_note_get_velocity
  | NoteOffVelocity => alsaseq_event_data_note_get_off_velocity
  | NoteDuration => alsaseq_event_data_note_get_duration
  | CtlChannel => alsaseq_event_data_ctl_get_channel
  | CtlParam => alsaseq_event_data_ctl_get_param
  | CtlValue => alsaseq_event_data_ctl_get_value
  | QueueId => alsaseq_event_data_queue_get_queue_id
  | QueueValue => alsaseq_event_data_queue_get_value_param
  | QueueTickTime => alsaseq_event_data_queue_get_tick_time_param
  | QueuePosition => alsaseq_event_data_queue_get_position_param
  | ResultEvent => alsaseq_event_data_result_get_event
  | ResultResult => alsaseq_event_data_result_get_result
  end.

Definition df_set (d : data_field) : ptr → Z → M heap unit :=
  match d with
  | NoteChannel => alsaseq_event_data_note_set_channel
  | NoteNote => alsaseq_event_data_note_set_note
  | NoteVelocity => alsaseq_event_data_note_set_velocity
  | NoteOffVelocity => alsaseq_event_data_note_set_off_velocity
  | NoteDuration => alsaseq_event_data_note_set_duration
  | CtlChannel => alsaseq_event_data_ctl_set_channel
  | CtlParam => alsaseq_event_data_ctl_set_param
  | CtlValue => alsaseq_event_data_ctl_set_value
  | QueueId => alsaseq_event_data_queue_set_queue_id
  | QueueValue => alsaseq_event_data_queue_set_value_param
  | QueueTickTime => alsaseq_event_data_queue_set_tick_time_param
  | QueuePosition => alsaseq_event_data_queue_set_position_param
  | ResultEvent => alsaseq_event_data_result_set_event
  | ResultResult => alsaseq_event_data_result_set_result
  end.

(** What of a number goes through the accessor. *)
Definition df_passes (d : data_field) (v : Z) : Z := match d with NoteDuration => u8 v | _ => v end.

(** ** The accessors of arrays and addresses

    A setter copies from the pointer of the caller, a getter gives a pointer
    into the structure. *)

Inductive data_array := RealTimeParam | SkewParam | QuadletParam | ByteParam | ConnectSrc | ConnectDst.

Definition da_size (d : data_array) : Z :=
  match d with ConnectSrc | ConnectDst => sizeof_connect | _ => sizeof_ev_queue_control end.

(** Where it lies in the structure, and how many bytes it has. *)
Definition da_offset (d : data_array) : nat :=
  match d with ConnectSrc => connect_sender | ConnectDst => connect_dest | _ => queue_param end.

Definition da_length (d : data_array) : nat :=
  match d with ConnectSrc | ConnectDst => 2 | _ => 8 end.

Definition da_get (d : data_array) : ptr → M heap ptr :=
  match d with
  | RealTimeParam => alsaseq_event_data_queue_get_real_time_param
  | SkewParam => alsaseq_event_data_queue_get_skew_param
  | QuadletParam => alsaseq_event_data_queue_get_quadlet_param
  | ByteParam => alsaseq_event_data_queue_get_byte_param
  | ConnectSrc => alsaseq_event_data_connect_get_src
  | ConnectDst => alsaseq_event_data_connect_get_dst
  end.

Definition da_set (d : data_array) : ptr → ptr → M heap unit :=
  match d with
  | RealTimeParam => alsaseq_event_data_queue_set_real_time_param
  | SkewParam => alsaseq_event_data_queue_set_skew_param
  | QuadletParam => alsaseq_event_data_queue_set_quadlet_param
  | ByteParam => alsaseq_event_data_queue_set_byte_param
  | ConnectSrc => alsaseq_event_data_connect_set_src
  | ConnectDst => alsaseq_event_data_connect_set_dst
  end.
