(* ===== verification/SeqEventDataProps.v ===== *)
(** * Correctness of the boxed data of events *)
From S2P Require Import Prelude Heap SeqUapi Struct SeqStructs Boxes SeqEventData.

Lemma at_ptr_sub h p s o n :
  at_ptr h p s → (o + n ≤ length s)%nat → at_ptr h (p_add p (Z.of_nat o)) (sub o n s).
Proof.
  intros (pre & post & H & Hl) Hn. exists (pre ++ take o s), (drop (o + n) s ++ post). split.
  - cbn. rewrite H. f_equal. unfold sub. rewrite <- !app_assoc. f_equal.
    rewrite <- (take_drop o s) at 1. rewrite <- app_assoc. f_equal.
    rewrite <- (take_drop n (drop o s)) at 1. by rewrite drop_drop, <- app_assoc.
  - rewrite length_app, length_take. cbn. lia.
Qed.

Lemma load_field_run f h p s :
  at_ptr h p s → f_in f (length s) = true → get_field f p h = (Ret (fget f s), h).
Proof.
  intros H [Hl Hw]%f_in_spec. unfold get_field.
  rewrite (bind_Ret _ _ _ (sub (f_off f) (f_width f) s) h).
  - unfold mret, M_ret. do 2 f_equal. unfold fget, le_s, le_u. cbn [f_signed f_off f_width].
    assert (sub 0 (f_width f) (sub (f_off f) (f_width f) s) = sub (f_off f) (f_width f) s) as ->; [|done].
    unfold sub at 1. rewrite drop_0. apply take_ge. by rewrite length_sub.
  - apply load_at; [by apply at_ptr_sub|]. by rewrite length_sub.
Qed.

(** A write into the structure at a pointer. *)
Lemma store_in h p s o vs :
  at_ptr h p s → vs ≠ [] → (o + length vs ≤ length s)%nat →
  ∃ h', store (p_add p (Z.of_nat o)) vs h = (Ret tt, h') ∧ at_ptr h' p (put_bytes o vs s) ∧
    ∀ a, a ≠ p.1 → h' !! a = h !! a.
Proof.
  destruct p as [a n]. intros (pre & post & H & Hn) Hv Hl. cbn [fst snd] in *. subst n.
  destruct (store_at h a (pre ++ take o s) (sub o (length vs) s) (drop (o + length vs) s ++ post) vs)
    as (h' & E & Hh & _).
  - rewrite H. f_equal. unfold sub. rewrite <- !app_assoc. f_equal.
    rewrite <- (take_drop o s) at 1. rewrite <- app_assoc. f_equal.
    rewrite <- (take_drop (length vs) (drop o s)) at 1. by rewrite drop_drop, <- app_assoc.
  - by apply length_sub.
  - rewrite (Hh Hv) in E. eexists. split; [|split].
    + replace (Z.of_nat (length (pre ++ take o s))) with (Z.of_nat (length pre) + Z.of_nat o) in E
        by (rewrite length_app, length_take; lia). exact E.
    + exists pre, post. split; [|done]. cbn. rewrite lookup_insert_eq. f_equal. unfold put_bytes.
      by rewrite <- !app_assoc.
    + intros b Hb. by apply lookup_insert_ne.
Qed.

Lemma store_field_run f h p s v :
  at_ptr h p s → f_in f (length s) = true →
  ∃ h', set_field f p v h = (Ret tt, h') ∧ at_ptr h' p (fput f v s) ∧ ∀ a, a ≠ p.1 → h' !! a = h !! a.
Proof.
  intros H [Hl Hw]%f_in_spec. apply store_in; [done| |by rewrite length_le_split].
  intros E. apply (f_equal length) in E. rewrite length_le_split in E. done.
Qed.

Lemma df_inside d : f_in (df_field d) (Z.to_nat (df_size d)) = true.
Proof. by destruct d. Qed.

Lemma df_get_run d h p s :
  at_ptr h p s → length s = Z.to_nat (df_size d) →
  df_get d p h = (Ret (df_passes d (fget (df_field d) s)), h).
Proof.
  intros H Hl. pose proof (df_inside d) as Hi. rewrite <- Hl in Hi.
  pose proof (load_field_run (df_field d) h p s H Hi) as E.
  destruct d; try exact E. cbn [df_get]. unfold alsaseq_event_data_note_get_duration.
  by rewrite (bind_Ret _ _ _ _ _ E).
Qed.

Lemma df_set_run d h p s v :
  at_ptr h p s → length s = Z.to_nat (df_size d) →
  ∃ h', df_set d p v h = (Ret tt, h') ∧ at_ptr h' p (fput (df_field d) (df_passes d v) s) ∧
    ∀ a, a ≠ p.1 → h' !! a = h !! a.
Proof.
  intros H Hl. pose proof (df_inside d) as Hi. rewrite <- Hl in Hi.
  destruct (store_field_run (df_field d) h p s (df_passes d v) H Hi) as (h' & E). exists h'. by destruct d.
Qed.

(** A write to a scalar field, and the getters after it. *)
Lemma data_field_run d d' v h p s :
  at_ptr h p s → length s = Z.to_nat (df_size d) → df_size d' = df_size d →
  ∃ h', df_set d p v h = (Ret tt, h') ∧
    (f_range (df_field d) v → df_get d p h' = (Ret (df_passes d v), h')) ∧
    (f_disjoint (df_field d) (df_field d') = true →
     ∃ x, df_get d' p h = (Ret x, h) ∧ df_get d' p h' = (Ret x, h')) ∧
    ∀ a, a ≠ p.1 → h' !! a = h !! a.
Proof.
  intros H Hl Hs. destruct (df_set_run d h p s v H Hl) as (h' & E & H' & Ho). exists h'.
  set (s' := fput (df_field d) (df_passes d v) s) in *.
  pose proof (df_inside d) as Hi. rewrite <- Hl in Hi.
  assert (length s' = length s) as L by (by apply length_fput).
  split; [done|]. split; [|split; [|done]].
  - intros Hr. rewrite (df_get_run d h' p s' H') by congruence. unfold s'.
    assert (f_range (df_field d) (df_passes d v)) as Hp.
    { destruct d; try exact Hr. pose proof (u8_range v) as [? ?]. cbn [df_passes]. f_ranged. }
    rewrite fget_fput_id by done. destruct d; try done. cbn [df_passes].
    by rewrite (u8_id (u8 v)) by apply u8_range.
  - intros Hd. exists (df_passes d' (fget (df_field d') s)).
    rewrite (df_get_run d' h p s H), (df_get_run d' h' p s' H') by congruence.
    unfold s'. by rewrite fget_fput_other.
Qed.

(** *** Arrays *)

Lemma copy_into h p s o q t n :
  at_ptr h p s → at_ptr h q t → length t = n → (0 < n)%nat → (o + n ≤ length s)%nat →
  ∃ h', memcpy (p_add p (Z.of_nat o)) q (Z.of_nat n) h = (Ret tt, h') ∧
    at_ptr h' p (put_bytes o t s) ∧ ∀ a, a ≠ p.1 → h' !! a = h !! a.
Proof.
  intros Hp Hq Hl Hn Ho. unfold memcpy.
  rewrite (bind_Ret _ _ _ _ _ (load_at h q t (Z.of_nat n) Hq ltac:(by rewrite Hl))).
  apply store_in; [done| |by rewrite Hl]. intros ->. simpl in Hl. lia.
Qed.

(** Two numbers of 32 bits, one after the other. *)
Lemma copy_pair h p s q t f g :
  at_ptr h p s → at_ptr h q t → p.1 ≠ q.1 → length t = 8%nat →
  f = u32f (f_off f) → g = u32f (f_off f + 4) → (f_off f + 8 ≤ length s)%nat →
  ∃ h', (v ← get_field quad0 q; set_field f p v;; v ← get_field quad1 q; set_field g p v) h =
      (Ret tt, h') ∧
    at_ptr h' p (put_bytes (f_off f) t s) ∧ ∀ a, a ≠ p.1 → h' !! a = h !! a.
Proof.
  intros Hp Hq Hpq Hl Ef Eg Ho. set (o := f_off f) in *.
  assert (∀ h', (∀ a, a ≠ p.1 → h' !! a = h !! a) → at_ptr h' q t) as Hkeep.
  { intros h' H. destruct Hq as (pre & post & E & Hn). exists pre, post. split; [|done].
    rewrite H; [done|congruence]. }
  rewrite (bind_Ret _ _ _ _ _ (load_field_run quad0 h q t Hq ltac:(by rewrite Hl))).
  assert (f_in f (length s) = true) as Hf.
  { rewrite Ef. unfold f_in. cbn [u32f f_off f_width]. by rewrite bool_decide_true by lia. }
  destruct (store_field_run f h p s (fget quad0 t) Hp Hf) as (h1 & E1 & Hp1 & Ho1).
  rewrite (bind_Ret _ _ _ _ _ E1). specialize (Hkeep h1 Ho1).
  rewrite (bind_Ret _ _ _ _ _ (load_field_run quad1 h1 q t Hkeep ltac:(by rewrite Hl))).
  assert (f_in g (length (fput f (fget quad0 t) s)) = true) as Hg.
  { rewrite length_fput by done. rewrite Eg. unfold f_in. cbn [u32f f_off f_width].
    by rewrite bool_decide_true by lia. }
  destruct (store_field_run g h1 p _ (fget quad1 t) Hp1 Hg) as (h2 & E2 & Hp2 & Ho2).
  exists h2. split; [done|]. split; [|intros a Ha; by rewrite Ho2, Ho1].
  assert (fput g (fget quad1 t) (fput f (fget quad0 t) s) = put_bytes o t s) as <-; [|done].
  rewrite Ef, Eg. unfold fput. cbn [u32f f_off f_width]. fold o.
  assert (∀ i, (i + 4 ≤ length t)%nat → le_split 4 (fget (u32f i) t) = sub i 4 t) as Hsub.
  { intros i Hi. unfold fget. cbn [u32f f_signed f_off f_width]. by apply split_le_u. }
  unfold quad0, quad1. rewrite !Hsub by lia.
  apply list_eq. intros i.
  rewrite !lookup_put_bytes by (rewrite ?length_put_bytes, ?length_sub; rewrite ?length_sub; lia).
  rewrite !length_sub, Hl by lia. unfold sub.
  repeat case_decide; try lia; try done.
  - rewrite lookup_take_lt by lia. rewrite lookup_drop. f_equal. lia.
  - rewrite lookup_take_lt by lia. rewrite lookup_drop. f_equal.
Qed.

Lemma da_inside d : (da_offset d + da_length d ≤ Z.to_nat (da_size d))%nat.
Proof. destruct d; by apply Nat.leb_le. Qed.

Lemma da_set_run d h p s q t :
  at_ptr h p s → length s = Z.to_nat (da_size d) → at_ptr h q t → length t = da_length d →
  p.1 ≠ q.1 →
  ∃ h', da_set d p q h = (Ret tt, h') ∧ at_ptr h' p (put_bytes (da_offset d) t s) ∧
    ∀ a, a ≠ p.1 → h' !! a = h !! a.
Proof.
  intros Hp Hl Hq Ht Hpq. pose proof (da_inside d) as Hi. rewrite <- Hl in Hi.
  destruct d; cbn [da_length da_offset da_set] in *.
  - apply (copy_pair h p s q t queue_tv_sec queue_tv_nsec); try done; lia.
  - apply (copy_pair h p s q t queue_skew_value queue_skew_base); try done; lia.
  - apply (copy_into h p s queue_param q t 8); done || lia.
  - apply (copy_into h p s queue_param q t 8); done || lia.
  - apply (copy_into h p s connect_sender q t 2); done || lia.
  - apply (copy_into h p s connect_dest q t 2); done || lia.
Qed.

(** C39: the accessors of boxed data, wherever the structure lies.  A scalar
    setter writes its field alone: the getter of the field gives the value
    back, wrapped to the field and, for the duration of a note, to eight bits,
    and a getter of a field that does not overlap gives what it gave before.  A
    setter of an array or an address copies it into the structure; the getter
    gives a pointer to it there, not a copy: what the caller writes through the
    pointer changes the structure.  No other block changes. *)
Theorem event_data_roundtrip h p s :
  at_ptr h p s →
  (∀ d d' v, length s = Z.to_nat (df_size d) → df_size d' = df_size d →
     ∃ h', df_set d p v h = (Ret tt, h') ∧
       (f_range (df_field d) v → df_get d p h' = (Ret (df_passes d v), h')) ∧
       (f_disjoint (df_field d) (df_field d') = true →
        ∃ x, df_get d' p h = (Ret x, h) ∧ df_get d' p h' = (Ret x, h')) ∧
       ∀ a, a ≠ p.1 → h' !! a = h !! a) ∧
  (∀ d q t, length s = Z.to_nat (da_size d) → at_ptr h q t → length t = da_length d → p.1 ≠ q.1 →
     ∃ h' x, da_set d p q h = (Ret tt, h') ∧ at_ptr h' p (put_bytes (da_offset d) t s) ∧
       da_get d p h' = (Ret x, h') ∧ at_ptr h' x t ∧
       (∀ u, length u = da_length d →
          ∃ h2, store x u h' = (Ret tt, h2) ∧ at_ptr h2 p (put_bytes (da_offset d) u s)) ∧
       ∀ a, a ≠ p.1 → h' !! a = h !! a).
Proof.
  intros H. split; [intros d d' v Hl Hs; by apply (data_field_run d d' v h p s)|].
  intros d q t Hl Hq Ht Hpq.
  destruct (da_set_run d h p s q t H Hl Hq Ht Hpq) as (h' & E & H' & Ho).
  pose proof (da_inside d) as Hi. rewrite <- Hl in Hi.
  assert (length (put_bytes (da_offset d) t s) = length s) as Hlp by (apply length_put_bytes; lia).
  exists h', (p_add p (Z.of_nat (da_offset d))). split_and!; [done|done|by destruct d|..|done].
  - pose proof (at_ptr_sub h' p _ (da_offset d) (length t) H' ltac:(lia)) as Hx.
    by rewrite sub_put_same in Hx by lia.
  - intros u Hu. destruct (store_in h' p (put_bytes (da_offset d) t s) (da_offset d) u)
      as (h2 & E2 & H2 & _); [done| |lia|].
    + intros ->. by destruct d.
    + exists h2. split; [done|]. by rewrite put_put_same in H2 by lia.
Qed.

Lemma event_data_roundtrip_witness :
  (∃ h', df_set NoteDuration (64, 4) 300 {[ 64 := zeroed 12; 128 := zeroed 2 ]} = (Ret tt, h') ∧
     df_get NoteDuration (64, 4) h' = (Ret 44, h')) ∧
  ∃ h' x, da_set ConnectDst (64, 4) (128, 0)
      {[ 64 := zeroed 8; 128 := [Byte.x80; Byte.x01] ]} = (Ret tt, h') ∧
    da_get ConnectDst (64, 4) h' = (Ret x, h') ∧ at_ptr h' x [Byte.x80; Byte.x01].
Proof.
  split.
  - destruct (event_data_roundtrip {[ 64 := zeroed 12; 128 := zeroed 2 ]} (64, 4) (zeroed 8))
      as [Hf _].
    + exists (zeroed 4), []. split; vm_compute; reflexivity.
    + destruct (Hf NoteDuration NoteNote 300) as (h' & E & R & _); [reflexivity..|].
      exists h'. split; [exact E|]. apply R. split; vm_compute; congruence.
  - destruct (event_data_roundtrip {[ 64 := zeroed 8; 128 := [Byte.x80; Byte.x01] ]} (64, 4)
      (zeroed 4)) as [_ Ha].
    + exists (zeroed 4), []. split; vm_compute; reflexivity.
    + destruct (Ha ConnectDst (128, 0) [Byte.x80; Byte.x01]) as (h' & x & E & _ & R & Hx & _);
        [reflexivity|apply at_ptr_block; vm_compute; reflexivity|reflexivity|done|].
      exists h', x. split_and!; [exact E|exact R|exact Hx].
Defined.
