(* ===== verification/CtlStructs.v ===== *)
(** * Structures of the control interface

    Sizes and fields of the structures of [sound/asound.h] the control
    functions use, for 64-bit little-endian systems. *)
From S2P Require Import Prelude SeqUapi Struct.

(** [struct snd_ctl_elem_id] *)
Definition sizeof_elem_id : Z := 64.
Definition id_numid : field := u32f 0.
Definition id_iface : field := i32f 4.
Definition id_device : field := u32f 8.
Definition id_subdevice : field := u32f 12.
Definition id_name : nat := 16.
Definition id_index : field := u32f 60.

(** [struct snd_ctl_card_info] *)
Definition sizeof_card_info : Z := 376.

(** [struct snd_ctl_elem_list] *)
Definition sizeof_elem_list : Z := 80.
Definition el_offset : field := u32f 0.
Definition el_space : field := u32f 4.
Definition el_used : field := u32f 8.
Definition el_count : field := u32f 12.
Definition el_pids : field := u64f 16.

(** [struct snd_ctl_elem_info]; the fields of the members of the union
    [value] overlap *)
Definition sizeof_elem_info : Z := 272.
Definition ei_id : nat := 0.
Definition ei_type : field := i32f 64.
Definition ei_access : field := u32f 68.
Definition ei_count : field := u32f 72.
Definition ei_owner : field := i32f 76.
Definition ei_min : field := i64f 80.
Definition ei_max : field := i64f 88.
Definition ei_step : field := i64f 96.
Definition ei_items : field := u32f 80.
Definition ei_item : field := u32f 84.
Definition ei_name : nat := 88.
Definition ei_names_ptr : field := u64f 152.
Definition ei_names_length : field := u32f 160.

(** [struct snd_ctl_elem_value]; the id comes first *)
Definition sizeof_elem_value : Z := 1224.

(** [struct snd_ctl_tlv], with [tlv] behind it *)
Definition sizeof_tlv : Z := 8.
Definition tlv_numid : field := u32f 0.
Definition tlv_length : field := u32f 4.

(** [struct snd_ctl_event] *)
Definition sizeof_ctl_event : Z := 72.
Definition ev_type : field := i32f 0.
Definition ev_mask : field := u32f 4.
Definition ev_id : nat := 8.

Definition SNDRV_CTL_EVENT_ELEM : Z := 0.
Definition SNDRV_CTL_EVENT_MASK_REMOVE : Z := 2 ^ 32 - 1.
Definition SNDRV_CTL_EVENT_MASK_TLV : Z := 8.
Definition SNDRV_CTL_ELEM_TYPE_BOOLEAN : Z := 1.
Definition SNDRV_CTL_ELEM_TYPE_INTEGER : Z := 2.
Definition SNDRV_CTL_ELEM_TYPE_ENUMERATED : Z := 3.
Definition SNDRV_CTL_ELEM_TYPE_BYTES : Z := 4.
Definition SNDRV_CTL_ELEM_TYPE_IEC958 : Z := 5.
Definition SNDRV_CTL_ELEM_TYPE_INTEGER64 : Z := 6.
