(* ===== verification/CtlElemId.v ===== *)
(** * Identifiers of control elements: [src/src/ctl/elem-id.c]

    A boxed [struct snd_ctl_elem_id]: 64 bytes of the heap.  An identifier
    names an element by its number or by its interface, device, name and
    index. *)
From S2P Require Import Prelude Heap SeqUapi Struct CtlStructs.

Section elem_id.
Context {AL : Allocator}.

Definition ctl_elem_id_copy (self : ptr) : M heap ptr :=
  a ← g_malloc sizeof_elem_id;
  memcpy (a, 0) self sizeof_elem_id;;
  mret (a, 0).

Definition alsactl_elem_id_new_by_numid (numid : Z) : M heap ptr :=
  a ← g_malloc0 sizeof_elem_id;
  s ← load (a, 0) sizeof_elem_id;
  store (a, 0) (fput id_numid numid s);;
  mret (a, 0).

Definition elem_id_of_name (iface device_id subdevice_id : Z) (name : string) (index : Z)
    (s : list byte) : list byte :=
  let s := fput id_subdevice subdevice_id (fput id_device device_id (fput id_iface iface s)) in
  fput id_index index (put_bytes id_name (g_strlcpy name (sub id_name 44 s)) s).

Definition alsactl_elem_id_new_by_name (iface device_id subdevice_id : Z) (name : string)
    (index : Z) : M heap ptr :=
  g_return_if_fail (negb (String.length name =? 0)%nat);;
  a ← g_malloc0 sizeof_elem_id;
  s ← load (a, 0) sizeof_elem_id;
  store (a, 0) (elem_id_of_name iface device_id subdevice_id name index s);;
  mret (a, 0).

Definition get_id_field (f : field) (self : ptr) : M heap Z :=
  s ← load self sizeof_elem_id; mret (fget f s).

Definition alsactl_elem_id_get_numid : ptr → M heap Z := get_id_field id_numid.
Definition alsactl_elem_id_get_iface : ptr → M heap Z := get_id_field id_iface.
Definition alsactl_elem_id_get_device_id : ptr → M heap Z := get_id_field id_device.
Definition alsactl_elem_id_get_subdevice_id : ptr → M heap Z := get_id_field id_subdevice.
Definition alsactl_elem_id_get_index : ptr → M heap Z := get_id_field id_index.

(** A pointer to the characters in the structure. *)
Definition alsactl_elem_id_get_name (self : ptr) : ptr := p_add self (Z.of_nat id_name).

(** [strcmp] on names; an array without a null character runs on into the
    index. *)
Definition elem_id_equal (lhs rhs : list byte) : bool :=
  (fget id_numid lhs =? fget id_numid rhs) ||
  ((fget id_iface lhs =? fget id_iface rhs) &&
   (fget id_device lhs =? fget id_device rhs) &&
   (fget id_subdevice lhs =? fget id_subdevice rhs) &&
   bool_decide (c_str (drop id_name lhs) = c_str (drop id_name rhs)) &&
   (fget id_index lhs =? fget id_index rhs)).

Definition alsactl_elem_id_equal (self target : ptr) : M heap bool :=
  lhs ← load self sizeof_elem_id;
  rhs ← load target sizeof_elem_id;
  mret (elem_id_equal lhs rhs).
End elem_id.
