(* ===== verification/CtlObjects.v ===== *)
(** * Objects of information of controls

    [src/src/ctl/card-info.c] and [elem-info-*.c].  The classes of elements
    share the interfaces [elem-info-common.c] and [elem-info-single-array.c]:
    the handlers of a class take its own properties and hand the others to the
    functions of the interface it implements. *)
From S2P Require Import Prelude SeqUapi Struct GValue CtlStructs.

(** ** Cards *)

(** [struct snd_ctl_card_info] *)
Definition cardi_card : field := i32f 0.
Definition cardi_id : nat := 8.
Definition cardi_driver : nat := 24.
Definition cardi_name : nat := 40.
Definition cardi_longname : nat := 72.
Definition cardi_mixername : nat := 168.
Definition cardi_components : nat := 248.

Inductive ctl_card_info_prop :=
  | CTL_CARD_INFO_PROP_CARD_ID | CTL_CARD_INFO_PROP_ID | CTL_CARD_INFO_PROP_DRIVER
  | CTL_CARD_INFO_PROP_NAME | CTL_CARD_INFO_PROP_LONG_NAME | CTL_CARD_INFO_PROP_MIXER_NAME
  | CTL_CARD_INFO_PROP_COMPONENTS.

Definition ctl_card_info_get_property (id : ctl_card_info_prop) (info : list byte)
    (val : gvalue) : gvalue :=
  match id with
  | CTL_CARD_INFO_PROP_CARD_ID => g_value_set_int val (fget cardi_card info)
  | CTL_CARD_INFO_PROP_ID => g_value_set_static_string val (sub cardi_id 16 info)
  | CTL_CARD_INFO_PROP_DRIVER => g_value_set_static_string val (sub cardi_driver 16 info)
  | CTL_CARD_INFO_PROP_NAME => g_value_set_static_string val (sub cardi_name 32 info)
  | CTL_CARD_INFO_PROP_LONG_NAME => g_value_set_static_string val (sub cardi_longname 80 info)
  | CTL_CARD_INFO_PROP_MIXER_NAME => g_value_set_static_string val (sub cardi_mixername 80 info)
  | CTL_CARD_INFO_PROP_COMPONENTS => g_value_set_static_string val (sub cardi_components 128 info)
  end.

Definition ctl_card_info_props (id : ctl_card_info_prop) : pspec :=
  match id with
  | CTL_CARD_INFO_PROP_CARD_ID => g_param_spec_int "card-id" G_MININT G_MAXINT (-1) READABLE
  | CTL_CARD_INFO_PROP_ID => g_param_spec_string "id" READABLE
  | CTL_CARD_INFO_PROP_DRIVER => g_param_spec_string "driver" READABLE
  | CTL_CARD_INFO_PROP_NAME => g_param_spec_string "name" READABLE
  | CTL_CARD_INFO_PROP_LONG_NAME => g_param_spec_string "long-name" READABLE
  | CTL_CARD_INFO_PROP_MIXER_NAME => g_param_spec_string "mixer-name" READABLE
  | CTL_CARD_INFO_PROP_COMPONENTS => g_param_spec_string "components" READABLE
  end.

(** ** Any element *)

Definition ALSACTL_ELEM_TYPE_NONE : Z := 0.
Definition ALSACTL_ELEM_ACCESS_FLAG_READ : Z := 1.

Inductive elem_info_common_prop :=
  | ELEM_INFO_COMMON_PROP_ELEM_ID | ELEM_INFO_COMMON_PROP_ELEM_TYPE
  | ELEM_INFO_COMMON_PROP_ACCESS | ELEM_INFO_COMMON_PROP_OWNER.

Definition elem_info_common_set_property (data : list byte) (id : elem_info_common_prop)
    (val : gvalue) : option (list byte) :=
  match id with
  | ELEM_INFO_COMMON_PROP_ELEM_ID => put_boxed ei_id val data
  | ELEM_INFO_COMMON_PROP_ELEM_TYPE => Some (fput ei_type (g_value_get_enum val) data)
  | ELEM_INFO_COMMON_PROP_ACCESS => Some (fput ei_access (g_value_get_flags val) data)
  | ELEM_INFO_COMMON_PROP_OWNER => Some (fput ei_owner (g_value_get_int val) data)
  end.

Definition elem_info_common_get_property (data : list byte) (id : elem_info_common_prop)
    (val : gvalue) : gvalue :=
  match id with
  | ELEM_INFO_COMMON_PROP_ELEM_ID => g_value_set_static_boxed val (sub ei_id 64 data)
  | ELEM_INFO_COMMON_PROP_ELEM_TYPE => g_value_set_enum val (fget ei_type data)
  | ELEM_INFO_COMMON_PROP_ACCESS => g_value_set_flags val (fget ei_access data)
  | ELEM_INFO_COMMON_PROP_OWNER => g_value_set_int val (fget ei_owner data)
  end.

Definition elem_info_common_props (id : elem_info_common_prop) : pspec :=
  match id with
  | ELEM_INFO_COMMON_PROP_ELEM_ID => g_param_spec_boxed "elem-id" "ALSACtlElemId" READABLE
  | ELEM_INFO_COMMON_PROP_ELEM_TYPE =>
      g_param_spec_enum "elem-type" "ALSACtlElemType" ALSACTL_ELEM_TYPE_NONE CONSTRUCT_ONLY
  | ELEM_INFO_COMMON_PROP_ACCESS =>
      g_param_spec_flags "access" "ALSACtlElemAccessFlag" ALSACTL_ELEM_ACCESS_FLAG_READ READWRITE
  | ELEM_INFO_COMMON_PROP_OWNER => g_param_spec_int "owner" G_MININT G_MAXINT (-1) READABLE
  end.

(** ** Elements with an array of values *)

Inductive elem_info_single_array_prop :=
  | ELEM_INFO_COMMON (id : elem_info_common_prop)
  | ELEM_INFO_SINGLE_ARRAY_PROP_VALUE_COUNT.

Definition elem_info_single_array_set_property (data : list byte)
    (id : elem_info_single_array_prop) (val : gvalue) : option (list byte) :=
  match id with
  | ELEM_INFO_SINGLE_ARRAY_PROP_VALUE_COUNT => Some (fput ei_count (g_value_get_uint val) data)
  | ELEM_INFO_COMMON id => elem_info_common_set_property data id val
  end.

Definition elem_info_single_array_get_property (data : list byte)
    (id : elem_info_single_array_prop) (val : gvalue) : gvalue :=
  match id with
  | ELEM_INFO_SINGLE_ARRAY_PROP_VALUE_COUNT => g_value_set_uint val (fget ei_count data)
  | ELEM_INFO_COMMON id => elem_info_common_get_property data id val
  end.

Definition elem_info_single_array_props (id : elem_info_single_array_prop) : pspec :=
  match id with
  | ELEM_INFO_SINGLE_ARRAY_PROP_VALUE_COUNT =>
      g_param_spec_uint "value-count" 0 G_MAXUINT 1 READWRITE
  | ELEM_INFO_COMMON id => elem_info_common_props id
  end.

(** ** Integers *)

Inductive elem_info_integer_prop :=
  | INTEGER_SINGLE_ARRAY (id : elem_info_single_array_prop)
  | ELEM_INFO_INTEGER_PROP_MIN | ELEM_INFO_INTEGER_PROP_MAX | ELEM_INFO_INTEGER_PROP_STEP.

Definition ctl_elem_info_integer_set_property (id : elem_info_integer_prop) (val : gvalue)
    (data : list byte) : option (list byte) :=
  match id with
  | ELEM_INFO_INTEGER_PROP_MIN => Some (fput ei_min (g_value_get_int val) data)
  | ELEM_INFO_INTEGER_PROP_MAX => Some (fput ei_max (g_value_get_int val) data)
  | ELEM_INFO_INTEGER_PROP_STEP => Some (fput ei_step (g_value_get_int val) data)
  | INTEGER_SINGLE_ARRAY id => elem_info_single_array_set_property data id val
  end.

Definition ctl_elem_info_integer_get_property (id : elem_info_integer_prop) (data : list byte)
    (val : gvalue) : gvalue :=
  match id with
  | ELEM_INFO_INTEGER_PROP_MIN => g_value_set_int val (i32 (fget ei_min data))
  | ELEM_INFO_INTEGER_PROP_MAX => g_value_set_int val (i32 (fget ei_max data))
  | ELEM_INFO_INTEGER_PROP_STEP => g_value_set_int val (i32 (fget ei_step data))
  | INTEGER_SINGLE_ARRAY id => elem_info_single_array_get_property data id val
  end.

Definition elem_info_integer_props (id : elem_info_integer_prop) : pspec :=
  match id with
  | ELEM_INFO_INTEGER_PROP_MIN => g_param_spec_int "value-min" G_MININT G_MAXINT 0 READWRITE
  | ELEM_INFO_INTEGER_PROP_MAX => g_param_spec_int "value-max" G_MININT G_MAXINT 0 READWRITE
  | ELEM_INFO_INTEGER_PROP_STEP => g_param_spec_int "value-step" G_MININT G_MAXINT 0 READWRITE
  | INTEGER_SINGLE_ARRAY id => elem_info_single_array_props id
  end.

(** ** Integers of 64 bits *)

Inductive elem_info_integer64_prop :=
  | INTEGER64_SINGLE_ARRAY (id : elem_info_single_array_prop)
  | ELEM_INFO_INTEGER64_PROP_MIN | ELEM_INFO_INTEGER64_PROP_MAX | ELEM_INFO_INTEGER64_PROP_STEP.

Definition ctl_elem_info_integer64_set_property (id : elem_info_integer64_prop) (val : gvalue)
    (data : list byte) : option (list byte) :=
  match id with
  | ELEM_INFO_INTEGER64_PROP_MIN => Some (fput ei_min (g_value_get_int64 val) data)
  | ELEM_INFO_INTEGER64_PROP_MAX => Some (fput ei_max (g_value_get_int64 val) data)
  | ELEM_INFO_INTEGER64_PROP_STEP => Some (fput ei_step (g_value_get_int64 val) data)
  | INTEGER64_SINGLE_ARRAY id => elem_info_single_array_set_property data id val
  end.

Definition ctl_elem_info_integer64_get_property (id : elem_info_integer64_prop)
    (data : list byte) (val : gvalue) : gvalue :=
  match id with
  | ELEM_INFO_INTEGER64_PROP_MIN => g_value_set_int64 val (fget ei_min data)
  | ELEM_INFO_INTEGER64_PROP_MAX => g_value_set_int64 val (fget ei_max data)
  | ELEM_INFO_INTEGER64_PROP_STEP => g_value_set_int64 val (fget ei_step data)
  | INTEGER64_SINGLE_ARRAY id => elem_info_single_array_get_property data id val
  end.

Definition elem_info_integer64_props (id : elem_info_integer64_prop) : pspec :=
  match id with
  | ELEM_INFO_INTEGER64_PROP_MIN =>
      g_param_spec_int64 "value-min" G_MININT64 G_MAXINT64 0 READWRITE
  | ELEM_INFO_INTEGER64_PROP_MAX =>
      g_param_spec_int64 "value-max" G_MININT64 G_MAXINT64 0 READWRITE
  | ELEM_INFO_INTEGER64_PROP_STEP =>
      g_param_spec_int64 "value-step" G_MININT64 G_MAXINT64 0 READWRITE
  | INTEGER64_SINGLE_ARRAY id => elem_info_single_array_props id
  end.

(** ** Booleans, bytes and IEC 60958 *)

Definition ctl_elem_info_boolean_set_property (id : elem_info_single_array_prop) (val : gvalue)
    (data : list byte) : option (list byte) := elem_info_single_array_set_property data id val.

Definition ctl_elem_info_boolean_get_property (id : elem_info_single_array_prop)
    (data : list byte) (val : gvalue) : gvalue := elem_info_single_array_get_property data id val.

Definition ctl_elem_info_bytes_set_property (id : elem_info_single_array_prop) (val : gvalue)
    (data : list byte) : option (list byte) := elem_info_single_array_set_property data id val.

Definition ctl_elem_info_bytes_get_property (id : elem_info_single_array_prop)
    (data : list byte) (val : gvalue) : gvalue := elem_info_single_array_get_property data id val.

Definition ctl_elem_info_iec60958_set_property (id : elem_info_common_prop) (val : gvalue)
    (data : list byte) : option (list byte) := elem_info_common_set_property data id val.

Definition ctl_elem_info_iec60958_get_property (id : elem_info_common_prop) (data : list byte)
    (val : gvalue) : gvalue := elem_info_common_get_property data id val.

Definition alsactl_elem_info_iec60958_init (data : list byte) : list byte := fput ei_count 1 data.

(** ** Enumerations

    The object keeps the labels beside the structure, [None] for NULL: a
    property of its own, of a vector of strings. *)

Record elem_info_enumerated := ElemInfoEnumerated {
  ee_data : list byte;
  ee_labels : option (list (list byte));
}.

(** [g_strdupv] gives NULL for NULL. *)
Definition ctl_elem_info_enumerated_set_labels (val : option (list (list byte)))
    (self : elem_info_enumerated) : elem_info_enumerated :=
  ElemInfoEnumerated (ee_data self) val.

Definition ctl_elem_info_enumerated_get_labels (self : elem_info_enumerated) :
    option (list (list byte)) := ee_labels self.

Definition ctl_elem_info_enumerated_set_property (id : elem_info_single_array_prop)
    (val : gvalue) (self : elem_info_enumerated) : option elem_info_enumerated :=
  data ← elem_info_single_array_set_property (ee_data self) id val;
  Some (ElemInfoEnumerated data (ee_labels self)).

Definition ctl_elem_info_enumerated_get_property (id : elem_info_single_array_prop)
    (self : elem_info_enumerated) (val : gvalue) : gvalue :=
  elem_info_single_array_get_property (ee_data self) id val.
