(* ===== verification/CtlLabels.v ===== *)
(** * The labels of an enumeration in memory

    The object of [src/src/ctl/elem-info-enumerated.c] keeps its labels as a
    vector of strings of its own: an array of pointers with NULL behind the
    last one, and a block for each string.  [CtlObjects] has the labels as
    values; here is the memory they take, and that it is given back. *)
From S2P Require Import Prelude Heap SeqUapi Struct Boxes CString CtlObjects.

(** ** Vectors of strings of GLib *)

(** The pointers in front of the first NULL; there must be one. *)
Fixpoint strv_pointers (fuel : nat) (bs : list byte) : option (list Z) :=
  match fuel with
  | O => None
  | S fuel =>
      if (length bs <? 8)%nat then None else
      let p := le_combine (take 8 bs) in
      if p =? 0 then Some []
      else ps ← strv_pointers fuel (drop 8 bs); Some (p :: ps)
  end.

Definition strv_bytes (ps : list Z) : list byte :=
  concat (map (le_split 8) ps) ++ le_split 8 0.

Section strv.
Context {AL : Allocator}.

Definition load_strv (v : Z) : M heap (list Z) := λ h,
  match h !! v with
  | Some bs =>
      match strv_pointers (length bs) bs with Some ps => (Ret ps, h) | None => (UB, h) end
  | None => (UB, h)
  end.

(** [g_strdup] *)
Definition g_strdup (p : Z) : M heap Z :=
  s ← load_string (p, 0);
  a ← g_malloc (Z.of_nat (length s) + 1);
  store (a, 0) (s ++ [Byte.x00]);;
  mret a.

Fixpoint dup_strings (ps : list Z) : M heap (list Z) :=
  match ps with
  | [] => mret []
  | p :: ps => d ← g_strdup p; ds ← dup_strings ps; mret (d :: ds)
  end.

(** [g_strdupv]: a copy of the vector and of each string, NULL for NULL. *)
Definition g_strdupv (v : Z) : M heap Z :=
  if v =? 0 then mret 0 else
  ps ← load_strv v;
  a ← g_malloc (8 * (Z.of_nat (length ps) + 1));
  ds ← dup_strings ps;
  store (a, 0) (strv_bytes ds);;
  mret a.

Fixpoint free_all (ps : list Z) : M heap unit :=
  match ps with
  | [] => mret tt
  | p :: ps => g_free p;; free_all ps
  end.

(** [g_strfreev]: each string, then the vector; nothing for NULL. *)
Definition g_strfreev (v : Z) : M heap unit :=
  if v =? 0 then mret tt else
  ps ← load_strv v;
  free_all (ps ++ [v]).

(** ** The object *)

Record enumerated_private := EnumeratedPrivate { ep_data : list byte; ep_labels : Z }.

Definition ctl_elem_info_enumerated_init (data : list byte) : enumerated_private :=
  EnumeratedPrivate data 0.

(** [labels] is written: [val] is the vector of the caller. *)
Definition ctl_elem_info_enumerated_set_property_labels (val : Z) (self : enumerated_private) :
    M heap enumerated_private :=
  (if negb (ep_labels self =? 0) then g_strfreev (ep_labels self) else mret tt);;
  labels ← g_strdupv val;
  mret (EnumeratedPrivate (ep_data self) labels).

(** [g_value_set_static_boxed]: the vector of the object itself. *)
Definition ctl_elem_info_enumerated_get_property_labels (self : enumerated_private) : Z :=
  ep_labels self.

Definition ctl_elem_info_enumerated_finalize (self : enumerated_private) : M heap unit :=
  g_strfreev (ep_labels self).
End strv.

(** ** What lies in memory *)

Definition c_bytes (l : list byte) : list byte := l ++ [Byte.x00].

(** The vector at [v] has the pointers [ps] to the strings [labels]. *)
Definition strings_at (h : heap) (ps : list Z) (labels : list (list byte)) : Prop :=
  Forall2 (λ p l, h !! p = Some (c_bytes l) ∧ c_chars_only l ∧ 0 < p < 2 ^ 64) ps labels.

(** The labels at the pointer [v], NULL for no labels. *)
Definition labels_at (h : heap) (v : Z) (labels : option (list (list byte))) : Prop :=
  match labels with
  | None => v = 0
  | Some labels => 0 < v < 2 ^ 64 ∧
      ∃ ps, h !! v = Some (strv_bytes ps) ∧ strings_at h ps labels
  end.

Lemma length_strv_bytes ps : length (strv_bytes ps) = (8 * (length ps + 1))%nat.
Proof.
  unfold strv_bytes. rewrite length_app, length_le_split.
  induction ps as [|p ps IH]; [done|]. cbn [map concat length]. rewrite length_app, length_le_split. lia.
Qed.

Lemma strv_pointers_bytes ps : ∀ fuel, (length ps < fuel)%nat → Forall (λ p, 0 < p < 2 ^ 64) ps →
  strv_pointers fuel (strv_bytes ps) = Some ps.
Proof.
  induction ps as [|p ps IH]; intros [|fuel] Hf Hp; [simpl in Hf; lia|done|simpl in Hf; lia|].
  apply Forall_cons in Hp as [Hp0 Hp]. cbn [strv_pointers].
  destruct (Nat.ltb_spec (length (strv_bytes (p :: ps))) 8) as [Hl|_].
  { rewrite length_strv_bytes in Hl. lia. }
  assert (strv_bytes (p :: ps) = le_split 8 p ++ strv_bytes ps) as ->.
  { unfold strv_bytes. cbn [map concat]. by rewrite app_assoc. }
  rewrite take_app_exact, drop_app_exact by by rewrite length_le_split.
  rewrite le_combine_split_id by lia. destruct (Z.eqb_spec p 0); [lia|].
  rewrite IH by (done || (simpl in Hf; lia)). done.
Qed.

Section runs.
Context {AL : Allocator} {ALW : AllocatorLaws}.
Implicit Types (h : heap).

Lemma strings_at_pointers h ps labels :
  strings_at h ps labels → Forall (λ p, 0 < p < 2 ^ 64) ps.
Proof. induction 1 as [|p l ps ls (_ & _ & Hp) _ IH]; by constructor. Qed.

Lemma strings_at_insert h ps labels b bs :
  h !! b = None → strings_at h ps labels → strings_at (<[b := bs]> h) ps labels.
Proof.
  intros Hb Hs. eapply Forall2_impl; [exact Hs|]. intros p l (Hp & Hr). split; [|done].
  rewrite lookup_insert_ne; [done|]. congruence.
Qed.

Lemma strings_at_update h ps labels b bs :
  b ∉ ps → strings_at h ps labels → strings_at (<[b := bs]> h) ps labels.
Proof.
  intros Hni Hs. induction Hs as [|p l ps ls (Hp & Hr) _ IH]; [constructor|].
  apply not_elem_of_cons in Hni as [Hne Hni]. constructor; [|by apply IH].
  split; [by rewrite lookup_insert_ne|done].
Qed.

Lemma load_strv_run h v ps labels :
  h !! v = Some (strv_bytes ps) → strings_at h ps labels → load_strv v h = (Ret ps, h).
Proof.
  intros Hv Hs. unfold load_strv. rewrite Hv, strv_pointers_bytes; [done| |by eapply strings_at_pointers].
  rewrite length_strv_bytes. lia.
Qed.

(** *** Copies *)

Lemma load_string_run h p l :
  h !! p = Some (c_bytes l) → c_chars_only l → load_string (p, 0) h = (Ret l, h).
Proof.
  intros Hp Hl. unfold load_string. cbn [fst snd]. rewrite Hp, drop_0. unfold c_bytes.
  rewrite bool_decide_true by (split; [done|]; apply elem_of_app; right; by left).
  by rewrite c_str_app_nul.
Qed.

Lemma g_strdup_run h p l :
  h !! p = Some (c_bytes l) → c_chars_only l →
  (∃ d, g_strdup p h = (Ret d, <[d := c_bytes l]> h) ∧ h !! d = None ∧ 0 < d < 2 ^ 64) ∨
  (∃ h', g_strdup p h = (Oom, h')).
Proof.
  intros Hp Hl. unfold g_strdup. rewrite (bind_Ret _ _ _ _ _ (load_string_run h p l Hp Hl)).
  set (n := Z.of_nat (length l) + 1). destruct (alloc_addr h n) as [d|] eqn:Ea.
  - left. exists d. split; [|split; [by eapply alloc_fresh|by eapply alloc_nonnull]].
    rewrite (bind_Ret _ _ _ _ _ (g_malloc_some h n d ltac:(lia) Ea)).
    rewrite (bind_Ret _ _ _ _ _ (store_block _ d (alloc_junk h (Z.to_nat n)) (c_bytes l)
      (lookup_insert_eq h d _) ltac:(rewrite alloc_junk_length; unfold c_bytes; rewrite length_app; simpl; lia)
      ltac:(by destruct l))).
    by rewrite insert_insert_eq.
  - right. exists h. unfold mbind, M_bind, g_malloc. destruct (Z.eqb_spec n 0); [lia|]. by rewrite Ea.
Qed.

(** The new strings lie in blocks of their own. *)
Lemma dup_strings_run ps labels : ∀ h, strings_at h ps labels →
  (∃ ds, dup_strings ps h = (Ret ds, boxed ds (map c_bytes labels) h) ∧
    new_boxes h ds (map c_bytes labels) ∧ Forall (λ d, d < 2 ^ 64) ds) ∨
  (∃ h', dup_strings ps h = (Oom, h')).
Proof.
  revert labels. induction ps as [|p ps IH]; intros labels h Hs; inversion Hs as [|? l ? ls (Hp & Hl & _) Hs']; subst.
  { left. exists []. cbn [map]. rewrite boxed_nil. split; [done|]. split; [apply new_boxes_nil|constructor]. }
  cbn [dup_strings map]. destruct (g_strdup_run h p l Hp Hl) as [(d & E & Hd & Hpos)|(h' & E)].
  2: by right; exists h'; unfold mbind, M_bind; rewrite E.
  rewrite (bind_Ret _ _ _ _ _ E).
  destruct (IH ls (<[d := c_bytes l]> h)) as [(ds & E2 & Hn & H64)|(h' & E2)];
    [by apply strings_at_insert| |by right; exists h'; unfold mbind, M_bind; rewrite E2].
  left. exists (d :: ds). rewrite (bind_Ret _ _ _ _ _ E2).
  destruct (new_boxes_cons h d (c_bytes l) ds (map c_bytes ls) (c_bytes l) Hd ltac:(lia) Hn) as [Hni Hn'].
  split; [|split; [done|constructor; [lia|done]]]. by rewrite <- boxed_cons.
Qed.

Lemma strings_at_boxed h ds labels :
  Forall c_chars_only labels → new_boxes h ds (map c_bytes labels) → Forall (λ d, d < 2 ^ 64) ds →
  strings_at (boxed ds (map c_bytes labels) h) ds labels.
Proof.
  revert h labels. induction ds as [|d ds IH]; intros h [|l labels] Hc (Hlen & Hnd & Hf) H64; try done.
  { constructor. }
  apply Forall_cons in Hc as [Hl Hc]. apply NoDup_cons in Hnd as [Hni Hnd].
  apply Forall_cons in Hf as [[Hd Hpos] Hf]. apply Forall_cons in H64 as [Hd64 H64].
  cbn [map]. rewrite <- boxed_cons by done. constructor.
  - split; [|split; [done|lia]]. unfold boxed.
    rewrite lookup_union_r by (by apply zip_lookup_none). apply lookup_insert_eq.
  - apply IH; [done| |done]. split; [by injection Hlen|]. split; [done|].
    apply Forall_forall. intros x Hx. rewrite Forall_forall in Hf. destruct (Hf x Hx) as [E Hx0].
    split; [|done]. rewrite lookup_insert_ne; [done|]. by intros ->.
Qed.

(** *** Release *)

Lemma free_all_boxes bs : ∀ cs h, new_boxes h bs cs →
  free_all bs (boxed bs cs h) = (Ret tt, h).
Proof.
  induction bs as [|b bs IH]; intros [|c cs] h (Hl & Hnd & Hf); try done.
  { by rewrite boxed_nil. }
  apply NoDup_cons in Hnd as [Hni Hnd]. apply Forall_cons in Hf as [[Hb Hpos] Hf].
  cbn [free_all]. unfold boxed. cbn [zip_with list_to_map foldr uncurry].
  change (list_to_map (zip (b :: bs) (c :: cs)) : heap) with (<[b := c]> (list_to_map (zip bs cs) : heap)).
  rewrite <- insert_union_l. fold (boxed bs cs h).
  assert (boxed bs cs h !! b = None) as Hn.
  { unfold boxed. by rewrite lookup_union_r by (by apply zip_lookup_none). }
  rewrite (bind_Ret _ _ _ _ _ (g_free_block (<[b := c]> (boxed bs cs h)) b c Hpos
    (lookup_insert_eq _ b c))).
  rewrite delete_insert_id by done. apply IH. split; [by injection Hl|]. done.
Qed.

(** [owned h h' v labels]: [h'] is [h] with a vector of its own at [v], which
    has these labels; NULL takes no memory. *)
Definition owned h h' (v : Z) (labels : option (list (list byte))) : Prop :=
  labels_at h' v labels ∧
  match labels with
  | None => h' = h
  | Some labels => ∃ ps, h' !! v = Some (strv_bytes ps) ∧ strings_at h' ps labels ∧
      h' = boxed (ps ++ [v]) (map c_bytes labels ++ [strv_bytes ps]) h ∧
      new_boxes h (ps ++ [v]) (map c_bytes labels ++ [strv_bytes ps])
  end.

Lemma g_strfreev_owned h h' v labels : owned h h' v labels → g_strfreev v h' = (Ret tt, h).
Proof.
  unfold g_strfreev. destruct labels as [labels|]; cbn [labels_at owned].
  - intros [[Hv _] (ps & Hv' & Hs & -> & Hn)]. destruct (Z.eqb_spec v 0); [lia|].
    rewrite (bind_Ret _ _ _ _ _ (load_strv_run _ v ps labels Hv' Hs)). by apply free_all_boxes.
  - by intros [-> ->].
Qed.

Lemma boxed_snoc h v junk bytes ps (cs : list (list byte)) :
  length ps = length cs → v ∉ ps → h !! v = None →
  <[v := bytes]> (boxed ps cs (<[v := junk]> h)) = boxed (ps ++ [v]) (cs ++ [bytes]) h.
Proof.
  intros Hl Hni Hv. unfold boxed. rewrite zip_with_app by done. rewrite list_to_map_app.
  cbn [zip_with list_to_map foldr uncurry].
  change (list_to_map [(v, bytes)] : heap) with ({[v := bytes]} : heap).
  rewrite insert_union_r by (by apply zip_lookup_none). rewrite insert_insert_eq.
  rewrite insert_union_singleton_l. by rewrite (assoc_L (∪)).
Qed.

Lemma new_boxes_snoc h b (c c' : list byte) boxes cs :
  new_boxes h (b :: boxes) (c :: cs) → new_boxes h (boxes ++ [b]) (cs ++ [c']).
Proof.
  intros (Hl & Hnd & Hf). apply NoDup_cons in Hnd as [Hni Hnd]. apply Forall_cons in Hf as [Hb Hf].
  split; [|split].
  - rewrite !length_app. injection Hl as ->. done.
  - apply NoDup_app. split; [done|]. split; [|apply NoDup_singleton].
    intros x Hx ->%list_elem_of_singleton. done.
  - apply Forall_app. split; [done|]. by apply Forall_singleton.
Qed.

(** A copy is owned, whatever it is a copy of. *)
Lemma g_strdupv_run h val labels :
  labels_at h val labels →
  (∃ v h', g_strdupv val h = (Ret v, h') ∧ owned h h' v labels) ∨
  (∃ h', g_strdupv val h = (Oom, h')).
Proof.
  unfold g_strdupv. destruct labels as [labels|]; cbn [labels_at].
  2: { intros ->. left. by exists 0, h. }
  intros [Hv (ps & Hval & Hs)]. destruct (Z.eqb_spec val 0); [lia|].
  rewrite (bind_Ret _ _ _ _ _ (load_strv_run h val ps labels Hval Hs)).
  set (size := 8 * (Z.of_nat (length ps) + 1)). destruct (alloc_addr h size) as [a|] eqn:Ea.
  2:{ right. exists h. unfold mbind, M_bind, g_malloc. destruct (Z.eqb_spec size 0); [lia|]. by rewrite Ea. }
  pose proof (alloc_fresh _ _ _ Ea) as Ha. pose proof (alloc_nonnull _ _ _ Ea) as Hpos.
  rewrite (bind_Ret _ _ _ _ _ (g_malloc_some h size a ltac:(lia) Ea)).
  set (junk := alloc_junk h (Z.to_nat size)).
  destruct (dup_strings_run ps labels (<[a := junk]> h)) as [(ds & E & Hn & H64)|(h' & E)];
    [by apply strings_at_insert| |by right; exists h'; unfold mbind, M_bind; rewrite E].
  left. exists a. rewrite (bind_Ret _ _ _ _ _ E).
  destruct (new_boxes_cons h a [] ds (map c_bytes labels) junk Ha ltac:(lia) Hn) as [Hni Hall].
  assert (length ds = length (map c_bytes labels)) as Hld by apply Hn.
  assert (length ds = length ps) as Hlp by (rewrite Hld, length_map; symmetry; by eapply Forall2_length).
  set (h1 := boxed ds (map c_bytes labels) (<[a := junk]> h)) in *.
  assert (h1 !! a = Some junk) as Hj.
  { unfold h1, boxed. rewrite lookup_union_r by (by apply zip_lookup_none). apply lookup_insert_eq. }
  rewrite (bind_Ret _ _ _ _ _ (store_block h1 a junk (strv_bytes ds) Hj
    ltac:(unfold junk; rewrite alloc_junk_length, length_strv_bytes; lia)
    ltac:(intros Enil; apply (f_equal length) in Enil; rewrite length_strv_bytes in Enil; simpl in Enil; lia))).
  eexists. split; [reflexivity|].
  assert (Forall c_chars_only labels) as Hc.
  { clear -Hs. induction Hs as [|p l ps ls (_ & Hl & _) _ IH]; by constructor. }
  assert (strings_at (<[a := strv_bytes ds]> h1) ds labels) as Hs1.
  { apply strings_at_update; [done|]. by apply strings_at_boxed. }
  assert (<[a := strv_bytes ds]> h1 !! a = Some (strv_bytes ds)) as Hbytes by apply lookup_insert_eq.
  split; [split; [lia|by exists ds]|]. exists ds. split; [done|]. split; [done|].
  split; [by apply boxed_snoc|]. by apply (new_boxes_snoc h a []).
Qed.

(** The memory that was there is as it was. *)
Lemma boxed_mono h bs cs : new_boxes h bs cs → h ⊆ boxed bs cs h.
Proof.
  intros (_ & _ & Hf). apply map_subseteq_spec. intros a x Ha. unfold boxed.
  rewrite lookup_union_r; [done|]. apply zip_lookup_none. intros Hin.
  rewrite Forall_forall in Hf. destruct (Hf a Hin) as [E _]. congruence.
Qed.

Lemma owned_mono h h' v labels : owned h h' v labels → h ⊆ h'.
Proof.
  intros [_ H]. destruct labels as [labels|]; [|by subst]. destruct H as (ps & _ & _ & -> & Hn).
  by apply boxed_mono.
Qed.

(** *** The object *)

Fixpoint set_labels_all (vals : list Z) (self : enumerated_private) : M heap enumerated_private :=
  match vals with
  | [] => mret self
  | val :: vals =>
      self ← ctl_elem_info_enumerated_set_property_labels val self; set_labels_all vals self
  end.

Lemma set_labels_run h h' self labels val labels' :
  owned h h' (ep_labels self) labels → labels_at h val labels' →
  (∃ v h2, ctl_elem_info_enumerated_set_property_labels val self h' =
      (Ret (EnumeratedPrivate (ep_data self) v), h2) ∧ owned h h2 v labels') ∨
  (∃ h2, ctl_elem_info_enumerated_set_property_labels val self h' = (Oom, h2)).
Proof.
  intros Ho Hval. unfold ctl_elem_info_enumerated_set_property_labels.
  assert ((if negb (ep_labels self =? 0) then g_strfreev (ep_labels self) else mret tt) h' = (Ret tt, h))
    as Ef.
  { destruct (Z.eqb_spec (ep_labels self) 0) as [E|E]; cbn [negb]; [|by eapply g_strfreev_owned].
    destruct Ho as [Hat Hh]. destruct labels as [labels|]; [destruct Hat; lia|by subst]. }
  rewrite (bind_Ret _ _ _ _ _ Ef).
  destruct (g_strdupv_run h val labels' Hval) as [(v & h2 & E & Ho2)|(h2 & E)].
  - left. exists v, h2. by rewrite (bind_Ret _ _ _ _ _ E).
  - right. exists h2. unfold mbind, M_bind. by rewrite E.
Qed.

(** C33: the labels of an enumeration are the object's own: when a program sets
    one vector of strings after another, the object shows the labels of the
    last one, as the object does whose labels are values, in memory that no one
    else has; the vectors of the program are as they were, and when the object
    is finalized nothing of what it took is left. *)
Theorem labels_are_owned data vals labels h :
  Forall2 (labels_at h) vals labels →
  let shown := ctl_elem_info_enumerated_get_labels
    (foldl (λ self l, ctl_elem_info_enumerated_set_labels l self) (ElemInfoEnumerated data None) labels) in
  (∃ self h', set_labels_all vals (ctl_elem_info_enumerated_init data) h = (Ret self, h') ∧
    ep_data self = data ∧
    labels_at h' (ctl_elem_info_enumerated_get_property_labels self) shown ∧
    h ⊆ h' ∧ ctl_elem_info_enumerated_finalize self h' = (Ret tt, h)) ∨
  (∃ h', set_labels_all vals (ctl_elem_info_enumerated_init data) h = (Oom, h')).
Proof.
  intros Hv. cbv zeta.
  assert (∀ self h' l, owned h h' (ep_labels self) l →
    (∃ self2 h2, set_labels_all vals self h' = (Ret self2, h2) ∧ ep_data self2 = ep_data self ∧
      owned h h2 (ep_labels self2) (ctl_elem_info_enumerated_get_labels
        (foldl (λ self l, ctl_elem_info_enumerated_set_labels l self)
          (ElemInfoEnumerated (ep_data self) l) labels))) ∨
    (∃ h2, set_labels_all vals self h' = (Oom, h2))) as Hall.
  { induction Hv as [|val l' vals labels Hval _ IH]; intros self h' l Ho.
    { left. by exists self, h'. }
    cbn [set_labels_all foldl].
    destruct (set_labels_run h h' self l val l' Ho Hval) as [(v & h2 & E & Ho2)|(h2 & E)].
    2: by right; exists h2; unfold mbind, M_bind; rewrite E.
    rewrite (bind_Ret _ _ _ _ _ E). apply (IH (EnumeratedPrivate (ep_data self) v) h2 l' Ho2). }
  destruct (Hall (ctl_elem_info_enumerated_init data) h None) as [(self & h' & E & Ed & Ho)|Hoom];
    [by split|left|by right].
  exists self, h'. split; [done|]. split; [done|]. split; [apply Ho|].
  split; [by eapply owned_mono|by eapply g_strfreev_owned].
Qed.
End runs.

(** ** Concrete runs *)

Module LabelsWitness.
#[local] Existing Instance Bump.allocator.
#[local] Existing Instance Bump.laws.

Definition off : list byte := bytes_of_string "off".
Definition on : list byte := bytes_of_string "on".

(** Two vectors of the program: "off" and "on", and "on" alone. *)
Definition program : heap :=
  {[64 := strv_bytes [128; 192]; 128 := c_bytes off; 192 := c_bytes on; 256 := strv_bytes [192]]}.

Lemma labels_are_owned_witness :
  (∃ self h', set_labels_all [64; 256; 0; 64] (ctl_elem_info_enumerated_init (zeros 272)) program =
      (Ret self, h') ∧
    ep_data self = zeros 272 ∧
    labels_at h' (ctl_elem_info_enumerated_get_property_labels self) (Some [off; on]) ∧
    program ⊆ h' ∧ ctl_elem_info_enumerated_finalize self h' = (Ret tt, program)) ∨
  (∃ h', set_labels_all [64; 256; 0; 64] (ctl_elem_info_enumerated_init (zeros 272)) program = (Oom, h')).
Proof.
  apply (labels_are_owned (zeros 272) [64; 256; 0; 64]
    [Some [off; on]; Some [on]; None; Some [off; on]] program).
  assert (c_chars_only off ∧ c_chars_only on) as [Hoff Hon] by (split; by repeat constructor).
  repeat constructor; try done.
  1,3: exists [128; 192]; split; [done|]; repeat constructor; done.
  exists [192]; split; [done|]; repeat constructor; done.
Defined.
End LabelsWitness.
