(* ===== verification/CtlElemValue.v ===== *)
(** * Values of control elements

    [src/src/ctl/elem-value.c] on the heap: the object is one block, the
    structure [struct snd_ctl_elem_value] and two arrays behind it to which the
    values of booleans and integers are converted when they are got.  The
    setters read an array of the caller, one element after the other. *)
From S2P Require Import Prelude Heap SeqUapi Struct GValue CtlStructs.

(** [ALSACtlElemValuePrivate] *)
Definition sizeof_elem_value_private : Z := 2248.
Definition priv_boolean : Z := 1224.
Definition priv_integer : Z := 1736.

(** The union [value] of [struct snd_ctl_elem_value]: all its members start at
    the same offset, the array [subcode] of [struct snd_aes_iec958] comes behind
    [status]. *)
Definition ev_id_off : nat := 0.
Definition ev_value : Z := 72.
Definition ev_subcode : Z := 96.

(** The loops of the setters and getters: element [i] of [sw] bytes at [src] is
    converted to element [i] of [dw] bytes at [dst]. *)
Fixpoint copy_values (conv : list byte → list byte) (sw dw : Z) (n : nat) (i : Z) (dst src : ptr) :
    M heap unit :=
  match n with
  | O => mret tt
  | S n =>
      bs ← load (p_add src (i * sw)) sw;
      store (p_add dst (i * dw)) (conv bs);;
      copy_values conv sw dw n (i + 1) dst src
  end.

(** The array of [size] elements at [dst] is cleared, then the elements of the
    caller are stored, as many as there is room for. *)
Definition set_values (conv : list byte → list byte) (sw dw size : Z) (dst values : ptr)
    (value_count : Z) : M heap unit :=
  store dst (zeros (Z.to_nat (size * dw)));;
  copy_values conv sw dw (Z.to_nat (Z.min value_count size)) 0 dst values.

(** [(long)values[i]] for a signed number of 32 bits. *)
Definition int_to_long (bs : list byte) : list byte := le_split 8 (le_s 0 4 bs).

Definition alsactl_elem_value_set_bool (self values : ptr) (value_count : Z) : M heap unit :=
  set_values int_to_long 4 8 128 (p_add self ev_value) values value_count.

Definition alsactl_elem_value_set_int (self values : ptr) (value_count : Z) : M heap unit :=
  set_values int_to_long 4 8 128 (p_add self ev_value) values value_count.

Definition alsactl_elem_value_set_enum (self values : ptr) (value_count : Z) : M heap unit :=
  set_values id 4 4 128 (p_add self ev_value) values value_count.

Definition alsactl_elem_value_set_bytes (self values : ptr) (value_count : Z) : M heap unit :=
  set_values id 1 1 512 (p_add self ev_value) values value_count.

Definition alsactl_elem_value_set_iec60958_channel_status (self status : ptr) (length : Z) :
    M heap unit :=
  set_values id 1 1 24 (p_add self ev_value) status length.

Definition alsactl_elem_value_set_iec60958_user_data (self data : ptr) (length : Z) :
    M heap unit :=
  set_values id 1 1 147 (p_add self ev_subcode) data length.

Definition alsactl_elem_value_set_int64 (self values : ptr) (value_count : Z) : M heap unit :=
  set_values id 8 8 64 (p_add self ev_value) values value_count.

(** [value > 0] and [(gint32)value] for a [long]. *)
Definition long_to_bool (bs : list byte) : list byte :=
  le_split 4 (if 0 <? le_s 0 8 bs then 1 else 0).
Definition long_to_int (bs : list byte) : list byte := le_split 4 (i32 (le_s 0 8 bs)).

Definition alsactl_elem_value_get_bool (self : ptr) : M heap ptr :=
  copy_values long_to_bool 8 4 128 0 (p_add self priv_boolean) (p_add self ev_value);;
  mret (p_add self priv_boolean).

Definition alsactl_elem_value_get_int (self : ptr) : M heap ptr :=
  copy_values long_to_int 8 4 128 0 (p_add self priv_integer) (p_add self ev_value);;
  mret (p_add self priv_integer).

Definition alsactl_elem_value_get_enum (self : ptr) : M heap ptr := mret (p_add self ev_value).
Definition alsactl_elem_value_get_bytes (self : ptr) : M heap ptr := mret (p_add self ev_value).
Definition alsactl_elem_value_get_iec60958_channel_status (self : ptr) : M heap ptr :=
  mret (p_add self ev_value).
Definition alsactl_elem_value_get_iec60958_user_data (self : ptr) : M heap ptr :=
  mret (p_add self ev_subcode).
Definition alsactl_elem_value_get_int64 (self : ptr) : M heap ptr := mret (p_add self ev_value).

Definition alsactl_elem_value_equal (self target : ptr) : M heap bool :=
  lhs ← load self sizeof_elem_value;
  rhs ← load target sizeof_elem_value;
  mret (bool_decide (lhs = rhs)).

(** The only property, the identifier. *)
Definition ctl_elem_value_get_property_elem_id (self : ptr) (val : gvalue) : M heap gvalue :=
  bs ← load (p_add self (Z.of_nat ev_id_off)) 64;
  mret (g_value_set_static_boxed val bs).

Definition ctl_elem_value_props_elem_id : pspec :=
  g_param_spec_boxed "elem-id" "ALSACtlElemId" READABLE.

(** [g_object_new]: the part of the object that the class declares. *)
Definition alsactl_elem_value_new `{!Allocator} : M heap ptr :=
  a ← g_malloc0 sizeof_elem_value_private;
  mret (a, 0).

(** ** The kinds of values *)

Inductive value_kind := KBool | KInt | KEnum | KBytes | KStatus | KUserData | KInt64.

Definition set_value (k : value_kind) : ptr → ptr → Z → M heap unit :=
  match k with
  | KBool => alsactl_elem_value_set_bool
  | KInt => alsactl_elem_value_set_int
  | KEnum => alsactl_elem_value_set_enum
  | KBytes => alsactl_elem_value_set_bytes
  | KStatus => alsactl_elem_value_set_iec60958_channel_status
  | KUserData => alsactl_elem_value_set_iec60958_user_data
  | KInt64 => alsactl_elem_value_set_int64
  end.

Definition get_value (k : value_kind) : ptr → M heap ptr :=
  match k with
  | KBool => alsactl_elem_value_get_bool
  | KInt => alsactl_elem_value_get_int
  | KEnum => alsactl_elem_value_get_enum
  | KBytes => alsactl_elem_value_get_bytes
  | KStatus => alsactl_elem_value_get_iec60958_channel_status
  | KUserData => alsactl_elem_value_get_iec60958_user_data
  | KInt64 => alsactl_elem_value_get_int64
  end.

(** Width and number of the elements of the arrays. *)
Definition value_width (k : value_kind) : nat :=
  match k with KBool | KInt | KEnum => 4 | KBytes | KStatus | KUserData => 1 | KInt64 => 8 end.

Definition value_size (k : value_kind) : nat :=
  match k with
  | KBool | KInt | KEnum => 128 | KBytes => 512 | KStatus => 24 | KUserData => 147 | KInt64 => 64
  end.
