(* ===== verification/CtlElemValueProps.v ===== *)
(** * Correctness of the values of control elements *)
From S2P Require Import Prelude Heap SeqUapi Struct GValue CtlStructs CtlElemValue.

(** ** Pieces of a block *)

Lemma store_put h a o vs s :
  h !! a = Some s → vs ≠ [] → (o + length vs ≤ length s)%nat →
  store (a, Z.of_nat o) vs h = (Ret tt, <[a := put_bytes o vs s]> h).
Proof.
  intros H Hv Hl. unfold store. rewrite bool_decide_false by done. cbn [fst snd]. rewrite H.
  rewrite (proj2 (Z.leb_le _ _)), (proj2 (Z.leb_le _ _)) by lia. by rewrite Nat2Z.id.
Qed.

Lemma load_sub h a o n s :
  h !! a = Some s → n ≠ O → (o + n ≤ length s)%nat →
  load (a, Z.of_nat o) (Z.of_nat n) h = (Ret (sub o n s), h).
Proof.
  intros H Hn Hl. unfold load. rewrite (proj2 (Z.eqb_neq _ _)) by lia. cbn [fst snd]. rewrite H.
  rewrite (proj2 (Z.leb_le _ _)), (proj2 (Z.leb_le _ _)) by lia. by rewrite !Nat2Z.id.
Qed.

Lemma sub_sub o n q m (s : list byte) : (q + m ≤ n)%nat → sub q m (sub o n s) = sub (o + q) m s.
Proof.
  intros H. unfold sub. rewrite skipn_firstn_comm, drop_drop, take_take. f_equal. lia.
Qed.

Lemma put_bytes_nil o s : put_bytes o [] s = s.
Proof. unfold put_bytes. cbn [app length]. rewrite Nat.add_0_r. apply take_drop. Qed.

Lemma put_put_app o vs ws s :
  (o + length vs + length ws ≤ length s)%nat →
  put_bytes (o + length vs) ws (put_bytes o vs s) = put_bytes o (vs ++ ws) s.
Proof.
  intros H. apply list_eq. intros i.
  rewrite !lookup_put_bytes by (rewrite ?length_put_bytes, ?length_app by lia; lia).
  rewrite !length_app. destruct (decide (o ≤ i < o + length vs)%nat).
  - rewrite decide_False, decide_True, lookup_app_l by lia. done.
  - repeat case_decide; try lia; [|done]. rewrite lookup_app_r by lia. f_equal. lia.
Qed.

(** The elements of an array of [n] elements of [w] bytes. *)
Fixpoint elements (w o n : nat) (s : list byte) : list (list byte) :=
  match n with
  | O => []
  | S n => sub o w s :: elements w (o + w) n s
  end.

Lemma length_elements w o n s : length (elements w o n s) = n.
Proof. revert o. induction n; intros o; simpl; by f_equal. Qed.

Lemma elements_ext w o n s s' :
  (∀ i, (i < n)%nat → sub (o + i * w) w s = sub (o + i * w) w s') → elements w o n s = elements w o n s'.
Proof.
  revert o. induction n as [|n IH]; intros o H; [done|]. simpl. f_equal.
  - specialize (H O ltac:(lia)). by rewrite Nat.add_0_r in H.
  - apply IH. intros i Hi. specialize (H (S i) ltac:(lia)). by rewrite <- Nat.add_assoc.
Qed.

Lemma length_concat_map {A} (f : A → list byte) (l : list A) n :
  (∀ x, x ∈ l → length (f x) = n) → length (concat (map f l)) = (length l * n)%nat.
Proof.
  induction l as [|x l IH]; intros H; [done|]. cbn [map concat length]. rewrite length_app, H by set_solver.
  rewrite IH by set_solver. lia.
Qed.

Lemma elements_length w o n s : (o + n * w ≤ length s)%nat → Forall (λ x, length x = w) (elements w o n s).
Proof.
  revert o. induction n as [|n IH]; intros o H; constructor; [apply length_sub; lia|apply IH; lia].
Qed.

Lemma elements_put w o l s :
  w ≠ O → Forall (λ x, length x = w) l → (o + length l * w ≤ length s)%nat →
  elements w o (length l) (put_bytes o (concat l) s) = l.
Proof.
  intros Hw H. revert o s. induction H as [|x l Hx Hl IH]; intros o s Hs; [done|].
  cbn [length concat elements] in *.
  assert (length (concat l) = length l * w)%nat as Lc.
  { rewrite <- (map_id l) at 1. apply length_concat_map. by apply Forall_forall. }
  assert (put_bytes o (x ++ concat l) s = put_bytes (o + w) (concat l) (put_bytes o x s)) as ->.
  { rewrite <- Hx. symmetry. apply put_put_app. lia. }
  assert (length (put_bytes o x s) = length s) as L by (apply length_put_bytes; lia).
  f_equal.
  - rewrite sub_put_other by lia. rewrite <- Hx. apply sub_put_same. lia.
  - apply IH. lia.
Qed.

Lemma put_put_prefix o vs ws s :
  (length ws ≤ length vs)%nat → (o + length vs ≤ length s)%nat →
  put_bytes o ws (put_bytes o vs s) = put_bytes o (ws ++ drop (length ws) vs) s.
Proof.
  intros H Hs. apply list_eq. intros i.
  rewrite !lookup_put_bytes by (rewrite ?length_put_bytes, ?length_app, ?length_drop by lia; lia).
  rewrite !length_app, length_drop. destruct (decide (o ≤ i < o + length ws)%nat).
  - rewrite decide_True, lookup_app_l by lia. done.
  - repeat case_decide; try lia; [|done]. rewrite lookup_app_r, lookup_drop by lia. f_equal. lia.
Qed.

Lemma zeros_concat n w : zeros (n * w) = concat (replicate n (zeros w)).
Proof.
  induction n as [|n IH]; [done|]. cbn [replicate concat]. rewrite <- IH. unfold zeros.
  by rewrite <- replicate_add.
Qed.

(** ** The loops *)

(** The elements at [so] of block [b], converted, are written behind each other
    at [d] of block [a]; both may lie in one block when they do not overlap. *)
Lemma copy_values_run conv sw dw n i h a s b t d so d0 so0 :
  h !! a = Some s → h !! b = Some t → sw ≠ O → dw ≠ O →
  (∀ x, length x = sw → length (conv x) = dw) →
  (d + n * dw ≤ length s)%nat → (so + n * sw ≤ length t)%nat →
  (a = b → (so + n * sw ≤ d ∨ d + n * dw ≤ so)%nat) →
  Z.of_nat d = d0 + i * Z.of_nat dw → Z.of_nat so = so0 + i * Z.of_nat sw →
  copy_values conv (Z.of_nat sw) (Z.of_nat dw) n i (a, d0) (b, so0) h =
    (Ret tt, <[a := put_bytes d (concat (map conv (elements sw so n t))) s]> h).
Proof.
  intros Ha Hb Hsw Hdw Hc. revert i h s t d so Ha Hb.
  induction n as [|n IH]; intros i h s t d so Ha Hb Hd Hs Hab Ed Es.
  { cbn [elements map concat]. by rewrite put_bytes_nil, insert_id. }
  cbn [copy_values elements map concat]. unfold p_add; cbn [fst snd]. rewrite <- Es, <- Ed.
  rewrite (bind_Ret _ _ _ _ _ (load_sub h b so sw t Hb Hsw ltac:(lia))).
  set (x := sub so sw t). assert (length (conv x) = dw) as Lx by (apply Hc, length_sub; lia).
  rewrite (bind_Ret _ _ _ _ _ (store_put h a d (conv x) s Ha ltac:(by destruct (conv x)) ltac:(lia))).
  set (s' := put_bytes d (conv x) s). assert (length s' = length s) as Ls by (apply length_put_bytes; lia).
  set (t' := if decide (a = b) then s' else t).
  rewrite (IH (i + 1) (<[a := s']> h) s' t' (d + dw)%nat (so + sw)%nat);
    [|apply lookup_insert_eq|..]; try lia.
  - assert (elements sw (so + sw) n t' = elements sw (so + sw) n t) as ->.
    { apply elements_ext. intros j Hj. unfold t'. case_decide as Dab; [|done].
      subst b. rewrite Ha in Hb. injection Hb as <-. apply sub_put_other; [lia|].
      specialize (Hab eq_refl). nia. }
    rewrite insert_insert_eq. unfold s'. rewrite <- Lx at 1. rewrite put_put_app; [done|].
    rewrite Lx, (length_concat_map conv _ dw), length_elements; [lia|].
    intros y Hy. apply Hc. revert y Hy. apply Forall_forall, elements_length. lia.
  - unfold t'. case_decide as Dab; [by subst b; apply lookup_insert_eq|by rewrite lookup_insert_ne].
  - unfold t'. case_decide; [|lia]. subst b. rewrite Ha in Hb. injection Hb as <-. lia.
Qed.

(** The array is cleared and its first elements are the converted ones. *)
Lemma set_values_run conv sw dw size h a s d b t o count :
  h !! a = Some s → h !! b = Some t → a ≠ b → sw ≠ O → dw ≠ O → size ≠ O →
  (∀ x, length x = sw → length (conv x) = dw) →
  0 ≤ count → let n := Nat.min (Z.to_nat count) size in
  (d + size * dw ≤ length s)%nat → (o + n * sw ≤ length t)%nat →
  set_values conv (Z.of_nat sw) (Z.of_nat dw) (Z.of_nat size) (a, Z.of_nat d) (b, Z.of_nat o) count h =
    (Ret tt, <[a := put_bytes d
       (concat (map conv (elements sw o n t) ++ replicate (size - n) (zeros dw))) s]> h).
Proof.
  intros Ha Hb Hab Hsw Hdw Hsz Hc Hn n Hd Ho. unfold set_values.
  replace (Z.to_nat (Z.of_nat size * Z.of_nat dw)) with (size * dw)%nat by lia.
  assert (zeros (size * dw) ≠ []) as Hz.
  { intros E. apply (f_equal length) in E. rewrite length_zeros in E. cbn in E. lia. }
  rewrite (bind_Ret _ _ _ _ _ (store_put h a d (zeros (size * dw)) s Ha Hz
    ltac:(rewrite length_zeros; lia))).
  replace (Z.to_nat (Z.min count (Z.of_nat size))) with n by lia.
  set (s' := put_bytes d (zeros (size * dw)) s).
  assert (length s' = length s) as Ls by (apply length_put_bytes; rewrite length_zeros; lia).
  rewrite (copy_values_run conv sw dw n 0 _ a s' b t d o); [|apply lookup_insert_eq|..]; try lia || done.
  2:{ by rewrite lookup_insert_ne. }
  2:{ nia. }
  rewrite insert_insert_eq. do 2 f_equal. unfold s'.
  assert (length (concat (map conv (elements sw o n t))) = n * dw)%nat as Lc.
  { rewrite (length_concat_map conv _ dw), length_elements; [done|].
    intros y Hy. apply Hc. revert y Hy. apply Forall_forall, elements_length. lia. }
  rewrite put_put_prefix by (rewrite ?Lc, ?length_zeros; nia).
  rewrite concat_app, <- zeros_concat, Lc. do 2 f_equal.
  unfold zeros. rewrite drop_replicate. f_equal. nia.
Qed.

(** An element as it is got: a boolean is 0 or 1. *)
Definition shown_element (k : value_kind) (bs : list byte) : list byte :=
  match k with KBool => le_split 4 (if 0 <? le_s 0 4 bs then 1 else 0) | _ => bs end.

Lemma le_s_split n m v : n = m → n ≠ O → le_s 0 m (le_split n v) = sgn_wrap (8 * Z.of_nat n) v.
Proof.
  intros <- Hn. unfold le_s, le_u, sub. rewrite drop_0, take_ge by (rewrite length_le_split; lia).
  rewrite le_combine_split. replace (Z.of_nat n * 8) with (8 * Z.of_nat n) by lia.
  apply sgn_wrap_mod. lia.
Qed.

Lemma long_of_int bs : length bs = 4%nat → le_s 0 8 (int_to_long bs) = le_s 0 4 bs.
Proof.
  intros Hl. unfold int_to_long. rewrite le_s_split by done. apply (i64_id (le_s 0 4 bs)).
  pose proof (le_s_range 0 4 bs ltac:(done)) as H. cbn in H. unfold is_i64. lia.
Qed.

Lemma bool_of_int bs : length bs = 4%nat → long_to_bool (int_to_long bs) = shown_element KBool bs.
Proof. intros Hl. unfold long_to_bool. by rewrite long_of_int. Qed.

Lemma int_of_int bs : length bs = 4%nat → long_to_int (int_to_long bs) = bs.
Proof.
  intros Hl. unfold long_to_int. rewrite long_of_int by done.
  rewrite i32_id by (apply (le_s_range 0 4 bs); done). rewrite split_le_s by lia.
  unfold sub. rewrite drop_0. apply take_ge. lia.
Qed.

Lemma map_shown (conv shown : list byte → list byte) w (l : list (list byte)) :
  (∀ x, length x = w → conv x = shown x) → Forall (λ x, length x = w) l → map conv l = map shown l.
Proof. intros H. induction 1 as [|x l Hx _ IH]; cbn [map]; [done|]. by rewrite H, IH. Qed.

(** The accessors that only point into the object. *)
Definition in_place (k : value_kind) : bool := match k with KBool | KInt => false | _ => true end.

Definition value_off (k : value_kind) : nat := match k with KUserData => 96 | _ => 72 end.

(** The elements as they are kept for the kernel: booleans and integers are
    numbers of 64 bits. *)
Definition raw_width (k : value_kind) : nat :=
  match k with KBool | KInt | KInt64 => 8 | KEnum => 4 | _ => 1 end.

Definition raw_element (k : value_kind) (bs : list byte) : list byte :=
  match k with KBool | KInt => int_to_long bs | _ => bs end.

Definition raw_array (k : value_kind) (o n : nat) (t : list byte) : list (list byte) :=
  map (raw_element k) (elements (value_width k) o n t) ++
  replicate (value_size k - n) (zeros (raw_width k)).

(** What the getters make of an element, and where. *)
Definition got_element (k : value_kind) (bs : list byte) : list byte :=
  match k with KBool => long_to_bool bs | KInt => long_to_int bs | _ => bs end.

Definition got_off (k : value_kind) : nat :=
  match k with KBool => 1224 | KInt => 1736 | _ => value_off k end.

Definition got_array (k : value_kind) (n : nat) (s : list byte) : list byte :=
  concat (map (got_element k) (elements (raw_width k) (value_off k) n s)).

Definition got_object (k : value_kind) (s : list byte) : list byte :=
  if in_place k then s else put_bytes (got_off k) (got_array k (value_size k) s) s.

Lemma raw_fits k :
  (72 ≤ value_off k)%nat ∧ (value_off k + value_size k * raw_width k ≤ 1096)%nat.
Proof. by destruct k; split; apply Nat.leb_le. Qed.

Lemma set_value_run k h a s b t o count :
  h !! a = Some s → length s = Z.to_nat sizeof_elem_value_private →
  h !! b = Some t → a ≠ b → 0 ≤ count →
  let n := Nat.min (Z.to_nat count) (value_size k) in
  (o + n * value_width k ≤ length t)%nat →
  set_value k (a, 0) (b, Z.of_nat o) count h =
    (Ret tt, <[a := put_bytes (value_off k) (concat (raw_array k o n t)) s]> h).
Proof.
  intros Ha Hs Hb Hab Hc n Ho. change sizeof_elem_value_private with 2248 in Hs.
  assert (∀ l : list (list byte), map id l = l) as Hid by apply map_id.
  unfold raw_array. destruct k; cbn [value_off value_size value_width raw_width] in *;
    try rewrite <- (Hid (map _ _)), map_map.
  - apply (set_values_run int_to_long 4 8 128 h a s 72); done || lia.
  - apply (set_values_run int_to_long 4 8 128 h a s 72); done || lia.
  - apply (set_values_run id 4 4 128 h a s 72); done || lia.
  - apply (set_values_run id 1 1 512 h a s 72); done || lia.
  - apply (set_values_run id 1 1 24 h a s 72); done || lia.
  - apply (set_values_run id 1 1 147 h a s 96); done || lia.
  - apply (set_values_run id 8 8 64 h a s 72); done || lia.
Qed.

Lemma get_value_run k h a s :
  h !! a = Some s → length s = Z.to_nat sizeof_elem_value_private →
  get_value k (a, 0) h = (Ret (a, Z.of_nat (got_off k)), <[a := got_object k s]> h).
Proof.
  intros Ha Hs. change sizeof_elem_value_private with 2248 in Hs.
  destruct k; try by (cbn [get_value got_object in_place]; rewrite insert_id).
  - cbn [get_value]. unfold alsactl_elem_value_get_bool.
    by rewrite (bind_Ret _ _ _ _ _ (copy_values_run long_to_bool 8 4 128 0 h a s a s 1224 72
      1224 72 Ha Ha ltac:(done) ltac:(done) ltac:(done) ltac:(lia) ltac:(lia) ltac:(lia)
      ltac:(lia) ltac:(lia))).
  - cbn [get_value]. unfold alsactl_elem_value_get_int.
    by rewrite (bind_Ret _ _ _ _ _ (copy_values_run long_to_int 8 4 128 0 h a s a s 1736 72
      1736 72 Ha Ha ltac:(done) ltac:(done) ltac:(done) ltac:(lia) ltac:(lia) ltac:(lia)
      ltac:(lia) ltac:(lia))).
Qed.

Lemma concat_elements w o n s : (o + n * w ≤ length s)%nat → concat (elements w o n s) = sub o (n * w) s.
Proof.
  revert o. induction n as [|n IH]; intros o H; [by rewrite Nat.mul_0_l|].
  cbn [elements concat]. rewrite IH by lia. by rewrite sub_split.
Qed.

Lemma length_got_element k bs : length bs = raw_width k → length (got_element k bs) = value_width k.
Proof. destruct k; intros H; try done; apply length_le_split. Qed.

Lemma length_got_array k n s :
  (value_off k + n * raw_width k ≤ length s)%nat → length (got_array k n s) = (n * value_width k)%nat.
Proof.
  intros H. unfold got_array. rewrite (length_concat_map _ _ (value_width k)), length_elements; [done|].
  intros x Hx. apply length_got_element. revert x Hx. by apply Forall_forall, elements_length.
Qed.

(** The object after a getter: the array it points to, and what is as before. *)
Lemma got_object_spec k s :
  length s = Z.to_nat sizeof_elem_value_private →
  length (got_object k s) = length s ∧
  sub (got_off k) (value_size k * value_width k) (got_object k s) = got_array k (value_size k) s ∧
  sub 0 1224 (got_object k s) = sub 0 1224 s.
Proof.
  intros Hs. change sizeof_elem_value_private with 2248 in Hs. pose proof (raw_fits k) as Hf.
  pose proof (length_got_array k (value_size k) s ltac:(lia)) as Hl. unfold got_object.
  destruct (in_place k) eqn:Hk.
  - split_and!; [done| |done]. unfold got_array.
    replace (map (got_element k) _) with (elements (raw_width k) (value_off k) (value_size k) s)
      by (destruct k; try done; symmetry; apply map_id).
    rewrite concat_elements by lia. by destruct k.
  - assert (got_off k + value_size k * value_width k ≤ length s ∧ 1224 ≤ got_off k)%nat as [Hg Hg0].
    { destruct k; try discriminate Hk; cbn; lia. }
    rewrite length_put_bytes by lia. split; [done|]. rewrite <- Hl at 1.
    by rewrite sub_put_same, sub_put_other by lia.
Qed.

(** What the array of a kind holds after values were set. *)
Definition value_array (k : value_kind) (o n : nat) (t : list byte) : list byte :=
  concat (map (shown_element k) (elements (value_width k) o n t) ++
          replicate (value_size k - n) (zeros (value_width k))).

Lemma length_value_array k o n t :
  (n ≤ value_size k)%nat → (o + n * value_width k ≤ length t)%nat →
  length (value_array k o n t) = (value_size k * value_width k)%nat.
Proof.
  intros Hn Ho. unfold value_array. rewrite concat_app, length_app, <- zeros_concat, length_zeros.
  rewrite (length_concat_map _ _ (value_width k)), length_elements; [nia|].
  intros x Hx. revert x Hx. apply Forall_forall. eapply Forall_impl; [by apply elements_length|].
  intros x Hx. destruct k; cbn [shown_element]; done || apply length_le_split.
Qed.

(** What is got of the elements that were set. *)
Lemma got_raw k bs : length bs = value_width k → got_element k (raw_element k bs) = shown_element k bs.
Proof. destruct k; intros H; try done; [by apply bool_of_int|by apply int_of_int]. Qed.

Lemma got_raw_array k o n t :
  (n ≤ value_size k)%nat → (o + n * value_width k ≤ length t)%nat →
  concat (map (got_element k) (raw_array k o n t)) = value_array k o n t.
Proof.
  intros Hn Ho. unfold raw_array, value_array. rewrite map_app, map_map. f_equal. f_equal.
  - apply (map_shown _ _ (value_width k)); [apply got_raw|]. by apply elements_length.
  - change (map ?f (replicate ?m ?x)) with (f <$> replicate m x). rewrite fmap_replicate.
    f_equal. by destruct k.
Qed.

Lemma raw_array_elements k o n t :
  (n ≤ value_size k)%nat → (o + n * value_width k ≤ length t)%nat →
  Forall (λ x, length x = raw_width k) (raw_array k o n t) ∧
  length (raw_array k o n t) = value_size k ∧
  length (concat (raw_array k o n t)) = (value_size k * raw_width k)%nat.
Proof.
  intros Hn Ho. assert (Forall (λ x, length x = raw_width k) (raw_array k o n t)) as F.
  { apply Forall_app. split.
    - apply Forall_fmap. eapply Forall_impl; [by apply elements_length|]. intros x Hx.
      destruct k; try done; apply length_le_split.
    - apply Forall_replicate. by rewrite length_zeros. }
  assert (length (raw_array k o n t) = value_size k) as L.
  { unfold raw_array. rewrite length_app, length_map, length_elements, length_replicate. lia. }
  split_and!; [done|done|]. rewrite <- (map_id (raw_array k o n t)), (length_concat_map id _ (raw_width k)), L;
    [done|]. by apply Forall_forall.
Qed.

(** The getter after the setter, on one object. *)
Lemma got_after_set k o n t s :
  length s = Z.to_nat sizeof_elem_value_private → (n ≤ value_size k)%nat →
  (o + n * value_width k ≤ length t)%nat →
  got_array k (value_size k) (put_bytes (value_off k) (concat (raw_array k o n t)) s) =
    value_array k o n t.
Proof.
  intros Hs Hn Ho. change sizeof_elem_value_private with 2248 in Hs. pose proof (raw_fits k) as Hf.
  destruct (raw_array_elements k o n t Hn Ho) as (F & L & Lc). unfold got_array. rewrite <- L at 1.
  rewrite elements_put; [by apply got_raw_array|by destruct k|done|lia].
Qed.

(** C22: the values set to an element are got from it: for each of the seven
    kinds the array behind the pointer the getter gives holds the values of the
    caller, as many as there is room for and booleans as 0 or 1, and zeros behind
    them; the identifier and what lies behind the values keep their bytes, and no
    other block changes. *)
Theorem elem_value_roundtrip k h a s b t o count :
  h !! a = Some s → length s = Z.to_nat sizeof_elem_value_private →
  h !! b = Some t → a ≠ b → 0 ≤ count →
  let n := Nat.min (Z.to_nat count) (value_size k) in
  (o + n * value_width k ≤ length t)%nat →
  ∃ s1 s2 p,
    set_value k (a, 0) (b, Z.of_nat o) count h = (Ret tt, <[a := s1]> h) ∧
    get_value k (a, 0) (<[a := s1]> h) = (Ret (a, Z.of_nat p), <[a := s2]> h) ∧
    length s2 = length s ∧
    sub p (value_size k * value_width k) s2 = value_array k o n t ∧
    sub 0 72 s2 = sub 0 72 s ∧ sub 1096 128 s2 = sub 1096 128 s.
Proof.
  intros Ha Hs Hb Hab Hc n Ho. assert (Z.to_nat sizeof_elem_value_private = 2248)%nat as Hz by done.
  set (s1 := put_bytes (value_off k) (concat (raw_array k o n t)) s).
  pose proof (raw_fits k) as Hf. destruct (raw_array_elements k o n t ltac:(lia) Ho) as (_ & _ & Lc).
  assert (length s1 = length s) as L1.
  { apply length_put_bytes. lia. }
  destruct (got_object_spec k s1 (eq_trans L1 Hs)) as (L2 & Hg & Hk).
  assert (∀ q m, (q + m ≤ 72 ∨ 1096 ≤ q ∧ q + m ≤ 1224)%nat → sub q m (got_object k s1) = sub q m s) as Hsame.
  { intros q m Hq. assert (∀ x : list byte, sub q m x = sub q m (sub 0 1224 x)) as E by (intros x; by rewrite sub_sub by lia).
    rewrite E, Hk, <- E. unfold s1. apply sub_put_other; lia. }
  exists s1, (got_object k s1), (got_off k). split_and!.
  - by apply set_value_run.
  - rewrite (get_value_run k _ a s1 (lookup_insert_eq _ _ _) (eq_trans L1 Hs)).
    by rewrite insert_insert_eq.
  - exact (eq_trans L2 L1).
  - rewrite Hg. by apply got_after_set; [|lia|].
  - apply Hsame. lia.
  - apply Hsame. lia.
Qed.

(** ** Comparison *)

(** Two values are equal exactly when all bytes of their structures are:
    also those of the identifier and those that values of another kind left
    behind the array. *)
Theorem elem_value_equal_spec h a b s t :
  h !! a = Some s → h !! b = Some t →
  length s = Z.to_nat sizeof_elem_value_private → length t = Z.to_nat sizeof_elem_value_private →
  alsactl_elem_value_equal (a, 0) (b, 0) h = (Ret (bool_decide (sub 0 1224 s = sub 0 1224 t)), h).
Proof.
  intros Ha Hb Hs Ht. unfold alsactl_elem_value_equal. change sizeof_elem_value with (Z.of_nat 1224).
  change sizeof_elem_value_private with 2248 in Hs, Ht. change ((a, 0) : ptr) with ((a, Z.of_nat 0) : ptr).
  change ((b, 0) : ptr) with ((b, Z.of_nat 0) : ptr).
  rewrite (bind_Ret _ _ _ _ _ (load_sub h a 0 1224 s Ha ltac:(done) ltac:(lia))).
  by rewrite (bind_Ret _ _ _ _ _ (load_sub h b 0 1224 t Hb ltac:(done) ltac:(lia))).
Qed.

(** An object that held integers keeps them behind the bytes set later: the
    values of two elements with the same bytes are not equal. *)
Example elem_value_stale_bytes :
  let h : heap := {[ 8 := zeroed 2248; 4000 := zeroed 2248;
                     7000 := concat (replicate 128 [Byte.x01; Byte.x00; Byte.x00; Byte.x00]);
                     9000 := [Byte.x05] ]} in
  ((alsactl_elem_value_set_int (8, 0) (7000, 0) 128;;
   alsactl_elem_value_set_bytes (8, 0) (9000, 0) 1;;
   alsactl_elem_value_set_bytes (4000, 0) (9000, 0) 1;;
   alsactl_elem_value_equal (8, 0) (4000, 0)) h).1 = Ret false.
Proof. vm_compute. reflexivity. Qed.

Lemma elem_value_roundtrip_witness :
  let h : heap := {[ 8 := zeroed 2248; 7000 := [Byte.x07; Byte.x00; Byte.x00; Byte.x00] ]} in
  ∃ s1 s2 p,
    set_value KBool (8, 0) (7000, 0) 1 h = (Ret tt, <[8 := s1]> h) ∧
    get_value KBool (8, 0) (<[8 := s1]> h) = (Ret (8, Z.of_nat p), <[8 := s2]> h) ∧
    take 1 (sub p 512 s2) = [Byte.x01].
Proof.
  intros h.
  destruct (elem_value_roundtrip KBool h 8 (zeroed 2248) 7000
    [Byte.x07; Byte.x00; Byte.x00; Byte.x00] 0 1) as (s1 & s2 & p & E1 & E2 & _ & R & _).
  - vm_compute. reflexivity.
  - vm_compute. reflexivity.
  - vm_compute. reflexivity.
  - discriminate.
  - discriminate.
  - vm_compute. lia.
  - exists s1, s2, p. split; [exact E1|]. split; [exact E2|]. change (sub p 512 s2 = value_array KBool 0 1 [Byte.x07; Byte.x00; Byte.x00; Byte.x00]) in R.
    rewrite R. vm_compute. reflexivity.
Defined.
