(* ===== verification/CtlQuery.v ===== *)
(** * Queries of cards: [src/src/ctl/query.c] *)
From S2P Require Import Prelude Heap SeqUapi Struct Kernel Sysfs.

Section query.
Context {AL : Allocator} {GL : GLib} {K : Type} {KERN : Kernel K} {UD : Udev K}.
Context (qsort : (Z → Z → Z) → list Z → option (list Z)).

(** [None] when there is no card: the out parameters are not written. *)
Definition alsactl_get_card_id_list : M (world K) (option (list Z)) :=
  or_file_error (generate_sysnum_list_by_sysname_prefix qsort "card")
    "Fail to generate list of card sysnum".

Definition alsactl_get_card_sysname (card_id : Z) : M (world K) string :=
  or_file_error (lookup_and_allocate_sysname_by_sysname ("card" +:+ decimal card_id))
    "Fail to generate card sysname".

Definition alsactl_get_control_sysname (card_id : Z) : M (world K) string :=
  or_file_error (lookup_and_allocate_sysname_by_sysname ("controlC" +:+ decimal card_id))
    "Fail to generate control sysname".

Definition alsactl_get_control_devnode (card_id : Z) : M (world K) string :=
  or_file_error (lookup_and_allocate_devname_by_sysname ("controlC" +:+ decimal card_id))
    "Fail to generate control devname".
End query.
