(* ===== verification/CtlCard.v ===== *)
(** * The card: [src/src/ctl/card.c]

    An object that holds a file descriptor of the control device of a card.
    Its elements are enumerated, locked, added, removed, and their values and
    TLV data are transferred, by requests on the descriptor; sources of events
    subscribe the descriptor while at least one of them exists. *)
From S2P Require Import Prelude Heap SeqUapi Struct Kernel Sysfs Object.
From S2P Require Import CtlStructs CtlElemId CtlObjects CtlQuery.

Definition ALSACTL_CARD_ERROR_FAILED : Z := 0.
Definition ALSACTL_CARD_ERROR_DISCONNECTED : Z := 1.
Definition ALSACTL_CARD_ERROR_ELEM_NOT_FOUND : Z := 2.
Definition ALSACTL_CARD_ERROR_ELEM_NOT_SUPPORTED : Z := 3.
Definition ALSACTL_CARD_ERROR_ELEM_OWNED : Z := 4.
Definition ALSACTL_CARD_ERROR_ELEM_EXIST : Z := 5.

Definition err_msgs (code : Z) : string :=
  if code =? ALSACTL_CARD_ERROR_DISCONNECTED then
    "The card associated to the instance is in disconnect state"
  else if code =? ALSACTL_CARD_ERROR_ELEM_NOT_FOUND then
    "The control element not found in the card"
  else if code =? ALSACTL_CARD_ERROR_ELEM_NOT_SUPPORTED then
    "The operation is not supported by the control element."
  else if code =? ALSACTL_CARD_ERROR_ELEM_OWNED then
    "The control element is owned by the other process."
  else if code =? ALSACTL_CARD_ERROR_ELEM_EXIST then
    "The control element already exists."
  else "".

Definition ALSACTL_ELEM_EVENT_MASK_REMOVE : Z := Z.shiftl SNDRV_CTL_EVENT_MASK_TLV 1.

(** The private data, with the number of references to the object. *)
Record card := Card {
  ca_fd : Z;
  ca_devnode : option string;
  ca_subscribers : Z;
  ca_triplet : list Z;
  ca_refs : Z;
}.

Definition set_fd (fd : Z) (c : card) : card :=
  Card fd (ca_devnode c) (ca_subscribers c) (ca_triplet c) (ca_refs c).
Definition set_devnode (d : option string) (c : card) : card :=
  Card (ca_fd c) d (ca_subscribers c) (ca_triplet c) (ca_refs c).
Definition set_subscribers (n : Z) (c : card) : card :=
  Card (ca_fd c) (ca_devnode c) n (ca_triplet c) (ca_refs c).
Definition set_triplet (t : list Z) (c : card) : card :=
  Card (ca_fd c) (ca_devnode c) (ca_subscribers c) t (ca_refs c).
Definition set_refs (n : Z) (c : card) : card :=
  Card (ca_fd c) (ca_devnode c) (ca_subscribers c) (ca_triplet c) n.

(** A new object has one reference. *)
Definition alsactl_card_new : card := Card (-1) None 0 [0; 0; 0] 1.

(** A source of events: its buffer in the heap and the length of it. *)
Record card_source := CardSource { cs_buf : Z; cs_buf_len : Z }.

(** An information object: its structure in the heap and, for the class of
    enumerated elements, its property "labels", [None] as long as it is NULL. *)
Record elem_info := ElemInfo { ei_data : ptr; ei_labels : option (list (list byte)) }.

(** The requests whose structure points to memory of the caller. *)
Class CtlKernel (K : Type) := {
  (** the structure as the call leaves it and the identifiers it writes from
      [pids] on *)
  sys_elem_list : Z → list byte → K → sysret unit * list byte * list (list byte) * K;
  (** ELEM_ADD or ELEM_REPLACE, with the names of an enumerated element *)
  sys_elem_add : Z → request → list byte → list byte → K → sysret unit * list byte * K;
}.

Class CtlKernelLaws (K : Type) `{!CtlKernel K} : Prop := {
  elem_list_length fd s k : length (sys_elem_list fd s k).1.1.2 = length s;
  elem_list_ids fd s k :
    Forall (λ id, length id = 64%nat) (sys_elem_list fd s k).1.2 ∧
    Z.of_nat (length (sys_elem_list fd s k).1.2) ≤ fget el_space s;
  elem_add_length fd req s names k : length (sys_elem_add fd req s names k).1.2 = length s;
}.

Section card.
Context {AL : Allocator} {GL : GLib} {K : Type} {KERN : Kernel K} {UD : Udev K}.
Context {CK : CtlKernel K}.

(** [sysconf (_SC_PAGESIZE)] *)
Context (page_size : Z).

Abbreviation C := (M (ostate card K)).

(** *** Reports of errors *)

Definition syscall_error (errno : Z) (what : string) : option gerror :=
  Some (GError ALSACTL_CARD_ERROR ALSACTL_CARD_ERROR_FAILED what (Some errno)).

Definition local_error (code : Z) : option gerror :=
  Some (GError ALSACTL_CARD_ERROR code (err_msgs code) None).

(** The chains of tests of [errno]: the code of the first that matches, else
    the failure of the system call. *)
Definition card_error (codes : list (Z * Z)) (errno : Z) (what : string) : option gerror :=
  let code := assoc_Z errno codes ALSACTL_CARD_ERROR_FAILED in
  if code =? ALSACTL_CARD_ERROR_FAILED then syscall_error errno what else local_error code.

Definition disconnected : list (Z * Z) := [(ENODEV, ALSACTL_CARD_ERROR_DISCONNECTED)].
Definition not_found : list (Z * Z) :=
  disconnected ++ [(ENOENT, ALSACTL_CARD_ERROR_ELEM_NOT_FOUND)].

(** A request with a structure of [n] bytes in memory. *)
Definition request_mem (req : request) (p : ptr) (n : Z) (codes : list (Z * Z))
    (what : string) : C unit :=
  priv ← get_private;
  r ← outside (ioctl_mem (ca_fd priv) req p n);
  match r with
  | Serr e => fail (card_error codes e what)
  | Sret _ => mret tt
  end.

(** *** Life of the object *)

Definition ctl_card_get_property_devnode : C (option string) :=
  priv ← get_private; mret (ca_devnode priv).

Definition ctl_card_get_property_subscribed : C bool :=
  priv ← get_private; mret (0 <? ca_subscribers priv).

Definition ctl_card_finalize : C unit :=
  priv ← get_private;
  if 0 <=? ca_fd priv then
    outside (do_close (ca_fd priv));; set_private (set_devnode None)
  else mret tt.

Definition g_object_ref_card : C unit :=
  set_private (λ c, set_refs (ca_refs c + 1) c).

(** The last reference finalizes the object. *)
Definition g_object_unref_card : C unit :=
  priv ← get_private;
  (if ca_refs priv =? 1 then ctl_card_finalize else mret tt);;
  set_private (λ c, set_refs (ca_refs c - 1) c).

(** The report of a failed [open]: the code of the file domain is converted a
    second time. *)
Definition open_error (errno : Z) : option gerror :=
  if errno =? ENODEV then local_error ALSACTL_CARD_ERROR_DISCONNECTED
  else
    let code := g_file_error_from_errno errno in
    if negb (code =? G_FILE_ERROR_FAILED)
    then Some (GError G_FILE_ERROR (g_file_error_from_errno code) "open" None)
    else syscall_error errno "open".

Definition alsactl_card_open (card_id open_flag : Z) : C unit :=
  devnode ← outside (alsactl_get_control_devnode card_id);
  fd ← outside (do_open devnode (Z.lor open_flag O_RDONLY));
  match fd with
  | Serr e => set_private (set_fd (-1));; fail (open_error e)
  | Sret fd =>
      set_private (set_fd fd);;
      junk ← gets (λ s, alloc_junk (w_heap (os_world s)) 4);
      '(r, s) ← outside (ioctl_val fd CTL_PVERSION junk);
      match r with
      | Serr e =>
          outside (do_close fd);; set_private (set_fd (-1));;
          fail (card_error disconnected e "ioctl(PVERSION)")
      | Sret _ =>
          let proto_ver := fget (i32f 0) s in
          set_private (set_devnode (Some devnode));;
          set_private (set_triplet [SNDRV_PROTOCOL_MAJOR proto_ver;
            SNDRV_PROTOCOL_MINOR proto_ver; SNDRV_PROTOCOL_MICRO proto_ver])
      end
  end.

(** A pointer to the three numbers in the object. *)
Definition alsactl_card_get_protocol_version : C (list Z) :=
  priv ← get_private;
  g_return_if_fail (0 <=? ca_fd priv);;
  mret (ca_triplet priv).

Definition alsactl_card_get_info : C ptr :=
  priv ← get_private;
  info ← outside (g_object_new sizeof_card_info);
  r ← outside (ioctl_mem (ca_fd priv) CTL_CARD_INFO info sizeof_card_info);
  match r with
  | Serr e =>
      outside (g_object_unref info);; fail (card_error disconnected e "ioctl(CARD_INFO)")
  | Sret _ => mret info
  end.

(** *** Enumeration of elements *)

(** [ioctl (fd, ELEM_LIST, list)]: the kernel writes identifiers from [pids]
    on. *)
Definition ioctl_elem_list (fd : Z) (l : list byte) (pids : ptr) :
    M (world K) (sysret unit * list byte) :=
  let l := fput el_pids (p_addr pids) l in
  '(r, l, ids) ← sys (λ k, let '(r, l, ids, k) := sys_elem_list fd l k in ((r, l, ids), k));
  mem (store pids (concat ids));;
  mret (r, l).

(** The loop of [allocate_elem_ids].  [fuel] bounds the number of requests; a
    loop that needs more counts as undefined. *)
Fixpoint read_elem_ids (fuel : nat) (fd : Z) (l : list byte) (ids : Z) :
    M (world K) (sysret unit * list byte) :=
  match fuel with
  | O => ub
  | S fuel =>
      if fget el_offset l <? fget el_count l then
        let l := fput el_space (Z.min (fget el_count l - fget el_offset l) 1000) l in
        '(r, l) ← ioctl_elem_list fd l (ids, fget el_offset l * sizeof_elem_id);
        match r with
        | Serr e => mret (Serr e, l)
        | Sret _ => read_elem_ids fuel fd (fput el_offset (fget el_offset l + fget el_space l) l) ids
        end
      else mret (Sret tt, l)
  end.

(** The list with the block of the identifiers, at 0 when there is none. *)
Definition allocate_elem_ids (fd : Z) : M (world K) (list byte * Z) :=
  '(r, l) ← ioctl_elem_list fd (zeroed sizeof_elem_list) (0, 0);
  match r with
  | Serr e => fail (card_error disconnected e "ioctl(ELEM_LIST)")
  | Sret _ =>
      let count := fget el_count l in
      if count =? 0 then mret (l, 0) else
      ids ← mem (g_malloc (count * sizeof_elem_id));
      '(r, l) ← read_elem_ids (S (Z.to_nat count)) fd (fput el_offset 0 l) ids;
      match r with
      | Serr e => mem (g_free ids);; fail (card_error disconnected e "ioctl(ELEM_LIST)")
      | Sret _ => mret (fput el_space (fget el_count l) (fput el_pids ids l), ids)
      end
  end.

Definition deallocate_elem_ids (ids : Z) : M (world K) unit :=
  if negb (ids =? 0) then mem (g_free ids) else mret tt.

(** Boxed copies of [n] identifiers from number [i] on. *)
Fixpoint copy_elem_ids (n : nat) (ids i : Z) (entries : list ptr) : M (world K) (list ptr) :=
  match n with
  | O => mret entries
  | S n =>
      elem_id ← mem (ctl_elem_id_copy (ids, i * sizeof_elem_id));
      copy_elem_ids n ids (i + 1) (entries ++ [elem_id])
  end.

Definition alsactl_card_get_elem_id_list (entries : list ptr) : C (list ptr) :=
  priv ← get_private;
  outside (
    '(l, ids) ← allocate_elem_ids (ca_fd priv);
    entries ← copy_elem_ids (Z.to_nat (fget el_count l)) ids 0 entries;
    deallocate_elem_ids ids;;
    mret entries).

(** *** Access to elements *)

Definition alsactl_card_lock_elem (elem_id : ptr) (lock : bool) : C unit :=
  request_mem (if lock then CTL_ELEM_LOCK else CTL_ELEM_UNLOCK) elem_id sizeof_elem_id
    (not_found ++ [((if lock then EBUSY else EPERM), ALSACTL_CARD_ERROR_ELEM_OWNED)])
    (if lock then "ioctl(ELEM_LOCK)" else "ioctl(ELEM_UNLOCK)").

Definition alsactl_card_remove_elems (elem_id : ptr) : C unit :=
  request_mem CTL_ELEM_REMOVE elem_id sizeof_elem_id
    (not_found ++ [(EBUSY, ALSACTL_CARD_ERROR_ELEM_OWNED)]) "ioctl(ELEM_REMOVE)".

(** [value->id = *elem_id] *)
Definition assign_id (value elem_id : ptr) : C unit :=
  outside (mem (memcpy value elem_id sizeof_elem_id)).

Definition alsactl_card_write_elem_value (elem_id elem_value : ptr) : C unit :=
  assign_id elem_value elem_id;;
  request_mem CTL_ELEM_WRITE elem_value sizeof_elem_value
    (not_found ++ [(EPERM, ALSACTL_CARD_ERROR_ELEM_NOT_SUPPORTED)]) "ioctl(ELEM_WRITE)".

Definition alsactl_card_read_elem_value (elem_id elem_value : ptr) : C unit :=
  assign_id elem_value elem_id;;
  request_mem CTL_ELEM_READ elem_value sizeof_elem_value
    (not_found ++ [(EPERM, ALSACTL_CARD_ERROR_ELEM_NOT_SUPPORTED)]) "ioctl(ELEM_READ)".

(** *** TLV data *)

(** The packet: a header with the number of the element and the size of the
    container, and the container behind it. *)
Definition allocate_packet (elem_id : ptr) (container_size : Z) : C ptr :=
  let size := u64 (sizeof_tlv + container_size) in
  packet ← outside (mem (g_malloc0 size));
  numid ← outside (mem (alsactl_elem_id_get_numid elem_id));
  outside (set_field (packet, 0) size tlv_numid numid);;
  outside (set_field (packet, 0) size tlv_length container_size);;
  mret (packet, 0).

Definition tlv_data (packet : ptr) : ptr := p_add packet sizeof_tlv.

(** What the kernel left in the packet is copied back to the container. *)
Definition return_packet (packet container : ptr) (container_size : Z) : C Z :=
  length ← outside (get_field packet (u64 (sizeof_tlv + container_size)) tlv_length);
  outside (mem (memcpy container (tlv_data packet) length));;
  outside (mem (g_free (p_addr packet)));;
  mret (length / 4).

Definition alsactl_card_write_elem_tlv (elem_id container : ptr) (container_count : Z) : C unit :=
  g_return_if_fail (2 <=? container_count);;
  let container_size := u64 (container_count * 4) in
  packet ← allocate_packet elem_id container_size;
  outside (mem (memcpy (tlv_data packet) container container_size));;
  request_mem CTL_TLV_WRITE packet (u64 (sizeof_tlv + container_size))
    (not_found ++ [(EPERM, ALSACTL_CARD_ERROR_ELEM_OWNED)]) "ioctl(TLV_WRITE)";;
  outside (mem (g_free (p_addr packet))).

(** The result is what is written to [container_count]. *)
Definition alsactl_card_read_elem_tlv (elem_id container : ptr) (container_count : Z) : C Z :=
  g_return_if_fail (2 <=? container_count);;
  let container_size := u64 (container_count * 4) in
  packet ← allocate_packet elem_id container_size;
  request_mem CTL_TLV_READ packet (u64 (sizeof_tlv + container_size)) not_found
    "ioctl(TLV_READ)";;
  return_packet packet container container_size.

Definition alsactl_card_command_elem_tlv (elem_id container : ptr) (container_count : Z) : C Z :=
  g_return_if_fail (2 <=? container_count);;
  let container_size := u64 (container_count * 4) in
  packet ← allocate_packet elem_id container_size;
  outside (mem (memcpy (tlv_data packet) container container_size));;
  request_mem CTL_TLV_COMMAND packet (u64 (sizeof_tlv + container_size))
    (not_found ++ [(EPERM, ALSACTL_CARD_ERROR_ELEM_OWNED)]) "ioctl(TLV_COMMAND)";;
  return_packet packet container container_size.

(** *** Information on elements *)

(** The labels of the items from number [i] on; [None] with the error of the
    request that failed. *)
Fixpoint parse_enum_names (n : nat) (i : Z) (data : list byte) (labels : list (list byte)) :
    C (list byte * list (list byte)) :=
  match n with
  | O => mret (data, labels)
  | S n =>
      priv ← get_private;
      '(r, data) ← outside (ioctl_val (ca_fd priv) CTL_ELEM_INFO (fput ei_item i data));
      match r with
      | Serr e => fail (card_error disconnected e "ioctl(ELEM_INFO)")
      | Sret _ => parse_enum_names n (i + 1) data (labels ++ [c_str (drop ei_name data)])
      end
  end.

(** [g_object_new] of a class of information: the construct property
    "elem-type" is set. *)
Definition elem_info_new (elem_type : Z) : M (world K) ptr :=
  info ← g_object_new sizeof_elem_info;
  set_field info sizeof_elem_info ei_type elem_type;;
  mret info.

Definition alsactl_elem_info_boolean_new : M (world K) ptr :=
  elem_info_new SNDRV_CTL_ELEM_TYPE_BOOLEAN.
Definition alsactl_elem_info_integer_new : M (world K) ptr :=
  elem_info_new SNDRV_CTL_ELEM_TYPE_INTEGER.
Definition alsactl_elem_info_bytes_new : M (world K) ptr :=
  elem_info_new SNDRV_CTL_ELEM_TYPE_BYTES.
Definition alsactl_elem_info_integer64_new : M (world K) ptr :=
  elem_info_new SNDRV_CTL_ELEM_TYPE_INTEGER64.
Definition alsactl_elem_info_enumerated_new : M (world K) ptr :=
  elem_info_new SNDRV_CTL_ELEM_TYPE_ENUMERATED.

(** The instance is initialized before the construct property is set. *)
Definition alsactl_elem_info_iec60958_new : M (world K) ptr :=
  info ← g_object_new sizeof_elem_info;
  s ← mem (load info sizeof_elem_info);
  mem (store info (alsactl_elem_info_iec60958_init s));;
  set_field info sizeof_elem_info ei_type SNDRV_CTL_ELEM_TYPE_IEC958;;
  mret info.

Definition alsactl_card_get_elem_info (elem_id : ptr) : C elem_info :=
  priv ← get_private;
  id ← outside (mem (load elem_id sizeof_elem_id));
  '(r, data) ← outside (ioctl_val (ca_fd priv) CTL_ELEM_INFO
                          (put_bytes ei_id id (zeroed sizeof_elem_info)));
  match r with
  | Serr e => fail (card_error not_found e "ioctl(ELEM_INFO)")
  | Sret _ =>
      let elem_type := fget ei_type data in
      '(dst, data, labels) ←
        (if elem_type =? SNDRV_CTL_ELEM_TYPE_BOOLEAN then
           info ← outside alsactl_elem_info_boolean_new; mret (info, data, None)
         else if elem_type =? SNDRV_CTL_ELEM_TYPE_INTEGER then
           info ← outside alsactl_elem_info_integer_new; mret (info, data, None)
         else if elem_type =? SNDRV_CTL_ELEM_TYPE_BYTES then
           info ← outside alsactl_elem_info_bytes_new; mret (info, data, None)
         else if elem_type =? SNDRV_CTL_ELEM_TYPE_IEC958 then
           info ← outside alsactl_elem_info_iec60958_new; mret (info, data, None)
         else if elem_type =? SNDRV_CTL_ELEM_TYPE_INTEGER64 then
           info ← outside alsactl_elem_info_integer64_new; mret (info, data, None)
         else if elem_type =? SNDRV_CTL_ELEM_TYPE_ENUMERATED then
           '(data, labels) ← parse_enum_names (Z.to_nat (fget ei_items data)) 0 data [];
           info ← outside alsactl_elem_info_enumerated_new;
           mret (info, data, Some labels)
         else critical);
      outside (mem (store dst data));;
      mret (ElemInfo dst labels)
  end.

(** *** Addition of elements *)

(** [strlen] of the labels is checked, and their number and length with the
    null characters computed. *)
Fixpoint measure_names (labels : list (list byte)) (count length_ : Z) : C (Z * Z) :=
  match labels with
  | [] => mret (count, length_)
  | label :: labels =>
      g_return_if_fail (Z.of_nat (length label) <? 64);;
      measure_names labels (u32 (count + 1)) (u32 (length_ + Z.of_nat (length label) + 1))
  end.

Fixpoint copy_names (labels : list (list byte)) (pos : ptr) : M heap unit :=
  match labels with
  | [] => mret tt
  | label :: labels =>
      store pos (label ++ [Byte.x00]);;
      copy_names labels (p_add pos (Z.of_nat (length label) + 1))
  end.

(** A pointer to a list of labels that is NULL is read: undefined. *)
Definition prepare_enum_names (info : ptr) (labels : option (list (list byte))) : C unit :=
  match labels with
  | None => ub
  | Some labels =>
      '(count, length_) ← measure_names labels 0 0;
      g_return_if_fail (length_ <=? 64 * 1024);;
      pos ← outside (mem (g_malloc0 length_));
      outside (set_field info sizeof_elem_info ei_names_ptr pos);;
      outside (set_field info sizeof_elem_info ei_names_length length_);;
      outside (mem (copy_names labels (pos, 0)));;
      outside (set_field info sizeof_elem_info ei_items count)
  end.

(** [min <= max] and [min + step <= max] in a signed type of [w] bits, where
    an overflow is undefined. *)
Definition check_range (w : Z) (data : list byte) : C unit :=
  let min := sgn_wrap w (fget ei_min data) in
  let max := sgn_wrap w (fget ei_max data) in
  let step := sgn_wrap w (fget ei_step data) in
  g_return_if_fail (min <=? max);;
  if (- 2 ^ (w - 1) <=? min + step) && (min + step <? 2 ^ (w - 1))
  then g_return_if_fail (min + step <=? max) else ub.

(** [ioctl (fd, request, data)], with the names the structure points to. *)
Definition ioctl_elem_add (fd : Z) (req : request) (data : ptr) : M (world K) (sysret unit) :=
  s ← mem (load data sizeof_elem_info);
  names ← mem (if fget ei_type s =? SNDRV_CTL_ELEM_TYPE_ENUMERATED
               then load (fget ei_names_ptr s, 0) (fget ei_names_length s) else mret []);
  '(r, s') ← sys (λ k, let '(r, s', k) := sys_elem_add fd req s names k in ((r, s'), k));
  mem (store data s');;
  mret r.

(** [++src.numid; ++src.index;] *)
Definition next_id (src : list byte) : list byte :=
  let src := fput id_numid (fget id_numid src + 1) src in
  fput id_index (fget id_index src + 1) src.

(** Boxed copies of [n] identifiers from [src] on. *)
Fixpoint copy_next_ids (n : nat) (src : list byte) (entries : list ptr) :
    M (world K) (list ptr) :=
  match n with
  | O => mret entries
  | S n =>
      a ← mem (g_malloc sizeof_elem_id);
      mem (store (a, 0) src);;
      copy_next_ids n (next_id src) (entries ++ [(a, 0)])
  end.

Definition add_or_replace_elems (fd : Z) (elem_id : ptr) (elem_count : Z) (elem_info : elem_info)
    (replace : bool) (entries : list ptr) : C (list ptr) :=
  let data := ei_data elem_info in
  s ← outside (mem (load data sizeof_elem_info));
  let elem_type := fget ei_type s in
  (if (elem_type =? SNDRV_CTL_ELEM_TYPE_BOOLEAN) || (elem_type =? SNDRV_CTL_ELEM_TYPE_BYTES) ||
      (elem_type =? SNDRV_CTL_ELEM_TYPE_IEC958) || (elem_type =? SNDRV_CTL_ELEM_TYPE_ENUMERATED)
   then mret tt
   else if elem_type =? SNDRV_CTL_ELEM_TYPE_INTEGER then check_range 32 s
   else if elem_type =? SNDRV_CTL_ELEM_TYPE_INTEGER64 then check_range 64 s
   else critical);;
  g_return_if_fail (0 <? fget ei_access s);;
  g_return_if_fail (0 <? fget ei_count s);;
  (if elem_type =? SNDRV_CTL_ELEM_TYPE_ENUMERATED
   then prepare_enum_names data (ei_labels elem_info)
   else outside (set_field data sizeof_elem_info ei_names_ptr 0));;
  outside (mem (memcpy data elem_id sizeof_elem_id));;
  outside (set_field data sizeof_elem_info ei_owner elem_count);;
  r ← outside (ioctl_elem_add fd (if replace then CTL_ELEM_REPLACE else CTL_ELEM_ADD) data);
  (if elem_type =? SNDRV_CTL_ELEM_TYPE_ENUMERATED then
     names_ptr ← outside (get_field data sizeof_elem_info ei_names_ptr);
     outside (mem (g_free names_ptr));;
     outside (set_field data sizeof_elem_info ei_names_ptr 0)
   else mret tt);;
  match r with
  | Serr e =>
      fail (card_error
              (not_found ++ [(EBUSY, if replace then ALSACTL_CARD_ERROR_ELEM_OWNED
                                     else ALSACTL_CARD_ERROR_ELEM_EXIST)])
              e (if replace then "ioctl(ELEM_REPLACE)" else "ioctl(ELEM_ADD)"))
  | Sret _ =>
      src ← outside (mem (load data sizeof_elem_id));
      outside (copy_next_ids (Z.to_nat elem_count) src entries)
  end.

Definition alsactl_card_add_elems (elem_id : ptr) (elem_count : Z) (elem_info : elem_info)
    (entries : list ptr) : C (list ptr) :=
  priv ← get_private;
  g_return_if_fail (0 <? elem_count);;
  add_or_replace_elems (ca_fd priv) elem_id elem_count elem_info false entries.

Definition alsactl_card_replace_elems (elem_id : ptr) (elem_count : Z) (elem_info : elem_info)
    (entries : list ptr) : C (list ptr) :=
  priv ← get_private;
  g_return_if_fail (0 <? elem_count);;
  add_or_replace_elems (ca_fd priv) elem_id elem_count elem_info true entries.

(** *** The source of events *)

(** The handlers connected to the two signals of the card. *)
Context (handle_elem_event : list byte → Z → C unit) (handle_disconnection : C unit).

Definition emit_elem_event (ev : list byte) : C unit :=
  let mask := if negb (fget ev_mask ev =? SNDRV_CTL_EVENT_MASK_REMOVE) then fget ev_mask ev
              else ALSACTL_ELEM_EVENT_MASK_REMOVE in
  handle_elem_event (sub ev_id 64 ev) mask.

Definition ctl_card_check_src (condition : Z) : bool :=
  negb (Z.land condition (Z.lor G_IO_IN G_IO_ERR) =? 0).

(** While there is a whole event left: [n] bounds the number of events. *)
Fixpoint handle_events (n : nat) (ev : ptr) (len : Z) : C unit :=
  if len <? sizeof_ctl_event then mret tt else
  match n with
  | O => ub
  | S n =>
      s ← outside (mem (load ev sizeof_ctl_event));
      (if fget ev_type s =? SNDRV_CTL_EVENT_ELEM then emit_elem_event s else mret tt);;
      handle_events n (p_add ev sizeof_ctl_event) (len - sizeof_ctl_event)
  end.

(** [condition] is what polling found; TRUE keeps the source. *)
Definition ctl_card_dispatch_src (src : card_source) (condition : Z) : C bool :=
  priv ← get_private;
  if ca_fd priv <? 0 then mret false else
  if negb (Z.land condition G_IO_ERR =? 0) then handle_disconnection;; mret false else
  len ← outside (do_read (ca_fd priv) (cs_buf src, 0) (cs_buf_len src));
  match len with
  | Serr e => mret (e =? EAGAIN)
  | Sret len =>
      handle_events (Z.to_nat len) (cs_buf src, 0) len;;
      mret true
  end.

Definition subscribe_events (subscribe : Z) : C (sysret unit) :=
  priv ← get_private;
  '(r, _) ← outside (ioctl_val (ca_fd priv) CTL_SUBSCRIBE_EVENTS (le_split 4 subscribe));
  mret r.

Definition ctl_card_finalize_src (src : card_source) : C unit :=
  set_private (λ c, set_subscribers (ca_subscribers c - 1) c);;
  priv ← get_private;
  (if ca_subscribers priv =? 0 then subscribe_events 0;; mret tt else mret tt);;
  outside (mem (g_free (cs_buf src)));;
  g_object_unref_card.

(** The source that could not be subscribed is released. *)
Definition alsactl_card_create_source : C card_source :=
  priv ← get_private;
  g_return_if_fail (0 <=? ca_fd priv);;
  buf ← outside (mem (g_malloc0 page_size));
  g_object_ref_card;;
  let src := CardSource buf page_size in
  set_private (λ c, set_subscribers (ca_subscribers c + 1) c);;
  r ← subscribe_events 1;
  match r with
  | Serr e =>
      ctl_card_finalize_src src;;
      fail (card_error disconnected e "ioctl(SUBSCRIBE_EVENTS)")
  | Sret _ => mret src
  end.
End card.
