(* ===== verification/CtlCardFacts.v ===== *)
(** * Executions of the operations of the card

    What the loops over identifiers leave, and the documented behaviour of a
    control device whose elements do not change. *)
From S2P Require Import Prelude Heap SeqUapi Struct Kernel Sysfs Object Boxes.
From S2P Require Import CtlStructs CtlElemId CtlQuery CtlCard.

Section boxes.
Context {AL : Allocator} {ALW : AllocatorLaws} {GL : GLib} {K : Type} {KERN : Kernel K}.
Implicit Types (h : heap) (k : K).

(** A new block for an identifier, or no memory. *)
Lemma new_box h (id : list byte) :
  length id = 64%nat →
  (∃ b, g_malloc sizeof_elem_id h =
      (Ret b, <[b := alloc_junk h (Z.to_nat sizeof_elem_id)]> h) ∧
    store (b, 0) id (<[b := alloc_junk h (Z.to_nat sizeof_elem_id)]> h) =
      (Ret tt, <[b := id]> h) ∧ h !! b = None ∧ 0 < b) ∨
  g_malloc sizeof_elem_id h = (Oom, h).
Proof. intros Hl. by apply (new_box_sized sizeof_elem_id). Qed.

Lemma elem_id_copy_run h p id :
  at_ptr h p id → length id = 64%nat →
  (∃ b, ctl_elem_id_copy p h = (Ret (box b), <[b := id]> h) ∧ h !! b = None ∧ 0 < b) ∨
  (∃ h', ctl_elem_id_copy p h = (Oom, h')).
Proof.
  intros Hat Hl. unfold ctl_elem_id_copy. destruct (new_box h id Hl) as [(b & E & Es & Hb & Hp)|E].
  - left. exists b. split; [|done]. step E.
    assert (b ≠ p.1) as Hne by (intros ->; destruct Hat as (? & ? & H & _); congruence).
    rewrite (bind_Ret _ _ _ tt (<[b := id]> h)); [done|]. unfold memcpy.
    rewrite (bind_Ret _ _ _ _ _
      (load_at _ _ _ sizeof_elem_id (at_ptr_insert _ _ _ b _ Hne Hat) ltac:(by rewrite Hl))).
    exact Es.
  - right. exists h. unfold mbind, M_bind. by rewrite E.
Qed.

(** The identifiers of an array, copied one by one. *)
Lemma copy_elem_ids_run ids : ∀ h k a pre i entries,
  Forall (λ id, length id = 64%nat) ids →
  h !! a = Some (pre ++ concat ids) → Z.of_nat (length pre) = 64 * i →
  (∃ boxes, copy_elem_ids (length ids) a i entries (World h k) =
      (Ret (entries ++ map box boxes), World (boxed boxes ids h) k) ∧ new_boxes h boxes ids) ∨
  (∃ w, copy_elem_ids (length ids) a i entries (World h k) = (Oom, w)).
Proof.
  induction ids as [|id ids IH]; intros h k a pre i entries Hids Ha Hpre.
  { left. exists []. cbn [length copy_elem_ids map]. rewrite mret_run, app_nil_r.
    rewrite boxed_nil. split; [done|apply new_boxes_nil]. }
  inversion Hids as [|? ? Hid Hids']; subst. cbn [length copy_elem_ids].
  assert (at_ptr h (a, i * sizeof_elem_id) id) as Hat.
  { exists pre, (concat ids). split; [done|]. cbn [snd]. unfold sizeof_elem_id. lia. }
  destruct (elem_id_copy_run h _ id Hat Hid) as [(b & E & Hb & Hp)|(h' & E)].
  2:{ right. exists (World h' k). unfold mbind, M_bind, mem, zoom. cbn [w_heap].
      by rewrite E. }
  step (mem_Ret _ h k _ _ E).
  assert (b ≠ a) as Hne by (intros ->; congruence).
  destruct (IH (<[b := id]> h) k a (pre ++ id) (i + 1) (entries ++ [box b]))
    as [(boxes & E2 & Hnew)|(w & E2)].
  - done.
  - rewrite lookup_insert_ne by done. rewrite Ha. cbn [concat]. by rewrite app_assoc.
  - rewrite length_app, Hid. lia.
  - left. destruct (new_boxes_cons h b id boxes ids id Hb Hp Hnew) as [Hni Hnew'].
    exists (b :: boxes). split; [|done]. rewrite E2, boxed_cons by done.
    cbn [map]. by rewrite <- app_assoc.
  - right. by exists w.
Qed.

(** The identifier [i] places after [src]: number and index are counted up. *)
Definition id_after (src : list byte) (i : nat) : list byte :=
  fput id_index (fget id_index src + Z.of_nat i)
    (fput id_numid (fget id_numid src + Z.of_nat i) src).

(** [n] identifiers that follow each other. *)
Definition id_sequence (n : nat) (src : list byte) : list (list byte) :=
  map (id_after src) (seq 0 n).

Lemma length_next_id src : length src = 64%nat → length (next_id src) = 64%nat.
Proof. intros H. unfold next_id. cbv zeta. by rewrite !length_fput by f_inside. Qed.

Lemma id_after_next src i :
  length src = 64%nat → id_after (next_id src) i = id_after src (S i).
Proof.
  intros Hl. unfold id_after, next_id. cbv zeta.
  rewrite (fget_fput_other id_numid id_index) by first [reflexivity | f_inside].
  set (num := fget id_numid src). set (idx := fget id_index src).
  set (s1 := fput id_numid (num + 1) src).
  assert (length s1 = 64%nat) as H1 by (unfold s1; by rewrite length_fput by f_inside).
  assert (∀ f v, f_signed f = false → f_in f 64 = true → ∀ s : list byte, length s = 64%nat →
    fget f (fput f v s) = v `mod` 2 ^ f_bits f) as Hg.
  { intros f v Hf Hin s Hs. rewrite fget_fput by by rewrite Hs. by rewrite Hf. }
  rewrite (Hg id_index) by done. rewrite (fget_fput_other id_index id_numid)
    by first [reflexivity | f_inside].
  unfold s1 at 1. rewrite (Hg id_numid) by done. fold s1.
  rewrite (fput_comm id_numid id_index) by first [reflexivity | f_inside].
  rewrite fput_fput by f_inside. unfold s1. rewrite fput_fput by f_inside.
  rewrite <- (fput_wrap id_index). rewrite Zplus_mod_idemp_l. rewrite fput_wrap.
  rewrite <- (fput_wrap id_numid (_ + _)). rewrite Zplus_mod_idemp_l. rewrite fput_wrap.
  replace (idx + 1 + Z.of_nat i) with (idx + Z.of_nat (S i)) by lia.
  by replace (num + 1 + Z.of_nat i) with (num + Z.of_nat (S i)) by lia.
Qed.

Lemma id_sequence_cons n src :
  length src = 64%nat → id_sequence (S n) src = src :: id_sequence n (next_id src).
Proof.
  intros Hl. unfold id_sequence. cbn [seq map]. f_equal.
  - unfold id_after. rewrite !Z.add_0_r. rewrite fput_fget by f_inside.
    by rewrite fput_fget by f_inside.
  - rewrite <- seq_shift, map_map. apply map_ext. intros i. by rewrite id_after_next.
Qed.

Lemma copy_next_ids_run n : ∀ h k src entries,
  length src = 64%nat →
  (∃ boxes, copy_next_ids n src entries (World h k) =
      (Ret (entries ++ map box boxes), World (boxed boxes (id_sequence n src) h) k) ∧
    new_boxes h boxes (id_sequence n src)) ∨
  (∃ w, copy_next_ids n src entries (World h k) = (Oom, w)).
Proof.
  induction n as [|n IH]; intros h k src entries Hl.
  { left. exists []. cbn [copy_next_ids map]. rewrite mret_run, app_nil_r.
    rewrite boxed_nil. split; [done|apply new_boxes_nil]. }
  rewrite id_sequence_cons by done. cbn [copy_next_ids]. destruct (new_box h src Hl) as [(b & E & Es & Hb & Hp)|E].
  2:{ right. exists (World h k). unfold mbind, M_bind, mem, zoom. cbn [w_heap]. by rewrite E. }
  step (mem_Ret _ h k _ _ E). step (mem_Ret _ _ k _ _ Es).
  destruct (IH (<[b := src]> h) k (next_id src) (entries ++ [box b]) (length_next_id _ Hl))
    as [(boxes & E2 & Hnew)|(w & E2)].
  - left. destruct (new_boxes_cons h b src boxes _ src Hb Hp Hnew) as [Hni Hnew'].
    exists (b :: boxes). split; [|done].
    etrans; [exact E2|]. rewrite boxed_cons by done. cbn [map]. by rewrite <- app_assoc.
  - right. by exists w.
Qed.
End boxes.

(** ** A control device whose elements stay *)

(** [card_elems fd ids k]: the elements behind [fd] have the identifiers
    [ids], in the order of the device. *)
Class CardElems (K : Type) := card_elems : Z → list (list byte) → K → Prop.

Class CardElemsLaws (K : Type) `{!CtlKernel K, !CardElems K} : Prop := {
  elems_ids fd ids (k : K) : card_elems fd ids k → Forall (λ id, length id = 64%nat) ids;
  elems_count fd ids (k : K) : card_elems fd ids k → Z.of_nat (length ids) < 2 ^ 31;
  (** the call gives the identifiers from [offset] on, at most [space] *)
  elems_list fd ids (k : K) l : card_elems fd ids k → length l = 80%nat →
    ∃ used k', sys_elem_list fd l k =
      (Sret tt, fput el_count (Z.of_nat (length ids)) (fput el_used used l),
       take (Z.to_nat (fget el_space l)) (drop (Z.to_nat (fget el_offset l)) ids), k') ∧
      card_elems fd ids k';
}.

Lemma length_concat_64 (ids : list (list byte)) :
  Forall (λ id, length id = 64%nat) ids → length (concat ids) = (64 * length ids)%nat.
Proof.
  induction 1 as [|id ids Hid _ IH]; [done|]. cbn [concat length]. rewrite length_app. lia.
Qed.

Section elems.
Context {AL : Allocator} {ALW : AllocatorLaws} {GL : GLib} {K : Type} {KERN : Kernel K}.
Context {CK : CtlKernel K} {CE : CardElems K} {CEL : CardElemsLaws K}.
Implicit Types (h : heap) (k : K).

Lemma ioctl_elem_list_run fd l pids h k r l' ids k' h' :
  sys_elem_list fd (fput el_pids (p_addr pids) l) k = (r, l', ids, k') →
  store pids (concat ids) h = (Ret tt, h') →
  ioctl_elem_list fd l pids (World h k) = (Ret (r, l'), World h' k').
Proof.
  intros E Es. unfold ioctl_elem_list.
  rewrite (bind_Ret _ _ _ (r, l', ids) (World h k')).
  2:{ apply sys_run. by rewrite E. }
  by step (mem_Ret _ h k' _ _ Es).
Qed.

(** The kernel writes behind the block. *)
Lemma ioctl_elem_list_out fd l pids h k r l' ids k' bs :
  sys_elem_list fd (fput el_pids (p_addr pids) l) k = (r, l', ids, k') →
  h !! pids.1 = Some bs → Z.of_nat (length bs) = pids.2 → concat ids ≠ [] →
  ioctl_elem_list fd l pids (World h k) = (UB, World h k').
Proof.
  intros E Hb Hl Hne. unfold ioctl_elem_list.
  rewrite (bind_Ret _ _ _ (r, l', ids) (World h k')).
  2:{ apply sys_run. by rewrite E. }
  rewrite (bind_UB _ _ _ (World h k')); [done|]. apply mem_UB. unfold store.
  rewrite bool_decide_false by done. rewrite Hb, Hl.
  assert (length (concat ids) ≠ O) by (by destruct (concat ids)).
  destruct (Z.leb_spec (pids.2 + Z.of_nat (length (concat ids))) pids.2); [lia|].
  by rewrite andb_false_r.
Qed.

(** One round of the loop: the next identifiers, at most 1000, follow those
    that were read. *)
Lemma read_round fd ids (l : list byte) h k a seen rest tail :
  card_elems fd ids k → ids = seen ++ rest → rest ≠ [] → length l = 80%nat →
  fget el_offset l = Z.of_nat (length seen) → fget el_count l = Z.of_nat (length ids) →
  h !! a = Some (concat seen ++ tail) → length tail = (64 * length rest)%nat →
  let space := Z.min (fget el_count l - fget el_offset l) 1000 in
  let n := Z.to_nat space in
  ∃ l' k',
    ioctl_elem_list fd (fput el_space space l) (a, fget el_offset l * sizeof_elem_id) (World h k)
      = (Ret (Sret tt, l'),
         World (<[a := concat (seen ++ take n rest) ++ drop (64 * n) tail]> h) k') ∧
    card_elems fd ids k' ∧ length l' = 80%nat ∧ fget el_offset l' = Z.of_nat (length seen) ∧
    fget el_space l' = Z.of_nat n ∧ fget el_count l' = Z.of_nat (length ids) ∧
    (0 < n ≤ length rest)%nat.
Proof.
  intros Hst Hids Hne Hl Ho Hc Ha Ht space n.
  assert (length ids = length seen + length rest)%nat as Hsum by by rewrite Hids, length_app.
  assert (length rest ≠ O) as Hr0 by (by destruct rest).
  pose proof (elems_count fd ids k Hst) as Hmax.
  assert (0 < space ∧ space ≤ 1000 ∧ (n ≤ length rest)%nat ∧ Z.of_nat n = space) as
    (Hs0 & Hs1 & Hn & Hns) by (unfold n, space; rewrite Hc, Ho; lia).
  set (p := (a, fget el_offset l * sizeof_elem_id)).
  set (l1 := fput el_pids (p_addr p) (fput el_space space l)).
  assert (length l1 = 80%nat) as Hl1 by (unfold l1; by rewrite !length_fput by f_inside).
  destruct (elems_list fd ids k l1 Hst Hl1) as (used & k' & E & Hst').
  assert (fget el_space l1 = space) as Esp by (unfold l1; by fields).
  assert (fget el_offset l1 = Z.of_nat (length seen)) as Eof by (unfold l1; by fields).
  rewrite Esp, Eof, Nat2Z.id in E. fold n in E.
  assert (drop (length seen) ids = rest) as Ed by (rewrite Hids; by apply drop_app_exact).
  rewrite Ed in E. eexists _, k'. split; [|split; [done|]].
  - apply (ioctl_elem_list_run fd _ p h k _ _ _ _ _ E).
    pose proof (elems_ids fd ids k Hst) as H64. rewrite Hids, Forall_app in H64.
    destruct H64 as [Hs64 Hr64].
    assert (length (concat (take n rest)) = (64 * n)%nat) as Hlt.
    { rewrite length_concat_64 by by apply Forall_take. rewrite length_take. lia. }
    destruct (store_at h a (concat seen) (take (64 * n) tail) (drop (64 * n) tail)
      (concat (take n rest))) as (h' & Es & Hh & _).
    + by rewrite take_drop.
    + rewrite length_take, Hlt. lia.
    + assert (p = (a, Z.of_nat (length (concat seen)))) as ->.
      { unfold p. rewrite Ho, length_concat_64 by done. f_equal. unfold sizeof_elem_id. lia. }
      rewrite Es, Hh; [by rewrite concat_app, <- app_assoc|].
      intros E0. rewrite E0 in Hlt. simpl in Hlt. lia.
  - rewrite !length_fput by f_inside. fields. rewrite Hns. split_and!; try done; lia.
Qed.

Lemma read_elem_ids_run (fuel : nat) : ∀ fd ids (l : list byte) h k a seen rest tail,
  card_elems fd ids k → ids = seen ++ rest → length l = 80%nat →
  fget el_offset l = Z.of_nat (length seen) → fget el_count l = Z.of_nat (length ids) →
  h !! a = Some (concat seen ++ tail) → length tail = (64 * length rest)%nat →
  (length rest < fuel)%nat →
  ∃ l' k', read_elem_ids fuel fd l a (World h k) =
      (Ret (Sret tt, l'), World (<[a := concat ids]> h) k') ∧
    length l' = 80%nat ∧ fget el_count l' = Z.of_nat (length ids) ∧ card_elems fd ids k'.
Proof.
  induction fuel as [|fuel IH]; intros fd ids l h k a seen rest tail Hst Hids Hl Ho Hc Ha Ht Hf;
    [lia|]. cbn [read_elem_ids].
  assert (length ids = length seen + length rest)%nat as Hsum by by rewrite Hids, length_app.
  destruct (Z.ltb_spec (fget el_offset l) (fget el_count l)) as [Hlt|Hge].
  - assert (rest ≠ []) as Hne by (intros ->; simpl in Hsum; lia).
    destruct (read_round fd ids l h k a seen rest tail) as
      (l' & k' & E & Hst' & Hl' & Ho' & Hsp & Hc' & Hn); [done..|].
    cbv zeta in *. rewrite (fget_fput_other el_space el_offset) by first [reflexivity | f_inside].
    step E.
    set (n := Z.to_nat (Z.min (fget el_count l - fget el_offset l) 1000)) in *.
    assert (length (seen ++ take n rest) = length seen + n)%nat as Hls
      by (rewrite length_app, length_take; lia).
    pose proof (elems_count fd ids k Hst) as Hmax.
    destruct (IH fd ids (fput el_offset (fget el_offset l' + fget el_space l') l')
      (<[a := concat (seen ++ take n rest) ++ drop (64 * n) tail]> h) k' a
      (seen ++ take n rest) (drop n rest) (drop (64 * n) tail)) as (l2 & k2 & E2 & H2).
    + done.
    + by rewrite <- app_assoc, take_drop.
    + by rewrite length_fput by f_inside.
    + rewrite Ho', Hsp. fields. rewrite Hls. lia.
    + by fields.
    + apply lookup_insert_eq.
    + rewrite !length_drop. lia.
    + rewrite length_drop. lia.
    + exists l2, k2. split; [|done]. rewrite E2. by rewrite insert_insert_eq.
  - assert (rest = []) as -> by (destruct rest; simpl in *; [done|lia]).
    destruct tail as [|]; [|simpl in Ht; lia]. rewrite !app_nil_r in *. subst seen.
    exists l, k. rewrite mret_run, insert_id by done. done.
Qed.

(** The answer to a request without space: the number of the elements. *)
Lemma count_elems fd ids h k :
  card_elems fd ids k →
  ∃ l k', ioctl_elem_list fd (zeroed sizeof_elem_list) (0, 0) (World h k) =
      (Ret (Sret tt, l), World h k') ∧
    length l = 80%nat ∧ fget el_count l = Z.of_nat (length ids) ∧ card_elems fd ids k'.
Proof.
  intros Hst. pose proof (elems_count _ _ k Hst) as Hmax.
  set (l0 := zeroed sizeof_elem_list). assert (length l0 = 80%nat) as Hl0 by done.
  destruct (elems_list fd ids k (fput el_pids 0 l0) Hst) as (used & k1 & E1 & Hst1);
    [by rewrite length_fput by f_inside|].
  replace (fget el_space (fput el_pids 0 l0)) with 0 in E1 by by vm_compute.
  rewrite take_0 in E1. eexists _, k1. split; [|split; [|split; [|done]]].
  - by apply (ioctl_elem_list_run _ l0 (0, 0) h k _ _ [] _ h E1).
  - by rewrite !length_fput by f_inside.
  - by fields.
Qed.

(** The identifiers of all elements in a new block. *)
Lemma allocate_elem_ids_run fd ids h k :
  card_elems fd ids k →
  (∃ l k', allocate_elem_ids fd (World h k) = (Ret (l, 0), World h k') ∧ ids = [] ∧
    fget el_count l = 0 ∧ card_elems fd ids k') ∨
  (∃ l a k', allocate_elem_ids fd (World h k) =
      (Ret (l, a), World (<[a := concat ids]> h) k') ∧ h !! a = None ∧ 0 < a ∧
    fget el_count l = Z.of_nat (length ids) ∧ card_elems fd ids k') ∨
  (∃ w, allocate_elem_ids fd (World h k) = (Oom, w)).
Proof.
  intros Hst. pose proof (elems_count _ _ k Hst) as Hmax.
  destruct (count_elems fd ids h k Hst) as (l & k1 & E & Hl & Hc & Hst1).
  unfold allocate_elem_ids. step E. cbv zeta. rewrite Hc.
  destruct (Z.eqb_spec (Z.of_nat (length ids)) 0) as [H0|H0].
  { left. exists l, k1. assert (ids = []) as -> by (by destruct ids). done. }
  right. destruct (alloc_addr h (Z.of_nat (length ids) * sizeof_elem_id)) as [a|] eqn:Ea.
  2:{ right. exists (World h k1). unfold mbind at 1, M_bind at 1, mem, zoom, g_malloc.
      cbn [w_heap]. destruct (Z.eqb_spec (Z.of_nat (length ids) * sizeof_elem_id) 0);
        [unfold sizeof_elem_id in *; lia|]. by rewrite Ea. }
  left. pose proof (alloc_fresh _ _ _ Ea) as Hf. pose proof (alloc_nonnull _ _ _ Ea) as Hp.
  assert (Z.of_nat (length ids) * sizeof_elem_id ≠ 0) as Hn0 by (unfold sizeof_elem_id; lia).
  step (mem_Ret _ h k1 _ _ (g_malloc_some h _ a Hn0 Ea)).
  set (junk := alloc_junk h (Z.to_nat (Z.of_nat (length ids) * sizeof_elem_id))).
  destruct (read_elem_ids_run (S (Z.to_nat (Z.of_nat (length ids)))) fd ids (fput el_offset 0 l)
    (<[a := junk]> h) k1 a [] ids junk) as (l2 & k2 & E2 & Hl2 & Hc2 & Hst2).
  - done.
  - done.
  - by rewrite length_fput by f_inside.
  - by fields.
  - by fields.
  - apply lookup_insert_eq.
  - unfold junk. rewrite alloc_junk_length. unfold sizeof_elem_id. lia.
  - lia.
  - step E2. cbv iota. eexists _, a, k2. rewrite mret_run, insert_insert_eq.
    split_and!; [done|done|lia|by fields|done].
Qed.
End elems.

(** ** Requests for elements *)

Inductive elem_call := ELock | EUnlock | ERemove | EWrite | ERead.

Definition elem_request (q : elem_call) : request :=
  match q with
  | ELock => CTL_ELEM_LOCK
  | EUnlock => CTL_ELEM_UNLOCK
  | ERemove => CTL_ELEM_REMOVE
  | EWrite => CTL_ELEM_WRITE
  | ERead => CTL_ELEM_READ
  end.

(** Whether the request carries a value besides the identifier. *)
Definition with_value (q : elem_call) : bool :=
  match q with EWrite | ERead => true | _ => false end.

(** The structure that is sent for the identifier [id] and the object [v] of a
    value, which begins with the structure of 1224 bytes. *)
Definition elem_struct (q : elem_call) (id v : list byte) : list byte :=
  if with_value q then id ++ sub 64 1160 v else id.

(** The object behind the structure: the arrays of the getters. *)
Definition elem_rest (q : elem_call) (v : list byte) : list byte :=
  if with_value q then drop 1224 v else [].

(** The meaning of an [errno]. *)
Definition elem_code (q : elem_call) (e : Z) : Z :=
  if e =? ENODEV then ALSACTL_CARD_ERROR_DISCONNECTED
  else if e =? ENOENT then ALSACTL_CARD_ERROR_ELEM_NOT_FOUND
  else match q with
  | ELock | ERemove => if e =? EBUSY then ALSACTL_CARD_ERROR_ELEM_OWNED else 0
  | EUnlock => if e =? EPERM then ALSACTL_CARD_ERROR_ELEM_OWNED else 0
  | EWrite | ERead => if e =? EPERM then ALSACTL_CARD_ERROR_ELEM_NOT_SUPPORTED else 0
  end.

Definition elem_label (q : elem_call) : string :=
  match q with
  | ELock => "ioctl(ELEM_LOCK)"
  | EUnlock => "ioctl(ELEM_UNLOCK)"
  | ERemove => "ioctl(ELEM_REMOVE)"
  | EWrite => "ioctl(ELEM_WRITE)"
  | ERead => "ioctl(ELEM_READ)"
  end.

(** An error with the code, with the [errno] where there is no own code. *)
Definition coded_error (code e : Z) (what : string) : option gerror :=
  Some (if code =? 0 then GError ALSACTL_CARD_ERROR 0 what (Some e)
        else GError ALSACTL_CARD_ERROR code (err_msgs code) None).

(** ** TLV data *)

Inductive tlv_call := TlvWrite | TlvRead | TlvCommand.

Definition tlv_request (q : tlv_call) : request :=
  match q with
  | TlvWrite => CTL_TLV_WRITE
  | TlvRead => CTL_TLV_READ
  | TlvCommand => CTL_TLV_COMMAND
  end.

(** The packet for the element [id] and the data of the container. *)
Definition tlv_packet (q : tlv_call) (id data : list byte) : list byte :=
  le_split 4 (fget id_numid id) ++ le_split 4 (Z.of_nat (length data)) ++
  match q with TlvRead => zeros (length data) | _ => data end.

Definition tlv_code (q : tlv_call) (e : Z) : Z :=
  if e =? ENODEV then ALSACTL_CARD_ERROR_DISCONNECTED
  else if e =? ENOENT then ALSACTL_CARD_ERROR_ELEM_NOT_FOUND
  else match q with
  | TlvRead => 0
  | _ => if e =? EPERM then ALSACTL_CARD_ERROR_ELEM_OWNED else 0
  end.

Definition tlv_label (q : tlv_call) : string :=
  match q with
  | TlvWrite => "ioctl(TLV_WRITE)"
  | TlvRead => "ioctl(TLV_READ)"
  | TlvCommand => "ioctl(TLV_COMMAND)"
  end.

(** The cases of an [errno]. *)
Ltac errno_cases :=
  repeat (match goal with |- context [if ?x =? ?y then _ else _] =>
    destruct (Z.eqb_spec x y); try done end).

Section requests.
Context {AL : Allocator} {ALW : AllocatorLaws} {GL : GLib} {K : Type} {KERN : Kernel K}.
Context {KL : KernelLaws K}.
Implicit Types (h : heap) (k : K) (c : card).

Definition run_elem (q : elem_call) (elem_id value : ptr) : M (ostate card K) unit :=
  match q with
  | ELock => alsactl_card_lock_elem elem_id true
  | EUnlock => alsactl_card_lock_elem elem_id false
  | ERemove => alsactl_card_remove_elems elem_id
  | EWrite => alsactl_card_write_elem_value elem_id value
  | ERead => alsactl_card_read_elem_value elem_id value
  end.

(** The number of quadlets that is returned, where there is one. *)
Definition run_tlv (q : tlv_call) (elem_id container : ptr) (count : Z) :
    M (ostate card K) (option Z) :=
  match q with
  | TlvWrite => alsactl_card_write_elem_tlv elem_id container count;; mret None
  | TlvRead => n ← alsactl_card_read_elem_tlv elem_id container count; mret (Some n)
  | TlvCommand => n ← alsactl_card_command_elem_tlv elem_id container count; mret (Some n)
  end.

Lemma card_request_prefix c h k a s tl n req r s' k' codes what :
  h !! a = Some (s ++ tl) → n = Z.of_nat (length s) → s ≠ [] →
  sys_ioctl (ca_fd c) req s k = (r, s', k') →
  request_mem req (a, 0) n codes what (OState c (World h k)) =
    (match r with Sret _ => Ret tt | Serr e => Fail (card_error codes e what) end,
     OState c (World (<[a := s' ++ tl]> h) k')).
Proof.
  intros Ha Hn Hne E. unfold request_mem. rewrite bind_private.
  step (outside_run _ c _ _ _ (ioctl_prefix h k a s tl n (ca_fd c) req r s' k' Ha Hn Hne E)).
  by destruct r as [[]|e].
Qed.

Lemma card_request_run c h k a s n req r s' k' codes what :
  h !! a = Some s → n = Z.of_nat (length s) → s ≠ [] →
  sys_ioctl (ca_fd c) req s k = (r, s', k') →
  request_mem req (a, 0) n codes what (OState c (World h k)) =
    (match r with Sret _ => Ret tt | Serr e => Fail (card_error codes e what) end,
     OState c (World (<[a := s']> h) k')).
Proof.
  intros Ha Hn Hne E. rewrite <- (app_nil_r s) in Ha. rewrite <- (app_nil_r s').
  by eapply card_request_prefix.
Qed.

(** The identifier is put in front of the value, then the structure is sent. *)
Lemma value_request_run c h k a id b v req codes what r s' k' :
  h !! a = Some id → length id = 64%nat → h !! b = Some v → (1224 ≤ length v)%nat →
  sys_ioctl (ca_fd c) req (id ++ sub 64 1160 v) k = (r, s', k') →
  (assign_id (b, 0) (a, 0);; request_mem req (b, 0) sizeof_elem_value codes what)
    (OState c (World h k)) =
  (match r with Sret _ => Ret tt | Serr e => Fail (card_error codes e what) end,
   OState c (World (<[b := s' ++ drop 1224 v]> h) k')).
Proof.
  intros Ha Hla Hb Hlb E.
  assert (drop 64 v = sub 64 1160 v ++ drop 1224 v) as Ed.
  { unfold sub. rewrite <- (take_drop 1160 (drop 64 v)) at 1. by rewrite drop_drop. }
  rewrite (bind_Ret _ _ _ tt (OState c (World (<[b := id ++ drop 64 v]> h) k))).
  - rewrite Ed, app_assoc.
    rewrite (card_request_prefix c _ k b (id ++ sub 64 1160 v) (drop 1224 v) _ req r s' k');
      [by rewrite insert_insert_eq|apply lookup_insert_eq| |by destruct id|done].
    rewrite length_app, length_sub by lia. by rewrite Hla.
  - apply outside_mem. unfold memcpy.
    step (load_at h (a, 0) id sizeof_elem_id (at_ptr_block _ _ _ Ha) ltac:(by rewrite Hla)).
    rewrite <- Hla. apply store_prefix; [done|lia].
Qed.

(** A request for one element. *)
Lemma elem_request_run q c h k a id b v r s' k' :
  h !! a = Some id → length id = 64%nat → h !! b = Some v → (1224 ≤ length v)%nat →
  sys_ioctl (ca_fd c) (elem_request q) (elem_struct q id v) k = (r, s', k') →
  run_elem q (a, 0) (b, 0) (OState c (World h k)) =
    (match r with
     | Sret _ => Ret tt
     | Serr e => Fail (coded_error (elem_code q e) e (elem_label q))
     end,
     OState c (World (<[(if with_value q then b else a) := s' ++ elem_rest q v]> h) k')).
Proof.
  intros Ha Hla Hb Hlb E. assert (id ≠ []) as Hid0 by (by destruct id).
  assert (sizeof_elem_id = Z.of_nat (length id)) as Hsa by (by rewrite Hla).
  destruct q; unfold elem_rest; cbn [run_elem with_value elem_struct elem_request] in *;
    rewrite ?app_nil_r.
  1-3: etrans; [by eapply card_request_run|].
  4-5: etrans; [by eapply value_request_run|].
  all: f_equal; destruct r as [u|e]; [done|]; unfold card_error, elem_code, coded_error;
    cbn [elem_label assoc_Z app not_found disconnected];
    errno_cases.
Qed.

(** The header of the packet, the container behind it zeroed. *)
Lemma packet_header numid n (m : nat) :
  n = Z.of_nat m →
  fput tlv_length n (fput tlv_numid numid (zeros (8 + m))) =
    le_split 4 numid ++ le_split 4 n ++ zeros m.
Proof.
  intros ->. unfold fput. cbn [tlv_length tlv_numid u32f f_off f_width].
  assert (put_bytes 0 (le_split 4 numid) (zeros (8 + m)) = le_split 4 numid ++ zeros (4 + m))
    as ->.
  { unfold put_bytes. by rewrite take_0, length_le_split. }
  unfold put_bytes. rewrite take_app_exact by by rewrite length_le_split.
  rewrite length_le_split, drop_app_ge by (rewrite length_le_split; lia).
  by rewrite length_le_split.
Qed.

Lemma allocate_packet_run c h k elem_id id m a :
  at_ptr h elem_id id → length id = 64%nat → Z.of_nat m < 2 ^ 31 →
  alloc_addr h (8 + Z.of_nat m) = Some a →
  allocate_packet elem_id (Z.of_nat m) (OState c (World h k)) =
    (Ret (a, 0), OState c (World
      (<[a := le_split 4 (fget id_numid id) ++ le_split 4 (Z.of_nat m) ++ zeros m]> h) k)).
Proof.
  intros Hid Hl Hm Ea. unfold allocate_packet, sizeof_tlv.
  rewrite (u64_id (8 + Z.of_nat m)) by (unfold is_u64; lia). cbv zeta.
  step (outside_mem _ c h k _ _ (g_malloc0_some h (8 + Z.of_nat m) a ltac:(lia) Ea)).
  replace (Z.to_nat (8 + Z.of_nat m)) with (8 + m)%nat by lia.
  pose proof (alloc_fresh _ _ _ Ea) as Hf.
  set (h1 := <[a := zeros (8 + m)]> h).
  assert (a ≠ elem_id.1) as Hne by (intros ->; destruct Hid as (? & ? & H & _); congruence).
  assert (get_id_field id_numid elem_id h1 = (Ret (fget id_numid id), h1)) as Eg.
  { unfold get_id_field. by step (load_at h1 elem_id id sizeof_elem_id
      (at_ptr_insert _ _ _ a _ Hne Hid) ltac:(by rewrite Hl)). }
  step (outside_mem _ c h1 k _ _ Eg).
  assert (h1 !! a = Some (zeros (8 + m))) as H1 by apply lookup_insert_eq.
  assert (8 + Z.of_nat m = Z.of_nat (length (zeros (8 + m)))) as Hn
    by (rewrite length_zeros; lia).
  assert (∀ f, f_in f 8 = true → f_in f (8 + m) = true) as Hin.
  { intros f [Hf1 Hf2]%f_in_spec. unfold f_in. rewrite bool_decide_true by lia.
    by destruct (Nat.eqb_spec (f_width f) 0). }
  step (outside_run _ c _ _ _ (set_field_block h1 k a _ _ tlv_numid (fget id_numid id) H1 Hn
    ltac:(rewrite length_zeros; by apply Hin))).
  set (s1 := fput tlv_numid (fget id_numid id) (zeros (8 + m))).
  assert (length s1 = 8 + m)%nat as Hs1
    by (unfold s1; rewrite length_fput; rewrite length_zeros; [done|by apply Hin]).
  step (outside_run _ c _ _ _ (set_field_block (<[a := s1]> h1) k a s1 (8 + Z.of_nat m) tlv_length
    (Z.of_nat m) (lookup_insert_eq _ _ _) ltac:(rewrite Hs1; lia)
    ltac:(rewrite Hs1; by apply Hin))).
  rewrite mret_run. unfold s1, h1. rewrite packet_header by done. by rewrite !insert_insert_eq.
Qed.

(** The data of the container behind the header of the packet. *)
Lemma fill_packet h a b hd data :
  a ≠ b → h !! b = Some data → length hd = 8%nat →
  memcpy (tlv_data (a, 0)) (b, 0) (Z.of_nat (length data))
    (<[a := hd ++ zeros (length data)]> h) = (Ret tt, <[a := hd ++ data]> h).
Proof.
  intros Hne Hb Hhd. unfold memcpy. set (h1 := <[a := hd ++ zeros (length data)]> h).
  assert (at_ptr h1 (b, 0) data) as Hat by (apply at_ptr_block; unfold h1; by rewrite lookup_insert_ne).
  step (load_at h1 (b, 0) data _ Hat eq_refl).
  destruct (store_at h1 a hd (zeros (length data)) [] data) as (h' & E & Hh & Hh0).
  - rewrite app_nil_r. apply lookup_insert_eq.
  - apply length_zeros.
  - replace (tlv_data (a, 0)) with (a, Z.of_nat (length hd)) by by rewrite Hhd.
    rewrite E. f_equal. unfold h1 in *. destruct data as [|x data].
    + by rewrite Hh0.
    + rewrite Hh by done. by rewrite app_nil_r, insert_insert_eq.
Qed.

(** The data of the packet is copied to the container, the packet released. *)
Lemma return_packet_run c h k a b s' data m :
  h !! a = None → 0 < a → h !! b = Some data → length data = m → length s' = (8 + m)%nat →
  Z.of_nat m < 2 ^ 31 → let n := Z.to_nat (fget tlv_length s') in (n ≤ m)%nat →
  return_packet (a, 0) (b, 0) (Z.of_nat m) (OState c (World (<[a := s']> h) k)) =
    (Ret (Z.of_nat n / 4), OState c (World (<[b := sub 8 n s' ++ drop n data]> h) k)).
Proof.
  intros Ha Hp Hb Hd Hl Hm n Hn. unfold return_packet.
  rewrite u64_id by (unfold is_u64, sizeof_tlv; lia). set (h1 := <[a := s']> h).
  assert (h1 !! a = Some s') as H1 by apply lookup_insert_eq.
  assert (a ≠ b) as Hne by congruence.
  step (outside_run _ c _ _ _ (get_field_run h1 k (a, 0) s' (sizeof_tlv + Z.of_nat m) tlv_length
    (at_ptr_block _ _ _ H1) ltac:(rewrite Hl; unfold sizeof_tlv; lia))).
  pose proof (fget_range tlv_length s') as Hr. rewrite Hl in Hr. specialize (Hr eq_refl).
  change (0 ≤ fget tlv_length s' < 2 ^ 32) in Hr.
  assert (fget tlv_length s' = Z.of_nat n) as Ef by (unfold n; lia). rewrite Ef.
  rewrite (bind_Ret _ _ _ tt (OState c (World (<[b := sub 8 n s' ++ drop n data]> h1) k))).
  2:{ apply outside_mem. unfold memcpy.
      assert (length (sub 8 n s') = n) as Hls by (apply length_sub; lia).
      assert (at_ptr h1 (tlv_data (a, 0)) (sub 8 n s')) as Hat.
      { exists (take 8 s'), (drop n (drop 8 s')). cbn [fst snd tlv_data p_add]. split.
        - rewrite H1. f_equal. unfold sub. by rewrite take_drop, take_drop.
        - rewrite length_take, Hl. unfold sizeof_tlv. lia. }
      step (load_at h1 _ (sub 8 n s') (Z.of_nat n) Hat ltac:(by rewrite Hls)).
      rewrite (store_prefix h1 b data); [by rewrite Hls| |rewrite Hls; lia].
      unfold h1; by rewrite lookup_insert_ne. }
  rewrite (bind_Ret _ _ _ tt (OState c (World (<[b := sub 8 n s' ++ drop n data]> h) k))); [done|].
  apply outside_mem. unfold p_addr. cbn [fst snd]. rewrite Z.add_0_r.
  rewrite (g_free_block _ a s'); [|done|rewrite lookup_insert_ne by done; apply lookup_insert_eq].
  f_equal. unfold h1. rewrite delete_insert_ne by done. by rewrite delete_insert_id.
Qed.

(** The errors a TLV operation tells apart. *)
Definition tlv_codes (q : tlv_call) : list (Z * Z) :=
  match q with
  | TlvRead => not_found
  | _ => not_found ++ [(EPERM, ALSACTL_CARD_ERROR_ELEM_OWNED)]
  end.

Lemma tlv_error q e :
  card_error (tlv_codes q) e (tlv_label q) = coded_error (tlv_code q e) e (tlv_label q).
Proof.
  unfold card_error, tlv_code, coded_error.
  destruct q; cbn [tlv_codes tlv_label assoc_Z app not_found disconnected];
    errno_cases.
Qed.

(** The packet is built and sent; [next] is what follows an answer. *)
Lemma tlv_send_run {A} (q : tlv_call) (next : ptr → M (ostate card K) A) c h k p id b data a r s' k' :
  at_ptr h p id → length id = 64%nat → h !! b = Some data → Z.of_nat (length data) < 2 ^ 31 →
  alloc_addr h (8 + Z.of_nat (length data)) = Some a →
  sys_ioctl (ca_fd c) (tlv_request q) (tlv_packet q id data) k = (r, s', k') →
  let size := Z.of_nat (length data) in
  let request packet := request_mem (tlv_request q) packet (u64 (sizeof_tlv + size)) (tlv_codes q)
    (tlv_label q) in
  (packet ← allocate_packet p size;
   match q with
   | TlvRead => request packet;; next packet
   | _ => outside (mem (memcpy (tlv_data packet) (b, 0) size));; request packet;; next packet
   end) (OState c (World h k)) =
  match r with
  | Sret _ => next (a, 0) (OState c (World (<[a := s']> h) k'))
  | Serr e => (Fail (coded_error (tlv_code q e) e (tlv_label q)),
               OState c (World (<[a := s']> h) k'))
  end.
Proof.
  intros Hid Hl Hb Hmax Ea E size request.
  pose proof (alloc_fresh _ _ _ Ea) as Hf. assert (a ≠ b) as Hne by congruence.
  step (allocate_packet_run c h k p id (length data) a Hid Hl Hmax Ea).
  set (hd := le_split 4 (fget id_numid id) ++ le_split 4 (Z.of_nat (length data))) in *.
  unfold tlv_packet in E. rewrite app_assoc in *. fold hd in E |- *.
  set (body := match q with TlvRead => zeros (length data) | _ => data end) in *.
  assert (length body = length data) as Hbl by (unfold body; destruct q; [done|apply length_zeros|done]).
  assert ((request (a, 0);; next (a, 0)) (OState c (World (<[a := hd ++ body]> h) k)) =
    match r with
    | Sret _ => next (a, 0) (OState c (World (<[a := s']> h) k'))
    | Serr e => (Fail (coded_error (tlv_code q e) e (tlv_label q)),
                 OState c (World (<[a := s']> h) k'))
    end) as Hreq.
  { assert (u64 (sizeof_tlv + size) = Z.of_nat (length (hd ++ body))) as Hn.
    { rewrite length_app, Hbl. change (length hd) with 8%nat.
      rewrite u64_id; unfold is_u64, sizeof_tlv, size; lia. }
    pose proof (card_request_run c _ k a (hd ++ body) _ (tlv_request q) r s' k' (tlv_codes q)
      (tlv_label q) (lookup_insert_eq h a (hd ++ body)) Hn ltac:(done) E) as Er.
    rewrite insert_insert_eq in Er. unfold request.
    destruct r as [u|e]; [by rewrite (bind_Ret _ _ _ _ _ Er)|].
    by rewrite (bind_Fail _ _ _ _ _ Er), tlv_error. }
  assert (memcpy (tlv_data (a, 0)) (b, 0) size (<[a := hd ++ zeros (length data)]> h) =
    (Ret tt, <[a := hd ++ data]> h)) as Efill by by apply fill_packet.
  destruct q; cbn [tlv_request] in *; [|exact Hreq|];
    step (outside_mem _ c _ k _ _ Efill); exact Hreq.
Qed.
End requests.
