(* ===== verification/SampleCard.v ===== *)
(** * A sample card

    A control device with three elements, for concrete runs, on the system of
    SampleSystem.v. *)
From S2P Require Import Prelude Heap SeqUapi Struct Kernel SampleSystem Object.
From S2P Require Import CtlStructs CtlElemId CtlCard CtlCardFacts.

Module SampleCard.
Import Sample.

(** The identifier of the element [n]. *)
Definition ident (n : Z) : list byte :=
  fput id_numid n (elem_id_of_name 2 0 0 "Volume" (n - 1) (zeros 64)).

Definition elements : list (list byte) := [ident 1; ident 2; ident 3].

Definition answer_list (ids : list (list byte)) (l : list byte) : list byte :=
  fput el_count (Z.of_nat (length ids))
    (fput el_used (Z.min (fget el_space l) (Z.of_nat (length ids) - fget el_offset l)) l).

Definition given (ids : list (list byte)) (l : list byte) : list (list byte) :=
  take (Z.to_nat (fget el_space l)) (drop (Z.to_nat (fget el_offset l)) ids).

(** New elements get the numbers from 7 on. *)
#[export] Instance ctl_kernel : CtlKernel state := {|
  sys_elem_list fd l k :=
    if bool_decide (length l = 80%nat) then (Sret tt, answer_list elements l, given elements l, k)
    else (Serr EINVAL, l, [], k);
  sys_elem_add fd req s names k :=
    if bool_decide (length s = 272%nat) then (Sret tt, fput id_numid 7 s, k)
    else (Serr EINVAL, s, k);
|}.

Lemma length_answer_list ids l : length l = 80%nat → length (answer_list ids l) = 80%nat.
Proof. intros H. unfold answer_list. by rewrite !length_fput by f_inside. Qed.

#[export] Instance elements_view : CardElems state := λ fd ids k, ids = elements.

#[export] Instance elements_laws : CardElemsLaws state.
Proof.
  split.
  - intros fd ids k ->. by repeat constructor.
  - by intros fd ids k ->.
  - intros fd ids k l -> Hl. eexists _, k. split; [|done].
    cbn [sys_elem_list ctl_kernel]. by rewrite bool_decide_true.
Qed.

#[export] Instance ctl_kernel_laws : CtlKernelLaws state.
Proof.
  assert (∀ l, 0 ≤ fget el_space l) as Hsp.
  { intros l. unfold fget. cbn [f_signed el_space u32f]. unfold le_u. cbn [f_off f_width].
    apply LittleEndianList.le_combine_bound. }
  split.
  - intros fd l k. cbn [sys_elem_list ctl_kernel]. case_bool_decide as H; [|done].
    cbn [fst snd]. by rewrite length_answer_list, H.
  - intros fd l k. cbn [sys_elem_list ctl_kernel]. specialize (Hsp l). case_bool_decide as H.
    + cbn [fst snd]. unfold given. split.
      * apply Forall_take, Forall_drop. by repeat constructor.
      * rewrite length_take. lia.
    + cbn [fst snd]. split; [done|]. simpl. lia.
  - intros fd req s names k. cbn [sys_elem_add ctl_kernel]. case_bool_decide as H; [|done].
    cbn [fst snd]. by rewrite length_fput by f_inside.
Qed.

(** An open card. *)
Definition opened : card := Card 5 (Some "/dev/snd/controlC0") 0 [2; 0; 8] 1.
End SampleCard.
