(* ===== verification/CtlAddElems.v ===== *)
(** * Addition and replacement of elements

    What is sent to the kernel for new elements, the names of enumerated
    elements among it, and the identifiers that are returned. *)
From S2P Require Import Prelude Heap SeqUapi Struct Kernel Sysfs Object.
From S2P Require Import Boxes CtlStructs CtlElemId CtlQuery CtlCard CtlCardFacts SampleSystem SampleCard.

(** ** The data that is sent *)

(** The labels with a null character behind each of them. *)
Definition names_bytes (labels : list (list byte)) : list byte :=
  concat (map (λ label, label ++ [Byte.x00]) labels).

Definition enumerated (s : list byte) : bool :=
  fget ei_type s =? SNDRV_CTL_ELEM_TYPE_ENUMERATED.

(** The structure for [n] elements from [id] on; the names lie at [a]. *)
Definition sent_struct (labels : list (list byte)) (a n : Z) (id s : list byte) : list byte :=
  let s' :=
    if enumerated s then
      fput ei_items (Z.of_nat (length labels))
        (fput ei_names_length (Z.of_nat (length (names_bytes labels))) (fput ei_names_ptr a s))
    else fput ei_names_ptr 0 s in
  fput ei_owner n (id ++ drop 64 s').

(** [min], [max] and [step] of an integer type of [w] bits are in order. *)
Definition range_ok (w : Z) (s : list byte) : Prop :=
  let min := sgn_wrap w (fget ei_min s) in
  let max := sgn_wrap w (fget ei_max s) in
  let step := sgn_wrap w (fget ei_step s) in
  min ≤ max ∧ - 2 ^ (w - 1) ≤ min + step ≤ max.

(** The labels of an enumerated element: each one fits the kernel's 64 bytes,
    all of them its 64 KiB. *)
Definition labels_ok (labels : list (list byte)) : Prop :=
  labels ≠ [] ∧ Forall (λ label, length label < 64)%nat labels ∧
  Z.of_nat (length (names_bytes labels)) ≤ 65536.

(** The information an element can be made of. *)
Definition admissible (s : list byte) (labels : option (list (list byte))) : Prop :=
  length s = 272%nat ∧ 0 < fget ei_access s ∧ 0 < fget ei_count s ∧
  1 ≤ fget ei_type s ≤ 6 ∧
  (fget ei_type s = SNDRV_CTL_ELEM_TYPE_INTEGER → range_ok 32 s) ∧
  (fget ei_type s = SNDRV_CTL_ELEM_TYPE_INTEGER64 → range_ok 64 s) ∧
  (enumerated s = true → ∃ ls, labels = Some ls ∧ labels_ok ls).

Definition add_code (replace : bool) (e : Z) : Z :=
  if e =? ENODEV then ALSACTL_CARD_ERROR_DISCONNECTED
  else if e =? ENOENT then ALSACTL_CARD_ERROR_ELEM_NOT_FOUND
  else if e =? EBUSY then
    if replace then ALSACTL_CARD_ERROR_ELEM_OWNED else ALSACTL_CARD_ERROR_ELEM_EXIST
  else 0.

Definition add_label (replace : bool) : string :=
  if replace then "ioctl(ELEM_REPLACE)" else "ioctl(ELEM_ADD)".

Definition add_request (replace : bool) : request :=
  if replace then CTL_ELEM_REPLACE else CTL_ELEM_ADD.

Section facts.
Context {AL : Allocator} {ALW : AllocatorLaws} {GL : GLib} {K : Type} {KERN : Kernel K}.
Context {CK : CtlKernel K} {CKL : CtlKernelLaws K}.
Implicit Types (h : heap) (k : K) (c : card).

Lemma measure_names_run labels : ∀ count len (s : ostate card K),
  Forall (λ label, length label < 64)%nat labels → 0 ≤ count → 0 ≤ len →
  count + Z.of_nat (length labels) < 2 ^ 32 →
  len + Z.of_nat (length (names_bytes labels)) < 2 ^ 32 →
  measure_names labels count len s =
    (Ret (count + Z.of_nat (length labels), len + Z.of_nat (length (names_bytes labels))), s).
Proof.
  induction labels as [|label labels IH]; intros count len s Hl Hc Hn Hcm Hnm.
  { cbn. by rewrite !Z.add_0_r. }
  inversion Hl as [|? ? Hlb Hl']; subst. cbn [measure_names].
  assert (names_bytes (label :: labels) = (label ++ [Byte.x00]) ++ names_bytes labels) as En
    by done.
  rewrite En in Hnm |- *. rewrite !length_app in Hnm |- *. cbn [length] in *.
  unfold g_return_if_fail. destruct (Z.ltb_spec (Z.of_nat (length label)) 64); [|lia].
  step (mret_run tt s). rewrite !u32_id by (unfold is_u32; lia).
  rewrite IH; [|done|lia..]. do 3 f_equal; lia.
Qed.

Lemma copy_names_run labels : ∀ h a pre junk,
  h !! a = Some (pre ++ junk) → length junk = length (names_bytes labels) →
  copy_names labels (a, Z.of_nat (length pre)) h =
    (Ret tt, <[a := pre ++ names_bytes labels]> h).
Proof.
  induction labels as [|label labels IH]; intros h a pre junk Ha Hj.
  { destruct junk; [|done]. cbn. by rewrite insert_id. }
  assert (names_bytes (label :: labels) = (label ++ [Byte.x00]) ++ names_bytes labels) as En
    by done.
  rewrite En in Hj |- *. rewrite length_app in Hj. cbn [copy_names].
  set (vs := label ++ [Byte.x00]) in *.
  destruct (store_at h a pre (take (length vs) junk) (drop (length vs) junk) vs)
    as (h' & E & Hh & _); [by rewrite take_drop|rewrite length_take; lia|].
  step E. rewrite Hh by (unfold vs; by destruct label).
  replace (p_add (a, Z.of_nat (length pre)) (Z.of_nat (length label) + 1))
    with (a, Z.of_nat (length (pre ++ vs)))
    by (unfold p_add, vs; rewrite !length_app; cbn [fst snd length]; f_equal; lia).
  rewrite (IH _ a (pre ++ vs) (drop (length vs) junk)).
  - by rewrite insert_insert_eq, <- app_assoc.
  - rewrite lookup_insert_eq. by rewrite <- app_assoc.
  - rewrite length_drop. lia.
Qed.

Lemma labels_le_names labels : (length labels ≤ length (names_bytes labels))%nat.
Proof.
  induction labels as [|l ls IH]; [done|].
  change (names_bytes (l :: ls)) with ((l ++ [Byte.x00]) ++ names_bytes ls).
  rewrite !length_app. cbn [length]. lia.
Qed.

Lemma prepare_enum_names_run c h k d s labels a :
  h !! d = Some s → length s = 272%nat → labels_ok labels →
  alloc_addr h (Z.of_nat (length (names_bytes labels))) = Some a →
  prepare_enum_names (d, 0) (Some labels) (OState c (World h k)) =
    (Ret tt, OState c (World
      (<[d := fput ei_items (Z.of_nat (length labels))
          (fput ei_names_length (Z.of_nat (length (names_bytes labels))) (fput ei_names_ptr a s))]>
        (<[a := names_bytes labels]> h)) k)).
Proof.
  intros Hd Hs (Hne & Hl & Hmax) Ea. set (names := names_bytes labels) in *.
  pose proof (labels_le_names labels) as Hll. fold names in Hll.
  assert (length labels ≠ O) as Hl0 by (by destruct labels).
  unfold prepare_enum_names.
  step (measure_names_run labels 0 0 (OState c (World h k)) Hl ltac:(lia) ltac:(lia)
    ltac:(lia) ltac:(fold names; lia)). rewrite !Z.add_0_l. fold names.
  unfold g_return_if_fail. destruct (Z.leb_spec (Z.of_nat (length names)) (64 * 1024)); [|lia].
  step (mret_run tt (OState c (World h k))).
  step (outside_mem _ c h k _ _ (g_malloc0_some h (Z.of_nat (length names)) a ltac:(lia) Ea)).
  rewrite Nat2Z.id. pose proof (alloc_fresh _ _ _ Ea) as Hf.
  assert (a ≠ d) as Had by congruence.
  set (h1 := <[a := zeros (length names)]> h).
  assert (h1 !! d = Some s) as H1 by (unfold h1; by rewrite lookup_insert_ne).
  set (s1 := fput ei_names_ptr a s).
  assert (length s1 = 272%nat) as Hs1 by (unfold s1; by rewrite length_fput by f_inside).
  step (outside_run _ c _ _ _ (set_field_block h1 k d s sizeof_elem_info ei_names_ptr a H1
    ltac:(by rewrite Hs) ltac:(by rewrite Hs))). fold s1.
  set (s2 := fput ei_names_length (Z.of_nat (length names)) s1).
  assert (length s2 = 272%nat) as Hs2 by (unfold s2; by rewrite length_fput by f_inside).
  step (outside_run _ c _ _ _ (set_field_block (<[d := s1]> h1) k d s1 sizeof_elem_info
    ei_names_length (Z.of_nat (length names)) (lookup_insert_eq _ _ _)
    ltac:(by rewrite Hs1) ltac:(by rewrite Hs1))). fold s2. rewrite insert_insert_eq.
  step (outside_mem _ c _ k _ _ (copy_names_run labels (<[d := s2]> h1) a []
    (zeros (length names)) ltac:(rewrite lookup_insert_ne by done; apply lookup_insert_eq)
    ltac:(apply length_zeros))). cbn [app]. fold names.
  apply outside_run. rewrite (set_field_block _ k d s2 sizeof_elem_info ei_items
    (Z.of_nat (length labels))); [|by rewrite lookup_insert_ne, lookup_insert_eq|
    by rewrite Hs2|by rewrite Hs2].
  unfold h1. rewrite (insert_insert_ne _ a d _ s2) by done. by rewrite !insert_insert_eq.
Qed.

Lemma check_range_run w s (st : ostate card K) : 
  0 < w → range_ok w s → check_range w s st = (Ret tt, st).
Proof.
  intros Hw (H1 & H2 & H3). unfold check_range, g_return_if_fail. cbv zeta.
  rewrite (proj2 (Z.leb_le _ _) H1). step (mret_run tt st).
  rewrite (proj2 (Z.leb_le _ _) H2), (proj2 (Z.leb_le _ _) H3).
  pose proof (sgn_wrap_range w (fget ei_max s) Hw) as [_ H4].
  destruct (Z.ltb_spec (sgn_wrap w (fget ei_min s) + sgn_wrap w (fget ei_step s)) (2 ^ (w - 1)));
    [done|lia].
Qed.

(** The names as the kernel is given them, [names] at [a] for an enumerated
    element. *)
Definition sent_names (labels : option (list (list byte))) (s : list byte) : list byte :=
  if enumerated s then names_bytes (default [] labels) else [].

(** The memory while the request is sent. *)
Definition with_names (labels : option (list (list byte))) (s : list byte) (a : Z) (h : heap) :
    heap :=
  if enumerated s then <[a := sent_names labels s]> h else h.

Lemma kind_of_type (s : list byte) :
  1 ≤ fget ei_type s ≤ 6 →
  enumerated s = true ∨
  enumerated s = false ∧ (fget ei_type s = SNDRV_CTL_ELEM_TYPE_INTEGER ∨
    fget ei_type s = SNDRV_CTL_ELEM_TYPE_INTEGER64 ∨
    (fget ei_type s =? SNDRV_CTL_ELEM_TYPE_BOOLEAN) || (fget ei_type s =? SNDRV_CTL_ELEM_TYPE_BYTES)
      || (fget ei_type s =? SNDRV_CTL_ELEM_TYPE_IEC958) = true).
Proof.
  intros H. unfold enumerated.
  assert (fget ei_type s = 1 ∨ fget ei_type s = 2 ∨ fget ei_type s = 3 ∨ fget ei_type s = 4 ∨
    fget ei_type s = 5 ∨ fget ei_type s = 6) as Hc by lia.
  destruct Hc as [->|[->|[->|[->|[->| ->]]]]];
    first [by left | right; split; [done|]; first [by left | right; first [by left | by right]]].
Qed.

(** The tests of the type. *)
Lemma check_type_run c h k s labels :
  admissible s labels →
  (if (fget ei_type s =? SNDRV_CTL_ELEM_TYPE_BOOLEAN) ||
      (fget ei_type s =? SNDRV_CTL_ELEM_TYPE_BYTES) ||
      (fget ei_type s =? SNDRV_CTL_ELEM_TYPE_IEC958) ||
      (fget ei_type s =? SNDRV_CTL_ELEM_TYPE_ENUMERATED)
   then mret tt
   else if fget ei_type s =? SNDRV_CTL_ELEM_TYPE_INTEGER then check_range 32 s
   else if fget ei_type s =? SNDRV_CTL_ELEM_TYPE_INTEGER64 then check_range 64 s
   else critical) (OState c (World h k)) = (Ret tt, OState c (World h k)).
Proof.
  intros (_ & _ & _ & Ht & H32 & H64 & _).
  destruct (kind_of_type s Ht) as [He|(He & [Hi|[Hi|Hi]])]; unfold enumerated in He.
  - by rewrite He, orb_true_r.
  - specialize (H32 Hi). rewrite Hi. by apply check_range_run.
  - specialize (H64 Hi). rewrite Hi. by apply check_range_run.
  - by rewrite Hi.
Qed.

(** What is filled in before the identifier. *)
Lemma prepare_names_run c h k d s labels a :
  admissible s labels → h !! d = Some s →
  (enumerated s = true → alloc_addr h (Z.of_nat (length (sent_names labels s))) = Some a) →
  (if enumerated s then prepare_enum_names (d, 0) labels
   else outside (set_field (d, 0) sizeof_elem_info ei_names_ptr 0)) (OState c (World h k)) =
  (Ret tt, OState c (World
    (<[d := if enumerated s then
              fput ei_items (Z.of_nat (length (default [] labels)))
                (fput ei_names_length (Z.of_nat (length (sent_names labels s)))
                  (fput ei_names_ptr a s))
            else fput ei_names_ptr 0 s]> (with_names labels s a h)) k)).
Proof.
  intros (Hs & _ & _ & _ & _ & _ & Hlab) Hd Ha. unfold with_names, sent_names in *.
  destruct (enumerated s) eqn:Ee.
  - destruct (Hlab eq_refl) as (ls & -> & Hok). cbn [default].
    by apply prepare_enum_names_run; [| | |apply Ha].
  - apply outside_run, set_field_block; [done|by rewrite Hs|by rewrite Hs].
Qed.

(** *** The structure that is sent *)

Lemma fget_behind_id f (id s : list byte) :
  length id = 64%nat → (64 ≤ f_off f)%nat → fget f (id ++ drop 64 s) = fget f s.
Proof.
  intros Hl Hf. assert (sub (f_off f) (f_width f) (id ++ drop 64 s) = sub (f_off f) (f_width f) s)
    as E.
  { unfold sub. f_equal. rewrite drop_app_ge, Hl, drop_drop by lia. f_equal. lia. }
  unfold fget, le_s, le_u. by rewrite E.
Qed.

Lemma sent_struct_spec labels a n id s :
  length s = 272%nat → length id = 64%nat →
  (enumerated s = true → 0 ≤ a < 2 ^ 64 ∧ Z.of_nat (length (names_bytes labels)) ≤ 65536) →
  let s1 := sent_struct labels a n id s in
  length s1 = 272%nat ∧ enumerated s1 = enumerated s ∧
  (enumerated s = true → fget ei_names_ptr s1 = a ∧
     fget ei_names_length s1 = Z.of_nat (length (names_bytes labels)) ∧
     fget ei_items s1 = Z.of_nat (length labels)) ∧
  (0 ≤ n < 2 ^ 31 → fget ei_owner s1 = n).
Proof.
  intros Hs Hid Hn s1. unfold s1, sent_struct.
  assert (∀ s' : list byte, length s' = 272%nat → length (id ++ drop 64 s') = 272%nat) as Happ
    by (intros s' H; rewrite length_app, length_drop, Hid, H; done).
  destruct (enumerated s) eqn:Ee; cbv zeta.
  - destruct (Hn eq_refl) as [Ha Hmax]. pose proof (labels_le_names labels) as Hll.
    set (s2 := fput ei_items _ _).
    assert (length s2 = 272%nat) as H2 by (unfold s2; by rewrite !length_fput by f_inside).
    specialize (Happ s2 H2). split_and!.
    + by rewrite length_fput by f_inside.
    + unfold enumerated. fields. rewrite fget_behind_id by (done || cbn; lia).
      unfold s2. fields. exact Ee.
    + intros _. fields. rewrite !fget_behind_id by (done || cbn; lia). unfold s2. by fields.
    + intros Hown. by fields.
  - set (s2 := fput ei_names_ptr _ _).
    assert (length s2 = 272%nat) as H2 by (unfold s2; by rewrite !length_fput by f_inside).
    specialize (Happ s2 H2). split_and!; [by rewrite length_fput by f_inside| |done|].
    + unfold enumerated. fields. rewrite fget_behind_id by (done || cbn; lia).
      unfold s2. fields. exact Ee.
    + intros Hown. by fields.
Qed.

(** *** The request *)

Lemma ioctl_elem_add_run fd req h k d s1 names a r s' k' :
  h !! d = Some s1 → length s1 = 272%nat →
  (enumerated s1 = true → h !! a = Some names ∧ fget ei_names_ptr s1 = a ∧
    fget ei_names_length s1 = Z.of_nat (length names)) →
  (enumerated s1 = false → names = []) →
  sys_elem_add fd req s1 names k = (r, s', k') →
  ioctl_elem_add fd req (d, 0) (World h k) = (Ret r, World (<[d := s']> h) k').
Proof.
  intros Hd Hs He Hne E. unfold ioctl_elem_add.
  step (mem_Ret _ h k _ _ (load_at h (d, 0) s1 sizeof_elem_info (at_ptr_block _ _ _ Hd)
    ltac:(by rewrite Hs))).
  assert ((if fget ei_type s1 =? SNDRV_CTL_ELEM_TYPE_ENUMERATED
           then load (fget ei_names_ptr s1, 0) (fget ei_names_length s1) else mret []) h =
    (Ret names, h)) as El.
  { fold (enumerated s1). destruct (enumerated s1).
    - destruct (He eq_refl) as (Ha & -> & ->). by apply load_at; [apply at_ptr_block|].
    - by rewrite Hne. }
  step (mem_Ret _ h k _ _ El).
  rewrite (bind_Ret _ _ _ (r, s') (World h k')) by (apply sys_run; by rewrite E).
  pose proof (elem_add_length fd req s1 names k) as Hl. rewrite E in Hl. cbn [fst snd] in Hl.
  rewrite (bind_Ret _ _ _ tt (World (<[d := s']> h) k')); [done|].
  apply mem_Ret, (store_block h d s1); [done..|]. intros ->. simpl in Hl. lia.
Qed.

(** The names are released. *)
Lemma release_names_run c h k d s1 s' names a :
  h !! d = Some s1 → length s' = 272%nat → a ≠ d → 0 < a →
  h !! a = None → fget ei_names_ptr s' = a →
  (names_ptr ← outside (get_field (d, 0) sizeof_elem_info ei_names_ptr);
   outside (mem (g_free names_ptr));;
   outside (set_field (d, 0) sizeof_elem_info ei_names_ptr 0))
    (OState c (World (<[d := s']> (<[a := names]> h)) k)) =
  (Ret tt, OState c (World (<[d := fput ei_names_ptr 0 s']> h) k)).
Proof.
  intros Hd Hs Hne Hp Ha Hptr. set (h1 := <[d := s']> (<[a := names]> h)).
  assert (h1 !! d = Some s') as H1 by apply lookup_insert_eq.
  step (outside_run _ c _ _ _ (get_field_run h1 k (d, 0) s' sizeof_elem_info ei_names_ptr
    (at_ptr_block _ _ _ H1) ltac:(by rewrite Hs))). rewrite Hptr.
  assert (h1 !! a = Some names) as Hna
    by (unfold h1; rewrite lookup_insert_ne by done; apply lookup_insert_eq).
  step (outside_mem _ c h1 k _ _ (g_free_block h1 a names Hp Hna)).
  assert (delete a h1 = <[d := s']> h) as ->.
  { unfold h1. rewrite delete_insert_ne by done. by rewrite delete_insert_id. }
  rewrite (outside_run _ c _ _ _ (set_field_block (<[d := s']> h) k d s' sizeof_elem_info
    ei_names_ptr 0 (lookup_insert_eq _ _ _) ltac:(by rewrite Hs) ltac:(by rewrite Hs))).
  by rewrite insert_insert_eq.
Qed.
End facts.

Section props.
Context {AL : Allocator} {ALW : AllocatorLaws} {GL : GLib} {K : Type} {KERN : Kernel K}.
Context {CK : CtlKernel K} {CKL : CtlKernelLaws K}.
Implicit Types (h : heap) (k : K) (c : card).

(** [data->id = *elem_id], which does not disturb the names. *)
Lemma copy_id_run h p (id : list byte) d s labels a s0 :
  at_ptr h p id → length id = 64%nat → p.1 ≠ d → length s0 = 272%nat →
  (enumerated s = true → a ≠ p.1) →
  let h0 := <[d := s0]> (with_names labels s a h) in
  memcpy (d, 0) p sizeof_elem_id h0 =
    (Ret tt, <[d := id ++ drop 64 s0]> (with_names labels s a h)).
Proof.
  intros Hp Hid Hne Hs Ha h0. unfold memcpy.
  assert (at_ptr h0 p id) as Hp0.
  { apply at_ptr_insert; [congruence|]. unfold with_names. destruct (enumerated s); [|done].
    apply at_ptr_insert; [by apply Ha|done]. }
  step (load_at h0 p id sizeof_elem_id Hp0 ltac:(by rewrite Hid)).
  rewrite (store_prefix h0 d s0 id); [|apply lookup_insert_eq|lia].
  unfold h0. by rewrite insert_insert_eq, Hid.
Qed.

(** Everything up to the answer of the kernel. *)
Lemma add_or_replace_run (replace : bool) c h k p id d s labels entries (n : Z) a r s' k' :
  admissible s labels → h !! d = Some s → at_ptr h p id → length id = 64%nat → p.1 ≠ d →
  (enumerated s = true → alloc_addr h (Z.of_nat (length (sent_names labels s))) = Some a ∧
                         fget ei_names_ptr s' = a) →
  sys_elem_add (ca_fd c) (add_request replace)
    (sent_struct (default [] labels) a n id s) (sent_names labels s) k = (r, s', k') →
  let final := if enumerated s then fput ei_names_ptr 0 s' else s' in
  let h' := <[d := final]> h in
  length s' = 272%nat ∧
  add_or_replace_elems (ca_fd c) p n (ElemInfo (d, 0) labels) replace entries
    (OState c (World h k)) =
  match r with
  | Serr e => (Fail (coded_error (add_code replace e) e (add_label replace)),
               OState c (World h' k'))
  | Sret _ => outside (copy_next_ids (Z.to_nat n) (take 64 final) entries) (OState c (World h' k'))
  end.
Proof.
  intros Hadm Hd Hp Hid Hpd Hen E final h'.
  pose proof Hadm as (Hs & Hacc & Hcnt & Hty & _ & _ & Hlab).
  set (s1 := sent_struct (default [] labels) a n id s) in *.
  set (names := sent_names labels s) in *.
  assert (enumerated s = true → h !! a = None ∧ 0 < a < 2 ^ 64 ∧ a ≠ d ∧ a ≠ p.1) as Hfresh.
  { intros He. destruct (Hen He) as [Ea _]. pose proof (alloc_fresh _ _ _ Ea) as Hf.
    pose proof (alloc_nonnull _ _ _ Ea) as [? ?]. split_and!; [done..|congruence|].
    intros ->. destruct Hp as (? & ? & Hx & _). congruence. }
  destruct (sent_struct_spec (default [] labels) a n id s Hs Hid) as (Hs1 & He1 & Hf1).
  { intros He. destruct (Hfresh He) as (_ & ? & _). destruct (Hlab He) as (ls & -> & _ & _ & ?).
    split; [lia|done]. }
  destruct Hf1 as [Hf1 _]. fold s1 in Hs1, He1, Hf1.
  pose proof (elem_add_length (ca_fd c) (add_request replace) s1 names k) as Hs'.
  rewrite E, Hs1 in Hs'. cbn [fst snd] in Hs'.
  split; [done|]. unfold add_or_replace_elems. cbn [ei_data ei_labels].
  step (outside_mem _ c h k _ _ (load_at h (d, 0) s sizeof_elem_info (at_ptr_block _ _ _ Hd)
    ltac:(by rewrite Hs))). cbv zeta.
  step (check_type_run c h k s labels Hadm).
  rewrite (proj2 (Z.ltb_lt _ _) Hacc), (proj2 (Z.ltb_lt _ _) Hcnt).
  step (mret_run tt (OState c (World h k))). step (mret_run tt (OState c (World h k))).
  fold (enumerated s).
  step (prepare_names_run c h k d s labels a Hadm Hd (λ He, proj1 (Hen He))).
  set (s0 := if enumerated s then fput ei_items _ _ else fput ei_names_ptr 0 s).
  assert (length s0 = 272%nat) as Hs0
    by (unfold s0; destruct (enumerated s); by rewrite !length_fput by f_inside).
  step (outside_mem _ c _ k _ _ (copy_id_run h p id d s labels a s0 Hp Hid Hpd Hs0
    (λ He, proj2 (proj2 (proj2 (Hfresh He)))))).
  set (hN := with_names labels s a h). set (s2 := id ++ drop 64 s0).
  assert (length s2 = 272%nat) as Hs2 by (unfold s2; by rewrite length_app, length_drop, Hid, Hs0).
  step (outside_run _ c _ _ _ (set_field_block (<[d := s2]> hN) k d s2 sizeof_elem_info ei_owner n
    (lookup_insert_eq _ _ _) ltac:(by rewrite Hs2) ltac:(by rewrite Hs2))).
  rewrite insert_insert_eq. assert (fput ei_owner n s2 = s1) as ->
    by (unfold s1, s2, s0, names, sent_names, sent_struct; by destruct (enumerated s)).
  change (if replace then CTL_ELEM_REPLACE else CTL_ELEM_ADD) with (add_request replace).
  assert (ioctl_elem_add (ca_fd c) (add_request replace) (d, 0) (World (<[d := s1]> hN) k) =
    (Ret r, World (<[d := s']> hN) k')) as Eio.
  { rewrite (ioctl_elem_add_run (ca_fd c) _ _ k d s1 names a r s' k' (lookup_insert_eq hN d s1) Hs1);
      [by rewrite insert_insert_eq| | |exact E].
    - rewrite He1. intros He. destruct (Hfresh He) as (_ & _ & Had & _).
      destruct (Hf1 He) as (-> & -> & _). unfold hN, with_names, names, sent_names. rewrite He.
      split_and!; [|done..]. by rewrite lookup_insert_ne, lookup_insert_eq.
    - rewrite He1. intros He. unfold names, sent_names. by rewrite He. }
  step (outside_run _ c _ _ _ Eio).
  rewrite (bind_Ret _ _ _ tt (OState c (World h' k'))).
  2:{ unfold h', final, hN, with_names. destruct (enumerated s); [|done].
      destruct (Hfresh eq_refl) as (Hf & Hp0 & Had & _). destruct (Hen eq_refl) as [_ Hptr].
      apply (release_names_run c h k' d s); done || lia. }
  destruct r as [u|e].
  - assert (length final = 272%nat) as Hlf
      by (unfold final; destruct (enumerated s); [by rewrite length_fput by f_inside|done]).
    assert (at_ptr h' (d, 0) (take 64 final)) as Hat.
    { apply (at_ptr_app_l _ _ _ (drop 64 final)), at_ptr_block. rewrite take_drop.
      apply lookup_insert_eq. }
    by step (outside_mem _ c h' k' _ _ (load_at h' (d, 0) _ sizeof_elem_id Hat
      ltac:(by rewrite length_take, Hlf))).
  - unfold fail. f_equal. f_equal. unfold card_error, add_code, coded_error.
    destruct replace; cbn [add_label assoc_Z app not_found disconnected];
      errno_cases.
Qed.

(** Elements that are added: their identifiers count up from the first one. *)
Lemma added_elems_run (replace : bool) c h k p id d s labels entries (n : nat) a s' k' :
  admissible s labels → h !! d = Some s → at_ptr h p id → length id = 64%nat → p.1 ≠ d →
  (enumerated s = true → alloc_addr h (Z.of_nat (length (sent_names labels s))) = Some a ∧
                         fget ei_names_ptr s' = a) →
  sys_elem_add (ca_fd c) (add_request replace)
    (sent_struct (default [] labels) a (Z.of_nat n) id s) (sent_names labels s) k =
    (Sret tt, s', k') →
  let final := if enumerated s then fput ei_names_ptr 0 s' else s' in
  let h' := <[d := final]> h in
  let ids := id_sequence n (take 64 final) in
  let run := add_or_replace_elems (ca_fd c) p (Z.of_nat n) (ElemInfo (d, 0) labels) replace entries
               (OState c (World h k)) in
  (∃ boxes, run = (Ret (entries ++ map box boxes), OState c (World (boxed boxes ids h') k')) ∧
     new_boxes h' boxes ids) ∨
  (∃ st, run = (Oom, st)).
Proof.
  intros Hadm Hd Hp Hid Hpd Hen E final h' ids run.
  destruct (add_or_replace_run replace c h k p id d s labels entries _ a _ s' k' Hadm Hd Hp Hid
    Hpd Hen E) as [Hs' Hrun]. cbv zeta in Hrun. unfold run. rewrite Hrun. fold final h'.
  rewrite Nat2Z.id.
  assert (length final = 272%nat) as Hlf
    by (unfold final; destruct (enumerated s); [by rewrite length_fput by f_inside|done]).
  assert (length (take 64 final) = 64%nat) as Hl by (rewrite length_take; lia).
  destruct (copy_next_ids_run n h' k' (take 64 final) entries Hl)
    as [(boxes & E2 & Hnew)|(w & E2)].
  - left. exists boxes. split; [by apply outside_run|done].
  - right. exists (OState c w). by apply outside_run.
Qed.

(** The methods are the common function for at least one element. *)
Lemma add_method_run (replace : bool) p (n : nat) info entries c w :
  (0 < n)%nat →
  (if replace then alsactl_card_replace_elems else alsactl_card_add_elems) (p : ptr) (Z.of_nat n)
    info entries (OState c w) =
  add_or_replace_elems (ca_fd c) p (Z.of_nat n) info replace entries (OState c w).
Proof.
  intros Hn. unfold alsactl_card_replace_elems, alsactl_card_add_elems, g_return_if_fail.
  assert ((0 <? Z.of_nat n) = true) as Hn0 by (apply Z.ltb_lt; lia).
  destruct replace; by rewrite bind_private, Hn0.
Qed.

(** C20: elements are added, or replaced, by one request with the information
    object, in which only the identifier, the number of elements and, for
    enumerated elements, the names are filled in.  On success the identifiers of
    all [n] elements are added to the list, counting up from the one the kernel
    assigned; a refusal is reported with its meaning.  In both cases the memory
    taken for the names is released and the object no longer points to it. *)
Theorem add_elems_spec (replace : bool) c h k p id d s labels entries (n : nat) a r s' k' :
  admissible s labels → h !! d = Some s → at_ptr h p id → length id = 64%nat → p.1 ≠ d →
  (0 < n)%nat →
  (enumerated s = true → alloc_addr h (Z.of_nat (length (sent_names labels s))) = Some a ∧
                         fget ei_names_ptr s' = a) →
  sys_elem_add (ca_fd c) (add_request replace)
    (sent_struct (default [] labels) a (Z.of_nat n) id s) (sent_names labels s) k = (r, s', k') →
  let final := if enumerated s then fput ei_names_ptr 0 s' else s' in
  let h' := <[d := final]> h in
  let call := if replace then alsactl_card_replace_elems else alsactl_card_add_elems in
  let run := call (p : ptr) (Z.of_nat n) (ElemInfo (d, 0) labels) entries (OState c (World h k)) in
  match r with
  | Serr e => run = (Fail (coded_error (add_code replace e) e (add_label replace)),
                     OState c (World h' k'))
  | Sret _ =>
      let ids := id_sequence n (take 64 final) in
      (∃ boxes, run = (Ret (entries ++ map box boxes), OState c (World (boxed boxes ids h') k')) ∧
         new_boxes h' boxes ids) ∨
      (∃ st, run = (Oom, st))
  end.
Proof.
  intros Hadm Hd Hp Hid Hpd Hn Hen E final h' call run. unfold run, call.
  rewrite add_method_run by done. destruct r as [[]|e].
  - by eapply added_elems_run.
  - by destruct (add_or_replace_run replace c h k p id d s labels entries _ a _ s' k' Hadm Hd Hp Hid
      Hpd Hen E) as [_ ->].
Qed.
End props.

(** ** A concrete run *)

Module AddWitness.
Import Sample SampleCard.
#[local] Existing Instance Bump.allocator.
#[local] Existing Instance Bump.laws.

(** An enumerated element with the labels "On" and "Off". *)
Definition labels : list (list byte) := [bytes_of_string "On"; bytes_of_string "Off"].
Definition info : list byte :=
  fput ei_count 1 (fput ei_access 3 (fput ei_type SNDRV_CTL_ELEM_TYPE_ENUMERATED
    (zeroed sizeof_elem_info))).
Definition memory : heap := {[64 := ident 0; 256 := info]}.

(** What the kernel answers. *)
Definition answered : list byte :=
  fput id_numid 7 (sent_struct labels 4128 2 (ident 0) info).

Lemma add_elems_spec_witness :
  ∃ boxes st, alsactl_card_add_elems (64, 0) 2 (ElemInfo (256, 0) (Some labels)) []
    (OState opened (World memory [])) = (Ret (map box boxes), st) ∧
    st = OState opened (World (boxed boxes (id_sequence 2 (take 64 answered))
           (<[256 := fput ei_names_ptr 0 answered]> memory)) []).
Proof.
  destruct (add_elems_spec false opened memory [] (64, 0) (ident 0) 256 info (Some labels) [] 2
    4128 (Sret tt) answered []) as [(boxes & E & _)|(st & E)].
  - split_and!; try by vm_compute.
    intros _. exists labels. split; [done|]. split_and!; [done|by repeat constructor|by vm_compute].
  - by vm_compute.
  - apply at_ptr_block. by vm_compute.
  - by vm_compute.
  - done.
  - by apply Nat.ltb_lt.
  - intros _. split; by vm_compute.
  - by vm_compute.
  - exact (ex_intro _ boxes (ex_intro _ _ (conj E eq_refl))).
  - by vm_compute in E.
Defined.
End AddWitness.
