(* ===== verification/CtlCardProps.v ===== *)
(** * Properties of the card *)
From S2P Require Import Prelude Heap SeqUapi Struct Kernel Sysfs Object.
From S2P Require Import Boxes CtlStructs CtlElemId CtlQuery CtlCard CtlCardFacts SampleSystem SampleCard.

Section identifiers.
Context {AL : Allocator} {ALW : AllocatorLaws}.
Implicit Types (h : heap).

(** An identifier made by a name has no number. *)
Lemma elem_id_of_name_spec iface d sd name i s :
  length s = 64%nat →
  length (elem_id_of_name iface d sd name i s) = 64%nat ∧
  fget id_numid (elem_id_of_name iface d sd name i s) = fget id_numid s.
Proof.
  intros Hl. unfold elem_id_of_name. cbv zeta.
  set (s1 := fput id_subdevice sd (fput id_device d (fput id_iface iface s))).
  assert (length s1 = 64%nat) as H1 by (unfold s1; by rewrite !length_fput by f_inside).
  assert (length (sub id_name 44 s1) = 44%nat) as H2
    by (apply length_sub; rewrite H1; unfold id_name; lia).
  assert (length (g_strlcpy name (sub id_name 44 s1)) = 44%nat) as H3
    by (rewrite length_g_strlcpy; [done|by intros E; rewrite E in H2]).
  assert (length (put_bytes id_name (g_strlcpy name (sub id_name 44 s1)) s1) = 64%nat) as H4
    by (rewrite length_put_bytes, H1; [done|rewrite H3, H1; unfold id_name; lia]).
  split; [rewrite length_fput; [done|by rewrite H4]|].
  rewrite fget_fput_other by first [reflexivity | by rewrite H4].
  transitivity (fget id_numid s1); [|unfold s1; by fields].
  unfold fget, le_u. cbn [f_signed id_numid u32f f_off f_width].
  rewrite sub_put_other; [done|rewrite H3, H1; unfold id_name; lia|left; unfold id_name; lia].
Qed.

Lemma new_by_name_run iface d sd name i h p h' :
  alsactl_elem_id_new_by_name iface d sd name i h = (Ret p, h') →
  ∃ a, p = (a, 0) ∧ h !! a = None ∧ h' = <[a := elem_id_of_name iface d sd name i (zeros 64)]> h.
Proof.
  unfold alsactl_elem_id_new_by_name. destruct (negb _); [|done].
  unfold g_return_if_fail. rewrite (bind_Ret _ _ _ _ _ (mret_run tt h)).
  destruct (alloc_addr h sizeof_elem_id) as [a|] eqn:Ea.
  2:{ unfold mbind, M_bind, g_malloc0. by rewrite Ea. }
  step (g_malloc0_some h sizeof_elem_id a ltac:(done) Ea).
  set (h1 := <[a := zeros (Z.to_nat sizeof_elem_id)]> h).
  assert (h1 !! a = Some (zeros 64)) as H1 by apply lookup_insert_eq.
  step (load_at h1 (a, 0) (zeros 64) sizeof_elem_id (at_ptr_block _ _ _ H1) ltac:(done)).
  destruct (elem_id_of_name_spec iface d sd name i (zeros 64) ltac:(done)) as [Hl _].
  step (store_block h1 a (zeros 64) (elem_id_of_name iface d sd name i (zeros 64)) H1
    (eq_sym Hl) ltac:(by intros E; rewrite E in Hl)).
  rewrite mret_run. intros [= <- <-]. exists a. split; [done|].
  split; [by eapply alloc_fresh|]. unfold h1. by rewrite insert_insert_eq.
Qed.

(** Two identifiers made by names are always equal for the library, whatever
    interfaces, devices, names and indices they have: neither has a number, and
    equal numbers are enough. *)
Theorem elem_id_by_name_always_equal i1 d1 s1 n1 x1 i2 d2 s2 n2 x2 h p q h1 h2 :
  alsactl_elem_id_new_by_name i1 d1 s1 n1 x1 h = (Ret p, h1) →
  alsactl_elem_id_new_by_name i2 d2 s2 n2 x2 h1 = (Ret q, h2) →
  alsactl_elem_id_equal p q h2 = (Ret true, h2).
Proof.
  intros E1 E2. destruct (new_by_name_run _ _ _ _ _ _ _ _ E1) as (a & -> & Ha & ->).
  destruct (new_by_name_run _ _ _ _ _ _ _ _ E2) as (b & -> & Hb & ->).
  assert (b ≠ a) as Hne by (intros ->; by rewrite lookup_insert_eq in Hb).
  set (x := elem_id_of_name i1 d1 s1 n1 x1 (zeros 64)).
  set (y := elem_id_of_name i2 d2 s2 n2 x2 (zeros 64)).
  destruct (elem_id_of_name_spec i1 d1 s1 n1 x1 (zeros 64) ltac:(done)) as [Lx Nx].
  destruct (elem_id_of_name_spec i2 d2 s2 n2 x2 (zeros 64) ltac:(done)) as [Ly Ny]. fold x in Lx, Nx. fold y in Ly, Ny.
  assert (sizeof_elem_id = Z.of_nat (length x)) as Hx by by rewrite Lx.
  assert (sizeof_elem_id = Z.of_nat (length y)) as Hy by by rewrite Ly.
  unfold alsactl_elem_id_equal.
  step (load_at _ (a, 0) x _ (at_ptr_insert _ (a, 0) x b y Hne
    (at_ptr_block _ _ _ (lookup_insert_eq h a x))) Hx).
  step (load_at _ (b, 0) y _ (at_ptr_block _ _ _ (lookup_insert_eq (<[a := x]> h) b y)) Hy).
  rewrite mret_run. unfold elem_id_equal. rewrite Nx, Ny. by rewrite Z.eqb_refl.
Qed.
End identifiers.

Section list.
Context {AL : Allocator} {ALW : AllocatorLaws} {GL : GLib} {K : Type} {KERN : Kernel K}.
Context {CK : CtlKernel K}.
Implicit Types (h : heap) (k : K).

(** C10: the list of elements is complete: on a device with the elements [ids]
    the call adds boxed copies of exactly their identifiers, in the order of
    the device, however many rounds of a thousand it takes; it has released
    everything else it allocated and changed no other memory. *)
Theorem elem_id_list_complete `{!CardElems K} `{!CardElemsLaws K} c h k ids entries :
  card_elems (ca_fd c) ids k →
  (∃ boxes k',
    alsactl_card_get_elem_id_list entries (OState c (World h k)) =
      (Ret (entries ++ map box boxes), OState c (World (boxed boxes ids h) k')) ∧
    new_boxes h boxes ids ∧ card_elems (ca_fd c) ids k') ∨
  (∃ s, alsactl_card_get_elem_id_list entries (OState c (World h k)) = (Oom, s)).
Proof.
  intros Hst. pose proof (elems_ids _ _ k Hst) as H64.
  unfold alsactl_card_get_elem_id_list. rewrite bind_private.
  destruct (allocate_elem_ids_run (ca_fd c) ids h k Hst) as
    [(l & k1 & E & -> & Hc & Hst1)|[(l & a & k1 & E & Ha & Hpos & Hc & Hst1)|(w & E)]].
  - left. exists [], k1. rewrite boxed_nil. split_and!; [|apply new_boxes_nil|done].
    apply outside_run. step E. rewrite Hc. by rewrite app_nil_r.
  - destruct (copy_elem_ids_run ids (<[a := concat ids]> h) k1 a [] 0 entries H64)
      as [(boxes & E2 & Hnew)|(w & E2)]; [by rewrite lookup_insert_eq|done| |].
    + left. destruct (boxed_delete h a (concat ids) boxes ids Ha Hnew) as [Hd Hnew'].
      exists boxes, k1. split; [|done]. apply outside_run. step E. rewrite Hc, Nat2Z.id. step E2.
      unfold deallocate_elem_ids. destruct (Z.eqb_spec a 0); [lia|]. cbn [negb].
      rewrite (bind_Ret _ _ _ tt (World (boxed boxes ids h) k1)); [done|].
      apply mem_Ret. rewrite <- Hd. apply (g_free_block _ _ (concat ids)); [done|].
      unfold boxed. rewrite lookup_union_r; [apply lookup_insert_eq|]. apply zip_lookup_none.
      intros Hin. destruct Hnew as (_ & _ & Hf). rewrite Forall_forall in Hf.
      destruct (Hf a Hin) as [E0 _]. by rewrite lookup_insert_eq in E0.
    + right. exists (OState c w). apply outside_run. step E. rewrite Hc, Nat2Z.id.
      unfold mbind, M_bind. by rewrite E2.
  - right. exists (OState c w). apply outside_run. unfold mbind, M_bind. by rewrite E.
Qed.

(** The list of elements is not safe against a device that gains elements:
    the block for the identifiers has the number of elements of the first
    answer, the loop goes on to the number of the latest one.  When there are
    more elements after the first [n] were read, the identifiers the device
    gives next are written behind the block. *)
Theorem elem_added_meanwhile_overflows c h k entries l1 k1 a l2 ids2 k2 l3 ids3 k3 n h2 :
  let fd := ca_fd c in
  n = fget el_count l1 → 0 < n ≤ 1000 → length l1 = 80%nat →
  sys_elem_list fd (fput el_pids 0 (zeroed sizeof_elem_list)) k = (Sret tt, l1, [], k1) →
  alloc_addr h (n * sizeof_elem_id) = Some a →
  let block := alloc_junk h (Z.to_nat (n * sizeof_elem_id)) in
  sys_elem_list fd (fput el_pids a (fput el_space n (fput el_offset 0 l1))) k1 =
    (Sret tt, l2, ids2, k2) →
  length ids2 = Z.to_nat n → Forall (λ id, length id = 64%nat) ids2 →
  h2 = <[a := concat ids2]> h →
  length l2 = 80%nat → fget el_offset l2 = 0 → fget el_space l2 = n → n < fget el_count l2 →
  let space := Z.min (fget el_count l2 - n) 1000 in
  sys_elem_list fd
    (fput el_pids (a + n * sizeof_elem_id) (fput el_space space (fput el_offset n l2))) k2 =
    (Sret tt, l3, ids3, k3) →
  concat ids3 ≠ [] →
  alsactl_card_get_elem_id_list entries (OState c (World h k)) = (UB, OState c (World h2 k3)).
Proof.
  intros fd Hn Hn1 Hl1 E1 Ea block E2 Hl2 H64 Hh Hls2 Ho2 Hs2 Hc2 space E3 Hne.
  assert (n * sizeof_elem_id ≠ 0) as Hn0 by (unfold sizeof_elem_id; lia).
  assert (length (concat ids2) = Z.to_nat (n * sizeof_elem_id)) as Hlc
    by (rewrite length_concat_64 by done; unfold sizeof_elem_id; lia).
  pose proof (fget_range el_count l2 ltac:(by rewrite Hls2)) as Hr2.
  change (0 ≤ fget el_count l2 < 2 ^ 32) in Hr2.
  unfold alsactl_card_get_elem_id_list. rewrite bind_private. apply outside_run.
  rewrite (bind_UB _ _ _ (World h2 k3)); [done|]. unfold allocate_elem_ids.
  step (ioctl_elem_list_run fd (zeroed sizeof_elem_list) (0, 0) h k _ _ [] _ h E1 eq_refl).
  cbv zeta. rewrite <- Hn. destruct (Z.eqb_spec n 0); [lia|].
  step (mem_Ret _ h k1 _ _ (g_malloc_some h _ a Hn0 Ea)). fold block.
  rewrite (bind_UB _ _ _ (World h2 k3)); [done|].
  destruct (Z.to_nat n) as [|m] eqn:Em; [lia|]. cbn [read_elem_ids].
  set (lo := fput el_offset 0 l1).
  assert (fget el_offset lo = 0) as Ho1 by (unfold lo; by fields).
  assert (fget el_count lo = n) as Hc1 by (unfold lo; by fields).
  rewrite Hc1, Ho1. destruct (Z.ltb_spec 0 n); [|lia].
  rewrite (fget_fput_other el_space el_offset), Ho1
    by first [reflexivity | unfold lo; f_inside].
  replace (Z.min (n - 0) 1000) with n by lia.
  step (ioctl_elem_list_run fd (fput el_space n lo) (a, 0 * sizeof_elem_id)
    (<[a := block]> h) k1 (Sret tt) l2 ids2 k2 h2
    ltac:(unfold p_addr; cbn [fst snd]; rewrite Z.mul_0_l, Z.add_0_r; exact E2)
    ltac:(rewrite Hh; etrans; [apply (store_block _ a block);
            [apply lookup_insert_eq|unfold block; by rewrite alloc_junk_length
            |intros E; rewrite E in Hlc; simpl in Hlc; unfold sizeof_elem_id in *; lia]
          |by rewrite insert_insert_eq])).
  rewrite Ho2, Hs2, Z.add_0_l.
  set (l2' := fput el_offset n l2).
  assert (fget el_offset l2' = n) as Ho3 by (unfold l2'; by fields).
  assert (fget el_count l2' = fget el_count l2) as Hc3 by (unfold l2'; by fields).
  rewrite Ho3, Hc3. destruct (Z.ltb_spec n (fget el_count l2)); [|lia].
  rewrite (fget_fput_other el_space el_offset), Ho3
    by first [reflexivity | unfold l2'; f_inside].
  rewrite (bind_UB _ _ _ (World h2 k3)); [done|].
  apply (ioctl_elem_list_out fd _ (a, n * sizeof_elem_id) h2 k2 (Sret tt) l3 ids3 k3 (concat ids2)).
  - exact E3.
  - rewrite Hh. apply lookup_insert_eq.
  - rewrite Hlc. unfold sizeof_elem_id. cbn [snd]. lia.
  - done.
Qed.
End list.

(** ** Events *)

(** The notices in the events of a device: the identifier and the mask of
    every event of an element. *)
Definition notice (ev : list byte) : option (list byte * Z) :=
  if fget ev_type ev =? SNDRV_CTL_EVENT_ELEM
  then Some (sub ev_id 64 ev,
             if fget ev_mask ev =? SNDRV_CTL_EVENT_MASK_REMOVE
             then ALSACTL_ELEM_EVENT_MASK_REMOVE else fget ev_mask ev)
  else None.

Section events.
Context {AL : Allocator} {GL : GLib} {K : Type} {KERN : Kernel K} {KL : KernelLaws K}.
Context (handle_elem_event : list byte → Z → M (ostate card K) unit).
Context (handle_disconnection : M (ostate card K) unit).
Implicit Types (h : heap) (k : K) (s : ostate card K).

(** The handlers run once for each notice, in order. *)
Fixpoint deliver (notices : list (list byte * Z)) : M (ostate card K) unit :=
  match notices with
  | [] => mret tt
  | (id, mask) :: notices => handle_elem_event id mask;; deliver notices
  end.

(** The handlers do not touch the block at [a]. *)
Definition handlers_keep (a : Z) : Prop :=
  ∀ id mask s s', handle_elem_event id mask s = (Ret tt, s') →
    w_heap (os_world s') !! a = w_heap (os_world s) !! a.

Lemma handle_events_run evs : ∀ (n : nat) a pre rest tail s,
  handlers_keep a → w_heap (os_world s) !! a = Some (pre ++ concat evs ++ rest ++ tail) →
  Forall (λ ev, length ev = 72%nat) evs → (length rest < 72)%nat → (length evs ≤ n)%nat →
  handle_events handle_elem_event n (a, Z.of_nat (length pre))
    (Z.of_nat (length (concat evs ++ rest))) s = deliver (omap notice evs) s.
Proof.
  induction evs as [|ev evs IH]; intros n a pre rest tail s Hk Ha Hevs Hr Hn.
  { destruct n; cbn [handle_events concat app omap list_omap deliver];
      (destruct (Z.ltb_spec (Z.of_nat (length rest)) sizeof_ctl_event);
       [done|unfold sizeof_ctl_event in *; lia]). }
  inversion Hevs as [|? ? Hev Hevs']; subst. destruct n as [|n]; [simpl in Hn; lia|].
  cbn [handle_events concat]. rewrite <- app_assoc, length_app, Hev.
  destruct (Z.ltb_spec (Z.of_nat (72 + length (concat evs ++ rest))) sizeof_ctl_event);
    [unfold sizeof_ctl_event in *; lia|].
  destruct s as [c [h k]]. cbn [w_heap os_world] in Ha.
  assert (at_ptr h (a, Z.of_nat (length pre)) ev) as Hat.
  { exists pre, (concat evs ++ rest ++ tail). split; [|done]. etrans; [exact Ha|].
    cbn [concat]. by rewrite <- !app_assoc. }
  step (outside_mem _ c h k _ _ (load_at h _ ev sizeof_ctl_event Hat ltac:(by rewrite Hev))).
  replace (Z.of_nat (72 + length (concat evs ++ rest)) - sizeof_ctl_event)
    with (Z.of_nat (length (concat evs ++ rest))) by (unfold sizeof_ctl_event; lia).
  replace (p_add (a, Z.of_nat (length pre)) sizeof_ctl_event)
    with (a, Z.of_nat (length (pre ++ ev)))
    by (rewrite length_app, Hev; unfold p_add, sizeof_ctl_event; cbn; f_equal; lia).
  cbn [omap list_omap]. unfold notice at 1, emit_elem_event. rewrite if_negb.
  assert (∀ s', w_heap (os_world s') !! a = h !! a →
    handle_events handle_elem_event n (a, Z.of_nat (length (pre ++ ev)))
      (Z.of_nat (length (concat evs ++ rest))) s' = deliver (omap notice evs) s') as Hrec.
  { intros s' Es. apply (IH n a (pre ++ ev) rest tail s'); [done| |done|done|simpl in Hn; lia].
    rewrite Es, Ha. cbn [concat]. by rewrite <- !app_assoc. }
  destruct (fget ev_type ev =? SNDRV_CTL_EVENT_ELEM).
  - cbn [deliver]. unfold mbind, M_bind.
    destruct (handle_elem_event _ _ _) as [[[]|?| | |] s'] eqn:E; [|done..].
    apply Hrec. by rewrite (Hk _ _ _ _ E).
  - rewrite (bind_Ret _ _ _ _ _ (mret_run tt _)). by apply Hrec.
Qed.

(** C25: the source of the card hands each event of an element it reads to the
    handlers, once, in order, with the mask the interface documents, and
    ignores other events and a truncated rest; it stays when there is nothing
    to read yet and is removed on any other error, for a closed card, and,
    after the notice, when the card is disconnected. *)
Theorem card_dispatch_spec c h k src condition old r k' :
  let run := ctl_card_dispatch_src handle_elem_event handle_disconnection src condition
               (OState c (World h k)) in
  h !! cs_buf src = Some old → Z.of_nat (length old) = cs_buf_len src →
  sys_read (ca_fd c) (cs_buf_len src) k = (r, k') →
  if ca_fd c <? 0 then run = (Ret false, OState c (World h k))
  else if negb (Z.land condition G_IO_ERR =? 0) then
    run = (handle_disconnection;; mret false) (OState c (World h k))
  else match r with
  | Serr e => run = (Ret (e =? EAGAIN), OState c (World h k'))
  | Sret bs => ∀ evs rest, bs = concat evs ++ rest →
      Forall (λ ev, length ev = 72%nat) evs → (length rest < 72)%nat →
      handlers_keep (cs_buf src) →
      let h1 := <[cs_buf src := bs ++ drop (length bs) old]> h in
      run = (deliver (omap notice evs);; mret true) (OState c (World h1 k'))
  end.
Proof.
  intros run Hb Hl E. unfold run, ctl_card_dispatch_src. rewrite bind_private.
  destruct (ca_fd c <? 0); [done|]. destruct (negb (Z.land condition G_IO_ERR =? 0)); [done|].
  destruct r as [bs|e].
  2:{ rewrite (bind_Ret _ _ _ (Serr e) (OState c (World h k'))); [done|].
      apply outside_run. unfold do_read. by step (sys_run _ h k _ k' E). }
  intros evs rest Hbs Hevs Hr Hk. set (h1 := <[cs_buf src := bs ++ drop (length bs) old]> h).
  pose proof (read_bound (ca_fd c) (cs_buf_len src) k bs k' ltac:(lia) E) as Hmax.
  rewrite (bind_Ret _ _ _ (Sret (Z.of_nat (length bs))) (OState c (World h1 k'))).
  2:{ apply outside_run. unfold do_read. step (sys_run _ h k _ k' E).
      rewrite (bind_Ret _ _ _ tt (World h1 k')); [done|]. apply mem_Ret.
      apply store_prefix; [done|lia]. }
  pose proof (handle_events_run evs (Z.to_nat (Z.of_nat (length bs))) (cs_buf src) [] rest
    (drop (length bs) old) (OState c (World h1 k')) Hk) as Hrun.
  apply bind_eq. rewrite <- Hbs in Hrun. apply Hrun; [|done|done|].
  - cbn [w_heap os_world app]. unfold h1. rewrite lookup_insert_eq, Hbs. by rewrite <- app_assoc.
  - assert (length evs ≤ length (concat evs))%nat; [|rewrite Hbs, length_app; lia].
    clear -Hevs. induction Hevs as [|ev evs Hev _ IH]; [done|]. cbn [concat length].
    rewrite length_app. lia.
Qed.
End events.

Section requests.
Context {AL : Allocator} {ALW : AllocatorLaws} {GL : GLib} {K : Type} {KERN : Kernel K}.
Context {KL : KernelLaws K}.
Implicit Types (h : heap) (k : K) (c : card).

(** Locking, unlocking and removing an element send its identifier, reading
    and writing its value send the value with the identifier in front; the
    structure then holds what the kernel left, and nothing else changes.  A
    disconnected card, an unknown element, an element of another process and an
    operation the element does not support have error codes of their own; any
    other failure is reported with its [errno]. *)
Theorem elem_request_spec q c h k a id b v r s' k' :
  h !! a = Some id → length id = 64%nat → h !! b = Some v → (1224 ≤ length v)%nat →
  sys_ioctl (ca_fd c) (elem_request q) (elem_struct q id v) k = (r, s', k') →
  run_elem q (a, 0) (b, 0) (OState c (World h k)) =
    (match r with
     | Sret _ => Ret tt
     | Serr e => Fail (coded_error (elem_code q e) e (elem_label q))
     end,
     OState c (World (<[(if with_value q then b else a) := s' ++ elem_rest q v]> h) k')).
Proof. apply elem_request_run. Qed.

(** C32: the TLV operations send one packet with the number of the element and
    the container (zeroed for a reading).  When the kernel answers, a writing
    leaves memory as it was; a reading and a command, when the length the kernel
    answers is within the container, leave that many bytes of the packet in
    front of it and return the number of quadlets; the packet is released.  When
    the kernel refuses, the error is reported with its documented code, and the
    packet stays allocated for ever. *)
Theorem tlv_request_spec q c h k p id b data (count : nat) a r s' k' :
  at_ptr h p id → length id = 64%nat → h !! b = Some data → length data = (4 * count)%nat →
  (2 ≤ count)%nat → Z.of_nat count < 2 ^ 28 → alloc_addr h (8 + 4 * Z.of_nat count) = Some a →
  sys_ioctl (ca_fd c) (tlv_request q) (tlv_packet q id data) k = (r, s', k') →
  let run := run_tlv q p (b, 0) (Z.of_nat count) (OState c (World h k)) in
  match r with
  | Serr e =>
      run = (Fail (coded_error (tlv_code q e) e (tlv_label q)),
             OState c (World (<[a := s']> h) k')) ∧ h !! a = None
  | Sret _ =>
      let n := Z.to_nat (fget tlv_length s') in
      match q with
      | TlvWrite => run = (Ret None, OState c (World h k'))
      | _ => (n ≤ length data)%nat →
          run = (Ret (Some (Z.of_nat n / 4)),
                 OState c (World (<[b := sub 8 n s' ++ drop n data]> h) k'))
      end
  end.
Proof.
  intros Hid Hl Hb Hlb Hc2 Hmax Ea E run.
  assert (8 + 4 * Z.of_nat count = 8 + Z.of_nat (length data)) as Em by lia. rewrite Em in Ea.
  pose proof (alloc_fresh _ _ _ Ea) as Hf. pose proof (alloc_nonnull _ _ _ Ea) as [Hp _].
  pose proof (λ A f, tlv_send_run (A := A) q f c h k p id b data a r s' k' Hid Hl Hb
    ltac:(lia) Ea E) as Hsend. cbv zeta in Hsend.
  assert (u64 (Z.of_nat count * 4) = Z.of_nat (length data)) as Eu
    by (rewrite u64_id; [lia|unfold is_u64; lia]).
  assert ((2 <=? Z.of_nat count) = true) as Eg by (apply Z.leb_le; lia).
  assert (length s' = 8 + length data)%nat as Hls'.
  { pose proof (ioctl_length (ca_fd c) (tlv_request q) (tlv_packet q id data) k) as H.
    rewrite E in H. cbn [fst snd] in H. rewrite H. unfold tlv_packet.
    rewrite !length_app, !length_le_split. destruct q; rewrite ?length_zeros; lia. }
  unfold run. destruct q; cbn [run_tlv tlv_request tlv_codes tlv_label] in *;
    unfold alsactl_card_write_elem_tlv, alsactl_card_read_elem_tlv,
      alsactl_card_command_elem_tlv, g_return_if_fail; rewrite Eg, bind_assoc;
    step (mret_run tt (OState c (World h k))); rewrite Eu; cbv zeta.
  - destruct r as [u|e]; [|split; [|done]; by rewrite (bind_Fail _ _ _ _ _ (Hsend _ _))].
    rewrite (bind_Ret _ _ _ tt (OState c (World h k'))); [done|]. rewrite Hsend.
    apply outside_mem. unfold p_addr. cbn [fst snd]. rewrite Z.add_0_r.
    rewrite (g_free_block _ a s') by (done || apply lookup_insert_eq).
    by rewrite delete_insert_id.
  - destruct r as [u|e]; [|split; [|done]; by rewrite (bind_Fail _ _ _ _ _ (Hsend _ _))].
    intros Hn. erewrite bind_Ret; [done|]. rewrite Hsend. apply return_packet_run; done || lia.
  - destruct r as [u|e]; [|split; [|done]; by rewrite (bind_Fail _ _ _ _ _ (Hsend _ _))].
    intros Hn. erewrite bind_Ret; [done|]. rewrite Hsend. apply return_packet_run; done || lia.
Qed.
End requests.

(** ** Concrete runs *)

Module CardWitness.
Import Sample SampleCard.
#[local] Existing Instance Bump.allocator.
#[local] Existing Instance Bump.laws.

Definition by_names : outcome (ptr * ptr) * heap :=
  (p ← alsactl_elem_id_new_by_name 2 0 0 "Volume" 0;
   q ← alsactl_elem_id_new_by_name 3 1 2 "Switch" 4; mret (p, q)) ∅.

Lemma elem_id_by_name_always_equal_witness :
  match by_names with
  | (Ret (p, q), h) => alsactl_elem_id_equal p q h = (Ret true, h)
  | _ => False
  end.
Proof.
  apply (elem_id_by_name_always_equal 2 0 0 "Volume" 0 3 1 2 "Switch" 4 ∅ _ _
    (alsactl_elem_id_new_by_name 2 0 0 "Volume" 0 ∅).2); reflexivity.
Defined.

Lemma elem_id_list_complete_witness :
  ∃ boxes k',
    alsactl_card_get_elem_id_list [] (OState opened (World ∅ [])) =
      (Ret (map box boxes), OState opened (World (boxed boxes elements ∅) k')) ∧
    new_boxes ∅ boxes elements.
Proof.
  destruct (elem_id_list_complete opened ∅ [] elements [] eq_refl)
    as [(boxes & k' & E & Hn & _)|(s & E)].
  - exact (ex_intro _ boxes (ex_intro _ k' (conj E Hn))).
  - by vm_compute in E.
Defined.

(** A device with one element that gains a second one after the first round. *)
#[local] Instance growing : CtlKernel nat := {|
  sys_elem_list fd l n :=
    let ids := take (if (n <? 1)%nat then 1 else 2) elements in
    (Sret tt, answer_list (take (if (n <? 1)%nat then 1 else 2) elements) l, given ids l, S n);
  sys_elem_add fd req s names n := (Sret tt, s, n);
|}.

Definition one : list (list byte) := take 1 elements.
Definition two : list (list byte) := take 2 elements.
Definition l1 : list byte := answer_list one (fput el_pids 0 (zeroed sizeof_elem_list)).
Definition second : list byte := fput el_pids 4128 (fput el_space 1 (fput el_offset 0 l1)).
Definition l2 : list byte := answer_list two second.
Definition third : list byte := fput el_pids 4192 (fput el_space 1 (fput el_offset 1 l2)).

Lemma elem_added_meanwhile_overflows_witness :
  alsactl_card_get_elem_id_list [] (OState opened (World ∅ 0%nat)) =
    (UB, OState opened (World {[4128 := ident 1]} 3%nat)).
Proof.
  apply (elem_added_meanwhile_overflows opened ∅ 0%nat [] l1 1%nat 4128 l2 [ident 1] 2%nat
    (answer_list two third) [ident 2] 3%nat 1); first [by vm_compute | by repeat constructor].
Defined.

(** Two notices and a rest in one reading; the handlers do nothing. *)
Definition event (type mask : Z) (id : list byte) : list byte :=
  fput ev_type type (fput ev_mask mask (zeros 8)) ++ id.
Definition delivered : list byte :=
  event 0 1 (ident 1) ++ event 0 (2 ^ 32 - 1) (ident 2) ++ zeros 8.
#[local] Instance delivering : Kernel state := kernel_with (Sret seq_fd) delivered.
#[local] Instance delivering_laws : KernelLaws state := kernel_with_laws delivered.
Definition waiting : heap := {[8192 := zeros 256]}.

Definition ignore : list byte → Z → M (ostate card state) unit := λ _ _, mret tt.

Lemma card_dispatch_spec_witness :
  ctl_card_dispatch_src ignore (mret tt) (CardSource 8192 256) G_IO_IN
    (OState opened (World waiting [])) =
  (deliver ignore [(ident 1, 1); (ident 2, ALSACTL_ELEM_EVENT_MASK_REMOVE)];; mret true)
    (OState opened (World {[8192 := delivered ++ zeros 104]} [])).
Proof.
  pose proof (card_dispatch_spec ignore (mret tt) opened waiting [] (CardSource 8192 256) G_IO_IN
    (zeros 256) (Sret delivered) [] ltac:(by vm_compute) ltac:(by vm_compute)
    ltac:(by vm_compute)
    [event 0 1 (ident 1); event 0 (2 ^ 32 - 1) (ident 2)] (zeros 8) ltac:(by vm_compute)
    ltac:(by repeat constructor) ltac:(by apply Nat.ltb_lt)) as H.
  etrans; [apply H|].
  - intros id mask s s' E. injection E as <-. done.
  - by vm_compute.
Defined.

Definition value : heap := {[64 := ident 2; 256 := zeroed sizeof_elem_value]}.

Lemma elem_request_spec_witness :
  run_elem (KERN := kernel) ERead (64, 0) (256, 0) (OState opened (World value [])) =
    (Fail (coded_error 0 EINVAL "ioctl(ELEM_READ)"),
     OState opened (World (<[256 := ident 2 ++ drop 64 (zeroed sizeof_elem_value)]> value) [])).
Proof.
  apply (elem_request_spec (KERN := kernel) (KL := kernel_laws) ERead opened value [] 64 (ident 2)
    256 (zeroed sizeof_elem_value) (Serr EINVAL)
    (ident 2 ++ drop 64 (zeroed sizeof_elem_value)) []); [..|by apply Nat.leb_le|]; by vm_compute.
Defined.

Definition tlv : heap := {[64 := ident 2; 256 := zeros 16]}.

Lemma tlv_request_spec_witness :
  run_tlv (KERN := kernel) TlvRead (64, 0) (256, 0) 4 (OState opened (World tlv [])) =
    (Fail (coded_error 0 EINVAL "ioctl(TLV_READ)"),
     OState opened (World (<[4128 := tlv_packet TlvRead (ident 2) (zeros 16)]> tlv) [])).
Proof.
  apply (tlv_request_spec (KERN := kernel) (KL := kernel_laws) TlvRead opened tlv [] (64, 0)
    (ident 2) 256 (zeros 16) 4 4128 (Serr EINVAL) (tlv_packet TlvRead (ident 2) (zeros 16)) []);
    first [apply at_ptr_block; by vm_compute | apply Nat.leb_le; by vm_compute | by vm_compute].
Defined.
End CardWitness.
