(* ===== verification/CtlCardLife.v ===== *)
(** * The life of a card and of its sources

    [src/src/ctl/card.c]: a source keeps a reference to the card and owns a
    buffer; the card counts its sources, subscribes to events with the first
    and ends the subscription with the last.  The calls are steps, and the
    states they reach have an invariant. *)
From S2P Require Import Prelude Heap SeqUapi Struct Kernel Object SampleSystem.
From S2P Require Import CtlStructs CtlCard CtlCardFacts.

Section life.
Context {AL : Allocator} {LAWS : AllocatorLaws} {GL : GLib} {K : Type} {KERN : Kernel K}.
Context {UD : Udev K} (page_size : Z).
Implicit Types (w : world K) (c : card) (h : heap) (k : K).
Implicit Types (s : ostate card K) (srcs : list card_source) (n : nat).

(** The buffer of a source is allocated. *)
Definition buffer_live (s : ostate card K) (src : card_source) : Prop :=
  0 < cs_buf src ∧
  ∃ bs, w_heap (os_world s) !! cs_buf src = Some bs ∧ Z.of_nat (length bs) = page_size.

(** [life s srcs n]: a state in which the sources [srcs] exist and the
    application holds [n] references of its own. *)
Inductive life : ostate card K → list card_source → nat → Prop :=
  | life_new w : life (OState alsactl_card_new w) [] 1
  | life_ref s srcs n s' :
      life s srcs n → n ≠ O → g_object_ref_card s = (Ret tt, s') → life s' srcs (S n)
  | life_unref s srcs n s' :
      life s srcs (S n) → g_object_unref_card s = (Ret tt, s') → life s' srcs n
  | life_create s srcs n src s' :
      life s srcs n → n ≠ O → alsactl_card_create_source page_size s = (Ret src, s') →
      life s' (src :: srcs) n
  | life_refused s srcs n e s' :
      life s srcs n → n ≠ O → alsactl_card_create_source page_size s = (Fail e, s') →
      life s' srcs n
  | life_destroy s srcs1 src srcs2 n s' :
      life s (srcs1 ++ src :: srcs2) n → ctl_card_finalize_src src s = (Ret tt, s') →
      life s' (srcs1 ++ srcs2) n
  | life_other s srcs n s' :
      life s srcs n → ca_refs (os_priv s') = ca_refs (os_priv s) →
      ca_subscribers (os_priv s') = ca_subscribers (os_priv s) →
      (∀ src, src ∈ srcs → buffer_live s src → buffer_live s' src) →
      life s' srcs n.

Definition life_inv (s : ostate card K) (srcs : list card_source) (n : nat) : Prop :=
  ca_refs (os_priv s) = Z.of_nat (n + length srcs) ∧
  ca_subscribers (os_priv s) = Z.of_nat (length srcs) ∧
  NoDup (map cs_buf srcs) ∧ Forall (buffer_live s) srcs.

(** ** The calls *)

(** The kernel after the request to start or to end the subscription. *)
Definition subscribed_to (fd subscribe : Z) (k : K) : K :=
  (sys_ioctl fd CTL_SUBSCRIBE_EVENTS (le_split 4 subscribe) k).2.

(** The last reference finalizes the card, the others do not. *)
Lemma card_unref_run c w :
  g_object_unref_card (OState c w) =
    (Ret tt,
     if (ca_refs c =? 1) && (0 <=? ca_fd c)
     then OState (set_refs (ca_refs c - 1) (set_devnode None c))
            (World (w_heap w) (sys_close (ca_fd c) (w_kern w)))
     else OState (set_refs (ca_refs c - 1) c) w).
Proof.
  destruct w as [h k]. unfold g_object_unref_card, ctl_card_finalize, get_private, set_private,
    gets, modify, outside, zoom, do_close, sys, mbind, M_bind. cbn [os_priv os_world w_heap w_kern].
  destruct (ca_refs c =? 1); [|done]. cbn. by destruct (0 <=? ca_fd c).
Qed.

Lemma subscribe_run c h k b :
  subscribe_events b (OState c (World h k)) =
    (Ret (sys_ioctl (ca_fd c) CTL_SUBSCRIBE_EVENTS (le_split 4 b) k).1.1,
     OState c (World h (subscribed_to (ca_fd c) b k))).
Proof.
  unfold subscribe_events, subscribed_to. rewrite bind_private.
  destruct (sys_ioctl (ca_fd c) CTL_SUBSCRIBE_EVENTS (le_split 4 b) k) as [[r bs] k'] eqn:E.
  by step (outside_run _ c _ _ _ (ioctl_val_run h k _ _ _ _ _ _ E)).
Qed.

(** What the removal of a source leaves before it drops its reference. *)
Definition after_removal (src : card_source) (c : card) (h : heap) (k : K) : ostate card K :=
  OState (set_subscribers (ca_subscribers c - 1) c)
    (World (delete (cs_buf src) h)
       (if ca_subscribers c =? 1 then subscribed_to (ca_fd c) 0 k else k)).

Lemma card_finalize_src_run c h k src bs :
  0 < cs_buf src → h !! cs_buf src = Some bs →
  ctl_card_finalize_src src (OState c (World h k)) = g_object_unref_card (after_removal src c h k).
Proof.
  intros Hp Hb. unfold ctl_card_finalize_src, after_removal. rewrite bind_set, bind_private.
  cbn [ca_subscribers set_subscribers].
  set (c1 := set_subscribers (ca_subscribers c - 1) c).
  assert (∀ k', (outside (mem (g_free (cs_buf src)));; g_object_unref_card) (OState c1 (World h k')) =
    g_object_unref_card (OState c1 (World (delete (cs_buf src) h) k'))) as Hfree.
  { intros k'. by step (outside_mem _ c1 h k' _ _ (g_free_block h _ bs Hp Hb)). }
  replace (ca_subscribers c - 1 =? 0) with (ca_subscribers c =? 1)
    by (destruct (Z.eqb_spec (ca_subscribers c) 1), (Z.eqb_spec (ca_subscribers c - 1) 0); lia).
  destruct (ca_subscribers c =? 1).
  - rewrite (bind_Ret _ _ _ tt (OState c1 (World h (subscribed_to (ca_fd c) 0 k)))); [apply Hfree|].
    by step (subscribe_run c1 h k 0).
  - rewrite (bind_Ret _ _ _ tt (OState c1 (World h k))) by done. apply Hfree.
Qed.

(** A source is made when the kernel accepts the subscription; else all is
    taken back. *)
Lemma card_create_run c h k :
  0 < page_size → 0 < ca_refs c →
  match alsactl_card_create_source page_size (OState c (World h k)) with
  | (Ret src, s') =>
      ∃ a, alloc_addr h page_size = Some a ∧ src = CardSource a page_size ∧
        s' = OState (set_subscribers (ca_subscribers c + 1) (set_refs (ca_refs c + 1) c))
          (World (<[a := zeros (Z.to_nat page_size)]> h) (subscribed_to (ca_fd c) 1 k))
  | (Fail e, s') =>
      ∃ errno, e = card_error disconnected errno "ioctl(SUBSCRIBE_EVENTS)" ∧
        s' = OState c (World h
          (if ca_subscribers c =? 0 then subscribed_to (ca_fd c) 0 (subscribed_to (ca_fd c) 1 k)
           else subscribed_to (ca_fd c) 1 k))
  | (_, s') => s' = OState c (World h k)
  end.
Proof.
  intros Hps Hr. unfold alsactl_card_create_source. rewrite bind_private.
  destruct (Z.leb_spec 0 (ca_fd c)) as [Hfd|]; [|done].
  rewrite (bind_Ret _ _ _ tt (OState c (World h k))) by done.
  destruct (alloc_addr h page_size) as [a|] eqn:Ha.
  2:{ unfold mbind, M_bind, outside, mem, zoom, g_malloc0. cbn [os_world w_heap].
      destruct (Z.eqb_spec page_size 0); [lia|]. by rewrite Ha. }
  step (outside_mem _ c h k _ _ (g_malloc0_some h page_size a ltac:(lia) Ha)).
  set (h1 := <[a := zeros (Z.to_nat page_size)]> h). unfold g_object_ref_card.
  rewrite bind_set. cbv zeta. rewrite bind_set. cbn [ca_subscribers set_refs].
  set (c1 := set_subscribers (ca_subscribers c + 1) (set_refs (ca_refs c + 1) c)).
  step (subscribe_run c1 h1 k 1). change (ca_fd c1) with (ca_fd c).
  destruct (sys_ioctl (ca_fd c) CTL_SUBSCRIBE_EVENTS (le_split 4 1) k).1.1 as [u|e].
  { by exists a. }
  pose proof (alloc_nonnull _ _ _ Ha) as Hp. pose proof (alloc_fresh _ _ _ Ha) as Hf.
  set (k1 := subscribed_to (ca_fd c) 1 k).
  pose proof (card_finalize_src_run c1 h1 k1 (CardSource a page_size) (zeros (Z.to_nat page_size))
    ltac:(cbn; lia) (lookup_insert_eq h a _)) as Hfin. unfold after_removal in Hfin.
  rewrite card_unref_run in Hfin. change (ca_refs (set_subscribers _ c1)) with (ca_refs c + 1) in Hfin.
  destruct (Z.eqb_spec (ca_refs c + 1) 1); [lia|]. cbn [andb] in Hfin. step Hfin.
  exists e. split; [done|]. unfold fail. f_equal.
  - unfold c1. unfold set_refs, set_subscribers. destruct c. cbn. f_equal; lia.
  - cbn [cs_buf]. unfold h1. rewrite delete_insert_id by done. f_equal. change (ca_fd c1) with (ca_fd c).
    change (ca_subscribers c1) with (ca_subscribers c + 1).
    destruct (Z.eqb_spec (ca_subscribers c + 1) 1), (Z.eqb_spec (ca_subscribers c) 0); done || lia.
Qed.

(** ** The invariant *)

Lemma unref_keeps c w s' :
  g_object_unref_card (OState c w) = (Ret tt, s') →
  ca_refs (os_priv s') = ca_refs c - 1 ∧ ca_subscribers (os_priv s') = ca_subscribers c ∧
  w_heap (os_world s') = w_heap w.
Proof. rewrite card_unref_run. intros [= <-]. by destruct (_ && _). Qed.

Lemma buffer_live_heap s s' src :
  w_heap (os_world s') !! cs_buf src = w_heap (os_world s) !! cs_buf src →
  buffer_live s src → buffer_live s' src.
Proof. intros E (? & bs & ? & ?). split; [done|]. exists bs. by rewrite E. Qed.

Lemma destroy_inv s srcs1 src srcs2 n s' :
  life_inv s (srcs1 ++ src :: srcs2) n → ctl_card_finalize_src src s = (Ret tt, s') →
  life_inv s' (srcs1 ++ srcs2) n.
Proof.
  intros (Hr & Hs & Hnd & Hb) E. destruct s as [c [h k]].
  assert (buffer_live (OState c (World h k)) src) as (Hp & bs & Hbs & _).
  { rewrite Forall_forall in Hb. apply Hb. set_solver. }
  rewrite (card_finalize_src_run c h k src bs Hp Hbs) in E. apply unref_keeps in E as (Er & Es & Eh).
  rewrite length_app in Hr, Hs. cbn [length os_priv] in Hr, Hs.
  rewrite map_app in Hnd. cbn [map] in Hnd.
  apply NoDup_app in Hnd as (Hnd1 & Hdis & Hnd2). apply NoDup_cons in Hnd2 as [Hni Hnd2].
  assert (∀ x, x ∈ srcs1 ++ srcs2 → cs_buf x ≠ cs_buf src) as Hne.
  { intros x [Hx|Hx]%elem_of_app Ex.
    - apply (Hdis (cs_buf x)); [by apply list_elem_of_fmap_2|]. rewrite Ex. by left.
    - apply Hni. rewrite <- Ex. by apply list_elem_of_fmap_2. }
  split_and!.
  - rewrite length_app. cbn in *. lia.
  - rewrite length_app. cbn in *. lia.
  - rewrite map_app. apply NoDup_app. split_and!; [done| |done].
    intros b Hb1 Hb2. apply (Hdis b Hb1). by right.
  - apply Forall_forall. intros x Hx. apply (buffer_live_heap (OState c (World h k))).
    + rewrite Eh. cbn. rewrite lookup_delete_ne; [done|]. intros E. by apply (Hne x Hx).
    + rewrite Forall_forall in Hb. apply Hb. apply elem_of_app.
      apply elem_of_app in Hx as [|]; [by left|right; by right].
Qed.

Lemma card_life_invariant s srcs n : 0 < page_size → life s srcs n → life_inv s srcs n.
Proof.
  intros Hps. induction 1 as [w|s srcs n s' _ (Hr & Hs & Hnd & Hb) Hn E|s srcs n s' _ (Hr & Hs & Hnd & Hb) E|
    s srcs n src s' _ (Hr & Hs & Hnd & Hb) Hn E|s srcs n e s' _ (Hr & Hs & Hnd & Hb) Hn E|
    s srcs1 src srcs2 n s' _ IH E|s srcs n s' _ (Hr & Hs & Hnd & Hb) Er Es Hk].
  - by split_and!; [| |constructor|constructor].
  - destruct s as [c w]. injection E as <-. split_and!; [cbn in *; lia|done..].
  - destruct s as [c w]. apply unref_keeps in E as (Er & Es & Eh).
    split_and!; [cbn in *; lia|cbn in *; lia|done|].
    eapply Forall_impl; [exact Hb|]. intros x. apply buffer_live_heap. by rewrite Eh.
  - destruct s as [c [h k]]. cbn [os_priv] in *.
    pose proof (card_create_run c h k Hps ltac:(lia)) as Hc. rewrite E in Hc.
    destruct Hc as (a & Ha & -> & ->). pose proof (alloc_fresh _ _ _ Ha) as Hf.
    pose proof (alloc_nonnull _ _ _ Ha) as Hp.
    assert (∀ x, x ∈ srcs → cs_buf x ≠ a) as Hne.
    { intros x Hx Ex. rewrite Forall_forall in Hb. destruct (Hb x Hx) as (_ & bs & Hbs & _).
      cbn in Hbs. congruence. }
    split_and!; [cbn in *; lia|cbn in *; lia| |].
    + cbn. constructor; [|done]. intros (x & Ex & Hx)%list_elem_of_fmap. by apply (Hne x).
    + constructor.
      * split; [cbn; lia|]. eexists. split; [apply lookup_insert_eq|]. rewrite length_zeros. lia.
      * apply Forall_forall. intros x Hx. apply (buffer_live_heap (OState c (World h k))).
        -- cbn. rewrite lookup_insert_ne; [done|]. intros E2. by apply (Hne x Hx).
        -- rewrite Forall_forall in Hb. by apply Hb.
  - destruct s as [c [h k]]. cbn [os_priv] in *.
    pose proof (card_create_run c h k Hps ltac:(lia)) as Hc. rewrite E in Hc. destruct Hc as (errno & _ & ->).
    done.
  - by eapply destroy_inv.
  - split_and!; [by rewrite Er|by rewrite Es|done|]. rewrite Forall_forall in Hb |- *.
    intros x Hx. by apply Hk, Hb.
Qed.

(** C6: the sources of a card: in every state that references, sources and
    other activity can lead to, the property says that the card is subscribed
    exactly when it has a source.  Removing a source frees its buffer and
    nothing else; with the last source the subscription is ended, and with the
    last reference, after that, the descriptor is closed.  A source that the
    kernel refuses to subscribe leaves card and memory as they were. *)
Theorem card_sources_spec s srcs n :
  0 < page_size → life s srcs n →
  let c := os_priv s in
  let w := os_world s in
  ctl_card_get_property_subscribed s = (Ret (negb (length srcs =? 0)%nat), s) ∧
  (∀ srcs1 src srcs2, srcs = srcs1 ++ src :: srcs2 →
     let k1 := if (length srcs =? 1)%nat then subscribed_to (ca_fd c) 0 (w_kern w) else w_kern w in
     ∃ s', ctl_card_finalize_src src s = (Ret tt, s') ∧ life s' (srcs1 ++ srcs2) n ∧
       w_heap (os_world s') = delete (cs_buf src) (w_heap w) ∧
       w_kern (os_world s') =
         if (n + length srcs =? 1)%nat && (0 <=? ca_fd c) then sys_close (ca_fd c) k1 else k1) ∧
  (∀ e s', n ≠ O → alsactl_card_create_source page_size s = (Fail e, s') →
     os_priv s' = c ∧ w_heap (os_world s') = w_heap w ∧
     ∃ errno, e = card_error disconnected errno "ioctl(SUBSCRIBE_EVENTS)").
Proof.
  intros Hps Hl c w. destruct (card_life_invariant s srcs n Hps Hl) as (Hr & Hs & _ & Hb).
  destruct s as [c0 [h k]]. cbn in c, w. subst c w. cbn [os_priv w_heap w_kern] in *. split_and!.
  - unfold ctl_card_get_property_subscribed. rewrite bind_private, Hs.
    by destruct srcs.
  - intros srcs1 src srcs2 ->. rewrite length_app in Hr, Hs |- *. cbn [length] in *.
    rewrite Forall_forall in Hb. destruct (Hb src ltac:(set_solver)) as (Hp & bs & Hbs & _).
    pose proof (card_finalize_src_run c0 h k src bs Hp Hbs) as E. unfold after_removal in E.
    rewrite card_unref_run in E. eexists. split; [exact E|]. split; [by eapply life_destroy|].
    assert ((ca_subscribers c0 =? 1) = (length srcs1 + S (length srcs2) =? 1)%nat) as ->.
    { rewrite Hs. destruct (Nat.eqb_spec (length srcs1 + S (length srcs2)) 1); apply Z.eqb_eq || apply Z.eqb_neq; lia. }
    cbn [ca_refs ca_fd set_subscribers].
    assert ((ca_refs c0 =? 1) = (n + (length srcs1 + S (length srcs2)) =? 1)%nat) as ->.
    { rewrite Hr. destruct (Nat.eqb_spec (n + (length srcs1 + S (length srcs2))) 1);
        apply Z.eqb_eq || apply Z.eqb_neq; lia. }
    by destruct ((n + (length srcs1 + S (length srcs2)) =? 1)%nat && (0 <=? ca_fd c0)).
  - intros e s' Hn E. pose proof (card_create_run c0 h k Hps ltac:(lia)) as Hc. rewrite E in Hc.
    destruct Hc as (errno & -> & ->). by eauto.
Qed.
End life.

(** ** A concrete run *)

Module CardLifeWitness.
#[local] Existing Instance Bump.allocator.
#[local] Existing Instance Bump.laws.
#[local] Existing Instance Sample.glib.

(** The system notes the requests to subscribe and what is closed. *)
Inductive call := Subscribe (b : Z) | Closed (fd : Z).
#[local] Instance noting : Kernel (list call) := {|
  sys_open path flags k := (Sret 9, k);
  sys_close fd k := k ++ [Closed fd];
  sys_ioctl fd req s k :=
    match req with
    | CTL_SUBSCRIBE_EVENTS => (Sret tt, s, k ++ [Subscribe (le_u 0 4 s)])
    | _ => (Sret tt, s, k)
    end;
  sys_write fd bs k := (Serr EINVAL, k);
  sys_read fd n k := (Serr EAGAIN, k);
|}.

(** A card is opened, gets a source, and the application drops its reference. *)
Definition opened : ostate card (list call) :=
  OState (set_fd 9 alsactl_card_new) (World ∅ []).
Definition polled : ostate card (list call) := (alsactl_card_create_source 64 opened).2.
Definition dropped : ostate card (list call) := (g_object_unref_card polled).2.
Definition src : card_source := CardSource 4128 64.

Lemma dropped_card_life : life 64 dropped [src] 0.
Proof.
  apply (life_unref 64 polled); [|by vm_compute].
  apply (life_create 64 opened []); [|done|by vm_compute].
  apply (life_other 64 (OState alsactl_card_new (World ∅ []))); [apply life_new|done|done|].
  by intros src ?%not_elem_of_nil.
Defined.

Lemma card_sources_spec_witness :
  ∃ s', ctl_card_finalize_src src dropped = (Ret tt, s') ∧
    w_kern (os_world s') = [Subscribe 1; Subscribe 0; Closed 9] ∧
    w_heap (os_world s') = delete 4128 (w_heap (os_world dropped)).
Proof.
  destruct (card_sources_spec 64 dropped [src] 0 ltac:(done) dropped_card_life) as (_ & Hrem & _).
  destruct (Hrem [] src [] eq_refl) as (s' & E & _ & Eh & Ek).
  exists s'. exact (conj E (conj Ek Eh)).
Defined.
End CardLifeWitness.
