(* ===== verification/CtlCardInfo.v ===== *)
(** * Information on elements, and their labels

    [alsactl_card_get_elem_info] of [src/src/ctl/card.c]: the object that is
    made for each type of element and each failure, and how the labels of an
    enumerated element travel from the process that adds it to one that asks
    for them, one request for each label. *)
From S2P Require Import Prelude Heap SeqUapi Struct Kernel Object SampleSystem Boxes.
From S2P Require Import CtlStructs CtlElemId CtlObjects CtlQuery CtlCard CtlCardFacts CtlAddElems SampleCard.

(** ** Elements with labels *)

(** [same_card fd fd' k]: both descriptors are the control device of one card.
    [labelled fd id labels k]: the card open as [fd] has an enumerated element
    with the identifier [id] and these labels. *)
Class LabelledElems (K : Type) := {
  same_card : Z → Z → K → Prop;
  labelled : Z → list byte → list (list byte) → K → Prop;
}.

(** ELEM_INFO tells the type, the number of labels and the label it is asked
    for; ELEM_ADD and ELEM_REPLACE take the labels from the names behind each
    other. *)
Class LabelledElemsLaws (K : Type) `{!Kernel K} `{!CtlKernel K} `{!LabelledElems K} : Prop := {
  elem_info_label fd labels s k :
    labelled fd (sub ei_id 64 s) labels k → length s = 272%nat →
    ∃ s' k', sys_ioctl fd CTL_ELEM_INFO s k = (Sret tt, s', k') ∧
      labelled fd (sub ei_id 64 s') labels k' ∧
      fget ei_type s' = SNDRV_CTL_ELEM_TYPE_ENUMERATED ∧
      fget ei_items s' = Z.of_nat (length labels) ∧
      ∀ label, labels !! Z.to_nat (fget ei_item s) = Some label → c_str (drop ei_name s') = label;
  elem_add_labels fd fd' req s labels k s' k' :
    req = CTL_ELEM_ADD ∨ req = CTL_ELEM_REPLACE →
    sys_elem_add fd req s (names_bytes labels) k = (Sret tt, s', k') →
    enumerated s = true → fget ei_items s = Z.of_nat (length labels) →
    Forall c_chars_only labels → same_card fd fd' k →
    Forall (λ id, labelled fd' id labels k')
      (id_sequence (Z.to_nat (fget ei_owner s)) (take 64 s'));
}.

Section info.
Context {AL : Allocator} {ALW : AllocatorLaws} {GL : GLib} {K : Type} {KERN : Kernel K}.
Context {KL : KernelLaws K} {CK : CtlKernel K}.
Implicit Types (h : heap) (k : K) (c : card).

(** ** Objects of information *)

(** The constructor for each type but the enumerated one. *)
Definition plain_new (elem_type : Z) : option (M (world K) ptr) :=
  if elem_type =? SNDRV_CTL_ELEM_TYPE_BOOLEAN then Some alsactl_elem_info_boolean_new
  else if elem_type =? SNDRV_CTL_ELEM_TYPE_INTEGER then Some alsactl_elem_info_integer_new
  else if elem_type =? SNDRV_CTL_ELEM_TYPE_BYTES then Some alsactl_elem_info_bytes_new
  else if elem_type =? SNDRV_CTL_ELEM_TYPE_IEC958 then Some alsactl_elem_info_iec60958_new
  else if elem_type =? SNDRV_CTL_ELEM_TYPE_INTEGER64 then Some alsactl_elem_info_integer64_new
  else None.

(** A new object has the type of its class, and one value for IEC 60958. *)
Lemma elem_info_new_run h k a t :
  alloc_addr h 272 = Some a →
  elem_info_new t (World h k) = (Ret (a, 0), World (<[a := fput ei_type t (zeros 272)]> h) k).
Proof.
  intros Ha. unfold elem_info_new, g_object_new.
  rewrite bind_assoc. step (mem_Ret _ h k _ _ (g_malloc0_some h 272 a ltac:(done) Ha)).
  rewrite (bind_Ret _ _ _ _ _ (mret_run _ _)).
  step (set_field_block (<[a := zeros 272]> h) k a (zeros 272) sizeof_elem_info ei_type t
    (lookup_insert_eq _ _ _) eq_refl eq_refl).
  by rewrite mret_run, insert_insert_eq.
Qed.

Lemma iec60958_new_run h k a :
  alloc_addr h 272 = Some a →
  alsactl_elem_info_iec60958_new (World h k) =
    (Ret (a, 0), World (<[a := fput ei_type SNDRV_CTL_ELEM_TYPE_IEC958
                                 (fput ei_count 1 (zeros 272))]> h) k).
Proof.
  intros Ha. unfold alsactl_elem_info_iec60958_new, g_object_new.
  rewrite bind_assoc. step (mem_Ret _ h k _ _ (g_malloc0_some h 272 a ltac:(done) Ha)).
  rewrite (bind_Ret _ _ _ _ _ (mret_run _ _)).
  step (mem_Ret _ (<[a := zeros 272]> h) k _ _ (load_at _ (a, 0) (zeros 272) sizeof_elem_info
    (at_ptr_block _ _ _ (lookup_insert_eq _ _ _)) eq_refl)).
  set (s1 := alsactl_elem_info_iec60958_init (zeros 272)).
  assert (length s1 = 272%nat) as H1 by done. assert (s1 ≠ []) as Hne by done.
  step (mem_Ret _ _ k _ _ (store_block (<[a := zeros 272]> h) a (zeros 272) s1
    (lookup_insert_eq _ _ _) eq_refl Hne)). rewrite insert_insert_eq.
  step (set_field_block (<[a := s1]> h) k a s1 sizeof_elem_info ei_type SNDRV_CTL_ELEM_TYPE_IEC958
    (lookup_insert_eq _ _ _) ltac:(by rewrite H1) ltac:(by rewrite H1)).
  by rewrite mret_run, insert_insert_eq.
Qed.

(** Whatever the class, the object is a new block with the size of the
    structure. *)
Lemma plain_new_run h k a t new :
  alloc_addr h 272 = Some a → plain_new t = Some new →
  ∃ s, length s = 272%nat ∧ fget ei_type s = t ∧
    new (World h k) = (Ret (a, 0), World (<[a := s]> h) k).
Proof.
  intros Ha Hn. unfold plain_new in Hn. repeat case_match; simplify_eq.
  all: repeat match goal with H : (_ =? _) = true |- _ => apply Z.eqb_eq in H as -> end.
  all: eexists; split_and!;
    [|.. | first [apply elem_info_new_run | apply iec60958_new_run]; done]; by vm_compute.
Qed.

(** ** The request *)

Definition plain_types : list Z := [
  SNDRV_CTL_ELEM_TYPE_BOOLEAN; SNDRV_CTL_ELEM_TYPE_INTEGER; SNDRV_CTL_ELEM_TYPE_BYTES;
  SNDRV_CTL_ELEM_TYPE_IEC958; SNDRV_CTL_ELEM_TYPE_INTEGER64
].

(** What is sent for the element with the identifier [id]. *)
Definition info_query (id : list byte) : list byte := put_bytes ei_id id (zeroed sizeof_elem_info).

Lemma info_query_spec id :
  length id = 64%nat → length (info_query id) = 272%nat ∧ sub ei_id 64 (info_query id) = id.
Proof.
  intros H. assert (ei_id + length id ≤ length (zeroed sizeof_elem_info))%nat as Hin
    by (rewrite H; by apply Nat.leb_le).
  unfold info_query. split; [by rewrite length_put_bytes|].
  rewrite <- H. by apply sub_put_same.
Qed.

(** The request, and the part of the method after it. *)
Lemma elem_info_request_run c h k p id r data k' :
  at_ptr h p id → length id = 64%nat →
  sys_ioctl (ca_fd c) CTL_ELEM_INFO (info_query id) k = (r, data, k') →
  length data = 272%nat ∧
  alsactl_card_get_elem_info p (OState c (World h k)) =
  match r with
  | Serr e => (Fail (card_error not_found e "ioctl(ELEM_INFO)"), OState c (World h k'))
  | Sret _ =>
      ('(dst, data, labels) ←
         match plain_new (fget ei_type data) with
         | Some new => info ← outside new; mret (info, data, None)
         | None =>
             if fget ei_type data =? SNDRV_CTL_ELEM_TYPE_ENUMERATED then
               '(data, labels) ← parse_enum_names (Z.to_nat (fget ei_items data)) 0 data [];
               info ← outside alsactl_elem_info_enumerated_new;
               mret (info, data, Some labels)
             else critical
         end;
       outside (mem (store dst data));; mret (ElemInfo dst labels)) (OState c (World h k'))
  end.
Proof.
  intros Hp Hid E. pose proof (ioctl_length (ca_fd c) CTL_ELEM_INFO (info_query id) k) as Hl.
  rewrite E, (proj1 (info_query_spec id Hid)) in Hl. split; [done|].
  unfold alsactl_card_get_elem_info. rewrite bind_private.
  step (outside_mem _ c h k _ _ (load_at h p id sizeof_elem_id Hp ltac:(by rewrite Hid))).
  step (outside_run _ c _ _ _ (ioctl_val_run h k _ _ _ _ _ _ E)).
  destruct r as [u|e]; [|done]. cbv zeta. apply bind_eq. unfold plain_new. by repeat case_match.
Qed.

(** The object gets what the kernel answered. *)
Lemma finish_info_run c h k a s data (labels : option (list (list byte))) :
  length s = 272%nat → length data = 272%nat →
  ((outside (mem (store (a, 0) data));; mret (ElemInfo (a, 0) labels)) : M (ostate card K) elem_info)
    (OState c (World (<[a := s]> h) k)) =
  (Ret (ElemInfo (a, 0) labels), OState c (World (<[a := data]> h) k)).
Proof.
  intros Hs Hd. assert (data ≠ []) as Hne by (by destruct data).
  step (outside_mem _ c _ k _ _ (store_block (<[a := s]> h) a s data (lookup_insert_eq _ _ _)
    ltac:(by rewrite Hs, Hd) Hne)).
  by rewrite mret_run, insert_insert_eq.
Qed.

(** Whatever the kernel answers to the requests for labels: all of them are
    got, or an error is reported. *)
Lemma parse_enum_names_cases n : ∀ i data ls c h k,
  length data = 272%nat →
  (∃ e k', parse_enum_names n i data ls (OState c (World h k)) =
     (Fail (card_error disconnected e "ioctl(ELEM_INFO)"), OState c (World h k'))) ∨
  (∃ data' labels k', parse_enum_names n i data ls (OState c (World h k)) =
     (Ret (data', ls ++ labels), OState c (World h k')) ∧ length labels = n ∧ length data' = 272%nat).
Proof.
  induction n as [|n IH]; intros i data ls c h k Hd.
  { right. exists data, [], k. by rewrite app_nil_r. }
  cbn [parse_enum_names].
  destruct (sys_ioctl (ca_fd c) CTL_ELEM_INFO (fput ei_item i data) k) as [[r data1] k1] eqn:E.
  pose proof (ioctl_length (ca_fd c) CTL_ELEM_INFO (fput ei_item i data) k) as Hl.
  rewrite E, length_fput, Hd in Hl by f_inside. rewrite bind_private.
  rewrite (bind_Ret _ _ _ _ _ (outside_run _ c _ _ _ (ioctl_val_run h k _ _ _ _ _ _ E))).
  destruct r as [u|e]; [|left; by exists e, k1].
  destruct (IH (i + 1) data1 (ls ++ [c_str (drop ei_name data1)]) c h k1 Hl)
    as [(e & k2 & E2)|(data2 & labels & k2 & E2 & Hn & Hd2)].
  - left. by exists e, k2.
  - right. exists data2, (c_str (drop ei_name data1) :: labels), k2. rewrite E2, <- app_assoc.
    split_and!; [done|cbn; lia|done].
Qed.

Definition info_code (e : Z) : Z :=
  if e =? ENODEV then ALSACTL_CARD_ERROR_DISCONNECTED
  else if e =? ENOENT then ALSACTL_CARD_ERROR_ELEM_NOT_FOUND else ALSACTL_CARD_ERROR_FAILED.

(** What is made of the answer to a request for information: an object of
    the class of the type, with the structure the kernel answered in a new
    block; for an enumerated element as many labels as it has items; nothing
    but a warning for another type.  When a request fails its errno has the
    documented code, and memory is as before. *)
Theorem get_elem_info_spec c h k p id r data k' a :
  at_ptr h p id → length id = 64%nat → alloc_addr h 272 = Some a →
  sys_ioctl (ca_fd c) CTL_ELEM_INFO (info_query id) k = (r, data, k') →
  let run := alsactl_card_get_elem_info p (OState c (World h k)) in
  match r with
  | Serr e => run = (Fail (coded_error (info_code e) e "ioctl(ELEM_INFO)"), OState c (World h k'))
  | Sret _ =>
      (fget ei_type data ∈ plain_types →
         run = (Ret (ElemInfo (a, 0) None), OState c (World (<[a := data]> h) k'))) ∧
      (fget ei_type data = SNDRV_CTL_ELEM_TYPE_ENUMERATED →
         (∃ e k2, run = (Fail (card_error disconnected e "ioctl(ELEM_INFO)"), OState c (World h k2))) ∨
         (∃ data2 labels k2,
            run = (Ret (ElemInfo (a, 0) (Some labels)), OState c (World (<[a := data2]> h) k2)) ∧
            length labels = Z.to_nat (fget ei_items data) ∧ length data2 = 272%nat)) ∧
      (fget ei_type data ∉ SNDRV_CTL_ELEM_TYPE_ENUMERATED :: plain_types →
         run = (Critical, OState c (World h k')))
  end.
Proof.
  intros Hp Hid Ha E run. destruct (elem_info_request_run c h k p id r data k' Hp Hid E) as [Hd Hrun].
  unfold run. rewrite Hrun. clear run Hrun. destruct r as [u|e].
  2:{ f_equal. f_equal. unfold card_error, info_code, coded_error.
      cbn [assoc_Z app not_found disconnected]. errno_cases. }
  destruct (plain_new (fget ei_type data)) as [new|] eqn:En.
  - destruct (plain_new_run h k' a _ new Ha En) as (s & Hs & _ & Enew).
    rewrite bind_assoc. step (outside_run _ c _ _ _ Enew).
    rewrite (bind_Ret _ _ _ _ _ (mret_run _ _)). rewrite finish_info_run by done.
    split_and!; [done|..].
    + intros Ht. by rewrite Ht in En.
    + intros Ht. destruct Ht. unfold plain_new in En.
      repeat match goal with H : context [?x =? ?y] |- _ => destruct (Z.eqb_spec x y) as [Hy|] end;
        try done; rewrite Hy; set_solver.
  - assert (fget ei_type data ∉ plain_types) as Hnot.
    { intros Ht. unfold plain_types in Ht.
      repeat (apply elem_of_cons in Ht as [Ht|Ht]; [by rewrite Ht in En|]).
      by apply not_elem_of_nil in Ht. }
    split_and!; [done|..].
    + intros Ht. rewrite Ht, Z.eqb_refl, bind_assoc.
      destruct (parse_enum_names_cases (Z.to_nat (fget ei_items data)) 0 data [] c h k' Hd)
        as [(e & k2 & E2)|(data2 & labels & k2 & E2 & Hn & Hd2)].
      * left. exists e, k2. by rewrite (bind_Fail _ _ _ _ _ E2).
      * right. exists data2, labels, k2. split; [|done]. step E2. rewrite bind_assoc.
        step (outside_run _ c _ _ _ (elem_info_new_run h k2 a SNDRV_CTL_ELEM_TYPE_ENUMERATED Ha)).
        rewrite (bind_Ret _ _ _ _ _ (mret_run _ _)). by rewrite finish_info_run.
    + intros Ht. destruct (Z.eqb_spec (fget ei_type data) SNDRV_CTL_ELEM_TYPE_ENUMERATED); [|done].
      set_solver.
Qed.

(** ** Labels from one process to another *)

Context {CKL : CtlKernelLaws K} {LE : LabelledElems K} {LEL : LabelledElemsLaws K}.

(** A structure that tells of an enumerated element with these labels. *)
Definition tells (fd : Z) (labels : list (list byte)) (data : list byte) (k : K) : Prop :=
  length data = 272%nat ∧ fget ei_type data = SNDRV_CTL_ELEM_TYPE_ENUMERATED ∧
  fget ei_items data = Z.of_nat (length labels) ∧ labelled fd (sub ei_id 64 data) labels k.

(** A request for one label. *)
Lemma ask_label fd labels s k :
  length s = 272%nat → labelled fd (sub ei_id 64 s) labels k →
  ∃ s' k', sys_ioctl fd CTL_ELEM_INFO s k = (Sret tt, s', k') ∧ tells fd labels s' k' ∧
    ∀ label, labels !! Z.to_nat (fget ei_item s) = Some label → c_str (drop ei_name s') = label.
Proof.
  intros Hs Hl. destruct (elem_info_label fd labels s k Hl Hs) as (s' & k' & E & Hl' & Ht & Hn & Hc).
  exists s', k'. pose proof (ioctl_length fd CTL_ELEM_INFO s k) as Hlen. rewrite E, Hs in Hlen.
  unfold tells. by split_and!.
Qed.

Lemma parse_enum_names_run labels n : ∀ i data ls c h k,
  tells (ca_fd c) labels data k → (i + n = length labels)%nat →
  ∃ data' k', parse_enum_names n (Z.of_nat i) data ls (OState c (World h k)) =
    (Ret (data', ls ++ drop i labels), OState c (World h k')) ∧ tells (ca_fd c) labels data' k'.
Proof.
  induction n as [|n IH]; intros i data ls c h k Hd Hi.
  { exists data, k. rewrite drop_ge, app_nil_r by lia. done. }
  destruct Hd as (Hlen & Ht & Hn & Hl). cbn [parse_enum_names]. rewrite bind_private.
  assert (f_in ei_item (length data) = true) as Hin by (by rewrite Hlen).
  pose proof (fget_range ei_items data ltac:(by rewrite Hlen)) as Hr.
  unfold f_range in Hr. cbn [ei_items u32f f_signed f_bits f_width] in Hr.
  destruct (ask_label (ca_fd c) labels (fput ei_item (Z.of_nat i) data) k) as (s1 & k1 & E & H1 & Hc).
  { by rewrite length_fput. }
  { rewrite sub_fput_other; [done..|]. left. by apply Nat.leb_le. }
  step (outside_run _ c _ _ _ (ioctl_val_run h k _ _ _ _ _ _ E)).
  destruct (lookup_lt_is_Some_2 labels i ltac:(lia)) as [label Hlab].
  rewrite (Hc label).
  2:{ rewrite fget_fput_id; [by rewrite Nat2Z.id|done|].
      unfold f_range. cbn [ei_item u32f f_signed]. unfold f_bits in *. cbn in *. lia. }
  destruct (IH (S i) s1 (ls ++ [label]) c h k1 H1 ltac:(lia)) as (data' & k' & E2 & H2).
  exists data', k'. split; [|done]. replace (Z.of_nat i + 1) with (Z.of_nat (S i)) by lia.
  by rewrite E2, <- app_assoc, (drop_S labels label i Hlab).
Qed.

Lemma get_labels_run c h k p id labels a :
  at_ptr h p id → length id = 64%nat → alloc_addr h 272 = Some a → labelled (ca_fd c) id labels k →
  ∃ data k', alsactl_card_get_elem_info p (OState c (World h k)) =
    (Ret (ElemInfo (a, 0) (Some labels)), OState c (World (<[a := data]> h) k')) ∧
    tells (ca_fd c) labels data k'.
Proof.
  intros Hp Hid Ha Hl. destruct (info_query_spec id Hid) as [Hq Hqi].
  destruct (ask_label (ca_fd c) labels (info_query id) k Hq) as (s1 & k1 & E & H1 & _);
    [by rewrite Hqi|].
  destruct (elem_info_request_run c h k p id _ s1 k1 Hp Hid E) as [_ ->].
  pose proof H1 as (Hlen & Ht & Hn & _). rewrite Ht. change (plain_new _) with (@None (M (world K) ptr)).
  rewrite Z.eqb_refl, Hn, Nat2Z.id, bind_assoc. cbv iota.
  destruct (parse_enum_names_run labels (length labels) 0 s1 [] c h k1 H1 eq_refl)
    as (s2 & k2 & E2 & H2). exists s2, k2.
  split; [|done]. step E2. rewrite bind_assoc.
  step (outside_run _ c _ _ _ (elem_info_new_run h k2 a SNDRV_CTL_ELEM_TYPE_ENUMERATED Ha)).
  rewrite (bind_Ret _ _ _ _ _ (mret_run _ _)). rewrite finish_info_run; [done..|]. by destruct H2.
Qed.

(** C8: the labels of an enumerated element get from the process that adds (or
    replaces) elements to every process that asks for one of them: the call
    gives the identifiers of all elements, and what another process, with its
    own descriptor of the card, gets for each of these identifiers is an object
    for enumerated elements with exactly the labels, in their order. *)
Theorem added_labels_are_read (replace : bool) c h k p id d s labels entries (n : nat) a s' k'
    c2 h2 a2 p2 id2 :
  admissible s (Some labels) → enumerated s = true → Forall c_chars_only labels →
  h !! d = Some s → at_ptr h p id → length id = 64%nat → p.1 ≠ d → (0 < n)%nat →
  Z.of_nat n < 2 ^ 31 →
  alloc_addr h (Z.of_nat (length (names_bytes labels))) = Some a → fget ei_names_ptr s' = a →
  sys_elem_add (ca_fd c) (add_request replace)
    (sent_struct labels a (Z.of_nat n) id s) (names_bytes labels) k = (Sret tt, s', k') →
  same_card (ca_fd c) (ca_fd c2) k →
  at_ptr h2 p2 id2 → length id2 = 64%nat → alloc_addr h2 272 = Some a2 →
  let h' := <[d := fput ei_names_ptr 0 s']> h in
  let ids := id_sequence n (take 64 s') in
  let run := (if replace then alsactl_card_replace_elems else alsactl_card_add_elems)
    p (Z.of_nat n) (ElemInfo (d, 0) (Some labels)) entries (OState c (World h k)) in
  ((∃ boxes, run = (Ret (entries ++ map box boxes), OState c (World (boxed boxes ids h') k')) ∧
      new_boxes h' boxes ids) ∨ (∃ st, run = (Oom, st))) ∧
  (id2 ∈ ids →
     ∃ data k2, alsactl_card_get_elem_info p2 (OState c2 (World h2 k')) =
       (Ret (ElemInfo (a2, 0) (Some labels)), OState c2 (World (<[a2 := data]> h2) k2)) ∧
       tells (ca_fd c2) labels data k2).
Proof.
  intros Hadm Hen Hch Hd Hp Hid Hpd Hn Hnm Ha Hptr E Hsame Hp2 Hid2 Ha2 h' ids run.
  pose proof Hadm as (Hs & _ & _ & _ & _ & _ & Hlab). destruct (Hlab Hen) as (? & [= <-] & _ & _ & Hmax).
  pose proof (alloc_nonnull _ _ _ Ha) as Hnz.
  destruct (sent_struct_spec labels a (Z.of_nat n) id s Hs Hid) as (Hs1 & He1 & Hf1 & Hown);
    [intros _; lia|].
  destruct (Hf1 Hen) as (_ & _ & Hit). specialize (Hown ltac:(lia)).
  assert (length s' = 272%nat) as Hs'.
  { pose proof (elem_add_length (ca_fd c) (add_request replace) (sent_struct labels a (Z.of_nat n) id s)
      (names_bytes labels) k) as Hl. rewrite E, Hs1 in Hl. exact Hl. }
  split.
  - unfold run. rewrite add_method_run by done.
    assert (sent_names (Some labels) s = names_bytes labels) as Esn by (unfold sent_names; by rewrite Hen).
    pose proof (added_elems_run replace c h k p id d s (Some labels) entries n a s' k') as R.
    cbv zeta in R. rewrite Esn, Hen in R. cbn [default] in R.
    assert (take 64 (fput ei_names_ptr 0 s') = take 64 s') as Et.
    { pose proof (sub_fput_other ei_names_ptr 0 s' 0 64) as P. unfold sub in P. cbn [drop] in P.
      apply P; [by rewrite Hs'|left; by apply Nat.leb_le]. }
    rewrite Et in R. by apply R.
  - intros Hin. apply get_labels_run with (id := id2); [done..|].
    assert (add_request replace = CTL_ELEM_ADD ∨ add_request replace = CTL_ELEM_REPLACE) as Hreq
      by (destruct replace; [by right|by left]).
    pose proof (elem_add_labels _ _ _ _ labels k s' k' Hreq E ltac:(by rewrite He1) Hit Hch Hsame)
      as Hall. rewrite Hown, Nat2Z.id in Hall. by apply (proj1 (Forall_forall _ _) Hall).
Qed.
End info.

(** ** A sample card with labels *)

(** The state of the system is the labels of its enumerated elements, all of
    them made by one call. *)
Module SampleLabels.
#[local] Existing Instance Bump.allocator.
#[local] Existing Instance Bump.laws.
#[local] Existing Instance Sample.glib.

(** The names that lie behind each other, [n] of them. *)
Fixpoint split_names (n : nat) (bs : list byte) : list (list byte) :=
  match n with
  | O => []
  | S n => c_str bs :: split_names n (drop (S (length (c_str bs))) bs)
  end.

Lemma split_names_bytes labels :
  Forall c_chars_only labels → split_names (length labels) (names_bytes labels) = labels.
Proof.
  induction 1 as [|label labels Hl _ IH]; [done|]. cbn [length split_names].
  change (names_bytes (label :: labels)) with ((label ++ [Byte.x00]) ++ names_bytes labels).
  rewrite <- app_assoc. cbn [app]. rewrite c_str_app_nul by done.
  rewrite drop_app_ge by lia. replace (S (length label) - length label)%nat with 1%nat by lia.
  simpl. by rewrite drop_0, IH.
Qed.

Definition answer (labels : list (list byte)) (s : list byte) : list byte :=
  put_bytes ei_name
    (firstn 64 (default [] (labels !! Z.to_nat (fget ei_item s)) ++ zeros 64))
    (fput ei_items (Z.of_nat (length labels))
      (fput ei_type SNDRV_CTL_ELEM_TYPE_ENUMERATED s)).

#[export] Instance label_kernel : Kernel (list (list byte)) := {|
  sys_open path flags k := (Sret 9, k);
  sys_close fd k := k;
  sys_ioctl fd req s k :=
    if bool_decide (req = CTL_ELEM_INFO ∧ length s = 272%nat)
    then (Sret tt, answer k s, k) else (Serr ENOENT, s, k);
  sys_write fd bs k := (Serr EINVAL, k);
  sys_read fd n k := (Serr EAGAIN, k);
|}.

Definition short (labels : list (list byte)) : bool :=
  forallb (λ l, length l <? 64)%nat labels && (Z.of_nat (length labels) <? 2 ^ 32).

#[export] Instance label_ctl_kernel : CtlKernel (list (list byte)) := {|
  sys_elem_list fd l k := (Serr EINVAL, l, [], k);
  sys_elem_add fd req s names k :=
    let labels := split_names (Z.to_nat (fget ei_items s)) names in
    if bool_decide (length s = 272%nat) && enumerated s && short labels
    then (Sret tt, fput id_numid 7 s, labels) else (Serr EINVAL, s, k);
|}.

Lemma length_label (label : list byte) : length (take 64 (label ++ zeros 64)) = 64%nat.
Proof. rewrite length_take, length_app, length_zeros. lia. Qed.

Lemma length_answer labels s : length s = 272%nat → length (answer labels s) = 272%nat.
Proof.
  intros H. unfold answer. rewrite length_put_bytes; rewrite !length_fput by f_inside; [done|].
  rewrite length_label, H. by apply Nat.leb_le.
Qed.

#[export] Instance label_kernel_laws : KernelLaws (list (list byte)).
Proof.
  split; [by intros path flags k fd k' [= <- _]| |done|done].
  intros fd req s k. cbn [sys_ioctl label_kernel]. case_bool_decide as H; [|done].
  cbn [fst snd]. by rewrite (length_answer _ _ (proj2 H)), (proj2 H).
Qed.

#[export] Instance label_ctl_laws : CtlKernelLaws (list (list byte)).
Proof.
  split.
  - done.
  - intros fd s k. cbn [sys_elem_list label_ctl_kernel fst snd length]. split; [done|].
    unfold fget. cbn [f_signed el_space u32f]. unfold le_u.
    apply LittleEndianList.le_combine_bound.
  - intros fd req s names k. cbn [sys_elem_add label_ctl_kernel].
    case_bool_decide as H; cbn [andb]; [|done]. case_match; [|done].
    cbn [fst snd]. by rewrite length_fput by f_inside.
Qed.

#[export] Instance label_view : LabelledElems (list (list byte)) := {|
  same_card fd fd' k := True;
  labelled fd id labels k := labels = k ∧ short k = true ∧ Forall c_chars_only k;
|}.

Lemma answer_spec labels s :
  length s = 272%nat → short labels = true → Forall c_chars_only labels →
  fget ei_type (answer labels s) = SNDRV_CTL_ELEM_TYPE_ENUMERATED ∧
  fget ei_items (answer labels s) = Z.of_nat (length labels) ∧
  ∀ label, labels !! Z.to_nat (fget ei_item s) = Some label →
    c_str (drop ei_name (answer labels s)) = label.
Proof.
  intros Hs Hsh Hc. apply andb_true_iff in Hsh as [Hl Hn]. apply Z.ltb_lt in Hn.
  unfold answer. set (name := take 64 _). set (s1 := fput ei_type _ s). set (s2 := fput ei_items _ s1).
  assert (length s1 = 272 ∧ length s2 = 272)%nat as [H1 H2]
    by (unfold s2, s1; by rewrite !length_fput by f_inside).
  assert (ei_name + length name ≤ length s2)%nat as Hin
    by (unfold name; rewrite length_label, H2; by apply Nat.leb_le).
  assert (∀ f, (f_off f + f_width f ≤ ei_name)%nat → fget f (put_bytes ei_name name s2) = fget f s2)
    as Hf.
  { intros f Hf. unfold fget, le_s, le_u. rewrite sub_put_other by (done || by left). done. }
  split_and!.
  - rewrite Hf by by apply Nat.leb_le. unfold s2, s1, SNDRV_CTL_ELEM_TYPE_ENUMERATED. by fields.
  - rewrite Hf by by apply Nat.leb_le. unfold s2. by fields.
  - intros label Hlab. unfold name. rewrite Hlab. change (default [] (Some label)) with label.
    pose proof (proj1 (forallb_forall _ _) Hl label) as Hlt.
    pose proof (proj1 (Forall_forall _ _) Hc label) as Hchars.
    assert (label ∈ labels) as Hm by by eapply list_elem_of_lookup_2.
    specialize (Hlt (proj1 (list_elem_of_In _ _) Hm)). apply Nat.ltb_lt in Hlt. specialize (Hchars Hm).
    unfold put_bytes. rewrite drop_app_exact by (rewrite length_take, H2; by apply Nat.min_l, Nat.leb_le).
    rewrite take_app_ge by lia.
    destruct (64 - length label)%nat as [|m] eqn:Em; [lia|].
    rewrite <- app_assoc. change (take (S m) (zeros 64)) with (Byte.x00 :: take m (zeros 63)).
    cbn [app]. by rewrite c_str_app_nul.
Qed.

(** The names lie one behind the other, so their number and bytes determine
    them. *)
#[export] Instance label_laws : LabelledElemsLaws (list (list byte)).
Proof.
  split.
  - intros fd labels s k (-> & Hsh & Hc) Hs. exists (answer k s), k.
    cbn [sys_ioctl label_kernel]. rewrite bool_decide_true by done.
    split; [done|]. split; [by split|]. by apply answer_spec.
  - intros fd fd' req s labels k s' k' _ E He Hn Hc _. cbn [sys_elem_add label_ctl_kernel] in E.
    rewrite Hn, Nat2Z.id, (split_names_bytes labels Hc) in E.
    destruct (bool_decide (length s = 272%nat) && enumerated s && short labels) eqn:Eb; [|done].
    injection E as <- <-. apply andb_true_iff in Eb as [_ Hsh].
    apply Forall_forall. intros id _. by split.
Qed.

(** An element with the labels "On" and "Off" is added by one process and
    looked up by another one. *)
Definition labels : list (list byte) := [bytes_of_string "On"; bytes_of_string "Off"].
Definition info : list byte :=
  fput ei_count 1 (fput ei_access 3 (fput ei_type SNDRV_CTL_ELEM_TYPE_ENUMERATED
    (zeroed sizeof_elem_info))).
Definition ident : list byte := elem_id_of_name 2 0 0 "Mode" 0 (zeros 64).
Definition memory : heap := {[64 := ident; 256 := info]}.
Definition sent : list byte := fput id_numid 7 (sent_struct labels 4128 2 ident info).
Definition second : list byte := id_after (take 64 sent) 1.
Definition card_of (fd : Z) : card := Card fd None 0 [2; 0; 9] 1.

Lemma added_labels_are_read_witness :
  ∃ boxes h data,
    alsactl_card_add_elems (64, 0) 2 (ElemInfo (256, 0) (Some labels)) []
      (OState (card_of 9) (World memory [])) = (Ret boxes, OState (card_of 9) (World h labels)) ∧
    alsactl_card_get_elem_info (128, 0) (OState (card_of 10) (World {[128 := second]} labels)) =
      (Ret (ElemInfo (4128, 0) (Some labels)),
       OState (card_of 10) (World (<[4128 := data]> {[128 := second]}) labels)) ∧
    fget ei_items data = 2.
Proof.
  pose proof (added_labels_are_read false (card_of 9) memory [] (64, 0) ident 256 info labels [] 2 4128
    sent labels (card_of 10) {[128 := second]} 4128 (128, 0) second) as H.
  destruct H as [[(boxes & E1 & _)|(st & E1)] E2].
  1: { split_and!; try by vm_compute.
       intros _. exists labels. split; [done|]. split_and!; [done|by repeat constructor|by vm_compute]. }
  all: [> by vm_compute|by repeat constructor|by vm_compute|apply at_ptr_block; by vm_compute
    |by vm_compute|done|by apply Nat.ltb_lt|done|by vm_compute|by vm_compute|by vm_compute|done
    |apply at_ptr_block; by vm_compute|by vm_compute|by vm_compute|..].
  - destruct E2 as (data & k2 & E2 & _ & _ & Hn & Hk & _); [right; by left|].
    subst k2. eexists _, _, data. split; [exact E1|]. split; [exact E2|exact Hn].
  - by vm_compute in E1.
Defined.

(** The card answers, and it does not know another request. *)
Lemma get_elem_info_spec_witness :
  ∃ data k2, alsactl_card_get_elem_info (64, 0) (OState (card_of 9) (World memory labels)) =
    (Ret (ElemInfo (4128, 0) (Some labels)), OState (card_of 9) (World (<[4128 := data]> memory) k2)).
Proof.
  pose proof (get_elem_info_spec (card_of 9) memory labels (64, 0) ident (Sret tt)
    (answer labels (info_query ident)) labels 4128) as H.
  destruct H as (_ & He & _);
    [apply at_ptr_block; by vm_compute|by vm_compute|by vm_compute|by vm_compute|].
  destruct He as [(e & k2 & E)|(data & ls & k2 & E & _)]; [by vm_compute| |].
  - by vm_compute in E.
  - exists data, k2. pose proof (f_equal fst E) as E1. vm_compute in E1. injection E1 as <-. exact E.
Defined.
End SampleLabels.
