(* ===== verification/CtlValueFlow.v ===== *)
(** * The values of an element between two processes

    [src/src/ctl/card.c] together with [src/src/ctl/elem-value.c]: one process
    sets values to an object and writes it to an element of a card, another
    one reads the element into an object of its own and gets the values.  The
    element in the kernel is a parameter with the documented behaviour of the
    elements that keep what is written to them. *)
From S2P Require Import Prelude Heap SeqUapi Struct GValue Kernel Object SampleSystem.
From S2P Require Import CtlStructs CtlElemId CtlElemValue CtlElemValueProps CtlCard CtlCardFacts.

(** ** Elements that keep their values *)

(** [on_card fd n k]: the control device of card [n] is open as [fd].
    [elem_data n id data k]: the element with the identifier [id] keeps the
    bytes [data], which are as many as its values take. *)
Class ElemStore (K : Type) := {
  on_card : Z → Z → K → Prop;
  elem_data : Z → list byte → list byte → K → Prop;
}.

(** Writing keeps the first bytes of the values, and reading gives them. *)
Class ElemStoreLaws (K : Type) `{!Kernel K} `{!ElemStore K} : Prop := {
  elem_written fd n id old v s' (k k' : K) :
    on_card fd n k → elem_data n id old k → length v = 1224%nat → sub 0 64 v = id →
    sys_ioctl fd CTL_ELEM_WRITE v k = (Sret tt, s', k') →
    elem_data n id (sub 72 (length old) v) k' ∧ ∀ fd' n', on_card fd' n' k → on_card fd' n' k';
  elem_read fd n id data v (k : K) :
    on_card fd n k → elem_data n id data k → length v = 1224%nat → sub 0 64 v = id →
    ∃ s' k', sys_ioctl fd CTL_ELEM_READ v k = (Sret tt, s', k') ∧ sub 72 (length data) s' = data;
}.

Section flow.
Context {AL : Allocator} {ALW : AllocatorLaws} {GL : GLib} {K : Type} {KERN : Kernel K}.
Context {KL : KernelLaws K} {ES : ElemStore K} {ESL : ElemStoreLaws K}.
Implicit Types (h : heap) (c : card).

(** The values of the caller are set to the object at [a], which is written. *)
Definition set_and_write (kind : value_kind) (elem_id obj values : ptr) (count : Z) :
    M (ostate card K) unit :=
  outside (mem (set_value kind obj values count));; alsactl_card_write_elem_value elem_id obj.

(** The object is read and its values are got. *)
Definition read_and_get (kind : value_kind) (elem_id obj : ptr) : M (ostate card K) ptr :=
  alsactl_card_read_elem_value elem_id obj;; outside (mem (get_value kind obj)).

(** ** Pieces of values *)

(** The first elements of an array. *)
Lemma take_elements w o m n (s : list byte) :
  (m ≤ n)%nat → take m (elements w o n s) = elements w o m s.
Proof.
  revert o n. induction m as [|m IH]; intros o n H; [done|].
  destruct n as [|n]; [lia|]. cbn [elements take]. by rewrite IH by lia.
Qed.

Lemma take_concat_map (f : list byte → list byte) l m w :
  Forall (λ x, length (f x) = w) l → take (m * w) (concat (map f l)) = concat (map f (take m l)).
Proof.
  intros H. revert m. induction H as [|x l Hx _ IH]; intros m.
  { rewrite take_nil. apply take_nil. }
  destruct m as [|m]; [done|]. cbn [map concat take].
  rewrite take_app_ge by (rewrite Hx; lia). f_equal. rewrite Hx.
  replace (S m * w - w)%nat with (m * w)%nat by lia. apply IH.
Qed.

(** The first values an object shows come from the first bytes it holds. *)
Lemma got_array_take k m n s :
  (m ≤ n)%nat → (value_off k + n * raw_width k ≤ length s)%nat →
  take (m * value_width k) (got_array k n s) = got_array k m s.
Proof.
  intros Hm Hl. unfold got_array. rewrite (take_concat_map _ _ _ (value_width k)), take_elements; [done|done|].
  eapply Forall_impl; [by apply elements_length|]. intros x Hx. by apply length_got_element.
Qed.

Lemma got_array_ext k m d s t :
  (value_off k + m * raw_width k ≤ 72 + d)%nat → sub 72 d s = sub 72 d t →
  got_array k m s = got_array k m t.
Proof.
  intros Hm E. pose proof (proj1 (raw_fits k)). unfold got_array. do 2 f_equal.
  apply elements_ext. intros i Hi.
  assert (∀ x : list byte, sub (value_off k + i * raw_width k) (raw_width k) x =
    sub (value_off k - 72 + i * raw_width k) (raw_width k) (sub 72 d x)) as Es.
  { intros x. rewrite sub_sub by nia. f_equal. lia. }
  by rewrite Es, E, <- Es.
Qed.

(** ** The two processes *)

Lemma set_and_write_run kind c h k i id a s b t o count s' k' :
  h !! i = Some id → length id = 64%nat → i ≠ a →
  h !! a = Some s → length s = Z.to_nat sizeof_elem_value_private →
  h !! b = Some t → a ≠ b → 0 ≤ count →
  let n := Nat.min (Z.to_nat count) (value_size kind) in
  (o + n * value_width kind ≤ length t)%nat →
  let s1 := put_bytes (value_off kind) (concat (raw_array kind o n t)) s in
  sys_ioctl (ca_fd c) CTL_ELEM_WRITE (id ++ sub 64 1160 s1) k = (Sret tt, s', k') →
  set_and_write kind (i, 0) (a, 0) (b, Z.of_nat o) count (OState c (World h k)) =
    (Ret tt, OState c (World (<[a := s' ++ drop 1224 s1]> h) k')).
Proof.
  intros Hi Hli Hia Ha Hs Hb Hab Hc n Ho s1 E. unfold set_and_write.
  step (outside_mem _ c h k _ _ (set_value_run kind h a s b t o count Ha Hs Hb Hab Hc Ho)).
  fold n s1. unfold alsactl_card_write_elem_value.
  destruct (raw_array_elements kind o n t ltac:(lia) Ho) as (_ & _ & Lc).
  pose proof (raw_fits kind) as [_ Hf].
  assert (Z.to_nat sizeof_elem_value_private = 2248)%nat as Hz by done.
  rewrite (value_request_run c _ k i id a s1 _ _ _ (Sret tt) s' k'); [by rewrite insert_insert_eq|..].
  - by rewrite lookup_insert_ne.
  - done.
  - apply lookup_insert_eq.
  - unfold s1. rewrite length_put_bytes by lia. lia.
  - done.
Qed.

(** C7: what one process writes to an element another one reads: for each of
    the seven kinds of values, when the card accepts what the first process
    wrote, the second one reads the element without an error, and the array
    its getter gives begins with the values of the first process (booleans as
    0 or 1, zeros where it gave fewer), as many as the element keeps. *)
Theorem written_values_are_read kind c1 h1 i1 a1 s1 b t o count c2 h2 i2 a2 s2 id n old (k k1 : K) m s' :
  h1 !! i1 = Some id → length id = 64%nat → i1 ≠ a1 →
  h1 !! a1 = Some s1 → length s1 = Z.to_nat sizeof_elem_value_private →
  h1 !! b = Some t → a1 ≠ b → 0 ≤ count →
  let cnt := Nat.min (Z.to_nat count) (value_size kind) in
  (o + cnt * value_width kind ≤ length t)%nat →
  h2 !! i2 = Some id → i2 ≠ a2 →
  h2 !! a2 = Some s2 → length s2 = Z.to_nat sizeof_elem_value_private →
  on_card (ca_fd c1) n k → on_card (ca_fd c2) n k → elem_data n id old k →
  (m ≤ value_size kind)%nat → (value_off kind + m * raw_width kind ≤ 72 + length old ≤ 1224)%nat →
  sys_ioctl (ca_fd c1) CTL_ELEM_WRITE
    (id ++ sub 64 1160 (put_bytes (value_off kind) (concat (raw_array kind o cnt t)) s1)) k =
    (Sret tt, s', k1) →
  (∃ h1', set_and_write kind (i1, 0) (a1, 0) (b, Z.of_nat o) count (OState c1 (World h1 k)) =
     (Ret tt, OState c1 (World h1' k1))) ∧
  ∃ p s3 k2, read_and_get kind (i2, 0) (a2, 0) (OState c2 (World h2 k1)) =
      (Ret (a2, Z.of_nat p), OState c2 (World (<[a2 := s3]> h2) k2)) ∧
    sub p (m * value_width kind) s3 = take (m * value_width kind) (value_array kind o cnt t).
Proof.
  intros Hi1 Hli Hia1 Ha1 Hs1 Hb Hab Hc cnt Ho Hi2 Hia2 Ha2 Hs2 Hc1 Hc2 Hd Hm Hfit E.
  split.
  { eexists. by eapply set_and_write_run. }
  set (w := put_bytes (value_off kind) (concat (raw_array kind o cnt t)) s1) in *.
  destruct (raw_array_elements kind o cnt t ltac:(lia) Ho) as (_ & _ & Lc).
  pose proof (raw_fits kind) as [_ Hf].
  assert (Z.to_nat sizeof_elem_value_private = 2248)%nat as Hz by done.
  assert (length w = 2248%nat) as Hw by (unfold w; rewrite length_put_bytes; lia).
  assert (∀ x, length x = 2248%nat →
    length (id ++ sub 64 1160 x) = 1224%nat ∧ sub 0 64 (id ++ sub 64 1160 x) = id) as Hst.
  { intros x Hx. rewrite length_app, length_sub, Hli by lia. split; [done|].
    by apply sub_here. }
  destruct (elem_written _ n id old _ s' k k1 Hc1 Hd (proj1 (Hst w Hw)) (proj2 (Hst w Hw)) E)
    as [Hd1 Hk1].
  destruct (elem_read (ca_fd c2) n id _ (id ++ sub 64 1160 s2) k1 (Hk1 _ _ Hc2) Hd1)
    as (s3 & k2 & Er & Hr); [by apply Hst; lia..|].
  pose proof (ioctl_length (ca_fd c2) CTL_ELEM_READ (id ++ sub 64 1160 s2) k1) as Hl3.
  rewrite Er in Hl3. cbn [fst snd] in Hl3. rewrite (proj1 (Hst s2 ltac:(lia))) in Hl3.
  assert (length (sub 72 (length old) (id ++ sub 64 1160 w)) = length old) as Hlo.
  { apply length_sub. rewrite (proj1 (Hst w Hw)). lia. }
  rewrite Hlo in Hr. set (s4 := s3 ++ drop 1224 s2).
  assert (length s4 = 2248%nat) as H4 by (unfold s4; rewrite length_app, length_drop; lia).
  destruct (got_object_spec kind s4 ltac:(by rewrite Hz)) as (_ & Hg & _).
  exists (got_off kind), (got_object kind s4), k2. split.
  - unfold read_and_get, alsactl_card_read_elem_value.
    step (value_request_run c2 h2 k1 i2 id a2 s2 _ (not_found ++ [(EPERM, ALSACTL_CARD_ERROR_ELEM_NOT_SUPPORTED)])
      "ioctl(ELEM_READ)" (Sret tt) s3 k2 Hi2 Hli Ha2 ltac:(lia) Er).
    fold s4. rewrite (outside_mem _ c2 _ k2 _ _ (get_value_run kind _ a2 s4 (lookup_insert_eq _ _ _)
      ltac:(by rewrite Hz))). by rewrite insert_insert_eq.
  - assert (sub (got_off kind) (m * value_width kind) (got_object kind s4) =
      take (m * value_width kind) (got_array kind (value_size kind) s4)) as ->.
    { rewrite <- Hg. unfold sub. rewrite take_take. f_equal. nia. }
    rewrite <- (got_after_set kind o cnt t s1 Hs1 ltac:(lia) Ho). fold w.
    rewrite !got_array_take by lia. apply (got_array_ext kind m (length old)); [lia|].
    assert (sub 72 (length old) s4 = sub 72 (length old) s3) as ->.
    { unfold s4, sub. rewrite drop_app_le, take_app_le by (rewrite ?length_drop; lia). done. }
    rewrite Hr. unfold sub at 1 3. rewrite drop_app_ge by lia. rewrite Hli.
    unfold sub. rewrite skipn_firstn_comm, drop_drop, take_take. f_equal. lia.
Qed.
End flow.

(** ** A card with one element *)

(** The element keeps four values of 64 bits; the state of the system is what
    it keeps.  Two processes have the control device open. *)
Module SampleStore.
#[local] Existing Instance Bump.allocator.
#[local] Existing Instance Bump.laws.
#[local] Existing Instance Sample.glib.
Definition store : Type := list byte.

#[export] Instance store_kernel : Kernel store := {|
  sys_open path flags k := (Sret 9, k);
  sys_close fd k := k;
  sys_ioctl fd req v k :=
    if bool_decide (length v = 1224 ∧ length k = 32)%nat then
      match req with
      | CTL_ELEM_WRITE => (Sret tt, v, sub 72 32 v)
      | CTL_ELEM_READ => (Sret tt, put_bytes 72 k v, k)
      | _ => (Serr EINVAL, v, k)
      end
    else (Serr EINVAL, v, k);
  sys_write fd bs k := (Serr EINVAL, k);
  sys_read fd n k := (Serr EAGAIN, k);
|}.

#[export] Instance store_kernel_laws : KernelLaws store.
Proof.
  split; [by intros path flags k fd k' [= <- _]| |done|done].
  intros fd req bs k. cbn [sys_ioctl store_kernel]. case_bool_decide as H; [|done].
  destruct req; try done. cbn [fst snd]. apply length_put_bytes. lia.
Qed.

#[export] Instance store_view : ElemStore store := {|
  on_card fd n k := fd = 9 ∨ fd = 10;
  elem_data n id data k := data = k ∧ length k = 32%nat;
|}.

#[export] Instance store_laws : ElemStoreLaws store.
Proof.
  split.
  - intros fd n id old v s' k k' _ [-> Hk] Hv _. cbn [sys_ioctl store_kernel].
    rewrite bool_decide_true by done. intros [= _ <-]. rewrite Hk. split; [|done]. split; [done|].
    apply length_sub. lia.
  - intros fd n id data v k _ [-> Hk] Hv _. eexists _, _. cbn [sys_ioctl store_kernel].
    rewrite bool_decide_true by done. split; [done|]. apply sub_put_same. lia.
Qed.

(** Of three booleans 7, 0 and 1 the reader gets 1, 0 and 1, and 0 behind them. *)
Definition numbers (l : list Z) : list byte := concat (map (le_split 4) l).
Definition id : list byte := fput id_numid 1 (zeros 64).
Definition writer : heap := {[64 := id; 256 := zeroed 2248; 4096 := numbers [7; 0; 1]]}.
Definition reader : heap := {[128 := id; 512 := zeroed 2248]}.
Definition card_of (fd : Z) : card := Card fd None 0 [2; 0; 9] 1.

Lemma written_values_are_read_witness :
  ∃ h1 p s k1 k2,
    set_and_write KBool (64, 0) (256, 0) (4096, 0) 3 (OState (card_of 9) (World writer (zeros 32))) =
      (Ret tt, OState (card_of 9) (World h1 k1)) ∧
    read_and_get KBool (128, 0) (512, 0) (OState (card_of 10) (World reader k1)) =
      (Ret (512, Z.of_nat p), OState (card_of 10) (World (<[512 := s]> reader) k2)) ∧
    sub p 16 s = numbers [1; 0; 1; 0].
Proof.
  set (sent := id ++ sub 64 1160
    (put_bytes 72 (concat (raw_array KBool 0 3 (numbers [7; 0; 1]))) (zeroed 2248))).
  destruct (written_values_are_read KBool (card_of 9) writer 64 256 (zeroed 2248) 4096
    (numbers [7; 0; 1]) 0 3 (card_of 10) reader 128 512 (zeroed 2248) id 0 (zeros 32) (zeros 32)
    (sub 72 32 sent) 4 sent)
    as ((h1 & E1) & p & s & k2 & E2 & R);
    [first [by vm_compute | by left | by right | by split | by apply Nat.leb_le
           | by split; apply Nat.leb_le]..|].
  eexists h1, p, s, _, k2. split; [exact E1|]. split; [exact E2|].
  change (sub p (4 * value_width KBool) s = numbers [1; 0; 1; 0]). rewrite R. by vm_compute.
Defined.
End SampleStore.
