(* ===== verification/TimerQuery.v ===== *)
(** * Queries of timers: [src/src/timer/query.c] and [device-id.c]

    The queries open the timer device, send requests and close it.  A device
    identifier is a boxed [struct snd_timer_id]. *)
From S2P Require Import Prelude Heap SeqUapi Struct Kernel Sysfs.

(** ** Structures of the timer interface *)

Definition sizeof_timer_id : Z := 20.
Definition tid_class : field := i32f 0.
Definition tid_sclass : field := i32f 4.
Definition tid_card : field := i32f 8.
Definition tid_device : field := i32f 12.
Definition tid_subdevice : field := i32f 16.

(** The identifier comes first in each of these. *)
Definition sizeof_timer_ginfo : Z := 248.
Definition sizeof_timer_gparams : Z := 72.
Definition sizeof_timer_gstatus : Z := 80.
Definition sizeof_timer_select : Z := 52.

Definition SNDRV_TIMER_CLASS_NONE : Z := -1.
Definition SNDRV_TIMER_CLASS_SLAVE : Z := 0.

Section query.
Context {AL : Allocator} {GL : GLib} {K : Type} {KERN : Kernel K} {UD : Udev K}.

(** ** Identifiers of devices *)

Definition timer_device_id_copy (self : ptr) : M heap ptr :=
  a ← g_malloc sizeof_timer_id;
  memcpy (a, 0) self sizeof_timer_id;;
  mret (a, 0).

Definition alsatimer_device_id_new (class card_id device_id subdevice_id : Z) : M heap ptr :=
  a ← g_malloc0 sizeof_timer_id;
  s ← load (a, 0) sizeof_timer_id;
  store (a, 0) (fput tid_subdevice subdevice_id (fput tid_device device_id
    (fput tid_card card_id (fput tid_class class s))));;
  mret (a, 0).

Definition get_tid_field (f : field) (self : ptr) : M heap Z :=
  s ← load self sizeof_timer_id; mret (fget f s).

Definition alsatimer_device_id_get_class : ptr → M heap Z := get_tid_field tid_class.
Definition alsatimer_device_id_get_card_id : ptr → M heap Z := get_tid_field tid_card.
Definition alsatimer_device_id_get_device_id : ptr → M heap Z := get_tid_field tid_device.
Definition alsatimer_device_id_get_subdevice_id : ptr → M heap Z := get_tid_field tid_subdevice.

(** ** Names of the device *)

Definition alsatimer_get_sysname : M (world K) string :=
  or_file_error (lookup_and_allocate_sysname_by_sysname "timer")
    "Fail to generate timer sysname".

Definition alsatimer_get_devnode : M (world K) string :=
  or_file_error (lookup_and_allocate_devname_by_sysname "timer")
    "Fail to generate timer devname".

(** When the node is not known the function returns -1, which is no FALSE for
    its callers, and leaves [fd] unwritten: [None]. *)
Definition open_fd : M (world K) (option Z) :=
  devname ← catch alsatimer_get_devnode;
  match devname with
  | inr _ => mret None
  | inl devname =>
      fd ← do_open devname O_RDONLY;
      match fd with
      | Serr e => generate_file_error e "open"
      | Sret fd => mret (Some fd)
      end
  end.

(** ** The list of devices *)

(** The identifiers after [id], boxed, and the [errno] of a request that
    failed.  [fuel] bounds the number of requests; a loop that needs more
    counts as undefined. *)
Fixpoint next_devices (fuel : nat) (fd : Z) (id : list byte) (entries : list ptr) :
    M (world K) (sysret unit * list ptr) :=
  match fuel with
  | O => ub
  | S fuel =>
      '(r, id) ← ioctl_val fd TIMER_NEXT_DEVICE id;
      match r with
      | Serr e => mret (Serr e, entries)
      | Sret _ =>
          if fget tid_class id =? SNDRV_TIMER_CLASS_NONE then mret (Sret tt, entries) else
          a ← mem (g_malloc sizeof_timer_id);
          mem (store (a, 0) id);;
          next_devices fuel fd id (entries ++ [(a, 0)])
      end
  end.

Definition alsatimer_get_device_id_list (fuel : nat) (entries : list ptr) : M (world K) (list ptr) :=
  fd ← open_fd;
  fd ← initialized fd;
  '(r, entries) ← next_devices fuel fd (fput tid_class (-1) (zeros 20)) entries;
  do_close fd;;
  match r with
  | Serr e => generate_file_error e "ioctl(SNDRV_TIMER_IOCTL_NEXT_DEVICE)"
  | Sret _ => mret entries
  end.

(** ** Information on one device *)

(** [info->tid = *device_id] *)
Definition assign_tid (info device_id : ptr) : M (world K) unit :=
  mem (memcpy info device_id sizeof_timer_id).

Definition alsatimer_get_device_info (device_id : ptr) : M (world K) ptr :=
  fd ← open_fd;
  info ← g_object_new sizeof_timer_ginfo;
  assign_tid info device_id;;
  fd ← initialized fd;
  r ← ioctl_mem fd TIMER_GINFO info sizeof_timer_ginfo;
  match r with
  | Serr e =>
      g_object_unref info;; do_close fd;;
      generate_file_error e "ioctl(SNDRV_TIMER_IOCTL_GINFO)"
  | Sret _ => do_close fd;; mret info
  end.

(** The object of the caller is released when the request fails. *)
Definition alsatimer_get_device_status (device_id device_status : ptr) : M (world K) unit :=
  fd ← open_fd;
  assign_tid device_status device_id;;
  fd ← initialized fd;
  r ← ioctl_mem fd TIMER_GSTATUS device_status sizeof_timer_gstatus;
  match r with
  | Serr e =>
      g_object_unref device_status;; do_close fd;;
      generate_file_error e "ioctl(SNDRV_TIMER_IOCTL_GSTATUS)"
  | Sret _ => do_close fd
  end.

Definition alsatimer_set_device_params (device_id device_params : ptr) : M (world K) unit :=
  fd ← open_fd;
  assign_tid device_params device_id;;
  fd ← initialized fd;
  r ← ioctl_mem fd TIMER_GPARAMS device_params sizeof_timer_gparams;
  do_close fd;;
  match r with
  | Serr e => generate_file_error e "ioctl(SNDRV_TIMER_IOCTL_GPARAMS)"
  | Sret _ => mret tt
  end.

(** ** The clock of time stamps *)

(** The characters of a buffer up to its null character; there must be one. *)
Fixpoint c_chars (bs : list byte) : option (list Ascii.ascii) :=
  match bs with
  | [] => None
  | b :: bs =>
      if byte.unsigned b =? 0 then Some []
      else s ← c_chars bs; Some (Ascii.ascii_of_nat (Z.to_nat (byte.unsigned b)) :: s)
  end.

(** The parameter of the module as a number; the buffer of the caller holds
    what was read, and [long_from_string] reads on to a null character. *)
Definition timer_get_node_param_value (param_name : string) (buf : ptr) (size : Z) :
    M (world K) Z :=
  fd ← do_open ("/sys/module/snd_timer/parameters/" +:+ param_name) O_RDONLY;
  match fd with
  | Serr e => generate_file_error e "open"
  | Sret fd =>
      len ← do_read fd buf size;
      match len with
      | Serr e => do_close fd;; generate_file_error e "read()"
      | Sret _ =>
          bs ← mem (load buf size);
          match c_chars bs with
          | None => ub
          | Some literal =>
              do_close fd;;
              match long_from_string literal with
              | Serr e =>
                  generate_file_error e
                    "Fail to parse snd_timer module parameter as integer value"
              | Sret v => mret (i32 v)
              end
          end
      end
  end.

(** [while (val > 0) { val /= 10; ++size; }] *)
Fixpoint count_digits (fuel : nat) (val size : Z) : Z :=
  match fuel with
  | O => size
  | S fuel => if 0 <? val then count_digits fuel (val / 10) (size + 1) else size
  end.

Definition CLOCK_REALTIME : Z := 0.
Definition CLOCK_MONOTONIC : Z := 1.

Definition alsatimer_get_real_time_clock_id : M (world K) Z :=
  let size := count_digits 32 INT_MAX 0 + 2 in
  buf ← mem (g_malloc0 size);
  val ← catch (timer_get_node_param_value "timer_tstamp_monotonic" (buf, 0) size);
  mem (g_free buf);;
  match val with
  | inr e => fail e
  | inl val =>
      if val =? 0 then mret CLOCK_REALTIME
      else if val =? 1 then mret CLOCK_MONOTONIC
      else generate_file_error EPROTO "timer_tstamp_monotonic"
  end.
End query.
