(* ===== verification/SeqObjects.v ===== *)
(** * Objects of information of the sequencer

    [src/src/seq/client-info.c], [client-pool.c], [port-info.c],
    [queue-info.c], [queue-status.c], [queue-tempo.c], [queue-timer-common.c],
    [queue-timer-alsa.c], [remove-filter.c], [subscribe-data.c] and
    [system-info.c].  Each object holds one structure of the kernel interface;
    its properties are enumerated by a type, read and written by the handlers
    of its class and specified as the class installs them.  A handler that
    falls to the default case leaves the value or the structure as it is. *)
From S2P Require Import Prelude SeqUapi Struct GValue SeqStructs SeqEvent.

(** ** Clients *)

Inductive seq_client_info_prop :=
  | SEQ_CLIENT_INFO_PROP_CLIENT_ID | SEQ_CLIENT_INFO_PROP_CLIENT_TYPE
  | SEQ_CLIENT_INFO_PROP_NAME | SEQ_CLIENT_INFO_PROP_FILTER_ATTR_FLAGS
  | SEQ_CLIENT_INFO_PROP_USE_FILTER | SEQ_CLIENT_INFO_PROP_PORT_COUNT
  | SEQ_CLIENT_INFO_PROP_LOST_COUNT | SEQ_CLIENT_INFO_PROP_CARD_ID
  | SEQ_CLIENT_INFO_PROP_PROCESS_ID.

(** [flags &= ~bit; if (on) flags |= bit] *)
Definition reset_flag (f : field) (bit : Z) (on : bool) (s : list byte) : list byte :=
  let s := fput f (Z.land (fget f s) (Z.lnot bit)) s in
  if on then fput f (Z.lor (fget f s) bit) s else s.

Definition seq_client_info_set_property (id : seq_client_info_prop) (val : gvalue)
    (info : list byte) : option (list byte) :=
  match id with
  | SEQ_CLIENT_INFO_PROP_CLIENT_ID => Some (fput ci_client (g_value_get_uchar val) info)
  | SEQ_CLIENT_INFO_PROP_CLIENT_TYPE => Some (fput ci_type (g_value_get_enum val) info)
  | SEQ_CLIENT_INFO_PROP_NAME => Some (put_string ci_name 64 val info)
  | SEQ_CLIENT_INFO_PROP_FILTER_ATTR_FLAGS =>
      let info := fput ci_filter (Z.land (fget ci_filter info) SNDRV_SEQ_FILTER_USE_EVENT) info in
      Some (fput ci_filter (Z.lor (fget ci_filter info) (g_value_get_flags val)) info)
  | SEQ_CLIENT_INFO_PROP_USE_FILTER =>
      Some (reset_flag ci_filter SNDRV_SEQ_FILTER_USE_EVENT
              (negb (g_value_get_boolean val =? 0)) info)
  | SEQ_CLIENT_INFO_PROP_LOST_COUNT => Some (fput ci_event_lost (g_value_get_int val) info)
  | _ => Some info
  end.

Definition seq_client_info_get_property (id : seq_client_info_prop) (info : list byte)
    (val : gvalue) : gvalue :=
  match id with
  | SEQ_CLIENT_INFO_PROP_CLIENT_ID => g_value_set_uchar val (fget ci_client info)
  | SEQ_CLIENT_INFO_PROP_CLIENT_TYPE => g_value_set_enum val (fget ci_type info)
  | SEQ_CLIENT_INFO_PROP_NAME => g_value_set_static_string val (sub ci_name 64 info)
  | SEQ_CLIENT_INFO_PROP_FILTER_ATTR_FLAGS =>
      g_value_set_flags val (Z.land (fget ci_filter info) SNDRV_SEQ_FILTER_USE_EVENT)
  | SEQ_CLIENT_INFO_PROP_USE_FILTER =>
      g_value_set_boolean val
        (if Z.land (fget ci_filter info) SNDRV_SEQ_FILTER_USE_EVENT =? 0 then 0 else 1)
  | SEQ_CLIENT_INFO_PROP_PORT_COUNT => g_value_set_int val (fget ci_num_ports info)
  | SEQ_CLIENT_INFO_PROP_LOST_COUNT => g_value_set_int val (fget ci_event_lost info)
  | SEQ_CLIENT_INFO_PROP_CARD_ID => g_value_set_int val (fget ci_card info)
  | SEQ_CLIENT_INFO_PROP_PROCESS_ID => g_value_set_int64 val (fget ci_pid info)
  end.

Definition ALSASEQ_CLIENT_TYPE_NONE : Z := 0.

Definition seq_client_info_props (id : seq_client_info_prop) : pspec :=
  match id with
  | SEQ_CLIENT_INFO_PROP_CLIENT_ID => g_param_spec_uchar "client-id" 0 G_MAXUINT8 0 READWRITE
  | SEQ_CLIENT_INFO_PROP_CLIENT_TYPE =>
      g_param_spec_enum "type" "ALSASeqClientType" ALSASEQ_CLIENT_TYPE_NONE READWRITE
  | SEQ_CLIENT_INFO_PROP_NAME => g_param_spec_string "name" READWRITE
  | SEQ_CLIENT_INFO_PROP_FILTER_ATTR_FLAGS =>
      g_param_spec_flags "filter-attributes" "ALSASeqFilterAttrFlag" 0 READWRITE
  | SEQ_CLIENT_INFO_PROP_USE_FILTER => g_param_spec_boolean "use-filter" false READWRITE
  | SEQ_CLIENT_INFO_PROP_PORT_COUNT => g_param_spec_int "port-count" 0 G_MAXINT 0 READABLE
  | SEQ_CLIENT_INFO_PROP_LOST_COUNT => g_param_spec_int "lost-count" 0 G_MAXINT 0 READABLE
  | SEQ_CLIENT_INFO_PROP_CARD_ID => g_param_spec_int "card-id" G_MININT G_MAXINT (-1) READWRITE
  | SEQ_CLIENT_INFO_PROP_PROCESS_ID =>
      g_param_spec_int64 "process-id" G_MININT64 G_MAXINT64 (-1) READABLE
  end.

(** ** Pools of clients *)

Inductive seq_client_pool_prop :=
  | SEQ_CLIENT_POOL_PROP_CLIENT_ID | SEQ_CLIENT_POOL_PROP_OUTPUT_POOL
  | SEQ_CLIENT_POOL_PROP_INPUT_POOL | SEQ_CLIENT_POOL_PROP_OUTPUT_ROOM
  | SEQ_CLIENT_POOL_PROP_OUTPUT_FREE | SEQ_CLIENT_POOL_PROP_INPUT_FREE.

Definition seq_client_pool_set_property (id : seq_client_pool_prop) (val : gvalue)
    (pool : list byte) : option (list byte) :=
  match id with
  | SEQ_CLIENT_POOL_PROP_OUTPUT_POOL => Some (fput pool_output_pool (g_value_get_uint val) pool)
  | SEQ_CLIENT_POOL_PROP_INPUT_POOL => Some (fput pool_input_pool (g_value_get_uint val) pool)
  | SEQ_CLIENT_POOL_PROP_OUTPUT_ROOM => Some (fput pool_output_room (g_value_get_uint val) pool)
  | SEQ_CLIENT_POOL_PROP_OUTPUT_FREE => Some (fput pool_output_free (g_value_get_uint val) pool)
  | SEQ_CLIENT_POOL_PROP_INPUT_FREE => Some (fput pool_input_free (g_value_get_uint val) pool)
  | _ => Some pool
  end.

Definition seq_client_pool_get_property (id : seq_client_pool_prop) (pool : list byte)
    (val : gvalue) : gvalue :=
  match id with
  | SEQ_CLIENT_POOL_PROP_CLIENT_ID => g_value_set_uchar val (fget pool_client pool)
  | SEQ_CLIENT_POOL_PROP_OUTPUT_POOL => g_value_set_uint val (fget pool_output_pool pool)
  | SEQ_CLIENT_POOL_PROP_INPUT_POOL => g_value_set_uint val (fget pool_input_pool pool)
  | SEQ_CLIENT_POOL_PROP_OUTPUT_ROOM => g_value_set_uint val (fget pool_output_room pool)
  | SEQ_CLIENT_POOL_PROP_OUTPUT_FREE => g_value_set_uint val (fget pool_output_free pool)
  | SEQ_CLIENT_POOL_PROP_INPUT_FREE => g_value_set_uint val (fget pool_input_free pool)
  end.

Definition seq_client_pool_props (id : seq_client_pool_prop) : pspec :=
  match id with
  | SEQ_CLIENT_POOL_PROP_CLIENT_ID => g_param_spec_uchar "client-id" 0 G_MAXUINT8 0 READABLE
  | SEQ_CLIENT_POOL_PROP_OUTPUT_POOL => g_param_spec_uint "output-pool" 0 G_MAXINT 0 READWRITE
  | SEQ_CLIENT_POOL_PROP_INPUT_POOL => g_param_spec_uint "input-pool" 0 G_MAXINT 0 READWRITE
  | SEQ_CLIENT_POOL_PROP_OUTPUT_ROOM => g_param_spec_uint "output-room" 0 G_MAXINT 0 READWRITE
  | SEQ_CLIENT_POOL_PROP_OUTPUT_FREE => g_param_spec_uint "output-free" 0 G_MAXINT 0 READWRITE
  | SEQ_CLIENT_POOL_PROP_INPUT_FREE => g_param_spec_uint "input-free" 0 G_MAXINT 0 READWRITE
  end.

(** ** Ports *)

Inductive seq_port_info_prop :=
  | SEQ_PORT_INFO_PROP_ADDR | SEQ_PORT_INFO_PROP_NAME | SEQ_PORT_INFO_PROP_CAPS
  | SEQ_PORT_INFO_PROP_ATTRS | SEQ_PORT_INFO_PROP_MIDI_CHANNELS
  | SEQ_PORT_INFO_PROP_MIDI_VOICES | SEQ_PORT_INFO_PROP_SYNTH_VOICES
  | SEQ_PORT_INFO_PROP_READ_USERS | SEQ_PORT_INFO_PROP_WRITE_USERS
  | SEQ_PORT_INFO_PROP_TSTAMP_OVERWRITE | SEQ_PORT_INFO_PROP_TSTAMP_MODE
  | SEQ_PORT_INFO_PROP_TIME_QUEUE.

(** [flags |= bit] or [flags &= ~bit] *)
Definition set_flag (f : field) (bit : Z) (on : bool) (s : list byte) : list byte :=
  if on then fput f (Z.lor (fget f s) bit) s else fput f (Z.land (fget f s) (Z.lnot bit)) s.

Definition seq_port_info_set_property (id : seq_port_info_prop) (val : gvalue)
    (info : list byte) : option (list byte) :=
  match id with
  | SEQ_PORT_INFO_PROP_ADDR =>
      Some (match g_value_get_boxed val with
            | Some addr => put_bytes pi_addr addr info
            | None => info
            end)
  | SEQ_PORT_INFO_PROP_NAME => Some (put_string pi_name 64 val info)
  | SEQ_PORT_INFO_PROP_CAPS => Some (fput pi_capability (g_value_get_flags val) info)
  | SEQ_PORT_INFO_PROP_ATTRS => Some (fput pi_type (g_value_get_flags val) info)
  | SEQ_PORT_INFO_PROP_MIDI_CHANNELS => Some (fput pi_midi_channels (g_value_get_int val) info)
  | SEQ_PORT_INFO_PROP_MIDI_VOICES => Some (fput pi_midi_voices (g_value_get_int val) info)
  | SEQ_PORT_INFO_PROP_SYNTH_VOICES => Some (fput pi_synth_voices (g_value_get_int val) info)
  | SEQ_PORT_INFO_PROP_READ_USERS => Some (fput pi_read_use (g_value_get_int val) info)
  | SEQ_PORT_INFO_PROP_WRITE_USERS => Some (fput pi_write_use (g_value_get_int val) info)
  | SEQ_PORT_INFO_PROP_TSTAMP_OVERWRITE =>
      Some (set_flag pi_flags SNDRV_SEQ_PORT_FLG_TIMESTAMP (negb (g_value_get_boolean val =? 0)) info)
  | SEQ_PORT_INFO_PROP_TSTAMP_MODE =>
      Some (set_flag pi_flags SNDRV_SEQ_PORT_FLG_TIME_REAL (negb (g_value_get_enum val =? 0)) info)
  | SEQ_PORT_INFO_PROP_TIME_QUEUE => Some (fput pi_time_queue (g_value_get_uchar val) info)
  end.

Definition seq_port_info_get_property (id : seq_port_info_prop) (info : list byte)
    (val : gvalue) : gvalue :=
  match id with
  | SEQ_PORT_INFO_PROP_ADDR => g_value_set_static_boxed val (sub pi_addr 2 info)
  | SEQ_PORT_INFO_PROP_NAME => g_value_set_static_string val (sub pi_name 64 info)
  | SEQ_PORT_INFO_PROP_CAPS => g_value_set_flags val (fget pi_capability info)
  | SEQ_PORT_INFO_PROP_ATTRS => g_value_set_flags val (fget pi_type info)
  | SEQ_PORT_INFO_PROP_MIDI_CHANNELS => g_value_set_int val (fget pi_midi_channels info)
  | SEQ_PORT_INFO_PROP_MIDI_VOICES => g_value_set_int val (fget pi_midi_voices info)
  | SEQ_PORT_INFO_PROP_SYNTH_VOICES => g_value_set_int val (fget pi_synth_voices info)
  | SEQ_PORT_INFO_PROP_READ_USERS => g_value_set_int val (fget pi_read_use info)
  | SEQ_PORT_INFO_PROP_WRITE_USERS => g_value_set_int val (fget pi_write_use info)
  | SEQ_PORT_INFO_PROP_TSTAMP_OVERWRITE =>
      g_value_set_boolean val (Z.land (fget pi_flags info) SNDRV_SEQ_PORT_FLG_TIMESTAMP)
  | SEQ_PORT_INFO_PROP_TSTAMP_MODE =>
      g_value_set_enum val
        (if negb (Z.land (fget pi_flags info) SNDRV_SEQ_PORT_FLG_TIME_REAL =? 0)
         then ALSASEQ_EVENT_TSTAMP_MODE_REAL else ALSASEQ_EVENT_TSTAMP_MODE_TICK)
  | SEQ_PORT_INFO_PROP_TIME_QUEUE => g_value_set_uchar val (fget pi_time_queue info)
  end.

Definition seq_port_info_props (id : seq_port_info_prop) : pspec :=
  match id with
  | SEQ_PORT_INFO_PROP_ADDR => g_param_spec_boxed "addr" "ALSASeqAddr" CONSTRUCT_ONLY
  | SEQ_PORT_INFO_PROP_NAME => g_param_spec_string "name" READWRITE
  | SEQ_PORT_INFO_PROP_CAPS => g_param_spec_flags "caps" "ALSASeqPortCapFlag" 0 READWRITE
  | SEQ_PORT_INFO_PROP_ATTRS => g_param_spec_flags "attrs" "ALSASeqPortAttrFlag" 0 READWRITE
  | SEQ_PORT_INFO_PROP_MIDI_CHANNELS => g_param_spec_int "midi-channels" 0 G_MAXINT 0 READWRITE
  | SEQ_PORT_INFO_PROP_MIDI_VOICES => g_param_spec_int "midi-voices" 0 G_MAXINT 0 READWRITE
  | SEQ_PORT_INFO_PROP_SYNTH_VOICES => g_param_spec_int "synth-voices" 0 G_MAXINT 0 READWRITE
  | SEQ_PORT_INFO_PROP_READ_USERS => g_param_spec_int "read-users" 0 G_MAXINT 0 READABLE
  | SEQ_PORT_INFO_PROP_WRITE_USERS => g_param_spec_int "write-users" 0 G_MAXINT 0 READABLE
  | SEQ_PORT_INFO_PROP_TSTAMP_OVERWRITE => g_param_spec_boolean "tstamp-overwrite" false READWRITE
  | SEQ_PORT_INFO_PROP_TSTAMP_MODE =>
      g_param_spec_enum "tstamp-mode" "ALSASeqEventTstampMode" ALSASEQ_EVENT_TSTAMP_MODE_TICK READWRITE
  | SEQ_PORT_INFO_PROP_TIME_QUEUE => g_param_spec_uchar "queue-id" 0 G_MAXUINT8 0 READWRITE
  end.

(** ** Queues *)

Inductive seq_queue_info_prop :=
  | SEQ_QUEUE_INFO_PROP_QUEUE_ID | SEQ_QUEUE_INFO_PROP_CLIENT_ID | SEQ_QUEUE_INFO_PROP_LOCKED
  | SEQ_QUEUE_INFO_PROP_NAME.

(** A bit field of one bit, the lowest of its byte. *)
Definition put_bit (f : field) (v : Z) (s : list byte) : list byte :=
  fput f (set_bits 1 (Z.land v 1) (fget f s)) s.
Definition get_bit (f : field) (s : list byte) : Z := Z.land (fget f s) 1.

Definition seq_queue_info_set_property (id : seq_queue_info_prop) (val : gvalue)
    (info : list byte) : option (list byte) :=
  match id with
  | SEQ_QUEUE_INFO_PROP_QUEUE_ID => Some (fput qi_queue (g_value_get_uchar val) info)
  | SEQ_QUEUE_INFO_PROP_CLIENT_ID => Some (fput qi_owner (g_value_get_uchar val) info)
  | SEQ_QUEUE_INFO_PROP_LOCKED => Some (put_bit qi_locked (g_value_get_boolean val) info)
  | SEQ_QUEUE_INFO_PROP_NAME => Some (put_string qi_name 64 val info)
  end.

Definition seq_queue_info_get_property (id : seq_queue_info_prop) (info : list byte)
    (val : gvalue) : gvalue :=
  match id with
  | SEQ_QUEUE_INFO_PROP_QUEUE_ID => g_value_set_uchar val (fget qi_queue info)
  | SEQ_QUEUE_INFO_PROP_CLIENT_ID => g_value_set_uchar val (fget qi_owner info)
  | SEQ_QUEUE_INFO_PROP_LOCKED => g_value_set_boolean val (get_bit qi_locked info)
  | SEQ_QUEUE_INFO_PROP_NAME => g_value_set_static_string val (sub qi_name 64 info)
  end.

Definition seq_queue_info_props (id : seq_queue_info_prop) : pspec :=
  match id with
  | SEQ_QUEUE_INFO_PROP_QUEUE_ID => g_param_spec_uchar "queue-id" 0 G_MAXUINT8 0 READWRITE
  | SEQ_QUEUE_INFO_PROP_CLIENT_ID => g_param_spec_uchar "client-id" 0 G_MAXUINT8 0 READWRITE
  | SEQ_QUEUE_INFO_PROP_LOCKED => g_param_spec_boolean "locked" false READWRITE
  | SEQ_QUEUE_INFO_PROP_NAME => g_param_spec_string "name" READWRITE
  end.

Inductive seq_queue_status_prop :=
  | SEQ_QUEUE_STATUS_PROP_QUEUE_ID | SEQ_QUEUE_STATUS_PROP_EVENT_COUNT
  | SEQ_QUEUE_STATUS_PROP_RUNNING.

Definition seq_queue_status_get_property (id : seq_queue_status_prop) (status : list byte)
    (val : gvalue) : gvalue :=
  match id with
  | SEQ_QUEUE_STATUS_PROP_QUEUE_ID => g_value_set_int val (fget qs_queue status)
  | SEQ_QUEUE_STATUS_PROP_EVENT_COUNT => g_value_set_int val (fget qs_events status)
  | SEQ_QUEUE_STATUS_PROP_RUNNING => g_value_set_boolean val (fget qs_running status)
  end.

Definition seq_queue_status_props (id : seq_queue_status_prop) : pspec :=
  match id with
  | SEQ_QUEUE_STATUS_PROP_QUEUE_ID => g_param_spec_uchar "queue-id" 0 G_MAXUINT8 0 READABLE
  | SEQ_QUEUE_STATUS_PROP_EVENT_COUNT => g_param_spec_int "event-count" 0 G_MAXINT 0 READABLE
  | SEQ_QUEUE_STATUS_PROP_RUNNING => g_param_spec_boolean "running" false READABLE
  end.

Definition alsaseq_queue_status_get_tick_time (status : list byte) : Z := fget qs_tick status.

(** The two numbers behind the pointer into the structure. *)
Definition alsaseq_queue_status_get_real_time (status : list byte) : Z * Z :=
  (le_u qs_time 4 status, le_u (qs_time + 4) 4 status).

Inductive seq_queue_tempo_prop :=
  | SEQ_QUEUE_TEMPO_PROP_QUEUE_ID | SEQ_QUEUE_TEMPO_PROP_TEMPO | SEQ_QUEUE_TEMPO_PROP_RESOLUTION.

Definition seq_queue_tempo_set_property (id : seq_queue_tempo_prop) (val : gvalue)
    (tempo : list byte) : option (list byte) :=
  match id with
  | SEQ_QUEUE_TEMPO_PROP_QUEUE_ID => Some (fput qt_queue (g_value_get_uchar val) tempo)
  | SEQ_QUEUE_TEMPO_PROP_TEMPO => Some (fput qt_tempo (g_value_get_int val) tempo)
  | SEQ_QUEUE_TEMPO_PROP_RESOLUTION => Some (fput qt_ppq (g_value_get_int val) tempo)
  end.

Definition seq_queue_tempo_get_property (id : seq_queue_tempo_prop) (tempo : list byte)
    (val : gvalue) : gvalue :=
  match id with
  | SEQ_QUEUE_TEMPO_PROP_QUEUE_ID => g_value_set_uchar val (fget qt_queue tempo)
  | SEQ_QUEUE_TEMPO_PROP_TEMPO => g_value_set_uint val (fget qt_tempo tempo)
  | SEQ_QUEUE_TEMPO_PROP_RESOLUTION => g_value_set_int val (fget qt_ppq tempo)
  end.

Definition seq_queue_tempo_props (id : seq_queue_tempo_prop) : pspec :=
  match id with
  | SEQ_QUEUE_TEMPO_PROP_QUEUE_ID => g_param_spec_uchar "queue-id" 0 G_MAXUINT8 0 READWRITE
  | SEQ_QUEUE_TEMPO_PROP_TEMPO => g_param_spec_uint "tempo" 0 G_MAXUINT 0 READWRITE
  | SEQ_QUEUE_TEMPO_PROP_RESOLUTION => g_param_spec_int "resolution" 0 G_MAXINT 0 READWRITE
  end.

Definition alsaseq_queue_tempo_get_skew (tempo : list byte) : Z * Z :=
  (fget qt_skew_value tempo, fget qt_skew_base tempo).

Definition alsaseq_queue_tempo_set_skew (skew : Z * Z) (tempo : list byte) : list byte :=
  fput qt_skew_base skew.2 (fput qt_skew_value skew.1 tempo).

(** ** Timers of queues

    The properties of the common interface come first; the class hands what it
    does not know to the functions of the interface. *)

Inductive queue_timer_common_prop :=
  | QUEUE_TIMER_COMMON_PROP_QUEUE_ID | QUEUE_TIMER_COMMON_PROP_TIMER_TYPE.

Definition queue_timer_common_set_property (data : list byte) (id : queue_timer_common_prop)
    (val : gvalue) : option (list byte) :=
  match id with
  | QUEUE_TIMER_COMMON_PROP_QUEUE_ID => Some (fput tm_queue (g_value_get_uchar val) data)
  | QUEUE_TIMER_COMMON_PROP_TIMER_TYPE => Some (fput tm_type (g_value_get_enum val) data)
  end.

Definition queue_timer_common_get_property (data : list byte) (id : queue_timer_common_prop)
    (val : gvalue) : gvalue :=
  match id with
  | QUEUE_TIMER_COMMON_PROP_QUEUE_ID => g_value_set_uchar val (fget tm_queue data)
  | QUEUE_TIMER_COMMON_PROP_TIMER_TYPE => g_value_set_enum val (fget tm_type data)
  end.

Definition queue_timer_common_props (id : queue_timer_common_prop) : pspec :=
  match id with
  | QUEUE_TIMER_COMMON_PROP_QUEUE_ID => g_param_spec_uchar "queue-id" 0 G_MAXUINT8 0 READABLE
  | QUEUE_TIMER_COMMON_PROP_TIMER_TYPE =>
      g_param_spec_enum "timer-type" "ALSASeqQueueTimerType" SNDRV_SEQ_TIMER_ALSA READABLE
  end.

Inductive queue_timer_alsa_prop :=
  | QUEUE_TIMER_COMMON (id : queue_timer_common_prop)
  | QUEUE_TIMER_ALSA_PROP_DEVICE_ID | QUEUE_TIMER_ALSA_PROP_RESOLUTION_TICKS.

Definition seq_queue_timer_alsa_set_property (id : queue_timer_alsa_prop) (val : gvalue)
    (data : list byte) : option (list byte) :=
  match id with
  | QUEUE_TIMER_ALSA_PROP_DEVICE_ID => put_boxed tm_id val data
  | QUEUE_TIMER_ALSA_PROP_RESOLUTION_TICKS => Some (fput tm_resolution (g_value_get_uint val) data)
  | QUEUE_TIMER_COMMON id => queue_timer_common_set_property data id val
  end.

Definition seq_queue_timer_alsa_get_property (id : queue_timer_alsa_prop) (data : list byte)
    (val : gvalue) : gvalue :=
  match id with
  | QUEUE_TIMER_ALSA_PROP_DEVICE_ID => g_value_set_static_boxed val (sub tm_id 20 data)
  | QUEUE_TIMER_ALSA_PROP_RESOLUTION_TICKS => g_value_set_uint val (fget tm_resolution data)
  | QUEUE_TIMER_COMMON id => queue_timer_common_get_property data id val
  end.

Definition queue_timer_alsa_props (id : queue_timer_alsa_prop) : pspec :=
  match id with
  | QUEUE_TIMER_COMMON id => queue_timer_common_props id
  | QUEUE_TIMER_ALSA_PROP_DEVICE_ID =>
      g_param_spec_boxed "device-id" "ALSATimerDeviceId" READWRITE
  | QUEUE_TIMER_ALSA_PROP_RESOLUTION_TICKS =>
      g_param_spec_uint "resolution-ticks" 0 G_MAXUINT 0 READWRITE
  end.

(** ** Filters of removal *)

Inductive seq_remove_filter_prop :=
  | SEQ_REMOVE_FILTER_PROP_FLAGS | SEQ_REMOVE_FILTER_PROP_QUEUE_ID | SEQ_REMOVE_FILTER_PROP_DST
  | SEQ_REMOVE_FILTER_PROP_CHANNEL | SEQ_REMOVE_FILTER_PROP_EVENT_TYPE
  | SEQ_REMOVE_FILTER_PROP_TAG.

Definition seq_remove_filter_get_property (id : seq_remove_filter_prop) (data : list byte)
    (val : gvalue) : gvalue :=
  match id with
  | SEQ_REMOVE_FILTER_PROP_FLAGS => g_value_set_flags val (fget rm_remove_mode data)
  | SEQ_REMOVE_FILTER_PROP_QUEUE_ID => g_value_set_uchar val (fget rm_queue data)
  | SEQ_REMOVE_FILTER_PROP_DST => g_value_set_static_boxed val (sub rm_dest 2 data)
  | SEQ_REMOVE_FILTER_PROP_CHANNEL => g_value_set_uchar val (fget rm_channel data)
  | SEQ_REMOVE_FILTER_PROP_EVENT_TYPE => g_value_set_enum val (fget rm_type data)
  | SEQ_REMOVE_FILTER_PROP_TAG => g_value_set_schar val (fget rm_tag data)
  end.

Definition seq_remove_filter_set_property (id : seq_remove_filter_prop) (val : gvalue)
    (data : list byte) : option (list byte) :=
  match id with
  | SEQ_REMOVE_FILTER_PROP_FLAGS => Some (fput rm_remove_mode (g_value_get_flags val) data)
  | SEQ_REMOVE_FILTER_PROP_QUEUE_ID => Some (fput rm_queue (g_value_get_uchar val) data)
  | SEQ_REMOVE_FILTER_PROP_DST => put_boxed rm_dest val data
  | SEQ_REMOVE_FILTER_PROP_CHANNEL => Some (fput rm_channel (g_value_get_uchar val) data)
  | SEQ_REMOVE_FILTER_PROP_EVENT_TYPE => Some (fput rm_type (g_value_get_enum val) data)
  | SEQ_REMOVE_FILTER_PROP_TAG => Some (fput rm_tag (g_value_get_schar val) data)
  end.

Definition seq_remove_filter_props (id : seq_remove_filter_prop) : pspec :=
  match id with
  | SEQ_REMOVE_FILTER_PROP_FLAGS =>
      g_param_spec_flags "flags" "ALSASeqRemoveFilterFlag" 0 READWRITE
  | SEQ_REMOVE_FILTER_PROP_QUEUE_ID => g_param_spec_uchar "queue-id" 0 G_MAXUINT8 0 READWRITE
  | SEQ_REMOVE_FILTER_PROP_DST => g_param_spec_boxed "destination" "ALSASeqAddr" READWRITE
  | SEQ_REMOVE_FILTER_PROP_CHANNEL => g_param_spec_uchar "channel" 0 G_MAXUINT8 0 READWRITE
  | SEQ_REMOVE_FILTER_PROP_EVENT_TYPE =>
      g_param_spec_enum "event-type" "ALSASeqEventType" SNDRV_SEQ_EVENT_NONE READWRITE
  | SEQ_REMOVE_FILTER_PROP_TAG => g_param_spec_char "tag" G_MININT8 G_MAXINT8 0 READWRITE
  end.

(** The other operations of objects run on the structure of the object. *)
Abbreviation OM := (M (list byte)).

Definition tick_mode (data : list byte) : bool :=
  0 <? Z.land (fget rm_remove_mode data) SNDRV_SEQ_REMOVE_TIME_TICK.

Definition alsaseq_remove_filter_get_tick_time : OM Z :=
  data ← get;
  g_return_if_fail (tick_mode data);;
  mret (fget rm_tick data).

Definition alsaseq_remove_filter_set_tick_time (tick_time : Z) : OM unit :=
  data ← get;
  g_return_if_fail (tick_mode data);;
  put (fput rm_tick tick_time data).

(** The two numbers behind the pointer into the structure. *)
Definition alsaseq_remove_filter_get_real_time : OM (Z * Z) :=
  data ← get;
  g_return_if_fail (negb (tick_mode data));;
  mret (fget rm_tv_sec data, fget rm_tv_nsec data).

Definition alsaseq_remove_filter_set_real_time (real_time : Z * Z) : OM unit :=
  data ← get;
  g_return_if_fail (negb (tick_mode data));;
  put (fput rm_tv_nsec real_time.2 (fput rm_tv_sec real_time.1 data)).

(** ** Subscriptions *)

Inductive seq_subscribe_data_prop :=
  | SEQ_SUBSCRIBE_DATA_PROP_SENDER | SEQ_SUBSCRIBE_DATA_PROP_DEST
  | SEQ_SUBSCRIBE_DATA_PROP_IS_EXCLUSIVE | SEQ_SUBSCRIBE_DATA_PROP_HAS_TSTAMP
  | SEQ_SUBSCRIBE_DATA_PROP_TSTAMP_MODE | SEQ_SUBSCRIBE_DATA_PROP_QUEUE_ID.

Definition seq_subscribe_data_set_property (id : seq_subscribe_data_prop) (val : gvalue)
    (data : list byte) : option (list byte) :=
  match id with
  | SEQ_SUBSCRIBE_DATA_PROP_SENDER => put_boxed ps_sender val data
  | SEQ_SUBSCRIBE_DATA_PROP_DEST => put_boxed ps_dest val data
  | SEQ_SUBSCRIBE_DATA_PROP_IS_EXCLUSIVE =>
      Some (reset_flag ps_flags SNDRV_SEQ_PORT_SUBS_EXCLUSIVE
              (negb (g_value_get_boolean val =? 0)) data)
  | SEQ_SUBSCRIBE_DATA_PROP_HAS_TSTAMP =>
      Some (reset_flag ps_flags SNDRV_SEQ_PORT_SUBS_TIMESTAMP
              (negb (g_value_get_boolean val =? 0)) data)
  | SEQ_SUBSCRIBE_DATA_PROP_TSTAMP_MODE =>
      Some (reset_flag ps_flags SNDRV_SEQ_PORT_SUBS_TIME_REAL
              (g_value_get_enum val =? ALSASEQ_EVENT_TSTAMP_MODE_REAL) data)
  | SEQ_SUBSCRIBE_DATA_PROP_QUEUE_ID => Some (fput ps_queue (g_value_get_uchar val) data)
  end.

Definition seq_subscribe_data_get_property (id : seq_subscribe_data_prop) (data : list byte)
    (val : gvalue) : gvalue :=
  match id with
  | SEQ_SUBSCRIBE_DATA_PROP_SENDER => g_value_set_static_boxed val (sub ps_sender 2 data)
  | SEQ_SUBSCRIBE_DATA_PROP_DEST => g_value_set_static_boxed val (sub ps_dest 2 data)
  | SEQ_SUBSCRIBE_DATA_PROP_IS_EXCLUSIVE =>
      g_value_set_boolean val
        (if 0 <? Z.land (fget ps_flags data) SNDRV_SEQ_PORT_SUBS_EXCLUSIVE then 1 else 0)
  | SEQ_SUBSCRIBE_DATA_PROP_HAS_TSTAMP =>
      g_value_set_boolean val
        (if 0 <? Z.land (fget ps_flags data) SNDRV_SEQ_PORT_SUBS_TIMESTAMP then 1 else 0)
  | SEQ_SUBSCRIBE_DATA_PROP_TSTAMP_MODE =>
      g_value_set_enum val
        (if negb (Z.land (fget ps_flags data) SNDRV_SEQ_PORT_SUBS_TIME_REAL =? 0)
         then ALSASEQ_EVENT_TSTAMP_MODE_REAL else ALSASEQ_EVENT_TSTAMP_MODE_TICK)
  | SEQ_SUBSCRIBE_DATA_PROP_QUEUE_ID => g_value_set_uchar val (fget ps_queue data)
  end.

Definition seq_subscribe_data_props (id : seq_subscribe_data_prop) : pspec :=
  match id with
  | SEQ_SUBSCRIBE_DATA_PROP_SENDER => g_param_spec_boxed "sender" "ALSASeqAddr" READWRITE
  | SEQ_SUBSCRIBE_DATA_PROP_DEST => g_param_spec_boxed "dest" "ALSASeqAddr" READWRITE
  | SEQ_SUBSCRIBE_DATA_PROP_IS_EXCLUSIVE => g_param_spec_boolean "is-exclusive" false READWRITE
  | SEQ_SUBSCRIBE_DATA_PROP_HAS_TSTAMP => g_param_spec_boolean "has-tstamp" false READWRITE
  | SEQ_SUBSCRIBE_DATA_PROP_TSTAMP_MODE =>
      g_param_spec_enum "tstamp-mode" "ALSASeqEventTstampMode" ALSASEQ_EVENT_TSTAMP_MODE_TICK
        READWRITE
  | SEQ_SUBSCRIBE_DATA_PROP_QUEUE_ID => g_param_spec_uchar "queue-id" 0 G_MAXUINT8 0 READWRITE
  end.

(** ** The system *)

Inductive seq_system_info_prop :=
  | SEQ_SYSTEM_INFO_PROP_MAXIMUM_QUEUE_COUNT | SEQ_SYSTEM_INFO_PROP_MAXIMUM_CLIENT_COUNT
  | SEQ_SYSTEM_INFO_PROP_MAXIMUM_PORT_COUNT | SEQ_SYSTEM_INFO_PROP_MAXIMUM_CHANNEL_COUNT
  | SEQ_SYSTEM_INFO_PROP_CURRENT_CLIENT_COUNT | SEQ_SYSTEM_INFO_PROP_CURRENT_QUEUE_COUNT.

Definition seq_system_info_get_property (id : seq_system_info_prop) (info : list byte)
    (val : gvalue) : gvalue :=
  match id with
  | SEQ_SYSTEM_INFO_PROP_MAXIMUM_QUEUE_COUNT => g_value_set_int val (fget sys_queues info)
  | SEQ_SYSTEM_INFO_PROP_MAXIMUM_CLIENT_COUNT => g_value_set_int val (fget sys_clients info)
  | SEQ_SYSTEM_INFO_PROP_MAXIMUM_PORT_COUNT => g_value_set_int val (fget sys_ports info)
  | SEQ_SYSTEM_INFO_PROP_MAXIMUM_CHANNEL_COUNT => g_value_set_int val (fget sys_channels info)
  | SEQ_SYSTEM_INFO_PROP_CURRENT_CLIENT_COUNT => g_value_set_int val (fget sys_cur_clients info)
  | SEQ_SYSTEM_INFO_PROP_CURRENT_QUEUE_COUNT => g_value_set_int val (fget sys_cur_queues info)
  end.

Definition seq_system_info_props (id : seq_system_info_prop) : pspec :=
  match id with
  | SEQ_SYSTEM_INFO_PROP_MAXIMUM_QUEUE_COUNT =>
      g_param_spec_int "maximum-queue-count" 0 G_MAXINT 0 READABLE
  | SEQ_SYSTEM_INFO_PROP_MAXIMUM_CLIENT_COUNT =>
      g_param_spec_int "maximum-client-count" 0 G_MAXINT 0 READABLE
  | SEQ_SYSTEM_INFO_PROP_MAXIMUM_PORT_COUNT =>
      g_param_spec_int "maximum-port-count" 0 G_MAXINT 0 READABLE
  | SEQ_SYSTEM_INFO_PROP_MAXIMUM_CHANNEL_COUNT =>
      g_param_spec_int "maximum-channel-count" 0 G_MAXINT 0 READABLE
  | SEQ_SYSTEM_INFO_PROP_CURRENT_CLIENT_COUNT =>
      g_param_spec_int "current-client-count" 0 G_MAXINT 0 READABLE
  | SEQ_SYSTEM_INFO_PROP_CURRENT_QUEUE_COUNT =>
      g_param_spec_int "current-queue-count" 0 G_MAXINT 0 READABLE
  end.

(** ** Filters of events of a client

    One bit for each of the 256 types, in eight words of 32 bits. *)

Definition filter_word (order : Z) : field := u32f (ci_event_filter + 4 * Z.to_nat order).

Definition add_event_type (info : list byte) (event_type : Z) : list byte :=
  let order := u32 (u64 event_type / 32) in
  let idx := u64 event_type mod 32 in
  if order <? 8 then
    fput (filter_word order) (Z.lor (fget (filter_word order) info) (Z.shiftl 1 idx)) info
  else info.

Definition alsaseq_client_info_set_event_filter (event_types : list Z) : OM unit :=
  info ← get;
  put (foldl add_event_type (put_bytes ci_event_filter (zeros 32) info) event_types).

Definition in_event_filter (i : Z) (info : list byte) : bool :=
  let order := i / 32 in
  let idx := i mod 32 in
  (order <? 8) && negb (Z.land (fget (filter_word order) info) (Z.shiftl 1 idx) =? 0).

(** The loops from [i] on over [n] types. *)
Fixpoint count_event_types (n : nat) (i : Z) (info : list byte) (count : Z) : Z :=
  match n with
  | 0%nat => count
  | S n => count_event_types n (i + 1) info
             (if in_event_filter i info then u32 (count + 1) else count)
  end.

(** What is written to an array of [count] elements. *)
Fixpoint list_event_types (n : nat) (i : Z) (info : list byte) (count : Z) (types : list Z) :
    OM (list Z) :=
  match n with
  | 0%nat => mret types
  | S n =>
      types ← (if in_event_filter i info then
                 if Z.of_nat (length types) <? count then mret (types ++ [i]) else ub
               else mret types);
      list_event_types n (i + 1) info count types
  end.

(** NULL when there is no type in the filter. *)
Definition alsaseq_client_info_get_event_filter : OM (option (list Z)) :=
  info ← get;
  let n := Z.to_nat (SNDRV_SEQ_EVENT_NONE + 1) in
  let count := count_event_types n 0 info 0 in
  if count =? 0 then mret None else
  types ← list_event_types n 0 info count [];
  mret (Some types).
