(* ===== verification/TimerObjects.v ===== *)
(** * Objects of information of timers

    [src/src/timer/device-info.c], [device-params.c], [device-status.c],
    [instance-info.c], [instance-params.c] with its filter of events, and
    [instance-status.c]. *)
From S2P Require Import Prelude SeqUapi Struct GValue.

(** ** Devices *)

(** [struct snd_timer_ginfo], [snd_timer_gparams] and [snd_timer_gstatus] *)
Definition tgi_flags : field := u32f 20.
Definition tgi_card : field := i32f 24.
Definition tgi_id : nat := 28.
Definition tgi_name : nat := 92.
Definition tgi_resolution : field := u64f 184.
Definition tgi_resolution_min : field := u64f 192.
Definition tgi_resolution_max : field := u64f 200.
Definition tgi_clients : field := u32f 208.
Definition tgp_period_num : field := u64f 24.
Definition tgp_period_den : field := u64f 32.
Definition tgs_resolution : field := u64f 24.
Definition tgs_resolution_num : field := u64f 32.
Definition tgs_resolution_den : field := u64f 40.

Inductive timer_device_info_prop :=
  | TIMER_DEVICE_INFO_PROP_FLAGS | TIMER_DEVICE_INFO_PROP_CARD_ID | TIMER_DEVICE_INFO_PROP_ID
  | TIMER_DEVICE_INFO_PROP_NAME | TIMER_DEVICE_INFO_PROP_RESOLUTION
  | TIMER_DEVICE_INFO_PROP_RESOLUTION_MIN | TIMER_DEVICE_INFO_PROP_RESOLUTION_MAX
  | TIMER_DEVICE_INFO_PROP_INSTANCE_COUNT.

Definition timer_device_info_get_property (id : timer_device_info_prop) (info : list byte)
    (val : gvalue) : gvalue :=
  match id with
  | TIMER_DEVICE_INFO_PROP_FLAGS => g_value_set_flags val (fget tgi_flags info)
  | TIMER_DEVICE_INFO_PROP_CARD_ID => g_value_set_int val (fget tgi_card info)
  | TIMER_DEVICE_INFO_PROP_ID => g_value_set_static_string val (sub tgi_id 64 info)
  | TIMER_DEVICE_INFO_PROP_NAME => g_value_set_static_string val (sub tgi_name 80 info)
  | TIMER_DEVICE_INFO_PROP_RESOLUTION => g_value_set_uint64 val (fget tgi_resolution info)
  | TIMER_DEVICE_INFO_PROP_RESOLUTION_MIN => g_value_set_uint64 val (fget tgi_resolution_min info)
  | TIMER_DEVICE_INFO_PROP_RESOLUTION_MAX => g_value_set_uint64 val (fget tgi_resolution_max info)
  | TIMER_DEVICE_INFO_PROP_INSTANCE_COUNT => g_value_set_uint val (fget tgi_clients info)
  end.

Definition timer_device_info_props (id : timer_device_info_prop) : pspec :=
  match id with
  | TIMER_DEVICE_INFO_PROP_FLAGS =>
      g_param_spec_flags "flags" "ALSATimerDeviceInfoFlag" 0 READABLE
  | TIMER_DEVICE_INFO_PROP_CARD_ID => g_param_spec_int "card-id" G_MININT G_MAXINT (-1) READABLE
  | TIMER_DEVICE_INFO_PROP_ID => g_param_spec_string "id" READABLE
  | TIMER_DEVICE_INFO_PROP_NAME => g_param_spec_string "name" READABLE
  | TIMER_DEVICE_INFO_PROP_RESOLUTION =>
      g_param_spec_uint64 "resolution" 0 G_MAXUINT64 0 READABLE
  | TIMER_DEVICE_INFO_PROP_RESOLUTION_MIN =>
      g_param_spec_uint64 "resolution-min" 0 G_MAXUINT64 0 READABLE
  | TIMER_DEVICE_INFO_PROP_RESOLUTION_MAX =>
      g_param_spec_uint64 "resolution-max" 0 G_MAXUINT64 0 READABLE
  | TIMER_DEVICE_INFO_PROP_INSTANCE_COUNT =>
      g_param_spec_uint "instance-count" 0 G_MAXUINT 0 READABLE
  end.

Inductive timer_device_params_prop :=
  | TIMER_DEVICE_PARAMS_PROP_PERIOD_NUM | TIMER_DEVICE_PARAMS_PROP_PERIOD_DEN.

Definition timer_device_params_set_property (id : timer_device_params_prop) (val : gvalue)
    (params : list byte) : option (list byte) :=
  match id with
  | TIMER_DEVICE_PARAMS_PROP_PERIOD_NUM => Some (fput tgp_period_num (g_value_get_uint64 val) params)
  | TIMER_DEVICE_PARAMS_PROP_PERIOD_DEN => Some (fput tgp_period_den (g_value_get_uint64 val) params)
  end.

Definition timer_device_params_get_property (id : timer_device_params_prop)
    (params : list byte) (val : gvalue) : gvalue :=
  match id with
  | TIMER_DEVICE_PARAMS_PROP_PERIOD_NUM => g_value_set_uint64 val (fget tgp_period_num params)
  | TIMER_DEVICE_PARAMS_PROP_PERIOD_DEN => g_value_set_uint64 val (fget tgp_period_den params)
  end.

Definition timer_device_params_props (id : timer_device_params_prop) : pspec :=
  match id with
  | TIMER_DEVICE_PARAMS_PROP_PERIOD_NUM =>
      g_param_spec_uint64 "period-numerator" 0 G_MAXUINT64 0 READWRITE
  | TIMER_DEVICE_PARAMS_PROP_PERIOD_DEN =>
      g_param_spec_uint64 "period-denominator" 0 G_MAXUINT64 0 READWRITE
  end.

Inductive timer_device_status_prop :=
  | TIMER_DEVICE_STATUS_PROP_RESOLUTION | TIMER_DEVICE_STATUS_PROP_RESOLUTION_NUM
  | TIMER_DEVICE_STATUS_PROP_RESOLUTION_DEN.

Definition timer_device_status_get_property (id : timer_device_status_prop)
    (status : list byte) (val : gvalue) : gvalue :=
  match id with
  | TIMER_DEVICE_STATUS_PROP_RESOLUTION => g_value_set_uint64 val (fget tgs_resolution status)
  | TIMER_DEVICE_STATUS_PROP_RESOLUTION_NUM =>
      g_value_set_uint64 val (fget tgs_resolution_num status)
  | TIMER_DEVICE_STATUS_PROP_RESOLUTION_DEN =>
      g_value_set_uint64 val (fget tgs_resolution_den status)
  end.

Definition timer_device_status_props (id : timer_device_status_prop) : pspec :=
  match id with
  | TIMER_DEVICE_STATUS_PROP_RESOLUTION =>
      g_param_spec_uint64 "resolution" 0 G_MAXUINT64 0 READABLE
  | TIMER_DEVICE_STATUS_PROP_RESOLUTION_NUM =>
      g_param_spec_uint64 "resolution-numerator" 0 G_MAXUINT64 0 READABLE
  | TIMER_DEVICE_STATUS_PROP_RESOLUTION_DEN =>
      g_param_spec_uint64 "resolution-denominator" 0 G_MAXUINT64 0 READABLE
  end.

(** ** Instances *)

(** [struct snd_timer_info], [snd_timer_params] and [snd_timer_status] *)
Definition ti_flags : field := u32f 0.
Definition ti_card : field := i32f 4.
Definition ti_id : nat := 8.
Definition ti_name : nat := 72.
Definition ti_resolution : field := u64f 160.
Definition tp_flags : field := u32f 0.
Definition tp_ticks : field := u32f 4.
Definition tp_queue_size : field := u32f 8.
Definition tp_filter : field := u32f 16.
Definition ts_tv_sec : field := i64f 0.
Definition ts_tv_nsec : field := i64f 8.
Definition ts_resolution : field := u32f 16.
Definition ts_lost : field := u32f 20.
Definition ts_overrun : field := u32f 24.
Definition ts_queue : field := u32f 28.

Inductive timer_instance_info_prop :=
  | TIMER_INSTANCE_INFO_PROP_FLAGS | TIMER_INSTANCE_INFO_PROP_CARD_ID
  | TIMER_INSTANCE_INFO_PROP_ID | TIMER_INSTANCE_INFO_PROP_NAME
  | TIMER_INSTANCE_INFO_PROP_RESOLUTION.

Definition timer_instance_info_get_property (id : timer_instance_info_prop) (info : list byte)
    (val : gvalue) : gvalue :=
  match id with
  | TIMER_INSTANCE_INFO_PROP_FLAGS => g_value_set_flags val (fget ti_flags info)
  | TIMER_INSTANCE_INFO_PROP_CARD_ID => g_value_set_int val (fget ti_card info)
  | TIMER_INSTANCE_INFO_PROP_ID => g_value_set_static_string val (sub ti_id 64 info)
  | TIMER_INSTANCE_INFO_PROP_NAME => g_value_set_static_string val (sub ti_name 80 info)
  | TIMER_INSTANCE_INFO_PROP_RESOLUTION => g_value_set_uint64 val (fget ti_resolution info)
  end.

Definition timer_instance_info_props (id : timer_instance_info_prop) : pspec :=
  match id with
  | TIMER_INSTANCE_INFO_PROP_FLAGS =>
      g_param_spec_flags "flags" "ALSATimerDeviceInfoFlag" 0 READABLE
  | TIMER_INSTANCE_INFO_PROP_CARD_ID => g_param_spec_int "card-id" G_MININT G_MAXINT (-1) READABLE
  | TIMER_INSTANCE_INFO_PROP_ID => g_param_spec_string "id" READABLE
  | TIMER_INSTANCE_INFO_PROP_NAME => g_param_spec_string "name" READABLE
  | TIMER_INSTANCE_INFO_PROP_RESOLUTION =>
      g_param_spec_uint64 "resolution" 0 G_MAXUINT64 0 READABLE
  end.

Inductive timer_instance_params_prop :=
  | TIMER_INSTANCE_PARAMS_PROP_FLAGS | TIMER_INSTANCE_PARAMS_PROP_INTERVAL
  | TIMER_INSTANCE_PARAMS_PROP_QUEUE_SIZE.

Definition timer_instance_params_set_property (id : timer_instance_params_prop) (val : gvalue)
    (params : list byte) : option (list byte) :=
  match id with
  | TIMER_INSTANCE_PARAMS_PROP_FLAGS => Some (fput tp_flags (g_value_get_flags val) params)
  | TIMER_INSTANCE_PARAMS_PROP_INTERVAL => Some (fput tp_ticks (g_value_get_uint val) params)
  | TIMER_INSTANCE_PARAMS_PROP_QUEUE_SIZE => Some (fput tp_queue_size (g_value_get_uint val) params)
  end.

Definition timer_instance_params_get_property (id : timer_instance_params_prop)
    (params : list byte) (val : gvalue) : gvalue :=
  match id with
  | TIMER_INSTANCE_PARAMS_PROP_FLAGS => g_value_set_flags val (fget tp_flags params)
  | TIMER_INSTANCE_PARAMS_PROP_INTERVAL => g_value_set_uint val (fget tp_ticks params)
  | TIMER_INSTANCE_PARAMS_PROP_QUEUE_SIZE => g_value_set_uint val (fget tp_queue_size params)
  end.

Definition timer_instance_params_props (id : timer_instance_params_prop) : pspec :=
  match id with
  | TIMER_INSTANCE_PARAMS_PROP_FLAGS =>
      g_param_spec_flags "flags" "ALSATimerInstanceParamFlag" 0 READWRITE
  | TIMER_INSTANCE_PARAMS_PROP_INTERVAL => g_param_spec_uint "interval" 0 G_MAXUINT 0 READWRITE
  | TIMER_INSTANCE_PARAMS_PROP_QUEUE_SIZE => g_param_spec_uint "queue-size" 0 G_MAXUINT 0 READWRITE
  end.

Inductive timer_instance_status_prop :=
  | TIMER_INSTANCE_STATUS_PROP_INTERVAL | TIMER_INSTANCE_STATUS_PROP_LOST
  | TIMER_INSTANCE_STATUS_PROP_OVERRUN | TIMER_INSTANCE_STATUS_PROP_QUEUE_SIZE.

Definition timer_instance_status_get_property (id : timer_instance_status_prop)
    (status : list byte) (val : gvalue) : gvalue :=
  match id with
  | TIMER_INSTANCE_STATUS_PROP_INTERVAL => g_value_set_uint val (fget ts_resolution status)
  | TIMER_INSTANCE_STATUS_PROP_LOST => g_value_set_uint val (fget ts_lost status)
  | TIMER_INSTANCE_STATUS_PROP_OVERRUN => g_value_set_uint val (fget ts_overrun status)
  | TIMER_INSTANCE_STATUS_PROP_QUEUE_SIZE => g_value_set_uint val (fget ts_queue status)
  end.

Definition timer_instance_status_props (id : timer_instance_status_prop) : pspec :=
  match id with
  | TIMER_INSTANCE_STATUS_PROP_INTERVAL => g_param_spec_uint "interval" 0 G_MAXUINT 0 READABLE
  | TIMER_INSTANCE_STATUS_PROP_LOST => g_param_spec_uint "lost" 0 G_MAXUINT 0 READABLE
  | TIMER_INSTANCE_STATUS_PROP_OVERRUN => g_param_spec_uint "overrun" 0 G_MAXUINT 0 READABLE
  | TIMER_INSTANCE_STATUS_PROP_QUEUE_SIZE => g_param_spec_uint "queue-size" 0 G_MAXUINT 0 READABLE
  end.

(** The two numbers behind the pointer into the object. *)
Definition alsatimer_instance_status_get_time (status : list byte) : Z * Z :=
  (fget ts_tv_sec status, fget ts_tv_nsec status).

(** ** Filters of events of an instance

    One bit for each type of event. *)

Definition SNDRV_TIMER_EVENT_RESOLUTION : Z := 0.
Definition SNDRV_TIMER_EVENT_RESUME : Z := 8.
Definition SNDRV_TIMER_EVENT_MSTART : Z := 12.
Definition SNDRV_TIMER_EVENT_MRESUME : Z := 18.

Abbreviation OM := (M (list byte)).

Definition invalid_event (val : Z) : bool :=
  (val <? SNDRV_TIMER_EVENT_RESOLUTION) ||
  ((SNDRV_TIMER_EVENT_RESUME <? val) && (val <? SNDRV_TIMER_EVENT_MSTART)) ||
  (SNDRV_TIMER_EVENT_MRESUME <? val).

Fixpoint filter_of (entries : list Z) (filter : Z) : OM Z :=
  match entries with
  | [] => mret filter
  | val :: entries =>
      if invalid_event val then critical else filter_of entries (Z.lor filter (Z.shiftl 1 val))
  end.

(** The filter is cleared before the entries are examined. *)
Definition alsatimer_instance_params_set_event_filter (entries : list Z) : OM unit :=
  params ← get;
  let params := fput tp_filter 0 params in
  put params;;
  if Z.of_nat (length entries) =? 0 then mret tt else
  filter ← filter_of entries 0;
  put (fput tp_filter filter params).

Fixpoint count_bits (n : nat) (i filter count : Z) : Z :=
  match n with
  | 0%nat => count
  | S n =>
      count_bits n (i + 1) filter
        (if negb (Z.land (Z.shiftl 1 i) filter =? 0) then u32 (count + 1) else count)
  end.

(** What is written to an array of [count] elements; the loop ends when it is
    full. *)
Fixpoint list_bits (n : nat) (i filter count : Z) (entries : list Z) : OM (list Z) :=
  match n with
  | 0%nat => mret entries
  | S n =>
      if negb (Z.land (Z.shiftl 1 i) filter =? 0) then
        entries ← (if Z.of_nat (length entries) <? count then mret (entries ++ [i]) else ub);
        if count <=? Z.of_nat (length entries) then mret entries
        else list_bits n (i + 1) filter count entries
      else list_bits n (i + 1) filter count entries
  end.

(** [None] when the call succeeds without writing [entries] and
    [entry_count]. *)
Definition alsatimer_instance_params_get_event_filter : OM (option (list Z)) :=
  params ← get;
  let filter := fget tp_filter params in
  let count := count_bits 32 0 filter 0 in
  if count =? 0 then mret None else
  entries ← list_bits 32 0 filter count [];
  mret (Some entries).
