(* ===== verification/TimerUserInstance.v ===== *)
(** * The user instance of a timer: [src/src/timer/user-instance.c]

    An object that holds a file descriptor of the timer device.  The kernel
    delivers events in one of two formats; the instance chooses the format by a
    request and remembers the choice to tell the events apart. *)
From S2P Require Import Prelude Heap SeqUapi Struct Kernel Sysfs Object TimerQuery.

Definition ALSATIMER_EVENT_TYPE_TICK_TIME : Z := 0.
Definition ALSATIMER_EVENT_TYPE_REAL_TIME : Z := 1.

Definition ALSATIMER_USER_INSTANCE_ERROR_FAILED : Z := 0.
Definition ALSATIMER_USER_INSTANCE_ERROR_TIMER_NOT_FOUND : Z := 1.
Definition ALSATIMER_USER_INSTANCE_ERROR_NOT_ATTACHED : Z := 2.
Definition ALSATIMER_USER_INSTANCE_ERROR_ATTACHED : Z := 3.

Definition err_msgs (code : Z) : string :=
  if code =? ALSATIMER_USER_INSTANCE_ERROR_TIMER_NOT_FOUND then
    "The timer instance is not found"
  else if code =? ALSATIMER_USER_INSTANCE_ERROR_NOT_ATTACHED then
    "The timer instance is not attached to any timer device or the other instance"
  else if code =? ALSATIMER_USER_INSTANCE_ERROR_ATTACHED then
    "The timer instance is already attached to timer device or the other instance"
  else "".

(** [struct snd_timer_info], [snd_timer_params], [snd_timer_status],
    [snd_timer_read] and [snd_timer_tread] *)
Definition sizeof_timer_info : Z := 232.
Definition sizeof_timer_params : Z := 80.
Definition sizeof_timer_status : Z := 96.
Definition sizeof_timer_read : Z := 8.
Definition sizeof_timer_tread : Z := 32.

(** The private data, with the number of references to the object. *)
Record instance := Instance {
  ui_fd : Z;
  ui_event_type : Z;
  ui_triplet : list Z;
  ui_refs : Z;
}.

Definition set_fd (fd : Z) (i : instance) : instance :=
  Instance fd (ui_event_type i) (ui_triplet i) (ui_refs i).
Definition set_event_type (t : Z) (i : instance) : instance :=
  Instance (ui_fd i) t (ui_triplet i) (ui_refs i).
Definition set_triplet (t : list Z) (i : instance) : instance :=
  Instance (ui_fd i) (ui_event_type i) t (ui_refs i).
Definition set_refs (n : Z) (i : instance) : instance :=
  Instance (ui_fd i) (ui_event_type i) (ui_triplet i) n.

Definition alsatimer_user_instance_new : instance := Instance (-1) 0 [0; 0; 0] 1.

(** A source of events: its buffer in the heap and the length of it. *)
Record instance_source := InstanceSource { is_buf : Z; is_buf_len : Z }.

Section instance.
Context {AL : Allocator} {GL : GLib} {K : Type} {KERN : Kernel K} {UD : Udev K}.

(** [sysconf (_SC_PAGESIZE)] *)
Context (page_size : Z).

Abbreviation I := (M (ostate instance K)).

(** *** Reports of errors *)

Definition syscall_error (errno : Z) (what : string) : option gerror :=
  Some (GError ALSATIMER_USER_INSTANCE_ERROR ALSATIMER_USER_INSTANCE_ERROR_FAILED what
          (Some errno)).

Definition local_error (code : Z) : option gerror :=
  Some (GError ALSATIMER_USER_INSTANCE_ERROR code (err_msgs code) None).

(** One [errno] has a code of its own, [None] when there is none. *)
Definition instance_error (own : option (Z * Z)) (errno : Z) (what : string) : option gerror :=
  match own with
  | Some (n, code) => if errno =? n then local_error code else syscall_error errno what
  | None => syscall_error errno what
  end.

Definition not_attached : option (Z * Z) :=
  Some (EBADFD, ALSATIMER_USER_INSTANCE_ERROR_NOT_ATTACHED).

(** A request with a local structure. *)
Definition request_val (req : request) (s : list byte) (own : option (Z * Z)) (what : string) :
    I unit :=
  priv ← get_private;
  '(r, _) ← outside (ioctl_val (ui_fd priv) req s);
  match r with
  | Serr e => fail (instance_error own e what)
  | Sret _ => mret tt
  end.

(** A request with a structure of [n] bytes in memory. *)
Definition request_mem (req : request) (p : ptr) (n : Z) (own : option (Z * Z))
    (what : string) : I unit :=
  priv ← get_private;
  r ← outside (ioctl_mem (ui_fd priv) req p n);
  match r with
  | Serr e => fail (instance_error own e what)
  | Sret _ => mret tt
  end.

(** *** Life of the object *)

Definition timer_user_instance_finalize : I unit :=
  priv ← get_private;
  if 0 <=? ui_fd priv then outside (do_close (ui_fd priv)) else mret tt.

Definition g_object_ref_instance : I unit :=
  set_private (λ i, set_refs (ui_refs i + 1) i).

(** The last reference finalizes the object. *)
Definition g_object_unref_instance : I unit :=
  priv ← get_private;
  (if ui_refs priv =? 1 then timer_user_instance_finalize else mret tt);;
  set_private (λ i, set_refs (ui_refs i - 1) i).

(** The report of a failed [open]: the code of the file domain is converted a
    second time. *)
Definition open_error (errno : Z) : option gerror :=
  let code := g_file_error_from_errno errno in
  if negb (code =? G_FILE_ERROR_FAILED)
  then Some (GError G_FILE_ERROR (g_file_error_from_errno code) "open" None)
  else syscall_error errno "open".

Definition alsatimer_user_instance_open (open_flag : Z) : I unit :=
  devnode ← outside alsatimer_get_devnode;
  fd ← outside (do_open devnode (Z.lor open_flag O_RDONLY));
  match fd with
  | Serr e => set_private (set_fd (-1));; fail (open_error e)
  | Sret fd =>
      set_private (set_fd fd);;
      junk ← gets (λ s, alloc_junk (w_heap (os_world s)) 4);
      '(r, s) ← outside (ioctl_val fd TIMER_PVERSION junk);
      match r with
      | Serr e =>
          outside (do_close fd);; set_private (set_fd (-1));;
          fail (syscall_error e "ioctl(PVERSION)")
      | Sret _ =>
          let proto_ver := fget (i32f 0) s in
          set_private (set_triplet [SNDRV_PROTOCOL_MAJOR proto_ver;
            SNDRV_PROTOCOL_MINOR proto_ver; SNDRV_PROTOCOL_MICRO proto_ver])
      end
  end.

(** A pointer to the three numbers in the object. *)
Definition alsatimer_user_instance_get_protocol_version : I (list Z) :=
  priv ← get_private;
  g_return_if_fail (0 <=? ui_fd priv);;
  mret (ui_triplet priv).

(** *** Configuration *)

Definition alsatimer_user_instance_choose_event_type (event_type : Z) : I unit :=
  request_val TIMER_TREAD (le_split 4 event_type)
    (Some (EBUSY, ALSATIMER_USER_INSTANCE_ERROR_ATTACHED)) "ioctl(TREAD)";;
  set_private (set_event_type event_type).

Definition alsatimer_user_instance_attach (device_id : ptr) : I unit :=
  id ← outside (mem (load device_id sizeof_timer_id));
  request_val TIMER_SELECT (put_bytes 0 id (zeroed sizeof_timer_select))
    (Some (ENODEV, ALSATIMER_USER_INSTANCE_ERROR_TIMER_NOT_FOUND)) "ioctl(SELECT)".

Definition alsatimer_user_instance_attach_as_slave (slave_class slave_id : Z) : I unit :=
  let sel := fput tid_class SNDRV_TIMER_CLASS_SLAVE (zeroed sizeof_timer_select) in
  request_val TIMER_SELECT (fput tid_device slave_id (fput tid_sclass slave_class sel)) None
    "ioctl(SELECT)".

Definition alsatimer_user_instance_get_info : I ptr :=
  priv ← get_private;
  info ← outside (g_object_new sizeof_timer_info);
  r ← outside (ioctl_mem (ui_fd priv) TIMER_INFO info sizeof_timer_info);
  match r with
  | Serr e =>
      outside (g_object_unref info);; fail (instance_error not_attached e "ioctl(INFO)")
  | Sret _ => mret info
  end.

Definition alsatimer_user_instance_set_params (instance_params : ptr) : I unit :=
  request_mem TIMER_PARAMS instance_params sizeof_timer_params not_attached "ioctl(PARAMS)".

Definition alsatimer_user_instance_get_status (instance_status : ptr) : I unit :=
  request_mem TIMER_STATUS instance_status sizeof_timer_status not_attached "ioctl(STATUS)".

Definition alsatimer_user_instance_start : I unit :=
  request_val TIMER_START [] not_attached "ioctl(START)".
Definition alsatimer_user_instance_stop : I unit :=
  request_val TIMER_STOP [] not_attached "ioctl(STOP)".
Definition alsatimer_user_instance_pause : I unit :=
  request_val TIMER_PAUSE [] not_attached "ioctl(PAUSE)".
Definition alsatimer_user_instance_continue : I unit :=
  request_val TIMER_CONTINUE [] not_attached "ioctl(CONTINUE)".

(** *** The source of events *)

(** The handlers connected to the three signals: they get the bytes of an
    event. *)
Context (handle_tick_time_event handle_real_time_event : list byte → I unit).
Context (handle_disconnection : I unit).

Definition timer_user_instance_check_src (condition : Z) : bool :=
  negb (Z.land condition (Z.lor G_IO_IN G_IO_ERR) =? 0).

(** While there is a whole event of [size] bytes left: [n] bounds their
    number. *)
Fixpoint dispatch_events (handle : list byte → I unit) (size : Z) (n : nat) (buf : ptr)
    (length : Z) : I unit :=
  if length <? size then mret tt else
  match n with
  | O => ub
  | S n =>
      ev ← outside (mem (load buf size));
      handle ev;;
      dispatch_events handle size n (p_add buf size) (length - size)
  end.

Definition dispatch_tick_time_events (buf : ptr) (length : Z) : I unit :=
  dispatch_events handle_tick_time_event sizeof_timer_read (Z.to_nat length) buf length.

Definition dispatch_real_time_events (buf : ptr) (length : Z) : I unit :=
  dispatch_events handle_real_time_event sizeof_timer_tread (Z.to_nat length) buf length.

(** [condition] is what polling found; TRUE keeps the source. *)
Definition timer_user_instance_dispatch_src (src : instance_source) (condition : Z) : I bool :=
  priv ← get_private;
  if ui_fd priv <? 0 then mret false else
  if negb (Z.land condition G_IO_ERR =? 0) then handle_disconnection;; mret false else
  len ← outside (do_read (ui_fd priv) (is_buf src, 0) (is_buf_len src));
  match len with
  | Serr e => mret (e =? EAGAIN)
  | Sret len =>
      priv ← get_private;
      (if ui_event_type priv =? ALSATIMER_EVENT_TYPE_TICK_TIME then
         dispatch_tick_time_events (is_buf src, 0) len
       else if ui_event_type priv =? ALSATIMER_EVENT_TYPE_REAL_TIME then
         dispatch_real_time_events (is_buf src, 0) len
       else mret tt);;
      mret true
  end.

Definition timer_user_instance_finalize_src (src : instance_source) : I unit :=
  outside (mem (g_free (is_buf src)));;
  g_object_unref_instance.

Definition alsatimer_user_instance_create_source : I instance_source :=
  priv ← get_private;
  g_return_if_fail (0 <=? ui_fd priv);;
  buf ← outside (mem (g_malloc0 page_size));
  g_object_ref_instance;;
  mret (InstanceSource buf page_size).
End instance.
