(* ===== verification/TimerEvent.v ===== *)
(** * Events of timers: [src/src/timer/tick-time-event.c] and
    [real-time-event.c]

    The events the kernel delivers in the two formats: boxed [struct
    snd_timer_read] and [struct snd_timer_tread]. *)
From S2P Require Import Prelude Heap SeqUapi Struct Boxes TimerUserInstance.

Definition tr_resolution : field := u32f 0.
Definition tr_ticks : field := u32f 4.

Definition tt_event : field := i32f 0.
Definition tt_tv_sec : field := i64f 8.
Definition tt_tv_nsec : field := i64f 16.
Definition tt_val : field := u32f 24.

Section event.
Context {AL : Allocator}.

Definition timer_tick_time_event_copy (self : ptr) : M heap ptr :=
  g_memdup self sizeof_timer_read.

Definition alsatimer_tick_time_event_get_resolution (self : ptr) : M heap Z :=
  s ← load self sizeof_timer_read; mret (fget tr_resolution s).

Definition alsatimer_tick_time_event_get_ticks (self : ptr) : M heap Z :=
  s ← load self sizeof_timer_read; mret (fget tr_ticks s).

Definition timer_real_time_event_copy (self : ptr) : M heap ptr :=
  g_memdup self sizeof_timer_tread.

Definition alsatimer_real_time_event_get_event (self : ptr) : M heap Z :=
  s ← load self sizeof_timer_tread; mret (fget tt_event s).

(** Written to the array the caller gives. *)
Definition alsatimer_real_time_event_get_time (self real_time : ptr) : M heap unit :=
  s ← load self sizeof_timer_tread;
  store real_time (le_split 8 (fget tt_tv_sec s));;
  s ← load self sizeof_timer_tread;
  store (p_add real_time 8) (le_split 8 (fget tt_tv_nsec s)).

Definition alsatimer_real_time_event_get_val (self : ptr) : M heap Z :=
  s ← load self sizeof_timer_tread; mret (fget tt_val s).
End event.
