(* ===== verification/BoxedProps.v ===== *)
(** * Copies of boxed structures

    The boxed types that are plain structures, as one family: addresses and
    the data of events of the sequencer, identifiers of timers and of control
    elements, events of timers.  A copy owns its bytes; an identifier shows
    what it was made of. *)
From S2P Require Import Prelude Heap SeqUapi Struct SeqStructs Boxes.
From S2P Require Import SeqEventData SeqEventDataProps CtlStructs CtlElemId.
From S2P Require Import CString UtilsMemProps TimerQuery TimerUserInstance TimerEvent.

(** ** The family *)

Inductive boxed_type :=
  | BAddr | BNote | BCtl | BQueue | BConnect | BResult | BTimerId | BElemId | BTickTime | BRealTime.

Definition box_size (t : boxed_type) : Z :=
  match t with
  | BAddr => sizeof_addr | BNote => sizeof_ev_note | BCtl => sizeof_ev_ctrl
  | BQueue => sizeof_ev_queue_control | BConnect => sizeof_connect | BResult => sizeof_result
  | BTimerId => sizeof_timer_id | BElemId => sizeof_elem_id
  | BTickTime => sizeof_timer_read | BRealTime => sizeof_timer_tread
  end.

(** The function registered with the type for [g_boxed_copy]. *)
Definition box_copy `{!Allocator} (t : boxed_type) : ptr → M heap ptr :=
  match t with
  | BAddr => seq_addr_copy | BNote => seq_event_data_note_copy | BCtl => seq_event_data_ctl_copy
  | BQueue => seq_event_data_queue_copy | BConnect => seq_event_data_connect_copy
  | BResult => seq_event_data_result_copy | BTimerId => timer_device_id_copy
  | BElemId => ctl_elem_id_copy | BTickTime => timer_tick_time_event_copy
  | BRealTime => timer_real_time_event_copy
  end.

(** The getters that give a number, each with the number it takes from the
    bytes. *)
Definition box_getters (t : boxed_type) : list ((ptr → M heap Z) * (list byte → Z)) :=
  match t with
  | BAddr => [(alsaseq_addr_get_client_id, fget addr_client);
      (alsaseq_addr_get_port_id, fget addr_port)]
  | BNote => [(alsaseq_event_data_note_get_channel, fget note_channel);
      (alsaseq_event_data_note_get_note, fget note_note);
      (alsaseq_event_data_note_get_velocity, fget note_velocity);
      (alsaseq_event_data_note_get_off_velocity, fget note_off_velocity);
      (alsaseq_event_data_note_get_duration, λ s, u8 (fget note_duration s))]
  | BCtl => [(alsaseq_event_data_ctl_get_channel, fget ctrl_channel);
      (alsaseq_event_data_ctl_get_param, fget ctrl_param);
      (alsaseq_event_data_ctl_get_value, fget ctrl_value)]
  | BQueue => [(alsaseq_event_data_queue_get_queue_id, fget queue_queue);
      (alsaseq_event_data_queue_get_value_param, fget queue_value);
      (alsaseq_event_data_queue_get_tick_time_param, fget queue_tick);
      (alsaseq_event_data_queue_get_position_param, fget queue_position)]
  | BConnect => []
  | BResult => [(alsaseq_event_data_result_get_event, fget result_event);
      (alsaseq_event_data_result_get_result, fget result_result)]
  | BTimerId => [(alsatimer_device_id_get_class, fget tid_class);
      (alsatimer_device_id_get_card_id, fget tid_card);
      (alsatimer_device_id_get_device_id, fget tid_device);
      (alsatimer_device_id_get_subdevice_id, fget tid_subdevice)]
  | BElemId => [(alsactl_elem_id_get_numid, fget id_numid);
      (alsactl_elem_id_get_iface, fget id_iface);
      (alsactl_elem_id_get_device_id, fget id_device);
      (alsactl_elem_id_get_subdevice_id, fget id_subdevice);
      (alsactl_elem_id_get_index, fget id_index)]
  | BTickTime => [(alsatimer_tick_time_event_get_resolution, fget tr_resolution);
      (alsatimer_tick_time_event_get_ticks, fget tr_ticks)]
  | BRealTime => [(alsatimer_real_time_event_get_event, fget tt_event);
      (alsatimer_real_time_event_get_val, fget tt_val)]
  end.

(** The getters that give a pointer into the structure, with the place and the
    size of what it points to. *)
Definition box_views (t : boxed_type) : list ((ptr → M heap ptr) * nat * nat) :=
  match t with
  | BQueue => [(alsaseq_event_data_queue_get_real_time_param, 4, 8);
      (alsaseq_event_data_queue_get_skew_param, 4, 8);
      (alsaseq_event_data_queue_get_quadlet_param, 4, 8);
      (alsaseq_event_data_queue_get_byte_param, 4, 8)]
  | BConnect => [(alsaseq_event_data_connect_get_src, 0, 2);
      (alsaseq_event_data_connect_get_dst, 2, 2)]
  | BElemId => [(λ p, mret (alsactl_elem_id_get_name p), 16, 44)]
  | _ => []
  end%nat.

(** A getter reads what lies at the pointer and nothing else. *)
Definition reads (n : Z) (g : ptr → M heap Z) (f : list byte → Z) : Prop :=
  ∀ h p s, at_ptr h p s → length s = Z.to_nat n → g p h = (Ret (f s), h).

Lemma getters_read t : Forall (λ gf, reads (box_size t) gf.1 gf.2) (box_getters t).
Proof.
  assert (∀ n f, f_in f (Z.to_nat n) = true → reads n (get_field f) (fget f)) as Hf.
  { intros n f Hi h p s Hat Hl. apply load_field_run; [done|by rewrite Hl]. }
  assert (∀ n f, 0 ≤ n → reads n (λ self, s ← load self n; mret (fget f s)) (fget f)) as Hs.
  { intros n f Hn h p s Hat Hl.
    by rewrite (bind_Ret _ _ _ _ _ (load_at h p s n Hat ltac:(lia))). }
  destruct t; repeat (apply Forall_cons; split); try apply Forall_nil;
    try (by apply Hf); try (by apply Hs); try done.
  intros h p s Hat Hl. cbn [fst snd]. unfold alsaseq_event_data_note_get_duration.
  by rewrite (bind_Ret _ _ _ _ _ (Hf (box_size BNote) note_duration eq_refl h p s Hat Hl)).
Qed.

Lemma views_inside t : Forall (λ v, ∃ g o n, v = (g, o, n) ∧ (o + n ≤ Z.to_nat (box_size t))%nat ∧
  ∀ p h, g p h = (Ret (p_add p (Z.of_nat o)), h)) (box_views t).
Proof.
  destruct t; cbn [box_views]; try apply List.Forall_nil;
    repeat (apply List.Forall_cons; [eexists _, _, _; split; [reflexivity|split; [vm_compute; lia|done]]|]);
    apply List.Forall_nil.
Qed.

Section copies.
Context {AL : Allocator} {ALW : AllocatorLaws}.
Implicit Types (h : heap).

Lemma box_copy_dup t p : box_copy t p = g_memdup p (box_size t).
Proof. by destruct t. Qed.

(** C27: the copy of a boxed structure owns its bytes: it lies in a block of its
    own, nothing else changes, and whatever becomes of the memory of the
    original afterwards, the getters show of the copy what they showed of the
    original, and the arrays they give lie in the copy. *)
Theorem boxed_copy_owns_data t h p s :
  at_ptr h p s → length s = Z.to_nat (box_size t) →
  (∃ b, box_copy t p h = (Ret (box b), <[b := s]> h) ∧ h !! b = None ∧ 0 < b ∧
    ∀ h', h' !! b = Some s →
      (∀ g f, (g, f) ∈ box_getters t → ∃ v, g p h = (Ret v, h) ∧ g (box b) h' = (Ret v, h')) ∧
      (∀ g o n, (g, o, n) ∈ box_views t → ∃ i,
        g (box b) h' = (Ret (b, i), h') ∧ at_ptr h' (b, i) (sub o n s))) ∨
  (∃ h', box_copy t p h = (Oom, h')).
Proof.
  intros Hat Hl. rewrite box_copy_dup.
  destruct (g_memdup_run (box_size t) h p s) as [(b & E & Hb & Hpos)|Hoom]; [by destruct t|done..| |by right].
  left. exists b. split; [done|]. split; [done|]. split; [done|]. intros h' Hb'.
  apply at_ptr_block in Hb'. split.
  - intros g f Hin. pose proof (proj1 (Forall_forall _ _) (getters_read t) _ Hin) as Hr.
    exists (f s). split; by apply Hr.
  - intros g o n Hin.
    destruct (proj1 (Forall_forall _ _) (views_inside t) _ Hin) as (g' & o' & n' & [= <- <- <-] & Hle & Hg).
    exists (Z.of_nat o). rewrite Hg. split; [done|].
    apply (at_ptr_sub h' (b, 0) s o n Hb'). by rewrite Hl.
Qed.

(** ** Identifiers *)

(** What a program can make an identifier of. *)
Inductive identifier :=
  | IdAddr (client_id port_id : Z)
  | IdTimer (class card_id device_id subdevice_id : Z)
  | IdNumid (numid : Z)
  | IdName (iface device_id subdevice_id : Z) (name : string) (index : Z).

Definition id_type (i : identifier) : boxed_type :=
  match i with
  | IdAddr _ _ => BAddr | IdTimer _ _ _ _ => BTimerId | IdNumid _ | IdName _ _ _ _ _ => BElemId
  end.

Definition create (i : identifier) : M heap ptr :=
  match i with
  | IdAddr c p => alsaseq_addr_new c p
  | IdTimer c i d s => alsatimer_device_id_new c i d s
  | IdNumid n => alsactl_elem_id_new_by_numid n
  | IdName f d s name x => alsactl_elem_id_new_by_name f d s name x
  end.

(** The numbers fit the types of the arguments; a name is not empty. *)
Definition id_ok (i : identifier) : Prop :=
  match i with
  | IdAddr c p => is_u8 c ∧ is_u8 p
  | IdTimer c i d s => is_i32 c ∧ is_i32 i ∧ is_i32 d ∧ is_i32 s
  | IdNumid n => is_u32 n
  | IdName f d s name x => is_i32 f ∧ is_u32 d ∧ is_u32 s ∧ is_u32 x ∧ printable name ∧ name ≠ ""
  end.

(** What the getters of the type show. *)
Definition id_parts (i : identifier) : list Z :=
  match i with
  | IdAddr c p => [c; p]
  | IdTimer c i d s => [c; i; d; s]
  | IdNumid n => [n; 0; 0; 0; 0]
  | IdName f d s _ x => [0; f; d; s; x]
  end.

Definition id_name_of (i : identifier) : list byte :=
  match i with IdName _ _ _ name _ => take 43 (bytes_of_string name) | _ => [] end.

(** The bytes of the new structure. *)
Definition id_bytes (i : identifier) : list byte :=
  match i with
  | IdAddr c p => fput addr_port p (fput addr_client c (zeros 2))
  | IdTimer c i d s => fput tid_subdevice s (fput tid_device d (fput tid_card i
      (fput tid_class c (zeros 20))))
  | IdNumid n => fput id_numid n (zeros 64)
  | IdName f d s name x => elem_id_of_name f d s name x (zeros 64)
  end.

(** The structure of an identifier made by a name, in parts. *)
Lemma elem_id_of_name_parts f d s name x :
  ∃ s1 w, elem_id_of_name f d s name x (zeros 64) = fput id_index x (put_bytes id_name w s1) ∧
    s1 = fput id_subdevice s (fput id_device d (fput id_iface f (zeros 64))) ∧
    length s1 = 64%nat ∧ length w = 44%nat ∧ w = g_strlcpy name (zeros 44) ∧
    length (put_bytes id_name w s1) = 64%nat.
Proof.
  eexists _, _. split; [reflexivity|].
  set (s1 := fput id_subdevice s (fput id_device d (fput id_iface f (zeros 64)))).
  assert (length (zeros 64) = 64%nat) as H0 by done.
  assert (length s1 = 64%nat) as H1 by (unfold s1; by rewrite !length_fput by f_inside).
  assert (sub id_name 44 s1 = zeros 44) as Hz.
  { unfold s1. rewrite !sub_fput_other; [done|..]; try f_inside; right; unfold id_name; cbn; lia. }
  assert (length (g_strlcpy name (sub id_name 44 s1)) = 44%nat) as H2
    by (rewrite length_g_strlcpy, Hz by (by rewrite Hz); done).
  split; [done|]. split; [done|]. split; [done|]. split; [by rewrite Hz|].
  rewrite length_put_bytes; [done|]. rewrite H1, H2. unfold id_name. lia.
Qed.

Lemma length_identifier i : length (id_bytes i) = Z.to_nat (box_size (id_type i)).
Proof.
  destruct i as [c p|c i d s|n|f d s name x]; cbn [id_bytes id_type box_size].
  4: destruct (elem_id_of_name_parts f d s name x) as (s1 & w & -> & _ & _ & _ & _ & Hl);
     by rewrite length_fput by (by rewrite Hl).
  1: assert (length (zeros 2) = 2%nat) by done.
  2: assert (length (zeros 20) = 20%nat) by done.
  3: assert (length (zeros 64) = 64%nat) by done.
  all: by rewrite !length_fput by f_inside.
Qed.

(** A zeroed block is filled. *)
Lemma create_zeroed n (fill : list byte → list byte) h :
  0 < n → length (fill (zeros (Z.to_nat n))) = Z.to_nat n →
  (∃ b, (a ← g_malloc0 n; s ← load (a, 0) n; store (a, 0) (fill s);; mret (a, 0)) h =
      (Ret (box b), <[b := fill (zeros (Z.to_nat n))]> h) ∧ h !! b = None ∧ 0 < b) ∨
  (∃ h', (a ← g_malloc0 n; s ← load (a, 0) n; store (a, 0) (fill s);; mret (a, 0)) h = (Oom, h')).
Proof.
  intros Hn Hl. destruct (alloc_addr h n) as [a|] eqn:Ea.
  - left. exists a. split; [|split; [by eapply alloc_fresh|by eapply alloc_nonnull]].
    rewrite (bind_Ret _ _ _ _ _ (g_malloc0_some h n a ltac:(lia) Ea)).
    set (z := zeros (Z.to_nat n)) in *. assert (length z = Z.to_nat n) as Hz by apply length_zeros.
    pose proof (lookup_insert_eq h a z) as Ha.
    rewrite (bind_Ret _ _ _ _ _ (load_at _ (a, 0) z n (at_ptr_block _ _ _ Ha) ltac:(lia))).
    rewrite (bind_Ret _ _ _ _ _ (store_block _ a z (fill z) Ha ltac:(lia)
      ltac:(intros E; rewrite E in Hl; simpl in Hl; lia))).
    by rewrite insert_insert_eq.
  - right. exists h. unfold mbind, M_bind, g_malloc0. destruct (Z.eqb_spec n 0); [lia|]. by rewrite Ea.
Qed.


Lemma new_addr_run c p h :
  (∃ b, alsaseq_addr_new c p h = (Ret (box b), <[b := id_bytes (IdAddr c p)]> h) ∧
    h !! b = None ∧ 0 < b) ∨
  (∃ h', alsaseq_addr_new c p h = (Oom, h')).
Proof.
  unfold alsaseq_addr_new. destruct (alloc_addr h sizeof_addr) as [a|] eqn:Ea.
  - left. exists a. split; [|split; [by eapply alloc_fresh|by eapply alloc_nonnull]].
    rewrite (bind_Ret _ _ _ _ _ (g_malloc0_some h sizeof_addr a ltac:(done) Ea)).
    change (zeros (Z.to_nat sizeof_addr)) with [Byte.x00; Byte.x00].
    rewrite (bind_Ret _ _ _ tt (<[a := fput addr_client c (zeros 2)]> h)).
    2:{ unfold set_field, store. cbn [p_add fst snd]. rewrite lookup_insert_eq. cbn. by rewrite insert_insert_eq. }
    rewrite (bind_Ret _ _ _ tt (<[a := id_bytes (IdAddr c p)]> h)); [done|].
    unfold set_field, store. cbn [p_add fst snd]. rewrite lookup_insert_eq. cbn.
    by rewrite insert_insert_eq.
  - right. exists h. unfold mbind, M_bind, g_malloc0. by rewrite Ea.
Qed.

(** A call that makes an identifier. *)
Lemma new_identifier_run i h : id_ok i →
  (∃ b, create i h = (Ret (box b), <[b := id_bytes i]> h) ∧ h !! b = None ∧ 0 < b) ∨
  (∃ h', create i h = (Oom, h')).
Proof.
  intros Hi. pose proof (length_identifier i) as Hl.
  destruct i as [c p|c i d s|n|f d s name x]; cbn [create id_type box_size id_bytes] in *.
  - apply new_addr_run.
  - by apply (create_zeroed 20 (λ z, fput tid_subdevice s (fput tid_device d (fput tid_card i
      (fput tid_class c z))))).
  - by apply (create_zeroed 64 (fput id_numid n)).
  - unfold alsactl_elem_id_new_by_name, g_return_if_fail. destruct Hi as (_ & _ & _ & _ & _ & Hne).
    destruct name as [|ch name]; [done|]. cbn [String.length Nat.eqb negb].
    rewrite (bind_Ret _ _ _ _ _ (mret_run tt h)).
    by apply (create_zeroed 64 (elem_id_of_name f d s (String ch name) x)).
Qed.

Lemma field_before_name g w x s1 :
  length (put_bytes id_name w s1) = 64%nat → length w = 44%nat → length s1 = 64%nat →
  (f_off g + f_width g ≤ 16)%nat →
  fget g (fput id_index x (put_bytes id_name w s1)) = fget g s1.
Proof.
  intros Hl Hw H1 Hg. rewrite fget_fput_other.
  - unfold fget, le_s, le_u. rewrite sub_put_other; [done|rewrite Hw, H1; unfold id_name; lia|].
    left. unfold id_name. lia.
  - by rewrite Hl.
  - unfold f_disjoint. rewrite orb_true_iff, !bool_decide_eq_true. cbn. lia.
Qed.

(** The numbers in the bytes of an identifier. *)
Lemma id_bytes_parts i :
  id_ok i → map (λ gf, gf.2 (id_bytes i)) (box_getters (id_type i)) = id_parts i.
Proof.
  destruct i as [c p|c i d s|n|f d s name x]; cbn [id_ok id_bytes id_type id_parts box_getters map snd].
  - unfold is_u8. intros [Hc Hp]. assert (length (zeros 2) = 2%nat) by done.
    unfold addr_port, addr_client. by fields.
  - unfold is_i32. intros (Hc & Hi & Hd & Hs). assert (length (zeros 20) = 20%nat) by done.
    unfold tid_class, tid_card, tid_device, tid_subdevice. by fields.
  - unfold is_u32. intros Hn. assert (length (zeros 64) = 64%nat) by done.
    unfold id_numid, id_iface, id_device, id_subdevice, id_index. by fields.
  - unfold is_i32, is_u32. intros (Hf & Hd & Hs & Hx & _).
    destruct (elem_id_of_name_parts f d s name x) as (s1 & w & -> & E1 & L1 & Lw & _ & Lp).
    rewrite !field_before_name by (done || (cbn; lia)).
    rewrite (fget_fput_id id_index x) by (first [by rewrite Lp | f_ranged]).
    rewrite E1. assert (length (zeros 64) = 64%nat) by done.
    unfold id_numid, id_iface, id_device, id_subdevice. by fields.
Qed.

(** The array of the name. *)
Lemma id_bytes_name i :
  id_ok i → id_type i = BElemId → ∃ rest,
    drop id_name (id_bytes i) = id_name_of i ++ Byte.x00 :: rest ∧ c_chars_only (id_name_of i).
Proof.
  destruct i as [c p|c i d s|n|f d s name x]; try done; cbn [id_ok id_bytes id_name_of].
  - intros _ _. exists (zeros 47). split; [|constructor].
    assert (sub 16 48 (fput id_numid n (zeros 64)) = zeros 48) as E.
    { rewrite sub_fput_other; [done|done|]. right. cbn. lia. }
    unfold sub in E. by rewrite take_ge in E by (rewrite length_drop, length_fput by done; done).
  - intros (_ & _ & _ & _ & Hn & _) _.
    destruct (elem_id_of_name_parts f d s name x) as (s1 & w & -> & _ & L1 & Lw & Ew & Lp).
    set (t := fput id_index x (put_bytes id_name w s1)).
    assert (sub id_name 44 t = w) as Et.
    { unfold t. rewrite sub_fput_other; [|by rewrite Lp|left; unfold id_name; cbn; lia].
      rewrite <- Lw. apply sub_put_same. rewrite Lw, L1. unfold id_name. lia. }
    exists (drop (S (length (take 43 (bytes_of_string name)))) (zeros 44) ++ drop 44 (drop id_name t)).
    split; [|by apply Forall_take].
    rewrite <- (take_drop 44 (drop id_name t)) at 1. fold (sub id_name 44 t). rewrite Et, Ew.
    unfold g_strlcpy, strlcpy_bytes. change (length (zeros 44) - 1)%nat with 43%nat.
    rewrite length_app, Nat.add_1_r. by rewrite <- !app_assoc.
Qed.

(** C28: an identifier shows what it was made of: making one gives a block of
    its own and changes nothing else, and as long as the block is as it was,
    each getter shows the number that was given for it, those that were not
    given are 0, and the name is the one that was given, cut to 43 characters. *)
Theorem identifier_shows_parts i h : id_ok i →
  (∃ b s, create i h = (Ret (box b), <[b := s]> h) ∧ h !! b = None ∧ 0 < b ∧
    ∀ h', h' !! b = Some s →
      Forall2 (λ gf v, gf.1 (box b) h' = (Ret v, h')) (box_getters (id_type i)) (id_parts i) ∧
      (id_type i = BElemId →
       load_string (alsactl_elem_id_get_name (box b)) h' = (Ret (id_name_of i), h'))) ∨
  (∃ h', create i h = (Oom, h')).
Proof.
  intros Hi. destruct (new_identifier_run i h Hi) as [(b & E & Hb & Hpos)|Hoom]; [left|by right].
  exists b, (id_bytes i). split; [done|]. split; [done|]. split; [done|]. intros h' Hb'. split.
  - rewrite <- (id_bytes_parts i Hi). apply Forall2_fmap_r, Forall_Forall2_diag, Forall_forall.
    intros gf Hin. pose proof (proj1 (Forall_forall _ _) (getters_read _) _ Hin) as Hr.
    apply Hr; [by apply at_ptr_block|apply length_identifier].
  - intros Ht. destruct (id_bytes_name i Hi Ht) as (rest & E0 & Hc). unfold load_string.
    cbn [alsactl_elem_id_get_name p_add box fst snd]. rewrite Hb'.
    change (Z.to_nat (0 + Z.of_nat id_name)) with id_name. rewrite E0.
    rewrite bool_decide_true by (split; [done|]; apply elem_of_app; right; by left).
    by rewrite c_str_app_nul.
Qed.

(** *** Equality *)

(** What the library tells of two identifiers of one type. *)
Definition id_equal (t : boxed_type) (p q : ptr) : M heap bool :=
  match t with BAddr => alsaseq_addr_equal p q | _ => alsactl_elem_id_equal p q end.

Definition id_same (i j : identifier) : bool :=
  match i, j with
  | IdAddr c p, IdAddr c' p' => (c =? c') && (p =? p')
  | IdNumid _, IdNumid _ | IdName _ _ _ _ _, IdName _ _ _ _ _ => true
  | IdNumid n, _ | _, IdNumid n => n =? 0
  | _, _ => false
  end.

Lemma two_parts (a b a' b' : Z) : [a; b] = [a'; b'] → a = a' ∧ b = b'.
Proof. by intros [= -> ->]. Qed.

Lemma five_parts (a b c d e a' b' c' d' e' : Z) :
  [a; b; c; d; e] = [a'; b'; c'; d'; e'] → a = a' ∧ b = b' ∧ c = c' ∧ d = d' ∧ e = e'.
Proof. by intros [= -> -> -> -> ->]. Qed.

Lemma elem_id_equal_parts i j :
  id_ok i → id_ok j → id_type i = BElemId → id_type j = BElemId →
  elem_id_equal (id_bytes i) (id_bytes j) = id_same i j.
Proof.
  intros Hi Hj Ti Tj. unfold elem_id_equal.
  destruct (id_bytes_name i Hi Ti) as (ri & -> & Ci). destruct (id_bytes_name j Hj Tj) as (rj & -> & Cj).
  rewrite !c_str_app_nul by done.
  pose proof (id_bytes_parts i Hi) as Qi. pose proof (id_bytes_parts j Hj) as Qj.
  rewrite Ti in Qi. rewrite Tj in Qj.
  assert (∀ name, name ≠ "" → [] ≠ take 43 (bytes_of_string name)) as Hne by (intros [|? ?]; done).
  destruct i as [| |n|f d s name x], j as [| |n'|f' d' s' name' x']; try done;
    cbn [id_parts box_getters map snd] in Qi, Qj;
    apply five_parts in Qi as (-> & -> & -> & -> & ->);
    apply five_parts in Qj as (-> & -> & -> & -> & ->); cbn [id_name_of id_same].
  - rewrite bool_decide_true, orb_true_r by done. done.
  - destruct Hj as (_ & _ & _ & _ & _ & Hn). rewrite (bool_decide_false _ (Hne _ Hn)).
    by rewrite !andb_false_r, orb_false_r.
  - destruct Hi as (_ & _ & _ & _ & _ & Hn). rewrite bool_decide_false by (by apply not_eq_sym, Hne).
    by rewrite !andb_false_r, orb_false_r, Z.eqb_sym.
Qed.

(** C30: addresses are equal exactly when they have the same parts.  Identifiers
    of elements are not told apart so: any two that were made by numbers are
    equal, since what they do not name agrees, and any two that were made by
    names are, since neither has a number; one of each kind differ, but for
    the number 0. *)
Theorem identifier_equality i j h p h1 q h2 :
  id_ok i → id_ok j → id_type i = id_type j → id_type i ≠ BTimerId →
  create i h = (Ret p, h1) → create j h1 = (Ret q, h2) →
  id_equal (id_type i) p q h2 = (Ret (id_same i j), h2).
Proof.
  intros Hi Hj Ht Hnt E1 E2.
  destruct (new_identifier_run i h Hi) as [(a & E & Ha & _)|(h' & E)]; [|congruence].
  rewrite E in E1. injection E1 as <- <-.
  destruct (new_identifier_run j (<[a := id_bytes i]> h) Hj) as [(b & E' & Hb & _)|(h' & E')]; [|congruence].
  rewrite E' in E2. injection E2 as <- <-.
  assert (b ≠ a) as Hne by (intros ->; by rewrite lookup_insert_eq in Hb).
  set (h2 := <[b := id_bytes j]> (<[a := id_bytes i]> h)).
  assert (at_ptr h2 (box a) (id_bytes i)) as Pa.
  { apply at_ptr_insert; [done|]. apply at_ptr_block, lookup_insert_eq. }
  assert (at_ptr h2 (box b) (id_bytes j)) as Pb by apply at_ptr_block, lookup_insert_eq.
  pose proof (length_identifier i) as Li. pose proof (length_identifier j) as Lj. rewrite <- Ht in Lj.
  pose proof (id_bytes_parts i Hi) as Qi. pose proof (id_bytes_parts j Hj) as Qj. rewrite <- Ht in Qj.
  destruct (id_type i) eqn:Eti; try by destruct i.
  - destruct i as [c p| | |], j as [c' p'| | |]; try done.
    cbn [id_parts box_getters map snd] in Qi, Qj.
    apply two_parts in Qi as [Q1 Q2]. apply two_parts in Qj as [Q3 Q4].
    cbn [id_equal id_same]. unfold alsaseq_addr_equal.
    assert (∀ f x s, f_in f 2 = true → at_ptr h2 x s → length s = 2%nat →
      get_field f x h2 = (Ret (fget f s), h2)) as Hr.
    { intros f x s Hf Hx Hl. apply load_field_run; [done|by rewrite Hl]. }
    rewrite (bind_Ret _ _ _ _ _ (Hr addr_client _ _ eq_refl Pa Li)), Q1.
    rewrite (bind_Ret _ _ _ _ _ (Hr addr_client _ _ eq_refl Pb Lj)), Q3.
    destruct (c =? c'); [|done].
    rewrite (bind_Ret _ _ _ _ _ (Hr addr_port _ _ eq_refl Pa Li)), Q2.
    by rewrite (bind_Ret _ _ _ _ _ (Hr addr_port _ _ eq_refl Pb Lj)), Q4.
  - cbn [id_equal]. unfold alsactl_elem_id_equal.
    rewrite (bind_Ret _ _ _ _ _ (load_at h2 _ _ sizeof_elem_id Pa ltac:(by rewrite Li))).
    rewrite (bind_Ret _ _ _ _ _ (load_at h2 _ _ sizeof_elem_id Pb ltac:(by rewrite Lj))).
    rewrite mret_run. do 2 f_equal. by apply elem_id_equal_parts.
Qed.
End copies.

(** ** Concrete runs *)

Module BoxedWitness.
#[local] Existing Instance Bump.allocator.
#[local] Existing Instance Bump.laws.

(** The data of a note inside of an event. *)
Definition note : list byte := [Byte.x01; Byte.x3c; Byte.x40; Byte.x00; Byte.x60; Byte.x00; Byte.x00; Byte.x00].
Definition event : heap := {[64 := zeros 16 ++ note ++ zeros 4]}.

Lemma boxed_copy_owns_data_witness :
  (∃ b, box_copy BNote (64, 16) event = (Ret (box b), <[b := note]> event) ∧ event !! b = None ∧ 0 < b ∧
    ∀ h', h' !! b = Some note →
      (∀ g f, (g, f) ∈ box_getters BNote →
        ∃ v, g (64, 16) event = (Ret v, event) ∧ g (box b) h' = (Ret v, h')) ∧
      (∀ g o n, (g, o, n) ∈ box_views BNote →
        ∃ i, g (box b) h' = (Ret (b, i), h') ∧ at_ptr h' (b, i) (sub o n note))) ∨
  (∃ h', box_copy BNote (64, 16) event = (Oom, h')).
Proof.
  apply (boxed_copy_owns_data BNote event (64, 16) note); [|by vm_compute].
  by exists (zeros 16), (zeros 4).
Defined.

Definition volume : identifier := IdName 2 0 0 "Volume" 3.

Lemma volume_ok : id_ok volume.
Proof. unfold id_ok, volume, is_i32, is_u32. split_and!; try done. by repeat constructor. Qed.

Lemma identifier_shows_parts_witness :
  (∃ b s, create volume ∅ = (Ret (box b), <[b := s]> ∅) ∧ (∅ : heap) !! b = None ∧ 0 < b ∧
    ∀ h', h' !! b = Some s →
      Forall2 (λ gf v, gf.1 (box b) h' = (Ret v, h')) (box_getters BElemId) [0; 2; 0; 0; 3] ∧
      (BElemId = BElemId →
       load_string (alsactl_elem_id_get_name (box b)) h' = (Ret (bytes_of_string "Volume"), h'))) ∨
  (∃ h', create volume ∅ = (Oom, h')).
Proof. apply (identifier_shows_parts volume ∅ volume_ok). Defined.

(** The first and the second element of a card. *)
Lemma identifier_equality_witness :
  alsactl_elem_id_equal (4128, 0) (4224, 0) (create (IdNumid 2) (create (IdNumid 1) ∅).2).2 =
    (Ret true, (create (IdNumid 2) (create (IdNumid 1) ∅).2).2).
Proof.
  apply (identifier_equality (IdNumid 1) (IdNumid 2) ∅ (4128, 0) (create (IdNumid 1) ∅).2 (4224, 0)
    (create (IdNumid 2) (create (IdNumid 1) ∅).2).2); [done..|reflexivity|reflexivity].
Defined.
End BoxedWitness.
