(* ===== verification/TimerFacts.v ===== *)
(** * Executions of the timer operations

    The loop over the events of a timer, what the driver documents of the
    enumeration of devices and of the queue of an instance, and the requests
    of an instance as data. *)
From S2P Require Import Prelude Heap SeqUapi Struct Kernel Sysfs Object Boxes.
From S2P Require Import TimerQuery TimerUserInstance.

(** ** Events *)

(** The two formats of events, and the value of the property that stands for
    each. *)
Inductive event_format := TickTime | RealTime.

#[export] Instance event_format_eq_dec : EqDecision event_format.
Proof. solve_decision. Defined.

Definition format_type (f : event_format) : Z :=
  match f with
  | TickTime => ALSATIMER_EVENT_TYPE_TICK_TIME
  | RealTime => ALSATIMER_EVENT_TYPE_REAL_TIME
  end.

Definition format_size (f : event_format) : Z :=
  match f with TickTime => sizeof_timer_read | RealTime => sizeof_timer_tread end.

Section events.
Context {K : Type}.
Implicit Types (s : ostate instance K) (handle : list byte → M (ostate instance K) unit).

(** The handlers run once for each event, in order. *)
Fixpoint deliver_all (handle : list byte → M (ostate instance K) unit) (evs : list (list byte)) :
    M (ostate instance K) unit :=
  match evs with
  | [] => mret tt
  | ev :: evs => handle ev;; deliver_all handle evs
  end.

(** The handlers do not touch the block at [a]. *)
Definition handlers_keep (handle : list byte → M (ostate instance K) unit) (a : Z) : Prop :=
  ∀ ev s s', handle ev s = (Ret tt, s') →
    w_heap (os_world s') !! a = w_heap (os_world s) !! a.

Lemma deliver_all_app handle evs evs' s :
  deliver_all handle (evs ++ evs') s = (deliver_all handle evs;; deliver_all handle evs') s.
Proof.
  revert s. induction evs as [|ev evs IH]; intros s; [done|]. cbn [app deliver_all].
  rewrite bind_assoc. unfold mbind at 1 2, M_bind at 1 2.
  destruct (handle ev s) as [[] s1]; [|done..]. apply IH.
Qed.

(** A buffer with whole events of [size] bytes and a shorter rest. *)
Lemma dispatch_events_run handle (size : Z) evs : ∀ (n : nat) a pre rest tail s,
  0 < size → handlers_keep handle a →
  w_heap (os_world s) !! a = Some (pre ++ concat evs ++ rest ++ tail) →
  Forall (λ ev, Z.of_nat (length ev) = size) evs → Z.of_nat (length rest) < size →
  (length evs ≤ n)%nat →
  dispatch_events handle size n (a, Z.of_nat (length pre))
    (Z.of_nat (length (concat evs ++ rest))) s = deliver_all handle evs s.
Proof.
  induction evs as [|ev evs IH]; intros n a pre rest tail s Hs Hk Ha Hevs Hr Hn.
  { destruct n; cbn [dispatch_events concat app deliver_all];
      (destruct (Z.ltb_spec (Z.of_nat (length rest)) size); [done|lia]). }
  inversion Hevs as [|? ? Hev Hevs']; subst. destruct n as [|n]; [simpl in Hn; lia|].
  cbn [dispatch_events concat]. rewrite <- app_assoc, length_app.
  destruct (Z.ltb_spec (Z.of_nat (length ev + length (concat evs ++ rest)))
    (Z.of_nat (length ev))); [lia|].
  destruct s as [i [h k]]. cbn [w_heap os_world] in Ha.
  assert (at_ptr h (a, Z.of_nat (length pre)) ev) as Hat.
  { exists pre, (concat evs ++ rest ++ tail). split; [|done]. etrans; [exact Ha|].
    cbn [concat]. by rewrite <- !app_assoc. }
  step (outside_mem _ i h k _ _ (load_at h _ ev _ Hat eq_refl)).
  replace (Z.of_nat (length ev + length (concat evs ++ rest)) - Z.of_nat (length ev))
    with (Z.of_nat (length (concat evs ++ rest))) by lia.
  replace (p_add (a, Z.of_nat (length pre)) (Z.of_nat (length ev)))
    with (a, Z.of_nat (length (pre ++ ev)))
    by (rewrite length_app; unfold p_add; cbn; f_equal; lia).
  cbn [deliver_all]. unfold mbind, M_bind.
  destruct (handle ev _) as [[[]|?| | |] s'] eqn:E; [|done..].
  apply (IH n a (pre ++ ev) rest tail s'); [done..| |done|done|simpl in Hn; lia].
  rewrite (Hk _ _ _ E). cbn [w_heap os_world]. rewrite Ha. cbn [concat]. by rewrite <- !app_assoc.
Qed.
End events.

Section dispatch.
Context {AL : Allocator} {GL : GLib} {K : Type} {KERN : Kernel K} {KL : KernelLaws K}.
Context (tick real : list byte → M (ostate instance K) unit).
Context (disconnected : M (ostate instance K) unit).
Implicit Types (h : heap) (k : K) (i : instance).

(** The handlers of a format. *)
Definition format_handler (f : event_format) : list byte → M (ostate instance K) unit :=
  match f with TickTime => tick | RealTime => real end.

(** The source reads once and hands each whole event it got, in the format
    that was chosen, to the handlers of the format. *)
Lemma dispatch_read_run f i h k src condition old evs rest k' :
  let bs := concat evs ++ rest in
  let h1 := <[is_buf src := bs ++ drop (length bs) old]> h in
  h !! is_buf src = Some old → Z.of_nat (length old) = is_buf_len src →
  0 ≤ ui_fd i → Z.land condition G_IO_ERR = 0 → ui_event_type i = format_type f →
  sys_read (ui_fd i) (is_buf_len src) k = (Sret bs, k') →
  Forall (λ ev, Z.of_nat (length ev) = format_size f) evs →
  Z.of_nat (length rest) < format_size f →
  handlers_keep (format_handler f) (is_buf src) →
  timer_user_instance_dispatch_src tick real disconnected src condition
    (OState i (World h k)) =
  (deliver_all (format_handler f) evs;; mret true) (OState i (World h1 k')).
Proof.
  intros bs h1 Hb Hl Hfd Hc Ht E Hevs Hr Hk. unfold timer_user_instance_dispatch_src.
  rewrite bind_private. destruct (Z.ltb_spec (ui_fd i) 0); [lia|]. rewrite Hc. cbn [negb Z.eqb].
  pose proof (read_bound (ui_fd i) (is_buf_len src) k bs k' ltac:(lia) E) as Hmax.
  rewrite (bind_Ret _ _ _ (Sret (Z.of_nat (length bs))) (OState i (World h1 k'))).
  2:{ apply outside_run. unfold do_read. step (sys_run _ h k _ k' E).
      rewrite (bind_Ret _ _ _ tt (World h1 k')); [done|]. apply mem_Ret.
      apply store_prefix; [done|lia]. }
  rewrite bind_private. apply bind_eq. rewrite Ht.
  assert (0 < format_size f) as Hs by by destruct f.
  assert (length evs ≤ length (concat evs))%nat as Hn.
  { clear -Hevs Hs. induction Hevs as [|ev evs Hev _ IH]; [done|]. cbn [concat length].
    rewrite length_app. lia. }
  pose proof (dispatch_events_run (format_handler f) (format_size f) evs
    (Z.to_nat (Z.of_nat (length bs))) (is_buf src) [] rest (drop (length bs) old)
    (OState i (World h1 k')) Hs Hk) as Hrun.
  change (Z.of_nat (@length byte [])) with 0 in Hrun. unfold bs at 2 in Hrun.
  fold bs in Hrun.
  destruct f; cbn [format_type Z.eqb ALSATIMER_EVENT_TYPE_TICK_TIME ALSATIMER_EVENT_TYPE_REAL_TIME];
    (apply Hrun; [|done|done|unfold bs; rewrite length_app; lia]);
    cbn [w_heap os_world app]; unfold h1; rewrite lookup_insert_eq; unfold bs; by rewrite <- app_assoc.
Qed.
End dispatch.

(** ** The queue of an instance

    What the driver documents of reading from an instance: [timer_queue fd evs
    k] are the events that wait behind [fd], in the order of their arrival.  A
    reading takes whole events from the front, at least one when there are
    any and there is room for one. *)
Class TimerQueue (K : Type) := timer_queue : Z → event_format → list (list byte) → K → Prop.

Class TimerQueueLaws (K : Type) `{!Kernel K} `{!TimerQueue K} : Prop := {
  queue_sized fd f evs (k : K) :
    timer_queue fd f evs k → Forall (λ ev, Z.of_nat (length ev) = format_size f) evs;
  queue_read fd f evs (k : K) n :
    timer_queue fd f evs k → evs ≠ [] → format_size f ≤ n →
    ∃ now later k', evs = now ++ later ∧ now ≠ [] ∧
      sys_read fd n k = (Sret (concat now), k') ∧ timer_queue fd f later k';
}.

Section drain.
Context {AL : Allocator} {GL : GLib} {K : Type} {KERN : Kernel K} {KL : KernelLaws K}.
Context {TQ : TimerQueue K} {TQL : TimerQueueLaws K}.
Context (tick real : list byte → M (ostate instance K) unit).
Context (disconnected : M (ostate instance K) unit).
Implicit Types (h : heap) (k : K) (i : instance).

(** Handlers that record each event they get in the memory of the application,
    and touch neither the buffer at [a] nor the instance nor the queues. *)
Record recording (handle : list byte → M (ostate instance K) unit) (a : Z)
    (log : heap → list byte) : Prop := {
  records ev i h k : ∃ h' k',
    handle ev (OState i (World h k)) = (Ret tt, OState i (World h' k')) ∧
    log h' = log h ++ ev ∧ h' !! a = h !! a ∧
    ∀ fd f evs, timer_queue fd f evs k → timer_queue fd f evs k';
  log_apart h bs : log (<[a := bs]> h) = log h;
}.

Lemma recording_keep handle a log : recording handle a log → handlers_keep handle a.
Proof.
  intros H ev [i [h k]] s' E. destruct (records _ _ _ H ev i h k) as (h' & k' & E2 & _ & Ha & _).
  rewrite E2 in E. by injection E as <-.
Qed.

Lemma deliver_recorded handle a log evs i h k :
  recording handle a log → ∃ h' k',
    deliver_all handle evs (OState i (World h k)) = (Ret tt, OState i (World h' k')) ∧
    log h' = log h ++ concat evs ∧ h' !! a = h !! a ∧
    ∀ fd f q, timer_queue fd f q k → timer_queue fd f q k'.
Proof.
  intros H. revert h k. induction evs as [|ev evs IH]; intros h k.
  { exists h, k. cbn [concat]. by rewrite app_nil_r. }
  destruct (records _ _ _ H ev i h k) as (h1 & k1 & E1 & L1 & A1 & Q1).
  destruct (IH h1 k1) as (h2 & k2 & E2 & L2 & A2 & Q2).
  exists h2, k2. cbn [deliver_all concat]. step E1. split_and!; [done|..|by auto].
  - by rewrite L2, L1, <- app_assoc.
  - congruence.
Qed.

(** One dispatch hands over some of the events that wait. *)
Lemma dispatch_progress f a log n i h k evs old :
  recording (format_handler tick real f) a log → h !! a = Some old →
  Z.of_nat (length old) = n → format_size f ≤ n → 0 ≤ ui_fd i →
  ui_event_type i = format_type f → timer_queue (ui_fd i) f evs k → evs ≠ [] →
  ∃ now later old' h' k', evs = now ++ later ∧ now ≠ [] ∧
    timer_user_instance_dispatch_src tick real disconnected (InstanceSource a n) G_IO_IN
      (OState i (World h k)) = (Ret true, OState i (World h' k')) ∧
    h' !! a = Some old' ∧ Z.of_nat (length old') = n ∧
    log h' = log h ++ concat now ∧ timer_queue (ui_fd i) f later k'.
Proof.
  intros Hrec Ha Hl Hn Hfd Ht Hq Hne.
  destruct (queue_read _ _ _ _ n Hq Hne Hn) as (now & later & k1 & E & Hnow & Er & Hq1).
  pose proof (queue_sized _ _ _ _ Hq) as Hsz. rewrite E in Hsz. apply Forall_app in Hsz as [Hsz _].
  assert (0 < format_size f) as Hpos by by destruct f.
  pose proof (read_bound (ui_fd i) n k (concat now) k1 ltac:(lia) Er) as Hmax.
  set (old' := concat now ++ drop (length (concat now)) old).
  destruct (deliver_recorded _ a log now i (<[a := old']> h) k1 Hrec) as (h' & k' & Ed & L & A & Q).
  exists now, later, old', h', k'. split; [done|]. split; [done|]. split_and!; [| | | |by apply Q].
  - pose proof (dispatch_read_run tick real disconnected f i h k (InstanceSource a n) G_IO_IN old
      now [] k1) as Hrun. rewrite app_nil_r in Hrun. rewrite Hrun; clear Hrun;
      [|done..|by apply recording_keep in Hrec]. by step Ed.
  - by rewrite A, lookup_insert_eq.
  - unfold old'. rewrite length_app, length_drop. lia.
  - by rewrite L, (log_apart _ _ _ Hrec).
Qed.
End drain.

(** ** The devices of the system

    What the driver documents of the enumeration: [timer_devices fd ids k] are
    the identifiers of the devices in their order.  The request takes an
    identifier and gives the next one, the first one for the class -1, and the
    class -1 after the last one. *)
Class TimerDevices (K : Type) := timer_devices : Z → list (list byte) → K → Prop.

Class TimerDevicesLaws (K : Type) `{!Kernel K} `{!TimerDevices K} : Prop := {
  devices_sized fd ids (k : K) : timer_devices fd ids k →
    Forall (λ id, length id = 20%nat ∧ fget tid_class id ≠ SNDRV_TIMER_CLASS_NONE) ids;
  devices_next fd ids (k : K) seen rest s :
    timer_devices fd ids k → ids = seen ++ rest → length s = 20%nat →
    match last seen with
    | None => fget tid_class s = SNDRV_TIMER_CLASS_NONE
    | Some id => s = id
    end →
    ∃ s' k', sys_ioctl fd TIMER_NEXT_DEVICE s k = (Sret tt, s', k') ∧ timer_devices fd ids k' ∧
      match rest with
      | [] => fget tid_class s' = SNDRV_TIMER_CLASS_NONE
      | id :: _ => s' = id
      end;
}.

Section devices.
Context {AL : Allocator} {ALW : AllocatorLaws} {GL : GLib} {K : Type} {KERN : Kernel K}.
Context {TD : TimerDevices K} {TDL : TimerDevicesLaws K}.
Implicit Types (h : heap) (k : K).

Lemma next_devices_run rest : ∀ (fuel : nat) fd ids seen h k s entries,
  timer_devices fd ids k → ids = seen ++ rest → length s = 20%nat →
  match last seen with
  | None => fget tid_class s = SNDRV_TIMER_CLASS_NONE
  | Some id => s = id
  end →
  (length rest < fuel)%nat →
  (∃ boxes k', next_devices fuel fd s entries (World h k) =
      (Ret (Sret tt, entries ++ map box boxes), World (boxed boxes rest h) k') ∧
    new_boxes h boxes rest ∧ timer_devices fd ids k') ∨
  (∃ w, next_devices fuel fd s entries (World h k) = (Oom, w)).
Proof.
  induction rest as [|id rest IH]; intros fuel fd ids seen h k s entries Hd Hids Hl Hs Hf;
    (destruct fuel as [|fuel]; [simpl in Hf; lia|]); cbn [next_devices];
    destruct (devices_next fd ids k seen _ s Hd Hids Hl Hs) as (s' & k' & E & Hd' & Hs').
  { left. exists [], k'. step (ioctl_val_run h k _ _ _ _ _ _ E). rewrite Hs'. cbn [map].
    rewrite app_nil_r, boxed_nil. split; [done|]. split; [apply new_boxes_nil|done]. }
  subst s'. pose proof (devices_sized fd ids k Hd) as Hall. rewrite Hids in Hall.
  apply Forall_app in Hall as [_ [[Hli Hci] _]%Forall_cons].
  step (ioctl_val_run h k _ _ _ _ _ _ E). destruct (Z.eqb_spec (fget tid_class id)
    SNDRV_TIMER_CLASS_NONE) as [Hc|_]; [contradiction|].
  destruct (new_box_sized sizeof_timer_id h id) as [(b & Em & Es & Hb & Hp)|Em]; [done|done|..].
  2:{ right. exists (World h k'). unfold mbind, M_bind, mem, zoom. cbn [w_heap]. by rewrite Em. }
  step (mem_Ret _ h k' _ _ Em). step (mem_Ret _ _ k' _ _ Es).
  destruct (IH fuel fd ids (seen ++ [id]) (<[b := id]> h) k' id (entries ++ [(b, 0)]))
    as [(boxes & k2 & E2 & Hnew & Hd2)|(w & E2)].
  - done.
  - by rewrite <- app_assoc.
  - done.
  - by rewrite last_snoc.
  - simpl in Hf. lia.
  - left. destruct (new_boxes_cons h b id boxes rest id Hb Hp Hnew) as [Hni Hnew'].
    exists (b :: boxes), k2. split; [|done]. etrans; [exact E2|]. rewrite boxed_cons by done.
    cbn [map]. by rewrite <- app_assoc.
  - right. by exists w.
Qed.
End devices.

(** ** Requests of an instance *)

Inductive instance_request :=
  | IStart | IStop | IPause | IContinue
  | ISetParams | IGetStatus
  | IAttach | IAttachAsSlave (slave_class slave_id : Z)
  | IChooseEventType (event_type : Z).

Section requests.
Context {AL : Allocator} {GL : GLib} {K : Type} {KERN : Kernel K}.
Implicit Types (h : heap) (k : K) (i : instance).

(** The call of the object; [p] is its argument, if it has one. *)
Definition run_instance (q : instance_request) (p : ptr) : M (ostate instance K) unit :=
  match q with
  | IStart => alsatimer_user_instance_start
  | IStop => alsatimer_user_instance_stop
  | IPause => alsatimer_user_instance_pause
  | IContinue => alsatimer_user_instance_continue
  | ISetParams => alsatimer_user_instance_set_params p
  | IGetStatus => alsatimer_user_instance_get_status p
  | IAttach => alsatimer_user_instance_attach p
  | IAttachAsSlave c i => alsatimer_user_instance_attach_as_slave c i
  | IChooseEventType t => alsatimer_user_instance_choose_event_type t
  end.

Definition instance_ioctl (q : instance_request) : request :=
  match q with
  | IStart => TIMER_START | IStop => TIMER_STOP | IPause => TIMER_PAUSE
  | IContinue => TIMER_CONTINUE | ISetParams => TIMER_PARAMS | IGetStatus => TIMER_STATUS
  | IAttach | IAttachAsSlave _ _ => TIMER_SELECT
  | IChooseEventType _ => TIMER_TREAD
  end.

(** The size of the argument in memory. *)
Definition instance_size (q : instance_request) : nat :=
  match q with ISetParams => 80 | IGetStatus => 96 | IAttach => 20 | _ => 0 end.

(** The structure that is sent, for the argument [s]. *)
Definition instance_struct (q : instance_request) (s : list byte) : list byte :=
  match q with
  | ISetParams | IGetStatus => s
  | IAttach => s ++ zeros 32
  | IAttachAsSlave c i => le_split 4 0 ++ le_split 4 c ++ zeros 4 ++ le_split 4 i ++ zeros 36
  | IChooseEventType t => le_split 4 t
  | _ => []
  end.

(** The argument is changed by these only. *)
Definition in_place (q : instance_request) : bool :=
  match q with ISetParams | IGetStatus => true | _ => false end.

Definition instance_label (q : instance_request) : string :=
  match q with
  | IStart => "ioctl(START)" | IStop => "ioctl(STOP)" | IPause => "ioctl(PAUSE)"
  | IContinue => "ioctl(CONTINUE)" | ISetParams => "ioctl(PARAMS)"
  | IGetStatus => "ioctl(STATUS)" | IAttach | IAttachAsSlave _ _ => "ioctl(SELECT)"
  | IChooseEventType _ => "ioctl(TREAD)"
  end.

(** The [errno] with a code of its own, and the code. *)
Definition instance_own (q : instance_request) : option (Z * Z) :=
  match q with
  | IAttach => Some (ENODEV, ALSATIMER_USER_INSTANCE_ERROR_TIMER_NOT_FOUND)
  | IAttachAsSlave _ _ => None
  | IChooseEventType _ => Some (EBUSY, ALSATIMER_USER_INSTANCE_ERROR_ATTACHED)
  | _ => Some (EBADFD, ALSATIMER_USER_INSTANCE_ERROR_NOT_ATTACHED)
  end.

(** The private data after the request was answered. *)
Definition instance_after (q : instance_request) (i : instance) : instance :=
  match q with IChooseEventType t => set_event_type t i | _ => i end.

Lemma request_val_run i h k req s own what r s' k' :
  sys_ioctl (ui_fd i) req s k = (r, s', k') →
  request_val req s own what (OState i (World h k)) =
    (match r with Sret _ => Ret tt | Serr e => Fail (instance_error own e what) end,
     OState i (World h k')).
Proof.
  intros E. unfold request_val. rewrite bind_private.
  step (outside_run _ i _ _ _ (ioctl_val_run h k _ _ _ _ _ _ E)). by destruct r.
Qed.

Lemma timer_request_mem_run {KL : KernelLaws K} i h k a s n req own what r s' k' :
  h !! a = Some s → n = Z.of_nat (length s) → s ≠ [] →
  sys_ioctl (ui_fd i) req s k = (r, s', k') →
  request_mem req (a, 0) n own what (OState i (World h k)) =
    (match r with Sret _ => Ret tt | Serr e => Fail (instance_error own e what) end,
     OState i (World (<[a := s']> h) k')).
Proof.
  intros Ha Hn Hne E. unfold request_mem. rewrite bind_private.
  step (outside_run _ i _ _ _ (ioctl_block h k a s n _ _ _ _ _ Ha Hn Hne E)). by destruct r.
Qed.
End requests.
