(* ===== verification/SampleTimer.v ===== *)
(** * A sample system with timers

    Two timer devices and an instance with a queue of events, for concrete
    runs.  The state of the system is the queue. *)
From S2P Require Import Prelude Heap SeqUapi Struct Kernel Sysfs Object.
From S2P Require Import TimerQuery TimerUserInstance TimerFacts SampleSystem.

Module SampleTimer.
Definition queue : Type := list (list byte).

(** The identifiers of the system timer and of a timer of a card. *)
Definition timer_id (class card device : Z) : list byte :=
  fput tid_class class (fput tid_card card (fput tid_device device (zeros 20))).
Definition system_timer : list byte := timer_id 1 (-1) 0.
Definition card_timer : list byte := timer_id 3 0 1.
Definition devices : list (list byte) := [system_timer; card_timer].
Definition no_timer : list byte := timer_id (-1) 0 0.

Definition next_device (s : list byte) : list byte :=
  if fget tid_class s =? -1 then system_timer
  else if bool_decide (s = system_timer) then card_timer else no_timer.

Definition answer (req : request) (s : list byte) : sysret unit :=
  match req with TIMER_TREAD => Sret tt | TIMER_GSTATUS => Serr ENODEV | _ => Serr EBADFD end.

#[export] Instance timer_kernel : Kernel queue := {|
  sys_open path flags k := (Sret 9, k);
  sys_close fd k := k;
  sys_ioctl fd req s k :=
    match req with
    | TIMER_NEXT_DEVICE =>
        if bool_decide (length s = 20%nat) then (Sret tt, next_device s, k) else (Serr EINVAL, s, k)
    | _ => (answer req s, s, k)
    end;
  sys_write fd bs k := (Serr EINVAL, k);
  sys_read fd n k :=
    match k with
    | ev :: k' => if Z.of_nat (length ev) <=? n then (Sret ev, k') else (Serr EINVAL, k)
    | [] => (Serr EAGAIN, k)
    end;
|}.

#[export] Instance timer_kernel_laws : KernelLaws queue.
Proof.
  split.
  - by intros path flags k fd k' [= <- _].
  - intros fd req bs k. cbn [sys_ioctl timer_kernel]. destruct req; try done.
    case_bool_decide as H; [|done]. cbn [fst snd]. rewrite H. unfold next_device.
    destruct (fget tid_class bs =? -1); [done|]. by case_bool_decide.
  - done.
  - intros fd n [|ev k] bs k' Hn; cbn [sys_read timer_kernel]; [done|].
    destruct (Z.leb_spec (Z.of_nat (length ev)) n); [|done]. by intros [= <- _].
Qed.

#[export] Instance queue_view : TimerQueue queue := λ fd f evs k,
  k = evs ∧ Forall (λ ev, Z.of_nat (length ev) = format_size f) evs.

#[export] Instance queue_laws : TimerQueueLaws queue.
Proof.
  split.
  - by intros fd f evs k [_ H].
  - intros fd f evs k n [-> H] Hne Hn. destruct evs as [|ev evs]; [done|].
    inversion H as [|? ? Hev H']; subst. exists [ev], evs, evs.
    split; [done|]. split; [done|]. split; [|done]. cbn [sys_read timer_kernel concat].
    rewrite app_nil_r. by destruct (Z.leb_spec (Z.of_nat (length ev)) n); [|lia].
Qed.

#[export] Instance devices_view : TimerDevices queue := λ fd ids k, ids = devices.

#[export] Instance devices_laws : TimerDevicesLaws queue.
Proof.
  split.
  - intros fd ids k ->. by repeat constructor.
  - intros fd ids k seen rest s -> E Hl Hs. exists (next_device s), k.
    cbn [sys_ioctl timer_kernel]. rewrite bool_decide_true by done. split; [done|]. split; [done|].
    unfold next_device. destruct seen as [|d1 [|d2 [|d3 seen]]]; cbn [last app] in *.
    + rewrite Hs. by subst rest.
    + injection E as <- <-. by subst s.
    + injection E as <- <- <-. by subst s.
    + discriminate E.
Qed.

(** A host with a timer device. *)
#[export] Instance host : Udev queue := {|
  udev := unit;
  udev_device := unit;
  udev_new k := (Sret tt, k);
  udev_unref _ k := k;
  udev_device_new_from_subsystem_sysname _ _ _ k := (Sret tt, k);
  udev_device_new_from_syspath _ _ k := (Sret tt, k);
  udev_device_get_sysname _ _ := Sret "timer";
  udev_device_get_devnode _ _ := Sret "/dev/snd/timer";
  udev_device_get_sysnum _ _ := Serr ENOENT;
  udev_device_unref _ k := k;
  udev_enumerate _ _ k := (Sret [], k);
  udev_enumerate_unref _ k := k;
|}.

(** An instance that chose events with the real time, and an application that
    appends each of them to the block at 64. *)
Definition real_time : instance := Instance 9 ALSATIMER_EVENT_TYPE_REAL_TIME [2; 0; 7] 1.
Definition log (h : heap) : list byte := default [] (h !! 64).
Definition append (ev : list byte) : M (ostate instance queue) unit :=
  outside (mem (modify (λ h, <[64 := log h ++ ev]> h))).

Lemma append_records a : a ≠ 64 → recording append a log.
Proof.
  intros Ha. split.
  - intros ev i h k. exists (<[64 := log h ++ ev]> h), k. split; [done|]. split; [|split; [|done]].
    + unfold log at 1. by rewrite lookup_insert_eq.
    + by rewrite lookup_insert_ne.
  - intros h bs. unfold log. by rewrite lookup_insert_ne.
Qed.
End SampleTimer.
