(* ===== verification/TimerProps.v ===== *)
(** * Properties of timers *)
From S2P Require Import Prelude Heap SeqUapi Struct Kernel Sysfs Object Boxes.
From S2P Require Import TimerQuery TimerUserInstance TimerFacts SampleSystem SampleTimer.

Section instance.
Context {AL : Allocator} {GL : GLib} {K : Type} {KERN : Kernel K} {KL : KernelLaws K}.
Implicit Types (h : heap) (k : K) (i : instance).

(** C12: no event of a timer is lost: when the events [evs] wait behind an open
    instance, in the format that was chosen, at most as many dispatches of the
    source as there are events hand every one of them to the handlers of the
    format, once and in the order of arrival, and the source stays. *)
Theorem timer_events_delivered {TQ : TimerQueue K} {TQL : TimerQueueLaws K}
    tick real disconnected f a log n i h k evs old :
  recording (format_handler tick real f) a log →
  h !! a = Some old → Z.of_nat (length old) = n → format_size f ≤ n →
  0 ≤ ui_fd i → ui_event_type i = format_type f → timer_queue (ui_fd i) f evs k →
  ∃ times h' k', (times ≤ length evs)%nat ∧
    main_loop (timer_user_instance_dispatch_src tick real disconnected (InstanceSource a n) G_IO_IN)
        times (OState i (World h k)) =
      (Ret true, OState i (World h' k')) ∧
    log h' = log h ++ concat evs ∧ timer_queue (ui_fd i) f [] k'.
Proof.
  intros Hrec Ha Hl Hn Hfd Ht Hq.
  remember (length evs) as m eqn:Em. assert (length evs ≤ m)%nat as Hm by lia. clear Em.
  revert evs old h k Ha Hl Hq Hm. induction m as [|m IH]; intros evs old h k Ha Hl Hq Hm.
  - destruct evs as [|ev evs]; [|simpl in Hm; lia]. exists 0%nat, h, k.
    cbn [concat]. by rewrite app_nil_r.
  - destruct (decide (evs = [])) as [->|Hne].
    { exists 0%nat, h, k. cbn [concat]. rewrite app_nil_r. split_and!; [lia|done..]. }
    destruct (dispatch_progress tick real disconnected f a log n i h k evs old Hrec Ha Hl Hn Hfd
      Ht Hq Hne) as (now & later & old1 & h1 & k1 & -> & Hnow & E & Ha1 & Hl1 & L1 & Hq1).
    destruct (IH later old1 h1 k1 Ha1 Hl1 Hq1) as (times & h2 & k2 & Hle & E2 & L2 & Hq2).
    { rewrite length_app in Hm. destruct now; [done|simpl in Hm; lia]. }
    exists (S times), h2, k2. split; [lia|]. split; [by rewrite (main_loop_stays _ _ _ _ E)|].
    split; [|done]. by rewrite L2, L1, concat_app, <- app_assoc.
Qed.

(** C40: each request of an instance sends one structure: nothing for the
    control of the timer, the object for parameters and status, the identifier
    in a zeroed selection for attaching, the slave class and number in one of
    the slave class, the number of the format.  Parameters and status then hold
    what the kernel left in them, only a format that was accepted is
    remembered, and errors have the documented codes. *)
Theorem instance_request_spec q i h k a s r s' k' :
  h !! a = Some s → length s = instance_size q ∨ instance_size q = 0%nat →
  sys_ioctl (ui_fd i) (instance_ioctl q) (instance_struct q s) k = (r, s', k') →
  run_instance q (a, 0) (OState i (World h k)) =
    let h' := if in_place q then <[a := s']> h else h in
    match r with
    | Sret _ => (Ret tt, OState (instance_after q i) (World h' k'))
    | Serr e => (Fail (instance_error (instance_own q) e (instance_label q)),
                 OState i (World h' k'))
    end.
Proof.
  intros Ha Hl E. cbv zeta.
  assert (instance_size q ≠ 0%nat → s ≠ [] ∧ Z.of_nat (instance_size q) = Z.of_nat (length s)) as Hs.
  { intros H. destruct Hl as [Hl|Hl]; [|contradiction]. split; [|by rewrite Hl].
    intros ->. by rewrite <- Hl in H. }
  destruct q; cbn [run_instance in_place instance_ioctl instance_struct instance_after] in *.
  1-4: (etrans; [by eapply request_val_run|]); by destruct r.
  1-2: destruct (Hs ltac:(done)) as [Hne Hz]; (etrans; [by eapply timer_request_mem_run|]); by destruct r.
  - destruct (Hs ltac:(done)) as [_ Hz]. unfold alsatimer_user_instance_attach.
    step (outside_mem _ i h k _ _ (load_at h (a, 0) s sizeof_timer_id (at_ptr_block _ _ _ Ha) Hz)).
    rewrite (request_val_run i h k TIMER_SELECT _ _ _ r s' k'); [by destruct r|].
    rewrite <- E. do 2 f_equal. unfold put_bytes. cbn [take app].
    replace (0 + length s)%nat with 20%nat by (simpl in Hz; lia). reflexivity.
  - unfold alsatimer_user_instance_attach_as_slave. cbv zeta.
    rewrite (request_val_run i h k TIMER_SELECT _ _ _ r s' k'); [by destruct r|].
    exact E.
  - unfold alsatimer_user_instance_choose_event_type.
    pose proof (request_val_run i h k TIMER_TREAD _
      (Some (EBUSY, ALSATIMER_USER_INSTANCE_ERROR_ATTACHED)) "ioctl(TREAD)" r s' k' E) as Hrun.
    destruct r as [u|e]; [|by rewrite (bind_Fail _ _ _ _ _ Hrun)]. by step Hrun.
Qed.

End instance.

Section query.
Context {AL : Allocator} {ALW : AllocatorLaws} {GL : GLib} {K : Type} {KERN : Kernel K}.
Context {UD : Udev K}.
Implicit Types (h : heap) (k : K).

(** C35: the list of devices is complete: when the devices behind the descriptor
    that was opened have the identifiers [ids], the call ends after one request
    more than there are devices, adds boxed copies of exactly these
    identifiers, in their order, to the list, changes no other memory and
    closes the descriptor. *)
Theorem timer_device_id_list_complete {TD : TimerDevices K} {TDL : TimerDevicesLaws K}
    fuel h k fd k1 ids entries :
  open_fd (World h k) = (Ret (Some fd), World h k1) → timer_devices fd ids k1 →
  (length ids < fuel)%nat →
  (∃ boxes k',
    alsatimer_get_device_id_list fuel entries (World h k) =
      (Ret (entries ++ map box boxes), World (boxed boxes ids h) (sys_close fd k')) ∧
    new_boxes h boxes ids ∧ timer_devices fd ids k') ∨
  (∃ w, alsatimer_get_device_id_list fuel entries (World h k) = (Oom, w)).
Proof.
  intros Eo Hd Hf. unfold alsatimer_get_device_id_list. step Eo.
  cbn [initialized]. step (mret_run (S := world K) fd (World h k1)).
  destruct (next_devices_run ids fuel fd ids [] h k1 (fput tid_class (-1) (zeros 20)) entries)
    as [(boxes & k' & E & Hn & Hd')|(w & E)]; [done..| |].
  - left. exists boxes, k'. step E. by step (sys_run (λ k, (tt, sys_close fd k)) (boxed boxes ids h) k' tt
      (sys_close fd k') eq_refl).
  - right. exists w. unfold mbind, M_bind. by rewrite E.
Qed.

(** A refused query of the status of a device releases the object of the
    caller, who still has it: when the caller gives back its own reference the
    memory is released a second time. *)
Theorem device_status_refused_releases_argument {KL : KernelLaws K} h k fd k1 d id b st e s' k2 :
  open_fd (World h k) = (Ret (Some fd), World h k1) →
  h !! d = Some id → length id = 20%nat → h !! b = Some st → length st = 80%nat → 0 < b → d ≠ b →
  sys_ioctl fd TIMER_GSTATUS (id ++ drop 20 st) k1 = (Serr e, s', k2) →
  let w' := World (delete b h) (sys_close fd k2) in
  alsatimer_get_device_status (d, 0) (b, 0) (World h k) =
    (Fail (Some (GError G_FILE_ERROR (g_file_error_from_errno e)
       "ioctl(SNDRV_TIMER_IOCTL_GSTATUS)" None)), w') ∧
  (g_object_unref (b, 0) : M (world K) unit) w' = (UB, w').
Proof.
  intros Eo Hd Hld Hb Hlb Hp Hne E w'. split.
  - unfold alsatimer_get_device_status. step Eo.
    set (st1 := id ++ drop 20 st).
    assert (length st1 = 80%nat) as Hl1 by (unfold st1; rewrite length_app, length_drop; lia).
    rewrite (bind_Ret _ _ _ tt (World (<[b := st1]> h) k1)).
    2:{ apply mem_Ret. unfold memcpy.
        step (load_at h (d, 0) id sizeof_timer_id (at_ptr_block _ _ _ Hd) ltac:(by rewrite Hld)).
        unfold st1. rewrite <- Hld. apply store_prefix; [done|lia]. }
    cbn [initialized]. step (mret_run (S := world K) fd (World (<[b := st1]> h) k1)).
    step (ioctl_block _ k1 b st1 sizeof_timer_gstatus fd _ _ s' k2 (lookup_insert_eq h b st1)
      ltac:(by rewrite Hl1) ltac:(intros E0; by rewrite E0 in Hl1) E).
    step (g_object_unref_run _ k2 b s' Hp (lookup_insert_eq (<[b := st1]> h) b s')).
    step (sys_run (λ k, (tt, sys_close fd k)) (delete b (<[b := s']> (<[b := st1]> h))) k2 tt
      (sys_close fd k2) eq_refl).
    unfold generate_file_error, fail, w'. do 2 f_equal. by rewrite insert_insert_eq, delete_insert_eq.
  - unfold g_object_unref, w', p_addr. cbn [fst snd]. rewrite Z.add_0_r. apply mem_UB.
    unfold g_free. destruct (Z.eqb_spec b 0); [lia|]. by rewrite lookup_delete_eq.
Qed.
End query.

(** ** Concrete runs *)

Module TimerWitness.
Import Sample SampleTimer.
#[local] Existing Instance Bump.allocator.
#[local] Existing Instance Bump.laws.

(** Two events wait; both are recorded. *)
Definition tread (event : Z) : list byte := le_split 4 event ++ zeros 28.
Definition ignore (ev : list byte) : M (ostate instance queue) unit := mret tt.
Definition buffer : heap := {[8192 := zeros 64]}.

Lemma timer_events_delivered_witness :
  ∃ times h' k', (times ≤ 2)%nat ∧
    main_loop (timer_user_instance_dispatch_src ignore append (mret tt) (InstanceSource 8192 64)
      G_IO_IN) times (OState real_time (World buffer [tread 1; tread 2])) =
      (Ret true, OState real_time (World h' k')) ∧
    log h' = [] ++ concat [tread 1; tread 2] ∧ timer_queue 9 RealTime [] k'.
Proof.
  apply (timer_events_delivered ignore append (mret tt) RealTime 8192 log 64 real_time buffer
    [tread 1; tread 2] [tread 1; tread 2] (zeros 64)).
  - by apply append_records.
  - by vm_compute.
  - by vm_compute.
  - by vm_compute.
  - by vm_compute.
  - by vm_compute.
  - split; [done|]. by repeat constructor.
Defined.

Definition params : heap := {[64 := zeros 80]}.

Lemma instance_request_spec_witness :
  run_instance ISetParams (64, 0) (OState real_time (World params ([] : queue))) =
    (Fail (local_error ALSATIMER_USER_INSTANCE_ERROR_NOT_ATTACHED),
     OState real_time (World (<[64 := zeros 80]> params) [])).
Proof.
  apply (instance_request_spec ISetParams real_time params [] 64 (zeros 80) (Serr EBADFD)
    (zeros 80) []); [by vm_compute|by left|by vm_compute].
Defined.

Lemma timer_device_id_list_complete_witness :
  ∃ boxes k',
    alsatimer_get_device_id_list 3 [] (World ∅ []) =
      (Ret (map box boxes), World (boxed boxes devices ∅) (sys_close 9 k')) ∧
    new_boxes ∅ boxes devices.
Proof.
  destruct (timer_device_id_list_complete 3 ∅ [] 9 [] devices [] ltac:(by vm_compute) eq_refl
    ltac:(by apply Nat.ltb_lt)) as [(boxes & k' & E & Hn & _)|(w & E)].
  - exact (ex_intro _ boxes (ex_intro _ k' (conj E Hn))).
  - by vm_compute in E.
Defined.

Definition queried : heap := {[64 := card_timer; 256 := zeros 80]}.

Lemma device_status_refused_releases_argument_witness :
  alsatimer_get_device_status (64, 0) (256, 0) (World queried []) =
    (Fail (Some (GError G_FILE_ERROR (g_file_error_from_errno ENODEV)
       "ioctl(SNDRV_TIMER_IOCTL_GSTATUS)" None)), World (delete 256 queried) (sys_close 9 ([] : queue))) ∧
  (g_object_unref (256, 0) : M (world queue) unit) (World (delete 256 queried) (sys_close 9 ([] : queue))) =
    (UB, World (delete 256 queried) (sys_close 9 ([] : queue))).
Proof.
  apply (device_status_refused_releases_argument queried [] 9 [] 64 card_timer 256 (zeros 80) ENODEV
    (card_timer ++ zeros 60) []); by vm_compute.
Defined.
End TimerWitness.
