(* ===== verification/TimerClock.v ===== *)
(** * The clock of the time stamps of timers

    [alsatimer_get_real_time_clock_id] of src/src/timer/query.c reads a
    parameter of the kernel module as text: what the caller gets for each
    number the module may have, with the file of the system behind an
    interface, and which numbers the buffer is large enough for. *)
From S2P Require Import Prelude Heap SeqUapi Struct Kernel Sysfs SysfsProps CString UtilsMemProps.
From S2P Require Import Object TimerQuery.
From stdpp Require Import pretty.
From Stdlib Require Import Ascii.
Open Scope Z_scope.

(** ** Texts of numbers *)

Lemma pretty_go_grows (x : N) : ∀ s, (String.length s ≤ String.length (pretty_N_go x s))%nat.
Proof.
  induction (N.lt_wf_0 x) as [x _ IH]; intros s.
  destruct (decide (x = 0%N)) as [->|Hx]; [by rewrite pretty_N_go_0|].
  rewrite pretty_N_go_step by lia. etrans; [|apply IH, N.div_lt; lia]. cbn [String.length]. lia.
Qed.

(** A number with [n + 1] digits has a text of as many characters. *)
Lemma pretty_go_length_ge n : ∀ x s, (10 ^ N.of_nat n ≤ x)%N →
  (S n + String.length s ≤ String.length (pretty_N_go x s))%nat.
Proof.
  induction n as [|n IH]; intros x s Hx.
  - rewrite pretty_N_go_step by (cbn in Hx; lia). apply (pretty_go_grows _ (String _ s)).
  - assert (10 ^ N.of_nat n ≤ x / 10)%N as Hd.
    { apply N.div_le_lower_bound; [done|]. by rewrite Nat2N.inj_succ, N.pow_succ_r' in Hx. }
    assert (0 < x)%N.
    { pose proof (N.pow_nonzero 10 (N.of_nat (S n)) ltac:(done)). lia. }
    rewrite pretty_N_go_step by done. etrans; [|by apply IH]. cbn [String.length]. lia.
Qed.

Lemma printable_number z : printable (decimal z).
Proof.
  destruct (Z.le_gt_cases 0 z) as [Hz|Hz]; [by apply printable_decimal|].
  destruct z as [|x|x]; [done..|]. change (decimal (Z.neg x)) with (String "045"%char (pretty (N.pos x))).
  constructor; [by vm_compute|]. by apply (printable_decimal (Z.pos x)).
Qed.

(** What the kernel prints for an integer parameter. *)
Definition NEWLINE : string := String "010"%char EmptyString.
Definition param_literal (n : Z) : string := decimal n +:+ NEWLINE.

Lemma printable_literal n : printable (param_literal n).
Proof. apply printable_app; [apply printable_number|]. by repeat constructor; vm_compute. Qed.

(** The text of an [int] fits in the buffer with the null character, but for
    the negative numbers with ten digits. *)
Lemma literal_length n : is_i32 n →
  if - 10 ^ 9 <? n then (String.length (param_literal n) ≤ 11)%nat
  else (12 ≤ String.length (param_literal n))%nat.
Proof.
  intros [Hlo Hhi]. unfold param_literal. rewrite string_length_app. cbn [NEWLINE String.length].
  destruct n as [|x|x]; [by vm_compute; lia|..].
  - destruct (Z.ltb_spec (- 10 ^ 9) (Z.pos x)); [|lia].
    pose proof (decimal_length (Z.pos x) ltac:(unfold is_u32; lia)). lia.
  - change (decimal (Z.neg x)) with (String "045"%char (pretty_N_go (N.pos x) "")). cbn [String.length].
    destruct (Z.ltb_spec (- 10 ^ 9) (Z.neg x)).
    + assert (N.pos x < 10 ^ N.of_nat 9)%N as H9 by (cbn; lia).
      pose proof (pretty_go_length 9 (N.pos x) "" H9) as Hl. cbn [String.length] in Hl. lia.
    + assert (10 ^ N.of_nat 9 ≤ N.pos x)%N as H9 by (cbn; lia).
      pose proof (pretty_go_length_ge 9 (N.pos x) "" H9) as Hl. cbn [String.length] in Hl. lia.
Qed.

(** ** Texts in buffers *)

Lemma c_chars_string s rest :
  printable s → c_chars (bytes_of_string s ++ Byte.x00 :: rest) = Some (chars s).
Proof.
  unfold printable, bytes_of_string. induction s as [|c s IH]; [done|].
  cbn [String.list_ascii_of_string map app c_chars]. intros Hs.
  inversion_clear Hs as [|? ? Hc Hr]. rewrite (proj2 (Z.eqb_neq _ 0) Hc), (IH Hr).
  cbn [mbind option_bind]. by rewrite ascii_byte.
Qed.

Lemma c_chars_unterminated bs : c_chars_only bs → c_chars bs = None.
Proof.
  induction 1 as [|b bs Hb _ IH]; [done|]. cbn [c_chars].
  destruct (Z.eqb_spec (byte.unsigned b) 0); [done|]. by rewrite IH.
Qed.

(** ** The parameters of the module

    What sysfs documents: [param_text name text k], the node of a parameter of
    the module holds [text]; a descriptor that was opened for it stands at the
    start of the text, [node_text fd text k], and reading gives as much of the
    text as was asked for. *)
Class ModuleParams (K : Type) := {
  param_text : string → string → K → Prop;
  node_text : Z → string → K → Prop;
}.

Class ModuleParamsLaws (K : Type) `{!Kernel K} `{!ModuleParams K} : Prop := {
  param_open name text (k : K) fd k' :
    param_text name text k →
    sys_open ("/sys/module/snd_timer/parameters/" +:+ name) O_RDONLY k = (Sret fd, k') →
    node_text fd text k';
  node_read fd text n (k : K) bs k' :
    node_text fd text k → sys_read fd n k = (Sret bs, k') →
    bs = take (Z.to_nat n) (bytes_of_string text);
}.

Section clock.
Context {AL : Allocator} {ALW : AllocatorLaws} {GL : GLib} {K : Type} {KERN : Kernel K}.
Context {MP : ModuleParams K} {MPL : ModuleParamsLaws K}.
Implicit Types (h : heap) (k : K).

(** The report of the call for a value of the parameter. *)
Definition clock_of_param (n : Z) : outcome Z :=
  if n =? 0 then Ret CLOCK_REALTIME
  else if n =? 1 then Ret CLOCK_MONOTONIC
  else Fail (Some (GError G_FILE_ERROR (g_file_error_from_errno EPROTO)
         "timer_tstamp_monotonic" None)).

Definition param_error (errno : Z) (what : string) : outcome Z :=
  Fail (Some (GError G_FILE_ERROR (g_file_error_from_errno errno) what None)).

(** What reading the node leaves in the buffer of 12 bytes. *)
Definition filled (n : Z) : list byte :=
  let bs := take 12 (bytes_of_string (param_literal n)) in bs ++ zeros (12 - length bs).

Lemma filled_length n : length (filled n) = 12%nat.
Proof.
  unfold filled. rewrite length_app, length_zeros, length_take. lia.
Qed.

(** The parameter is parsed back from the buffer exactly when its text ends
    before the buffer does. *)
Lemma filled_parsed n : is_i32 n →
  c_chars (filled n) =
    if - 10 ^ 9 <? n then Some (chars (param_literal n)) else None.
Proof.
  intros Hn. unfold filled. pose proof (literal_length n Hn) as Hl.
  rewrite <- length_bytes_of_string in Hl. destruct (- 10 ^ 9 <? n).
  - rewrite take_ge by lia. replace (12 - _)%nat with (S (11 - length (bytes_of_string (param_literal n)))) by lia.
    apply c_chars_string, printable_literal.
  - rewrite length_take, Nat.min_l, app_nil_r by lia.
    apply c_chars_unterminated, Forall_take, printable_literal.
Qed.

(** The node is read into the buffer and the descriptor closed. *)
Lemma node_param_run name n h k a fd k1 bs k2 :
  is_i32 n → h !! a = Some (zeros 12) →
  param_text name (param_literal n) k →
  sys_open ("/sys/module/snd_timer/parameters/" +:+ name) O_RDONLY k = (Sret fd, k1) →
  sys_read fd 12 k1 = (Sret bs, k2) →
  timer_get_node_param_value name (a, 0) 12 (World h k) =
    if - 10 ^ 9 <? n then (Ret n, World (<[a := filled n]> h) (sys_close fd k2))
    else (UB, World (<[a := filled n]> h) k2).
Proof.
  intros Hn Ha Ht Eo Er. unfold timer_get_node_param_value, do_open, do_read.
  step (sys_run _ h k _ k1 Eo). rewrite bind_assoc. step (sys_run _ h k1 _ k2 Er).
  pose proof (node_read _ _ _ _ _ _ (param_open _ _ _ _ _ Ht Eo) Er) as ->.
  change (Z.to_nat 12) with 12%nat.
  assert (mem (store (a, 0) (take 12 (bytes_of_string (param_literal n)))) (World h k2) =
    (Ret tt, World (<[a := filled n]> h) k2)) as Es.
  { apply mem_Ret. rewrite (store_prefix h a (zeros 12)) by
      (done || (rewrite length_take, length_zeros; lia)).
    unfold filled, zeros. by rewrite drop_replicate. }
  rewrite bind_assoc. step Es. rewrite (bind_Ret _ _ _ _ _ (mret_run _ _)).
  pose proof (filled_length n) as Hl.
  step (mem_Ret _ _ k2 _ _ (load_at (<[a := filled n]> h) (a, 0) (filled n) 12
    (at_ptr_block _ _ _ (lookup_insert_eq h a _)) ltac:(by rewrite Hl))).
  rewrite (filled_parsed n Hn). destruct (- 10 ^ 9 <? n); [|done].
  unfold do_close. step (sys_run (λ k, (tt, sys_close fd k)) (<[a := filled n]> h) k2 tt _ eq_refl).
  unfold param_literal. rewrite chars_app.
  assert (no_digits (chars NEWLINE)) as Hnl by done.
  rewrite (long_from_string_decimal n (chars NEWLINE) Hnl).
  destruct Hn as [Hlo Hhi]. unfold LONG_MIN, LONG_MAX.
  destruct (Z.ltb_spec n (- 2 ^ 63)); [lia|]. destruct (Z.ltb_spec (2 ^ 63 - 1) n); [lia|].
  change (chars NEWLINE) with ["010"%char]. cbn [orb]. cbv iota.
  destruct (nat_of_ascii "010" =? 10)%nat eqn:Enl; [|by vm_compute in Enl].
  by rewrite (i32_id n) by (unfold is_i32; lia).
Qed.

(** C26: the clock of real time stamps is told by the module parameter: 0 and 1
    are the two clocks, any other number is a protocol error, and a refused
    open or read has its own report.  Each of these ends with the memory as it
    was and the node closed.  A number of at most nine digits, or a positive
    one, ends before the buffer does; the text of a negative number with ten
    digits fills the twelve bytes, and is parsed without a null character. *)
Theorem real_time_clock_id_spec h k n a opened k1 :
  param_text "timer_tstamp_monotonic" (param_literal n) k → is_i32 n →
  alloc_addr h 12 = Some a →
  sys_open "/sys/module/snd_timer/parameters/timer_tstamp_monotonic" O_RDONLY k = (opened, k1) →
  let run := alsatimer_get_real_time_clock_id (World h k) in
  match opened with
  | Serr e => run = (param_error e "open", World h k1)
  | Sret fd =>
      let '(got, k2) := sys_read fd 12 k1 in
      match got with
      | Serr e => run = (param_error e "read()", World h (sys_close fd k2))
      | Sret _ =>
          if - 10 ^ 9 <? n then run = (clock_of_param n, World h (sys_close fd k2))
          else run = (UB, World (<[a := filled n]> h) k2)
      end
  end.
Proof.
  intros Ht Hn Ha Eo run. unfold run, alsatimer_get_real_time_clock_id.
  replace (count_digits 32 INT_MAX 0 + 2) with 12 by by vm_compute. cbv zeta.
  step (mem_Ret _ h k _ _ (g_malloc0_some h 12 a ltac:(done) Ha)).
  change (Z.to_nat 12) with 12%nat.
  pose proof (alloc_fresh _ _ _ Ha) as Hfresh. pose proof (alloc_nonnull _ _ _ Ha) as Hpos.
  assert (∀ bs k', mem (g_free a) (World (<[a := bs]> h) k') = (Ret tt, World h k')) as Hfree.
  { intros bs k'. apply mem_Ret.
    rewrite (g_free_block (<[a := bs]> h) a bs) by (lia || apply lookup_insert_eq).
    by rewrite delete_insert_id. }
  set (h1 := <[a := zeros 12]> h) in *.
  assert (h1 !! a = Some (zeros 12)) as Ha1 by apply lookup_insert_eq.
  destruct opened as [fd|e].
  2:{ assert (catch (timer_get_node_param_value "timer_tstamp_monotonic" (a, 0) 12) (World h1 k) =
        (Ret (inr (Some (GError G_FILE_ERROR (g_file_error_from_errno e) "open" None))),
         World h1 k1)) as E.
      { unfold catch, timer_get_node_param_value, do_open. by step (sys_run _ h1 k _ k1 Eo). }
      step E. by step (Hfree (zeros 12) k1). }
  destruct (sys_read fd 12 k1) as [[bs|e] k2] eqn:Er.
  2:{ assert (catch (timer_get_node_param_value "timer_tstamp_monotonic" (a, 0) 12) (World h1 k) =
        (Ret (inr (Some (GError G_FILE_ERROR (g_file_error_from_errno e) "read()" None))),
         World h1 (sys_close fd k2))) as E.
      { unfold catch, timer_get_node_param_value, do_open, do_read, do_close.
        step (sys_run _ h1 k _ k1 Eo). rewrite bind_assoc. by step (sys_run _ h1 k1 _ k2 Er). }
      step E. by step (Hfree (zeros 12) (sys_close fd k2)). }
  pose proof (node_param_run _ n h1 k a fd k1 bs k2 Hn Ha1 Ht Eo Er) as E.
  unfold h1 in E. rewrite insert_insert_eq in E. fold h1 in E.
  destruct (- 10 ^ 9 <? n).
  - assert (catch (timer_get_node_param_value "timer_tstamp_monotonic" (a, 0) 12) (World h1 k) =
      (Ret (inl n), World (<[a := filled n]> h) (sys_close fd k2))) as Ec
      by (unfold catch; by rewrite E).
    step Ec. step (Hfree (filled n) (sys_close fd k2)). unfold clock_of_param.
    by destruct (n =? 0), (n =? 1).
  - unfold mbind, M_bind, catch. by rewrite E.
Qed.
End clock.

(** ** Concrete runs *)

Module SampleModule.
(** The state of the system is the text of the parameter. *)
Definition node : string := "/sys/module/snd_timer/parameters/timer_tstamp_monotonic".

#[export] Instance module_kernel : Kernel string := {|
  sys_open path flags k := (if bool_decide (path = node) then Sret 5 else Serr ENOENT, k);
  sys_close fd k := k;
  sys_ioctl fd req s k := (Serr EINVAL, s, k);
  sys_write fd bs k := (Serr EACCES, k);
  sys_read fd n k := (Sret (take (Z.to_nat n) (bytes_of_string k)), k);
|}.

#[export] Instance module_params : ModuleParams string := {|
  param_text name text k := name = "timer_tstamp_monotonic" ∧ text = k;
  node_text fd text k := fd = 5 ∧ text = k;
|}.

#[export] Instance module_params_laws : ModuleParamsLaws string.
Proof.
  split.
  - intros name text k fd k' [-> ->]. cbn. by intros [= <- <-].
  - by intros fd text n k bs k' [-> ->] [= <- _].
Qed.
End SampleModule.

Module ClockWitness.
Import SampleModule.
#[local] Existing Instance Bump.allocator.
#[local] Existing Instance Bump.laws.
#[local] Instance glib : GLib := {| g_file_error_from_errno n := n |}.

(** The clock is monotonic; a number that is no [bool] and does not fit. *)
Lemma real_time_clock_id_spec_witness :
  alsatimer_get_real_time_clock_id (World ∅ (param_literal 1)) =
    (Ret CLOCK_MONOTONIC, World ∅ (param_literal 1)) ∧
  alsatimer_get_real_time_clock_id (World ∅ (param_literal (-1234567890))) =
    (UB, World {[4128 := bytes_of_string (param_literal (-1234567890))]}
           (param_literal (-1234567890))).
Proof.
  assert (is_i32 1) as H1 by by unfold is_i32.
  assert (is_i32 (-1234567890)) as H2 by by unfold is_i32.
  split.
  - exact (real_time_clock_id_spec (∅ : heap) (param_literal 1) 1 4128 (Sret 5) (param_literal 1)
      (conj eq_refl eq_refl) H1 eq_refl eq_refl).
  - exact (real_time_clock_id_spec (∅ : heap) (param_literal (-1234567890)) (-1234567890) 4128 (Sret 5)
      (param_literal (-1234567890)) (conj eq_refl eq_refl) H2 eq_refl eq_refl).
Defined.
End ClockWitness.
