(* ===== verification/RawmidiQuery.v ===== *)
(** * Queries of rawmidi devices: [src/src/rawmidi/query.c] *)
From S2P Require Import Prelude Heap SeqUapi Struct Kernel Sysfs.

(** [struct snd_rawmidi_info] *)
Definition sizeof_rawmidi_info : Z := 268.
Definition ri_device : field := u32f 0.
Definition ri_subdevice : field := u32f 4.
Definition ri_stream : field := i32f 8.
Definition ri_card : field := i32f 12.
Definition ri_subdevices_count : field := u32f 196.

Section query.
Context {AL : Allocator} {GL : GLib} {K : Type} {KERN : Kernel K} {UD : Udev K}.
Context (qsort : (Z → Z → Z) → list Z → option (list Z)).

Definition alsarawmidi_get_device_id_list (card_id : Z) : M (world K) (option (list Z)) :=
  or_file_error (generate_rawmidi_sysnum_list qsort card_id)
    "Fail to generate list of rawmidi sysnum".

Definition alsarawmidi_get_rawmidi_sysname (card_id device_id : Z) : M (world K) string :=
  or_file_error (lookup_and_allocate_rawmidi_sysname card_id device_id)
    "Fail to generate rawmidi sysname".

Definition alsarawmidi_get_rawmidi_devnode (card_id device_id : Z) : M (world K) string :=
  or_file_error (lookup_and_allocate_rawmidi_devname card_id device_id)
    "Fail to generate rawmidi devname".

(** [for (i = 0; i < count; ++i) ( *entries)[i] = i], with [i] a signed and
    [count] an unsigned integer of 32 bits; [n] bounds the iterations. *)
Fixpoint number_entries (n : nat) (a i count : Z) : M (world K) unit :=
  if i <? count then
    match n with
    | O => ub
    | S n =>
        mem (store (a, 4 * i) (le_split 4 i));;
        (if i =? INT_MAX then ub else mret tt);;
        number_entries n a (i + 1) count
    end
  else mret tt.

(** The address of the list and the number of its elements. *)
Definition alsarawmidi_get_subdevice_id_list (card_id device_id direction : Z) :
    M (world K) (Z * Z) :=
  let info := fput ri_subdevice 0 (fput ri_stream direction
    (fput ri_device device_id (fput ri_card card_id (zeroed sizeof_rawmidi_info)))) in
  '(err, info) ← request_ctl_ioctl card_id CTL_RAWMIDI_INFO info;
  match err with
  | Serr e => generate_file_error e "RAWMIDI_INFO"
  | Sret _ =>
      let count := fget ri_subdevices_count info in
      entries ← mem (g_malloc0 (count * 4));
      number_entries (Z.to_nat count) entries 0 count;;
      mret (entries, count)
  end.

Definition alsarawmidi_get_substream_info (card_id device_id direction subdevice_id : Z) :
    M (world K) ptr :=
  info ← g_object_new sizeof_rawmidi_info;
  set_field info sizeof_rawmidi_info ri_device device_id;;
  set_field info sizeof_rawmidi_info ri_subdevice subdevice_id;;
  set_field info sizeof_rawmidi_info ri_stream direction;;
  set_field info sizeof_rawmidi_info ri_card card_id;;
  err ← request_ctl_ioctl_mem card_id CTL_RAWMIDI_INFO info sizeof_rawmidi_info;
  match err with
  | Serr e => g_object_unref info;; generate_file_error e "RAWMIDI_INFO"
  | Sret _ => mret info
  end.

(** The descriptor of the control device stays open for the caller, also when
    the request fails; it is not written when the node is not found. *)
Definition rawmidi_select_subdevice (card_id subdevice_id : Z) : M (world K) (option Z) :=
  '(err, ctl_fd, _) ←
    request_ctl_ioctl_opened card_id CTL_RAWMIDI_PREFER_SUBDEVICE (le_split 4 subdevice_id);
  match err with
  | Serr e => generate_file_error e "RAWMIDI_PREFER_SUBDEVICE"
  | Sret _ => mret ctl_fd
  end.
End query.
