(* ===== verification/HwdepQuery.v ===== *)
(** * Queries of hwdep devices: [src/src/hwdep/query.c], and the common
    interface of their objects: [device-common.c]

    An object for a hwdep device is made by another library, which implements
    the interface; here the interface hands each call on to it. *)
From S2P Require Import Prelude Heap SeqUapi Struct Kernel Sysfs Object.

(** [struct snd_hwdep_info] *)
Definition sizeof_hwdep_info : Z := 220.
Definition hi_device : field := u32f 0.
Definition hi_card : field := i32f 4.

Section query.
Context {AL : Allocator} {GL : GLib} {K : Type} {KERN : Kernel K} {UD : Udev K}.
Context (qsort : (Z → Z → Z) → list Z → option (list Z)).

Definition alsahwdep_get_device_id_list (card_id : Z) : M (world K) (option (list Z)) :=
  or_file_error (generate_hwdep_sysnum_list qsort card_id)
    "Fail to generate list of hwdep sysnum".

Definition alsahwdep_get_hwdep_sysname (card_id device_id : Z) : M (world K) string :=
  or_file_error (lookup_and_allocate_hwdep_sysname card_id device_id)
    "Fail to generate hwdep sysname".

Definition alsahwdep_get_hwdep_devnode (card_id device_id : Z) : M (world K) string :=
  or_file_error (lookup_and_allocate_hwdep_devname card_id device_id)
    "Fail to generate hwdep devname".

Definition alsahwdep_get_device_info (card_id device_id : Z) : M (world K) ptr :=
  info ← g_object_new sizeof_hwdep_info;
  set_field info sizeof_hwdep_info hi_device device_id;;
  set_field info sizeof_hwdep_info hi_card card_id;;
  err ← request_ctl_ioctl_mem card_id CTL_HWDEP_INFO info sizeof_hwdep_info;
  match err with
  | Serr e => g_object_unref info;; generate_file_error e "ioctl(HWDEP_INFO)"
  | Sret _ => mret info
  end.
End query.

(** ** The interface of hwdep devices *)

Definition ALSAHWDEP_DEVICE_COMMON_ERROR_FAILED : Z := 1.
Definition ALSAHWDEP_DEVICE_COMMON_ERROR_IS_OPENED : Z := 2.
Definition ALSAHWDEP_DEVICE_COMMON_ERROR_IS_NOT_OPENED : Z := 3.
Definition ALSAHWDEP_DEVICE_COMMON_ERROR_IS_USED : Z := 4.
Definition ALSAHWDEP_DEVICE_COMMON_ERROR_IS_NOT_SUPPORTED : Z := 5.
Definition ALSAHWDEP_DEVICE_COMMON_ERROR_IS_DISCONNECTED : Z := 6.

(** There is no label for 0. *)
Definition device_common_labels : list (option string) := [
  None;
  Some "The operation failed due to unspecified reason.";
  Some "The instance is already associated to character device.";
  Some "The instance is not associated to character device yet.";
  Some "The character device is already used.";
  Some "The HwDep device associated to the character device is not supported.";
  Some "The sound card is under disconnected state."
].

(** Any other code has the label of FAILED. *)
Definition alsahwdep_device_common_error_to_label (code : Z) : option string :=
  let code :=
    if (code =? ALSAHWDEP_DEVICE_COMMON_ERROR_FAILED)
      || (code =? ALSAHWDEP_DEVICE_COMMON_ERROR_IS_OPENED)
      || (code =? ALSAHWDEP_DEVICE_COMMON_ERROR_IS_NOT_OPENED)
      || (code =? ALSAHWDEP_DEVICE_COMMON_ERROR_IS_USED)
      || (code =? ALSAHWDEP_DEVICE_COMMON_ERROR_IS_NOT_SUPPORTED)
      || (code =? ALSAHWDEP_DEVICE_COMMON_ERROR_IS_DISCONNECTED)
    then code else ALSAHWDEP_DEVICE_COMMON_ERROR_FAILED in
  mjoin (device_common_labels !! Z.to_nat code).

(** What a class that implements the interface gives, with private data [P]
    and sources [S]. *)
Class HwdepDeviceCommonIface (P K S : Type) := {
  iface_open : string → Z → M (ostate P K) unit;
  iface_get_protocol_version : M (ostate P K) (list Z);
  iface_get_device_info : M (ostate P K) ptr;
  iface_create_source : M (ostate P K) S;
}.

Section device_common.
Context {AL : Allocator} {GL : GLib} {K : Type} {KERN : Kernel K} {UD : Udev K}.
Context {P S : Type} {IFACE : HwdepDeviceCommonIface P K S}.

Definition alsahwdep_device_common_open (card_id device_id open_flag : Z) :
    M (ostate P K) unit :=
  devname ← outside (alsahwdep_get_hwdep_devnode card_id device_id);
  iface_open devname open_flag.

Definition alsahwdep_device_common_get_protocol_version : M (ostate P K) (list Z) :=
  iface_get_protocol_version.

Definition alsahwdep_device_common_get_device_info : M (ostate P K) ptr :=
  iface_get_device_info.

Definition alsahwdep_device_common_create_source : M (ostate P K) S :=
  iface_create_source.
End device_common.
