(* ===== verification/DeviceQueries.v ===== *)
(** * The queries for names and numbers of devices

    The functions of the five libraries that tell the name or the node of a
    device and the numbers of devices ([query.c] of seq, ctl, timer, rawmidi and
    hwdep), over what libudev documents of the devices of the subsystem. *)
From S2P Require Import Prelude Heap SeqUapi Struct Kernel Sysfs SysfsProps.
From S2P Require Import SampleSystem SeqQuery CtlQuery TimerQuery RawmidiQuery HwdepQuery.

(** The node of a device; a card has none. *)
Class SoundNodes := sound_node : sound_device → sysret string.

Definition named (name : string) (ds : list sound_device) : option sound_device :=
  List.find (λ d, String.eqb (sd_name d) name) ds.

(** A device is found by its name. *)
Class SoundLookupLaws (K : Type) `{!Udev K, !SoundDevices K, !SoundNodes} : Prop := {
  lookup_named ds ctx (k : K) name :
    sound_devices ds k →
    match named name ds with
    | Some d => ∃ dev k',
        udev_device_new_from_subsystem_sysname ctx SOUND_SUBSYSTEM name k = (Sret dev, k') ∧
        sound_devices ds k' ∧ udev_device_get_sysname dev k' = Sret (sd_name d) ∧
        udev_device_get_devnode dev k' = sound_node d
    | None => ∃ k',
        udev_device_new_from_subsystem_sysname ctx SOUND_SUBSYSTEM name k = (Serr ENODEV, k') ∧
        sound_devices ds k'
    end;
}.

Section queries.
Context {AL : Allocator} {GL : GLib} {K : Type} {KERN : Kernel K} {UD : Udev K}.
Context {SD : SoundDevices K} {SDL : SoundDevicesLaws K} {SN : SoundNodes} {SLL : SoundLookupLaws K}.
Context (qsort : (Z → Z → Z) → list Z → option (list Z)).
Implicit Types (h : heap) (k : K) (ds : list sound_device).

(** ** Names and nodes *)

Inductive name_query :=
  | CardSysname (card : Z)
  | ControlSysname (card : Z)
  | ControlDevnode (card : Z)
  | RawmidiSysname (card device : Z)
  | RawmidiDevnode (card device : Z)
  | HwdepSysname (card device : Z)
  | HwdepDevnode (card device : Z)
  | TimerSysname
  | TimerDevnode
  | SeqSysname
  | SeqDevnode.

Definition run_name (q : name_query) : M (world K) string :=
  match q with
  | CardSysname c => alsactl_get_card_sysname c
  | ControlSysname c => alsactl_get_control_sysname c
  | ControlDevnode c => alsactl_get_control_devnode c
  | RawmidiSysname c d => alsarawmidi_get_rawmidi_sysname c d
  | RawmidiDevnode c d => alsarawmidi_get_rawmidi_devnode c d
  | HwdepSysname c d => alsahwdep_get_hwdep_sysname c d
  | HwdepDevnode c d => alsahwdep_get_hwdep_devnode c d
  | TimerSysname => alsatimer_get_sysname
  | TimerDevnode => alsatimer_get_devnode
  | SeqSysname => alsaseq_get_seq_sysname
  | SeqDevnode => alsaseq_get_seq_devnode
  end.

(** The name of the device the query is about. *)
Definition asked_name (q : name_query) : string :=
  match q with
  | CardSysname c => "card" +:+ decimal c
  | ControlSysname c | ControlDevnode c => "controlC" +:+ decimal c
  | RawmidiSysname c d | RawmidiDevnode c d => "midiC" +:+ decimal c +:+ "D" +:+ decimal d
  | HwdepSysname c d | HwdepDevnode c d => "hwC" +:+ decimal c +:+ "D" +:+ decimal d
  | TimerSysname | TimerDevnode => "timer"
  | SeqSysname | SeqDevnode => "seq"
  end.

(** What the query tells of the device. *)
Definition told (q : name_query) (d : sound_device) : sysret string :=
  match q with
  | ControlDevnode _ | RawmidiDevnode _ _ | HwdepDevnode _ _ | TimerDevnode | SeqDevnode =>
      sound_node d
  | _ => Sret (sd_name d)
  end.

Definition query_label (q : name_query) : string :=
  match q with
  | CardSysname _ => "Fail to generate card sysname"
  | ControlSysname _ => "Fail to generate control sysname"
  | ControlDevnode _ => "Fail to generate control devname"
  | RawmidiSysname _ _ => "Fail to generate rawmidi sysname"
  | RawmidiDevnode _ _ => "Fail to generate rawmidi devname"
  | HwdepSysname _ _ => "Fail to generate hwdep sysname"
  | HwdepDevnode _ _ => "Fail to generate hwdep devname"
  | TimerSysname => "Fail to generate timer sysname"
  | TimerDevnode => "Fail to generate timer devname"
  | SeqSysname => "Fail to generate seq sysname"
  | SeqDevnode => "Fail to generate seq devname"
  end.

Definition file_error (e : Z) (what : string) : option gerror :=
  Some (GError G_FILE_ERROR (g_file_error_from_errno e) what None).

Definition or_error {A} (r : sysret A) (what : string) : outcome A :=
  match r with Sret a => Ret a | Serr e => Fail (file_error e what) end.

Lemma or_file_error_run {A} (m : M (world K) (sysret A)) what w w' r :
  m w = (Ret r, w') → or_file_error m what w = (or_error r what, w').
Proof. intros E. unfold or_file_error. rewrite (bind_Ret _ _ _ _ _ E). by destruct r. Qed.

(** One lookup, with what is asked of the device. *)
Lemma lookup_run ds name (func : udev_device → K → sysret string) (f : sound_device → sysret string) h k :
  sound_devices ds k →
  (∀ d dev k', udev_device_get_sysname dev k' = Sret (sd_name d) →
     udev_device_get_devnode dev k' = sound_node d → func dev k' = f d) →
  ∃ k', sound_devices ds k' ∧
    lookup_and_allocate_string_by_sysname name func (World h k) =
      (Ret (match named name ds with Some d => f d | None => Serr ENODEV end), World h k').
Proof.
  intros Hk Hf. destruct (devices_new ds k Hk) as (ctx & k1 & E1 & Hk1).
  unfold lookup_and_allocate_string_by_sysname. rewrite (bind_Ret _ _ _ _ _ (sys_run _ h k _ _ E1)).
  pose proof (lookup_named ds ctx k1 name Hk1) as Hl. destruct (named name ds) as [d|].
  - destruct Hl as (dev & k2 & E2 & Hk2 & En & Ed).
    rewrite (bind_Ret _ _ _ _ _ (sys_run _ h k1 _ _ E2)).
    eexists. split; [by apply devices_unref, devices_unref_device|].
    unfold sys, mbind, M_bind, mret, M_ret. cbn [w_kern w_heap]. by rewrite (Hf d dev k2 En Ed).
  - destruct Hl as (k2 & E2 & Hk2). rewrite (bind_Ret _ _ _ _ _ (sys_run _ h k1 _ _ E2)).
    eexists. split; [by apply devices_unref|]. done.
Qed.

(** The query is one lookup. *)
Lemma run_name_lookup q : ∃ func,
  run_name q = or_file_error (lookup_and_allocate_string_by_sysname (asked_name q) func) (query_label q) ∧
  ∀ d dev k', udev_device_get_sysname dev k' = Sret (sd_name d) →
    udev_device_get_devnode dev k' = sound_node d → func dev k' = told q d.
Proof.
  exists (match q with
     | ControlDevnode _ | RawmidiDevnode _ _ | HwdepDevnode _ _ | TimerDevnode | SeqDevnode =>
         udev_device_get_devnode
     | _ => udev_device_get_sysname
     end).
  split; [by destruct q|]. intros d dev k' En Ed. by destruct q.
Qed.

Lemma name_query_run q ds h k :
  sound_devices ds k →
  ∃ k', sound_devices ds k' ∧
    run_name q (World h k) =
      (or_error (match named (asked_name q) ds with Some d => told q d | None => Serr ENODEV end)
         (query_label q), World h k').
Proof.
  intros Hk. destruct (run_name_lookup q) as (func & -> & Hf).
  destruct (lookup_run ds (asked_name q) func (told q) h k Hk Hf) as (k' & Hk' & E).
  exists k'. split; [done|]. by apply or_file_error_run.
Qed.

(** C34: each of the eleven queries for the name or the node of a device looks
    one device up by the name with the numbers of the call: it tells the name
    or the node of exactly that device, or reports in the file domain, with a
    label of its own, that there is no such device or that it has no node.
    Memory is as before and no device is kept. *)
Theorem name_query_spec q ds h k :
  sound_devices ds k →
  ∃ k', sound_devices ds k' ∧
    run_name q (World h k) =
      (match named (asked_name q) ds with
       | Some d =>
           match told q d with
           | Sret s => Ret s
           | Serr e => Fail (file_error e (query_label q))
           end
       | None => Fail (file_error ENODEV (query_label q))
       end, World h k').
Proof.
  intros Hk. destruct (name_query_run q ds h k Hk) as (k' & Hk' & E). exists k'. split; [done|].
  rewrite E. by destruct (named (asked_name q) ds).
Qed.

(** ** Numbers *)

Inductive list_query := CardIds | RawmidiIds (card : Z) | HwdepIds (card : Z).

Definition run_list (q : list_query) : M (world K) (option (list Z)) :=
  match q with
  | CardIds => alsactl_get_card_id_list qsort
  | RawmidiIds c => alsarawmidi_get_device_id_list qsort c
  | HwdepIds c => alsahwdep_get_device_id_list qsort c
  end.

Definition list_prefix (q : list_query) : string :=
  match q with
  | CardIds => "card"
  | RawmidiIds c => "midiC" +:+ decimal c
  | HwdepIds c => "hwC" +:+ decimal c
  end.

Definition list_label (q : list_query) : string :=
  match q with
  | CardIds => "Fail to generate list of card sysnum"
  | RawmidiIds _ => "Fail to generate list of rawmidi sysnum"
  | HwdepIds _ => "Fail to generate list of hwdep sysnum"
  end.

Lemma list_query_run q ds h k :
  sound_devices ds k → Z.of_nat (length ds) < 2 ^ 32 →
  let found := with_prefix (list_prefix q) ds in
  let nums := device_numbers (list_prefix q) ds in
  ∃ k', sound_devices ds k' ∧
    run_list q (World h k) =
      (if (length found =? 0)%nat then Ret None
       else if (length nums =? length found)%nat then
         match qsort_u32 qsort nums with Some sorted => Ret (Some sorted) | None => UB end
       else Fail (file_error ENODATA (list_label q)), World h k').
Proof.
  intros Hk Hmax found nums.
  destruct (sysnum_list_equivalence qsort ds (list_prefix q) h k Hk Hmax) as (k' & Hk' & E).
  exists k'. split; [done|].
  assert (run_list q = or_file_error
    (generate_sysnum_list_by_sysname_prefix qsort (list_prefix q)) (list_label q)) as ->
    by (by destruct q).
  cbv zeta in E. fold found nums in E. revert E.
  destruct (length found =? 0)%nat; [|destruct (length nums =? length found)%nat];
    [|destruct (qsort_u32 qsort nums)|]; intros E;
    (by rewrite (or_file_error_run _ _ _ _ _ E)) || by apply bind_UB.
Qed.

(** ** Listed cards *)

(** The devices of cards are named after their numbers. *)
Definition cards_named (ds : list sound_device) : Prop :=
  Forall (λ d, ∃ n, is_u32 n ∧ sd_name d = "card" +:+ decimal n ∧ sd_num d = decimal n)
    (with_prefix "card" ds).

Lemma card_number d n : is_u32 n → sd_num d = decimal n → device_number d = Some n.
Proof.
  intros Hn E. unfold device_number. rewrite E.
  pose proof (long_from_string_decimal n [] I) as H. rewrite app_nil_r in H. rewrite H.
  unfold is_u32, LONG_MIN, LONG_MAX in *.
  destruct (Z.ltb_spec n (-2 ^ 63)), (Z.ltb_spec (2 ^ 63 - 1) n); try lia. cbn [orb].
  by rewrite u32_id.
Qed.

Lemma card_numbers ds :
  cards_named ds →
  length (device_numbers "card" ds) = length (with_prefix "card" ds) ∧
  ∀ n, n ∈ device_numbers "card" ds → is_u32 n ∧ ∃ d, d ∈ ds ∧ d ∈ with_prefix "card" ds ∧
    sd_num d = decimal n ∧ sd_name d = "card" +:+ decimal n.
Proof.
  intros H. assert (∀ d, d ∈ with_prefix "card" ds → d ∈ ds) as Hsub.
  { intros d Hd. apply list_elem_of_In, filter_In in Hd as [Hd _]. by apply list_elem_of_In. }
  unfold cards_named, device_numbers in *.
  assert (∀ d, d ∈ with_prefix "card" ds → d ∈ with_prefix "card" ds) as Hin by done.
  set (found := with_prefix "card" ds) in Hin at 2, Hsub |- *. revert Hin H.
  change (omap device_number found) with (omap device_number (with_prefix "card" ds)).
  change (length found) with (length (with_prefix "card" ds)).
  generalize (with_prefix "card" ds).
  intros l Hin H. induction H as [|d l (n & Hn & En & Em) H IH].
  { split; [done|]. by intros n ?%not_elem_of_nil. }
  cbn [omap list_omap length]. rewrite (card_number d n Hn Em).
  destruct IH as [IH1 IH2]; [intros x Hx; apply Hin; by right|]. split; [cbn; by rewrite IH1|].
  intros m [->|Hm]%elem_of_cons; [|by apply IH2]. split; [done|]. exists d.
  split_and!; [apply Hsub, Hin; by left|apply Hin; by left|done|done].
Qed.

Lemma named_some name ds d : d ∈ ds → sd_name d = name → ∃ d', named name ds = Some d' ∧ sd_name d' = name.
Proof.
  intros Hd E. unfold named. destruct (List.find _ ds) as [d'|] eqn:Ef.
  - exists d'. split; [done|]. apply find_some in Ef as [_ Ef]. by apply String.eqb_eq.
  - exfalso. apply list_elem_of_In in Hd. pose proof (find_none _ _ Ef d Hd) as Hn.
    cbn in Hn. rewrite E, String.eqb_refl in Hn. done.
Qed.

(** C17: the numbers of the list of cards are numbers that can be used.  When
    there is a card, the array that is handed to [qsort] has exactly the numbers
    of the cards, and the query for the name of the card answers for each of
    them, with the name that has the number.  The list is what [qsort] makes of
    this array: the number of the card when there is one card, as [qsort]
    documents; with two cards the comparison function is not a consistent one,
    and what the call does is as open as what [qsort] does. *)
Theorem listed_cards_found ds h k :
  qsort_documented qsort →
  sound_devices ds k → Z.of_nat (length ds) < 2 ^ 32 → cards_named ds → with_prefix "card" ds ≠ [] →
  let nums := device_numbers "card" ds in
  ∃ k', sound_devices ds k' ∧
    alsactl_get_card_id_list qsort (World h k) =
      (match qsort_u32 qsort nums with Some sorted => Ret (Some sorted) | None => UB end,
       World h k') ∧
    (∀ n, n ∈ nums ↔ is_u32 n ∧ ∃ d, d ∈ with_prefix "card" ds ∧ sd_num d = decimal n) ∧
    (∀ n h2, n ∈ nums →
      ∃ k2, alsactl_get_card_sysname n (World h2 k') = (Ret ("card" +:+ decimal n), World h2 k2)) ∧
    (∀ n, nums = [n] → qsort_u32 qsort nums = Some [n]) ∧
    (∀ m n, m ∈ nums → n ∈ nums → m ≠ n → ¬ consistent compare_u32 nums).
Proof.
  intros Hq Hk Hmax Hc Hne nums. destruct (list_query_run CardIds ds h k Hk Hmax) as (k' & Hk' & E).
  cbn [run_list list_prefix] in E. destruct (card_numbers ds Hc) as [Hl Hin].
  rewrite Hl, Nat.eqb_refl in E.
  destruct (Nat.eqb_spec (length (with_prefix "card" ds)) 0) as [H0|_];
    [by apply length_zero_iff_nil in H0|].
  exists k'. split_and!; [done|exact E|..].
  - intros n. split.
    + intros Hn. destruct (Hin n Hn) as (Hu & d & _ & Hd & En & _). split; [done|]. by exists d.
    + intros (Hn & d & Hd & En). unfold nums, device_numbers. apply list_elem_of_omap.
      exists d. split; [done|]. by apply card_number.
  - intros n h2 Hn. destruct (Hin n Hn) as (_ & d & Hd & _ & _ & En).
    destruct (named_some _ ds d Hd En) as (d' & Ed & En').
    destruct (name_query_run (CardSysname n) ds h2 k' Hk') as (k2 & _ & E2). exists k2.
    cbn [run_name asked_name told query_label] in E2. rewrite E2, Ed. cbn [or_error]. by rewrite En'.
  - intros n ->. by apply qsort_u32_single.
  - intros m n Hm Hn Hmn Hcon. by apply Hmn, (proj1 (compare_u32_consistent nums) Hcon).
Qed.
End queries.

(** ** Concrete runs *)

(** Two cards, a control device of each, a rawmidi device, and the node of the
    sequencer. *)
Module SampleDevices.
#[local] Existing Instance Sample.glib.

Definition devices : list sound_device := [
  SoundDevice "/sys/class/sound/card1" "card1" "1";
  SoundDevice "/sys/class/sound/card0" "card0" "0";
  SoundDevice "/sys/class/sound/controlC0" "controlC0" "0";
  SoundDevice "/sys/class/sound/controlC1" "controlC1" "1";
  SoundDevice "/sys/class/sound/midiC1D0" "midiC1D0" "0";
  SoundDevice "/sys/class/sound/seq" "seq" ""
].

(** Cards have no node. *)
#[export] Instance nodes : SoundNodes := λ d,
  if String.prefix "card" (sd_name d) then Serr ENOENT else Sret ("/dev/snd/" +:+ sd_name d).

#[export] Instance host : Udev unit := {|
  udev := unit;
  udev_device := sound_device;
  udev_new k := (Sret tt, k);
  udev_unref _ k := k;
  udev_device_new_from_subsystem_sysname _ _ name k :=
    (match named name devices with Some d => Sret d | None => Serr ENODEV end, k);
  udev_device_new_from_syspath _ path k :=
    (match List.find (λ d, String.eqb (sd_path d) path) devices with
     | Some d => Sret d | None => Serr ENODEV end, k);
  udev_device_get_sysname d _ := Sret (sd_name d);
  udev_device_get_devnode d _ := sound_node d;
  udev_device_get_sysnum d _ := Sret (sd_num d);
  udev_device_unref _ k := k;
  udev_enumerate _ _ k := (Sret (map sd_path devices), k);
  udev_enumerate_unref _ k := k;
|}.

#[export] Instance devices_view : SoundDevices unit := λ ds k, ds = devices.

#[export] Instance devices_laws : SoundDevicesLaws unit.
Proof.
  split; try done.
  - intros ds k Hk. by exists tt, k.
  - intros ds ctx k ->. by exists k.
  - intros ds ctx k d -> Hd. exists d, k. split; [|done].
    cbn [udev_device_new_from_syspath host]. unfold devices in Hd.
    repeat (apply elem_of_cons in Hd as [->|Hd]; [by vm_compute|]).
    by apply not_elem_of_nil in Hd.
Qed.

#[export] Instance lookup_laws : SoundLookupLaws unit.
Proof.
  split. intros ds ctx k name ->. cbn [udev_device_new_from_subsystem_sysname host].
  destruct (named name devices) as [d|]; [by exists d, k|by exists k].
Qed.

Lemma name_query_spec_witness :
  run_name (RawmidiDevnode 1 0) (World ∅ tt) = (Ret "/dev/snd/midiC1D0", World ∅ tt) ∧
  run_name (HwdepSysname 1 0) (World ∅ tt) =
    (Fail (file_error ENODEV "Fail to generate hwdep sysname"), World ∅ tt).
Proof.
  destruct (name_query_spec (RawmidiDevnode 1 0) devices ∅ tt eq_refl) as ([] & _ & E1).
  destruct (name_query_spec (HwdepSysname 1 0) devices ∅ tt eq_refl) as ([] & _ & E2).
  exact (conj E1 E2).
Defined.

(** An order by insertion, which is a permutation. *)
Lemma insert_by_perm cmp x l : SysfsWitness.insert_by cmp x l ≡ₚ x :: l.
Proof.
  induction l as [|y l IH]; [done|]. cbn. case_match; [done|]. rewrite IH. by constructor.
Qed.

Lemma listed_cards_found_witness :
  alsactl_get_card_id_list SysfsWitness.sort_by (World ∅ tt) = (Ret (Some [0; 1]), World ∅ tt) ∧
  (∀ n, n ∈ [1; 0] →
    ∃ k2, alsactl_get_card_sysname n (World ∅ tt) = (Ret ("card" +:+ decimal n), World ∅ k2)) ∧
  ¬ consistent compare_u32 [1; 0].
Proof.
  destruct (listed_cards_found SysfsWitness.sort_by devices ∅ tt SysfsWitness.sort_by_documented) as
    ([] & _ & E & _ & Hname & _ & Hcon).
  - done.
  - by vm_compute.
  - unfold cards_named. cbn. repeat constructor; [exists 1|exists 0]; done.
  - by vm_compute.
  - split; [exact E|]. split; [intros n Hn; by apply (Hname n ∅)|].
    apply (Hcon 1 0); [by left|right; by left|done].
Defined.
End SampleDevices.
