(* ===== verification/RawmidiObjects.v ===== *)
(** * Objects of information of rawmidi and hwdep devices

    [src/src/rawmidi/substream-info.c], [substream-params.c],
    [substream-status.c] and [src/src/hwdep/device-info.c]. *)
From S2P Require Import Prelude SeqUapi Struct GValue RawmidiQuery HwdepQuery SeqObjects.

(** ** Substreams *)

Definition ri_flags : field := u32f 16.
Definition ri_id : nat := 20.
Definition ri_name : nat := 84.
Definition ri_subname : nat := 164.
Definition ri_subdevices_avail : field := u32f 200.

Inductive rawmidi_substream_info_prop :=
  | RAWMIDI_SUBSTREAM_INFO_PROP_DEVICE_ID | RAWMIDI_SUBSTREAM_INFO_PROP_SUBDEVICE_ID
  | RAWMIDI_SUBSTREAM_INFO_PROP_DIRECTION | RAWMIDI_SUBSTREAM_INFO_PROP_CARD_ID
  | RAWMIDI_SUBSTREAM_INFO_PROP_FLAGS | RAWMIDI_SUBSTREAM_INFO_PROP_ID
  | RAWMIDI_SUBSTREAM_INFO_PROP_NAME | RAWMIDI_SUBSTREAM_INFO_PROP_SUBNAME
  | RAWMIDI_SUBSTREAM_INFO_PROP_SUBDEVICES_COUNT
  | RAWMIDI_SUBSTREAM_INFO_PROP_SUBDEVICES_AVAIL.

Definition rawmidi_substream_info_get_property (id : rawmidi_substream_info_prop)
    (info : list byte) (val : gvalue) : gvalue :=
  match id with
  | RAWMIDI_SUBSTREAM_INFO_PROP_DEVICE_ID => g_value_set_uint val (fget ri_device info)
  | RAWMIDI_SUBSTREAM_INFO_PROP_SUBDEVICE_ID => g_value_set_uint val (fget ri_subdevice info)
  | RAWMIDI_SUBSTREAM_INFO_PROP_DIRECTION => g_value_set_enum val (fget ri_stream info)
  | RAWMIDI_SUBSTREAM_INFO_PROP_CARD_ID => g_value_set_int val (fget ri_card info)
  | RAWMIDI_SUBSTREAM_INFO_PROP_FLAGS => g_value_set_flags val (fget ri_flags info)
  | RAWMIDI_SUBSTREAM_INFO_PROP_ID => g_value_set_static_string val (sub ri_id 64 info)
  | RAWMIDI_SUBSTREAM_INFO_PROP_NAME => g_value_set_static_string val (sub ri_name 80 info)
  | RAWMIDI_SUBSTREAM_INFO_PROP_SUBNAME => g_value_set_static_string val (sub ri_subname 32 info)
  | RAWMIDI_SUBSTREAM_INFO_PROP_SUBDEVICES_COUNT =>
      g_value_set_uint val (fget ri_subdevices_count info)
  | RAWMIDI_SUBSTREAM_INFO_PROP_SUBDEVICES_AVAIL =>
      g_value_set_uint val (fget ri_subdevices_avail info)
  end.

Definition rawmidi_substream_info_props (id : rawmidi_substream_info_prop) : pspec :=
  match id with
  | RAWMIDI_SUBSTREAM_INFO_PROP_DEVICE_ID => g_param_spec_uint "device-id" 0 G_MAXINT 0 READABLE
  | RAWMIDI_SUBSTREAM_INFO_PROP_SUBDEVICE_ID =>
      g_param_spec_uint "subdevice-id" 0 G_MAXINT 0 READABLE
  | RAWMIDI_SUBSTREAM_INFO_PROP_DIRECTION =>
      g_param_spec_enum "direction" "ALSARawmidiStreamDirection"
        0 READABLE
  | RAWMIDI_SUBSTREAM_INFO_PROP_CARD_ID =>
      g_param_spec_int "card-id" G_MININT G_MAXINT (-1) READABLE
  | RAWMIDI_SUBSTREAM_INFO_PROP_FLAGS =>
      g_param_spec_flags "flags" "ALSARawmidiStreamPairInfoFlag" 0 READABLE
  | RAWMIDI_SUBSTREAM_INFO_PROP_ID => g_param_spec_string "id" READABLE
  | RAWMIDI_SUBSTREAM_INFO_PROP_NAME => g_param_spec_string "name" READABLE
  | RAWMIDI_SUBSTREAM_INFO_PROP_SUBNAME => g_param_spec_string "subdevice-name" READABLE
  | RAWMIDI_SUBSTREAM_INFO_PROP_SUBDEVICES_COUNT =>
      g_param_spec_uint "subdevices-count" 0 G_MAXINT 0 READABLE
  | RAWMIDI_SUBSTREAM_INFO_PROP_SUBDEVICES_AVAIL =>
      g_param_spec_uint "subdevices-avail" 0 G_MAXINT 0 READABLE
  end.

(** [struct snd_rawmidi_params] and [snd_rawmidi_status] *)
Definition rp_buffer_size : field := u64f 8.
Definition rp_avail_min : field := u64f 16.
Definition rp_no_active_sensing : field := u8f 24.
Definition rs_avail : field := u64f 24.
Definition rs_xruns : field := u64f 32.

Inductive rawmidi_substream_params_prop :=
  | RAWMIDI_SUBSTREAM_PARAMS_PROP_BUFFER_SIZE | RAWMIDI_SUBSTREAM_PARAMS_PROP_AVAIL_MIN
  | RAWMIDI_SUBSTREAM_PARAMS_PROP_ACTIVE_SENSING.

Definition rawmidi_substream_params_set_property (id : rawmidi_substream_params_prop)
    (val : gvalue) (params : list byte) : option (list byte) :=
  match id with
  | RAWMIDI_SUBSTREAM_PARAMS_PROP_BUFFER_SIZE =>
      Some (fput rp_buffer_size (g_value_get_uint val) params)
  | RAWMIDI_SUBSTREAM_PARAMS_PROP_AVAIL_MIN =>
      Some (fput rp_avail_min (g_value_get_uint val) params)
  | RAWMIDI_SUBSTREAM_PARAMS_PROP_ACTIVE_SENSING =>
      Some (put_bit rp_no_active_sensing (if g_value_get_boolean val =? 0 then 1 else 0) params)
  end.

Definition rawmidi_substream_params_get_property (id : rawmidi_substream_params_prop)
    (params : list byte) (val : gvalue) : gvalue :=
  match id with
  | RAWMIDI_SUBSTREAM_PARAMS_PROP_BUFFER_SIZE => g_value_set_uint val (fget rp_buffer_size params)
  | RAWMIDI_SUBSTREAM_PARAMS_PROP_AVAIL_MIN => g_value_set_uint val (fget rp_avail_min params)
  | RAWMIDI_SUBSTREAM_PARAMS_PROP_ACTIVE_SENSING =>
      g_value_set_boolean val (if get_bit rp_no_active_sensing params =? 0 then 1 else 0)
  end.

(** [page_size]: [sysconf (_SC_PAGESIZE)] when the class is initialized. *)
Definition rawmidi_substream_params_props (page_size : Z) (id : rawmidi_substream_params_prop) :
    pspec :=
  match id with
  | RAWMIDI_SUBSTREAM_PARAMS_PROP_BUFFER_SIZE =>
      g_param_spec_uint "buffer-size" 32 (1024 * 1024) (u32 page_size) READWRITE
  | RAWMIDI_SUBSTREAM_PARAMS_PROP_AVAIL_MIN => g_param_spec_uint "avail-min" 1 G_MAXUINT 1 READWRITE
  | RAWMIDI_SUBSTREAM_PARAMS_PROP_ACTIVE_SENSING =>
      g_param_spec_boolean "active-sensing" false READWRITE
  end.

Inductive rawmidi_substream_status_prop :=
  | RAWMIDI_SUBSTREAM_STATUS_PROP_AVAIL | RAWMIDI_SUBSTREAM_STATUS_PROP_XRUN.

Definition rawmidi_substream_status_get_property (id : rawmidi_substream_status_prop)
    (status : list byte) (val : gvalue) : gvalue :=
  match id with
  | RAWMIDI_SUBSTREAM_STATUS_PROP_AVAIL => g_value_set_uint64 val (fget rs_avail status)
  | RAWMIDI_SUBSTREAM_STATUS_PROP_XRUN => g_value_set_uint64 val (fget rs_xruns status)
  end.

Definition rawmidi_substream_status_props (id : rawmidi_substream_status_prop) : pspec :=
  match id with
  | RAWMIDI_SUBSTREAM_STATUS_PROP_AVAIL => g_param_spec_uint64 "avail" 0 G_MAXUINT64 0 READABLE
  | RAWMIDI_SUBSTREAM_STATUS_PROP_XRUN => g_param_spec_uint64 "xruns" 0 G_MAXUINT64 0 READABLE
  end.

(** ** Hwdep devices *)

Definition hi_id : nat := 8.
Definition hi_name : nat := 72.
Definition hi_iface : field := i32f 152.
Definition SNDRV_HWDEP_IFACE_OPL2 : Z := 0.

Inductive hwdep_device_info_prop :=
  | HWDEP_DEVICE_INFO_PROP_DEVICE_ID | HWDEP_DEVICE_INFO_PROP_CARD_ID
  | HWDEP_DEVICE_INFO_PROP_ID | HWDEP_DEVICE_INFO_PROP_NAME | HWDEP_DEVICE_INFO_PROP_IFACE.

Definition hwdep_device_info_set_property (id : hwdep_device_info_prop) (val : gvalue)
    (info : list byte) : option (list byte) :=
  match id with
  | HWDEP_DEVICE_INFO_PROP_DEVICE_ID => Some (fput hi_device (g_value_get_uint val) info)
  | HWDEP_DEVICE_INFO_PROP_CARD_ID => Some (fput hi_card (g_value_get_int val) info)
  | HWDEP_DEVICE_INFO_PROP_ID => Some (put_string hi_id 64 val info)
  | HWDEP_DEVICE_INFO_PROP_NAME => Some (put_string hi_name 80 val info)
  | HWDEP_DEVICE_INFO_PROP_IFACE => Some (fput hi_iface (g_value_get_enum val) info)
  end.

Definition hwdep_device_info_get_property (id : hwdep_device_info_prop) (info : list byte)
    (val : gvalue) : gvalue :=
  match id with
  | HWDEP_DEVICE_INFO_PROP_DEVICE_ID => g_value_set_uint val (fget hi_device info)
  | HWDEP_DEVICE_INFO_PROP_CARD_ID => g_value_set_int val (fget hi_card info)
  | HWDEP_DEVICE_INFO_PROP_ID => g_value_set_static_string val (sub hi_id 64 info)
  | HWDEP_DEVICE_INFO_PROP_NAME => g_value_set_static_string val (sub hi_name 80 info)
  | HWDEP_DEVICE_INFO_PROP_IFACE => g_value_set_enum val (fget hi_iface info)
  end.

Definition hwdep_device_info_props (id : hwdep_device_info_prop) : pspec :=
  match id with
  | HWDEP_DEVICE_INFO_PROP_DEVICE_ID => g_param_spec_uint "device-id" 0 G_MAXUINT 0 CONSTRUCT_ONLY
  | HWDEP_DEVICE_INFO_PROP_CARD_ID => g_param_spec_int "card-id" G_MININT G_MAXINT 0 CONSTRUCT_ONLY
  | HWDEP_DEVICE_INFO_PROP_ID => g_param_spec_string "id" CONSTRUCT_ONLY
  | HWDEP_DEVICE_INFO_PROP_NAME => g_param_spec_string "name" CONSTRUCT_ONLY
  | HWDEP_DEVICE_INFO_PROP_IFACE =>
      g_param_spec_enum "iface" "ALSAHwdepIfaceType" SNDRV_HWDEP_IFACE_OPL2 CONSTRUCT_ONLY
  end.
