(* ===== verification/RawmidiStreamPair.v ===== *)
(** * The pair of rawmidi streams: [src/src/rawmidi/stream-pair.c]

    An object that holds a file descriptor of a rawmidi device, opened for
    reading, writing or both.  The object reads and writes MIDI messages, sends
    requests for one of the two directions, and makes sources that tell when
    there is something to read. *)
From S2P Require Import Prelude Heap SeqUapi Struct Kernel Sysfs Object RawmidiQuery.

Definition ALSARAWMIDI_STREAM_PAIR_INFO_FLAG_OUTPUT : Z := 1.
Definition ALSARAWMIDI_STREAM_PAIR_INFO_FLAG_INPUT : Z := 2.

Definition ALSARAWMIDI_STREAM_PAIR_ERROR_FAILED : Z := 0.
Definition ALSARAWMIDI_STREAM_PAIR_ERROR_DISCONNECTED : Z := 1.
Definition ALSARAWMIDI_STREAM_PAIR_ERROR_UNREADABLE : Z := 2.

Definition err_msgs (code : Z) : string :=
  if code =? ALSARAWMIDI_STREAM_PAIR_ERROR_DISCONNECTED then "The card is in disconnect state"
  else if code =? ALSARAWMIDI_STREAM_PAIR_ERROR_UNREADABLE then
    "The instance is not for read operation"
  else "".

(** [struct snd_rawmidi_params] and [snd_rawmidi_status] *)
Definition sizeof_rawmidi_params : Z := 48.
Definition rp_stream : field := i32f 0.
Definition sizeof_rawmidi_status : Z := 56.
Definition rs_stream : field := i32f 0.

(** The private data, with the number of references to the object. *)
Record stream_pair := StreamPair {
  sp_fd : Z;
  sp_devnode : option string;
  sp_triplet : list Z;
  sp_refs : Z;
}.

Definition set_fd (fd : Z) (p : stream_pair) : stream_pair :=
  StreamPair fd (sp_devnode p) (sp_triplet p) (sp_refs p).
Definition set_devnode (d : option string) (p : stream_pair) : stream_pair :=
  StreamPair (sp_fd p) d (sp_triplet p) (sp_refs p).
Definition set_triplet (t : list Z) (p : stream_pair) : stream_pair :=
  StreamPair (sp_fd p) (sp_devnode p) t (sp_refs p).
Definition set_refs (n : Z) (p : stream_pair) : stream_pair :=
  StreamPair (sp_fd p) (sp_devnode p) (sp_triplet p) n.

Definition alsarawmidi_stream_pair_new : stream_pair := StreamPair (-1) None [0; 0; 0] 1.

(** [fcntl (fd, F_GETFL)] *)
Class FcntlKernel (K : Type) := { sys_getfl : Z → K → sysret Z * K }.

Section stream_pair.
Context {AL : Allocator} {GL : GLib} {K : Type} {KERN : Kernel K} {UD : Udev K}.
Context {FK : FcntlKernel K}.

Abbreviation SP := (M (ostate stream_pair K)).

(** *** Reports of errors *)

Definition syscall_error (errno : Z) (what : string) : option gerror :=
  Some (GError ALSARAWMIDI_STREAM_PAIR_ERROR ALSARAWMIDI_STREAM_PAIR_ERROR_FAILED what
          (Some errno)).

Definition local_error (code : Z) : option gerror :=
  Some (GError ALSARAWMIDI_STREAM_PAIR_ERROR code (err_msgs code) None).

(** The report of a failed request. *)
Definition request_error (errno : Z) (what : string) : option gerror :=
  if errno =? ENODEV then local_error ALSARAWMIDI_STREAM_PAIR_ERROR_DISCONNECTED
  else syscall_error errno what.

(** The report of [fcntl], and, after [ENODEV], of the calls on files: the
    code of the file domain is converted a second time. *)
Definition fcntl_error (errno : Z) (what : string) : option gerror :=
  let code := g_file_error_from_errno errno in
  if negb (code =? G_FILE_ERROR_FAILED)
  then Some (GError G_FILE_ERROR (g_file_error_from_errno code) what None)
  else syscall_error errno what.

Definition file_error (errno : Z) (what : string) : option gerror :=
  if errno =? ENODEV then local_error ALSARAWMIDI_STREAM_PAIR_ERROR_DISCONNECTED
  else fcntl_error errno what.

(** *** Life of the object *)

Definition rawmidi_stream_pair_get_property_devnode : SP (option string) :=
  priv ← get_private; mret (sp_devnode priv).

Definition rawmidi_stream_pair_finalize : SP unit :=
  priv ← get_private;
  if 0 <=? sp_fd priv then outside (do_close (sp_fd priv)) else mret tt.

Definition g_object_ref_pair : SP unit := set_private (λ p, set_refs (sp_refs p + 1) p).

(** The last reference finalizes the object. *)
Definition g_object_unref_pair : SP unit :=
  priv ← get_private;
  (if sp_refs priv =? 1 then rawmidi_stream_pair_finalize else mret tt);;
  set_private (λ p, set_refs (sp_refs p - 1) p).

Definition has_flag (access_modes flag : Z) : bool := negb (Z.land access_modes flag =? 0).

(** The flags of [open] for the access modes, [None] for a mode that has
    neither direction. *)
Definition pair_open_flag (access_modes open_flag : Z) : option Z :=
  let open_flag := Z.land open_flag (Z.lnot (Z.lor O_RDWR (Z.lor O_WRONLY O_RDONLY))) in
  let output := has_flag access_modes ALSARAWMIDI_STREAM_PAIR_INFO_FLAG_OUTPUT in
  let input := has_flag access_modes ALSARAWMIDI_STREAM_PAIR_INFO_FLAG_INPUT in
  if output && input then Some (Z.lor open_flag O_RDWR)
  else if output then Some (Z.lor open_flag O_WRONLY)
  else if input then Some (Z.lor open_flag O_RDONLY)
  else None.

Definition alsarawmidi_stream_pair_open (card_id device_id subdevice_id access_modes open_flag : Z) :
    SP unit :=
  g_return_if_fail (Z.land access_modes (Z.lnot (Z.lor ALSARAWMIDI_STREAM_PAIR_INFO_FLAG_OUTPUT
    ALSARAWMIDI_STREAM_PAIR_INFO_FLAG_INPUT)) =? 0);;
  match pair_open_flag access_modes open_flag with
  | None => critical
  | Some open_flag =>
      devnode ← outside (alsarawmidi_get_rawmidi_devnode card_id device_id);
      ctl_fd ← outside (rawmidi_select_subdevice card_id subdevice_id);
      fd ← outside (do_open devnode open_flag);
      ctl_fd ← outside (initialized ctl_fd);
      outside (do_close ctl_fd);;
      match fd with
      | Serr e => set_private (set_fd (-1));; fail (file_error e "open")
      | Sret fd =>
          set_private (set_fd fd);;
          set_private (set_devnode (Some devnode));;
          junk ← gets (λ s, alloc_junk (w_heap (os_world s)) 4);
          '(r, s) ← outside (ioctl_val fd RAWMIDI_PVERSION junk);
          match r with
          | Serr e =>
              outside (do_close fd);; set_private (set_fd (-1));;
              fail (request_error e "ioctl(PVERSION)")
          | Sret _ =>
              let proto_ver := fget (i32f 0) s in
              set_private (set_triplet [SNDRV_PROTOCOL_MAJOR proto_ver;
                SNDRV_PROTOCOL_MINOR proto_ver; SNDRV_PROTOCOL_MICRO proto_ver])
          end
      end
  end.

Definition alsarawmidi_stream_pair_get_protocol_version : SP (list Z) :=
  priv ← get_private;
  g_return_if_fail (0 <=? sp_fd priv);;
  mret (sp_triplet priv).

(** *** Requests for one of the directions *)

Definition alsarawmidi_stream_pair_get_substream_info (direction : Z) : SP ptr :=
  priv ← get_private;
  info ← outside (g_object_new sizeof_rawmidi_info);
  outside (set_field info sizeof_rawmidi_info ri_stream direction);;
  r ← outside (ioctl_mem (sp_fd priv) RAWMIDI_INFO info sizeof_rawmidi_info);
  match r with
  | Serr e => outside (g_object_unref info);; fail (request_error e "ioctl(INFO)")
  | Sret _ => mret info
  end.

(** A request with the structure at [p], whose field [stream] gets the
    direction. *)
Definition request_substream (req : request) (p : ptr) (n : Z) (stream : field) (direction : Z)
    (what : string) : SP unit :=
  priv ← get_private;
  outside (set_field p n stream direction);;
  r ← outside (ioctl_mem (sp_fd priv) req p n);
  match r with
  | Serr e => fail (request_error e what)
  | Sret _ => mret tt
  end.

Definition alsarawmidi_stream_pair_set_substream_params (direction : Z) (substream_params : ptr) :
    SP unit :=
  request_substream RAWMIDI_PARAMS substream_params sizeof_rawmidi_params rp_stream direction
    "ioctl(PARAMS)".

Definition alsarawmidi_stream_pair_get_substream_status (direction : Z) (substream_status : ptr) :
    SP unit :=
  request_substream RAWMIDI_STATUS substream_status sizeof_rawmidi_status rs_stream direction
    "ioctl(STATUS)".

(** A request with the direction itself. *)
Definition request_direction (req : request) (direction : Z) (what : string) : SP unit :=
  priv ← get_private;
  '(r, _) ← outside (ioctl_val (sp_fd priv) req (le_split 4 direction));
  match r with
  | Serr e => fail (request_error e what)
  | Sret _ => mret tt
  end.

Definition alsarawmidi_stream_pair_drain_substream (direction : Z) : SP unit :=
  request_direction RAWMIDI_DRAIN direction "ioctl(DRAIN)".

Definition alsarawmidi_stream_pair_drop_substream (direction : Z) : SP unit :=
  request_direction RAWMIDI_DROP direction "ioctl(DROP)".

(** *** Messages *)

(** The number of bytes that were read. *)
Definition alsarawmidi_stream_pair_read_from_substream (buf : ptr) (buf_size : Z) : SP Z :=
  priv ← get_private;
  len ← outside (do_read (sp_fd priv) buf buf_size);
  match len with
  | Serr e => fail (file_error e "read")
  | Sret len => mret len
  end.

(** The number of bytes that were written is not reported. *)
Definition alsarawmidi_stream_pair_write_to_substream (buf : ptr) (buf_size : Z) : SP unit :=
  priv ← get_private;
  len ← outside (do_write (sp_fd priv) buf buf_size);
  match len with
  | Serr e => fail (file_error e "write")
  | Sret _ => mret tt
  end.

(** *** The source of events *)

(** The handlers connected to the signals. *)
Context (handle_messages handle_disconnection : SP unit).

Definition rawmidi_stream_pair_check_src (condition : Z) : bool :=
  negb (Z.land condition (Z.lor G_IO_IN G_IO_ERR) =? 0).

(** [condition] is what polling found; TRUE keeps the source. *)
Definition rawmidi_stream_pair_dispatch_src (condition : Z) : SP bool :=
  priv ← get_private;
  if sp_fd priv <? 0 then mret false else
  if negb (Z.land condition G_IO_ERR =? 0) then handle_disconnection;; mret false else
  (if negb (Z.land condition G_IO_IN =? 0) then handle_messages else mret tt);;
  mret true.

Definition rawmidi_stream_pair_finalize_src : SP unit := g_object_unref_pair.

Definition alsarawmidi_stream_pair_create_source : SP unit :=
  priv ← get_private;
  g_return_if_fail (0 <=? sp_fd priv);;
  access_modes ← outside (sys (sys_getfl (sp_fd priv)));
  match access_modes with
  | Serr e => fail (fcntl_error e "fcntl(F_GETFL)")
  | Sret access_modes =>
      if (Z.land access_modes O_RDWR =? 0) && (Z.land access_modes O_WRONLY =? 0)
      then fail (local_error ALSARAWMIDI_STREAM_PAIR_ERROR_UNREADABLE)
      else g_object_ref_pair
  end.
End stream_pair.
