(* ===== verification/Objects.v ===== *)
(** * The classes of objects of information

    One interface to the classes whose objects hold a structure of the kernel:
    for each class the type of its properties, the size of the structure, the
    specifications the class installs and the handlers of its properties, and
    for each property the cell of the structure it stands for. *)
From S2P Require Import Prelude SeqUapi Struct GValue SeqStructs SeqEvent SeqObjects CtlStructs CtlObjects.
From S2P Require Import TimerQuery TimerUserInstance TimerObjects RawmidiQuery HwdepQuery RawmidiStreamPair RawmidiObjects.

Inductive gclass :=
  | ALSASEQ_CLIENT_INFO | ALSASEQ_CLIENT_POOL | ALSASEQ_PORT_INFO | ALSASEQ_QUEUE_INFO
  | ALSASEQ_QUEUE_STATUS | ALSASEQ_QUEUE_TEMPO | ALSASEQ_QUEUE_TIMER_ALSA
  | ALSASEQ_REMOVE_FILTER | ALSASEQ_SUBSCRIBE_DATA | ALSASEQ_SYSTEM_INFO
  | ALSACTL_CARD_INFO | ALSACTL_ELEM_INFO_INTEGER | ALSACTL_ELEM_INFO_INTEGER64
  | ALSACTL_ELEM_INFO_BOOLEAN | ALSACTL_ELEM_INFO_BYTES | ALSACTL_ELEM_INFO_IEC60958
  | ALSACTL_ELEM_INFO_ENUMERATED
  | ALSATIMER_DEVICE_INFO | ALSATIMER_DEVICE_PARAMS | ALSATIMER_DEVICE_STATUS
  | ALSATIMER_INSTANCE_INFO | ALSATIMER_INSTANCE_PARAMS | ALSATIMER_INSTANCE_STATUS
  | ALSARAWMIDI_SUBSTREAM_INFO | ALSARAWMIDI_SUBSTREAM_PARAMS | ALSARAWMIDI_SUBSTREAM_STATUS
  | ALSAHWDEP_DEVICE_INFO.

Definition prop_of (c : gclass) : Type :=
  match c with
  | ALSASEQ_CLIENT_INFO => seq_client_info_prop
  | ALSASEQ_CLIENT_POOL => seq_client_pool_prop
  | ALSASEQ_PORT_INFO => seq_port_info_prop
  | ALSASEQ_QUEUE_INFO => seq_queue_info_prop
  | ALSASEQ_QUEUE_STATUS => seq_queue_status_prop
  | ALSASEQ_QUEUE_TEMPO => seq_queue_tempo_prop
  | ALSASEQ_QUEUE_TIMER_ALSA => queue_timer_alsa_prop
  | ALSASEQ_REMOVE_FILTER => seq_remove_filter_prop
  | ALSASEQ_SUBSCRIBE_DATA => seq_subscribe_data_prop
  | ALSASEQ_SYSTEM_INFO => seq_system_info_prop
  | ALSACTL_CARD_INFO => ctl_card_info_prop
  | ALSACTL_ELEM_INFO_INTEGER => elem_info_integer_prop
  | ALSACTL_ELEM_INFO_INTEGER64 => elem_info_integer64_prop
  | ALSACTL_ELEM_INFO_BOOLEAN | ALSACTL_ELEM_INFO_BYTES | ALSACTL_ELEM_INFO_ENUMERATED =>
      elem_info_single_array_prop
  | ALSACTL_ELEM_INFO_IEC60958 => elem_info_common_prop
  | ALSATIMER_DEVICE_INFO => timer_device_info_prop
  | ALSATIMER_DEVICE_PARAMS => timer_device_params_prop
  | ALSATIMER_DEVICE_STATUS => timer_device_status_prop
  | ALSATIMER_INSTANCE_INFO => timer_instance_info_prop
  | ALSATIMER_INSTANCE_PARAMS => timer_instance_params_prop
  | ALSATIMER_INSTANCE_STATUS => timer_instance_status_prop
  | ALSARAWMIDI_SUBSTREAM_INFO => rawmidi_substream_info_prop
  | ALSARAWMIDI_SUBSTREAM_PARAMS => rawmidi_substream_params_prop
  | ALSARAWMIDI_SUBSTREAM_STATUS => rawmidi_substream_status_prop
  | ALSAHWDEP_DEVICE_INFO => hwdep_device_info_prop
  end.

#[export] Instance elem_info_common_prop_eq_dec : EqDecision elem_info_common_prop.
Proof. solve_decision. Defined.
#[export] Instance elem_info_single_array_prop_eq_dec : EqDecision elem_info_single_array_prop.
Proof. solve_decision. Defined.
#[export] Instance queue_timer_common_prop_eq_dec : EqDecision queue_timer_common_prop.
Proof. solve_decision. Defined.

#[export] Instance prop_of_eq_dec (c : gclass) : EqDecision (prop_of c).
Proof. destruct c; simpl; solve_decision. Defined.

(** The size of the structure in the object. *)
Definition obj_size (c : gclass) : Z :=
  match c with
  | ALSASEQ_CLIENT_INFO => sizeof_client_info
  | ALSASEQ_CLIENT_POOL => sizeof_client_pool
  | ALSASEQ_PORT_INFO => sizeof_port_info
  | ALSASEQ_QUEUE_INFO => sizeof_queue_info
  | ALSASEQ_QUEUE_STATUS => sizeof_queue_status
  | ALSASEQ_QUEUE_TEMPO => sizeof_queue_tempo
  | ALSASEQ_QUEUE_TIMER_ALSA => sizeof_queue_timer
  | ALSASEQ_REMOVE_FILTER => sizeof_remove_events
  | ALSASEQ_SUBSCRIBE_DATA => sizeof_port_subscribe
  | ALSASEQ_SYSTEM_INFO => sizeof_system_info
  | ALSACTL_CARD_INFO => sizeof_card_info
  | ALSACTL_ELEM_INFO_INTEGER | ALSACTL_ELEM_INFO_INTEGER64 | ALSACTL_ELEM_INFO_BOOLEAN
  | ALSACTL_ELEM_INFO_BYTES | ALSACTL_ELEM_INFO_IEC60958 | ALSACTL_ELEM_INFO_ENUMERATED =>
      sizeof_elem_info
  | ALSATIMER_DEVICE_INFO => sizeof_timer_ginfo
  | ALSATIMER_DEVICE_PARAMS => sizeof_timer_gparams
  | ALSATIMER_DEVICE_STATUS => sizeof_timer_gstatus
  | ALSATIMER_INSTANCE_INFO => sizeof_timer_info
  | ALSATIMER_INSTANCE_PARAMS => sizeof_timer_params
  | ALSATIMER_INSTANCE_STATUS => sizeof_timer_status
  | ALSARAWMIDI_SUBSTREAM_INFO => sizeof_rawmidi_info
  | ALSARAWMIDI_SUBSTREAM_PARAMS => sizeof_rawmidi_params
  | ALSARAWMIDI_SUBSTREAM_STATUS => sizeof_rawmidi_status
  | ALSAHWDEP_DEVICE_INFO => sizeof_hwdep_info
  end.

(** The specifications installed when a page of memory has [4096] bytes. *)
Definition obj_props (c : gclass) : prop_of c → pspec :=
  match c with
  | ALSASEQ_CLIENT_INFO => seq_client_info_props
  | ALSASEQ_CLIENT_POOL => seq_client_pool_props
  | ALSASEQ_PORT_INFO => seq_port_info_props
  | ALSASEQ_QUEUE_INFO => seq_queue_info_props
  | ALSASEQ_QUEUE_STATUS => seq_queue_status_props
  | ALSASEQ_QUEUE_TEMPO => seq_queue_tempo_props
  | ALSASEQ_QUEUE_TIMER_ALSA => queue_timer_alsa_props
  | ALSASEQ_REMOVE_FILTER => seq_remove_filter_props
  | ALSASEQ_SUBSCRIBE_DATA => seq_subscribe_data_props
  | ALSASEQ_SYSTEM_INFO => seq_system_info_props
  | ALSACTL_CARD_INFO => ctl_card_info_props
  | ALSACTL_ELEM_INFO_INTEGER => elem_info_integer_props
  | ALSACTL_ELEM_INFO_INTEGER64 => elem_info_integer64_props
  | ALSACTL_ELEM_INFO_BOOLEAN | ALSACTL_ELEM_INFO_BYTES | ALSACTL_ELEM_INFO_ENUMERATED =>
      elem_info_single_array_props
  | ALSACTL_ELEM_INFO_IEC60958 => elem_info_common_props
  | ALSATIMER_DEVICE_INFO => timer_device_info_props
  | ALSATIMER_DEVICE_PARAMS => timer_device_params_props
  | ALSATIMER_DEVICE_STATUS => timer_device_status_props
  | ALSATIMER_INSTANCE_INFO => timer_instance_info_props
  | ALSATIMER_INSTANCE_PARAMS => timer_instance_params_props
  | ALSATIMER_INSTANCE_STATUS => timer_instance_status_props
  | ALSARAWMIDI_SUBSTREAM_INFO => rawmidi_substream_info_props
  | ALSARAWMIDI_SUBSTREAM_PARAMS => rawmidi_substream_params_props 4096
  | ALSARAWMIDI_SUBSTREAM_STATUS => rawmidi_substream_status_props
  | ALSAHWDEP_DEVICE_INFO => hwdep_device_info_props
  end.

Definition obj_get (c : gclass) : prop_of c → list byte → gvalue → gvalue :=
  match c with
  | ALSASEQ_CLIENT_INFO => seq_client_info_get_property
  | ALSASEQ_CLIENT_POOL => seq_client_pool_get_property
  | ALSASEQ_PORT_INFO => seq_port_info_get_property
  | ALSASEQ_QUEUE_INFO => seq_queue_info_get_property
  | ALSASEQ_QUEUE_STATUS => seq_queue_status_get_property
  | ALSASEQ_QUEUE_TEMPO => seq_queue_tempo_get_property
  | ALSASEQ_QUEUE_TIMER_ALSA => seq_queue_timer_alsa_get_property
  | ALSASEQ_REMOVE_FILTER => seq_remove_filter_get_property
  | ALSASEQ_SUBSCRIBE_DATA => seq_subscribe_data_get_property
  | ALSASEQ_SYSTEM_INFO => seq_system_info_get_property
  | ALSACTL_CARD_INFO => ctl_card_info_get_property
  | ALSACTL_ELEM_INFO_INTEGER => ctl_elem_info_integer_get_property
  | ALSACTL_ELEM_INFO_INTEGER64 => ctl_elem_info_integer64_get_property
  | ALSACTL_ELEM_INFO_BOOLEAN => ctl_elem_info_boolean_get_property
  | ALSACTL_ELEM_INFO_BYTES => ctl_elem_info_bytes_get_property
  | ALSACTL_ELEM_INFO_ENUMERATED => λ id data,
      ctl_elem_info_enumerated_get_property id (ElemInfoEnumerated data None)
  | ALSACTL_ELEM_INFO_IEC60958 => ctl_elem_info_iec60958_get_property
  | ALSATIMER_DEVICE_INFO => timer_device_info_get_property
  | ALSATIMER_DEVICE_PARAMS => timer_device_params_get_property
  | ALSATIMER_DEVICE_STATUS => timer_device_status_get_property
  | ALSATIMER_INSTANCE_INFO => timer_instance_info_get_property
  | ALSATIMER_INSTANCE_PARAMS => timer_instance_params_get_property
  | ALSATIMER_INSTANCE_STATUS => timer_instance_status_get_property
  | ALSARAWMIDI_SUBSTREAM_INFO => rawmidi_substream_info_get_property
  | ALSARAWMIDI_SUBSTREAM_PARAMS => rawmidi_substream_params_get_property
  | ALSARAWMIDI_SUBSTREAM_STATUS => rawmidi_substream_status_get_property
  | ALSAHWDEP_DEVICE_INFO => hwdep_device_info_get_property
  end.

(** A class without a handler for writing has no property to write. *)
Definition obj_set (c : gclass) : prop_of c → gvalue → list byte → option (list byte) :=
  match c with
  | ALSASEQ_CLIENT_INFO => seq_client_info_set_property
  | ALSASEQ_CLIENT_POOL => seq_client_pool_set_property
  | ALSASEQ_PORT_INFO => seq_port_info_set_property
  | ALSASEQ_QUEUE_INFO => seq_queue_info_set_property
  | ALSASEQ_QUEUE_TEMPO => seq_queue_tempo_set_property
  | ALSASEQ_QUEUE_TIMER_ALSA => seq_queue_timer_alsa_set_property
  | ALSASEQ_REMOVE_FILTER => seq_remove_filter_set_property
  | ALSASEQ_SUBSCRIBE_DATA => seq_subscribe_data_set_property
  | ALSACTL_ELEM_INFO_INTEGER => ctl_elem_info_integer_set_property
  | ALSACTL_ELEM_INFO_INTEGER64 => ctl_elem_info_integer64_set_property
  | ALSACTL_ELEM_INFO_BOOLEAN => ctl_elem_info_boolean_set_property
  | ALSACTL_ELEM_INFO_BYTES => ctl_elem_info_bytes_set_property
  | ALSACTL_ELEM_INFO_ENUMERATED => λ id val data,
      ee_data <$> ctl_elem_info_enumerated_set_property id val (ElemInfoEnumerated data None)
  | ALSACTL_ELEM_INFO_IEC60958 => ctl_elem_info_iec60958_set_property
  | ALSATIMER_DEVICE_PARAMS => timer_device_params_set_property
  | ALSATIMER_INSTANCE_PARAMS => timer_instance_params_set_property
  | ALSARAWMIDI_SUBSTREAM_PARAMS => rawmidi_substream_params_set_property
  | ALSAHWDEP_DEVICE_INFO => hwdep_device_info_set_property
  | _ => λ _ _ s, Some s
  end.

(** An object as [g_object_new] makes it before its construction properties
    are set: a zeroed structure, [init] of the class run on it. *)
Definition obj_new (c : gclass) : list byte :=
  match c with
  | ALSACTL_ELEM_INFO_IEC60958 => alsactl_elem_info_iec60958_init (zeroed (obj_size c))
  | _ => zeroed (obj_size c)
  end.

(** What a property of an object shows. *)
Definition obj_show (c : gclass) (s : list byte) (p : prop_of c) : gdata :=
  v_data (obj_get c p s (g_value_init (spec_type (obj_props c p)))).

(** ** Cells

    A piece of the structure, or some bits of the number in it. *)

Record cell := Cell { c_off : nat; c_len : nat; c_mask : option Z }.

Definition in_field (f : field) : cell := Cell (f_off f) (f_width f) None.
Definition in_bits (f : field) (mask : Z) : cell := Cell (f_off f) (f_width f) (Some mask).
Definition in_array (o n : nat) : cell := Cell o n None.

Definition common_cell (id : elem_info_common_prop) : cell :=
  match id with
  | ELEM_INFO_COMMON_PROP_ELEM_ID => in_array ei_id 64
  | ELEM_INFO_COMMON_PROP_ELEM_TYPE => in_field ei_type
  | ELEM_INFO_COMMON_PROP_ACCESS => in_field ei_access
  | ELEM_INFO_COMMON_PROP_OWNER => in_field ei_owner
  end.

Definition single_array_cell (id : elem_info_single_array_prop) : cell :=
  match id with
  | ELEM_INFO_SINGLE_ARRAY_PROP_VALUE_COUNT => in_field ei_count
  | ELEM_INFO_COMMON id => common_cell id
  end.

Definition client_info_cell (p : seq_client_info_prop) : cell :=
  match p with
  | SEQ_CLIENT_INFO_PROP_CLIENT_ID => in_field ci_client
  | SEQ_CLIENT_INFO_PROP_CLIENT_TYPE => in_field ci_type
  | SEQ_CLIENT_INFO_PROP_NAME => in_array ci_name 64
  | SEQ_CLIENT_INFO_PROP_FILTER_ATTR_FLAGS => in_field ci_filter
  | SEQ_CLIENT_INFO_PROP_USE_FILTER => in_bits ci_filter SNDRV_SEQ_FILTER_USE_EVENT
  | SEQ_CLIENT_INFO_PROP_PORT_COUNT => in_field ci_num_ports
  | SEQ_CLIENT_INFO_PROP_LOST_COUNT => in_field ci_event_lost
  | SEQ_CLIENT_INFO_PROP_CARD_ID => in_field ci_card
  | SEQ_CLIENT_INFO_PROP_PROCESS_ID => in_field ci_pid
  end.

Definition client_pool_cell (p : seq_client_pool_prop) : cell :=
  match p with
  | SEQ_CLIENT_POOL_PROP_CLIENT_ID => in_field pool_client
  | SEQ_CLIENT_POOL_PROP_OUTPUT_POOL => in_field pool_output_pool
  | SEQ_CLIENT_POOL_PROP_INPUT_POOL => in_field pool_input_pool
  | SEQ_CLIENT_POOL_PROP_OUTPUT_ROOM => in_field pool_output_room
  | SEQ_CLIENT_POOL_PROP_OUTPUT_FREE => in_field pool_output_free
  | SEQ_CLIENT_POOL_PROP_INPUT_FREE => in_field pool_input_free
  end.

Definition port_info_cell (p : seq_port_info_prop) : cell :=
  match p with
  | SEQ_PORT_INFO_PROP_ADDR => in_array pi_addr 2
  | SEQ_PORT_INFO_PROP_NAME => in_array pi_name 64
  | SEQ_PORT_INFO_PROP_CAPS => in_field pi_capability
  | SEQ_PORT_INFO_PROP_ATTRS => in_field pi_type
  | SEQ_PORT_INFO_PROP_MIDI_CHANNELS => in_field pi_midi_channels
  | SEQ_PORT_INFO_PROP_MIDI_VOICES => in_field pi_midi_voices
  | SEQ_PORT_INFO_PROP_SYNTH_VOICES => in_field pi_synth_voices
  | SEQ_PORT_INFO_PROP_READ_USERS => in_field pi_read_use
  | SEQ_PORT_INFO_PROP_WRITE_USERS => in_field pi_write_use
  | SEQ_PORT_INFO_PROP_TSTAMP_OVERWRITE => in_bits pi_flags SNDRV_SEQ_PORT_FLG_TIMESTAMP
  | SEQ_PORT_INFO_PROP_TSTAMP_MODE => in_bits pi_flags SNDRV_SEQ_PORT_FLG_TIME_REAL
  | SEQ_PORT_INFO_PROP_TIME_QUEUE => in_field pi_time_queue
  end.

Definition queue_timer_alsa_cell (p : queue_timer_alsa_prop) : cell :=
  match p with
  | QUEUE_TIMER_COMMON QUEUE_TIMER_COMMON_PROP_QUEUE_ID => in_field tm_queue
  | QUEUE_TIMER_COMMON QUEUE_TIMER_COMMON_PROP_TIMER_TYPE => in_field tm_type
  | QUEUE_TIMER_ALSA_PROP_DEVICE_ID => in_array tm_id 20
  | QUEUE_TIMER_ALSA_PROP_RESOLUTION_TICKS => in_field tm_resolution
  end.

Definition remove_filter_cell (p : seq_remove_filter_prop) : cell :=
  match p with
  | SEQ_REMOVE_FILTER_PROP_FLAGS => in_field rm_remove_mode
  | SEQ_REMOVE_FILTER_PROP_QUEUE_ID => in_field rm_queue
  | SEQ_REMOVE_FILTER_PROP_DST => in_array rm_dest 2
  | SEQ_REMOVE_FILTER_PROP_CHANNEL => in_field rm_channel
  | SEQ_REMOVE_FILTER_PROP_EVENT_TYPE => in_field rm_type
  | SEQ_REMOVE_FILTER_PROP_TAG => in_field rm_tag
  end.

Definition subscribe_data_cell (p : seq_subscribe_data_prop) : cell :=
  match p with
  | SEQ_SUBSCRIBE_DATA_PROP_SENDER => in_array ps_sender 2
  | SEQ_SUBSCRIBE_DATA_PROP_DEST => in_array ps_dest 2
  | SEQ_SUBSCRIBE_DATA_PROP_IS_EXCLUSIVE => in_bits ps_flags SNDRV_SEQ_PORT_SUBS_EXCLUSIVE
  | SEQ_SUBSCRIBE_DATA_PROP_HAS_TSTAMP => in_bits ps_flags SNDRV_SEQ_PORT_SUBS_TIMESTAMP
  | SEQ_SUBSCRIBE_DATA_PROP_TSTAMP_MODE => in_bits ps_flags SNDRV_SEQ_PORT_SUBS_TIME_REAL
  | SEQ_SUBSCRIBE_DATA_PROP_QUEUE_ID => in_field ps_queue
  end.

Definition queue_cell (p : seq_queue_info_prop) : cell :=
  match p with
  | SEQ_QUEUE_INFO_PROP_QUEUE_ID => in_field qi_queue
  | SEQ_QUEUE_INFO_PROP_CLIENT_ID => in_field qi_owner
  | SEQ_QUEUE_INFO_PROP_LOCKED => in_bits qi_locked 1
  | SEQ_QUEUE_INFO_PROP_NAME => in_array qi_name 64
  end.

Definition queue_status_cell (p : seq_queue_status_prop) : cell :=
  match p with
  | SEQ_QUEUE_STATUS_PROP_QUEUE_ID => in_field qs_queue
  | SEQ_QUEUE_STATUS_PROP_EVENT_COUNT => in_field qs_events
  | SEQ_QUEUE_STATUS_PROP_RUNNING => in_field qs_running
  end.

Definition queue_tempo_cell (p : seq_queue_tempo_prop) : cell :=
  match p with
  | SEQ_QUEUE_TEMPO_PROP_QUEUE_ID => in_field qt_queue
  | SEQ_QUEUE_TEMPO_PROP_TEMPO => in_field qt_tempo
  | SEQ_QUEUE_TEMPO_PROP_RESOLUTION => in_field qt_ppq
  end.

Definition system_info_cell (p : seq_system_info_prop) : cell :=
  match p with
  | SEQ_SYSTEM_INFO_PROP_MAXIMUM_QUEUE_COUNT => in_field sys_queues
  | SEQ_SYSTEM_INFO_PROP_MAXIMUM_CLIENT_COUNT => in_field sys_clients
  | SEQ_SYSTEM_INFO_PROP_MAXIMUM_PORT_COUNT => in_field sys_ports
  | SEQ_SYSTEM_INFO_PROP_MAXIMUM_CHANNEL_COUNT => in_field sys_channels
  | SEQ_SYSTEM_INFO_PROP_CURRENT_CLIENT_COUNT => in_field sys_cur_clients
  | SEQ_SYSTEM_INFO_PROP_CURRENT_QUEUE_COUNT => in_field sys_cur_queues
  end.

Definition card_info_cell (p : ctl_card_info_prop) : cell :=
  match p with
  | CTL_CARD_INFO_PROP_CARD_ID => in_field cardi_card
  | CTL_CARD_INFO_PROP_ID => in_array cardi_id 16
  | CTL_CARD_INFO_PROP_DRIVER => in_array cardi_driver 16
  | CTL_CARD_INFO_PROP_NAME => in_array cardi_name 32
  | CTL_CARD_INFO_PROP_LONG_NAME => in_array cardi_longname 80
  | CTL_CARD_INFO_PROP_MIXER_NAME => in_array cardi_mixername 80
  | CTL_CARD_INFO_PROP_COMPONENTS => in_array cardi_components 128
  end.

Definition integer_cell (p : elem_info_integer_prop) : cell :=
  match p with
  | ELEM_INFO_INTEGER_PROP_MIN => in_field ei_min
  | ELEM_INFO_INTEGER_PROP_MAX => in_field ei_max
  | ELEM_INFO_INTEGER_PROP_STEP => in_field ei_step
  | INTEGER_SINGLE_ARRAY id => single_array_cell id
  end.

Definition integer64_cell (p : elem_info_integer64_prop) : cell :=
  match p with
  | ELEM_INFO_INTEGER64_PROP_MIN => in_field ei_min
  | ELEM_INFO_INTEGER64_PROP_MAX => in_field ei_max
  | ELEM_INFO_INTEGER64_PROP_STEP => in_field ei_step
  | INTEGER64_SINGLE_ARRAY id => single_array_cell id
  end.

Definition device_info_cell (p : timer_device_info_prop) : cell :=
  match p with
  | TIMER_DEVICE_INFO_PROP_FLAGS => in_field tgi_flags
  | TIMER_DEVICE_INFO_PROP_CARD_ID => in_field tgi_card
  | TIMER_DEVICE_INFO_PROP_ID => in_array tgi_id 64
  | TIMER_DEVICE_INFO_PROP_NAME => in_array tgi_name 80
  | TIMER_DEVICE_INFO_PROP_RESOLUTION => in_field tgi_resolution
  | TIMER_DEVICE_INFO_PROP_RESOLUTION_MIN => in_field tgi_resolution_min
  | TIMER_DEVICE_INFO_PROP_RESOLUTION_MAX => in_field tgi_resolution_max
  | TIMER_DEVICE_INFO_PROP_INSTANCE_COUNT => in_field tgi_clients
  end.

Definition device_params_cell (p : timer_device_params_prop) : cell :=
  match p with
  | TIMER_DEVICE_PARAMS_PROP_PERIOD_NUM => in_field tgp_period_num
  | TIMER_DEVICE_PARAMS_PROP_PERIOD_DEN => in_field tgp_period_den
  end.

Definition device_status_cell (p : timer_device_status_prop) : cell :=
  match p with
  | TIMER_DEVICE_STATUS_PROP_RESOLUTION => in_field tgs_resolution
  | TIMER_DEVICE_STATUS_PROP_RESOLUTION_NUM => in_field tgs_resolution_num
  | TIMER_DEVICE_STATUS_PROP_RESOLUTION_DEN => in_field tgs_resolution_den
  end.

Definition instance_info_cell (p : timer_instance_info_prop) : cell :=
  match p with
  | TIMER_INSTANCE_INFO_PROP_FLAGS => in_field ti_flags
  | TIMER_INSTANCE_INFO_PROP_CARD_ID => in_field ti_card
  | TIMER_INSTANCE_INFO_PROP_ID => in_array ti_id 64
  | TIMER_INSTANCE_INFO_PROP_NAME => in_array ti_name 80
  | TIMER_INSTANCE_INFO_PROP_RESOLUTION => in_field ti_resolution
  end.

Definition instance_params_cell (p : timer_instance_params_prop) : cell :=
  match p with
  | TIMER_INSTANCE_PARAMS_PROP_FLAGS => in_field tp_flags
  | TIMER_INSTANCE_PARAMS_PROP_INTERVAL => in_field tp_ticks
  | TIMER_INSTANCE_PARAMS_PROP_QUEUE_SIZE => in_field tp_queue_size
  end.

Definition instance_status_cell (p : timer_instance_status_prop) : cell :=
  match p with
  | TIMER_INSTANCE_STATUS_PROP_INTERVAL => in_field ts_resolution
  | TIMER_INSTANCE_STATUS_PROP_LOST => in_field ts_lost
  | TIMER_INSTANCE_STATUS_PROP_OVERRUN => in_field ts_overrun
  | TIMER_INSTANCE_STATUS_PROP_QUEUE_SIZE => in_field ts_queue
  end.

Definition substream_info_cell (p : rawmidi_substream_info_prop) : cell :=
  match p with
  | RAWMIDI_SUBSTREAM_INFO_PROP_DEVICE_ID => in_field ri_device
  | RAWMIDI_SUBSTREAM_INFO_PROP_SUBDEVICE_ID => in_field ri_subdevice
  | RAWMIDI_SUBSTREAM_INFO_PROP_DIRECTION => in_field ri_stream
  | RAWMIDI_SUBSTREAM_INFO_PROP_CARD_ID => in_field ri_card
  | RAWMIDI_SUBSTREAM_INFO_PROP_FLAGS => in_field ri_flags
  | RAWMIDI_SUBSTREAM_INFO_PROP_ID => in_array ri_id 64
  | RAWMIDI_SUBSTREAM_INFO_PROP_NAME => in_array ri_name 80
  | RAWMIDI_SUBSTREAM_INFO_PROP_SUBNAME => in_array ri_subname 32
  | RAWMIDI_SUBSTREAM_INFO_PROP_SUBDEVICES_COUNT => in_field ri_subdevices_count
  | RAWMIDI_SUBSTREAM_INFO_PROP_SUBDEVICES_AVAIL => in_field ri_subdevices_avail
  end.

Definition substream_params_cell (p : rawmidi_substream_params_prop) : cell :=
  match p with
  | RAWMIDI_SUBSTREAM_PARAMS_PROP_BUFFER_SIZE => in_field rp_buffer_size
  | RAWMIDI_SUBSTREAM_PARAMS_PROP_AVAIL_MIN => in_field rp_avail_min
  | RAWMIDI_SUBSTREAM_PARAMS_PROP_ACTIVE_SENSING => in_bits rp_no_active_sensing 1
  end.

Definition substream_status_cell (p : rawmidi_substream_status_prop) : cell :=
  match p with
  | RAWMIDI_SUBSTREAM_STATUS_PROP_AVAIL => in_field rs_avail
  | RAWMIDI_SUBSTREAM_STATUS_PROP_XRUN => in_field rs_xruns
  end.

Definition hwdep_cell (p : hwdep_device_info_prop) : cell :=
  match p with
  | HWDEP_DEVICE_INFO_PROP_DEVICE_ID => in_field hi_device
  | HWDEP_DEVICE_INFO_PROP_CARD_ID => in_field hi_card
  | HWDEP_DEVICE_INFO_PROP_ID => in_array hi_id 64
  | HWDEP_DEVICE_INFO_PROP_NAME => in_array hi_name 80
  | HWDEP_DEVICE_INFO_PROP_IFACE => in_field hi_iface
  end.

Definition obj_cell (c : gclass) : prop_of c → cell :=
  match c with
  | ALSASEQ_CLIENT_INFO => client_info_cell
  | ALSASEQ_CLIENT_POOL => client_pool_cell
  | ALSASEQ_PORT_INFO => port_info_cell
  | ALSASEQ_QUEUE_INFO => queue_cell
  | ALSASEQ_QUEUE_STATUS => queue_status_cell
  | ALSASEQ_QUEUE_TEMPO => queue_tempo_cell
  | ALSASEQ_QUEUE_TIMER_ALSA => queue_timer_alsa_cell
  | ALSASEQ_REMOVE_FILTER => remove_filter_cell
  | ALSASEQ_SUBSCRIBE_DATA => subscribe_data_cell
  | ALSASEQ_SYSTEM_INFO => system_info_cell
  | ALSACTL_CARD_INFO => card_info_cell
  | ALSACTL_ELEM_INFO_INTEGER => integer_cell
  | ALSACTL_ELEM_INFO_INTEGER64 => integer64_cell
  | ALSACTL_ELEM_INFO_BOOLEAN | ALSACTL_ELEM_INFO_BYTES | ALSACTL_ELEM_INFO_ENUMERATED =>
      single_array_cell
  | ALSACTL_ELEM_INFO_IEC60958 => common_cell
  | ALSATIMER_DEVICE_INFO => device_info_cell
  | ALSATIMER_DEVICE_PARAMS => device_params_cell
  | ALSATIMER_DEVICE_STATUS => device_status_cell
  | ALSATIMER_INSTANCE_INFO => instance_info_cell
  | ALSATIMER_INSTANCE_PARAMS => instance_params_cell
  | ALSATIMER_INSTANCE_STATUS => instance_status_cell
  | ALSARAWMIDI_SUBSTREAM_INFO => substream_info_cell
  | ALSARAWMIDI_SUBSTREAM_PARAMS => substream_params_cell
  | ALSARAWMIDI_SUBSTREAM_STATUS => substream_status_cell
  | ALSAHWDEP_DEVICE_INFO => hwdep_cell
  end.

(** The properties that are what the specification says: not the attributes of
    the filter of a client, which are shown with the bit of another property
    alone, nor its card, which has no case in the handler for writing, nor the
    queue of a status and the tempo, whose accessors do not fit the type. *)
Definition regular (c : gclass) : prop_of c → bool :=
  match c with
  | ALSASEQ_CLIENT_INFO => λ p,
      match p with
      | SEQ_CLIENT_INFO_PROP_FILTER_ATTR_FLAGS | SEQ_CLIENT_INFO_PROP_CARD_ID => false
      | _ => true
      end
  | ALSASEQ_QUEUE_STATUS => λ p, match p with SEQ_QUEUE_STATUS_PROP_QUEUE_ID => false | _ => true end
  | ALSASEQ_QUEUE_TEMPO => λ p, match p with SEQ_QUEUE_TEMPO_PROP_TEMPO => false | _ => true end
  | _ => λ _, true
  end.

(** The properties whose accessor for reading fits the type. *)
Definition shown (c : gclass) : prop_of c → bool :=
  match c with
  | ALSASEQ_QUEUE_STATUS => λ p, match p with SEQ_QUEUE_STATUS_PROP_QUEUE_ID => false | _ => true end
  | _ => λ _, true
  end.

(** The values that are written to a property: those of its specification, one
    of two for a bit. *)
Definition prop_value (c : gclass) (p : prop_of c) (val : gvalue) : Prop :=
  spec_value (obj_props c p) (c_len (obj_cell c p)) val ∧
  match c_mask (obj_cell c p), v_data val with Some _, DNumber v => 0 ≤ v ≤ 1 | _, _ => True end.

Definition writable (c : gclass) (p : prop_of c) : bool :=
  match spec_access (obj_props c p) with READABLE => false | _ => true end.
