(* ===== verification/ObjectFacts.v ===== *)
(** * Facts about cells of structures

    What a write to one cell leaves of the others, and what is read from a cell
    after a write to it: fields, bits of a field, arrays of characters and
    boxed structures. *)
From S2P Require Import Prelude SeqUapi Struct GValue SeqObjects Objects.

(** ** Cells *)

Definition agree (k : cell) (s s' : list byte) : Prop :=
  match c_mask k with
  | None => sub (c_off k) (c_len k) s = sub (c_off k) (c_len k) s'
  | Some m => Z.land (le_u (c_off k) (c_len k) s) m = Z.land (le_u (c_off k) (c_len k) s') m
  end.

Definition apart (k k' : cell) : bool :=
  bool_decide (c_off k + c_len k ≤ c_off k')%nat || bool_decide (c_off k' + c_len k' ≤ c_off k)%nat.

(** No bit in common. *)
Definition cell_disjoint (k k' : cell) : bool :=
  apart k k' ||
  match c_mask k, c_mask k' with
  | Some m, Some m' =>
      (c_off k =? c_off k')%nat && (c_len k =? c_len k')%nat && (Z.land m m' =? 0)
  | _, _ => false
  end.

#[export] Instance agree_refl k : Reflexive (agree k).
Proof. intros s. unfold agree. by destruct (c_mask k). Qed.

#[export] Instance agree_sym k : Symmetric (agree k).
Proof. intros s s'. unfold agree. by destruct (c_mask k). Qed.

#[export] Instance agree_trans k : Transitive (agree k).
Proof. intros s s' s''. unfold agree. destruct (c_mask k); congruence. Qed.

Lemma sub_agree k s s' : sub (c_off k) (c_len k) s = sub (c_off k) (c_len k) s' → agree k s s'.
Proof. unfold agree, le_u. intros ->. by destruct (c_mask k). Qed.

(** Reads depend on their cell alone. *)
Lemma fget_agree f s s' : agree (in_field f) s s' → fget f s = fget f s'.
Proof. unfold agree, fget, le_s, le_u. cbn [c_mask c_off c_len in_field]. by intros ->. Qed.

Lemma bits_agree f mask s s' :
  f_signed f = false → agree (in_bits f mask) s s' →
  Z.land (fget f s) mask = Z.land (fget f s') mask.
Proof. unfold agree, fget. intros ->. done. Qed.

Lemma sub_agree_eq o n s s' : agree (in_array o n) s s' → sub o n s = sub o n s'.
Proof. done. Qed.

Lemma apart_spec k k' :
  apart k k' = true → (c_off k + c_len k ≤ c_off k' ∨ c_off k' + c_len k' ≤ c_off k)%nat.
Proof. intros [H|H]%orb_true_iff; apply bool_decide_eq_true in H; auto. Qed.

(** ** Writes leave disjoint cells alone *)

Lemma frame_put_bytes o vs s k :
  (o + length vs ≤ length s)%nat → cell_disjoint (in_array o (length vs)) k = true →
  agree k s (put_bytes o vs s).
Proof.
  intros Hl Hd. unfold cell_disjoint in Hd. cbn [c_mask in_array] in Hd. rewrite orb_false_r in Hd.
  apply apart_spec in Hd. apply sub_agree. symmetry. apply sub_put_other; [done|]. simpl in Hd. lia.
Qed.

Lemma frame_fput f v s k :
  f_in f (length s) = true → cell_disjoint (in_field f) k = true → agree k s (fput f v s).
Proof.
  intros [Hl _]%f_in_spec Hd. unfold fput. apply frame_put_bytes; by rewrite length_le_split.
Qed.

(** Replacing the bits of [mask] in a field. *)
Definition put_mask (f : field) (mask v : Z) (s : list byte) : list byte :=
  fput f (set_bits mask v (fget f s)) s.

Definition mask_in (f : field) (mask : Z) : bool :=
  negb (f_signed f) && (0 <=? mask) && (mask <? 2 ^ f_bits f).

Lemma ones_range n z : 0 ≤ n → Z.land z (Z.ones n) = z ↔ 0 ≤ z < 2 ^ n.
Proof.
  intros Hn. rewrite Z.land_ones by done. split; [|apply Z.mod_small].
  intros <-. apply Z.mod_pos_bound. lia.
Qed.

Lemma lor_range n x y : 0 ≤ n → 0 ≤ x < 2 ^ n → 0 ≤ y < 2 ^ n → 0 ≤ Z.lor x y < 2 ^ n.
Proof.
  intros Hn Hx%ones_range Hy%ones_range; [|done..]. apply ones_range; [done|].
  rewrite <- Hx, <- Hy at 2. bitwise.
Qed.

Lemma land_range n x y : 0 ≤ n → 0 ≤ x < 2 ^ n → 0 ≤ Z.land x y < 2 ^ n.
Proof.
  intros Hn Hx%ones_range; [|done]. apply ones_range; [done|]. rewrite <- Hx at 2. bitwise.
Qed.

Lemma set_bits_range n mask v x :
  0 ≤ n → 0 ≤ mask < 2 ^ n → Z.land v mask = v → 0 ≤ x < 2 ^ n → 0 ≤ set_bits mask v x < 2 ^ n.
Proof.
  intros Hn Hm Hv Hx. apply lor_range; [done|by apply land_range|].
  rewrite <- Hv, Z.land_comm. by apply land_range.
Qed.

Lemma fget_put_mask f mask v s :
  f_in f (length s) = true → mask_in f mask = true → Z.land v mask = v →
  fget f (put_mask f mask v s) = set_bits mask v (fget f s).
Proof.
  intros Hf Hm Hv. unfold mask_in in Hm. apply andb_true_iff in Hm as [[Hu H0]%andb_true_iff H1].
  apply negb_true_iff in Hu. apply fget_fput_id; [done|].
  pose proof (fget_range f s Hf) as Hr. unfold f_range in *. rewrite Hu in *.
  apply set_bits_range; [unfold f_bits|..]; lia || done.
Qed.

Lemma read_put_mask f mask v s :
  f_in f (length s) = true → mask_in f mask = true → Z.land v mask = v →
  Z.land (fget f (put_mask f mask v s)) mask = v.
Proof. intros. rewrite fget_put_mask by done. by apply set_bits_read. Qed.

Lemma frame_put_mask f mask v s k :
  f_in f (length s) = true → mask_in f mask = true → Z.land v mask = v →
  cell_disjoint (in_bits f mask) k = true → agree k s (put_mask f mask v s).
Proof.
  intros Hf Hm Hv [Hd|Hd]%orb_true_iff.
  { apply frame_fput; [done|]. unfold cell_disjoint. by rewrite orb_true_iff; left. }
  destruct k as [o n [m'|]]; cbn in Hd; [|done].
  apply andb_true_iff in Hd as [[<-%Nat.eqb_eq <-%Nat.eqb_eq]%andb_true_iff Hd%Z.eqb_eq].
  assert (f_signed f = false) as Hu.
  { apply andb_true_iff in Hm as [[?%negb_true_iff _]%andb_true_iff _]. done. }
  pose proof (fget_put_mask f mask v s Hf Hm Hv) as E. unfold fget in E. rewrite Hu in E.
  unfold agree. cbn [c_mask c_off c_len]. rewrite E, set_bits_other by done. done.
Qed.

Lemma length_put_mask f mask v s : f_in f (length s) = true → length (put_mask f mask v s) = length s.
Proof. apply length_fput. Qed.

Lemma set_flag_mask f bit on s : set_flag f bit on s = put_mask f bit (if on then bit else 0) s.
Proof.
  unfold set_flag, put_mask, set_bits. destruct on; f_equal; [bitwise|by rewrite Z.lor_0_r].
Qed.

Lemma reset_flag_mask f bit on s :
  f_in f (length s) = true → mask_in f bit = true →
  reset_flag f bit on s = put_mask f bit (if on then bit else 0) s.
Proof.
  intros Hf Hm. unfold reset_flag. rewrite <- set_flag_mask. destruct on; [|done].
  assert (fput f (Z.land (fget f s) (Z.lnot bit)) s = put_mask f bit 0 s) as ->.
  { unfold put_mask, set_bits. by rewrite Z.lor_0_r. }
  rewrite fget_put_mask by done. unfold put_mask. rewrite fput_fput by done.
  unfold set_flag, set_bits. rewrite Z.lor_0_r. f_equal. bitwise.
Qed.

Lemma put_bit_mask f v s : put_bit f v s = put_mask f 1 (Z.land v 1) s.
Proof. done. Qed.

(** ** Strings and boxed structures *)

Lemma put_string_run o n val vs s :
  v_type val = G_TYPE_STRING → v_data val = DPointer (Some vs) →
  put_string o n val s = put_bytes o (strlcpy_bytes vs (sub o n s)) s.
Proof.
  intros Ht Hd. unfold put_string, g_value_get_string, pointer_if. rewrite bool_decide_true by done.
  by rewrite Hd.
Qed.

Lemma length_strlcpy_sub vs o n s :
  (o + n ≤ length s)%nat → n ≠ O → length (strlcpy_bytes vs (sub o n s)) = n.
Proof.
  intros Hl Hn. rewrite length_strlcpy_bytes; [by apply length_sub|].
  intros E. apply (f_equal length) in E. rewrite length_sub in E by done. done.
Qed.

Lemma read_string o n vs s :
  (o + n ≤ length s)%nat → n ≠ O → c_chars_only vs →
  c_str (sub o n (put_bytes o (strlcpy_bytes vs (sub o n s)) s)) = take (n - 1) vs.
Proof.
  intros Hl Hn Hc. pose proof (length_strlcpy_sub vs o n s Hl Hn) as E.
  rewrite <- E at 1. rewrite sub_put_same by (by rewrite E). rewrite c_str_strlcpy by done.
  by rewrite length_sub.
Qed.

Lemma put_boxed_run o val bs s :
  holds_boxed (v_type val) = true → v_data val = DPointer (Some bs) →
  put_boxed o val s = Some (put_bytes o bs s).
Proof. intros Ht Hd. unfold put_boxed, g_value_get_boxed, pointer_if. by rewrite Ht, Hd. Qed.

(** ** Writes *)

(** The structure keeps its size and the cells that are disjoint from the one
    that is written. *)
Definition writes (k : cell) (s s' : list byte) : Prop :=
  length s' = length s ∧ ∀ k', cell_disjoint k k' = true → agree k' s s'.

Lemma writes_fput f v s : f_in f (length s) = true → writes (in_field f) s (fput f v s).
Proof. intros H. split; [by apply length_fput|]. intros k. by apply frame_fput. Qed.

Lemma writes_put_bytes o vs s :
  (o + length vs ≤ length s)%nat → writes (in_array o (length vs)) s (put_bytes o vs s).
Proof. intros H. split; [by apply length_put_bytes|]. intros k. by apply frame_put_bytes. Qed.

Lemma writes_put_mask f mask v s :
  f_in f (length s) = true → mask_in f mask = true → Z.land v mask = v →
  writes (in_bits f mask) s (put_mask f mask v s).
Proof. intros. split; [by apply length_fput|]. intros k. by apply frame_put_mask. Qed.

Lemma writes_string o n vs s :
  (o + n ≤ length s)%nat → n ≠ O →
  writes (in_array o n) s (put_bytes o (strlcpy_bytes vs (sub o n s)) s).
Proof.
  intros Hl Hn. pose proof (length_strlcpy_sub vs o n s Hl Hn) as E. rewrite <- E at 1.
  apply writes_put_bytes. by rewrite E.
Qed.

Lemma writes_boxed o n vs s :
  length vs = n → (o + n ≤ length s)%nat →
  writes (in_array o n) s (put_bytes o vs s) ∧ sub o n (put_bytes o vs s) = vs.
Proof. intros <- Hl. split; [by apply writes_put_bytes|by apply sub_put_same]. Qed.

(** ** Values *)

(** The number is one of the type, the string has no null character. *)
Definition well_typed (n : nat) (val : gvalue) : Prop :=
  match v_type val, v_data val with
  | G_TYPE_CHAR, DNumber v => is_i8 v
  | G_TYPE_UCHAR, DNumber v => is_u8 v
  | (G_TYPE_INT | G_TYPE_ENUM _), DNumber v => is_i32 v
  | (G_TYPE_UINT | G_TYPE_FLAGS _), DNumber v => is_u32 v
  | G_TYPE_INT64, DNumber v => is_i64 v
  | G_TYPE_UINT64, DNumber v => is_u64 v
  | G_TYPE_BOOLEAN, DNumber v => v = 0 ∨ v = 1
  | G_TYPE_STRING, DPointer (Some vs) => c_chars_only vs
  | G_TYPE_BOXED _, DPointer (Some bs) => length bs = n
  | _, _ => False
  end.

Lemma c_str_chars bs : c_chars_only (c_str bs).
Proof.
  induction bs as [|b bs IH]; simpl; [constructor|].
  destruct (Z.eqb_spec (byte.unsigned b) 0); constructor; done.
Qed.

(** The accessors of GLib for writing give a value of their type. *)
Lemma well_typed_char n d v : well_typed n (g_value_set_schar (GValue G_TYPE_CHAR d) v).
Proof. apply (sgn_wrap_range 8). lia. Qed.
Lemma well_typed_uchar n d v : well_typed n (g_value_set_uchar (GValue G_TYPE_UCHAR d) v).
Proof. apply u8_range. Qed.
Lemma well_typed_int n d v : well_typed n (g_value_set_int (GValue G_TYPE_INT d) v).
Proof. apply (sgn_wrap_range 32). lia. Qed.
Lemma well_typed_uint n d v : well_typed n (g_value_set_uint (GValue G_TYPE_UINT d) v).
Proof. apply u32_range. Qed.
Lemma well_typed_int64 n d v : well_typed n (g_value_set_int64 (GValue G_TYPE_INT64 d) v).
Proof. apply (sgn_wrap_range 64). lia. Qed.
Lemma well_typed_uint64 n d v : well_typed n (g_value_set_uint64 (GValue G_TYPE_UINT64 d) v).
Proof. apply Z.mod_pos_bound. lia. Qed.
Lemma well_typed_boolean n d v : well_typed n (g_value_set_boolean (GValue G_TYPE_BOOLEAN d) v).
Proof. unfold well_typed, g_value_set_boolean. rewrite bool_decide_true by done. cbn. destruct v; auto. Qed.
Lemma well_typed_enum n t d v : well_typed n (g_value_set_enum (GValue (G_TYPE_ENUM t) d) v).
Proof. apply (sgn_wrap_range 32). lia. Qed.
Lemma well_typed_flags n t d v : well_typed n (g_value_set_flags (GValue (G_TYPE_FLAGS t) d) v).
Proof. apply u32_range. Qed.
Lemma well_typed_string n d bs :
  well_typed n (g_value_set_static_string (GValue G_TYPE_STRING d) bs).
Proof. apply c_str_chars. Qed.
Lemma well_typed_boxed n t d bs :
  length bs = n → well_typed n (g_value_set_static_boxed (GValue (G_TYPE_BOXED t) d) bs).
Proof. done. Qed.

#[export] Hint Resolve well_typed_char well_typed_uchar well_typed_int well_typed_uint
  well_typed_int64 well_typed_uint64 well_typed_boolean well_typed_enum well_typed_flags
  well_typed_string well_typed_boxed : alsa.

Lemma i32_idemp z : i32 (i32 z) = i32 z.
Proof. apply i32_id. apply (sgn_wrap_range 32). lia. Qed.

(** A number within the limits of a property is in the range of its field and
    of its type. *)
Ltac range_of H :=
  revert H; unfold f_range, f_bits, G_MAXUINT8, G_MININT8, G_MAXINT8, G_MININT, G_MAXINT, G_MAXUINT,
    G_MININT64, G_MAXINT64, G_MAXUINT64; cbn; lia.

Ltac id_of H :=
  revert H; unfold G_MAXUINT8, G_MININT8, G_MAXINT8, G_MININT, G_MAXINT, G_MAXUINT, G_MININT64,
    G_MAXINT64, G_MAXUINT64; cbn [fst snd]; intros H; rewrite ?i32_idemp;
  repeat first [rewrite u8_id by (unfold is_u8; lia) | rewrite u32_id by (unfold is_u32; lia)
               | rewrite u64_id by (unfold is_u64; lia) | rewrite i8_id by (unfold is_i8; lia)
               | rewrite i32_id by (unfold is_i32; lia) | rewrite i64_id by (unfold is_i64; lia)];
  reflexivity.
