(* ===== verification/ObjectProps.v ===== *)
(** * Correctness of the objects of information

    The handlers of all classes against their specifications: what is read has
    the type of the property, the objects are tables of independent properties,
    what a new object shows is the default of the specification with listed
    exceptions, and the filters of events are sets. *)
From S2P Require Import Prelude SeqUapi Struct GValue SeqStructs SeqEvent SeqObjects CtlStructs CtlObjects.
From S2P Require Import TimerQuery TimerUserInstance TimerObjects RawmidiQuery HwdepQuery RawmidiStreamPair RawmidiObjects.
From S2P Require Import Objects ObjectFacts.

(** All properties of all classes, one case each. *)
Ltac each_prop p :=
  cbn in p; destruct p;
  repeat match goal with
  | id : elem_info_single_array_prop |- _ => destruct id
  | id : elem_info_common_prop |- _ => destruct id
  | id : queue_timer_common_prop |- _ => destruct id
  end.

Ltac unfold_handlers :=
  unfold obj_get, obj_set, obj_props, obj_cell;
  cbn [seq_client_info_get_property seq_client_info_set_property seq_client_info_props
       seq_client_pool_get_property seq_client_pool_set_property seq_client_pool_props
       seq_port_info_get_property seq_port_info_set_property seq_port_info_props
       seq_queue_info_get_property seq_queue_info_set_property seq_queue_info_props
       seq_queue_status_get_property seq_queue_status_props
       seq_queue_tempo_get_property seq_queue_tempo_set_property seq_queue_tempo_props
       seq_queue_timer_alsa_get_property seq_queue_timer_alsa_set_property queue_timer_alsa_props
       queue_timer_common_get_property queue_timer_common_set_property queue_timer_common_props
       seq_remove_filter_get_property seq_remove_filter_set_property seq_remove_filter_props
       seq_subscribe_data_get_property seq_subscribe_data_set_property seq_subscribe_data_props
       seq_system_info_get_property seq_system_info_props
       ctl_card_info_get_property ctl_card_info_props
       ctl_elem_info_integer_get_property ctl_elem_info_integer_set_property elem_info_integer_props
       ctl_elem_info_integer64_get_property ctl_elem_info_integer64_set_property
       elem_info_integer64_props
       elem_info_single_array_get_property elem_info_single_array_set_property
       elem_info_single_array_props
       elem_info_common_get_property elem_info_common_set_property elem_info_common_props
       timer_device_info_get_property timer_device_info_props
       timer_device_params_get_property timer_device_params_set_property timer_device_params_props
       timer_device_status_get_property timer_device_status_props
       timer_instance_info_get_property timer_instance_info_props
       timer_instance_params_get_property timer_instance_params_set_property
       timer_instance_params_props
       timer_instance_status_get_property timer_instance_status_props
       rawmidi_substream_info_get_property rawmidi_substream_info_props
       rawmidi_substream_params_get_property rawmidi_substream_params_set_property
       rawmidi_substream_params_props
       rawmidi_substream_status_get_property rawmidi_substream_status_props
       hwdep_device_info_get_property hwdep_device_info_set_property hwdep_device_info_props
       client_info_cell client_pool_cell port_info_cell queue_cell queue_status_cell
       queue_tempo_cell queue_timer_alsa_cell remove_filter_cell subscribe_data_cell
       system_info_cell card_info_cell integer_cell integer64_cell single_array_cell common_cell
       device_info_cell device_params_cell device_status_cell instance_info_cell
       instance_params_cell instance_status_cell substream_info_cell substream_params_cell
       substream_status_cell hwdep_cell];
  unfold ctl_elem_info_boolean_get_property, ctl_elem_info_boolean_set_property,
    ctl_elem_info_bytes_get_property, ctl_elem_info_bytes_set_property,
    ctl_elem_info_iec60958_get_property, ctl_elem_info_iec60958_set_property,
    ctl_elem_info_enumerated_get_property, ctl_elem_info_enumerated_set_property;
  cbn [elem_info_single_array_get_property elem_info_single_array_set_property
       elem_info_common_get_property elem_info_common_set_property ee_data ee_labels];
  unfold g_param_spec_char, g_param_spec_uchar, g_param_spec_int, g_param_spec_uint,
    g_param_spec_int64, g_param_spec_uint64, g_param_spec_boolean, g_param_spec_enum,
    g_param_spec_flags, g_param_spec_string, g_param_spec_boxed;
  cbn [spec_type spec_limits spec_access fst snd mbind option_bind fmap option_fmap option_map ee_data].

(** C24: the handler for reading fills a value of the type of the property,
    whatever the value held: with a number of that type, a string without null
    characters or a structure of the right size; the identifier of the queue of
    a queue status alone is not written, its accessor does not fit the type.  The
    labels of the enumerated class are not among these properties, CtlLabels.v
    has them. *)
Theorem properties_have_their_type c p s val :
  length s = Z.to_nat (obj_size c) →
  v_type val = spec_type (obj_props c p) →
  let val' := obj_get c p s val in
  v_type val' = spec_type (obj_props c p) ∧
  if shown c p then well_typed (c_len (obj_cell c p)) val' ∧ v_data val' = obj_show c s p
  else val' = val.
Proof.
  intros Hl Ht. destruct val as [t d]. cbn [v_type] in Ht. subst t.
  unfold obj_show. destruct c; each_prop p; unfold_handlers; cbn [shown].
  all: (split; [reflexivity|]); try reflexivity.
  all: split; [|reflexivity]; auto with alsa.
  all: apply well_typed_boxed, length_sub; rewrite Hl; vm_compute; lia.
Qed.

(** ** Objects as tables of properties *)

(** What a property shows depends on its cell alone. *)
Lemma show_local c p s s' : agree (obj_cell c p) s s' → obj_show c s p = obj_show c s' p.
Proof.
  intros H. unfold obj_show. destruct c; each_prop p; revert H; unfold_handlers; intros H.
  all: first [ by rewrite (fget_agree _ _ _ H) | by rewrite (sub_agree_eq _ _ _ _ H) | idtac ].
  all: unfold get_bit; match type of H with agree (in_bits ?f ?m) _ _ =>
         by rewrite (bits_agree f m _ _ eq_refl H) end.
Qed.

(** The value of a property after a write: a string is cut to the size of its
    array. *)
Definition stored (c : gclass) (p : prop_of c) (val : gvalue) : gdata :=
  match spec_type (obj_props c p), v_data val with
  | G_TYPE_STRING, DPointer (Some vs) => DPointer (Some (take (c_len (obj_cell c p) - 1) vs))
  | _, d => d
  end.

Ltac unfold_values :=
  unfold g_value_get_uchar, g_value_get_schar, g_value_get_int, g_value_get_uint,
    g_value_get_int64, g_value_get_uint64, g_value_get_boolean, g_value_get_enum,
    g_value_get_flags, g_value_set_uchar, g_value_set_schar, g_value_set_int, g_value_set_uint,
    g_value_set_int64, g_value_set_uint64, g_value_set_boolean, g_value_set_enum,
    g_value_set_flags, g_value_set_static_string, g_value_set_static_boxed, g_value_init;
  cbn [v_type v_data holds_enum holds_flags holds_boxed is_pointer];
  rewrite ?bool_decide_true by reflexivity; cbn [number_if set_if v_type v_data].

(** A write changes its cell alone and is read back. *)
Lemma set_property_writes c p val s :
  length s = Z.to_nat (obj_size c) → writable c p = true → prop_value c p val →
  regular c p = true →
  ∃ s', obj_set c p val s = Some s' ∧ writes (obj_cell c p) s s' ∧
    obj_show c s' p = stored c p val.
Proof.
  intros Hl Hw Hv Hr. destruct val as [t d]. unfold obj_show, stored.
  destruct c; each_prop p; try discriminate Hw; try discriminate Hr; clear Hw Hr.
  all: revert Hv; unfold prop_value, spec_value; unfold_handlers; intros [[Ht Hv] Hm].
  all: cbn [v_type] in Ht; subst t; destruct d as [v|[vs|]]; try done.
  all: cbn in Hm; cbn [v_data] in Hv; unfold_values.
  all: try (eexists; split; [reflexivity|]; split; [apply writes_fput; by rewrite Hl|];
    rewrite fget_fput_id by first [by rewrite Hl | range_of Hv]; f_equal; id_of Hv).
  all: try (eexists; split; [first [by apply put_boxed_run | reflexivity]|];
    cbn [g_value_get_boxed pointer_if holds_boxed v_type v_data];
    split; [apply (writes_boxed _ _ _ _ Hv); rewrite Hl; vm_compute; lia|];
    do 2 f_equal; apply (writes_boxed _ _ _ _ Hv); rewrite Hl; vm_compute; lia).
  all: try (rewrite (put_string_run _ _ _ vs) by done; eexists; split; [reflexivity|];
    split; [apply writes_string; [rewrite Hl; vm_compute; lia|done]|];
    rewrite read_string; [done|rewrite Hl; vm_compute; lia|done|done]).
  all: assert (v = 0 ∨ v = 1) as [-> | ->] by lia;
    rewrite ?set_flag_mask, ?put_bit_mask, ?reset_flag_mask by (rewrite ?Hl; reflexivity);
    eexists; (split; [reflexivity|]);
    (split; [apply writes_put_mask; rewrite ?Hl; reflexivity|]);
    unfold get_bit; rewrite read_put_mask by (rewrite ?Hl; reflexivity); reflexivity.
Qed.

(** The regular properties of a class share no bit. *)
Lemma cells_disjoint c p q :
  regular c p = true → regular c q = true → p ≠ q →
  cell_disjoint (obj_cell c p) (obj_cell c q) = true.
Proof. intros Hp Hq Hpq. destruct c; each_prop p; each_prop q; done. Qed.

(** The abstract object: a table of the values of its properties. *)
Definition table (c : gclass) : Type := prop_of c → gdata.

Definition table_set {c} (p : prop_of c) (d : gdata) (t : table c) : table c :=
  λ q, if decide (q = p) then d else t q.

Definition table_writes {c} (ws : list (prop_of c * gvalue)) (t : table c) : table c :=
  foldl (λ t w, table_set w.1 (stored c w.1 w.2) t) t ws.

(** A sequence of writes to an object. *)
Fixpoint obj_writes (c : gclass) (ws : list (prop_of c * gvalue)) (s : list byte) :
    option (list byte) :=
  match ws with
  | [] => Some s
  | (p, val) :: ws => s ← obj_set c p val s; obj_writes c ws s
  end.

Definition write_ok (c : gclass) (w : prop_of c * gvalue) : Prop :=
  writable c w.1 = true ∧ regular c w.1 = true ∧ prop_value c w.1 w.2.

Lemma set_property_refines c p val s :
  length s = Z.to_nat (obj_size c) → write_ok c (p, val) →
  ∃ s', obj_set c p val s = Some s' ∧ length s' = length s ∧
    ∀ q, regular c q = true → obj_show c s' q = table_set p (stored c p val) (obj_show c s) q.
Proof.
  intros Hl (Hw & Hr & Hv). destruct (set_property_writes c p val s Hl Hw Hv Hr) as (s' & E & W & R).
  exists s'. split; [done|]. split; [apply W|]. intros q Hq. unfold table_set. case_decide as D.
  - by subst q.
  - symmetry. apply show_local, W. apply cells_disjoint; auto.
Qed.

Lemma table_writes_ext c ws (t t' : table c) :
  Forall (write_ok c) ws → (∀ q, regular c q = true → t q = t' q) →
  ∀ q, regular c q = true → table_writes ws t q = table_writes ws t' q.
Proof.
  intros H. revert t t'. induction H as [|w ws Hw _ IH]; intros t t' E q Hq; [by apply E|].
  apply IH; [|done]. intros q' Hq'. unfold table_set. case_decide; [done|by apply E].
Qed.

(** C11: an object refines a table of its regular properties: each sequence of
    writes of values that fit the specifications to regular properties succeeds,
    and then each regular property shows the last value written to it, a string
    cut to the size of its array, or what it showed before.  Four properties are
    not regular, for which this does not hold: the attributes of the filter of a
    client ([client_filter_attributes_not_shown]) and its card, the queue of a
    status, and the tempo of a queue ([queue_tempo_property_resets]). *)
Theorem object_refines_table c ws s :
  length s = Z.to_nat (obj_size c) → Forall (write_ok c) ws →
  ∃ s', obj_writes c ws s = Some s' ∧ length s' = length s ∧
    ∀ q, regular c q = true → obj_show c s' q = table_writes ws (obj_show c s) q.
Proof.
  intros Hl H. revert s Hl. induction H as [|[p val] ws Hw Hws IH]; intros s Hl; [by exists s|].
  destruct (set_property_refines c p val s Hl Hw) as (s1 & E1 & L1 & R1).
  destruct (IH s1 ltac:(congruence)) as (s' & E & L & R).
  exists s'. cbn [obj_writes]. rewrite E1. split; [done|]. split; [congruence|].
  intros q Hq. rewrite R by done.
  change (table_writes ((p, val) :: ws) (obj_show c s) q)
    with (table_writes ws (table_set p (stored c p val) (obj_show c s)) q).
  by apply table_writes_ext.
Qed.

Lemma object_refines_table_witness :
  ∃ s', obj_writes ALSASEQ_PORT_INFO
    [(SEQ_PORT_INFO_PROP_TSTAMP_MODE, GValue (G_TYPE_ENUM "ALSASeqEventTstampMode") (DNumber 1));
     (SEQ_PORT_INFO_PROP_TSTAMP_OVERWRITE, GValue G_TYPE_BOOLEAN (DNumber 1));
     (SEQ_PORT_INFO_PROP_TSTAMP_OVERWRITE, GValue G_TYPE_BOOLEAN (DNumber 0));
     (SEQ_PORT_INFO_PROP_NAME, GValue G_TYPE_STRING (DPointer (Some [Byte.x61])))]
    (zeroed 168) = Some s' ∧ obj_show ALSASEQ_PORT_INFO s' SEQ_PORT_INFO_PROP_TSTAMP_MODE = DNumber 1.
Proof.
  destruct (object_refines_table ALSASEQ_PORT_INFO
    [(SEQ_PORT_INFO_PROP_TSTAMP_MODE, GValue (G_TYPE_ENUM "ALSASeqEventTstampMode") (DNumber 1));
     (SEQ_PORT_INFO_PROP_TSTAMP_OVERWRITE, GValue G_TYPE_BOOLEAN (DNumber 1));
     (SEQ_PORT_INFO_PROP_TSTAMP_OVERWRITE, GValue G_TYPE_BOOLEAN (DNumber 0));
     (SEQ_PORT_INFO_PROP_NAME, GValue G_TYPE_STRING (DPointer (Some [Byte.x61])))]
    (zeroed 168)) as (s' & E & _ & R).
  - vm_compute. reflexivity.
  - repeat constructor; vm_compute; congruence.
  - exists s'. split; [exact E|]. rewrite R by reflexivity. vm_compute. reflexivity.
Defined.

Lemma properties_have_their_type_witness :
  v_data (obj_get ALSATIMER_DEVICE_INFO TIMER_DEVICE_INFO_PROP_CARD_ID (zeroed 248)
            (GValue G_TYPE_INT (DNumber 7))) = DNumber 0.
Proof.
  destruct (properties_have_their_type ALSATIMER_DEVICE_INFO TIMER_DEVICE_INFO_PROP_CARD_ID
    (zeroed 248) (GValue G_TYPE_INT (DNumber 7))) as [_ [_ E]].
  - vm_compute. reflexivity.
  - reflexivity.
  - etransitivity; [exact E|]. vm_compute. reflexivity.
Defined.

(** ** New objects *)

(** The properties a new object shows with another value than the default of
    the specification. *)
Definition other_than_default (c : gclass) : prop_of c → bool :=
  let common id :=
    match id with
    | ELEM_INFO_COMMON_PROP_ACCESS | ELEM_INFO_COMMON_PROP_OWNER => true
    | _ => false
    end in
  let single_array id :=
    match id with
    | ELEM_INFO_SINGLE_ARRAY_PROP_VALUE_COUNT => true
    | ELEM_INFO_COMMON id => common id
    end in
  match c with
  | ALSASEQ_CLIENT_INFO => λ p,
      match p with SEQ_CLIENT_INFO_PROP_CARD_ID | SEQ_CLIENT_INFO_PROP_PROCESS_ID => true | _ => false end
  | ALSASEQ_REMOVE_FILTER => λ p,
      match p with SEQ_REMOVE_FILTER_PROP_EVENT_TYPE => true | _ => false end
  | ALSACTL_CARD_INFO => λ p, match p with CTL_CARD_INFO_PROP_CARD_ID => true | _ => false end
  | ALSACTL_ELEM_INFO_INTEGER => λ p,
      match p with INTEGER_SINGLE_ARRAY id => single_array id | _ => false end
  | ALSACTL_ELEM_INFO_INTEGER64 => λ p,
      match p with INTEGER64_SINGLE_ARRAY id => single_array id | _ => false end
  | ALSACTL_ELEM_INFO_BOOLEAN | ALSACTL_ELEM_INFO_BYTES | ALSACTL_ELEM_INFO_ENUMERATED =>
      single_array
  | ALSACTL_ELEM_INFO_IEC60958 => common
  | ALSATIMER_DEVICE_INFO => λ p,
      match p with TIMER_DEVICE_INFO_PROP_CARD_ID => true | _ => false end
  | ALSATIMER_INSTANCE_INFO => λ p,
      match p with TIMER_INSTANCE_INFO_PROP_CARD_ID => true | _ => false end
  | ALSARAWMIDI_SUBSTREAM_INFO => λ p,
      match p with RAWMIDI_SUBSTREAM_INFO_PROP_CARD_ID => true | _ => false end
  | ALSARAWMIDI_SUBSTREAM_PARAMS => λ _, true
  | _ => λ _, false
  end.

(** A new object shows the defaults of the specifications of its class
    but for the listed properties: card and process identifiers with default
    -1, the type of events of a filter of removal, the access, owner and count
    of elements, and all parameters of a substream, which show 0 (TRUE for
    active sensing).  A boxed property shows a structure of zeros, the default
    is NULL. *)
Theorem new_object_shows_defaults c p :
  (obj_show c (obj_new c) p = spec_default (obj_props c p)) ↔
  holds_boxed (spec_type (obj_props c p)) = false ∧ other_than_default c p = false.
Proof.
  assert (bool_decide (obj_show c (obj_new c) p = spec_default (obj_props c p)) =
          negb (holds_boxed (spec_type (obj_props c p)) || other_than_default c p)) as E
    by (destruct c; each_prop p; vm_compute; reflexivity).
  split; intros H.
  - apply (bool_decide_eq_true_2 _) in H. rewrite E in H. by apply negb_true_iff, orb_false_iff in H.
  - apply (bool_decide_eq_true_1 _). rewrite E. by apply negb_true_iff, orb_false_iff.
Qed.

(** ** Irregular properties *)

(** The tempo of a queue cannot be written through its property: the
    value is of the type of unsigned integers, the handler reads a signed one,
    so the tempo becomes 0 whatever is written. *)
Theorem queue_tempo_property_resets val s :
  length s = Z.to_nat sizeof_queue_tempo →
  v_type val = spec_type (seq_queue_tempo_props SEQ_QUEUE_TEMPO_PROP_TEMPO) →
  ∃ s', seq_queue_tempo_set_property SEQ_QUEUE_TEMPO_PROP_TEMPO val s = Some s' ∧ fget qt_tempo s' = 0.
Proof.
  intros Hl Ht. eexists. split; [reflexivity|]. destruct val as [t d]. cbn in Ht. subst t.
  unfold g_value_get_int. rewrite bool_decide_false by done. cbn [number_if].
  apply fget_fput_id; [by rewrite Hl|]. done.
Qed.

Lemma queue_tempo_property_resets_witness :
  ∃ s', seq_queue_tempo_set_property SEQ_QUEUE_TEMPO_PROP_TEMPO
    (GValue G_TYPE_UINT (DNumber 500000)) (zeroed 44) = Some s' ∧ fget qt_tempo s' = 0.
Proof. apply queue_tempo_property_resets; vm_compute; reflexivity. Defined.

(** The property of the attributes of the filter of a client shows the bit
    of the use of the filter alone: attributes that were written are not shown. *)
Theorem client_filter_attributes_not_shown flags s :
  length s = Z.to_nat sizeof_client_info → 0 ≤ flags < SNDRV_SEQ_FILTER_USE_EVENT →
  ∃ s', seq_client_info_set_property SEQ_CLIENT_INFO_PROP_FILTER_ATTR_FLAGS
      (GValue (G_TYPE_FLAGS "ALSASeqFilterAttrFlag") (DNumber flags)) s = Some s' ∧
    Z.land (fget ci_filter s') (SNDRV_SEQ_FILTER_USE_EVENT - 1) = flags ∧
    obj_show ALSASEQ_CLIENT_INFO s' SEQ_CLIENT_INFO_PROP_FILTER_ATTR_FLAGS =
      DNumber (Z.land (fget ci_filter s) SNDRV_SEQ_FILTER_USE_EVENT).
Proof.
  intros Hl Hf. set (x := fget ci_filter s).
  assert (f_in ci_filter (length s) = true) as Hi by (by rewrite Hl).
  assert (0 ≤ x < 2 ^ 32) as Hx by (by apply (fget_range ci_filter)).
  assert (0 ≤ Z.land x SNDRV_SEQ_FILTER_USE_EVENT < 2 ^ 32) as Hu by (by apply land_range).
  assert (0 ≤ Z.lor (Z.land x SNDRV_SEQ_FILTER_USE_EVENT) flags < 2 ^ 32) as Hn.
  { apply lor_range; [done..|]. unfold SNDRV_SEQ_FILTER_USE_EVENT in Hf. lia. }
  assert (Z.land flags (Z.ones 31) = flags) as Ef by (by apply ones_range).
  eexists. split; [reflexivity|]. unfold obj_show. cbn [obj_get seq_client_info_get_property].
  change (g_value_get_flags _) with flags.
  rewrite (fget_fput_id ci_filter (Z.land (fget ci_filter s) SNDRV_SEQ_FILTER_USE_EVENT)) by done.
  rewrite fget_fput_id by (by rewrite ?length_fput by done). fold x. split.
  - change (SNDRV_SEQ_FILTER_USE_EVENT - 1) with (Z.ones 31).
    rewrite Z.land_lor_distr_l, <- Z.land_assoc. change (Z.land SNDRV_SEQ_FILTER_USE_EVENT (Z.ones 31)) with 0.
    by rewrite Z.land_0_r, Ef.
  - rewrite Z.land_lor_distr_l, <- Z.land_assoc, Z.land_diag, <- Ef, <- (Z.land_assoc flags).
    change (Z.land (Z.ones 31) SNDRV_SEQ_FILTER_USE_EVENT) with 0. rewrite Z.land_0_r, Z.lor_0_r.
    apply (f_equal DNumber), u32_id. exact Hu.
Qed.

Lemma client_filter_attributes_not_shown_witness :
  ∃ s', seq_client_info_set_property SEQ_CLIENT_INFO_PROP_FILTER_ATTR_FLAGS
      (GValue (G_TYPE_FLAGS "ALSASeqFilterAttrFlag") (DNumber 5)) (zeroed 188) = Some s' ∧
    Z.land (fget ci_filter s') (SNDRV_SEQ_FILTER_USE_EVENT - 1) = 5 ∧
    obj_show ALSASEQ_CLIENT_INFO s' SEQ_CLIENT_INFO_PROP_FILTER_ATTR_FLAGS =
      DNumber (Z.land (fget ci_filter (zeroed 188)) SNDRV_SEQ_FILTER_USE_EVENT).
Proof.
  apply client_filter_attributes_not_shown; [vm_compute; reflexivity|].
  split; [vm_compute; congruence|vm_compute; reflexivity].
Defined.
