(* ===== verification/EventFilters.v ===== *)
(** * Filters of events as sets of types

    The filters of a client of the sequencer ([client-info.c]) and of an
    instance of a timer ([instance-params.c]): what is put into a filter is
    what is got from it, in order and once. *)
From S2P Require Import Prelude SeqUapi Struct SeqStructs SeqEvent SeqObjects TimerUserInstance TimerObjects.
From S2P Require Import Objects ObjectFacts.

(** The numbers from [i] on over [n] that satisfy [P]. *)
Definition numbers (P : Z → bool) (i : Z) (n : nat) : list Z := filter (λ j, P j = true) (seqZ i (Z.of_nat n)).

Lemma numbers_S P i n :
  numbers P i (S n) = if P i then i :: numbers P (i + 1) n else numbers P (i + 1) n.
Proof.
  unfold numbers. rewrite seqZ_cons by lia. rewrite filter_cons.
  replace (Z.pred (Z.of_nat (S n))) with (Z.of_nat n) by lia. replace (Z.succ i) with (i + 1) by lia.
  destruct (P i); [by rewrite decide_True|by rewrite decide_False].
Qed.

Lemma length_numbers P i n : (length (numbers P i n) ≤ n)%nat.
Proof.
  unfold numbers. etransitivity; [apply length_filter|]. rewrite length_seqZ. lia.
Qed.

Lemma numbers_ext P Q i n :
  (∀ j, i ≤ j < i + Z.of_nat n → P j = Q j) → numbers P i n = numbers Q i n.
Proof.
  revert i. induction n as [|n IH]; intros i H; [done|]. rewrite !numbers_S, H, IH by lia || (intros; apply H; lia).
  done.
Qed.

Lemma elem_of_numbers P i n j : j ∈ numbers P i n ↔ P j = true ∧ i ≤ j < i + Z.of_nat n.
Proof. unfold numbers. rewrite list_elem_of_filter, elem_of_seqZ. done. Qed.

(** ** Clients of the sequencer *)

Lemma sub_put_inside o d n vs s :
  (o ≤ length s)%nat → (d + n ≤ length vs)%nat → sub (o + d) n (put_bytes o vs s) = sub d n vs.
Proof.
  intros Ho H. unfold sub, put_bytes. rewrite drop_app_ge by (rewrite length_take; lia).
  rewrite length_take. replace (o + d - o `min` length s)%nat with d by lia.
  rewrite drop_app_le by lia. by rewrite take_app_le by (rewrite length_drop; lia).
Qed.

Lemma filter_word_inside k (s : list byte) :
  length s = Z.to_nat sizeof_client_info → 0 ≤ k < 8 → f_in (filter_word k) (length s) = true.
Proof.
  intros -> Hk. unfold f_in, filter_word. cbn [u32f f_off f_width].
  rewrite bool_decide_true; [done|]. unfold ci_event_filter, sizeof_client_info. lia.
Qed.

Lemma in_event_filter_spec i s :
  0 ≤ i < 256 → in_event_filter i s = Z.testbit (fget (filter_word (i / 32)) s) (i mod 32).
Proof.
  intros Hi. unfold in_event_filter. rewrite (proj2 (Z.ltb_lt _ _)) by (apply Z.div_lt_upper_bound; lia).
  cbn [andb]. set (w := fget _ s). set (k := i mod 32).
  assert (0 ≤ k) by (apply Z.mod_pos_bound; lia).
  rewrite Z.shiftl_1_l. destruct (Z.eqb_spec (Z.land w (2 ^ k)) 0) as [E|E]; cbn [negb].
  - apply (f_equal (λ z, Z.testbit z k)) in E. rewrite Z.land_spec, Z.pow2_bits_true, Z.bits_0 in E by done.
    by rewrite andb_true_r in E.
  - destruct (Z.testbit w k) eqn:T; [done|]. destruct E. apply Z.bits_inj'. intros n Hn.
    rewrite Z.land_spec, Z.bits_0, Z.pow2_bits_eqb by done.
    destruct (Z.eqb_spec k n) as [->|]; [by rewrite T|by rewrite andb_false_r].
Qed.

Lemma filter_words_apart j k : 0 ≤ j → 0 ≤ k → j ≠ k → f_disjoint (filter_word j) (filter_word k) = true.
Proof.
  intros Hj Hk Hjk. unfold f_disjoint, filter_word. cbn [u32f f_off f_width].
  rewrite orb_true_iff, !bool_decide_eq_true. lia.
Qed.

Lemma length_add_event_type s t :
  length s = Z.to_nat sizeof_client_info → length (add_event_type s t) = length s.
Proof.
  intros Hl. unfold add_event_type. destruct (Z.ltb_spec (u32 (u64 t / 32)) 8); [|done].
  apply length_fput, filter_word_inside; [done|]. pose proof (u32_range (u64 t / 32)) as [? _]. lia.
Qed.

(** A type out of the filter is left out, also one of the negative numbers. *)
Lemma event_order t :
  is_i32 t →
  (0 ≤ t < 256 ∧ u32 (u64 t / 32) = t / 32 ∧ u64 t mod 32 = t mod 32 ∧ 0 ≤ t / 32 < 8) ∨
  ((t < 0 ∨ 256 ≤ t) ∧ 8 ≤ u32 (u64 t / 32)).
Proof.
  unfold is_i32. intros Ht. destruct (decide (0 ≤ t)) as [H0|H0].
  - rewrite u64_id by (unfold is_u64; lia).
    assert (0 ≤ t / 32 < 2 ^ 31) by (split; [apply Z.div_pos|apply Z.div_lt_upper_bound]; lia).
    rewrite u32_id by (unfold is_u32; lia).
    destruct (decide (t < 256)).
    + left. repeat split; try lia. apply Z.div_lt_upper_bound; lia.
    + right. split; [lia|]. apply Z.div_le_lower_bound; lia.
  - right. split; [lia|]. unfold u64, u32.
    assert (t mod 2 ^ 64 = t + 2 ^ 64) as ->.
    { rewrite <- (Z_mod_plus_full t 1 (2 ^ 64)). apply Z.mod_small. lia. }
    replace (t + 2 ^ 64) with (t + 2 ^ 59 * 32) by lia. rewrite Z.div_add by lia.
    replace (t / 32 + 2 ^ 59) with (t / 32 + 2 ^ 32 + (2 ^ 27 - 1) * 2 ^ 32) by lia.
    rewrite Z_mod_plus_full. assert (- 2 ^ 26 ≤ t / 32 < 0).
    { split; [apply Z.div_le_lower_bound|apply Z.div_lt_upper_bound]; lia. }
    rewrite Z.mod_small; lia.
Qed.

Lemma in_add_event_type t s i :
  length s = Z.to_nat sizeof_client_info → is_i32 t → 0 ≤ i < 256 →
  in_event_filter i (add_event_type s t) = in_event_filter i s || (i =? t).
Proof.
  intros Hl Ht Hi. rewrite !in_event_filter_spec by done. unfold add_event_type.
  destruct (event_order t Ht) as [(Hr & -> & -> & Ho)|[Hr Ho]].
  2:{ rewrite (proj2 (Z.ltb_ge _ _)) by done. destruct (Z.eqb_spec i t); [lia|]. by rewrite orb_false_r. }
  rewrite (proj2 (Z.ltb_lt _ _)) by lia. set (w := fget (filter_word (t / 32)) s).
  assert (0 ≤ i / 32 < 8) as Hio by (split; [apply Z.div_pos|apply Z.div_lt_upper_bound]; lia).
  pose proof (Z.mod_pos_bound t 32 ltac:(lia)) as Hm. pose proof (Z.mod_pos_bound i 32 ltac:(lia)) as Hm'.
  pose proof (Z.div_mod i 32 ltac:(lia)) as Ei. pose proof (Z.div_mod t 32 ltac:(lia)) as Et.
  destruct (Z.eq_dec (t / 32) (i / 32)) as [E|E].
  - rewrite <- E. rewrite fget_fput_id.
    + rewrite Z.lor_spec, Z.shiftl_1_l, Z.pow2_bits_eqb by lia. fold w. f_equal.
      destruct (Z.eqb_spec (t mod 32) (i mod 32)), (Z.eqb_spec i t); lia || done || congruence.
    + by apply filter_word_inside.
    + pose proof (fget_range _ _ (filter_word_inside (t / 32) s Hl Ho)) as Hw.
      apply (lor_range 32); [done|exact Hw|]. rewrite Z.shiftl_1_l. split; [apply Z.pow_nonneg; lia|].
      apply Z.pow_lt_mono_r; lia.
  - rewrite fget_fput_other; [|by apply filter_word_inside|by apply filter_words_apart; lia].
    destruct (Z.eqb_spec i t); [congruence|]. by rewrite orb_false_r.
Qed.

Lemma in_cleared_filter i s :
  length s = Z.to_nat sizeof_client_info → 0 ≤ i < 256 →
  in_event_filter i (put_bytes ci_event_filter (zeros 32) s) = false.
Proof.
  intros Hl Hi. rewrite in_event_filter_spec by done.
  assert (0 ≤ i / 32 < 8) as Hio by (split; [apply Z.div_pos|apply Z.div_lt_upper_bound]; lia).
  unfold fget, filter_word, le_u. cbn [u32f f_signed f_off f_width].
  rewrite sub_put_inside.
  - change (le_combine (sub _ _ _)) with (le_u (4 * Z.to_nat (i / 32)) 4 (zeros 32)).
    pose proof (fget_zeros (u32f (4 * Z.to_nat (i / 32))) 32) as E. unfold fget in E. cbn [u32f f_signed f_off f_width] in E.
    rewrite E; [by rewrite Z.bits_0|]. unfold f_in. cbn [u32f f_off f_width]. rewrite bool_decide_true; [done|lia].
  - rewrite Hl. unfold ci_event_filter, sizeof_client_info. lia.
  - rewrite length_zeros. lia.
Qed.

Lemma in_event_types ts s i :
  length s = Z.to_nat sizeof_client_info → Forall is_i32 ts → 0 ≤ i < 256 →
  in_event_filter i (foldl add_event_type s ts) = in_event_filter i s || bool_decide (i ∈ ts).
Proof.
  intros Hl H Hi. revert s Hl. induction H as [|t ts Ht _ IH]; intros s Hl; cbn [foldl].
  - by rewrite bool_decide_false, orb_false_r by set_solver.
  - rewrite IH by (by rewrite length_add_event_type). rewrite in_add_event_type by done.
    rewrite <- orb_assoc. f_equal. apply eq_bool_prop_intro. rewrite !Is_true_true, orb_true_iff.
    rewrite !bool_decide_eq_true, Z.eqb_eq, elem_of_cons. naive_solver.
Qed.

(** ** The loops *)

Lemma count_event_types_numbers n i s count :
  0 ≤ count → count + Z.of_nat n < 2 ^ 32 →
  count_event_types n i s count =
    count + Z.of_nat (length (numbers (λ j, in_event_filter j s) i n)).
Proof.
  revert i count. induction n as [|n IH]; intros i count H0 H; [simpl; lia|].
  cbn [count_event_types]. rewrite numbers_S. destruct (in_event_filter i s).
  - rewrite u32_id by (unfold is_u32; lia). rewrite IH by lia. cbn [length]. lia.
  - by rewrite IH by lia.
Qed.

Lemma list_event_types_run n i s0 s count types :
  Z.of_nat (length types) + Z.of_nat (length (numbers (λ j, in_event_filter j s0) i n)) ≤ count →
  list_event_types n i s0 count types s =
    (Ret (types ++ numbers (λ j, in_event_filter j s0) i n), s).
Proof.
  revert i types. induction n as [|n IH]; intros i types H.
  - cbn [list_event_types]. unfold mret, M_ret. do 3 f_equal. by rewrite app_nil_r.
  - cbn [list_event_types]. rewrite numbers_S in *. destruct (in_event_filter i s0).
    + cbn [length] in H. rewrite (proj2 (Z.ltb_lt _ _)) by lia.
      rewrite (bind_Ret _ _ _ (types ++ [i]) s) by done. rewrite IH.
      * by rewrite <- app_assoc.
      * rewrite length_app. cbn [length]. lia.
    + rewrite (bind_Ret _ _ _ types s) by done. by apply IH.
Qed.

(** C36: the filter of events of a client is the set of the types put into it:
    after it is set, it gives the types below 256 of the array, each once and in
    order, whatever it held before; NULL when there are none.  Other types are
    ignored. *)
Theorem client_event_filter_roundtrip ts s :
  length s = Z.to_nat sizeof_client_info → Forall is_i32 ts →
  ∃ s', alsaseq_client_info_set_event_filter ts s = (Ret tt, s') ∧
    let types := numbers (λ i, bool_decide (i ∈ ts)) 0 256 in
    alsaseq_client_info_get_event_filter s' =
      (Ret (if decide (types = []) then None else Some types), s').
Proof.
  intros Hl Ht. eexists. split; [reflexivity|].
  set (s' := foldl add_event_type _ ts).
  assert (∀ i, 0 ≤ i < 256 → in_event_filter i s' = bool_decide (i ∈ ts)) as E.
  { intros i Hi. assert (ci_event_filter + length (zeros 32) ≤ length s)%nat as Hz by (rewrite Hl; vm_compute; lia).
    unfold s'. rewrite in_event_types by (rewrite ?length_put_bytes; done).
    by rewrite in_cleared_filter. }
  assert (numbers (λ j, in_event_filter j s') 0 256 = numbers (λ i, bool_decide (i ∈ ts)) 0 256) as En.
  { apply numbers_ext. intros j Hj. apply E. lia. }
  cbn zeta. rewrite <- En. unfold alsaseq_client_info_get_event_filter.
  rewrite (bind_Ret get _ s' s' s') by done. change (Z.to_nat (SNDRV_SEQ_EVENT_NONE + 1)) with 256%nat.
  pose proof (length_numbers (λ j, in_event_filter j s') 0 256) as Hn.
  rewrite count_event_types_numbers by lia. rewrite Z.add_0_l. set (types := numbers _ 0 256) in *.
  destruct (decide (types = [])) as [->|D]; [done|].
  assert (length types ≠ O) by (by destruct types).
  rewrite (proj2 (Z.eqb_neq _ _)) by lia.
  rewrite (bind_Ret _ _ _ types s'); [done|]. by rewrite list_event_types_run.
Qed.

(** ** Instances of timers *)

Lemma filter_of_valid ts filter s :
  Forall (λ t, invalid_event t = false) ts → 0 ≤ filter < 2 ^ 32 →
  ∃ filter', filter_of ts filter s = (Ret filter', s) ∧ 0 ≤ filter' < 2 ^ 32 ∧
    ∀ i, 0 ≤ i → Z.testbit filter' i = Z.testbit filter i || bool_decide (i ∈ ts).
Proof.
  intros H. revert filter. induction H as [|t ts Ht _ IH]; intros filter Hf.
  - exists filter. split; [done|]. split; [done|]. intros i Hi.
    by rewrite bool_decide_false, orb_false_r by set_solver.
  - cbn [filter_of]. rewrite Ht. assert (0 ≤ t < 32) as Hr.
    { revert Ht. unfold invalid_event. cbv [SNDRV_TIMER_EVENT_RESOLUTION SNDRV_TIMER_EVENT_RESUME
        SNDRV_TIMER_EVENT_MSTART SNDRV_TIMER_EVENT_MRESUME]. lia. }
    destruct (IH (Z.lor filter (Z.shiftl 1 t))) as (filter' & E & Hf' & B).
    { apply lor_range; [done..|]. rewrite Z.shiftl_1_l. split; [apply Z.pow_nonneg; lia|].
      apply Z.pow_lt_mono_r; lia. }
    exists filter'. split; [done|]. split; [done|]. intros i Hi. rewrite B by done.
    rewrite Z.lor_spec, Z.shiftl_1_l, Z.pow2_bits_eqb, <- orb_assoc by lia. f_equal.
    apply eq_bool_prop_intro. rewrite !Is_true_true, orb_true_iff, !bool_decide_eq_true, Z.eqb_eq,
      elem_of_cons. naive_solver.
Qed.

Lemma filter_of_invalid ts filter s :
  ¬ Forall (λ t, invalid_event t = false) ts → filter_of ts filter s = (Critical, s).
Proof.
  revert filter. induction ts as [|t ts IH]; intros filter H; [destruct H; constructor|].
  cbn [filter_of]. destruct (invalid_event t) eqn:E; [done|]. apply IH. contradict H. by constructor.
Qed.

Lemma shifted_bit i filter : 0 ≤ i → negb (Z.land (Z.shiftl 1 i) filter =? 0) = Z.testbit filter i.
Proof.
  intros Hi. rewrite Z.land_comm, Z.shiftl_1_l. destruct (Z.eqb_spec (Z.land filter (2 ^ i)) 0) as [E|E]; cbn [negb].
  - apply (f_equal (λ z, Z.testbit z i)) in E. rewrite Z.land_spec, Z.pow2_bits_true, Z.bits_0 in E by done.
    by rewrite andb_true_r in E.
  - destruct (Z.testbit filter i) eqn:T; [done|]. destruct E. apply Z.bits_inj'. intros n Hn.
    rewrite Z.land_spec, Z.bits_0, Z.pow2_bits_eqb by done.
    destruct (Z.eqb_spec i n) as [->|]; [by rewrite T|by rewrite andb_false_r].
Qed.

Lemma count_bits_numbers n i filter count :
  0 ≤ i → 0 ≤ count → count + Z.of_nat n < 2 ^ 32 →
  count_bits n i filter count = count + Z.of_nat (length (numbers (Z.testbit filter) i n)).
Proof.
  revert i count. induction n as [|n IH]; intros i count Hi H0 H; [simpl; lia|].
  cbn [count_bits]. rewrite numbers_S, shifted_bit by done. destruct (Z.testbit filter i).
  - rewrite u32_id by (unfold is_u32; lia). rewrite IH by lia. cbn [length]. lia.
  - by rewrite IH by lia.
Qed.

(** The loop ends early when the array is full: nothing is left then. *)
Lemma list_bits_run n i filter count entries s :
  0 ≤ i → Z.of_nat (length entries) + Z.of_nat (length (numbers (Z.testbit filter) i n)) = count →
  list_bits n i filter count entries s = (Ret (entries ++ numbers (Z.testbit filter) i n), s).
Proof.
  revert i entries. induction n as [|n IH]; intros i entries Hi H.
  - cbn [list_bits]. unfold mret, M_ret. do 3 f_equal. by rewrite app_nil_r.
  - cbn [list_bits]. rewrite shifted_bit by done. rewrite numbers_S in *. destruct (Z.testbit filter i).
    + cbn [length] in H. rewrite (proj2 (Z.ltb_lt _ _)) by lia.
      rewrite (bind_Ret _ _ _ (entries ++ [i]) s) by done.
      assert (length (entries ++ [i]) = S (length entries)) as L by (rewrite length_app; cbn; lia).
      destruct (Z.leb_spec count (Z.of_nat (length (entries ++ [i])))) as [C|C].
      * assert (numbers (Z.testbit filter) (i + 1) n = []) as ->; [|done].
        apply length_zero_iff_nil. lia.
      * rewrite IH by lia. by rewrite <- app_assoc.
    + by apply IH; [lia|].
Qed.

(** The filter of events of an instance is the set of the types put into
    it: when all are types of events it gives them, each once and in order, and
    when one is not the call is refused with the filter left empty; an empty
    filter gives nothing, the out parameters keep what they had. *)
Theorem timer_event_filter_roundtrip ts s :
  length s = Z.to_nat sizeof_timer_params →
  if decide (Forall (λ t, invalid_event t = false) ts) then
    ∃ s', alsatimer_instance_params_set_event_filter ts s = (Ret tt, s') ∧
      let types := numbers (λ i, bool_decide (i ∈ ts)) 0 32 in
      alsatimer_instance_params_get_event_filter s' =
        (Ret (if decide (types = []) then None else Some types), s')
  else
    ∃ s', alsatimer_instance_params_set_event_filter ts s = (Critical, s') ∧ fget tp_filter s' = 0.
Proof.
  intros Hl. assert (f_in tp_filter (length s) = true) as Hi by (by rewrite Hl).
  unfold alsatimer_instance_params_set_event_filter. set (s0 := fput tp_filter 0 s).
  assert (length s0 = length s) as Hl0 by (by apply length_fput).
  rewrite (bind_Ret get _ s s s) by done. fold s0. rewrite (bind_Ret (put s0) _ s tt s0) by done.
  case_decide as D.
  2:{ destruct ts as [|t ts]; [destruct D; constructor|].
      rewrite (proj2 (Z.eqb_neq _ _)) by (cbn [length]; lia).
      exists s0. split; [by apply bind_Critical, filter_of_invalid|]. by apply fget_fput_id. }
  destruct (filter_of_valid ts 0 s0 D) as (filter' & E & Hf & B); [lia|].
  exists (fput tp_filter filter' s0). split.
  { destruct ts as [|t ts].
    - cbn [length Z.of_nat Z.eqb]. assert (filter' = 0) as -> by (by inversion E).
      unfold s0. by rewrite fput_fput.
    - rewrite (proj2 (Z.eqb_neq _ _)) by (cbn [length]; lia). by rewrite (bind_Ret _ _ _ _ _ E). }
  set (s' := fput tp_filter filter' s0). cbn zeta.
  unfold alsatimer_instance_params_get_event_filter. rewrite (bind_Ret get _ s' s' s') by done.
  assert (fget tp_filter s' = filter') as -> by (apply fget_fput_id; [by rewrite Hl0|exact Hf]).
  rewrite count_bits_numbers, Z.add_0_l by lia.
  assert (numbers (Z.testbit filter') 0 32 = numbers (λ i, bool_decide (i ∈ ts)) 0 32) as En.
  { apply numbers_ext. intros j Hj. rewrite B by lia. by rewrite Z.bits_0. }
  rewrite <- En. pose proof (list_bits_run 32 0 filter' _ [] s' ltac:(lia) eq_refl) as R.
  rewrite Z.add_0_l in R. set (types := numbers _ 0 32) in *.
  destruct (decide (types = [])) as [->|Dt]; [done|].
  assert (length types ≠ O) by (by destruct types).
  rewrite (proj2 (Z.eqb_neq _ _)) by lia. by rewrite (bind_Ret _ _ _ _ _ R).
Qed.

(** ** Witnesses *)

Lemma client_event_filter_roundtrip_witness :
  ∃ s', alsaseq_client_info_set_event_filter [66; 6; 300; 6] (zeroed 188) = (Ret tt, s') ∧
    alsaseq_client_info_get_event_filter s' = (Ret (Some [6; 66]), s').
Proof.
  destruct (client_event_filter_roundtrip [66; 6; 300; 6] (zeroed 188)) as (s' & E & G).
  - vm_compute. reflexivity.
  - repeat constructor; vm_compute; congruence.
  - exists s'. split; [exact E|]. etransitivity; [exact G|]. reflexivity.
Defined.

Lemma timer_event_filter_roundtrip_witness :
  ∃ s', alsatimer_instance_params_set_event_filter [12; 2; 12] (zeroed 80) = (Ret tt, s') ∧
    alsatimer_instance_params_get_event_filter s' = (Ret (Some [2; 12]), s').
Proof.
  destruct (timer_event_filter_roundtrip [12; 2; 12] (zeroed 80)) as (s' & E & G).
  - vm_compute. reflexivity.
  - exists s'. split; [exact E|]. etransitivity; [exact G|]. reflexivity.
Defined.
