(* ===== verification/RawmidiFacts.v ===== *)
(** * Executions of the operations of rawmidi

    The mode of open files as the system documents it, and the requests of a
    pair of streams as data. *)
From S2P Require Import Prelude Heap SeqUapi Struct Kernel Sysfs Object.
From S2P Require Import RawmidiQuery RawmidiStreamPair.

(** ** Modes of files

    [file_open fd flags k]: the descriptor [fd] is open, and was opened with
    [flags].  A new descriptor is none of those that are open; requests leave
    the modes as they are, and closing ends one of them only. *)
Class FileModes (K : Type) := file_open : Z → Z → K → Prop.

Definition O_ACCMODE : Z := 3.

Class FileModesLaws (K : Type) `{!Kernel K, !FcntlKernel K, !FileModes K} : Prop := {
  open_valid fd flags (k : K) : file_open fd flags k → 0 ≤ fd;
  open_mode path flags (k k' : K) fd :
    sys_open path flags k = (Sret fd, k') → file_open fd flags k';
  open_other path flags (k k' : K) r fd' flags' :
    sys_open path flags k = (r, k') → file_open fd' flags' k →
    file_open fd' flags' k' ∧ r ≠ Sret fd';
  close_other fd fd' flags' (k : K) :
    fd ≠ fd' → file_open fd' flags' k → file_open fd' flags' (sys_close fd k);
  ioctl_mode fd req s (k : K) fd' flags' :
    file_open fd' flags' k → file_open fd' flags' (sys_ioctl fd req s k).2;
  getfl_mode fd flags (k : K) :
    file_open fd flags k → ∃ m, sys_getfl fd k = (Sret m, k) ∧
      Z.land m O_ACCMODE = Z.land flags O_ACCMODE;
}.

(** The flags [open] gets for the access modes. *)
Lemma pair_open_flag_mode am flags flag :
  pair_open_flag am flags = Some flag →
  Z.land flag O_ACCMODE =
    if has_flag am ALSARAWMIDI_STREAM_PAIR_INFO_FLAG_OUTPUT then
      if has_flag am ALSARAWMIDI_STREAM_PAIR_INFO_FLAG_INPUT then O_RDWR else O_WRONLY
    else O_RDONLY.
Proof.
  unfold pair_open_flag. change (Z.lor O_RDWR (Z.lor O_WRONLY O_RDONLY)) with O_ACCMODE.
  assert (∀ m, Z.land m O_ACCMODE = m →
    Z.land (Z.lor (Z.land flags (Z.lnot O_ACCMODE)) m) O_ACCMODE = m) as Hm.
  { intros m Em. change (Z.lor (Z.land flags (Z.lnot O_ACCMODE)) m) with (set_bits O_ACCMODE m flags).
    by rewrite set_bits_read. }
  destruct (has_flag am _), (has_flag am _); cbn [andb]; intros [= <-]; by apply Hm.
Qed.

Lemma land_of_accmode m m' b :
  Z.land m O_ACCMODE = m' → Z.land O_ACCMODE b = b → Z.land m b = Z.land m' b.
Proof. intros <- Hb. by rewrite <- Z.land_assoc, Hb. Qed.

Section open.
Context {AL : Allocator} {GL : GLib} {K : Type} {KERN : Kernel K} {UD : Udev K}.
Context {FK : FcntlKernel K} {FM : FileModes K} {FML : FileModesLaws K}.
Implicit Types (h : heap) (k : K) (p : stream_pair) (w : world K).

(** The descriptor of the control device, when the subdevice was selected. *)
Lemma select_subdevice_open c d w w1 ctl :
  rawmidi_select_subdevice c d w = (Ret ctl, w1) →
  ∃ cfd, ctl = Some cfd ∧ file_open cfd (Z.lor O_RDONLY O_NONBLOCK) (w_kern w1).
Proof.
  unfold rawmidi_select_subdevice, request_ctl_ioctl_opened. intros E.
  destruct (lookup_and_allocate_devname_by_sysname ("controlC" +:+ decimal c) w) as [[[name|e]|?| | |] w2] eqn:E1;
    unfold mbind, M_bind in E; rewrite E1 in E; try discriminate E.
  destruct w2 as [h2 k2]. unfold do_open, ioctl_val, sys in E. cbn [w_kern w_heap] in E.
  destruct (sys_open name (Z.lor O_RDONLY O_NONBLOCK) k2) as [[cfd|e] k3] eqn:Eo;
    cbn [w_kern w_heap] in E; [|discriminate E].
  destruct (sys_ioctl cfd CTL_RAWMIDI_PREFER_SUBDEVICE (le_split 4 d) k3) as [[r s'] k4] eqn:Ei.
  destruct r as [u|e]; [|discriminate E]. injection E as <- <-. exists cfd. split; [done|].
  cbn [w_kern]. pose proof (ioctl_mode cfd CTL_RAWMIDI_PREFER_SUBDEVICE (le_split 4 d) k3 _ _
    (open_mode _ _ _ _ _ Eo)) as Hm. by rewrite Ei in Hm.
Qed.

(** A pair that was opened holds a descriptor with the mode of its access. *)
Lemma stream_pair_open_mode c d sd am flags p w p1 w1 :
  alsarawmidi_stream_pair_open c d sd am flags (OState p w) = (Ret tt, OState p1 w1) →
  ∃ flag, pair_open_flag am flags = Some flag ∧ file_open (sp_fd p1) flag (w_kern w1).
Proof.
  intros E. unfold alsarawmidi_stream_pair_open, g_return_if_fail in E.
  destruct (_ =? 0); [|discriminate E]. rewrite (bind_Ret _ _ _ _ _ (mret_run tt _)) in E.
  destruct (pair_open_flag am flags) as [flag|]; [|discriminate E]. exists flag. split; [done|].
  destruct (alsarawmidi_get_rawmidi_devnode c d w) as [[node|?| | |] w2] eqn:E1;
    unfold mbind at 1, M_bind at 1, outside at 1, zoom at 1 in E; cbn [os_world os_priv] in E;
    rewrite E1 in E; try discriminate E.
  destruct (rawmidi_select_subdevice c sd w2) as [[ctl|?| | |] [h3 k3]] eqn:E2;
    unfold mbind at 1, M_bind at 1, outside at 1, zoom at 1 in E; cbn [os_world os_priv] in E;
    rewrite E2 in E; try discriminate E.
  destruct (select_subdevice_open c sd w2 _ ctl E2) as (cfd & -> & Hc). cbn [w_kern] in Hc.
  destruct (sys_open node flag k3) as [[fd|e] k4] eqn:Eo.
  - rewrite (bind_Ret _ _ _ _ _ (outside_sys _ p h3 k3 _ k4 Eo)) in E.
    destruct (open_other _ _ _ _ _ _ _ Eo Hc) as [_ Hne].
    assert (file_open fd flag (sys_close cfd k4)) as Hf.
    { apply close_other; [by intros ->|]. by eapply open_mode. }
    unfold initialized, do_close, sys, outside, zoom, set_private, modify, gets, ioctl_val, sys,
      mret, M_ret, fail, mbind, M_bind in E. cbn [os_world os_priv w_kern w_heap] in E.
    pose proof (ioctl_mode fd RAWMIDI_PVERSION (alloc_junk h3 4) _ _ _ Hf) as Hm.
    destruct (sys_ioctl fd RAWMIDI_PVERSION (alloc_junk h3 4) (sys_close cfd k4)) as [[r s'] k5].
    destruct r as [u|e]; [|discriminate E]. by injection E as <- <-.
  - rewrite (bind_Ret _ _ _ _ _ (outside_sys _ p h3 k3 _ k4 Eo)) in E. discriminate E.
Qed.
End open.

(** ** Requests of a pair *)

Inductive pair_request := PSetParams | PGetStatus | PDrain | PDrop.

Section requests.
Context {AL : Allocator} {GL : GLib} {K : Type} {KERN : Kernel K}.
Implicit Types (h : heap) (k : K) (p : stream_pair).

Definition run_pair (q : pair_request) (direction : Z) (a : ptr) : M (ostate stream_pair K) unit :=
  match q with
  | PSetParams => alsarawmidi_stream_pair_set_substream_params direction a
  | PGetStatus => alsarawmidi_stream_pair_get_substream_status direction a
  | PDrain => alsarawmidi_stream_pair_drain_substream direction
  | PDrop => alsarawmidi_stream_pair_drop_substream direction
  end.

Definition pair_ioctl (q : pair_request) : request :=
  match q with
  | PSetParams => RAWMIDI_PARAMS | PGetStatus => RAWMIDI_STATUS
  | PDrain => RAWMIDI_DRAIN | PDrop => RAWMIDI_DROP
  end.

Definition pair_size (q : pair_request) : nat :=
  match q with PSetParams => 48 | PGetStatus => 56 | _ => 0 end.

(** The structure that is sent: the direction in front, for parameters and
    status in the object [s]. *)
Definition pair_struct (q : pair_request) (direction : Z) (s : list byte) : list byte :=
  le_split 4 direction ++ match q with PSetParams | PGetStatus => drop 4 s | _ => [] end.

Definition pair_in_place (q : pair_request) : bool :=
  match q with PSetParams | PGetStatus => true | _ => false end.

Definition pair_label (q : pair_request) : string :=
  match q with
  | PSetParams => "ioctl(PARAMS)" | PGetStatus => "ioctl(STATUS)"
  | PDrain => "ioctl(DRAIN)" | PDrop => "ioctl(DROP)"
  end.

Lemma request_substream_run {KL : KernelLaws K} p h k a s n req f d what r s' k' :
  h !! a = Some s → n = Z.of_nat (length s) → f_in f (length s) = true → s ≠ [] →
  sys_ioctl (sp_fd p) req (fput f d s) k = (r, s', k') →
  request_substream req (a, 0) n f d what (OState p (World h k)) =
    (match r with Sret _ => Ret tt | Serr e => Fail (request_error e what) end,
     OState p (World (<[a := s']> h) k')).
Proof.
  intros Ha Hn Hf Hne E. unfold request_substream. rewrite bind_private.
  assert (length (fput f d s) = length s) as Hl by by apply length_fput.
  step (outside_run _ p _ _ _ (set_field_block h k a s n f d Ha Hn Hf)).
  step (outside_run _ p _ _ _ (ioctl_block (<[a := fput f d s]> h) k a (fput f d s) n
    (sp_fd p) req r s' k' (lookup_insert_eq h a _) ltac:(by rewrite Hl)
    ltac:(intros E0; rewrite E0 in Hl; by destruct s) E)).
  rewrite insert_insert_eq. by destruct r.
Qed.

Lemma request_direction_run p h k req d what r s' k' :
  sys_ioctl (sp_fd p) req (le_split 4 d) k = (r, s', k') →
  request_direction req d what (OState p (World h k)) =
    (match r with Sret _ => Ret tt | Serr e => Fail (request_error e what) end,
     OState p (World h k')).
Proof.
  intros E. unfold request_direction. rewrite bind_private.
  step (outside_run _ p _ _ _ (ioctl_val_run h k _ _ _ _ _ _ E)). by destruct r.
Qed.
End requests.
