(* ===== verification/SampleRawmidi.v ===== *)
(** * A sample system with a rawmidi device

    A system that keeps the flags of the open descriptors, for concrete runs. *)
From S2P Require Import Prelude Heap SeqUapi Struct Kernel Sysfs Object.
From S2P Require Import RawmidiQuery RawmidiStreamPair RawmidiFacts SampleSystem.

Module SampleRawmidi.
(** The descriptors with their flags. *)
Abbreviation files := (gmap Z Z).

(** Above all descriptors that are open. *)
Definition next_fd (k : files) : Z := map_fold (λ fd _ n, Z.max (fd + 1) n) 3 k.

Lemma next_fd_spec (k : files) : 3 ≤ next_fd k ∧ ∀ fd flags, k !! fd = Some flags → fd < next_fd k.
Proof.
  unfold next_fd. refine (map_fold_weak_ind
    (λ n (m : files), 3 ≤ n ∧ ∀ fd flags, m !! fd = Some flags → fd < n) _ _ _ _ k).
  - split; [done|]. intros fd flags. by rewrite lookup_empty.
  - intros i x m n Hi [Hn IH]. split; [lia|]. intros fd flags. rewrite lookup_insert.
    case_decide as E; [subst; lia|]. intros H. specialize (IH fd flags H). lia.
Qed.

(** Two of the subdevices can be selected; the devices have version 2.0.1. *)
Definition answer (req : request) (s : list byte) : sysret unit * list byte :=
  match req with
  | CTL_RAWMIDI_PREFER_SUBDEVICE =>
      if fget (u32f 0) s <? 2 then (Sret tt, s) else (Serr EINVAL, s)
  | RAWMIDI_PVERSION | CTL_PVERSION | TIMER_PVERSION => (Sret tt, put_bytes 0 (take (length s) [Byte.x01; Byte.x00; Byte.x02; Byte.x00]) s)
  | _ => (Serr ENODEV, s)
  end.

#[export] Instance rawmidi_kernel : Kernel files := {|
  sys_open path flags k := (Sret (next_fd k), <[next_fd k := flags]> k);
  sys_close fd k := delete fd k;
  sys_ioctl fd req s k := let '(r, s') := answer req s in (r, s', k);
  sys_write fd bs k := (Sret (Z.min 3 (Z.of_nat (length bs))), k);
  sys_read fd n k := (Sret (take (Z.to_nat n) [Byte.x90; Byte.x3c; Byte.x40]), k);
|}.

#[export] Instance rawmidi_kernel_laws : KernelLaws files.
Proof.
  split.
  - intros path flags k fd k' [= <- _]. pose proof (next_fd_spec k) as [H _]. lia.
  - intros fd req bs k. cbn [sys_ioctl rawmidi_kernel]. unfold answer.
    destruct req; try done; cbn [fst snd].
    all: first [apply length_put_bytes; rewrite length_take; lia|by destruct (fget _ _ <? 2)].
  - intros fd bs k n k' [= <- _]. lia.
  - intros fd n k bs k' Hn [= <- _]. rewrite length_take. lia.
Qed.

#[export] Instance fcntl_kernel : FcntlKernel files := {|
  sys_getfl fd k := (match k !! fd with Some flags => Sret flags | None => Serr 9 end, k);
|}.

#[export] Instance file_modes : FileModes files := λ fd flags k, k !! fd = Some flags ∧ 0 ≤ fd.

#[export] Instance file_modes_laws : FileModesLaws files.
Proof.
  split; unfold file_open, file_modes.
  - by intros fd flags k [_ H].
  - intros path flags k k' fd [= <- <-]. split; [apply lookup_insert_eq|].
    pose proof (next_fd_spec k) as [H _]. lia.
  - intros path flags k k' r fd' flags' [= <- <-] [H H0].
    pose proof (proj2 (next_fd_spec k) fd' flags' H) as Hlt.
    split; [split; [|done]; rewrite lookup_insert_ne by lia; done|]. intros [= E]. lia.
  - intros fd fd' flags' k Hne [H H0]. split; [|done]. cbn [sys_close rawmidi_kernel]. by rewrite lookup_delete_ne.
  - intros fd req s k fd' flags' H. cbn [sys_ioctl rawmidi_kernel]. by destruct (answer req s).
  - intros fd flags k [H _]. exists flags. cbn [sys_getfl fcntl_kernel]. by rewrite H.
Qed.

#[export] Instance host : Udev files := {|
  udev := unit;
  udev_device := unit;
  udev_new k := (Sret tt, k);
  udev_unref _ k := k;
  udev_device_new_from_subsystem_sysname _ _ _ k := (Sret tt, k);
  udev_device_new_from_syspath _ _ k := (Sret tt, k);
  udev_device_get_sysname _ _ := Sret "midiC0D0";
  udev_device_get_devnode _ _ := Sret "/dev/snd/midiC0D0";
  udev_device_get_sysnum _ _ := Serr ENOENT;
  udev_device_unref _ k := k;
  udev_enumerate _ _ k := (Sret [], k);
  udev_enumerate_unref _ k := k;
|}.

(** A pair that is open for output. *)
Definition opened : stream_pair := StreamPair 4 (Some "/dev/snd/midiC0D0") [2; 0; 1] 1.
End SampleRawmidi.
