(* ===== verification/RawmidiProps.v ===== *)
(** * Properties of pairs of rawmidi streams *)
From S2P Require Import Prelude Heap SeqUapi Struct Kernel Sysfs Object.
From S2P Require Import RawmidiQuery RawmidiStreamPair RawmidiFacts SampleSystem SampleRawmidi.

Section pair.
Context {AL : Allocator} {GL : GLib} {K : Type} {KERN : Kernel K} {UD : Udev K}.
Context {FK : FcntlKernel K}.
Implicit Types (h : heap) (k : K) (p : stream_pair) (w : world K).

(** A source of a pair, which tells when there are messages to read, can be
    made exactly when the pair was opened for output: a pair opened for input
    only is refused as unreadable, and one opened for output only is accepted,
    although nothing can be read from it. *)
Theorem stream_pair_source_needs_output {FM : FileModes K} {FML : FileModesLaws K}
    c d sd am flags p w p1 h1 k1 :
  alsarawmidi_stream_pair_open c d sd am flags (OState p w) = (Ret tt, OState p1 (World h1 k1)) →
  alsarawmidi_stream_pair_create_source (OState p1 (World h1 k1)) =
    if has_flag am ALSARAWMIDI_STREAM_PAIR_INFO_FLAG_OUTPUT
    then (Ret tt, OState (set_refs (sp_refs p1 + 1) p1) (World h1 k1))
    else (Fail (local_error ALSARAWMIDI_STREAM_PAIR_ERROR_UNREADABLE),
          OState p1 (World h1 k1)).
Proof.
  intros E. destruct (stream_pair_open_mode _ _ _ _ _ _ _ _ _ E) as (flag & Ef & Hm).
  cbn [w_kern] in Hm. pose proof (open_valid _ _ _ Hm) as Hfd.
  destruct (getfl_mode _ _ _ Hm) as (m & Eg & Em).
  apply pair_open_flag_mode in Ef. rewrite Ef in Em.
  unfold alsarawmidi_stream_pair_create_source. rewrite bind_private.
  destruct (Z.leb_spec 0 (sp_fd p1)); [|lia]. unfold g_return_if_fail.
  rewrite (bind_Ret _ _ _ _ _ (mret_run tt _)).
  step (outside_sys _ p1 h1 k1 _ k1 Eg).
  rewrite (land_of_accmode m _ O_RDWR Em), (land_of_accmode m _ O_WRONLY Em) by done.
  destruct (has_flag am ALSARAWMIDI_STREAM_PAIR_INFO_FLAG_OUTPUT); [|done].
  by destruct (has_flag am _).
Qed.

(** C38: opening a pair selects the subdevice on the control device, opens the
    node of the rawmidi device in the mode of the access, closes the control
    device and asks for the version.  A refused selection leaves the control
    device open for ever; a refused open leaves the pair closed, and a refused
    request too, with the name of the node. *)
Theorem stream_pair_open_spec c d sd am flags flag p h k node k1 name k2 cfd k3 r1 s1 k4 r2 k5 r3
    s3 k6 :
  Z.land am (Z.lnot 3) = 0 → pair_open_flag am flags = Some flag →
  alsarawmidi_get_rawmidi_devnode c d (World h k) = (Ret node, World h k1) →
  lookup_and_allocate_devname_by_sysname ("controlC" +:+ decimal c) (World h k1) =
    (Ret (Sret name), World h k2) →
  sys_open name (Z.lor O_RDONLY O_NONBLOCK) k2 = (Sret cfd, k3) →
  sys_ioctl cfd CTL_RAWMIDI_PREFER_SUBDEVICE (le_split 4 sd) k3 = (r1, s1, k4) →
  sys_open node flag k4 = (r2, k5) →
  let run := alsarawmidi_stream_pair_open c d sd am flags (OState p (World h k)) in
  match r1, r2 with
  | Serr e, _ =>
      run = (Fail (Some (GError G_FILE_ERROR (g_file_error_from_errno e)
               "RAWMIDI_PREFER_SUBDEVICE" None)), OState p (World h k4))
  | Sret _, Serr e =>
      run = (Fail (file_error e "open"), OState (set_fd (-1) p) (World h (sys_close cfd k5)))
  | Sret _, Sret fd =>
      sys_ioctl fd RAWMIDI_PVERSION (alloc_junk h 4) (sys_close cfd k5) = (r3, s3, k6) →
      match r3 with
      | Serr e =>
          run = (Fail (request_error e "ioctl(PVERSION)"),
            OState (StreamPair (-1) (Some node) (sp_triplet p) (sp_refs p))
              (World h (sys_close fd k6)))
      | Sret _ =>
          let v := fget (i32f 0) s3 in
          run = (Ret tt,
            OState (StreamPair fd (Some node)
                [SNDRV_PROTOCOL_MAJOR v; SNDRV_PROTOCOL_MINOR v; SNDRV_PROTOCOL_MICRO v]
                (sp_refs p)) (World h k6))
      end
  end.
Proof.
  intros Ham Ef En El Eo Es Ed run.
  assert (rawmidi_select_subdevice c sd (World h k1) =
    (match r1 with
     | Sret _ => Ret (Some cfd)
     | Serr e => Fail (Some (GError G_FILE_ERROR (g_file_error_from_errno e)
                   "RAWMIDI_PREFER_SUBDEVICE" None))
     end, World h k4)) as Esel.
  { unfold rawmidi_select_subdevice, request_ctl_ioctl_opened. rewrite bind_assoc. step El.
    rewrite bind_assoc. step (sys_run _ h k2 _ k3 Eo). rewrite bind_assoc.
    step (ioctl_val_run h k3 _ _ _ _ _ _ Es). by destruct r1. }
  unfold run, alsarawmidi_stream_pair_open, g_return_if_fail.
  change (Z.lor ALSARAWMIDI_STREAM_PAIR_INFO_FLAG_OUTPUT ALSARAWMIDI_STREAM_PAIR_INFO_FLAG_INPUT)
    with 3. rewrite Ham, Ef. cbn [Z.eqb]. rewrite (bind_Ret _ _ _ _ _ (mret_run tt _)).
  step (outside_run _ p _ _ _ En). destruct r1 as [u1|e1].
  2:{ unfold mbind at 1, M_bind at 1, outside at 1, zoom at 1. cbn [os_world os_priv].
      by rewrite Esel. }
  step (outside_run _ p _ _ _ Esel). step (outside_sys _ p h k4 _ k5 Ed).
  unfold initialized, do_close, sys, outside, zoom, set_private, modify, gets, ioctl_val, sys,
    mret, M_ret, fail, mbind, M_bind. cbn [os_world os_priv w_kern w_heap].
  destruct r2 as [fd|e2]; [|done]. intros E3. cbn [os_world os_priv w_kern w_heap]. rewrite E3. by destruct r3 as [u3|e3].
Qed.

(** The requests for one direction put the direction in front of the
    structure they send; parameters and status are then what the kernel left
    in them, and errors have the documented codes. *)
Theorem pair_request_spec {KL : KernelLaws K} q p h k a s dir r s' k' :
  h !! a = Some s → length s = pair_size q ∨ pair_in_place q = false →
  sys_ioctl (sp_fd p) (pair_ioctl q) (pair_struct q dir s) k = (r, s', k') →
  run_pair q dir (a, 0) (OState p (World h k)) =
    (match r with Sret _ => Ret tt | Serr e => Fail (request_error e (pair_label q)) end,
     OState p (World (if pair_in_place q then <[a := s']> h else h) k')).
Proof.
  intros Ha Hl E.
  assert (pair_in_place q = true → ∀ f, f_off f = 0%nat → f_width f = 4%nat →
    f_in f (length s) = true ∧ s ≠ [] ∧ fput f dir s = le_split 4 dir ++ drop 4 s) as Hf.
  { intros Hq f Ho Hw. destruct Hl as [Hl|Hl]; [|congruence]. split; [|split].
    - unfold f_in. rewrite Ho, Hw, Hl. by destruct q.
    - intros ->. by destruct q.
    - unfold fput, put_bytes. by rewrite Ho, Hw. }
  destruct q; cbn [run_pair pair_in_place pair_struct pair_ioctl pair_label pair_size] in *.
  - destruct Hl as [Hl|]; [|done]. destruct (Hf eq_refl rp_stream) as (H1 & H2 & H3); [done..|].
    eapply request_substream_run; [done|by rewrite Hl|done|done|by rewrite H3].
  - destruct Hl as [Hl|]; [|done]. destruct (Hf eq_refl rs_stream) as (H1 & H2 & H3); [done..|].
    eapply request_substream_run; [done|by rewrite Hl|done|done|by rewrite H3].
  - eapply request_direction_run. exact E.
  - eapply request_direction_run. exact E.
Qed.
End pair.

(** ** Concrete runs *)

Module PairWitness.
Import Sample SampleRawmidi.
#[local] Existing Instance Bump.allocator.
#[local] Existing Instance Bump.laws.

Abbreviation INPUT := ALSARAWMIDI_STREAM_PAIR_INFO_FLAG_INPUT.
Definition closed : stream_pair := alsarawmidi_stream_pair_new.

(** Opened for input only: refused. *)
Definition reader : ostate stream_pair files := OState opened (World ∅ ({[4 := 0]} : files)).

Lemma stream_pair_source_needs_output_witness :
  alsarawmidi_stream_pair_open 0 0 1 INPUT 0 (OState closed (World ∅ (∅ : files))) =
    (Ret tt, reader) ∧
  alsarawmidi_stream_pair_create_source reader =
    (Fail (local_error ALSARAWMIDI_STREAM_PAIR_ERROR_UNREADABLE), reader).
Proof.
  split; [by vm_compute|].
  apply (stream_pair_source_needs_output 0 0 1 INPUT 0 closed (World ∅ (∅ : files)) opened ∅
    ({[4 := 0]} : files)). by vm_compute.
Defined.

(** The third subdevice does not exist: the descriptor of the control device
    stays open. *)
Lemma stream_pair_open_spec_witness :
  alsarawmidi_stream_pair_open 0 0 2 INPUT 0 (OState closed (World ∅ (∅ : files))) =
    (Fail (Some (GError G_FILE_ERROR (g_file_error_from_errno EINVAL)
       "RAWMIDI_PREFER_SUBDEVICE" None)),
     OState closed (World ∅ ({[3 := O_NONBLOCK]} : files))).
Proof.
  apply (stream_pair_open_spec 0 0 2 INPUT 0 0 closed ∅ (∅ : files) "/dev/snd/midiC0D0" ∅
    "/dev/snd/midiC0D0" ∅ 3 {[3 := O_NONBLOCK]} (Serr EINVAL) (le_split 4 2) {[3 := O_NONBLOCK]}
    (Sret 4) {[3 := O_NONBLOCK; 4 := 0]} (Serr EINVAL) [] ∅); by vm_compute.
Defined.

Definition params : heap := {[64 := zeros 48]}.

Lemma pair_request_spec_witness :
  run_pair PSetParams 1 (64, 0) (OState opened (World params (∅ : files))) =
    (Fail (local_error ALSARAWMIDI_STREAM_PAIR_ERROR_DISCONNECTED),
     OState opened (World (<[64 := le_split 4 1 ++ zeros 44]> params) ∅)).
Proof.
  apply (pair_request_spec PSetParams opened params ∅ 64 (zeros 48) 1 (Serr ENODEV)
    (le_split 4 1 ++ zeros 44) ∅); [by vm_compute|by left|by vm_compute].
Defined.
End PairWitness.
