(* ===== verification/RawmidiThru.v ===== *)
(** * From one pair of rawmidi streams to another

    The reading end and the writing end of src/src/rawmidi/stream-pair.c in one
    program: the handler of the messages of one pair reads them into a buffer
    and writes what it got to a second pair, as a program that connects an
    input to an output does.  What the ports do is a parameter with the
    documented behaviour of the character device. *)
From S2P Require Import Prelude Heap SeqUapi Struct Kernel Sysfs Object.
From S2P Require Import RawmidiQuery RawmidiStreamPair RawmidiFacts SampleSystem.

(** ** Ports

    [rx fd bs k]: the bytes [bs] have arrived behind [fd] and wait.  A request
    for bytes gets some of them when there are any, those that arrived first.
    [tx fd bs k]: the port of [fd] has taken the bytes [bs] to send.  A write
    takes bytes from the front of what it is given and returns how many they
    are, or fails and takes none; in the blocking mode, [blocking fd k], when no
    signal interrupts it, it does not return before all are taken.  The ports
    are not connected to each other. *)
Class MidiPorts (K : Type) := {
  rx : Z → list byte → K → Prop;
  tx : Z → list byte → K → Prop;
  blocking : Z → K → Prop;
}.

(** What stays when another descriptor is used. *)
Definition other_side {K} `{!MidiPorts K} (k k' : K) : Prop :=
  ∀ fd, blocking fd k → blocking fd k'.

Class MidiPortsLaws (K : Type) `{!Kernel K} `{!MidiPorts K} : Prop := {
  rx_read fd bs n (k : K) :
    rx fd bs k → bs ≠ [] → 0 < n → ∃ now later k',
      bs = now ++ later ∧ now ≠ [] ∧ Z.of_nat (length now) ≤ n ∧
      sys_read fd n k = (Sret now, k') ∧ rx fd later k' ∧ other_side k k' ∧
      (∀ fd' sent, tx fd' sent k → tx fd' sent k');
  tx_write fd sent bs (k : K) :
    tx fd sent k → bs ≠ [] → ∃ taken left r k',
      bs = taken ++ left ∧ sys_write fd bs k = (r, k') ∧
      match r with
      | Sret n => n = Z.of_nat (length taken) ∧ (blocking fd k → left = [])
      | Serr _ => taken = []
      end ∧
      tx fd (sent ++ taken) k' ∧ other_side k k' ∧
      (∀ fd' waiting, rx fd' waiting k → rx fd' waiting k');
}.

Section thru.
Context {AL : Allocator} {GL : GLib} {K : Type} {KERN : Kernel K}.
Context {MP : MidiPorts K} {MPL : MidiPortsLaws K}.
Context (disconnected : M (ostate stream_pair K) unit).
Implicit Types (h : heap) (k : K) (p : stream_pair).

(** A method of another object than the one that runs. *)
Definition method_of (out : stream_pair) {A} (m : M (ostate stream_pair K) A) :
    M (ostate stream_pair K) A :=
  outside (zoom (OState out) (λ s _, os_world s) m).

(** The handler: reads to the buffer, writes as many bytes as it got, and goes
    on when the write was refused. *)
Definition forward (out : stream_pair) (buf : ptr) (n : Z) : M (ostate stream_pair K) unit :=
  len ← alsarawmidi_stream_pair_read_from_substream buf n;
  catch (method_of out (alsarawmidi_stream_pair_write_to_substream buf len));;
  mret tt.

Lemma method_of_run out {A} (m : M (ostate stream_pair K) A) p w o w' :
  m (OState out w) = (o, OState out w') → method_of out m (OState p w) = (o, OState p w').
Proof. intros E. apply outside_run. unfold zoom. by rewrite E. Qed.

(** What was read lies in front of the buffer. *)
Lemma read_run p h k a n old now k' :
  h !! a = Some old → Z.of_nat (length old) = n → Z.of_nat (length now) ≤ n →
  sys_read (sp_fd p) n k = (Sret now, k') →
  alsarawmidi_stream_pair_read_from_substream (a, 0) n (OState p (World h k)) =
    (Ret (Z.of_nat (length now)),
     OState p (World (<[a := now ++ drop (length now) old]> h) k')).
Proof.
  intros Ha Hl Hn E. unfold alsarawmidi_stream_pair_read_from_substream. rewrite bind_private.
  assert (do_read (sp_fd p) (a, 0) n (World h k) =
    (Ret (Sret (Z.of_nat (length now))), World (<[a := now ++ drop (length now) old]> h) k')) as Er.
  { unfold do_read. step (sys_run _ h k _ k' E).
    by step (mem_Ret _ h k' _ _ (store_prefix h a old now Ha ltac:(lia))). }
  by step (outside_run _ p _ _ _ Er).
Qed.

(** The bytes in front of a buffer are sent. *)
Lemma write_run p h k a bs rest r k' :
  h !! a = Some (bs ++ rest) → sys_write (sp_fd p) bs k = (r, k') →
  alsarawmidi_stream_pair_write_to_substream (a, 0) (Z.of_nat (length bs)) (OState p (World h k)) =
    (match r with Sret _ => Ret tt | Serr e => Fail (file_error e "write") end,
     OState p (World h k')).
Proof.
  intros Ha E. unfold alsarawmidi_stream_pair_write_to_substream. rewrite bind_private.
  assert (do_write (sp_fd p) (a, 0) (Z.of_nat (length bs)) (World h k) =
    (Ret r, World h k')) as Ew.
  { unfold do_write.
    step (mem_Ret _ h k _ _ (load_at h (a, 0) bs _
      (at_ptr_app_l _ _ _ rest (at_ptr_block _ _ _ Ha)) eq_refl)). by apply sys_run. }
  step (outside_run _ p _ _ _ Ew). by destruct r.
Qed.

(** ** Chunks

    What one dispatch passes on: the bytes it got, those that went to the
    second port, and what the call that wrote them told the handler. *)
Record chunk := Chunk { got : list byte; went : list byte; told : outcome unit }.

(** The part of a chunk that went is its front.  A call that succeeds is one
    whose write was not refused, whatever part of the chunk it took; in the
    blocking mode it took all. *)
Definition chunk_ok (block : Prop) (c : chunk) : Prop :=
  got c ≠ [] ∧ went c `prefix_of` got c ∧
  ((told c = Ret tt ∧ (block → went c = got c)) ∨ ((∃ e, told c = Fail e) ∧ went c = [])).

(** [passes pin pout buf n s cs s']: dispatches of the source of [pin] lead
    from [s] to [s'], and pass the chunks [cs] on. *)
Inductive passes (pin pout : stream_pair) (buf : ptr) (n : Z) :
    ostate stream_pair K → list chunk → ostate stream_pair K → Prop :=
  | passes_none s : passes pin pout buf n s [] s
  | passes_chunk s mid s1 c cs s' :
      alsarawmidi_stream_pair_read_from_substream buf n s = (Ret (Z.of_nat (length (got c))), mid) →
      method_of pout (alsarawmidi_stream_pair_write_to_substream buf (Z.of_nat (length (got c)))) mid =
        (told c, s1) →
      rawmidi_stream_pair_dispatch_src (forward pout buf n) disconnected G_IO_IN s = (Ret true, s1) →
      passes pin pout buf n s1 cs s' →
      passes pin pout buf n s (c :: cs) s'.

Lemma passes_dispatches pin pout buf n s cs s' :
  passes pin pout buf n s cs s' →
  main_loop (rawmidi_stream_pair_dispatch_src (forward pout buf n) disconnected G_IO_IN)
    (length cs) s = (Ret true, s').
Proof.
  induction 1 as [|s mid s1 c cs s' _ _ E _ IH]; [done|]. cbn [length].
  by rewrite (main_loop_stays _ _ _ _ E).
Qed.

(** One dispatch passes a chunk on. *)
Lemma forward_progress pin pout a n h k old bs sent :
  h !! a = Some old → Z.of_nat (length old) = n → 0 < n → 0 ≤ sp_fd pin → bs ≠ [] →
  rx (sp_fd pin) bs k → tx (sp_fd pout) sent k →
  ∃ c later h' k', bs = got c ++ later ∧ chunk_ok (blocking (sp_fd pout) k) c ∧
    h' = <[a := got c ++ drop (length (got c)) old]> h ∧ Z.of_nat (length (got c)) ≤ n ∧
    (∀ cs s', passes pin pout (a, 0) n (OState pin (World h' k')) cs s' →
       passes pin pout (a, 0) n (OState pin (World h k)) (c :: cs) s') ∧
    rx (sp_fd pin) later k' ∧ tx (sp_fd pout) (sent ++ went c) k' ∧ other_side k k'.
Proof.
  intros Ha Hl Hpos Hfd Hne Hrx Htx.
  destruct (rx_read _ _ n _ Hrx Hne Hpos)
    as (now & later & k1 & -> & Hnow & Hle & Er & Hrx1 & Hb1 & Hk1).
  destruct (tx_write _ _ now _ (Hk1 _ _ Htx) Hnow)
    as (taken & left & r & k2 & Hcut & Ew & Hr & Htx2 & Hb2 & Hk2).
  set (h1 := <[a := now ++ drop (length now) old]> h).
  set (res := match r with Sret _ => Ret tt | Serr e => Fail (file_error e "write") end).
  pose proof (read_run pin h k a n old now k1 Ha Hl Hle Er) as Ert. fold h1 in Ert.
  assert (method_of pout (alsarawmidi_stream_pair_write_to_substream (a, 0) (Z.of_nat (length now)))
    (OState pin (World h1 k1)) = (res, OState pin (World h1 k2))) as Ewt.
  { apply method_of_run.
    by apply (write_run pout h1 k1 a now (drop (length now) old) r); [apply lookup_insert_eq|]. }
  exists (Chunk now taken res), later, h1, k2. cbn [got went told].
  split; [done|]. split; [split_and!; [done|by exists left|]|].
  { unfold res. destruct r as [m|e]; [left|right; split; [by eexists|done]].
    destruct Hr as [_ Hr]. split; [done|]. intros Hb. cbn [got went].
    by rewrite Hcut, (Hr (Hb1 _ Hb)), app_nil_r. }
  split; [done|]. split; [done|]. split; [|split; [by apply Hk2|split; [done|]]].
  2:{ intros fd Hb. apply Hb2. by apply Hb1. }
  intros cs s' Hrest. eapply passes_chunk; [exact Ert|exact Ewt| |exact Hrest].
  unfold rawmidi_stream_pair_dispatch_src. rewrite bind_private.
  destruct (Z.ltb_spec (sp_fd pin) 0); [lia|].
  change (negb (Z.land G_IO_IN G_IO_ERR =? 0)) with false.
  change (negb (Z.land G_IO_IN G_IO_IN =? 0)) with true. cbv iota.
  assert (forward pout (a, 0) n (OState pin (World h k)) = (Ret tt, OState pin (World h1 k2))) as Ef.
  { unfold forward. step Ert. unfold mbind, M_bind, catch. rewrite Ewt. unfold res. by destruct r. }
  by step Ef.
Qed.

Lemma all_went (block : Prop) cs :
  block → Forall (chunk_ok block) cs → Forall (λ c, told c = Ret tt) cs →
  concat (map went cs) = concat (map got cs).
Proof.
  intros Hb. induction 1 as [|c cs (_ & _ & Hc) _ IH]; intros Hall; [done|].
  inversion Hall as [|? ? Ht Hrest]; subst. cbn [map concat].
  destruct Hc as [[_ Hw]|[[e He] _]]; [|congruence]. by rewrite (Hw Hb), IH.
Qed.

(** As many dispatches as bytes that wait pass all of them on. *)
Lemma thru_run pin pout a n h k old bs sent m :
  h !! a = Some old → Z.of_nat (length old) = n → 0 < n → 0 ≤ sp_fd pin → (length bs ≤ m)%nat →
  rx (sp_fd pin) bs k → tx (sp_fd pout) sent k →
  ∃ cs buf k', (length cs ≤ length bs)%nat ∧
    passes pin pout (a, 0) n (OState pin (World h k)) cs (OState pin (World (<[a := buf]> h) k')) ∧
    length buf = length old ∧ rx (sp_fd pin) [] k' ∧ bs = concat (map got cs) ∧
    tx (sp_fd pout) (sent ++ concat (map went cs)) k' ∧
    Forall (chunk_ok (blocking (sp_fd pout) k)) cs.
Proof.
  intros Ha Hl Hn Hfd Hm.
  revert bs sent h old k Ha Hl Hm. induction m as [|m IH]; intros bs sent h old k Ha Hl Hm Hrx Htx.
  all: destruct (decide (bs = [])) as [->|Hne].
  1,3: exists [], old, k; rewrite app_nil_r, insert_id by done; by split_and!; [|constructor|..].
  1: destruct bs; [done|simpl in Hm; lia].
  destruct (forward_progress pin pout a n h k old bs sent Ha Hl Hn Hfd Hne Hrx Htx)
    as (c & later & h1 & k1 & -> & Hc & -> & Hle & Hstep & Hrx1 & Htx1 & Hb).
  assert (0 < length (got c))%nat by (destruct Hc as [Hc _]; destruct (got c); [done|simpl; lia]).
  rewrite length_app in Hm |- *.
  set (buf1 := got c ++ drop (length (got c)) old) in *.
  assert (length buf1 = length old) as Hl1 by (unfold buf1; rewrite length_app, length_drop; lia).
  destruct (IH later (sent ++ went c) (<[a := buf1]> h) buf1 k1)
    as (cs & buf & k2 & Ht & Hp & Hbuf & Hrx2 & -> & Htx2 & Hok);
    [apply lookup_insert_eq|lia|lia|done..|].
  rewrite insert_insert_eq in Hp. exists (c :: cs), buf, k2. cbn [map concat length].
  split_and!; [lia|by apply Hstep|lia|done|done|by rewrite app_assoc|].
  constructor; [done|]. eapply Forall_impl; [exact Hok|].
  intros c' (H1 & H2 & H3). split_and!; [done..|].
  destruct H3 as [[H3 H4]|H3]; [left|by right]. split; [done|]. intros Hbk. apply H4. by apply Hb.
Qed.

(** C37: a program that forwards the messages of one pair to another: when the
    bytes [bs] wait behind the first pair, at most as many dispatches of its
    source as there are bytes get exactly these, in their order, whatever the
    size of the buffer is; nothing waits then, the source stays, and no memory
    but the buffer has changed.  The second port sends the front of each chunk
    and nothing else: of a chunk whose write was refused nothing, of one the
    port takes in part the rest is lost although the call has told the handler
    of a success.  In the blocking mode a chunk goes as a whole or is refused,
    and when none is refused all of [bs] is sent. *)
Theorem thru_forwards pin pout a n h k old bs sent :
  h !! a = Some old → Z.of_nat (length old) = n → 0 < n → 0 ≤ sp_fd pin →
  rx (sp_fd pin) bs k → tx (sp_fd pout) sent k →
  ∃ cs buf k', let s := OState pin (World h k) in let s' := OState pin (World (<[a := buf]> h) k') in
    (length cs ≤ length bs)%nat ∧ passes pin pout (a, 0) n s cs s' ∧
    main_loop (rawmidi_stream_pair_dispatch_src (forward pout (a, 0) n) disconnected G_IO_IN)
      (length cs) s = (Ret true, s') ∧
    length buf = length old ∧ rx (sp_fd pin) [] k' ∧
    bs = concat (map got cs) ∧ tx (sp_fd pout) (sent ++ concat (map went cs)) k' ∧
    Forall (chunk_ok (blocking (sp_fd pout) k)) cs ∧
    (blocking (sp_fd pout) k → Forall (λ c, told c = Ret tt) cs → tx (sp_fd pout) (sent ++ bs) k').
Proof.
  intros Ha Hl Hn Hfd Hrx Htx.
  destruct (thru_run pin pout a n h k old bs sent (length bs) Ha Hl Hn Hfd ltac:(lia) Hrx Htx)
    as (cs & buf & k' & Hc & Hp & Hbuf & Hrx' & Hbs & Htx' & Hok).
  exists cs, buf, k'. cbv zeta. split_and!; [done|done|by eapply passes_dispatches|done..|].
  intros Hb Hall. by rewrite Hbs, <- (all_went _ cs Hb Hok Hall).
Qed.
End thru.

(** ** Concrete runs *)

Module SampleThru.
(** What waits behind the descriptor 4, what the ports of 5 and 6 have taken.
    Bytes come in at most three at a time.  The descriptor 6 is in the blocking
    mode; 5 is not, and its port takes two bytes at a time. *)
Record ports := Ports { input_side : list byte; output_side : Z → list byte }.

Definition takes (fd : Z) (bs : list byte) : list byte := if fd =? 5 then take 2 bs else bs.

Definition sends (fd : Z) (bs : list byte) (out : Z → list byte) : Z → list byte := λ fd',
  if fd' =? fd then out fd' ++ bs else out fd'.

#[export] Instance ports_kernel : Kernel ports := {|
  sys_open path flags k := (Serr EBUSY, k);
  sys_close fd k := k;
  sys_ioctl fd req s k := (Serr ENODEV, s, k);
  sys_write fd bs k :=
    (Sret (Z.of_nat (length (takes fd bs))), Ports (input_side k) (sends fd (takes fd bs) (output_side k)));
  sys_read fd n k :=
    let m := Nat.min 3 (Z.to_nat n) in
    if (fd =? 4) && negb (bool_decide (input_side k = []))
    then (Sret (take m (input_side k)), Ports (drop m (input_side k)) (output_side k))
    else (Serr EAGAIN, k);
|}.

#[export] Instance midi_ports : MidiPorts ports := {|
  rx fd bs k := fd = 4 ∧ bs = input_side k;
  tx fd bs k := (fd = 5 ∨ fd = 6) ∧ bs = output_side k fd;
  blocking fd k := fd = 6;
|}.

#[export] Instance midi_ports_laws : MidiPortsLaws ports.
Proof.
  split.
  - intros fd bs n [r t] [-> ->] Hne Hn. cbn [input_side] in *. set (m := Nat.min 3 (Z.to_nat n)).
    exists (take m r), (drop m r), (Ports (drop m r) t). split; [by rewrite take_drop|].
    assert (0 < m)%nat by lia. split; [destruct r, m; [done..|lia|done]|].
    split; [rewrite length_take; lia|].
    split; [|split; [done|split; [by intros fd|by intros fd' sent]]].
    cbn [sys_read ports_kernel input_side Z.eqb Pos.eqb]. by rewrite bool_decide_false.
  - intros fd sent bs [r t] [Hfd ->] _. cbn [output_side].
    exists (takes fd bs), (if fd =? 5 then drop 2 bs else []), (Sret (Z.of_nat (length (takes fd bs)))),
      (Ports r (sends fd (takes fd bs) t)).
    split; [unfold takes; destruct (fd =? 5); [by rewrite take_drop|by rewrite app_nil_r]|].
    split; [done|]. split; [split; [done|by intros ->]|]. split; [split; [done|]|split; [by intros ?|by intros ??]].
    unfold sends. cbn [output_side]. by rewrite Z.eqb_refl.
Qed.
End SampleThru.

Module ThruWitness.
Import SampleThru.
#[local] Instance glib : GLib := {| g_file_error_from_errno n := n |}.

Definition input : stream_pair := StreamPair 4 (Some "/dev/snd/midiC0D0") [2; 0; 1] 1.
(** Opened with and without [O_NONBLOCK]. *)
Definition output : stream_pair := StreamPair 5 (Some "/dev/snd/midiC1D0") [2; 0; 1] 1.
Definition waiting_output : stream_pair := StreamPair 6 (Some "/dev/snd/midiC1D1") [2; 0; 1] 1.
Definition note_on : list byte := [Byte.x90; Byte.x3c; Byte.x40].
Definition note_off : list byte := [Byte.x80; Byte.x3c; Byte.x00].
Definition idle : ports := Ports (note_on ++ note_off) (λ _, []).

(** What was sent from [fd] when the source of [input] was dispatched [n]
    times with the handler that forwards to [out]. *)
Definition after (out : stream_pair) (n : nat) : outcome bool * ostate stream_pair ports :=
  main_loop (rawmidi_stream_pair_dispatch_src (forward out (64, 0) 3) (mret tt) G_IO_IN) n
    (OState input (World {[64 := zeros 3]} idle)).

(** Two messages through a buffer of three bytes: both are sent by the pair in
    the blocking mode, and each loses its last byte in the other one without
    an error. *)
Lemma two_dispatches out n buf k' :
  (n ≤ 6)%nat → (out = output ∨ out = waiting_output) → rx 4 [] k' →
  after out n = (Ret true, OState input (World (<[64 := buf]> {[64 := zeros 3]}) k')) →
  n = 2%nat ∧ k' = w_kern (os_world (after out 2).2).
Proof.
  intros Hn Hout [_ Hrx] E. assert (k' = w_kern (os_world (after out n).2)) as Ek by by rewrite E.
  destruct Hout as [->| ->]; destruct n as [|[|[|[|[|[|[|n]]]]]]]; try lia; try done;
    solve [by rewrite Ek in Hrx | by vm_compute in E].
Qed.

Lemma thru_forwards_witness :
  (∃ cs k', after waiting_output 2 = (Ret true, k') ∧ length cs = 2%nat ∧
    note_on ++ note_off = concat (map got cs) ∧ concat (map went cs) = note_on ++ note_off ∧
    Forall (chunk_ok True) cs) ∧
  (∃ cs k', after output 2 = (Ret true, k') ∧ length cs = 2%nat ∧
    note_on ++ note_off = concat (map got cs) ∧
    concat (map went cs) = [Byte.x90; Byte.x3c; Byte.x80; Byte.x3c] ∧ Forall (chunk_ok False) cs).
Proof.
  split.
  - destruct (thru_forwards (mret tt) input waiting_output 64 3 {[64 := zeros 3]} idle
      (zeros 3) (note_on ++ note_off) [])
      as (cs & buf & k' & Hn & _ & E & _ & Hrx & Hbs & Htx & Hok & _);
      [by vm_compute|done|done|done|by split|split; [by right|done]|].
    destruct (two_dispatches waiting_output (length cs) buf k') as [Hl ->]; [done|by right|done|done|].
    destruct Htx as [_ Htx]. rewrite Hl in E. exists cs. eexists. split_and!; [exact E|done|exact Hbs| |].
    + change (sp_fd waiting_output) with 6 in Htx. cbn [app] in Htx. rewrite Htx. by vm_compute.
    + eapply Forall_impl; [exact Hok|]. intros c (H1 & H2 & [[H3 H4]|H3]); split_and!; try done;
        [left; split; [done|]; intros _; by apply H4|by right].
  - destruct (thru_forwards (mret tt) input output 64 3 {[64 := zeros 3]} idle
      (zeros 3) (note_on ++ note_off) [])
      as (cs & buf & k' & Hn & _ & E & _ & Hrx & Hbs & Htx & Hok & _);
      [by vm_compute|done|done|done|by split|split; [by left|done]|].
    destruct (two_dispatches output (length cs) buf k') as [Hl ->]; [done|by left|done|done|].
    destruct Htx as [_ Htx]. rewrite Hl in E. exists cs. eexists. split_and!; [exact E|done|exact Hbs| |].
    + change (sp_fd output) with 5 in Htx. cbn [app] in Htx. rewrite Htx. by vm_compute.
    + eapply Forall_impl; [exact Hok|]. intros c (H1 & H2 & [[H3 H4]|H3]); split_and!; try done;
        [left; by split|by right].
Defined.
End ThruWitness.
