(* ===== verification/ObjectLife.v ===== *)
(** * Objects that own a descriptor and hand out sources

    A user instance of a timer and a pair of rawmidi streams live in the same
    way: the application and the sources it has made hold references, a source
    may own a buffer, and the object closes its descriptor with the last
    reference.  The class states what the components promise, the theorem on
    all reachable states is proved from it, and the components discharge it. *)
From S2P Require Import Prelude Heap SeqUapi Struct Kernel Sysfs Object SampleSystem.
From S2P Require Import TimerQuery TimerUserInstance RawmidiQuery RawmidiStreamPair.

Class SourceObject (P S K : Type) := {
  so_new : P;
  so_refs : P → Z;
  so_fd : P → Z;
  so_ref : M (ostate P K) unit;
  so_unref : M (ostate P K) unit;
  so_create : M (ostate P K) S;
  so_destroy : S → M (ostate P K) unit;
  (** the block of memory that a source owns *)
  so_buffer : S → option Z;
}.

(** Memory with the buffer of a source, and without it. *)
Definition with_buffer (b : option Z) (bs : list byte) (h : heap) : heap :=
  match b with Some a => <[a := bs]> h | None => h end.
Definition without_buffer (b : option Z) (h : heap) : heap :=
  match b with Some a => delete a h | None => h end.
Definition buffer_in (b : option Z) (h : heap) : Prop :=
  match b with Some a => 0 < a ∧ is_Some (h !! a) | None => True end.
Definition buffer_new (b : option Z) (h : heap) : Prop :=
  match b with Some a => 0 < a ∧ h !! a = None | None => True end.

(** The last of [refs] references closes the descriptor. *)
Definition closed_with_last {K} `{!Kernel K} (refs fd : Z) (k : K) : K :=
  if (refs =? 1) && (0 <=? fd) then sys_close fd k else k.

Class SourceObjectLaws (P S K : Type) `{!Kernel K} `{!SourceObject P S K} : Prop := {
  so_new_refs : so_refs so_new = 1;
  so_ref_law p w : ∃ p',
    so_ref (OState p w) = (Ret tt, OState p' w) ∧ so_refs p' = so_refs p + 1;
  so_unref_law p h k : ∃ p',
    so_unref (OState p (World h k)) =
      (Ret tt, OState p' (World h (closed_with_last (so_refs p) (so_fd p) k))) ∧
    so_refs p' = so_refs p - 1;
  so_create_law p h k :
    match so_create (OState p (World h k)) with
    | (Ret src, s') => ∃ p' bs k',
        s' = OState p' (World (with_buffer (so_buffer src) bs h) k') ∧
        so_refs p' = so_refs p + 1 ∧ buffer_new (so_buffer src) h
    | (_, s') => ∃ k', s' = OState p (World h k')
    end;
  so_destroy_law p h k src :
    buffer_in (so_buffer src) h →
    so_destroy src (OState p (World h k)) =
      so_unref (OState p (World (without_buffer (so_buffer src) h) k));
}.

Section life.
Context {P S K : Type} {KERN : Kernel K} {SO : SourceObject P S K} {SOL : SourceObjectLaws P S K}.
Implicit Types (s : ostate P K) (srcs : list S) (n : nat).

(** The buffers of some sources. *)
Definition buffers (srcs : list S) : list Z := omap so_buffer srcs.

(** [so_life s srcs n]: a state in which the sources [srcs] exist and the
    application holds [n] references of its own. *)
Inductive so_life : ostate P K → list S → nat → Prop :=
  | so_life_new w : so_life (OState so_new w) [] 1
  | so_life_ref s srcs n s' :
      so_life s srcs n → n ≠ O → so_ref s = (Ret tt, s') → so_life s' srcs (Datatypes.S n)
  | so_life_unref s srcs n s' :
      so_life s srcs (Datatypes.S n) → so_unref s = (Ret tt, s') → so_life s' srcs n
  | so_life_create s srcs n src s' :
      so_life s srcs n → n ≠ O → so_create s = (Ret src, s') → so_life s' (src :: srcs) n
  | so_life_refused s srcs n o s' :
      so_life s srcs n → n ≠ O → so_create s = (o, s') → (∀ src, o ≠ Ret src) → so_life s' srcs n
  | so_life_destroy s srcs1 src srcs2 n s' :
      so_life s (srcs1 ++ src :: srcs2) n → so_destroy src s = (Ret tt, s') →
      so_life s' (srcs1 ++ srcs2) n
  | so_life_other s srcs n s' :
      so_life s srcs n → so_refs (os_priv s') = so_refs (os_priv s) →
      (∀ a, a ∈ buffers srcs → is_Some (w_heap (os_world s) !! a) → is_Some (w_heap (os_world s') !! a)) →
      so_life s' srcs n.

Definition so_inv s srcs n : Prop :=
  so_refs (os_priv s) = Z.of_nat (n + length srcs) ∧
  NoDup (buffers srcs) ∧
  Forall (λ a, 0 < a ∧ is_Some (w_heap (os_world s) !! a)) (buffers srcs).

Lemma buffers_cons src srcs :
  buffers (src :: srcs) = match so_buffer src with Some a => a :: buffers srcs | None => buffers srcs end.
Proof. done. Qed.

Lemma buffers_middle srcs1 src srcs2 :
  buffers (srcs1 ++ src :: srcs2) ≡ₚ buffers (src :: srcs1 ++ srcs2).
Proof. unfold buffers. by rewrite <- Permutation_middle. Qed.

(** The buffer of the source that is removed, and the others. *)
Lemma inv_middle s srcs1 src srcs2 n :
  so_inv s (srcs1 ++ src :: srcs2) n →
  buffer_in (so_buffer src) (w_heap (os_world s)) ∧
  so_refs (os_priv s) = Z.of_nat (n + length (srcs1 ++ srcs2)) + 1 ∧
  NoDup (buffers (srcs1 ++ srcs2)) ∧
  Forall (λ a, 0 < a ∧ is_Some (without_buffer (so_buffer src) (w_heap (os_world s)) !! a))
    (buffers (srcs1 ++ srcs2)).
Proof.
  intros (Hr & Hnd & Hb). rewrite buffers_middle, buffers_cons in Hnd, Hb.
  assert (so_refs (os_priv s) = Z.of_nat (n + length (srcs1 ++ srcs2)) + 1) as ->
    by (rewrite Hr, !length_app; cbn [length]; lia).
  destruct (so_buffer src) as [a|]; [|done]. cbn [buffer_in without_buffer].
  apply NoDup_cons in Hnd as [Hni Hnd]. inversion Hb as [|? ? Ha Hb']. subst.
  split_and!; [apply Ha|apply Ha|done|done|]. apply Forall_forall. intros b Hin.
  rewrite Forall_forall in Hb'. destruct (Hb' b Hin) as [? ?]. split; [done|].
  rewrite lookup_delete_ne; [done|]. by intros ->.
Qed.

Lemma destroy_run s srcs1 src srcs2 n :
  so_inv s (srcs1 ++ src :: srcs2) n →
  ∃ p', so_destroy src s =
    (Ret tt, OState p' (World (without_buffer (so_buffer src) (w_heap (os_world s)))
       (closed_with_last (so_refs (os_priv s)) (so_fd (os_priv s)) (w_kern (os_world s))))) ∧
    so_refs p' = so_refs (os_priv s) - 1.
Proof.
  intros Hi. destruct (inv_middle s srcs1 src srcs2 n Hi) as (Hb & _). destruct s as [p [h k]].
  rewrite (so_destroy_law p h k src Hb). apply so_unref_law.
Qed.

Lemma so_invariant s srcs n : so_life s srcs n → so_inv s srcs n.
Proof.
  induction 1 as [w|s srcs n s' _ (Hr & Hnd & Hb) Hn E|s srcs n s' _ (Hr & Hnd & Hb) E
    |s srcs n src s' _ (Hr & Hnd & Hb) Hn E|s srcs n o s' _ (Hr & Hnd & Hb) Hn E Ho
    |s srcs1 src srcs2 n s' _ IH E|s srcs n s' _ (Hr & Hnd & Hb) Er Hk].
  - split_and!; [apply so_new_refs|constructor|constructor].
  - destruct s as [p w]. destruct (so_ref_law p w) as (p' & E' & Hp'). rewrite E' in E.
    injection E as <-. split_and!; [cbn in *; lia|done..].
  - destruct s as [p [h k]]. destruct (so_unref_law p h k) as (p' & E' & Hp'). rewrite E' in E.
    injection E as <-. split_and!; [cbn in *; lia|done..].
  - destruct s as [p [h k]]. pose proof (so_create_law p h k) as Hc. rewrite E in Hc.
    destruct Hc as (p' & bs & k' & -> & Hp' & Hnew). unfold so_inv. rewrite buffers_cons.
    split; [cbn in *; lia|]. destruct (so_buffer src) as [a|]; [|done]. destruct Hnew as [Ha Hf].
    cbn in Hb |- *. assert (∀ b, b ∈ buffers srcs → b ≠ a) as Hne.
    { intros b Hin ->. rewrite Forall_forall in Hb. destruct (Hb a Hin) as [_ [? ?]]. congruence. }
    split; [constructor; [|done]; intros Hin; by apply (Hne a)|]. constructor.
    + split; [done|]. by rewrite lookup_insert_eq.
    + apply Forall_forall. intros b Hin. rewrite lookup_insert_ne by (symmetry; by apply Hne).
      rewrite Forall_forall in Hb. by apply Hb.
  - destruct s as [p [h k]]. pose proof (so_create_law p h k) as Hc. rewrite E in Hc.
    destruct o as [src| | | |]; [by destruct (Ho src)|..]; by destruct Hc as (k' & ->).
  - destruct (destroy_run s srcs1 src srcs2 n IH) as (p' & E' & Hp'). rewrite E' in E.
    injection E as <-. destruct (inv_middle _ _ _ _ _ IH) as (_ & Hr & Hnd & Hb).
    split_and!; [cbn; lia|done|done].
  - split_and!; [by rewrite Er|done|]. rewrite Forall_forall in Hb |- *. intros a Ha.
    destruct (Hb a Ha). split; [done|]. by apply Hk.
Qed.

(** What is left when the object gives up one of [refs] references, with the
    buffer [b] of a source. *)
Definition gives_up s (refs : nat) (b : option Z) (s' : ostate P K) : Prop :=
  w_heap (os_world s') = without_buffer b (w_heap (os_world s)) ∧
  w_kern (os_world s') =
    if (refs =? 1)%nat && (0 <=? so_fd (os_priv s))
    then sys_close (so_fd (os_priv s)) (w_kern (os_world s)) else w_kern (os_world s).

Lemma life_run s srcs n :
  so_life s srcs n →
  let refs := (n + length srcs)%nat in
  so_refs (os_priv s) = Z.of_nat refs ∧
  (∀ srcs1 src srcs2, srcs = srcs1 ++ src :: srcs2 →
     ∃ s', so_destroy src s = (Ret tt, s') ∧ so_life s' (srcs1 ++ srcs2) n ∧
       gives_up s refs (so_buffer src) s') ∧
  (n ≠ O → ∃ s', so_unref s = (Ret tt, s') ∧ so_life s' srcs (n - 1) ∧ gives_up s refs None s').
Proof.
  intros Hl refs. pose proof (so_invariant s srcs n Hl) as Hi. pose proof Hi as (Hr & _ & _).
  assert (∀ k fd, closed_with_last (so_refs (os_priv s)) fd k =
    if (refs =? 1)%nat && (0 <=? fd) then sys_close fd k else k) as Hc.
  { intros k fd. unfold closed_with_last. rewrite Hr. fold refs.
    by destruct (Z.eqb_spec (Z.of_nat refs) 1), (Nat.eqb_spec refs 1); try lia. }
  split; [exact Hr|]. split.
  - intros srcs1 src srcs2 ->. destruct (destroy_run s srcs1 src srcs2 n Hi) as (p' & E & _).
    eexists. split; [exact E|]. split; [by eapply so_life_destroy|]. split; [done|apply Hc].
  - intros Hn. destruct s as [p [h k]]. destruct (so_unref_law p h k) as (p' & E & _).
    eexists. split; [exact E|]. split; [|split; [done|apply Hc]].
    apply (so_life_unref (OState p (World h k))); [|done]. destruct n; [done|]. cbn. by rewrite Nat.sub_0_r.
Qed.
End life.

(** ** User instances of timers *)

Section instance.
Context {AL : Allocator} {LAWS : AllocatorLaws} {GL : GLib} {K : Type} {KERN : Kernel K}.
Context {UD : Udev K} (page_size : Z).
Implicit Types (i : instance) (h : heap) (k : K).

#[export] Instance timer_source_object : SourceObject instance instance_source K := {|
  so_new := alsatimer_user_instance_new;
  so_refs := ui_refs;
  so_fd := ui_fd;
  so_ref := g_object_ref_instance;
  so_unref := g_object_unref_instance;
  so_create := alsatimer_user_instance_create_source page_size;
  so_destroy := timer_user_instance_finalize_src;
  so_buffer src := Some (is_buf src);
|}.

Lemma timer_unref_run i h k :
  g_object_unref_instance (OState i (World h k)) =
    (Ret tt, OState (TimerUserInstance.set_refs (ui_refs i - 1) i)
               (World h (closed_with_last (ui_refs i) (ui_fd i) k))).
Proof.
  unfold g_object_unref_instance, timer_user_instance_finalize, closed_with_last, get_private,
    set_private, gets, modify, outside, zoom, do_close, sys, mbind, M_bind.
  cbn [os_priv os_world w_heap w_kern].
  destruct (ui_refs i =? 1); [|done]. cbn. by destruct (0 <=? ui_fd i).
Qed.

Lemma timer_create_run i h k :
  0 < page_size →
  match alsatimer_user_instance_create_source page_size (OState i (World h k)) with
  | (Ret src, s') => ∃ a, alloc_addr h page_size = Some a ∧ src = InstanceSource a page_size ∧
      s' = OState (TimerUserInstance.set_refs (ui_refs i + 1) i)
             (World (<[a := zeros (Z.to_nat page_size)]> h) k)
  | (_, s') => s' = OState i (World h k)
  end.
Proof.
  intros Hps. unfold alsatimer_user_instance_create_source. rewrite bind_private.
  destruct (Z.leb_spec 0 (ui_fd i)) as [Hfd|]; [|done].
  rewrite (bind_Ret _ _ _ tt (OState i (World h k))) by done.
  destruct (alloc_addr h page_size) as [a|] eqn:Ha.
  - step (outside_mem _ i h k _ _ (g_malloc0_some h page_size a ltac:(lia) Ha)). by exists a.
  - unfold mbind, M_bind, outside, mem, zoom, g_malloc0. cbn [os_world w_heap].
    destruct (Z.eqb_spec page_size 0); [lia|]. by rewrite Ha.
Qed.

Context (Hps : 0 < page_size).

#[export] Instance timer_source_laws : SourceObjectLaws instance instance_source K.
Proof using Hps LAWS.
  split.
  - done.
  - intros i w. by eexists.
  - intros i h k. eexists. split; [apply timer_unref_run|done].
  - intros i h k. pose proof (timer_create_run i h k Hps) as Hc. cbn [so_create timer_source_object].
    revert Hc. destruct (alsatimer_user_instance_create_source page_size (OState i (World h k)))
      as [[src| | | |] s']; [|intros Hc; by exists k..].
    intros (a & Ha & -> & ->). eexists _, _, k. split; [done|]. split; [done|].
    split; [apply (alloc_nonnull _ _ _ Ha)|by apply (alloc_fresh _ _ _ Ha)].
  - intros i h k src [Hp [bs Hb]]. cbn [so_destroy timer_source_object].
    unfold timer_user_instance_finalize_src.
    by step (outside_mem _ i h k _ _ (g_free_block h _ bs Hp Hb)).
Qed.
End instance.

(** ** Pairs of rawmidi streams *)

Section pair.
Context {AL : Allocator} {GL : GLib} {K : Type} {KERN : Kernel K} {FK : FcntlKernel K}.
Implicit Types (p : stream_pair) (h : heap) (k : K).

(** A source is the object itself, it owns nothing else. *)
#[export] Instance pair_source_object : SourceObject stream_pair unit K := {|
  so_new := alsarawmidi_stream_pair_new;
  so_refs := sp_refs;
  so_fd := sp_fd;
  so_ref := g_object_ref_pair;
  so_unref := g_object_unref_pair;
  so_create := alsarawmidi_stream_pair_create_source;
  so_destroy _ := rawmidi_stream_pair_finalize_src;
  so_buffer _ := None;
|}.

Lemma pair_unref_run p h k :
  g_object_unref_pair (OState p (World h k)) =
    (Ret tt, OState (RawmidiStreamPair.set_refs (sp_refs p - 1) p)
               (World h (closed_with_last (sp_refs p) (sp_fd p) k))).
Proof.
  unfold g_object_unref_pair, rawmidi_stream_pair_finalize, closed_with_last, get_private,
    set_private, gets, modify, outside, zoom, do_close, sys, mbind, M_bind.
  cbn [os_priv os_world w_heap w_kern].
  destruct (sp_refs p =? 1); [|done]. cbn. by destruct (0 <=? sp_fd p).
Qed.

#[export] Instance pair_source_laws : SourceObjectLaws stream_pair unit K.
Proof.
  split.
  - done.
  - intros p w. by eexists.
  - intros p h k. eexists. split; [apply pair_unref_run|done].
  - intros p h k. cbn [so_create pair_source_object]. unfold alsarawmidi_stream_pair_create_source.
    rewrite bind_private. destruct (Z.leb_spec 0 (sp_fd p)) as [Hfd|]; [|by exists k].
    rewrite (bind_Ret _ _ _ tt (OState p (World h k))) by done.
    destruct (sys_getfl (sp_fd p) k) as [r k1] eqn:E. step (outside_sys _ p h k _ _ E).
    destruct r as [fl|e]; [|by exists k1].
    destruct (_ && _); [by exists k1|]. by eexists _, [], k1.
  - intros p h k [] _. done.
Qed.
End pair.

(** ** The theorems of the components *)

(** C15: the life of a user instance of a timer: in every state that
    references, sources and other activity can lead to, there is one reference
    for each handle of the application and each source.  Removing a source
    frees its buffer and nothing else, dropping a handle frees nothing, and
    the descriptor is closed with the last of them, by whichever it is. *)
Theorem timer_sources_spec `{AllocatorLaws} {K : Type} {KERN : Kernel K} page_size
    (s : ostate instance K) (srcs : list instance_source) (n : nat) :
  0 < page_size →
  so_life (SO := timer_source_object page_size) s srcs n →
  let i := os_priv s in
  let w := os_world s in
  let refs := (n + length srcs)%nat in
  let closed := if (refs =? 1)%nat && (0 <=? ui_fd i) then sys_close (ui_fd i) (w_kern w) else w_kern w in
  ui_refs i = Z.of_nat refs ∧
  (∀ srcs1 src srcs2, srcs = srcs1 ++ src :: srcs2 →
     ∃ s', timer_user_instance_finalize_src src s = (Ret tt, s') ∧
       so_life (SO := timer_source_object page_size) s' (srcs1 ++ srcs2) n ∧
       w_heap (os_world s') = delete (is_buf src) (w_heap w) ∧ w_kern (os_world s') = closed) ∧
  (n ≠ O →
     ∃ s', g_object_unref_instance s = (Ret tt, s') ∧
       so_life (SO := timer_source_object page_size) s' srcs (n - 1) ∧
       w_heap (os_world s') = w_heap w ∧ w_kern (os_world s') = closed).
Proof.
  intros Hps Hl. apply (life_run (SOL := timer_source_laws page_size Hps) s srcs n Hl).
Qed.

(** C16: the life of a pair of rawmidi streams: a source is one more reference
    to the pair, and the descriptor is closed when the last handle and the last
    source are gone, by whichever is the last; neither touches memory. *)
Theorem pair_sources_spec `{GLib} {K : Type} {KERN : Kernel K} {FK : FcntlKernel K} (s : ostate stream_pair K)
    (srcs : list unit) (n : nat) :
  so_life s srcs n →
  let p := os_priv s in
  let w := os_world s in
  let refs := (n + length srcs)%nat in
  let closed := if (refs =? 1)%nat && (0 <=? sp_fd p) then sys_close (sp_fd p) (w_kern w) else w_kern w in
  sp_refs p = Z.of_nat refs ∧
  (srcs ≠ [] →
     ∃ s', rawmidi_stream_pair_finalize_src s = (Ret tt, s') ∧ so_life s' (tail srcs) n ∧
       w_heap (os_world s') = w_heap w ∧ w_kern (os_world s') = closed) ∧
  (n ≠ O →
     ∃ s', g_object_unref_pair s = (Ret tt, s') ∧ so_life s' srcs (n - 1) ∧
       w_heap (os_world s') = w_heap w ∧ w_kern (os_world s') = closed).
Proof.
  intros Hl. destruct (life_run s srcs n Hl) as (Hr & Hd & Hu). split; [exact Hr|]. split; [|exact Hu].
  intros Hne. destruct srcs as [|[] srcs]; [done|]. exact (Hd [] tt srcs eq_refl).
Qed.

(** ** Concrete runs *)

Module LifeSample.
#[local] Existing Instance Bump.allocator.
#[local] Existing Instance Bump.laws.
#[local] Existing Instance Sample.glib.

(** The system notes the descriptors that are closed. *)
#[local] Instance noting : Kernel (list Z) := {|
  sys_open path flags k := (Sret 9, k);
  sys_close fd k := k ++ [fd];
  sys_ioctl fd req s k := (Sret tt, s, k);
  sys_write fd bs k := (Serr EINVAL, k);
  sys_read fd n k := (Serr EAGAIN, k);
|}.
#[local] Instance modes : FcntlKernel (list Z) := {| sys_getfl fd k := (Sret O_RDWR, k) |}.

(** An instance is opened, gets a source, and the application drops it. *)
Definition opened : ostate instance (list Z) :=
  OState (TimerUserInstance.set_fd 9 alsatimer_user_instance_new) (World ∅ []).
Definition polled : ostate instance (list Z) := (alsatimer_user_instance_create_source 64 opened).2.
Definition dropped : ostate instance (list Z) := (g_object_unref_instance polled).2.
Definition src : instance_source := InstanceSource 4128 64.

Lemma dropped_instance_life : so_life (SO := timer_source_object 64) dropped [src] 0.
Proof.
  pose (SO := timer_source_object (K := list Z) 64).
  apply (so_life_unref (SO := SO) polled); [|by vm_compute].
  apply (so_life_create (SO := SO) opened []); [|done|by vm_compute].
  apply (so_life_other (SO := SO) (OState so_new (World ∅ []))); [apply so_life_new|done|].
  by intros a ?%not_elem_of_nil.
Defined.

Lemma timer_sources_spec_witness :
  w_kern (os_world dropped) = [] ∧
  ∃ s', timer_user_instance_finalize_src src dropped = (Ret tt, s') ∧
    w_heap (os_world s') = delete 4128 (w_heap (os_world dropped)) ∧ w_kern (os_world s') = [9].
Proof.
  split; [by vm_compute|].
  destruct (timer_sources_spec 64 dropped [src] 0 ltac:(done) dropped_instance_life) as (_ & Hrem & _).
  destruct (Hrem [] src [] eq_refl) as (s' & E & _ & Eh & Ek).
  exists s'. exact (conj E (conj Eh Ek)).
Defined.

(** A pair with a handle and a source. *)
Definition open_pair : ostate stream_pair (list Z) :=
  OState (RawmidiStreamPair.set_fd 9 alsarawmidi_stream_pair_new) (World ∅ []).
Definition polled_pair : ostate stream_pair (list Z) :=
  (alsarawmidi_stream_pair_create_source open_pair).2.

Lemma polled_pair_life : so_life polled_pair [tt] 1.
Proof.
  apply (so_life_create open_pair []); [|done|by vm_compute].
  apply (so_life_other (OState so_new (World ∅ []))); [apply so_life_new|done|].
  by intros a ?%not_elem_of_nil.
Defined.

Lemma pair_sources_spec_witness :
  ∃ s', rawmidi_stream_pair_finalize_src polled_pair = (Ret tt, s') ∧
    so_life s' [] 1 ∧ w_kern (os_world s') = [].
Proof.
  destruct (pair_sources_spec polled_pair [tt] 1 polled_pair_life) as (_ & Hrem & _).
  destruct (Hrem ltac:(done)) as (s' & E & Hl & _ & Ek). exists s'. exact (conj E (conj Hl Ek)).
Defined.
End LifeSample.
