(* ===== verification/OpenLife.v ===== *)
(** * Descriptors of objects

    Opening the character device of a client of the sequencer, of a card and
    of a user instance of a timer: which descriptors are open afterwards, on
    every path.  The system keeps the set of the descriptors that are open. *)
From S2P Require Import Prelude Heap SeqUapi Struct Kernel Sysfs Object SampleSystem.
From S2P Require Import SampleRawmidi SeqQuery SeqUserClient CtlQuery CtlCard TimerQuery TimerUserInstance.

(** ** Open descriptors

    [open] gives a number that is not in use, and puts it in use when it
    succeeds; [close] takes it out; requests and libudev leave the descriptors
    of the process as they are. *)
Class Descriptors (K : Type) := open_fds : K → gset Z.

Class DescriptorsLaws (K : Type) `{!Kernel K} `{!Udev K} `{!Descriptors K} : Prop := {
  fds_open path flags (k : K) fd k' :
    sys_open path flags k = (Sret fd, k') →
    0 ≤ fd ∧ (fd ∉ open_fds k) ∧ open_fds k' = {[fd]} ∪ open_fds k;
  fds_not_open path flags (k : K) e k' :
    sys_open path flags k = (Serr e, k') → open_fds k' = open_fds k;
  fds_close fd (k : K) : open_fds (sys_close fd k) = difference (open_fds k) {[fd]};
  fds_ioctl fd req s (k : K) : open_fds (sys_ioctl fd req s k).2 = open_fds k;
  fds_udev_new (k : K) : open_fds (udev_new k).2 = open_fds k;
  fds_udev_unref u (k : K) : open_fds (udev_unref u k) = open_fds k;
  fds_udev_device u s n (k : K) :
    open_fds (udev_device_new_from_subsystem_sysname u s n k).2 = open_fds k;
  fds_device_unref d (k : K) : open_fds (udev_device_unref d k) = open_fds k;
}.

Section opens.
Context {AL : Allocator} {GL : GLib} {K : Type} {KERN : Kernel K} {UD : Udev K}.
Context {DS : Descriptors K} {DL : DescriptorsLaws K}.
Implicit Types (h : heap) (k : K).

(** Looking a node up has an answer, and leaves memory and descriptors alone. *)
Lemma lookup_fds sysname func h k : ∃ r k',
  lookup_and_allocate_string_by_sysname sysname func (World h k) = (Ret r, World h k') ∧
  open_fds k' = open_fds k.
Proof.
  unfold lookup_and_allocate_string_by_sysname, sys, mbind, M_bind. cbn [w_kern w_heap].
  pose proof (fds_udev_new k) as H1. destruct (udev_new k) as [[u|e] k1]; cbn [fst snd] in H1.
  2: by eexists _, _.
  cbn [w_kern w_heap]. pose proof (fds_udev_device u SOUND_SUBSYSTEM sysname k1) as H2.
  destruct (udev_device_new_from_subsystem_sysname _ _ _ k1) as [[dev|e] k2]; cbn [w_kern w_heap fst snd] in *.
  - eexists _, _. split; [done|]. rewrite fds_udev_unref, fds_device_unref. congruence.
  - eexists _, _. split; [done|]. rewrite fds_udev_unref. congruence.
Qed.

Lemma devnode_fds (m : M (world K) string) sysname what h k :
  m = or_file_error (lookup_and_allocate_devname_by_sysname sysname) what →
  ∃ r k', m (World h k) = (match r with inl s => Ret s | inr e => Fail e end, World h k') ∧
    open_fds k' = open_fds k.
Proof.
  intros ->. destruct (lookup_fds sysname udev_device_get_devnode h k) as (r & k' & E & Hk).
  unfold or_file_error, lookup_and_allocate_devname_by_sysname. rewrite (bind_Ret _ _ _ _ _ E).
  destruct r as [s|e]; [by exists (inl s), k'|]. by eexists (inr _), k'.
Qed.

(** ** Objects that open a device *)

Inductive openable := OpenClient | OpenCard (card_id : Z) | OpenInstance.

Definition op_state (d : openable) : Type :=
  match d with
  | OpenClient => cstate K | OpenCard _ => ostate card K | OpenInstance => ostate instance K
  end.

Definition op_world (d : openable) : op_state d → world K :=
  match d with OpenClient => cs_world | OpenCard _ => os_world | OpenInstance => os_world end.

Definition op_fd (d : openable) : op_state d → Z :=
  match d with
  | OpenClient => λ s, uc_fd (cs_self s)
  | OpenCard _ => λ s, ca_fd (os_priv s)
  | OpenInstance => λ s, ui_fd (os_priv s)
  end.

Definition op_open (d : openable) (flag : Z) : M (op_state d) unit :=
  match d with
  | OpenClient => alsaseq_user_client_open flag
  | OpenCard c => alsactl_card_open c flag
  | OpenInstance => alsatimer_user_instance_open flag
  end.

Definition op_finalize (d : openable) : M (op_state d) unit :=
  match d with
  | OpenClient => seq_user_client_finalize
  | OpenCard _ => ctl_card_finalize
  | OpenInstance => timer_user_instance_finalize
  end.

(** A descriptor that is closed again. *)
Lemma fds_closed path flags fd k k' k2 :
  sys_open path flags k = (Sret fd, k') → open_fds k2 = open_fds k' →
  open_fds (sys_close fd k2) = open_fds k.
Proof.
  intros (_ & Hn & E)%fds_open E2. rewrite fds_close, E2, E. set_solver.
Qed.

(** Computes the calls of a method that do not depend on the system. *)
Ltac calls :=
  unfold mbind, M_bind, out, outside, zoom, self, upd, get_private, set_private, gets, modify,
    do_open, do_close, ioctl_val, sys, mret, M_ret, fail, generate_syscall_error;
  cbn [cs_self cs_world os_priv os_world w_heap w_kern fst snd].

(** What an object leaves of the descriptors when it is finalized. *)
Lemma finalize_fds d s h k :
  op_world d s = World h k → 0 ≤ op_fd d s →
  ∃ s', op_finalize d s = (Ret tt, s') ∧ op_world d s' = World h (sys_close (op_fd d s) k).
Proof.
  intros Hw Hfd. apply Z.leb_le in Hfd.
  destruct d; destruct s as [p w]; cbn [op_world op_fd cs_world cs_self os_world os_priv] in *; subst w;
    unfold op_finalize, seq_user_client_finalize, ctl_card_finalize, timer_user_instance_finalize;
    calls; rewrite Hfd; calls; eexists; (split; [reflexivity|done]).
Qed.

(** The outcome of opening an object that had the descriptor [fd]. *)
Definition opened_ok (d : openable) (fd : Z) h k (r : outcome unit) (s1 : op_state d) : Prop :=
  ∃ k1, op_world d s1 = World h k1 ∧
    match r with
    | Ret _ => 0 ≤ op_fd d s1 ∧ op_fd d s1 ∉ open_fds k ∧ open_fds k1 = {[op_fd d s1]} ∪ open_fds k
    | Fail _ => open_fds k1 = open_fds k ∧ (op_fd d s1 = -1 ∨ op_fd d s1 = fd)
    | _ => False
    end.

(** The end of a path that fails, with the equation of its descriptors. *)
Ltac ends H side :=
  eexists _, _; (split; [reflexivity|]); eexists; (split; [reflexivity|]);
  (split; [rewrite H; congruence|side]).

(** The requests after the descriptor was taken leave it open. *)
Lemma fds_requested path flags fd k k' k2 :
  sys_open path flags k = (Sret fd, k') → open_fds k2 = open_fds k' →
  0 ≤ fd ∧ fd ∉ open_fds k ∧ open_fds k2 = {[fd]} ∪ open_fds k.
Proof. intros (Hfd & Hn & E)%fds_open ->. done. Qed.

Lemma open_client_fds flag c h k : ∃ r s1,
  alsaseq_user_client_open flag (CState c (World h k)) = (r, s1) ∧
  opened_ok OpenClient (uc_fd c) h k r s1.
Proof.
  unfold alsaseq_user_client_open. calls.
  destruct (devnode_fds alsaseq_get_seq_devnode "seq" _ h k eq_refl) as ([node|e] & k1 & -> & H1); calls.
  2: ends H1 ltac:(by right).
  destruct (sys_open node _ k1) as [[fd|e] k2] eqn:Eo; calls.
  2: ends (fds_not_open _ _ _ _ _ Eo) ltac:(by left).
  pose proof (fds_ioctl fd SEQ_CLIENT_ID (le_split 4 (uc_client_id c)) k2) as H3. cbn [uc_client_id].
  destruct (sys_ioctl fd SEQ_CLIENT_ID _ k2) as [[[u3|e3] s3] k3]; cbn [snd] in H3; calls.
  2: ends (fds_closed _ _ _ _ _ k3 Eo H3) ltac:(by left).
  pose proof (fds_ioctl fd SEQ_PVERSION (alloc_junk h 4) k3) as H4.
  destruct (sys_ioctl fd SEQ_PVERSION _ k3) as [[[u4|e4] s4] k4]; cbn [snd] in H4; rewrite H3 in H4; calls.
  2: ends (fds_closed _ _ _ _ _ k4 Eo H4) ltac:(by left).
  eexists _, _. split; [reflexivity|]. eexists. split; [reflexivity|]. rewrite <- H1.
  by apply (fds_requested _ _ _ _ _ _ Eo).
Qed.

Lemma open_card_fds id flag c h k : ∃ r s1,
  alsactl_card_open id flag (OState c (World h k)) = (r, s1) ∧
  opened_ok (OpenCard id) (ca_fd c) h k r s1.
Proof.
  unfold alsactl_card_open. calls.
  destruct (devnode_fds (alsactl_get_control_devnode id) _ _ h k eq_refl)
    as ([node|e] & k1 & -> & H1); calls.
  2: ends H1 ltac:(by right).
  destruct (sys_open node _ k1) as [[fd|e] k2] eqn:Eo; calls.
  2: ends (fds_not_open _ _ _ _ _ Eo) ltac:(by left).
  pose proof (fds_ioctl fd CTL_PVERSION (alloc_junk h 4) k2) as H3.
  destruct (sys_ioctl fd CTL_PVERSION _ k2) as [[[u3|e3] s3] k3]; cbn [snd] in H3; calls.
  2: ends (fds_closed _ _ _ _ _ k3 Eo H3) ltac:(by left).
  eexists _, _. split; [reflexivity|]. eexists. split; [reflexivity|]. rewrite <- H1.
  by apply (fds_requested _ _ _ _ _ _ Eo).
Qed.

Lemma open_instance_fds flag i h k : ∃ r s1,
  alsatimer_user_instance_open flag (OState i (World h k)) = (r, s1) ∧
  opened_ok OpenInstance (ui_fd i) h k r s1.
Proof.
  unfold alsatimer_user_instance_open. calls.
  destruct (devnode_fds alsatimer_get_devnode _ _ h k eq_refl) as ([node|e] & k1 & -> & H1); calls.
  2: ends H1 ltac:(by right).
  destruct (sys_open node _ k1) as [[fd|e] k2] eqn:Eo; calls.
  2: ends (fds_not_open _ _ _ _ _ Eo) ltac:(by left).
  pose proof (fds_ioctl fd TIMER_PVERSION (alloc_junk h 4) k2) as H3.
  destruct (sys_ioctl fd TIMER_PVERSION _ k2) as [[[u3|e3] s3] k3]; cbn [snd] in H3; calls.
  2: ends (fds_closed _ _ _ _ _ k3 Eo H3) ltac:(by left).
  eexists _, _. split; [reflexivity|]. eexists. split; [reflexivity|]. rewrite <- H1.
  by apply (fds_requested _ _ _ _ _ _ Eo).
Qed.

(** C21: opening a device takes one descriptor or none: a call that succeeds
    leaves exactly one more open, which the object holds and its finalizer
    closes; a call that fails, at whichever step, leaves those open that were,
    and the object with none, or with what it had when not even a node was
    found.  A descriptor that an object already held stays open in either case,
    with no object that would close it. *)
Theorem open_descriptor_spec d flag s h k :
  op_world d s = World h k →
  ∃ r s1 k1, op_open d flag s = (r, s1) ∧ op_world d s1 = World h k1 ∧
    match r with
    | Ret _ => 0 ≤ op_fd d s1 ∧ op_fd d s1 ∉ open_fds k ∧
        open_fds k1 = {[op_fd d s1]} ∪ open_fds k ∧
        ∃ s2 k2, op_finalize d s1 = (Ret tt, s2) ∧ op_world d s2 = World h k2 ∧
          open_fds k2 = open_fds k
    | Fail _ => open_fds k1 = open_fds k ∧ (op_fd d s1 = -1 ∨ op_fd d s1 = op_fd d s)
    | _ => False
    end.
Proof.
  intros Hw.
  assert (∃ r s1, op_open d flag s = (r, s1) ∧ opened_ok d (op_fd d s) h k r s1) as
    (r & s1 & E & k1 & Hw1 & H).
  { destruct d; destruct s as [p w]; cbn [op_world cs_world os_world] in Hw; subst w.
    - apply open_client_fds.
    - apply open_card_fds.
    - apply open_instance_fds. }
  exists r, s1, k1. split; [done|]. split; [done|]. destruct r; try done.
  destruct H as (Hfd & Hn & Ek). split; [done|]. split; [done|]. split; [done|].
  destruct (finalize_fds d s1 h k1 Hw1 Hfd) as (s2 & Ef & Hw2). exists s2, (sys_close (op_fd d s1) k1).
  split; [done|]. split; [done|]. rewrite fds_close, Ek. set_solver.
Qed.
End opens.

(** ** Concrete runs *)

Module SampleDescriptors.
Import SampleRawmidi.

(** The descriptors the sample system knows the flags of. *)
#[export] Instance files_fds : Descriptors files := λ k, dom (D := gset Z) k.

#[export] Instance files_fds_laws : DescriptorsLaws files.
Proof.
  split; unfold open_fds, files_fds; try done.
  - intros path flags k fd k' [= <- <-]. pose proof (next_fd_spec k) as [H Hlt].
    split; [lia|]. split; [|by rewrite dom_insert_L].
    intros [flags' Hin]%elem_of_dom. specialize (Hlt _ _ Hin). lia.
  - intros fd k. cbn [sys_close rawmidi_kernel]. by rewrite dom_delete_L.
  - intros fd req s k. cbn [sys_ioctl rawmidi_kernel]. by destruct (answer req s).
Qed.
End SampleDescriptors.

Module OpenWitness.
Import Sample SampleRawmidi SampleDescriptors.
#[local] Existing Instance Bump.allocator.

(** A card that holds the descriptor 4 is opened again: the new descriptor is
    closed in the end, the former one is not. *)
Definition holding : ostate card files :=
  OState (Card 4 None 0 [0; 0; 0] 1) (World ∅ ({[4 := 0]} : files)).

Lemma open_descriptor_spec_witness :
  ∃ r s1 k1, alsactl_card_open 0 0 holding = (r, s1) ∧ os_world s1 = World ∅ k1 ∧
    match r with
    | Ret _ => 0 ≤ ca_fd (os_priv s1) ∧ ca_fd (os_priv s1) ∉ ({[4]} : gset Z) ∧
        open_fds k1 = {[ca_fd (os_priv s1)]} ∪ {[4]} ∧
        ∃ s2 k2, ctl_card_finalize s1 = (Ret tt, s2) ∧ os_world s2 = World ∅ k2 ∧
          open_fds k2 = {[4]}
    | Fail _ => open_fds k1 = {[4]} ∧ (ca_fd (os_priv s1) = -1 ∨ ca_fd (os_priv s1) = 4)
    | _ => False
    end.
Proof. exact (open_descriptor_spec (OpenCard 0) 0 holding ∅ {[4 := 0]} eq_refl). Defined.
End OpenWitness.
