(* ===== verification/Classes.v ===== *)
(** * Classes of the objects that hold a descriptor

    What [class_init] of a card, a client of the sequencer, a user instance of
    a timer and a pair of rawmidi streams installs: the properties, which are
    only read, and the signals with the function that calls their handlers.
    A signal names a member of the structure of the class for the default
    handler; the structures are those of the headers. *)
From S2P Require Import Prelude Heap Struct Kernel Object GValue.
From S2P Require Import SeqUserClient CtlCard TimerUserInstance RawmidiStreamPair.
From Stdlib Require Import Ascii.
Open Scope Z_scope.

(** [g_value_set_string]: a copy of the string, or NULL. *)
Definition g_value_set_string (val : gvalue) (s : option string) : gvalue :=
  set_if (bool_decide (v_type val = G_TYPE_STRING)) (DPointer (bytes_of_string <$> s)) val.

(** ** Signals *)

(** The functions that call a handler with the arguments of an emission. *)
Inductive marshaller :=
  | g_cclosure_marshal_VOID__VOID
  | g_cclosure_marshal_VOID__BOXED
  | alsactl_sigs_marshal_VOID__BOXED_FLAGS.

(** The groups of types a marshaller collects its arguments by. *)
Inductive group := BOXED | FLAGS.

#[export] Instance group_eq_dec : EqDecision group.
Proof. solve_decision. Defined.

Definition marshal_groups (m : marshaller) : list group :=
  match m with
  | g_cclosure_marshal_VOID__VOID => []
  | g_cclosure_marshal_VOID__BOXED => [BOXED]
  | alsactl_sigs_marshal_VOID__BOXED_FLAGS => [BOXED; FLAGS]
  end.

Definition in_group (g : group) (t : gtype) : bool :=
  match g with BOXED => holds_boxed t | FLAGS => holds_flags t end.

(** [g_signal_new]: the name, the member for the default handler, the
    marshaller and the types of the arguments. *)
Record signal := Signal {
  sig_name : string;
  sig_handler : string;
  sig_marshaller : marshaller;
  sig_params : list gtype;
}.

(** A member of the structure of a class: its name and the types of its
    arguments after the instance. *)
Record handler := Handler { ha_name : string; ha_params : list gtype }.

(** ** [src/src/ctl/card.c], [card.h] *)

Inductive ctl_card_prop := CTL_CARD_PROP_DEVNODE | CTL_CARD_PROP_SUBSCRIBED.
Inductive ctl_card_sig_type := CTL_CARD_SIG_HANDLE_ELEM_EVENT | CTL_CARD_SIG_HANDLE_DISCONNECTION.

Definition ALSACTL_TYPE_ELEM_ID : gtype := G_TYPE_BOXED "ALSACtlElemId".
Definition ALSACTL_TYPE_ELEM_EVENT_MASK : gtype := G_TYPE_FLAGS "ALSACtlElemEventMask".

Definition ctl_card_props (id : ctl_card_prop) : pspec :=
  match id with
  | CTL_CARD_PROP_DEVNODE => g_param_spec_string "devnode" READABLE
  | CTL_CARD_PROP_SUBSCRIBED => g_param_spec_boolean "subscribed" false READABLE
  end.

Definition ctl_card_sigs (id : ctl_card_sig_type) : signal :=
  match id with
  | CTL_CARD_SIG_HANDLE_ELEM_EVENT =>
      Signal "handle-elem-event" "handle_elem_event" alsactl_sigs_marshal_VOID__BOXED_FLAGS
        [ALSACTL_TYPE_ELEM_ID; ALSACTL_TYPE_ELEM_EVENT_MASK]
  | CTL_CARD_SIG_HANDLE_DISCONNECTION =>
      Signal "handle-disconnection" "handle_disconnection" g_cclosure_marshal_VOID__VOID []
  end.

Definition ALSACtlCardClass : list handler := [
  Handler "handle_elem_event" [ALSACTL_TYPE_ELEM_ID; ALSACTL_TYPE_ELEM_EVENT_MASK];
  Handler "handle_disconnection" []
].

(** ** [src/src/seq/user-client.c], [user-client.h] *)

Inductive seq_user_client_prop := SEQ_USER_CLIENT_PROP_CLIENT_ID.
Inductive seq_user_client_sig_type := SEQ_USER_CLIENT_SIG_TYPE_HANDLE_EVENT.

Definition ALSASEQ_TYPE_EVENT_CNTR : gtype := G_TYPE_BOXED "ALSASeqEventCntr".

Definition seq_user_client_props (id : seq_user_client_prop) : pspec :=
  match id with
  | SEQ_USER_CLIENT_PROP_CLIENT_ID => g_param_spec_uchar "client-id" 0 G_MAXUINT8 0 READABLE
  end.

Definition seq_user_client_sigs (id : seq_user_client_sig_type) : signal :=
  match id with
  | SEQ_USER_CLIENT_SIG_TYPE_HANDLE_EVENT =>
      Signal "handle-event" "handle_event" g_cclosure_marshal_VOID__BOXED [ALSASEQ_TYPE_EVENT_CNTR]
  end.

Definition ALSASeqUserClientClass : list handler := [
  Handler "handle_event" [ALSASEQ_TYPE_EVENT_CNTR]
].

(** ** [src/src/timer/user-instance.c], [user-instance.h] *)

Inductive timer_user_instance_sig_type :=
  | TIMER_USER_INSTANCE_SIG_HANDLE_TICK_TIME_EVENT
  | TIMER_USER_INSTANCE_SIG_HANDLE_REAL_TIME_EVENT
  | TIMER_USER_INSTANCE_SIG_HANDLE_DISCONNECTION.

Definition ALSATIMER_TYPE_TICK_TIME_EVENT : gtype := G_TYPE_BOXED "ALSATimerTickTimeEvent".
Definition ALSATIMER_TYPE_REAL_TIME_EVENT : gtype := G_TYPE_BOXED "ALSATimerRealTimeEvent".

Definition timer_user_instance_sigs (id : timer_user_instance_sig_type) : signal :=
  match id with
  | TIMER_USER_INSTANCE_SIG_HANDLE_TICK_TIME_EVENT =>
      Signal "handle-tick-time-event" "handle_tick_time_event" g_cclosure_marshal_VOID__BOXED
        [ALSATIMER_TYPE_TICK_TIME_EVENT]
  | TIMER_USER_INSTANCE_SIG_HANDLE_REAL_TIME_EVENT =>
      Signal "handle-real-time-event" "handle_real_time_event" g_cclosure_marshal_VOID__BOXED
        [ALSATIMER_TYPE_REAL_TIME_EVENT]
  | TIMER_USER_INSTANCE_SIG_HANDLE_DISCONNECTION =>
      Signal "handle-disconnection" "handle_disconnection" g_cclosure_marshal_VOID__VOID []
  end.

Definition ALSATimerUserInstanceClass : list handler := [
  Handler "handle_tick_time_event" [ALSATIMER_TYPE_TICK_TIME_EVENT];
  Handler "handle_real_time_event" [ALSATIMER_TYPE_REAL_TIME_EVENT];
  Handler "handle_disconnection" []
].

(** ** [src/src/rawmidi/stream-pair.c], [stream-pair.h] *)

Inductive rawmidi_stream_pair_prop := RAWMIDI_STREAM_PAIR_PROP_DEVNODE.
Inductive rawmidi_stream_pair_sig_type :=
  | RAWMIDI_STREAM_PAIR_SIG_HANDLE_MESSAGES
  | RAWMIDI_STREAM_PAIR_SIG_DISCONNECTION.

Definition rawmidi_stream_pair_props (id : rawmidi_stream_pair_prop) : pspec :=
  match id with
  | RAWMIDI_STREAM_PAIR_PROP_DEVNODE => g_param_spec_string "devnode" READABLE
  end.

Definition rawmidi_stream_pair_sigs (id : rawmidi_stream_pair_sig_type) : signal :=
  match id with
  | RAWMIDI_STREAM_PAIR_SIG_HANDLE_MESSAGES =>
      Signal "handle-messages" "handle_messages" g_cclosure_marshal_VOID__VOID []
  | RAWMIDI_STREAM_PAIR_SIG_DISCONNECTION =>
      Signal "handle-disconnection" "handle_disconnection" g_cclosure_marshal_VOID__VOID []
  end.

Definition ALSARawmidiStreamPairClass : list handler := [
  Handler "handle_messages" []; Handler "handle_disconnection" []
].

(** ** Reading of properties *)

Section read.
Context {K : Type}.

(** An identifier that is not installed is reported, and nothing is written:
    the identifiers are those of the type. *)
Definition ctl_card_get_property (id : ctl_card_prop) (val : gvalue) : M (ostate card K) gvalue :=
  match id with
  | CTL_CARD_PROP_DEVNODE =>
      devnode ← ctl_card_get_property_devnode; mret (g_value_set_string val devnode)
  | CTL_CARD_PROP_SUBSCRIBED =>
      subscribed ← ctl_card_get_property_subscribed;
      mret (g_value_set_boolean val (if subscribed : bool then 1 else 0))
  end.

Definition seq_user_client_get_property (id : seq_user_client_prop) (val : gvalue) :
    M (cstate K) gvalue :=
  match id with
  | SEQ_USER_CLIENT_PROP_CLIENT_ID =>
      client_id ← seq_user_client_get_property_client_id; mret (g_value_set_uchar val client_id)
  end.

Definition rawmidi_stream_pair_get_property (id : rawmidi_stream_pair_prop) (val : gvalue) :
    M (ostate stream_pair K) gvalue :=
  match id with
  | RAWMIDI_STREAM_PAIR_PROP_DEVNODE =>
      devnode ← rawmidi_stream_pair_get_property_devnode; mret (g_value_set_string val devnode)
  end.
End read.

(** ** The four classes together *)

Inductive main_class := MCard | MUserClient | MUserInstance | MStreamPair.

Definition sig_of (c : main_class) : Type :=
  match c with
  | MCard => ctl_card_sig_type | MUserClient => seq_user_client_sig_type
  | MUserInstance => timer_user_instance_sig_type | MStreamPair => rawmidi_stream_pair_sig_type
  end.

Definition class_sigs (c : main_class) : sig_of c → signal :=
  match c with
  | MCard => ctl_card_sigs | MUserClient => seq_user_client_sigs
  | MUserInstance => timer_user_instance_sigs | MStreamPair => rawmidi_stream_pair_sigs
  end.

Definition class_handlers (c : main_class) : list handler :=
  match c with
  | MCard => ALSACtlCardClass | MUserClient => ALSASeqUserClientClass
  | MUserInstance => ALSATimerUserInstanceClass | MStreamPair => ALSARawmidiStreamPairClass
  end.

(** [G_STRUCT_OFFSET] of a member *)
Definition class_handler (c : main_class) (name : string) : option handler :=
  List.find (λ h, bool_decide (ha_name h = name)) (class_handlers c).

(** The properties that can be read. *)
Inductive main_prop :=
  | PCard (id : ctl_card_prop)
  | PUserClient (id : seq_user_client_prop)
  | PStreamPair (id : rawmidi_stream_pair_prop).

Definition main_spec (p : main_prop) : pspec :=
  match p with
  | PCard id => ctl_card_props id
  | PUserClient id => seq_user_client_props id
  | PStreamPair id => rawmidi_stream_pair_props id
  end.

Section main.
Context {K : Type}.
Implicit Types (w : world K).

Definition main_state (p : main_prop) : Type :=
  match p with
  | PCard _ => ostate card K | PUserClient _ => cstate K | PStreamPair _ => ostate stream_pair K
  end.

Definition main_get_property (p : main_prop) (val : gvalue) : M (main_state p) gvalue :=
  match p with
  | PCard id => ctl_card_get_property id val
  | PUserClient id => seq_user_client_get_property id val
  | PStreamPair id => rawmidi_stream_pair_get_property id val
  end.

(** What the private data say of the property. *)
Definition main_shown (p : main_prop) : main_state p → gdata :=
  match p with
  | PCard CTL_CARD_PROP_DEVNODE => λ s, DPointer (bytes_of_string <$> ca_devnode (os_priv s))
  | PCard CTL_CARD_PROP_SUBSCRIBED => λ s,
      DNumber (if bool_decide (0 < ca_subscribers (os_priv s)) then 1 else 0)
  | PUserClient SEQ_USER_CLIENT_PROP_CLIENT_ID => λ s, DNumber (u8 (uc_client_id (cs_self s)))
  | PStreamPair RAWMIDI_STREAM_PAIR_PROP_DEVNODE => λ s,
      DPointer (bytes_of_string <$> sp_devnode (os_priv s))
  end.

(** A value that the specification admits; the node of an object that is not
    open is NULL. *)
Definition spec_admits (spec : pspec) (val : gvalue) : Prop :=
  v_type val = spec_type spec ∧
  match v_data val with
  | DNumber v => is_pointer (spec_type spec) = false ∧ (spec_limits spec).1 ≤ v ≤ (spec_limits spec).2
  | DPointer _ => is_pointer (spec_type spec) = true
  end.

(** A value of another type is left as it is. *)
Lemma main_get_other p val s :
  v_type val ≠ spec_type (main_spec p) → main_get_property p val s = (Ret val, s).
Proof.
  destruct p as [[]|[]|[]]; cbn [main_spec ctl_card_props seq_user_client_props
    rawmidi_stream_pair_props spec_type g_param_spec_string g_param_spec_boolean g_param_spec_uchar];
    intros Hne; cbn; unfold ctl_card_get_property_devnode, ctl_card_get_property_subscribed,
      seq_user_client_get_property_client_id, rawmidi_stream_pair_get_property_devnode,
      g_value_set_string, g_value_set_boolean, g_value_set_uchar, set_if,
      mbind, M_bind, mret, M_ret, get_private, self, gets; by rewrite bool_decide_false.
Qed.

Lemma main_get_run p s :
  main_get_property p (g_value_init (spec_type (main_spec p))) s =
    (Ret (GValue (spec_type (main_spec p)) (main_shown p s)), s).
Proof.
  destruct p as [[]|[]|[]]; try reflexivity.
  - cbn [main_get_property ctl_card_get_property main_shown main_spec ctl_card_props spec_type
      g_param_spec_boolean].
    unfold ctl_card_get_property_subscribed, mbind, M_bind, mret, M_ret, get_private, gets.
    unfold g_value_set_boolean, set_if, g_value_init. cbn [is_pointer v_type].
    rewrite bool_decide_true by done.
    destruct (Z.ltb_spec 0 (ca_subscribers (os_priv s))).
    + by rewrite bool_decide_true.
    + by rewrite bool_decide_false by lia.
  - cbn [main_get_property seq_user_client_get_property main_shown main_spec seq_user_client_props
      spec_type g_param_spec_uchar].
    unfold seq_user_client_get_property_client_id, mbind, M_bind, mret, M_ret, self, gets.
    unfold g_value_set_uchar, set_if, g_value_init. cbn [is_pointer v_type].
    rewrite bool_decide_true by done. by rewrite (u8_id (u8 _)) by apply u8_range.
Qed.

Lemma main_shown_admitted p s :
  spec_admits (main_spec p) (GValue (spec_type (main_spec p)) (main_shown p s)).
Proof.
  destruct p as [[]|[]|[]]; split; try done; cbn [v_data main_shown main_spec].
  - split; [done|]. cbn. case_bool_decide; lia.
  - split; [done|]. pose proof (u8_range (uc_client_id (cs_self s))). cbn. unfold is_u8, G_MAXUINT8 in *. lia.
Qed.
End main.

(** *** Names and initial values *)

(** The name of a signal with dashes turned into underscores. *)
Definition member_name (signal : string) : string :=
  String.string_of_list_ascii (map (λ c, if Ascii.eqb c "-"%char then "_"%char else c)
    (String.list_ascii_of_string signal)).

(** Properties of the same class. *)
Definition same_class (p q : main_prop) : bool :=
  match p, q with
  | PCard _, PCard _ | PUserClient _, PUserClient _ | PStreamPair _, PStreamPair _ => true
  | _, _ => false
  end.

(** An object as its constructor leaves it. *)
Definition main_new {K} (p : main_prop) (w : world K) : main_state p :=
  match p with
  | PCard _ => OState alsactl_card_new w
  | PUserClient _ => CState alsaseq_user_client_new w
  | PStreamPair _ => OState alsarawmidi_stream_pair_new w
  end.

(** The descriptions of the four classes fit the code behind them.  Each
    signal is emitted through a function that collects as many arguments as
    the signal declares, each from the group of its type, and its default
    handler is the member of the structure of the class that has the name of
    the signal and takes arguments of these types; no two signals of a class
    share a name or a handler.  Properties are only read, no two of a class
    share a name, and a new object shows the default of each property but of
    the nodes, which it has none of (the specification says the empty string).
    Reading a property shows what the private data say, changes nothing, and
    gives a value the specification admits; a value of another type is left as
    it is. *)
Theorem classes_fit_their_objects {K : Type} :
  (∀ c id, let s := class_sigs c id in
    Forall2 (λ g t, in_group g t = true) (marshal_groups (sig_marshaller s)) (sig_params s) ∧
    sig_handler s = member_name (sig_name s) ∧
    (∃ h, class_handler c (sig_handler s) = Some h ∧ ha_params h = sig_params s) ∧
    ∀ id', sig_name (class_sigs c id') = sig_name s ∨ sig_handler (class_sigs c id') = sig_handler s →
      id' = id) ∧
  (∀ p, spec_access (main_spec p) = READABLE ∧
    (∀ q, same_class p q = true → spec_name (main_spec q) = spec_name (main_spec p) → q = p) ∧
    ∀ w : world K, main_shown p (main_new p w) =
      if is_pointer (spec_type (main_spec p)) then DPointer None else spec_default (main_spec p)) ∧
  (∀ p (s : main_state (K := K) p), ∃ val,
    main_get_property p (g_value_init (spec_type (main_spec p))) s = (Ret val, s) ∧
    v_data val = main_shown p s ∧ spec_admits (main_spec p) val) ∧
  (∀ p (s : main_state (K := K) p) val,
    v_type val ≠ spec_type (main_spec p) → main_get_property p val s = (Ret val, s)).
Proof.
  split_and!.
  - intros c id. cbv zeta. split_and!.
    + destruct c, id; repeat constructor.
    + by destruct c, id.
    + destruct c, id; eexists; split; reflexivity.
    + by destruct c, id; intros [] [H|H].
  - intros p. split_and!; [by destruct p as [[]|[]|[]]|..].
    + by destruct p as [[]|[]|[]]; intros [[]|[]|[]].
    + by destruct p as [[]|[]|[]].
  - intros p s. eexists. split; [apply main_get_run|]. split; [done|]. apply main_shown_admitted.
  - intros p s val. apply main_get_other.
Qed.

(** The number of a client does not fit a value for a string. *)
Lemma classes_fit_their_objects_witness :
  main_get_property (K := unit) (PUserClient SEQ_USER_CLIENT_PROP_CLIENT_ID)
    (g_value_init G_TYPE_STRING) (CState alsaseq_user_client_new (World ∅ tt)) =
    (Ret (GValue G_TYPE_STRING (DPointer None)), CState alsaseq_user_client_new (World ∅ tt)).
Proof.
  apply (proj2 (proj2 (proj2 classes_fit_their_objects)) (PUserClient SEQ_USER_CLIENT_PROP_CLIENT_ID)). done.
Defined.
