(* ===== verification/Enums.v ===== *)
(** * The enumerations of the libraries

    The headers [src/src/.../alsa...-enum-types.h]: each enumeration is an
    inductive type with its enumerators, and the number each of them stands
    for, which is a constant of the interface of the kernel or counted by C.
    Enumerations that are marked as flags are sets of bits.  The theorem says
    that the fields of the structures keep them. *)
From S2P Require Import Prelude Heap SeqUapi Struct SeqStructs SeqEvent CtlStructs CtlObjects TimerQuery.
From S2P Require Import CtlCard TimerObjects TimerUserInstance TimerEvent RawmidiQuery RawmidiObjects RawmidiStreamPair HwdepQuery SeqUserClient.

(** An enumeration as it is registered with GObject: its enumerators, in order,
    and their numbers. *)
Class GEnum (A : Type) `{EqDecision A} := {
  value : A → Z;
  enumerators : list A;
}.

Class GEnumLaws (A : Type) `{GEnum A} : Prop := {
  enumerators_all a : a ∈ enumerators;
  value_inj : Inj (=) (=) (value (A := A));
}.
#[export] Existing Instance value_inj.

(** Both laws are checked on the finitely many enumerators. *)
Lemma enum_laws_by_cases {A} `{GEnum A} :
  (∀ a, bool_decide (a ∈ enumerators) = true) → bool_decide (NoDup (map value enumerators)) = true →
  GEnumLaws A.
Proof.
  intros Hall Hnd. assert (∀ a : A, a ∈ enumerators) as Ha.
  { intros a. specialize (Hall a). by apply bool_decide_eq_true in Hall. }
  apply bool_decide_eq_true in Hnd. split; [done|]. intros a b E.
  destruct (list_elem_of_lookup_1 _ _ (Ha a)) as [i Hi], (list_elem_of_lookup_1 _ _ (Ha b)) as [j Hj].
  assert (i = j) as <-.
  { eapply NoDup_lookup; [exact Hnd|..]; rewrite list_lookup_fmap, ?Hi, ?Hj; [done|]. simpl. by rewrite E. }
  congruence.
Qed.

Ltac enumeration := apply enum_laws_by_cases; [by intros []|by vm_compute].

(** ** [seq/alsaseq-enum-types.h] *)

Module SeqEnums.
Inductive ALSASeqSpecificAddress :=
  | ALSASEQ_SPECIFIC_ADDRESS_UNKNOWN
  | ALSASEQ_SPECIFIC_ADDRESS_SUBSCRIBERS
  | ALSASEQ_SPECIFIC_ADDRESS_BROADCAST.

#[global] Instance ALSASeqSpecificAddress_eq_dec : EqDecision ALSASeqSpecificAddress.
Proof. solve_decision. Defined.

#[global] Instance ALSASeqSpecificAddress_enum : GEnum ALSASeqSpecificAddress := {|
  value a :=
    match a with
    | ALSASEQ_SPECIFIC_ADDRESS_UNKNOWN => 253
    | ALSASEQ_SPECIFIC_ADDRESS_SUBSCRIBERS => 254
    | ALSASEQ_SPECIFIC_ADDRESS_BROADCAST => 255
    end;
  enumerators := [
    ALSASEQ_SPECIFIC_ADDRESS_UNKNOWN; ALSASEQ_SPECIFIC_ADDRESS_SUBSCRIBERS;
    ALSASEQ_SPECIFIC_ADDRESS_BROADCAST
  ];
|}.

#[global] Instance ALSASeqSpecificAddress_laws : GEnumLaws ALSASeqSpecificAddress.
Proof. enumeration. Qed.

Inductive ALSASeqSpecificClientId :=
  | ALSASEQ_SPECIFIC_CLIENT_ID_SYSTEM
  | ALSASEQ_SPECIFIC_CLIENT_ID_DUMMY
  | ALSASEQ_SPECIFIC_CLIENT_ID_OSS.

#[global] Instance ALSASeqSpecificClientId_eq_dec : EqDecision ALSASeqSpecificClientId.
Proof. solve_decision. Defined.

#[global] Instance ALSASeqSpecificClientId_enum : GEnum ALSASeqSpecificClientId := {|
  value a :=
    match a with
    | ALSASEQ_SPECIFIC_CLIENT_ID_SYSTEM => 0
    | ALSASEQ_SPECIFIC_CLIENT_ID_DUMMY => 14
    | ALSASEQ_SPECIFIC_CLIENT_ID_OSS => 15
    end;
  enumerators := [
    ALSASEQ_SPECIFIC_CLIENT_ID_SYSTEM; ALSASEQ_SPECIFIC_CLIENT_ID_DUMMY;
    ALSASEQ_SPECIFIC_CLIENT_ID_OSS
  ];
|}.

#[global] Instance ALSASeqSpecificClientId_laws : GEnumLaws ALSASeqSpecificClientId.
Proof. enumeration. Qed.

Inductive ALSASeqClientType :=
  | ALSASEQ_CLIENT_TYPE_NONE
  | ALSASEQ_CLIENT_TYPE_USER
  | ALSASEQ_CLIENT_TYPE_KERNEL.

#[global] Instance ALSASeqClientType_eq_dec : EqDecision ALSASeqClientType.
Proof. solve_decision. Defined.

#[global] Instance ALSASeqClientType_enum : GEnum ALSASeqClientType := {|
  value a :=
    match a with
    | ALSASEQ_CLIENT_TYPE_NONE => 0
    | ALSASEQ_CLIENT_TYPE_USER => 1
    | ALSASEQ_CLIENT_TYPE_KERNEL => 2
    end;
  enumerators := [
    ALSASEQ_CLIENT_TYPE_NONE; ALSASEQ_CLIENT_TYPE_USER; ALSASEQ_CLIENT_TYPE_KERNEL
  ];
|}.

#[global] Instance ALSASeqClientType_laws : GEnumLaws ALSASeqClientType.
Proof. enumeration. Qed.

Inductive ALSASeqFilterAttrFlag :=
  | ALSASEQ_FILTER_ATTR_FLAG_BROADCAST
  | ALSASEQ_FILTER_ATTR_FLAG_MULTICAST
  | ALSASEQ_FILTER_ATTR_FLAG_BOUNCE.

#[global] Instance ALSASeqFilterAttrFlag_eq_dec : EqDecision ALSASeqFilterAttrFlag.
Proof. solve_decision. Defined.

#[global] Instance ALSASeqFilterAttrFlag_enum : GEnum ALSASeqFilterAttrFlag := {|
  value a :=
    match a with
    | ALSASEQ_FILTER_ATTR_FLAG_BROADCAST => 2 ^ 0
    | ALSASEQ_FILTER_ATTR_FLAG_MULTICAST => 2 ^ 1
    | ALSASEQ_FILTER_ATTR_FLAG_BOUNCE => 2 ^ 2
    end;
  enumerators := [
    ALSASEQ_FILTER_ATTR_FLAG_BROADCAST; ALSASEQ_FILTER_ATTR_FLAG_MULTICAST;
    ALSASEQ_FILTER_ATTR_FLAG_BOUNCE
  ];
|}.

#[global] Instance ALSASeqFilterAttrFlag_laws : GEnumLaws ALSASeqFilterAttrFlag.
Proof. enumeration. Qed.

Inductive ALSASeqSpecificPortId :=
  | ALSASEQ_SPECIFIC_PORT_ID_SYSTEM_TIMER
  | ALSASEQ_SPECIFIC_PORT_ID_SYSTEM_ANNOUNCE.

#[global] Instance ALSASeqSpecificPortId_eq_dec : EqDecision ALSASeqSpecificPortId.
Proof. solve_decision. Defined.

#[global] Instance ALSASeqSpecificPortId_enum : GEnum ALSASeqSpecificPortId := {|
  value a :=
    match a with
    | ALSASEQ_SPECIFIC_PORT_ID_SYSTEM_TIMER => 0
    | ALSASEQ_SPECIFIC_PORT_ID_SYSTEM_ANNOUNCE => 1
    end;
  enumerators := [
    ALSASEQ_SPECIFIC_PORT_ID_SYSTEM_TIMER; ALSASEQ_SPECIFIC_PORT_ID_SYSTEM_ANNOUNCE
  ];
|}.

#[global] Instance ALSASeqSpecificPortId_laws : GEnumLaws ALSASeqSpecificPortId.
Proof. enumeration. Qed.

Inductive ALSASeqPortCapFlag :=
  | ALSASEQ_PORT_CAP_FLAG_READ
  | ALSASEQ_PORT_CAP_FLAG_WRITE
  | ALSASEQ_PORT_CAP_FLAG_DUPLEX
  | ALSASEQ_PORT_CAP_FLAG_SUBS_READ
  | ALSASEQ_PORT_CAP_FLAG_SUBS_WRITE
  | ALSASEQ_PORT_CAP_FLAG_NO_EXPORT.

#[global] Instance ALSASeqPortCapFlag_eq_dec : EqDecision ALSASeqPortCapFlag.
Proof. solve_decision. Defined.

#[global] Instance ALSASeqPortCapFlag_enum : GEnum ALSASeqPortCapFlag := {|
  value a :=
    match a with
    | ALSASEQ_PORT_CAP_FLAG_READ => 2 ^ 0
    | ALSASEQ_PORT_CAP_FLAG_WRITE => 2 ^ 1
    | ALSASEQ_PORT_CAP_FLAG_DUPLEX => 2 ^ 4
    | ALSASEQ_PORT_CAP_FLAG_SUBS_READ => 2 ^ 5
    | ALSASEQ_PORT_CAP_FLAG_SUBS_WRITE => 2 ^ 6
    | ALSASEQ_PORT_CAP_FLAG_NO_EXPORT => 2 ^ 7
    end;
  enumerators := [
    ALSASEQ_PORT_CAP_FLAG_READ; ALSASEQ_PORT_CAP_FLAG_WRITE; ALSASEQ_PORT_CAP_FLAG_DUPLEX;
    ALSASEQ_PORT_CAP_FLAG_SUBS_READ; ALSASEQ_PORT_CAP_FLAG_SUBS_WRITE;
    ALSASEQ_PORT_CAP_FLAG_NO_EXPORT
  ];
|}.

#[global] Instance ALSASeqPortCapFlag_laws : GEnumLaws ALSASeqPortCapFlag.
Proof. enumeration. Qed.

Inductive ALSASeqPortAttrFlag :=
  | ALSASEQ_PORT_ATTR_FLAG_SPECIFIC
  | ALSASEQ_PORT_ATTR_FLAG_MIDI_GENERIC
  | ALSASEQ_PORT_ATTR_FLAG_MIDI_GM
  | ALSASEQ_PORT_ATTR_FLAG_MIDI_GS
  | ALSASEQ_PORT_ATTR_FLAG_MIDI_XG
  | ALSASEQ_PORT_ATTR_FLAG_MIDI_MT32
  | ALSASEQ_PORT_ATTR_FLAG_MIDI_GM2
  | ALSASEQ_PORT_ATTR_FLAG_HARDWARE
  | ALSASEQ_PORT_ATTR_FLAG_SOFTWARE
  | ALSASEQ_PORT_ATTR_FLAG_SYNTHESIZER
  | ALSASEQ_PORT_ATTR_FLAG_PORT
  | ALSASEQ_PORT_ATTR_FLAG_APPLICATION.

#[global] Instance ALSASeqPortAttrFlag_eq_dec : EqDecision ALSASeqPortAttrFlag.
Proof. solve_decision. Defined.

#[global] Instance ALSASeqPortAttrFlag_enum : GEnum ALSASeqPortAttrFlag := {|
  value a :=
    match a with
    | ALSASEQ_PORT_ATTR_FLAG_SPECIFIC => 2 ^ 0
    | ALSASEQ_PORT_ATTR_FLAG_MIDI_GENERIC => 2 ^ 1
    | ALSASEQ_PORT_ATTR_FLAG_MIDI_GM => 2 ^ 2
    | ALSASEQ_PORT_ATTR_FLAG_MIDI_GS => 2 ^ 3
    | ALSASEQ_PORT_ATTR_FLAG_MIDI_XG => 2 ^ 4
    | ALSASEQ_PORT_ATTR_FLAG_MIDI_MT32 => 2 ^ 5
    | ALSASEQ_PORT_ATTR_FLAG_MIDI_GM2 => 2 ^ 6
    | ALSASEQ_PORT_ATTR_FLAG_HARDWARE => 2 ^ 16
    | ALSASEQ_PORT_ATTR_FLAG_SOFTWARE => 2 ^ 17
    | ALSASEQ_PORT_ATTR_FLAG_SYNTHESIZER => 2 ^ 18
    | ALSASEQ_PORT_ATTR_FLAG_PORT => 2 ^ 19
    | ALSASEQ_PORT_ATTR_FLAG_APPLICATION => 2 ^ 20
    end;
  enumerators := [
    ALSASEQ_PORT_ATTR_FLAG_SPECIFIC; ALSASEQ_PORT_ATTR_FLAG_MIDI_GENERIC;
    ALSASEQ_PORT_ATTR_FLAG_MIDI_GM; ALSASEQ_PORT_ATTR_FLAG_MIDI_GS;
    ALSASEQ_PORT_ATTR_FLAG_MIDI_XG; ALSASEQ_PORT_ATTR_FLAG_MIDI_MT32;
    ALSASEQ_PORT_ATTR_FLAG_MIDI_GM2; ALSASEQ_PORT_ATTR_FLAG_HARDWARE;
    ALSASEQ_PORT_ATTR_FLAG_SOFTWARE; ALSASEQ_PORT_ATTR_FLAG_SYNTHESIZER;
    ALSASEQ_PORT_ATTR_FLAG_PORT; ALSASEQ_PORT_ATTR_FLAG_APPLICATION
  ];
|}.

#[global] Instance ALSASeqPortAttrFlag_laws : GEnumLaws ALSASeqPortAttrFlag.
Proof. enumeration. Qed.

Inductive ALSASeqEventType :=
  | ALSASEQ_EVENT_TYPE_SYSTEM
  | ALSASEQ_EVENT_TYPE_RESULT
  | ALSASEQ_EVENT_TYPE_NOTE
  | ALSASEQ_EVENT_TYPE_NOTEON
  | ALSASEQ_EVENT_TYPE_NOTEOFF
  | ALSASEQ_EVENT_TYPE_KEYPRESS
  | ALSASEQ_EVENT_TYPE_CONTROLLER
  | ALSASEQ_EVENT_TYPE_PGMCHANGE
  | ALSASEQ_EVENT_TYPE_CHANPRESS
  | ALSASEQ_EVENT_TYPE_PITCHBEND
  | ALSASEQ_EVENT_TYPE_CONTROL14
  | ALSASEQ_EVENT_TYPE_NONREGPARAM
  | ALSASEQ_EVENT_TYPE_REGPARAM
  | ALSASEQ_EVENT_TYPE_SONGPOS
  | ALSASEQ_EVENT_TYPE_SONGSEL
  | ALSASEQ_EVENT_TYPE_QFRAME
  | ALSASEQ_EVENT_TYPE_TIMESIGN
  | ALSASEQ_EVENT_TYPE_KEYSIGN
  | ALSASEQ_EVENT_TYPE_START
  | ALSASEQ_EVENT_TYPE_CONTINUE
  | ALSASEQ_EVENT_TYPE_STOP
  | ALSASEQ_EVENT_TYPE_SETPOS_TICK
  | ALSASEQ_EVENT_TYPE_SETPOS_TIME
  | ALSASEQ_EVENT_TYPE_TEMPO
  | ALSASEQ_EVENT_TYPE_CLOCK
  | ALSASEQ_EVENT_TYPE_TICK
  | ALSASEQ_EVENT_TYPE_QUEUE_SKEW
  | ALSASEQ_EVENT_TYPE_TUNE_REQUEST
  | ALSASEQ_EVENT_TYPE_RESET
  | ALSASEQ_EVENT_TYPE_SENSING
  | ALSASEQ_EVENT_TYPE_ECHO
  | ALSASEQ_EVENT_TYPE_OSS
  | ALSASEQ_EVENT_TYPE_CLIENT_START
  | ALSASEQ_EVENT_TYPE_CLIENT_EXIT
  | ALSASEQ_EVENT_TYPE_CLIENT_CHANGE
  | ALSASEQ_EVENT_TYPE_PORT_START
  | ALSASEQ_EVENT_TYPE_PORT_EXIT
  | ALSASEQ_EVENT_TYPE_PORT_CHANGE
  | ALSASEQ_EVENT_TYPE_PORT_SUBSCRIBED
  | ALSASEQ_EVENT_TYPE_PORT_UNSUBSCRIBED
  | ALSASEQ_EVENT_TYPE_USR0
  | ALSASEQ_EVENT_TYPE_USR1
  | ALSASEQ_EVENT_TYPE_USR2
  | ALSASEQ_EVENT_TYPE_USR3
  | ALSASEQ_EVENT_TYPE_USR4
  | ALSASEQ_EVENT_TYPE_USR5
  | ALSASEQ_EVENT_TYPE_USR6
  | ALSASEQ_EVENT_TYPE_USR7
  | ALSASEQ_EVENT_TYPE_USR8
  | ALSASEQ_EVENT_TYPE_USR9
  | ALSASEQ_EVENT_TYPE_SYSEX
  | ALSASEQ_EVENT_TYPE_BOUNCE
  | ALSASEQ_EVENT_TYPE_USR_VAR0
  | ALSASEQ_EVENT_TYPE_USR_VAR1
  | ALSASEQ_EVENT_TYPE_USR_VAR2
  | ALSASEQ_EVENT_TYPE_USR_VAR3
  | ALSASEQ_EVENT_TYPE_USR_VAR4
  | ALSASEQ_EVENT_TYPE_NONE.

#[global] Instance ALSASeqEventType_eq_dec : EqDecision ALSASeqEventType.
Proof. solve_decision. Defined.

#[global] Instance ALSASeqEventType_enum : GEnum ALSASeqEventType := {|
  value a :=
    match a with
    | ALSASEQ_EVENT_TYPE_SYSTEM => 0
    | ALSASEQ_EVENT_TYPE_RESULT => 1
    | ALSASEQ_EVENT_TYPE_NOTE => 5
    | ALSASEQ_EVENT_TYPE_NOTEON => 6
    | ALSASEQ_EVENT_TYPE_NOTEOFF => 7
    | ALSASEQ_EVENT_TYPE_KEYPRESS => 8
    | ALSASEQ_EVENT_TYPE_CONTROLLER => 10
    | ALSASEQ_EVENT_TYPE_PGMCHANGE => 11
    | ALSASEQ_EVENT_TYPE_CHANPRESS => 12
    | ALSASEQ_EVENT_TYPE_PITCHBEND => 13
    | ALSASEQ_EVENT_TYPE_CONTROL14 => 14
    | ALSASEQ_EVENT_TYPE_NONREGPARAM => 15
    | ALSASEQ_EVENT_TYPE_REGPARAM => 16
    | ALSASEQ_EVENT_TYPE_SONGPOS => 20
    | ALSASEQ_EVENT_TYPE_SONGSEL => 21
    | ALSASEQ_EVENT_TYPE_QFRAME => 22
    | ALSASEQ_EVENT_TYPE_TIMESIGN => 23
    | ALSASEQ_EVENT_TYPE_KEYSIGN => 24
    | ALSASEQ_EVENT_TYPE_START => 30
    | ALSASEQ_EVENT_TYPE_CONTINUE => 31
    | ALSASEQ_EVENT_TYPE_STOP => 32
    | ALSASEQ_EVENT_TYPE_SETPOS_TICK => 33
    | ALSASEQ_EVENT_TYPE_SETPOS_TIME => 34
    | ALSASEQ_EVENT_TYPE_TEMPO => 35
    | ALSASEQ_EVENT_TYPE_CLOCK => 36
    | ALSASEQ_EVENT_TYPE_TICK => 37
    | ALSASEQ_EVENT_TYPE_QUEUE_SKEW => 38
    | ALSASEQ_EVENT_TYPE_TUNE_REQUEST => 40
    | ALSASEQ_EVENT_TYPE_RESET => 41
    | ALSASEQ_EVENT_TYPE_SENSING => 42
    | ALSASEQ_EVENT_TYPE_ECHO => 50
    | ALSASEQ_EVENT_TYPE_OSS => 51
    | ALSASEQ_EVENT_TYPE_CLIENT_START => 60
    | ALSASEQ_EVENT_TYPE_CLIENT_EXIT => 61
    | ALSASEQ_EVENT_TYPE_CLIENT_CHANGE => 62
    | ALSASEQ_EVENT_TYPE_PORT_START => 63
    | ALSASEQ_EVENT_TYPE_PORT_EXIT => 64
    | ALSASEQ_EVENT_TYPE_PORT_CHANGE => 65
    | ALSASEQ_EVENT_TYPE_PORT_SUBSCRIBED => 66
    | ALSASEQ_EVENT_TYPE_PORT_UNSUBSCRIBED => 67
    | ALSASEQ_EVENT_TYPE_USR0 => 90
    | ALSASEQ_EVENT_TYPE_USR1 => 91
    | ALSASEQ_EVENT_TYPE_USR2 => 92
    | ALSASEQ_EVENT_TYPE_USR3 => 93
    | ALSASEQ_EVENT_TYPE_USR4 => 94
    | ALSASEQ_EVENT_TYPE_USR5 => 95
    | ALSASEQ_EVENT_TYPE_USR6 => 96
    | ALSASEQ_EVENT_TYPE_USR7 => 97
    | ALSASEQ_EVENT_TYPE_USR8 => 98
    | ALSASEQ_EVENT_TYPE_USR9 => 99
    | ALSASEQ_EVENT_TYPE_SYSEX => 130
    | ALSASEQ_EVENT_TYPE_BOUNCE => 131
    | ALSASEQ_EVENT_TYPE_USR_VAR0 => 135
    | ALSASEQ_EVENT_TYPE_USR_VAR1 => 136
    | ALSASEQ_EVENT_TYPE_USR_VAR2 => 137
    | ALSASEQ_EVENT_TYPE_USR_VAR3 => 138
    | ALSASEQ_EVENT_TYPE_USR_VAR4 => 139
    | ALSASEQ_EVENT_TYPE_NONE => 255
    end;
  enumerators := [
    ALSASEQ_EVENT_TYPE_SYSTEM; ALSASEQ_EVENT_TYPE_RESULT; ALSASEQ_EVENT_TYPE_NOTE;
    ALSASEQ_EVENT_TYPE_NOTEON; ALSASEQ_EVENT_TYPE_NOTEOFF; ALSASEQ_EVENT_TYPE_KEYPRESS;
    ALSASEQ_EVENT_TYPE_CONTROLLER; ALSASEQ_EVENT_TYPE_PGMCHANGE; ALSASEQ_EVENT_TYPE_CHANPRESS;
    ALSASEQ_EVENT_TYPE_PITCHBEND; ALSASEQ_EVENT_TYPE_CONTROL14; ALSASEQ_EVENT_TYPE_NONREGPARAM;
    ALSASEQ_EVENT_TYPE_REGPARAM; ALSASEQ_EVENT_TYPE_SONGPOS; ALSASEQ_EVENT_TYPE_SONGSEL;
    ALSASEQ_EVENT_TYPE_QFRAME; ALSASEQ_EVENT_TYPE_TIMESIGN; ALSASEQ_EVENT_TYPE_KEYSIGN;
    ALSASEQ_EVENT_TYPE_START; ALSASEQ_EVENT_TYPE_CONTINUE; ALSASEQ_EVENT_TYPE_STOP;
    ALSASEQ_EVENT_TYPE_SETPOS_TICK; ALSASEQ_EVENT_TYPE_SETPOS_TIME; ALSASEQ_EVENT_TYPE_TEMPO;
    ALSASEQ_EVENT_TYPE_CLOCK; ALSASEQ_EVENT_TYPE_TICK; ALSASEQ_EVENT_TYPE_QUEUE_SKEW;
    ALSASEQ_EVENT_TYPE_TUNE_REQUEST; ALSASEQ_EVENT_TYPE_RESET; ALSASEQ_EVENT_TYPE_SENSING;
    ALSASEQ_EVENT_TYPE_ECHO; ALSASEQ_EVENT_TYPE_OSS; ALSASEQ_EVENT_TYPE_CLIENT_START;
    ALSASEQ_EVENT_TYPE_CLIENT_EXIT; ALSASEQ_EVENT_TYPE_CLIENT_CHANGE;
    ALSASEQ_EVENT_TYPE_PORT_START; ALSASEQ_EVENT_TYPE_PORT_EXIT; ALSASEQ_EVENT_TYPE_PORT_CHANGE;
    ALSASEQ_EVENT_TYPE_PORT_SUBSCRIBED; ALSASEQ_EVENT_TYPE_PORT_UNSUBSCRIBED;
    ALSASEQ_EVENT_TYPE_USR0; ALSASEQ_EVENT_TYPE_USR1; ALSASEQ_EVENT_TYPE_USR2;
    ALSASEQ_EVENT_TYPE_USR3; ALSASEQ_EVENT_TYPE_USR4; ALSASEQ_EVENT_TYPE_USR5;
    ALSASEQ_EVENT_TYPE_USR6; ALSASEQ_EVENT_TYPE_USR7; ALSASEQ_EVENT_TYPE_USR8;
    ALSASEQ_EVENT_TYPE_USR9; ALSASEQ_EVENT_TYPE_SYSEX; ALSASEQ_EVENT_TYPE_BOUNCE;
    ALSASEQ_EVENT_TYPE_USR_VAR0; ALSASEQ_EVENT_TYPE_USR_VAR1; ALSASEQ_EVENT_TYPE_USR_VAR2;
    ALSASEQ_EVENT_TYPE_USR_VAR3; ALSASEQ_EVENT_TYPE_USR_VAR4; ALSASEQ_EVENT_TYPE_NONE
  ];
|}.

#[global] Instance ALSASeqEventType_laws : GEnumLaws ALSASeqEventType.
Proof. enumeration. Qed.

Inductive ALSASeqEventTstampMode :=
  | ALSASEQ_EVENT_TSTAMP_MODE_TICK
  | ALSASEQ_EVENT_TSTAMP_MODE_REAL.

#[global] Instance ALSASeqEventTstampMode_eq_dec : EqDecision ALSASeqEventTstampMode.
Proof. solve_decision. Defined.

#[global] Instance ALSASeqEventTstampMode_enum : GEnum ALSASeqEventTstampMode := {|
  value a :=
    match a with
    | ALSASEQ_EVENT_TSTAMP_MODE_TICK => 0
    | ALSASEQ_EVENT_TSTAMP_MODE_REAL => 1
    end;
  enumerators := [
    ALSASEQ_EVENT_TSTAMP_MODE_TICK; ALSASEQ_EVENT_TSTAMP_MODE_REAL
  ];
|}.

#[global] Instance ALSASeqEventTstampMode_laws : GEnumLaws ALSASeqEventTstampMode.
Proof. enumeration. Qed.

Inductive ALSASeqEventTimeMode :=
  | ALSASEQ_EVENT_TIME_MODE_ABS
  | ALSASEQ_EVENT_TIME_MODE_REL.

#[global] Instance ALSASeqEventTimeMode_eq_dec : EqDecision ALSASeqEventTimeMode.
Proof. solve_decision. Defined.

#[global] Instance ALSASeqEventTimeMode_enum : GEnum ALSASeqEventTimeMode := {|
  value a :=
    match a with
    | ALSASEQ_EVENT_TIME_MODE_ABS => 0
    | ALSASEQ_EVENT_TIME_MODE_REL => 2
    end;
  enumerators := [
    ALSASEQ_EVENT_TIME_MODE_ABS; ALSASEQ_EVENT_TIME_MODE_REL
  ];
|}.

#[global] Instance ALSASeqEventTimeMode_laws : GEnumLaws ALSASeqEventTimeMode.
Proof. enumeration. Qed.

Inductive ALSASeqEventLengthMode :=
  | ALSASEQ_EVENT_LENGTH_MODE_FIXED
  | ALSASEQ_EVENT_LENGTH_MODE_VARIABLE
  | ALSASEQ_EVENT_LENGTH_MODE_POINTER.

#[global] Instance ALSASeqEventLengthMode_eq_dec : EqDecision ALSASeqEventLengthMode.
Proof. solve_decision. Defined.

#[global] Instance ALSASeqEventLengthMode_enum : GEnum ALSASeqEventLengthMode := {|
  value a :=
    match a with
    | ALSASEQ_EVENT_LENGTH_MODE_FIXED => 0
    | ALSASEQ_EVENT_LENGTH_MODE_VARIABLE => 4
    | ALSASEQ_EVENT_LENGTH_MODE_POINTER => 8
    end;
  enumerators := [
    ALSASEQ_EVENT_LENGTH_MODE_FIXED; ALSASEQ_EVENT_LENGTH_MODE_VARIABLE;
    ALSASEQ_EVENT_LENGTH_MODE_POINTER
  ];
|}.

#[global] Instance ALSASeqEventLengthMode_laws : GEnumLaws ALSASeqEventLengthMode.
Proof. enumeration. Qed.

Inductive ALSASeqEventPriorityMode :=
  | ALSASEQ_EVENT_PRIORITY_MODE_NORMAL
  | ALSASEQ_EVENT_PRIORITY_MODE_HIGH.

#[global] Instance ALSASeqEventPriorityMode_eq_dec : EqDecision ALSASeqEventPriorityMode.
Proof. solve_decision. Defined.

#[global] Instance ALSASeqEventPriorityMode_enum : GEnum ALSASeqEventPriorityMode := {|
  value a :=
    match a with
    | ALSASEQ_EVENT_PRIORITY_MODE_NORMAL => 0
    | ALSASEQ_EVENT_PRIORITY_MODE_HIGH => 16
    end;
  enumerators := [
    ALSASEQ_EVENT_PRIORITY_MODE_NORMAL; ALSASEQ_EVENT_PRIORITY_MODE_HIGH
  ];
|}.

#[global] Instance ALSASeqEventPriorityMode_laws : GEnumLaws ALSASeqEventPriorityMode.
Proof. enumeration. Qed.

Inductive ALSASeqSpecificQueueId :=
  | ALSASEQ_SPECIFIC_QUEUE_ID_DIRECT.

#[global] Instance ALSASeqSpecificQueueId_eq_dec : EqDecision ALSASeqSpecificQueueId.
Proof. solve_decision. Defined.

#[global] Instance ALSASeqSpecificQueueId_enum : GEnum ALSASeqSpecificQueueId := {|
  value a :=
    match a with
    | ALSASEQ_SPECIFIC_QUEUE_ID_DIRECT => 253
    end;
  enumerators := [
    ALSASEQ_SPECIFIC_QUEUE_ID_DIRECT
  ];
|}.

#[global] Instance ALSASeqSpecificQueueId_laws : GEnumLaws ALSASeqSpecificQueueId.
Proof. enumeration. Qed.

Inductive ALSASeqQuerySubscribeType :=
  | ALSASEQ_QUERY_SUBSCRIBE_TYPE_READ
  | ALSASEQ_QUERY_SUBSCRIBE_TYPE_WRITE.

#[global] Instance ALSASeqQuerySubscribeType_eq_dec : EqDecision ALSASeqQuerySubscribeType.
Proof. solve_decision. Defined.

#[global] Instance ALSASeqQuerySubscribeType_enum : GEnum ALSASeqQuerySubscribeType := {|
  value a :=
    match a with
    | ALSASEQ_QUERY_SUBSCRIBE_TYPE_READ => 0
    | ALSASEQ_QUERY_SUBSCRIBE_TYPE_WRITE => 1
    end;
  enumerators := [
    ALSASEQ_QUERY_SUBSCRIBE_TYPE_READ; ALSASEQ_QUERY_SUBSCRIBE_TYPE_WRITE
  ];
|}.

#[global] Instance ALSASeqQuerySubscribeType_laws : GEnumLaws ALSASeqQuerySubscribeType.
Proof. enumeration. Qed.

Inductive ALSASeqQueueTimerType :=
  | ALSASEQ_QUEUE_TIMER_TYPE_ALSA.

#[global] Instance ALSASeqQueueTimerType_eq_dec : EqDecision ALSASeqQueueTimerType.
Proof. solve_decision. Defined.

#[global] Instance ALSASeqQueueTimerType_enum : GEnum ALSASeqQueueTimerType := {|
  value a :=
    match a with
    | ALSASEQ_QUEUE_TIMER_TYPE_ALSA => 0
    end;
  enumerators := [
    ALSASEQ_QUEUE_TIMER_TYPE_ALSA
  ];
|}.

#[global] Instance ALSASeqQueueTimerType_laws : GEnumLaws ALSASeqQueueTimerType.
Proof. enumeration. Qed.

Inductive ALSASeqRemoveFilterFlag :=
  | ALSASEQ_REMOVE_FILTER_FLAG_INPUT
  | ALSASEQ_REMOVE_FILTER_FLAG_OUTPUT
  | ALSASEQ_REMOVE_FILTER_FLAG_DEST
  | ALSASEQ_REMOVE_FILTER_FLAG_DEST_CHANNEL
  | ALSASEQ_REMOVE_FILTER_FLAG_TIME_BEFORE
  | ALSASEQ_REMOVE_FILTER_FLAG_TIME_AFTER
  | ALSASEQ_REMOVE_FILTER_FLAG_TIME_TICK
  | ALSASEQ_REMOVE_FILTER_FLAG_EVENT_TYPE
  | ALSASEQ_REMOVE_FILTER_FLAG_IGNORE_OFF
  | ALSASEQ_REMOVE_FILTER_FLAG_TAG_MATCH.

#[global] Instance ALSASeqRemoveFilterFlag_eq_dec : EqDecision ALSASeqRemoveFilterFlag.
Proof. solve_decision. Defined.

#[global] Instance ALSASeqRemoveFilterFlag_enum : GEnum ALSASeqRemoveFilterFlag := {|
  value a :=
    match a with
    | ALSASEQ_REMOVE_FILTER_FLAG_INPUT => 2 ^ 0
    | ALSASEQ_REMOVE_FILTER_FLAG_OUTPUT => 2 ^ 1
    | ALSASEQ_REMOVE_FILTER_FLAG_DEST => 2 ^ 2
    | ALSASEQ_REMOVE_FILTER_FLAG_DEST_CHANNEL => 2 ^ 3
    | ALSASEQ_REMOVE_FILTER_FLAG_TIME_BEFORE => 2 ^ 4
    | ALSASEQ_REMOVE_FILTER_FLAG_TIME_AFTER => 2 ^ 5
    | ALSASEQ_REMOVE_FILTER_FLAG_TIME_TICK => 2 ^ 6
    | ALSASEQ_REMOVE_FILTER_FLAG_EVENT_TYPE => 2 ^ 7
    | ALSASEQ_REMOVE_FILTER_FLAG_IGNORE_OFF => 2 ^ 8
    | ALSASEQ_REMOVE_FILTER_FLAG_TAG_MATCH => 2 ^ 9
    end;
  enumerators := [
    ALSASEQ_REMOVE_FILTER_FLAG_INPUT; ALSASEQ_REMOVE_FILTER_FLAG_OUTPUT;
    ALSASEQ_REMOVE_FILTER_FLAG_DEST; ALSASEQ_REMOVE_FILTER_FLAG_DEST_CHANNEL;
    ALSASEQ_REMOVE_FILTER_FLAG_TIME_BEFORE; ALSASEQ_REMOVE_FILTER_FLAG_TIME_AFTER;
    ALSASEQ_REMOVE_FILTER_FLAG_TIME_TICK; ALSASEQ_REMOVE_FILTER_FLAG_EVENT_TYPE;
    ALSASEQ_REMOVE_FILTER_FLAG_IGNORE_OFF; ALSASEQ_REMOVE_FILTER_FLAG_TAG_MATCH
  ];
|}.

#[global] Instance ALSASeqRemoveFilterFlag_laws : GEnumLaws ALSASeqRemoveFilterFlag.
Proof. enumeration. Qed.

Inductive ALSASeqUserClientError :=
  | ALSASEQ_USER_CLIENT_ERROR_FAILED
  | ALSASEQ_USER_CLIENT_ERROR_PORT_PERMISSION
  | ALSASEQ_USER_CLIENT_ERROR_QUEUE_PERMISSION
  | ALSASEQ_USER_CLIENT_ERROR_EVENT_UNDELIVERABLE.

#[global] Instance ALSASeqUserClientError_eq_dec : EqDecision ALSASeqUserClientError.
Proof. solve_decision. Defined.

#[global] Instance ALSASeqUserClientError_enum : GEnum ALSASeqUserClientError := {|
  value a :=
    match a with
    | ALSASEQ_USER_CLIENT_ERROR_FAILED => 0
    | ALSASEQ_USER_CLIENT_ERROR_PORT_PERMISSION => 1
    | ALSASEQ_USER_CLIENT_ERROR_QUEUE_PERMISSION => 2
    | ALSASEQ_USER_CLIENT_ERROR_EVENT_UNDELIVERABLE => 3
    end;
  enumerators := [
    ALSASEQ_USER_CLIENT_ERROR_FAILED; ALSASEQ_USER_CLIENT_ERROR_PORT_PERMISSION;
    ALSASEQ_USER_CLIENT_ERROR_QUEUE_PERMISSION; ALSASEQ_USER_CLIENT_ERROR_EVENT_UNDELIVERABLE
  ];
|}.

#[global] Instance ALSASeqUserClientError_laws : GEnumLaws ALSASeqUserClientError.
Proof. enumeration. Qed.

Inductive ALSASeqEventError :=
  | ALSASEQ_EVENT_ERROR_FAILED
  | ALSASEQ_EVENT_ERROR_INVALID_DATA_TYPE
  | ALSASEQ_EVENT_ERROR_INVALID_LENGTH_MODE
  | ALSASEQ_EVENT_ERROR_INVALID_TSTAMP_MODE.

#[global] Instance ALSASeqEventError_eq_dec : EqDecision ALSASeqEventError.
Proof. solve_decision. Defined.

#[global] Instance ALSASeqEventError_enum : GEnum ALSASeqEventError := {|
  value a :=
    match a with
    | ALSASEQ_EVENT_ERROR_FAILED => 0
    | ALSASEQ_EVENT_ERROR_INVALID_DATA_TYPE => 1
    | ALSASEQ_EVENT_ERROR_INVALID_LENGTH_MODE => 2
    | ALSASEQ_EVENT_ERROR_INVALID_TSTAMP_MODE => 3
    end;
  enumerators := [
    ALSASEQ_EVENT_ERROR_FAILED; ALSASEQ_EVENT_ERROR_INVALID_DATA_TYPE;
    ALSASEQ_EVENT_ERROR_INVALID_LENGTH_MODE; ALSASEQ_EVENT_ERROR_INVALID_TSTAMP_MODE
  ];
|}.

#[global] Instance ALSASeqEventError_laws : GEnumLaws ALSASeqEventError.
Proof. enumeration. Qed.

End SeqEnums.

(** ** [ctl/alsactl-enum-types.h] *)

Module CtlEnums.
Inductive ALSACtlElemType :=
  | ALSACTL_ELEM_TYPE_NONE
  | ALSACTL_ELEM_TYPE_BOOLEAN
  | ALSACTL_ELEM_TYPE_INTEGER
  | ALSACTL_ELEM_TYPE_ENUMERATED
  | ALSACTL_ELEM_TYPE_BYTES
  | ALSACTL_ELEM_TYPE_IEC60958
  | ALSACTL_ELEM_TYPE_INTEGER64.

#[global] Instance ALSACtlElemType_eq_dec : EqDecision ALSACtlElemType.
Proof. solve_decision. Defined.

#[global] Instance ALSACtlElemType_enum : GEnum ALSACtlElemType := {|
  value a :=
    match a with
    | ALSACTL_ELEM_TYPE_NONE => 0
    | ALSACTL_ELEM_TYPE_BOOLEAN => 1
    | ALSACTL_ELEM_TYPE_INTEGER => 2
    | ALSACTL_ELEM_TYPE_ENUMERATED => 3
    | ALSACTL_ELEM_TYPE_BYTES => 4
    | ALSACTL_ELEM_TYPE_IEC60958 => 5
    | ALSACTL_ELEM_TYPE_INTEGER64 => 6
    end;
  enumerators := [
    ALSACTL_ELEM_TYPE_NONE; ALSACTL_ELEM_TYPE_BOOLEAN; ALSACTL_ELEM_TYPE_INTEGER;
    ALSACTL_ELEM_TYPE_ENUMERATED; ALSACTL_ELEM_TYPE_BYTES; ALSACTL_ELEM_TYPE_IEC60958;
    ALSACTL_ELEM_TYPE_INTEGER64
  ];
|}.

#[global] Instance ALSACtlElemType_laws : GEnumLaws ALSACtlElemType.
Proof. enumeration. Qed.

Inductive ALSACtlElemIfaceType :=
  | ALSACTL_ELEM_IFACE_TYPE_CARD
  | ALSACTL_ELEM_IFACE_TYPE_HWDEP
  | ALSACTL_ELEM_IFACE_TYPE_MIXER
  | ALSACTL_ELEM_IFACE_TYPE_PCM
  | ALSACTL_ELEM_IFACE_TYPE_RAWMIDI
  | ALSACTL_ELEM_IFACE_TYPE_TIMER
  | ALSACTL_ELEM_IFACE_TYPE_SEQUENCER.

#[global] Instance ALSACtlElemIfaceType_eq_dec : EqDecision ALSACtlElemIfaceType.
Proof. solve_decision. Defined.

#[global] Instance ALSACtlElemIfaceType_enum : GEnum ALSACtlElemIfaceType := {|
  value a :=
    match a with
    | ALSACTL_ELEM_IFACE_TYPE_CARD => 0
    | ALSACTL_ELEM_IFACE_TYPE_HWDEP => 1
    | ALSACTL_ELEM_IFACE_TYPE_MIXER => 2
    | ALSACTL_ELEM_IFACE_TYPE_PCM => 3
    | ALSACTL_ELEM_IFACE_TYPE_RAWMIDI => 4
    | ALSACTL_ELEM_IFACE_TYPE_TIMER => 5
    | ALSACTL_ELEM_IFACE_TYPE_SEQUENCER => 6
    end;
  enumerators := [
    ALSACTL_ELEM_IFACE_TYPE_CARD; ALSACTL_ELEM_IFACE_TYPE_HWDEP; ALSACTL_ELEM_IFACE_TYPE_MIXER;
    ALSACTL_ELEM_IFACE_TYPE_PCM; ALSACTL_ELEM_IFACE_TYPE_RAWMIDI; ALSACTL_ELEM_IFACE_TYPE_TIMER;
    ALSACTL_ELEM_IFACE_TYPE_SEQUENCER
  ];
|}.

#[global] Instance ALSACtlElemIfaceType_laws : GEnumLaws ALSACtlElemIfaceType.
Proof. enumeration. Qed.

Inductive ALSACtlElemAccessFlag :=
  | ALSACTL_ELEM_ACCESS_FLAG_READ
  | ALSACTL_ELEM_ACCESS_FLAG_WRITE
  | ALSACTL_ELEM_ACCESS_FLAG_VOLATILE
  | ALSACTL_ELEM_ACCESS_FLAG_TLV_READ
  | ALSACTL_ELEM_ACCESS_FLAG_TLV_WRITE
  | ALSACTL_ELEM_ACCESS_FLAG_TLV_COMMAND
  | ALSACTL_ELEM_ACCESS_FLAG_INACTIVE
  | ALSACTL_ELEM_ACCESS_FLAG_LOCK
  | ALSACTL_ELEM_ACCESS_FLAG_OWNER
  | ALSACTL_ELEM_ACCESS_FLAG_TLV_CALLBACK
  | ALSACTL_ELEM_ACCESS_FLAG_USER.

#[global] Instance ALSACtlElemAccessFlag_eq_dec : EqDecision ALSACtlElemAccessFlag.
Proof. solve_decision. Defined.

#[global] Instance ALSACtlElemAccessFlag_enum : GEnum ALSACtlElemAccessFlag := {|
  value a :=
    match a with
    | ALSACTL_ELEM_ACCESS_FLAG_READ => 2 ^ 0
    | ALSACTL_ELEM_ACCESS_FLAG_WRITE => 2 ^ 1
    | ALSACTL_ELEM_ACCESS_FLAG_VOLATILE => 2 ^ 2
    | ALSACTL_ELEM_ACCESS_FLAG_TLV_READ => 2 ^ 4
    | ALSACTL_ELEM_ACCESS_FLAG_TLV_WRITE => 2 ^ 5
    | ALSACTL_ELEM_ACCESS_FLAG_TLV_COMMAND => 2 ^ 6
    | ALSACTL_ELEM_ACCESS_FLAG_INACTIVE => 2 ^ 8
    | ALSACTL_ELEM_ACCESS_FLAG_LOCK => 2 ^ 9
    | ALSACTL_ELEM_ACCESS_FLAG_OWNER => 2 ^ 10
    | ALSACTL_ELEM_ACCESS_FLAG_TLV_CALLBACK => 2 ^ 28
    | ALSACTL_ELEM_ACCESS_FLAG_USER => 2 ^ 29
    end;
  enumerators := [
    ALSACTL_ELEM_ACCESS_FLAG_READ; ALSACTL_ELEM_ACCESS_FLAG_WRITE;
    ALSACTL_ELEM_ACCESS_FLAG_VOLATILE; ALSACTL_ELEM_ACCESS_FLAG_TLV_READ;
    ALSACTL_ELEM_ACCESS_FLAG_TLV_WRITE; ALSACTL_ELEM_ACCESS_FLAG_TLV_COMMAND;
    ALSACTL_ELEM_ACCESS_FLAG_INACTIVE; ALSACTL_ELEM_ACCESS_FLAG_LOCK;
    ALSACTL_ELEM_ACCESS_FLAG_OWNER; ALSACTL_ELEM_ACCESS_FLAG_TLV_CALLBACK;
    ALSACTL_ELEM_ACCESS_FLAG_USER
  ];
|}.

#[global] Instance ALSACtlElemAccessFlag_laws : GEnumLaws ALSACtlElemAccessFlag.
Proof. enumeration. Qed.

Inductive ALSACtlEventType :=
  | ALSACTL_EVENT_TYPE_ELEM.

#[global] Instance ALSACtlEventType_eq_dec : EqDecision ALSACtlEventType.
Proof. solve_decision. Defined.

#[global] Instance ALSACtlEventType_enum : GEnum ALSACtlEventType := {|
  value a :=
    match a with
    | ALSACTL_EVENT_TYPE_ELEM => 0
    end;
  enumerators := [
    ALSACTL_EVENT_TYPE_ELEM
  ];
|}.

#[global] Instance ALSACtlEventType_laws : GEnumLaws ALSACtlEventType.
Proof. enumeration. Qed.

Inductive ALSACtlElemEventMask :=
  | ALSACTL_ELEM_EVENT_MASK_VALUE
  | ALSACTL_ELEM_EVENT_MASK_INFO
  | ALSACTL_ELEM_EVENT_MASK_ADD
  | ALSACTL_ELEM_EVENT_MASK_TLV
  | ALSACTL_ELEM_EVENT_MASK_REMOVE.

#[global] Instance ALSACtlElemEventMask_eq_dec : EqDecision ALSACtlElemEventMask.
Proof. solve_decision. Defined.

#[global] Instance ALSACtlElemEventMask_enum : GEnum ALSACtlElemEventMask := {|
  value a :=
    match a with
    | ALSACTL_ELEM_EVENT_MASK_VALUE => 2 ^ 0
    | ALSACTL_ELEM_EVENT_MASK_INFO => 2 ^ 1
    | ALSACTL_ELEM_EVENT_MASK_ADD => 2 ^ 2
    | ALSACTL_ELEM_EVENT_MASK_TLV => 2 ^ 3
    | ALSACTL_ELEM_EVENT_MASK_REMOVE => Z.shiftl (2 ^ 3) 1
    end;
  enumerators := [
    ALSACTL_ELEM_EVENT_MASK_VALUE; ALSACTL_ELEM_EVENT_MASK_INFO; ALSACTL_ELEM_EVENT_MASK_ADD;
    ALSACTL_ELEM_EVENT_MASK_TLV; ALSACTL_ELEM_EVENT_MASK_REMOVE
  ];
|}.

#[global] Instance ALSACtlElemEventMask_laws : GEnumLaws ALSACtlElemEventMask.
Proof. enumeration. Qed.

Inductive ALSACtlCardError :=
  | ALSACTL_CARD_ERROR_FAILED
  | ALSACTL_CARD_ERROR_DISCONNECTED
  | ALSACTL_CARD_ERROR_ELEM_NOT_FOUND
  | ALSACTL_CARD_ERROR_ELEM_NOT_SUPPORTED
  | ALSACTL_CARD_ERROR_ELEM_OWNED
  | ALSACTL_CARD_ERROR_ELEM_EXIST.

#[global] Instance ALSACtlCardError_eq_dec : EqDecision ALSACtlCardError.
Proof. solve_decision. Defined.

#[global] Instance ALSACtlCardError_enum : GEnum ALSACtlCardError := {|
  value a :=
    match a with
    | ALSACTL_CARD_ERROR_FAILED => 0
    | ALSACTL_CARD_ERROR_DISCONNECTED => 1
    | ALSACTL_CARD_ERROR_ELEM_NOT_FOUND => 2
    | ALSACTL_CARD_ERROR_ELEM_NOT_SUPPORTED => 3
    | ALSACTL_CARD_ERROR_ELEM_OWNED => 4
    | ALSACTL_CARD_ERROR_ELEM_EXIST => 5
    end;
  enumerators := [
    ALSACTL_CARD_ERROR_FAILED; ALSACTL_CARD_ERROR_DISCONNECTED;
    ALSACTL_CARD_ERROR_ELEM_NOT_FOUND; ALSACTL_CARD_ERROR_ELEM_NOT_SUPPORTED;
    ALSACTL_CARD_ERROR_ELEM_OWNED; ALSACTL_CARD_ERROR_ELEM_EXIST
  ];
|}.

#[global] Instance ALSACtlCardError_laws : GEnumLaws ALSACtlCardError.
Proof. enumeration. Qed.

End CtlEnums.

(** ** [timer/alsatimer-enum-types.h] *)

Module TimerEnums.
Inductive ALSATimerClass :=
  | ALSATIMER_CLASS_NONE
  | ALSATIMER_CLASS_GLOBAL
  | ALSATIMER_CLASS_CARD
  | ALSATIMER_CLASS_PCM.

#[global] Instance ALSATimerClass_eq_dec : EqDecision ALSATimerClass.
Proof. solve_decision. Defined.

#[global] Instance ALSATimerClass_enum : GEnum ALSATimerClass := {|
  value a :=
    match a with
    | ALSATIMER_CLASS_NONE => -1
    | ALSATIMER_CLASS_GLOBAL => 1
    | ALSATIMER_CLASS_CARD => 2
    | ALSATIMER_CLASS_PCM => 3
    end;
  enumerators := [
    ALSATIMER_CLASS_NONE; ALSATIMER_CLASS_GLOBAL; ALSATIMER_CLASS_CARD; ALSATIMER_CLASS_PCM
  ];
|}.

#[global] Instance ALSATimerClass_laws : GEnumLaws ALSATimerClass.
Proof. enumeration. Qed.

Inductive ALSATimerSlaveClass :=
  | ALSATIMER_SLAVE_CLASS_NONE
  | ALSATIMER_SLAVE_CLASS_APPLICATION
  | ALSATIMER_SLAVE_CLASS_SEQUENCER.

#[global] Instance ALSATimerSlaveClass_eq_dec : EqDecision ALSATimerSlaveClass.
Proof. solve_decision. Defined.

#[global] Instance ALSATimerSlaveClass_enum : GEnum ALSATimerSlaveClass := {|
  value a :=
    match a with
    | ALSATIMER_SLAVE_CLASS_NONE => 0
    | ALSATIMER_SLAVE_CLASS_APPLICATION => 1
    | ALSATIMER_SLAVE_CLASS_SEQUENCER => 2
    end;
  enumerators := [
    ALSATIMER_SLAVE_CLASS_NONE; ALSATIMER_SLAVE_CLASS_APPLICATION;
    ALSATIMER_SLAVE_CLASS_SEQUENCER
  ];
|}.

#[global] Instance ALSATimerSlaveClass_laws : GEnumLaws ALSATimerSlaveClass.
Proof. enumeration. Qed.

Inductive ALSATimerSpecificGlobalDevice :=
  | ALSATIMER_SPECIFIC_GLOBAL_DEVICE_SYSTEM
  | ALSATIMER_SPECIFIC_GLOBAL_DEVICE_HRTIMER.

#[global] Instance ALSATimerSpecificGlobalDevice_eq_dec : EqDecision ALSATimerSpecificGlobalDevice.
Proof. solve_decision. Defined.

#[global] Instance ALSATimerSpecificGlobalDevice_enum : GEnum ALSATimerSpecificGlobalDevice := {|
  value a :=
    match a with
    | ALSATIMER_SPECIFIC_GLOBAL_DEVICE_SYSTEM => 0
    | ALSATIMER_SPECIFIC_GLOBAL_DEVICE_HRTIMER => 3
    end;
  enumerators := [
    ALSATIMER_SPECIFIC_GLOBAL_DEVICE_SYSTEM; ALSATIMER_SPECIFIC_GLOBAL_DEVICE_HRTIMER
  ];
|}.

#[global] Instance ALSATimerSpecificGlobalDevice_laws : GEnumLaws ALSATimerSpecificGlobalDevice.
Proof. enumeration. Qed.

Inductive ALSATimerDeviceInfoFlag :=
  | ALSATIMER_DEVICE_INFO_FLAG_SLAVE.

#[global] Instance ALSATimerDeviceInfoFlag_eq_dec : EqDecision ALSATimerDeviceInfoFlag.
Proof. solve_decision. Defined.

#[global] Instance ALSATimerDeviceInfoFlag_enum : GEnum ALSATimerDeviceInfoFlag := {|
  value a :=
    match a with
    | ALSATIMER_DEVICE_INFO_FLAG_SLAVE => 2 ^ 0
    end;
  enumerators := [
    ALSATIMER_DEVICE_INFO_FLAG_SLAVE
  ];
|}.

#[global] Instance ALSATimerDeviceInfoFlag_laws : GEnumLaws ALSATimerDeviceInfoFlag.
Proof. enumeration. Qed.

Inductive ALSATimerInstanceParamFlag :=
  | ALSATIMER_INSTANCE_PARAM_FLAG_AUTO
  | ALSATIMER_INSTANCE_PARAM_FLAG_EXCLUSIVE
  | ALSATIMER_INSTANCE_PARAM_FLAG_EARLY_EVENT.

#[global] Instance ALSATimerInstanceParamFlag_eq_dec : EqDecision ALSATimerInstanceParamFlag.
Proof. solve_decision. Defined.

#[global] Instance ALSATimerInstanceParamFlag_enum : GEnum ALSATimerInstanceParamFlag := {|
  value a :=
    match a with
    | ALSATIMER_INSTANCE_PARAM_FLAG_AUTO => 2 ^ 0
    | ALSATIMER_INSTANCE_PARAM_FLAG_EXCLUSIVE => 2 ^ 1
    | ALSATIMER_INSTANCE_PARAM_FLAG_EARLY_EVENT => 2 ^ 2
    end;
  enumerators := [
    ALSATIMER_INSTANCE_PARAM_FLAG_AUTO; ALSATIMER_INSTANCE_PARAM_FLAG_EXCLUSIVE;
    ALSATIMER_INSTANCE_PARAM_FLAG_EARLY_EVENT
  ];
|}.

#[global] Instance ALSATimerInstanceParamFlag_laws : GEnumLaws ALSATimerInstanceParamFlag.
Proof. enumeration. Qed.

Inductive ALSATimerRealTimeEventType :=
  | ALSATIMER_REAL_TIME_EVENT_TYPE_RESOLUTION
  | ALSATIMER_REAL_TIME_EVENT_TYPE_TICK
  | ALSATIMER_REAL_TIME_EVENT_TYPE_START
  | ALSATIMER_REAL_TIME_EVENT_TYPE_STOP
  | ALSATIMER_REAL_TIME_EVENT_TYPE_CONTINUE
  | ALSATIMER_REAL_TIME_EVENT_TYPE_PAUSE
  | ALSATIMER_REAL_TIME_EVENT_TYPE_EARLY
  | ALSATIMER_REAL_TIME_EVENT_TYPE_SUSPEND
  | ALSATIMER_REAL_TIME_EVENT_TYPE_RESUME
  | ALSATIMER_REAL_TIME_EVENT_TYPE_MSTART
  | ALSATIMER_REAL_TIME_EVENT_TYPE_MSTOP
  | ALSATIMER_REAL_TIME_EVENT_TYPE_MCONTINUE
  | ALSATIMER_REAL_TIME_EVENT_TYPE_MPAUSE
  | ALSATIMER_REAL_TIME_EVENT_TYPE_MSUSPEND
  | ALSATIMER_REAL_TIME_EVENT_TYPE_MRESUME.

#[global] Instance ALSATimerRealTimeEventType_eq_dec : EqDecision ALSATimerRealTimeEventType.
Proof. solve_decision. Defined.

#[global] Instance ALSATimerRealTimeEventType_enum : GEnum ALSATimerRealTimeEventType := {|
  value a :=
    match a with
    | ALSATIMER_REAL_TIME_EVENT_TYPE_RESOLUTION => 0
    | ALSATIMER_REAL_TIME_EVENT_TYPE_TICK => 1
    | ALSATIMER_REAL_TIME_EVENT_TYPE_START => 2
    | ALSATIMER_REAL_TIME_EVENT_TYPE_STOP => 3
    | ALSATIMER_REAL_TIME_EVENT_TYPE_CONTINUE => 4
    | ALSATIMER_REAL_TIME_EVENT_TYPE_PAUSE => 5
    | ALSATIMER_REAL_TIME_EVENT_TYPE_EARLY => 6
    | ALSATIMER_REAL_TIME_EVENT_TYPE_SUSPEND => 7
    | ALSATIMER_REAL_TIME_EVENT_TYPE_RESUME => 8
    | ALSATIMER_REAL_TIME_EVENT_TYPE_MSTART => 12
    | ALSATIMER_REAL_TIME_EVENT_TYPE_MSTOP => 13
    | ALSATIMER_REAL_TIME_EVENT_TYPE_MCONTINUE => 14
    | ALSATIMER_REAL_TIME_EVENT_TYPE_MPAUSE => 15
    | ALSATIMER_REAL_TIME_EVENT_TYPE_MSUSPEND => 17
    | ALSATIMER_REAL_TIME_EVENT_TYPE_MRESUME => 18
    end;
  enumerators := [
    ALSATIMER_REAL_TIME_EVENT_TYPE_RESOLUTION; ALSATIMER_REAL_TIME_EVENT_TYPE_TICK;
    ALSATIMER_REAL_TIME_EVENT_TYPE_START; ALSATIMER_REAL_TIME_EVENT_TYPE_STOP;
    ALSATIMER_REAL_TIME_EVENT_TYPE_CONTINUE; ALSATIMER_REAL_TIME_EVENT_TYPE_PAUSE;
    ALSATIMER_REAL_TIME_EVENT_TYPE_EARLY; ALSATIMER_REAL_TIME_EVENT_TYPE_SUSPEND;
    ALSATIMER_REAL_TIME_EVENT_TYPE_RESUME; ALSATIMER_REAL_TIME_EVENT_TYPE_MSTART;
    ALSATIMER_REAL_TIME_EVENT_TYPE_MSTOP; ALSATIMER_REAL_TIME_EVENT_TYPE_MCONTINUE;
    ALSATIMER_REAL_TIME_EVENT_TYPE_MPAUSE; ALSATIMER_REAL_TIME_EVENT_TYPE_MSUSPEND;
    ALSATIMER_REAL_TIME_EVENT_TYPE_MRESUME
  ];
|}.

#[global] Instance ALSATimerRealTimeEventType_laws : GEnumLaws ALSATimerRealTimeEventType.
Proof. enumeration. Qed.

Inductive ALSATimerEventType :=
  | ALSATIMER_EVENT_TYPE_TICK_TIME
  | ALSATIMER_EVENT_TYPE_REAL_TIME.

#[global] Instance ALSATimerEventType_eq_dec : EqDecision ALSATimerEventType.
Proof. solve_decision. Defined.

#[global] Instance ALSATimerEventType_enum : GEnum ALSATimerEventType := {|
  value a :=
    match a with
    | ALSATIMER_EVENT_TYPE_TICK_TIME => 0
    | ALSATIMER_EVENT_TYPE_REAL_TIME => 1
    end;
  enumerators := [
    ALSATIMER_EVENT_TYPE_TICK_TIME; ALSATIMER_EVENT_TYPE_REAL_TIME
  ];
|}.

#[global] Instance ALSATimerEventType_laws : GEnumLaws ALSATimerEventType.
Proof. enumeration. Qed.

Inductive ALSATimerUserInstanceError :=
  | ALSATIMER_USER_INSTANCE_ERROR_FAILED
  | ALSATIMER_USER_INSTANCE_ERROR_TIMER_NOT_FOUND
  | ALSATIMER_USER_INSTANCE_ERROR_NOT_ATTACHED
  | ALSATIMER_USER_INSTANCE_ERROR_ATTACHED.

#[global] Instance ALSATimerUserInstanceError_eq_dec : EqDecision ALSATimerUserInstanceError.
Proof. solve_decision. Defined.

#[global] Instance ALSATimerUserInstanceError_enum : GEnum ALSATimerUserInstanceError := {|
  value a :=
    match a with
    | ALSATIMER_USER_INSTANCE_ERROR_FAILED => 0
    | ALSATIMER_USER_INSTANCE_ERROR_TIMER_NOT_FOUND => 1
    | ALSATIMER_USER_INSTANCE_ERROR_NOT_ATTACHED => 2
    | ALSATIMER_USER_INSTANCE_ERROR_ATTACHED => 3
    end;
  enumerators := [
    ALSATIMER_USER_INSTANCE_ERROR_FAILED; ALSATIMER_USER_INSTANCE_ERROR_TIMER_NOT_FOUND;
    ALSATIMER_USER_INSTANCE_ERROR_NOT_ATTACHED; ALSATIMER_USER_INSTANCE_ERROR_ATTACHED
  ];
|}.

#[global] Instance ALSATimerUserInstanceError_laws : GEnumLaws ALSATimerUserInstanceError.
Proof. enumeration. Qed.

End TimerEnums.

(** ** [rawmidi/alsarawmidi-enum-types.h] *)

Module RawmidiEnums.
Inductive ALSARawmidiStreamDirection :=
  | ALSARAWMIDI_STREAM_DIRECTION_OUTPUT
  | ALSARAWMIDI_STREAM_DIRECTION_INPUT.

#[global] Instance ALSARawmidiStreamDirection_eq_dec : EqDecision ALSARawmidiStreamDirection.
Proof. solve_decision. Defined.

#[global] Instance ALSARawmidiStreamDirection_enum : GEnum ALSARawmidiStreamDirection := {|
  value a :=
    match a with
    | ALSARAWMIDI_STREAM_DIRECTION_OUTPUT => 0
    | ALSARAWMIDI_STREAM_DIRECTION_INPUT => 1
    end;
  enumerators := [
    ALSARAWMIDI_STREAM_DIRECTION_OUTPUT; ALSARAWMIDI_STREAM_DIRECTION_INPUT
  ];
|}.

#[global] Instance ALSARawmidiStreamDirection_laws : GEnumLaws ALSARawmidiStreamDirection.
Proof. enumeration. Qed.

Inductive ALSARawmidiStreamPairInfoFlag :=
  | ALSARAWMIDI_STREAM_PAIR_INFO_FLAG_OUTPUT
  | ALSARAWMIDI_STREAM_PAIR_INFO_FLAG_INPUT
  | ALSARAWMIDI_STREAM_PAIR_INFO_FLAG_DUPLEX.

#[global] Instance ALSARawmidiStreamPairInfoFlag_eq_dec : EqDecision ALSARawmidiStreamPairInfoFlag.
Proof. solve_decision. Defined.

#[global] Instance ALSARawmidiStreamPairInfoFlag_enum : GEnum ALSARawmidiStreamPairInfoFlag := {|
  value a :=
    match a with
    | ALSARAWMIDI_STREAM_PAIR_INFO_FLAG_OUTPUT => 2 ^ 0
    | ALSARAWMIDI_STREAM_PAIR_INFO_FLAG_INPUT => 2 ^ 1
    | ALSARAWMIDI_STREAM_PAIR_INFO_FLAG_DUPLEX => 2 ^ 2
    end;
  enumerators := [
    ALSARAWMIDI_STREAM_PAIR_INFO_FLAG_OUTPUT; ALSARAWMIDI_STREAM_PAIR_INFO_FLAG_INPUT;
    ALSARAWMIDI_STREAM_PAIR_INFO_FLAG_DUPLEX
  ];
|}.

#[global] Instance ALSARawmidiStreamPairInfoFlag_laws : GEnumLaws ALSARawmidiStreamPairInfoFlag.
Proof. enumeration. Qed.

Inductive ALSARawmidiStreamPairError :=
  | ALSARAWMIDI_STREAM_PAIR_ERROR_FAILED
  | ALSARAWMIDI_STREAM_PAIR_ERROR_DISCONNECTED
  | ALSARAWMIDI_STREAM_PAIR_ERROR_UNREADABLE.

#[global] Instance ALSARawmidiStreamPairError_eq_dec : EqDecision ALSARawmidiStreamPairError.
Proof. solve_decision. Defined.

#[global] Instance ALSARawmidiStreamPairError_enum : GEnum ALSARawmidiStreamPairError := {|
  value a :=
    match a with
    | ALSARAWMIDI_STREAM_PAIR_ERROR_FAILED => 0
    | ALSARAWMIDI_STREAM_PAIR_ERROR_DISCONNECTED => 1
    | ALSARAWMIDI_STREAM_PAIR_ERROR_UNREADABLE => 2
    end;
  enumerators := [
    ALSARAWMIDI_STREAM_PAIR_ERROR_FAILED; ALSARAWMIDI_STREAM_PAIR_ERROR_DISCONNECTED;
    ALSARAWMIDI_STREAM_PAIR_ERROR_UNREADABLE
  ];
|}.

#[global] Instance ALSARawmidiStreamPairError_laws : GEnumLaws ALSARawmidiStreamPairError.
Proof. enumeration. Qed.

End RawmidiEnums.

(** ** [hwdep/alsahwdep-enum-types.h] *)

Module HwdepEnums.
Inductive ALSAHwdepIfaceType :=
  | ALSAHWDEP_IFACE_TYPE_OPL2
  | ALSAHWDEP_IFACE_TYPE_OPL3
  | ALSAHWDEP_IFACE_TYPE_OPL4
  | ALSAHWDEP_IFACE_TYPE_SB16CSP
  | ALSAHWDEP_IFACE_TYPE_EMU10K1
  | ALSAHWDEP_IFACE_TYPE_YSS225
  | ALSAHWDEP_IFACE_TYPE_ICS2115
  | ALSAHWDEP_IFACE_TYPE_SSCAPE
  | ALSAHWDEP_IFACE_TYPE_VX
  | ALSAHWDEP_IFACE_TYPE_MIXART
  | ALSAHWDEP_IFACE_TYPE_USX2Y
  | ALSAHWDEP_IFACE_TYPE_EMUX_WAVETABLE
  | ALSAHWDEP_IFACE_TYPE_BLUETOOTH
  | ALSAHWDEP_IFACE_TYPE_USX2Y_PCM
  | ALSAHWDEP_IFACE_TYPE_PCXHR
  | ALSAHWDEP_IFACE_TYPE_SB_RC
  | ALSAHWDEP_IFACE_TYPE_HDA
  | ALSAHWDEP_IFACE_TYPE_USB_STREAM
  | ALSAHWDEP_IFACE_TYPE_FW_DICE
  | ALSAHWDEP_IFACE_TYPE_FW_FIREWORKS
  | ALSAHWDEP_IFACE_TYPE_FW_BEBOB
  | ALSAHWDEP_IFACE_TYPE_FW_OXFW
  | ALSAHWDEP_IFACE_TYPE_FW_DIGI00X
  | ALSAHWDEP_IFACE_TYPE_FW_TASCAM
  | ALSAHWDEP_IFACE_TYPE_LINE6
  | ALSAHWDEP_IFACE_TYPE_FW_MOTU
  | ALSAHWDEP_IFACE_TYPE_FW_FIREFACE.

#[global] Instance ALSAHwdepIfaceType_eq_dec : EqDecision ALSAHwdepIfaceType.
Proof. solve_decision. Defined.

#[global] Instance ALSAHwdepIfaceType_enum : GEnum ALSAHwdepIfaceType := {|
  value a :=
    match a with
    | ALSAHWDEP_IFACE_TYPE_OPL2 => 0
    | ALSAHWDEP_IFACE_TYPE_OPL3 => 1
    | ALSAHWDEP_IFACE_TYPE_OPL4 => 2
    | ALSAHWDEP_IFACE_TYPE_SB16CSP => 3
    | ALSAHWDEP_IFACE_TYPE_EMU10K1 => 4
    | ALSAHWDEP_IFACE_TYPE_YSS225 => 5
    | ALSAHWDEP_IFACE_TYPE_ICS2115 => 6
    | ALSAHWDEP_IFACE_TYPE_SSCAPE => 7
    | ALSAHWDEP_IFACE_TYPE_VX => 8
    | ALSAHWDEP_IFACE_TYPE_MIXART => 9
    | ALSAHWDEP_IFACE_TYPE_USX2Y => 10
    | ALSAHWDEP_IFACE_TYPE_EMUX_WAVETABLE => 11
    | ALSAHWDEP_IFACE_TYPE_BLUETOOTH => 12
    | ALSAHWDEP_IFACE_TYPE_USX2Y_PCM => 13
    | ALSAHWDEP_IFACE_TYPE_PCXHR => 14
    | ALSAHWDEP_IFACE_TYPE_SB_RC => 15
    | ALSAHWDEP_IFACE_TYPE_HDA => 16
    | ALSAHWDEP_IFACE_TYPE_USB_STREAM => 17
    | ALSAHWDEP_IFACE_TYPE_FW_DICE => 18
    | ALSAHWDEP_IFACE_TYPE_FW_FIREWORKS => 19
    | ALSAHWDEP_IFACE_TYPE_FW_BEBOB => 20
    | ALSAHWDEP_IFACE_TYPE_FW_OXFW => 21
    | ALSAHWDEP_IFACE_TYPE_FW_DIGI00X => 22
    | ALSAHWDEP_IFACE_TYPE_FW_TASCAM => 23
    | ALSAHWDEP_IFACE_TYPE_LINE6 => 24
    | ALSAHWDEP_IFACE_TYPE_FW_MOTU => 25
    | ALSAHWDEP_IFACE_TYPE_FW_FIREFACE => 26
    end;
  enumerators := [
    ALSAHWDEP_IFACE_TYPE_OPL2; ALSAHWDEP_IFACE_TYPE_OPL3; ALSAHWDEP_IFACE_TYPE_OPL4;
    ALSAHWDEP_IFACE_TYPE_SB16CSP; ALSAHWDEP_IFACE_TYPE_EMU10K1; ALSAHWDEP_IFACE_TYPE_YSS225;
    ALSAHWDEP_IFACE_TYPE_ICS2115; ALSAHWDEP_IFACE_TYPE_SSCAPE; ALSAHWDEP_IFACE_TYPE_VX;
    ALSAHWDEP_IFACE_TYPE_MIXART; ALSAHWDEP_IFACE_TYPE_USX2Y; ALSAHWDEP_IFACE_TYPE_EMUX_WAVETABLE;
    ALSAHWDEP_IFACE_TYPE_BLUETOOTH; ALSAHWDEP_IFACE_TYPE_USX2Y_PCM; ALSAHWDEP_IFACE_TYPE_PCXHR;
    ALSAHWDEP_IFACE_TYPE_SB_RC; ALSAHWDEP_IFACE_TYPE_HDA; ALSAHWDEP_IFACE_TYPE_USB_STREAM;
    ALSAHWDEP_IFACE_TYPE_FW_DICE; ALSAHWDEP_IFACE_TYPE_FW_FIREWORKS;
    ALSAHWDEP_IFACE_TYPE_FW_BEBOB; ALSAHWDEP_IFACE_TYPE_FW_OXFW; ALSAHWDEP_IFACE_TYPE_FW_DIGI00X;
    ALSAHWDEP_IFACE_TYPE_FW_TASCAM; ALSAHWDEP_IFACE_TYPE_LINE6; ALSAHWDEP_IFACE_TYPE_FW_MOTU;
    ALSAHWDEP_IFACE_TYPE_FW_FIREFACE
  ];
|}.

#[global] Instance ALSAHwdepIfaceType_laws : GEnumLaws ALSAHwdepIfaceType.
Proof. enumeration. Qed.

Inductive ALSAHwdepDeviceCommonError :=
  | ALSAHWDEP_DEVICE_COMMON_ERROR_FAILED
  | ALSAHWDEP_DEVICE_COMMON_ERROR_IS_OPENED
  | ALSAHWDEP_DEVICE_COMMON_ERROR_IS_NOT_OPENED
  | ALSAHWDEP_DEVICE_COMMON_ERROR_IS_USED
  | ALSAHWDEP_DEVICE_COMMON_ERROR_IS_NOT_SUPPORTED
  | ALSAHWDEP_DEVICE_COMMON_ERROR_IS_DISCONNECTED.

#[global] Instance ALSAHwdepDeviceCommonError_eq_dec : EqDecision ALSAHwdepDeviceCommonError.
Proof. solve_decision. Defined.

#[global] Instance ALSAHwdepDeviceCommonError_enum : GEnum ALSAHwdepDeviceCommonError := {|
  value a :=
    match a with
    | ALSAHWDEP_DEVICE_COMMON_ERROR_FAILED => 1
    | ALSAHWDEP_DEVICE_COMMON_ERROR_IS_OPENED => 2
    | ALSAHWDEP_DEVICE_COMMON_ERROR_IS_NOT_OPENED => 3
    | ALSAHWDEP_DEVICE_COMMON_ERROR_IS_USED => 4
    | ALSAHWDEP_DEVICE_COMMON_ERROR_IS_NOT_SUPPORTED => 5
    | ALSAHWDEP_DEVICE_COMMON_ERROR_IS_DISCONNECTED => 6
    end;
  enumerators := [
    ALSAHWDEP_DEVICE_COMMON_ERROR_FAILED; ALSAHWDEP_DEVICE_COMMON_ERROR_IS_OPENED;
    ALSAHWDEP_DEVICE_COMMON_ERROR_IS_NOT_OPENED; ALSAHWDEP_DEVICE_COMMON_ERROR_IS_USED;
    ALSAHWDEP_DEVICE_COMMON_ERROR_IS_NOT_SUPPORTED;
    ALSAHWDEP_DEVICE_COMMON_ERROR_IS_DISCONNECTED
  ];
|}.

#[global] Instance ALSAHwdepDeviceCommonError_laws : GEnumLaws ALSAHwdepDeviceCommonError.
Proof. enumeration. Qed.

End HwdepEnums.

(** ** Numbers as enumerators and as sets of flags *)

Section enum.
Context {A : Type} `{GEnumLaws A}.
Implicit Types (a : A) (l : list A).

Definition enum_of (z : Z) : option A := List.find (λ a, value a =? z) enumerators.

(** The flags of [l] together, and the flags set in a number. *)
Definition mask (l : list A) : Z := fold_right (λ a m, Z.lor (value a) m) 0 l.
Definition flags_of (z : Z) : list A := List.filter (λ a, negb (Z.land z (value a) =? 0)) enumerators.

Lemma enum_of_value a : enum_of (value a) = Some a.
Proof.
  unfold enum_of. destruct (List.find _ _) as [b|] eqn:E.
  - apply List.find_some in E as [_ E]. apply Z.eqb_eq in E. f_equal. by apply (inj value).
  - pose proof (List.find_none _ _ E a) as Hn. cbv beta in Hn. rewrite Z.eqb_refl in Hn.
    discriminate Hn. apply list_elem_of_In, enumerators_all.
Qed.

(** Each flag is a bit of its own, below bit [n]. *)
Definition single_bits (n : Z) : bool :=
  forallb (λ a, (value a =? 2 ^ Z.log2 (value a)) && (0 <? value a) && (value a <? 2 ^ n)) enumerators.

Lemma single_bit n a :
  single_bits n = true → value a = 2 ^ Z.log2 (value a) ∧ 0 ≤ Z.log2 (value a) < n.
Proof.
  intros Hb. unfold single_bits in Hb. rewrite forallb_forall in Hb.
  specialize (Hb a ltac:(apply list_elem_of_In, enumerators_all)).
  apply andb_true_iff in Hb as [Hb H3]. apply andb_true_iff in Hb as [H1 H2].
  apply Z.eqb_eq in H1. apply Z.ltb_lt in H2, H3. split; [done|]. split; [apply Z.log2_nonneg|].
  by apply Z.log2_lt_pow2.
Qed.

Lemma land_flag n a z :
  single_bits n = true → negb (Z.land z (value a) =? 0) = Z.testbit z (Z.log2 (value a)).
Proof.
  intros Hb. destruct (single_bit n a Hb) as [E [Hl _]]. set (i := Z.log2 (value a)) in *. rewrite E.
  assert (Z.land z (2 ^ i) = if Z.testbit z i then 2 ^ i else 0) as ->.
  { apply Z.bits_inj'. intros j Hj. rewrite Z.land_spec, Z.pow2_bits_eqb by done.
    destruct (Z.eqb_spec i j) as [<-|Hne].
    - destruct (Z.testbit z i); [by rewrite Z.pow2_bits_true|by rewrite Z.testbit_0_l].
    - rewrite andb_false_r. destruct (Z.testbit z i); [|by rewrite Z.testbit_0_l].
      by rewrite Z.pow2_bits_false. }
  destruct (Z.testbit z i); [|done]. apply negb_true_iff, Z.eqb_neq.
  pose proof (Z.pow_pos_nonneg 2 i). lia.
Qed.

Lemma testbit_mask n a l :
  single_bits n = true → Z.testbit (mask l) (Z.log2 (value a)) = bool_decide (a ∈ l).
Proof.
  intros Hb. destruct (single_bit n a Hb) as [E [Hl _]]. induction l as [|b l IH].
  { rewrite bool_decide_false; [apply Z.testbit_0_l|]. set_solver. }
  cbn [mask fold_right]. rewrite Z.lor_spec. fold (mask l). rewrite IH.
  destruct (single_bit n b Hb) as [Eb [Hlb _]]. rewrite Eb, Z.pow2_bits_eqb by done.
  destruct (Z.eqb_spec (Z.log2 (value b)) (Z.log2 (value a))) as [Eq|Hne].
  - assert (b = a) as -> by (apply (inj value); congruence). rewrite (bool_decide_true (a ∈ a :: l)); [done|set_solver].
  - apply bool_decide_ext. split; [set_solver|]. intros [->|Hin]%elem_of_cons; [done|done].
Qed.

Lemma mask_range n l : single_bits n = true → 0 ≤ n → 0 ≤ mask l < 2 ^ n.
Proof.
  intros Hb Hn. induction l as [|a l IH]; cbn [mask fold_right].
  { pose proof (Z.pow_pos_nonneg 2 n). lia. }
  fold (mask l). destruct (single_bit n a Hb) as [E [Hl Hlt]].
  pose proof (Z.pow_lt_mono_r 2 (Z.log2 (value a)) n). pose proof (Z.pow_pos_nonneg 2 (Z.log2 (value a))).
  destruct (decide (Z.lor (value a) (mask l) = 0)) as [->|Hz].
  { pose proof (Z.pow_pos_nonneg 2 n). lia. }
  assert (0 ≤ Z.lor (value a) (mask l)) as Hnn by (apply Z.lor_nonneg; lia).
  split; [done|]. apply Z.log2_lt_pow2; [lia|]. rewrite Z.log2_lor by lia.
  apply Z.max_lub_lt; [done|]. destruct (decide (mask l = 0)) as [->|]; [simpl; lia|].
  apply Z.log2_lt_pow2; lia.
Qed.

Lemma flags_of_mask n a l : single_bits n = true → a ∈ flags_of (mask l) ↔ a ∈ l.
Proof.
  intros Hb. unfold flags_of. rewrite list_elem_of_In, filter_In.
  rewrite (land_flag n), (testbit_mask n) by done. rewrite bool_decide_eq_true.
  split; [by intros [_ ?]|]. intros Ha. split; [|done]. apply list_elem_of_In, enumerators_all.
Qed.

(** All numbers of the enumeration are in the range of a field. *)
Definition values_fit (f : field) : bool :=
  forallb (λ a, if f_signed f
                then (- 2 ^ (f_bits f - 1) <=? value a) && (value a <? 2 ^ (f_bits f - 1))
                else (0 <=? value a) && (value a <? 2 ^ f_bits f)) enumerators.

Lemma values_fit_range f a : values_fit f = true → f_range f (value a).
Proof.
  intros Hf. unfold values_fit in Hf. rewrite forallb_forall in Hf.
  specialize (Hf a ltac:(apply list_elem_of_In, enumerators_all)). unfold f_range.
  destruct (f_signed f); apply andb_true_iff in Hf as [H1 H2];
    apply Z.leb_le in H1; apply Z.ltb_lt in H2; done.
Qed.
End enum.

(** ** Where the structures hold them *)

(** A field of a structure of [ef_size] bytes, and whether it holds one
    enumerator or a set of flags. *)
Record enum_field := EnumField {
  ef_type : Type;
  ef_eq_dec : EqDecision ef_type;
  ef_enum : GEnum ef_type;
  ef_laws : GEnumLaws ef_type;
  ef_field : field;
  ef_size : Z;
  ef_flags : bool;
}.
#[export] Existing Instance ef_eq_dec.
#[export] Existing Instance ef_enum.
#[export] Existing Instance ef_laws.

Definition holds (A : Type) `{GEnumLaws A} (f : field) (size : Z) (flags : bool) : enum_field :=
  EnumField A _ _ _ f size flags.

Definition enum_fields : list enum_field := [
  holds SeqEnums.ALSASeqClientType ci_type sizeof_client_info false;
  holds SeqEnums.ALSASeqFilterAttrFlag ci_filter sizeof_client_info true;
  holds SeqEnums.ALSASeqPortCapFlag pi_capability sizeof_port_info true;
  holds SeqEnums.ALSASeqPortAttrFlag pi_type sizeof_port_info true;
  holds SeqEnums.ALSASeqRemoveFilterFlag rm_remove_mode sizeof_remove_events true;
  holds SeqEnums.ALSASeqEventType rm_type sizeof_remove_events false;
  holds SeqEnums.ALSASeqSpecificQueueId rm_queue sizeof_remove_events false;
  holds SeqEnums.ALSASeqSpecificPortId pi_addr_port sizeof_port_info false;
  holds SeqEnums.ALSASeqSpecificAddress pi_addr_client sizeof_port_info false;
  holds SeqEnums.ALSASeqSpecificClientId pi_addr_client sizeof_port_info false;
  holds SeqEnums.ALSASeqQueueTimerType tm_type sizeof_queue_timer false;
  holds SeqEnums.ALSASeqQuerySubscribeType q_type sizeof_query_subs false;
  holds CtlEnums.ALSACtlElemType ei_type sizeof_elem_info false;
  holds CtlEnums.ALSACtlElemIfaceType id_iface sizeof_elem_id false;
  holds CtlEnums.ALSACtlElemAccessFlag ei_access sizeof_elem_info true;
  holds CtlEnums.ALSACtlEventType CtlStructs.ev_type sizeof_ctl_event false;
  holds CtlEnums.ALSACtlElemEventMask ev_mask sizeof_ctl_event true;
  holds TimerEnums.ALSATimerClass tid_class sizeof_timer_id false;
  holds TimerEnums.ALSATimerDeviceInfoFlag tgi_flags sizeof_timer_ginfo true;
  holds TimerEnums.ALSATimerInstanceParamFlag tp_flags sizeof_timer_params true;
  holds TimerEnums.ALSATimerRealTimeEventType tt_event sizeof_timer_tread false;
  holds RawmidiEnums.ALSARawmidiStreamDirection ri_stream sizeof_rawmidi_info false;
  holds RawmidiEnums.ALSARawmidiStreamPairInfoFlag ri_flags sizeof_rawmidi_info true;
  holds HwdepEnums.ALSAHwdepIfaceType hi_iface sizeof_hwdep_info false
].

Definition field_keeps (e : enum_field) : bool :=
  f_in (ef_field e) (Z.to_nat (ef_size e)) && values_fit (A := ef_type e) (ef_field e) &&
  (if ef_flags e
   then negb (f_signed (ef_field e)) && single_bits (A := ef_type e) (f_bits (ef_field e))
   else true).

Lemma enum_fields_keep : Forall (λ e, field_keeps e = true) enum_fields.
Proof. repeat constructor; by vm_compute. Qed.

(** ** The numbers *)

Definition values (A : Type) `{GEnum A} : list Z := map value (enumerators (A := A)).

(** [n] numbers from [a] on, and the flags of bits. *)
Definition from (a : Z) (n : nat) : list Z := map (λ i, a + Z.of_nat i) (seq 0 n).
Definition flags (bits : list Z) : list Z := map (λ i, 2 ^ i) bits.

(** Enumerations that are counted have the numbers from 0 on; the others have
    those of the interface of the kernel, in runs. *)
Theorem enumerators_numbered :
  values SeqEnums.ALSASeqSpecificAddress = from 253 3 ∧
  values SeqEnums.ALSASeqSpecificClientId = 0 :: from 14 2 ∧
  values SeqEnums.ALSASeqClientType = from 0 3 ∧
  values SeqEnums.ALSASeqFilterAttrFlag = flags (from 0 3) ∧
  values SeqEnums.ALSASeqSpecificPortId = from 0 2 ∧
  values SeqEnums.ALSASeqPortCapFlag = flags (from 0 2 ++ from 4 4) ∧
  values SeqEnums.ALSASeqPortAttrFlag = flags (from 0 7 ++ from 16 5) ∧
  values SeqEnums.ALSASeqEventType =
    from 0 2 ++ from 5 4 ++ from 10 7 ++ from 20 5 ++ from 30 9 ++ from 40 3 ++ from 50 2 ++
    from 60 8 ++ from 90 10 ++ from 130 2 ++ from 135 5 ++ [255] ∧
  values SeqEnums.ALSASeqEventTstampMode = [0; SNDRV_SEQ_TIME_STAMP_REAL] ∧
  values SeqEnums.ALSASeqEventTimeMode = [0; SNDRV_SEQ_TIME_MODE_REL] ∧
  values SeqEnums.ALSASeqEventLengthMode =
    [SNDRV_SEQ_EVENT_LENGTH_FIXED; SNDRV_SEQ_EVENT_LENGTH_VARIABLE; SNDRV_SEQ_EVENT_LENGTH_VARUSR] ∧
  values SeqEnums.ALSASeqEventPriorityMode = [SNDRV_SEQ_PRIORITY_NORMAL; SNDRV_SEQ_PRIORITY_HIGH] ∧
  values SeqEnums.ALSASeqSpecificQueueId = [SNDRV_SEQ_QUEUE_DIRECT] ∧
  values SeqEnums.ALSASeqQuerySubscribeType = from 0 2 ∧
  values SeqEnums.ALSASeqQueueTimerType = [SNDRV_SEQ_TIMER_ALSA] ∧
  values SeqEnums.ALSASeqRemoveFilterFlag = flags (from 0 10) ∧
  values SeqEnums.ALSASeqUserClientError = from 0 4 ∧
  values SeqEnums.ALSASeqEventError = from 0 4 ∧
  values CtlEnums.ALSACtlElemType = from 0 7 ∧
  values CtlEnums.ALSACtlElemIfaceType = from 0 7 ∧
  values CtlEnums.ALSACtlElemAccessFlag = flags (from 0 3 ++ from 4 3 ++ from 8 3 ++ from 28 2) ∧
  values CtlEnums.ALSACtlEventType = [0] ∧
  values CtlEnums.ALSACtlElemEventMask = flags (from 0 5) ∧
  values CtlEnums.ALSACtlCardError = from 0 6 ∧
  values TimerEnums.ALSATimerClass = -1 :: from 1 3 ∧
  values TimerEnums.ALSATimerSlaveClass = from 0 3 ∧
  values TimerEnums.ALSATimerSpecificGlobalDevice = [0; 3] ∧
  values TimerEnums.ALSATimerDeviceInfoFlag = flags (from 0 1) ∧
  values TimerEnums.ALSATimerInstanceParamFlag = flags (from 0 3) ∧
  values TimerEnums.ALSATimerRealTimeEventType = from 0 9 ++ from 12 4 ++ from 17 2 ∧
  values TimerEnums.ALSATimerEventType = from 0 2 ∧
  values TimerEnums.ALSATimerUserInstanceError = from 0 4 ∧
  values RawmidiEnums.ALSARawmidiStreamDirection = from 0 2 ∧
  values RawmidiEnums.ALSARawmidiStreamPairInfoFlag = flags (from 0 3) ∧
  values RawmidiEnums.ALSARawmidiStreamPairError = from 0 3 ∧
  values HwdepEnums.ALSAHwdepIfaceType = from 0 27 ∧
  values HwdepEnums.ALSAHwdepDeviceCommonError = from 1 6.
Proof. by vm_compute. Qed.

(** Enumerations and flags survive the structures: in each field that
    holds an enumeration, each enumerator that is written is read back, and in
    each field that holds flags, exactly the flags of a set that is written are
    found. *)
Theorem enumerations_kept e s :
  e ∈ enum_fields → length s = Z.to_nat (ef_size e) →
  let f := ef_field e in
  (∀ a : ef_type e, enum_of (fget f (fput f (value a) s)) = Some a) ∧
  (ef_flags e = true → ∀ (l : list (ef_type e)) a,
     a ∈ flags_of (fget f (fput f (mask l) s)) ↔ a ∈ l).
Proof.
  intros He Hs f. pose proof (proj1 (Forall_forall _ _) enum_fields_keep e He) as Hk.
  cbv beta in Hk. unfold field_keeps in Hk. fold f in Hk.
  apply andb_true_iff in Hk as [Hk Hf]. apply andb_true_iff in Hk as [Hin Hfit].
  rewrite <- Hs in Hin. split.
  - intros a. rewrite fget_fput_id by (done || by apply values_fit_range). apply enum_of_value.
  - intros Ht l a. rewrite Ht in Hf. apply andb_true_iff in Hf as [Hu Hb].
    rewrite fget_fput_id; [by apply (flags_of_mask (f_bits f))|done|].
    unfold f_range. apply negb_true_iff in Hu. rewrite Hu. apply mask_range; [done|].
    unfold f_bits. lia.
Qed.

Lemma enumerations_kept_witness :
  flags_of (fget pi_capability (fput pi_capability
    (mask [SeqEnums.ALSASEQ_PORT_CAP_FLAG_WRITE; SeqEnums.ALSASEQ_PORT_CAP_FLAG_READ])
    (zeroed sizeof_port_info))) =
    [SeqEnums.ALSASEQ_PORT_CAP_FLAG_READ; SeqEnums.ALSASEQ_PORT_CAP_FLAG_WRITE] ∧
  enum_of (fget tid_class (fput tid_class (value TimerEnums.ALSATIMER_CLASS_NONE) (zeroed sizeof_timer_id))) =
    Some TimerEnums.ALSATIMER_CLASS_NONE.
Proof.
  split; [by vm_compute|].
  apply (proj1 (enumerations_kept (holds TimerEnums.ALSATimerClass tid_class sizeof_timer_id false)
    (zeroed sizeof_timer_id) ltac:(repeat (apply list_elem_of_here || apply list_elem_of_further))
    ltac:(by vm_compute))).
Defined.

(** The constants the components use are enumerators. *)
Example constants_are_enumerators :
  value SeqEnums.ALSASEQ_EVENT_TYPE_NOTE = ALSASEQ_EVENT_TYPE_NOTE ∧
  value SeqEnums.ALSASEQ_EVENT_TSTAMP_MODE_REAL = ALSASEQ_EVENT_TSTAMP_MODE_REAL ∧
  value SeqEnums.ALSASEQ_EVENT_ERROR_INVALID_TSTAMP_MODE = ALSASEQ_EVENT_ERROR_INVALID_TSTAMP_MODE ∧
  value SeqEnums.ALSASEQ_USER_CLIENT_ERROR_EVENT_UNDELIVERABLE =
    ALSASEQ_USER_CLIENT_ERROR_EVENT_UNDELIVERABLE ∧
  value CtlEnums.ALSACTL_CARD_ERROR_ELEM_EXIST = ALSACTL_CARD_ERROR_ELEM_EXIST ∧
  value CtlEnums.ALSACTL_ELEM_EVENT_MASK_REMOVE = ALSACTL_ELEM_EVENT_MASK_REMOVE ∧
  value TimerEnums.ALSATIMER_EVENT_TYPE_REAL_TIME = ALSATIMER_EVENT_TYPE_REAL_TIME ∧
  value TimerEnums.ALSATIMER_USER_INSTANCE_ERROR_ATTACHED = ALSATIMER_USER_INSTANCE_ERROR_ATTACHED ∧
  value RawmidiEnums.ALSARAWMIDI_STREAM_PAIR_ERROR_UNREADABLE = ALSARAWMIDI_STREAM_PAIR_ERROR_UNREADABLE ∧
  value HwdepEnums.ALSAHWDEP_DEVICE_COMMON_ERROR_IS_DISCONNECTED =
    ALSAHWDEP_DEVICE_COMMON_ERROR_IS_DISCONNECTED.
Proof. by vm_compute. Qed.
